(* ===== verification/_CoqProject ===== *)
-Q . S2P
Prelude.v
PyStr.v
Hashing.v
Base64.v
Json.v
Config.v
Tokens.v
Models.v
Permissions.v
World.v
Uuid.v
Sample.v
Orm.v
Isolation.v
AuthService.v
Slug.v
Deps.v
Edge.v
Journal.v
Frame.v
Http.v
Directory.v
AuthRouter.v
Dates.v
Iso.v
Pricing.v
Policy.v
OAuth.v
Providers.v
Throttle.v
Rely.v
ConnectorTokens.v
JournalRouter.v
Mailer.v
DirectoryRouter.v
ConnectorRouter.v
Webhooks.v
Subscriptions.v
Stable.v
Mail.v
Calendar.v
ConnectorTasks.v
Contract.v
Automation.v
ConnectorSystem.v
Provisioning.v
Cli.v
Ddl.v
Schema.v
Migrations.v
Process.v
Globals.v
Quota.v
Gateway.v
SampleDigest.v
Usage.v
Worker.v
Startup.v
Application.v
Within.v
WithinTasks.v
Unique.v
Sealed.v
Sends.v
System.v
