(* ===== verification/Prelude.v ===== *)
(** * The API of the SaaS platform, in Rocq

    The program ([src/apps/api]) is a multi-tenant platform: a FastAPI application
    over PostgreSQL (SQLAlchemy) and Valkey, a Celery worker with its schedule, and a
    command line. Tenants share one database: rows of the tables called scoped carry
    a [tenant_id], and guards on every session keep a request inside its tenant. On
    that base stand authentication (passwords, second factor, OAuth login), roles and
    permissions, a directory (members, invitations, teams), an audit journal, an AI
    gateway with policies, quotas and metering, connectors to Google and Microsoft
    accounts (tokens, webhooks, mail, calendar), and business modules that plug into
    all of these through a contract.

    The development is a shallow embedding: a handler, task or command is a program
    of the monad [M] of [World], which reads and changes a [World] (committed tables,
    pending writes of each session, clock, random source, tenant context, permission
    registry, Valkey, caches, effects sent out) and returns a value or raises one of
    the exceptions [exn]. Definitions keep the names of the source; a definition that
    is a part of a function of the source says which.

    ** Files, and the code they model

    Base
    - [Prelude]: results and exceptions, lists of rows ([rows_where], [update_where],
      [unique_by]), tactics, hint databases;
    - [PyStr], [Hashing], [Base64], [Json], [Uuid], [Dates], [Iso]: what the code uses
      of Python's [str], [hashlib]/[hmac], [base64]/[secrets], [json], [uuid] and
      [datetime], executable, with their round trips;
    - [World]: the world and the monad; [Models]: the mapped classes ([*/models.py],
      [*/tenant_models.py]) as records and the tables as [table]; [Sample]: a small
      deployment on which the witnesses are evaluated.

    Core
    - [Config]: [core/config.py], [core/crypto.py]; [Tokens]: [auth/tokens.py];
      [Permissions]: [auth/permissions.py];
    - [Orm]: [tenancy/context.py], [tenancy/tenant_base.py], [tenancy/session.py],
      [core/db.py], i.e. sessions and their guards; [Isolation]: what the guards give;
    - [Slug], [Deps]: [tenancy/models.py], [tenancy/deps.py], [auth/deps.py];
      [Edge]: [core/csrf.py] (Module [Csrf]), [auth/rate_limit.py] (Module
      [RateLimit]); [Http]: the requests the code sends;
    - [AuthService], [AuthRouter], [OAuth]: [auth/service.py], [auth/router.py],
      [auth/tasks.py], [auth/oauth.py];
    - [Journal], [JournalRouter]: [audit/service.py], [audit/router.py];
    - [Directory], [DirectoryRouter]: [directory/service.py], [directory/router.py];
    - [Provisioning], [Cli]: [tenancy/provisioning.py], [cli.py];
    - [Ddl], [Schema]: [migrations/versions/0001_baseline.py] and the schema the
      mapped classes declare; [Migrations]: [core/migrations.py], [migrations/env.py]
      and [saas db upgrade];
    - [Mailer]: [core/mailer.py];
    - [Process]: what a process keeps from one event loop to the next ([core/db.py],
      the Valkey clients, [run_async] of [cli.py] and the tasks' wrappers); [Globals]:
      the values computed once and kept in module globals ([get_settings],
      [get_key_provider], [connectors/registry.py], [get_gateway]), and that reading
      them is reading the constants of the other files;
    - [Application]: [main.py], [core/logging.py], [health/router.py]; [Worker]:
      [worker.py]; [Startup]: how the two start.

    AI: [Pricing], [Policy], [Quota], [Gateway] ([ai/gateway.py], [ai/metering.py],
    [ai/router.py]), [Usage] ([ai/tasks.py]).

    Connectors: [Providers] ([connectors/registry.py], [capabilities.py] and the
    manifests), [Throttle], [ConnectorTokens] ([service.py], [client_base.py]),
    [ConnectorRouter] ([oauth.py], [router.py]), [Webhooks], [Subscriptions],
    [ConnectorTasks] ([tasks.py]), [Mail] and [Calendar] ([providers/*/mail.py],
    [providers/*/calendar.py]).

    Modules: [Contract] ([automation/contract.py], [registry.py]), [Automation]
    ([service.py], [scheduler.py], [mounting.py]), [SampleDigest]
    ([modules/sample_digest/]).

    Program logics, each a predicate on programs with a rule per construct and a
    tactic that follows the code: [Frame] (which tables are written), [Within] and
    [WithinTasks] (which tables change, the journal growing, the others doing what
    they may), [Unique] (the uniqueness constraints), [Stable] (what is left alone),
    [Rely] (row invariants while other processes run; applied to the connectors in
    [ConnectorSystem], to the modules in [Sealed]), [Sends] (what is sent out).
    [System] puts the operations, commands and tasks together as a step relation.

    ** How the parts interact

    [create_app] of [Application] puts the operation of a request behind the request
    id and, in front, the origin check. A handler is a dependency of [Deps] applied
    to the rest of the request: [tenant_route permission rq h] is the caller's
    session, the tenant of the host, the membership, the permission, then [h] in a
    tenant session. Services take the session of their caller and leave the commit
    to it. A message for a worker is the effect [TaskPublished]; [Worker.celery_task]
    says what performing it does; the entries of [Worker.beat_schedule] are messages
    too. Modules reach the core through their manifest only: [Automation] mounts
    their routes behind [require_module_enabled], registers their permissions and
    handlers, and runs their periodic tasks.

    ** What the theorems show

    - isolation: [Isolation.tenant_reads_isolated], [tenant_writes_isolated],
      [Orm.no_context_no_access];
    - access: [Deps.access_is_sound], [Deps.tenant_route_decides] (the chain of
      dependencies refines the decision [access] on the committed tables),
      [Application.every_operation_is_guarded] (every operation of the API is on the
      closed list of anonymous ones or behind such a decision);
    - the whole system, over all operations, commands and tasks:
      [System.owner_always_remains], [System.memberships_change_by_rule],
      [System.constraints_always_hold], [System.journal_is_append_only],
      [System.messages_have_their_task];
      [DirectoryRouter.mutations_are_audited];
    - authentication: [AuthService.session_refinement] (sessions refine an abstract
      set of live sessions), [second_factor_no_replay], [AuthRouter.login_decides],
      [login_totp_decides], [OAuth.oauth_callback_decides],
      [Edge.RateLimit.rate_limit_bound];
    - the journal page by page: [JournalRouter.browsing_is_complete];
    - AI: [Gateway.calls_are_governed], [chat_outcome], [Usage.rollup_exact],
      [usage_is_never_lost];
    - connectors: [System.tokens_are_sealed],
      [ConnectorTokens.refresh_outcomes], [ConnectorRouter.connector_callback_decides],
      [revoke_cuts_everything], [Webhooks.webhooks_are_authenticated],
      [ConnectorTasks.events_are_delivered], [Throttle.lock_excludes],
      [Throttle.backoff_is_bounded], [Mail.graph_listing_terminates],
      [Calendar.created_event_comes_back];
    - modules and scheduling: [Contract.validation_is_exact],
      [Automation.runtime_registers_exactly], [Startup.api_and_worker_agree],
      [Automation.activation_is_recent],
      [disabling_closes_the_module], [Worker.periodic_tasks_reach_their_tenants],
      [SampleDigest.digest_is_faithful];
    - tenants and schema: [Cli.deleted_tenant_is_unreachable],
      [Migrations.db_upgrade_decides], [Schema.conflicts_follow_schema];
    - the process: [Process.connections_stay_on_their_loop],
      [Globals.globals_read_as_constants].
    Beside these, each file keeps the theorems on its own operations and examples of
    behaviour the code does not intend (the lock that is outlived, the release that
    is not atomic, two owners who demote each other at once, ...).

    ** Bounds and fuel

    The JSON parser has fuel [length + 1], which [Json.loads_dumps] shows to be
    enough for what [dumps] writes. [Contract.walk] has the number of nodes of its
    trees, enough by [walk_spec]. The loops over pages of [Mail], [Calendar] and
    [SampleDigest] get the number of pages they may still read and answer [None] when
    it runs out; [graph_listing_terminates] gives the number that is enough when no
    page is empty. [JournalRouter.browse] is the client's loop over pages;
    [browsing_is_complete] bounds its length. Retries and waits for a lock are the
    bounded loops of the code (5 attempts, 20 tries). [Usage.usage_is_never_lost]
    asks for two days of retention of raw events at least.

    ** Interfaces

    Code that is not in the repository is a type class whose laws are its documented
    behaviour: AES-GCM, argon2, pyotp, Valkey (commands on one key, with expiry),
    SMTP, HTTP (a function of the request, the instant and the number of effects so
    far), JOSE, LiteLLM, the Gmail and Calendar clients, Python's [email] package, the
    forms of [fromisoformat] beyond the one [isoformat] writes, float literals, the
    machine's time zone. The other processes are the class [Others]: what they do to
    the committed tables and to Valkey while a program sleeps. PostgreSQL's DDL and
    Alembic's operations are the functions of [Ddl], as documented, and its runner a class of [Migrations]. [Sample] and the
    ends of the files give instances for the witnesses.

    ** Modelling choices

    - Requests run one after the other; a program is interrupted only where it
      sleeps. Concurrency is modelled where the code deals with it: locks
      ([Throttle]), sleeping ([Others]), a process that sees another's writes late
      ([Automation.activation_is_recent]).
    - A session sees the committed tables with its own writes applied; [commit]
      applies them. An object is checked for uniqueness when it is added, not at the
      flush; there is no identity map; after an [IntegrityError] the code goes on as
      the source does. Foreign keys are not checked, but the deletion of a team
      removes its members as the database does.
    - The clock stands still during an operation, except where it sleeps.
    - Text is made of code points below 256 and the database orders it by them.
      UUIDs and integers are unbounded numbers, identifiers being below 2^128 where
      a theorem says so; widths of columns are those of [Schema.stored_text_fits].
      Instants are microseconds; the limits of [datetime] are not modelled.
    - FastAPI's validation of the request comes before the operation: an operation
      has the parameters it has read. Column bookkeeping ([updated_at]) is left out
      where nothing reads it. Logs are not modelled.

    ** Not modelled

    The output of the logs, the settings of Celery and of the engines; the bytes of a
    mail; offline migrations (the code refuses them); the parsing of command lines;
    cancellation of a request in flight; FastAPI's documentation routes; the injection
    points of the tests, but those of [Globals].

    ** What is left

    Transactions that interleave: two operations at once, each with work pending on
    the same table, which the database serialises or refuses at the flush. It would
    take a model of PostgreSQL's locks and isolation levels, which the code leaves to
    the database; [Directory.concurrent_demotions_leave_no_owner] is what two of them
    can do when it does not. *)

From stdpp Require Export base tactics list gmap strings.
From Stdlib Require Export ZArith Lia Bool.
#[export] Set Default Goal Selector "!".
#[global] Open Scope Z_scope.

(** ** Results: a Python call returns a value or raises. *)

(** The exceptions the application code raises or lets through, with the data
    its handlers inspect. Messages are the source's literals; they are compared
    but never parsed. *)
Inductive exn :=
  | HTTPException (status_code : Z) (detail : string)
  | ValueError (msg : string)
  | CryptoError (msg : string)
  | InvalidSignedPayloadError (msg : string)
  | TenantContextError (msg : string)
  | ProvisioningError (msg : string)
  | DirectoryError (msg : string)
  | AuthError (msg : string)
  | OAuthLoginError (msg : string)
  | PolicyError (msg : string)
  | GatewayError (msg : string)
  | ProviderUnavailable (msg : string)
  | ModuleError (msg : string)
  | ModuleRegistryError (msg : string)
  | TypeError
  | AttributeError
  | KeyError
  | AssertionError
  | IntegrityError
  | ResponseError (msg : string)
  | NoResultFound
  | InvalidRequestError
  | OverflowError
  | SMTPException
  | HTTPError (kind : string)
  | JoseError
  | ConnectorError (msg : string)
  | InvalidGrantError (msg : string)
  | MissingRefreshTokenError (msg : string)
  | ConnectorOAuthError (msg : string)
  | ConnectorCallError (msg : string)
  | ConnectorUnavailable (msg : string)
  | ProviderResponseError (status_code : Z) (retry_after : option Z)
  | UnknownProviderError (msg : string)
  | UnsupportedCapabilityError (msg : string)
  | CapabilityError (msg : string)
  | SampleDigestError (msg : string).

#[export] Instance exn_eq_dec : EqDecision exn.
Proof. solve_decision. Defined.

Inductive result (A : Type) :=
  | Ok (a : A)
  | Raise (e : exn).
Arguments Ok {A} a.
Arguments Raise {A} e.

Lemma Ok_inj {A} (a b : A) : Ok a = Ok b -> a = b.
Proof. congruence. Qed.

Definition result_map {A B} (f : A -> B) (r : result A) : result B :=
  match r with Ok a => Ok (f a) | Raise e => Raise e end.

Definition result_bind {A B} (r : result A) (k : A -> result B) : result B :=
  match r with Ok a => k a | Raise e => Raise e end.

(** Sequencing of fallible pure code; [raise_if c e] is a guard of the source
    that raises [e] when [c] holds. *)
Declare Scope code_scope.
Delimit Scope code_scope with code.
Notation "'let!' x := r 'in' k" := (result_bind r (fun x => k))
  (at level 10, x pattern, r at level 200, k at level 200) : code_scope.
Notation "'raise_if!' c e 'in' k" := (if c then Raise e else k)
  (at level 10, c at level 9, e at level 9, k at level 200) : code_scope.
#[global] Open Scope code_scope.

(** [[f(a) for a in l]], up to the first that raises. *)
Fixpoint map_result {A B} (f : A -> result B) (l : list A) : result (list B) :=
  match l with
  | [] => Ok []
  | a :: l' => let! b := f a in let! bs := map_result f l' in Ok (b :: bs)
  end.
Lemma map_result_length {A B} (f : A -> result B) l l' : map_result f l = Ok l' -> length l' = length l.
Proof.
  revert l'. induction l as [|a l IH]; simpl; intros l'; [by intros [= <-] |]. destruct (f a); [| done].
  destruct (map_result f l); [| done]. intros [= <-]. simpl. by rewrite (IH _ eq_refl).
Qed.

(** ** Lists of rows: the shapes of WHERE, UPDATE and DELETE. *)

Definition first_where {A} (p : A -> bool) (l : list A) : option A := List.find p l.
Definition rows_where {A} (p : A -> bool) (l : list A) : list A := List.filter p l.
Definition update_where {A} (p : A -> bool) (f : A -> A) (l : list A) : list A :=
  List.map (fun r => if p r then f r else r) l.
Definition delete_where {A} (p : A -> bool) (l : list A) : list A :=
  List.filter (fun r => negb (p r)) l.
Definition count_where {A} (p : A -> bool) (l : list A) : nat := length (rows_where p l).

Section rows.
Context {A : Type}.
Implicit Types (p q : A -> bool) (f : A -> A) (l : list A).

Lemma first_where_Some p l x : first_where p l = Some x -> In x l /\ p x = true.
Proof. apply List.find_some. Qed.

Lemma first_where_None p l : first_where p l = None <-> (forall x, In x l -> p x = false).
Proof.
  split; [apply List.find_none |].
  intros H. destruct (first_where p l) as [x|] eqn:E; [| done].
  apply first_where_Some in E as [Hin Hp]. rewrite (H _ Hin) in Hp. done.
Qed.

Lemma first_where_app p l1 l2 :
  first_where p (l1 ++ l2) =
  match first_where p l1 with Some x => Some x | None => first_where p l2 end.
Proof. induction l1 as [|a l1 IH]; simpl; [done |]. unfold first_where in *. simpl. by destruct (p a). Qed.

Lemma first_where_ext p q l :
  (forall x, In x l -> p x = q x) -> first_where p l = first_where q l.
Proof.
  induction l as [|a l IH]; intros H; [done |]. unfold first_where in *; simpl.
  rewrite (H a) by (left; done). destruct (q a); [done |]. apply IH. intros x Hx. apply H. by right.
Qed.

Lemma first_where_filter p q l :
  first_where p (rows_where q l) = first_where (fun x => q x && p x) l.
Proof.
  induction l as [|a l IH]; [done |]. unfold first_where, rows_where in *; simpl.
  destruct (q a); simpl; [by rewrite IH; destruct (p a) | done].
Qed.

Lemma in_rows_where p l x : In x (rows_where p l) <-> In x l /\ p x = true.
Proof. apply List.filter_In. Qed.

Lemma rows_where_app p l1 l2 : rows_where p (l1 ++ l2) = rows_where p l1 ++ rows_where p l2.
Proof. apply List.filter_app. Qed.

Lemma rows_where_ext p q l :
  (forall x, In x l -> p x = q x) -> rows_where p l = rows_where q l.
Proof. apply List.filter_ext_in. Qed.

Lemma rows_where_nil p l : rows_where p l = [] <-> (forall x, In x l -> p x = false).
Proof.
  split.
  - intros H x Hx. destruct (p x) eqn:E; [| done].
    assert (Hin : In x (rows_where p l)) by (apply in_rows_where; done). by rewrite H in Hin.
  - intros H. induction l as [|a l IH]; [done |]. unfold rows_where; simpl.
    rewrite (H a) by (left; done). apply IH. intros x Hx. apply H. by right.
Qed.

Lemma count_where_app p l1 l2 : count_where p (l1 ++ l2) = (count_where p l1 + count_where p l2)%nat.
Proof. unfold count_where. by rewrite rows_where_app, List.length_app. Qed.

Lemma in_update_where p f l x :
  In x (update_where p f l) <-> exists y, In y l /\ x = (if p y then f y else y).
Proof.
  unfold update_where. rewrite List.in_map_iff. split.
  - intros (y & <- & H). eauto.
  - intros (y & H & ->). eauto.
Qed.

Lemma first_where_update p q f l :
  (forall x, p x = true -> q (f x) = q x) ->
  first_where q (update_where p f l) =
  (fun x => if p x then f x else x) <$> first_where q l.
Proof.
  intros Hq. induction l as [|a l IH]; [done |]. unfold first_where, update_where in *; simpl.
  destruct (p a) eqn:Ep.
  - rewrite (Hq _ Ep). destruct (q a); simpl; [by rewrite Ep | done].
  - destruct (q a); simpl; [by rewrite Ep | done].
Qed.

Lemma rows_where_update p q f l :
  (forall x, p x = true -> q (f x) = q x) ->
  rows_where q (update_where p f l) = update_where p f (rows_where q l).
Proof.
  intros Hq. induction l as [|a l IH]; [done |]. unfold rows_where, update_where in *; simpl.
  destruct (p a) eqn:Ep.
  - rewrite (Hq _ Ep). destruct (q a); simpl; [by rewrite Ep, IH | done].
  - destruct (q a); simpl; [by rewrite Ep, IH | done].
Qed.

(** Changing rows that do not meet [q], before or after, leaves those that do. *)
Lemma rows_where_update_out p q f l :
  (forall x, In x l -> p x = true -> q x = false /\ q (f x) = false) ->
  rows_where q (update_where p f l) = rows_where q l.
Proof.
  intros H. induction l as [|a l IH]; [done |]. unfold rows_where, update_where in *; simpl.
  rewrite IH by (intros x Hx; apply H; by right). destruct (p a) eqn:Ep; [| done].
  destruct (H a (or_introl eq_refl) Ep) as [-> ->]. done.
Qed.

Lemma update_where_none p f l : (forall x, In x l -> p x = false) -> update_where p f l = l.
Proof.
  intros H. induction l as [|a l IH]; [done |]. unfold update_where in *; simpl.
  rewrite (H a) by (left; done). f_equal. apply IH. intros x Hx. apply H. by right.
Qed.

Lemma length_update_where p f l : length (update_where p f l) = length l.
Proof. apply List.length_map. Qed.

Lemma update_where_app p f l1 l2 :
  update_where p f (l1 ++ l2) = update_where p f l1 ++ update_where p f l2.
Proof. apply List.map_app. Qed.

Lemma in_delete_where p l x : In x (delete_where p l) <-> In x l /\ p x = false.
Proof. unfold delete_where. rewrite List.filter_In, negb_true_iff. done. Qed.

Lemma first_where_delete p q l :
  first_where q (delete_where p l) = first_where (fun x => negb (p x) && q x) l.
Proof. apply first_where_filter. Qed.

Lemma rows_where_delete p q l :
  rows_where q (delete_where p l) = delete_where p (rows_where q l).
Proof.
  induction l as [|a l IH]; [done |]. unfold rows_where, delete_where in *; simpl.
  destruct (p a) eqn:Ep; simpl.
  - destruct (q a); simpl; by rewrite ?Ep.
  - destruct (q a); simpl; rewrite ?Ep; simpl; by rewrite IH.
Qed.

Lemma count_deleted p l :
  Z.max (Z.of_nat (count_where p l)) 0 = Z.of_nat (length l) - Z.of_nat (length (delete_where p l)).
Proof.
  unfold count_where, rows_where, delete_where. induction l as [|a l IH]; [done |]. simpl.
  destruct (p a); simpl length; lia.
Qed.

Lemma rows_where_delete_disjoint p q l :
  (forall x, In x l -> q x = true -> p x = false) ->
  rows_where q (delete_where p l) = rows_where q l.
Proof.
  intros H. induction l as [|a l IH]; [done |]. unfold rows_where, delete_where in *; simpl.
  destruct (p a) eqn:Ep; simpl.
  - destruct (q a) eqn:Eq; [| apply IH; intros; apply H; [by right | done]].
    exfalso. assert (p a = false) by (apply H; [by left | done]). congruence.
  - rewrite IH; [done |]. intros; apply H; [by right | done].
Qed.
End rows.

(** ** Uniqueness of a column over a table. *)
Definition unique_by {A B} (k : A -> B) (l : list A) : Prop := List.NoDup (List.map k l).

Section unique.
Context {A B : Type} (k : A -> B).
Implicit Types (l : list A).

Lemma unique_by_eq l x y : unique_by k l -> In x l -> In y l -> k x = k y -> x = y.
Proof.
  unfold unique_by. induction l as [|a l IH]; simpl; [done |].
  inversion_clear 1 as [|? ? Hni Hnd]. intros [->|Hx] [->|Hy] E; try done.
  - exfalso. apply Hni. rewrite E. by apply List.in_map.
  - exfalso. apply Hni. rewrite <- E. by apply List.in_map.
  - by apply IH.
Qed.

Lemma unique_by_filter (p : A -> bool) l : unique_by k l -> unique_by k (List.filter p l).
Proof.
  unfold unique_by. induction l as [|a l IH]; simpl; [done |].
  inversion_clear 1 as [|? ? Hni Hnd]. destruct (p a); simpl; [| by apply IH].
  constructor; [| by apply IH]. intros Hin. apply Hni.
  apply List.in_map_iff in Hin as (x & Ex & Hx). apply List.filter_In in Hx as [Hx _].
  rewrite <- Ex. by apply List.in_map.
Qed.

Lemma unique_by_update (p : A -> bool) f l :
  (forall x, p x = true -> k (f x) = k x) -> unique_by k l -> unique_by k (update_where p f l).
Proof.
  unfold unique_by, update_where. intros H Hu. rewrite List.map_map.
  erewrite List.map_ext; [exact Hu |]. intros x; simpl. destruct (p x) eqn:E; [by apply H | done].
Qed.

Lemma unique_by_snoc l x : unique_by k l -> ~ In (k x) (List.map k l) -> unique_by k (l ++ [x]).
Proof.
  unfold unique_by. rewrite List.map_app. simpl. intros Hnd Hni.
  apply List.NoDup_app; [done | repeat constructor; by intros [] |].
  intros y Hy [<-|[]]. by apply Hni.
Qed.

Lemma unique_by_decide `{EqDecision B} l : bool_decide (NoDup (List.map k l)) = true -> unique_by k l.
Proof. intros H%bool_decide_eq_true. by apply NoDup_ListNoDup. Qed.

Lemma first_where_unique (p : A -> bool) l x :
  unique_by k l -> In x l -> p x = true -> (forall y, p y = true -> k y = k x) ->
  first_where p l = Some x.
Proof.
  intros Hu Hin Hp Hk. destruct (first_where p l) as [y|] eqn:E.
  - apply first_where_Some in E as [Hy Hpy]. f_equal. eapply unique_by_eq; eauto.
  - rewrite first_where_None in E. rewrite (E _ Hin) in Hp. done.
Qed.

(** Looking up by a unique column after a deletion. *)
Lemma first_where_deleted (p q : A -> bool) l v :
  unique_by k l -> (forall y, q y = true -> k y = v) ->
  first_where q (delete_where p l) =
  match first_where q l with Some x => if p x then None else Some x | None => None end.
Proof.
  intros Hu Hq. rewrite first_where_delete. destruct (first_where q l) as [x|] eqn:E.
  - apply first_where_Some in E as [Hx Hqx]. destruct (p x) eqn:Ep.
    + apply first_where_None. intros y Hy. destruct (q y) eqn:Eq; [| by rewrite andb_false_r].
      rewrite (unique_by_eq l y x) by (done || by rewrite !Hq). by rewrite Ep.
    + apply first_where_unique; [done | done | by rewrite Ep, Hqx |].
      intros y [_ Hy]%andb_true_iff. by rewrite !Hq.
  - apply first_where_None. intros y Hy. rewrite first_where_None in E. by rewrite (E y Hy), andb_false_r.
Qed.
End unique.

(** On a concrete table. *)
Ltac decide_unique := refine (unique_by_decide _ _ _); vm_compute; reflexivity.

(** Changing or deleting, one by one, the rows that a query selected. *)
Section selected.
Context {A B : Type} (k : A -> B) (same : A -> A -> bool).
Hypothesis same_key : forall x y, same x y = true <-> k x = k y.
Implicit Types (l : list A) (p : A -> bool) (f : A -> A).

Lemma fold_update f xs l :
  (forall x, k (f x) = k x) -> (forall x, f (f x) = f x) ->
  fold_left (fun l x => update_where (same x) f l) xs l =
  update_where (fun y => existsb (fun x => same x y) xs) f l.
Proof.
  intros Hk Hf. revert l. induction xs as [|x xs IH]; intros l; simpl; [by rewrite update_where_none |].
  rewrite IH. unfold update_where. rewrite List.map_map. apply List.map_ext. intros y.
  destruct (same x y) eqn:E; simpl; [| done].
  destruct (existsb (fun x0 => same x0 (f y)) xs); [apply Hf | done].
Qed.

Lemma selected_same p l y : unique_by k l -> In y l -> existsb (fun x => same x y) (rows_where p l) = p y.
Proof.
  intros Hu Hy. apply eq_true_iff_eq. rewrite existsb_exists. split.
  - intros (x & [Hx Hp]%in_rows_where & E%same_key). by rewrite <- (unique_by_eq k l x y).
  - intros Hp. exists y. split; [by apply in_rows_where | by apply same_key].
Qed.

Lemma update_selected p f l :
  unique_by k l -> (forall x, k (f x) = k x) -> (forall x, f (f x) = f x) ->
  fold_left (fun l x => update_where (same x) f l) (rows_where p l) l = update_where p f l.
Proof.
  intros Hu Hk Hf. rewrite fold_update by done. unfold update_where. apply List.map_ext_in.
  intros y Hy. by rewrite selected_same.
Qed.

End selected.

(** ** Booleans and strings *)

Definition str_eqb (a b : string) : bool := bool_decide (a = b).
Definition str_in (a : string) (l : list string) : bool := bool_decide (a ∈ l).

Lemma str_eqb_eq a b : str_eqb a b = true <-> a = b.
Proof. apply bool_decide_eq_true. Qed.
Lemma str_eqb_neq a b : str_eqb a b = false <-> a <> b.
Proof. apply bool_decide_eq_false. Qed.
Lemma str_eqb_refl a : str_eqb a a = true.
Proof. by apply str_eqb_eq. Qed.

Definition is_some {A} (o : option A) : bool := match o with Some _ => true | None => false end.
Definition is_none {A} (o : option A) : bool := negb (is_some o).

(** [x or d] for an optional string and for a string: falsy values fall through. *)
Definition str_or (s d : string) : string := if str_eqb s "" then d else s.
Definition ostr_or (s : option string) (d : string) : string :=
  match s with Some x => str_or x d | None => d end.

Create HintDb rows.
Create Rewrite HintDb rows.
Create Rewrite HintDb orm.
#[export] Hint Rewrite @first_where_app @rows_where_app @count_where_app @length_update_where : rows.
#[export] Hint Resolve @unique_by_filter @unique_by_update : rows.

(** Turn boolean hypotheses of the code's guards into propositions. *)
Ltac bool_hyps :=
  repeat match goal with
  | H : _ && _ = true |- _ => apply andb_true_iff in H as [? ?]
  | H : _ || _ = false |- _ => apply orb_false_iff in H as [? ?]
  | H : negb _ = true |- _ => apply negb_true_iff in H
  | H : negb _ = false |- _ => apply negb_false_iff in H
  | H : str_eqb _ _ = true |- _ => apply str_eqb_eq in H
  | H : str_eqb _ _ = false |- _ => apply str_eqb_neq in H
  | H : (_ =? _)%N = true |- _ => apply N.eqb_eq in H
  | H : (_ =? _)%N = false |- _ => apply N.eqb_neq in H
  | H : (_ =? _) = true |- _ => apply Z.eqb_eq in H
  | H : (_ =? _) = false |- _ => apply Z.eqb_neq in H
  | H : (_ <? _) = true |- _ => apply Z.ltb_lt in H
  | H : (_ <? _) = false |- _ => apply Z.ltb_ge in H
  | H : (_ <=? _) = true |- _ => apply Z.leb_le in H
  | H : (_ <=? _) = false |- _ => apply Z.leb_gt in H
  | H : bool_decide _ = true |- _ => apply bool_decide_eq_true in H
  | H : bool_decide _ = false |- _ => apply bool_decide_eq_false in H
  end.
