(* ===== verification/PyStr.v ===== *)
(** Python strings: the [str] operations the application uses.

    A Python [str] is modelled by a Rocq [string] whose characters are read as
    code points below 256 (Latin-1); the application's slugs, hosts, tokens,
    roles and e-mail addresses live in the ASCII part of that range. The
    operations follow CPython 3.12 on that range. The last section is
    [urllib.parse.urlsplit], of which the code reads [scheme] and [netloc];
    netlocs with square brackets (IPv6 literals) are taken as they are, without
    the validation that may raise on a malformed one. *)
From Stdlib Require Export Ascii.
From S2P Require Import Prelude.

(** ** Characters *)
Definition code (c : ascii) : N := N_of_ascii c.
Definition in_range (lo hi : N) (c : ascii) : bool := (lo <=? code c)%N && (code c <=? hi)%N.
Definition is_lower_ascii (c : ascii) : bool := in_range 97 122 c.
Definition is_upper_ascii (c : ascii) : bool := in_range 65 90 c.
Definition is_digit (c : ascii) : bool := in_range 48 57 c.
Definition char_eqb (a b : ascii) : bool := bool_decide (a = b).

(** [str.lower] below 256: A-Z and the capital letters of the Latin-1 block. *)
Definition lower_char (c : ascii) : ascii :=
  if is_upper_ascii c || (in_range 192 222 c && negb (code c =? 215)%N)
  then ascii_of_N (code c + 32) else c.

(** White space for [str.strip]. *)
Definition is_space (c : ascii) : bool :=
  in_range 9 13 c || in_range 28 32 c || (code c =? 133)%N || (code c =? 160)%N.

(** ** Whole strings *)
Fixpoint map_str (f : ascii -> ascii) (s : string) : string :=
  match s with EmptyString => EmptyString | String c s' => String (f c) (map_str f s') end.
Fixpoint all_chars (p : ascii -> bool) (s : string) : bool :=
  match s with EmptyString => true | String c s' => p c && all_chars p s' end.
Fixpoint has_char (c : ascii) (s : string) : bool :=
  match s with EmptyString => false | String d s' => char_eqb d c || has_char c s' end.
Fixpoint filter_str (p : ascii -> bool) (s : string) : string :=
  match s with
  | EmptyString => EmptyString
  | String c s' => if p c then String c (filter_str p s') else filter_str p s'
  end.
Fixpoint rev_onto (s acc : string) : string :=
  match s with EmptyString => acc | String c s' => rev_onto s' (String c acc) end.
Definition rev_str (s : string) : string := rev_onto s EmptyString.
Definition py_len (s : string) : Z := Z.of_nat (String.length s).

Definition lower (s : string) : string := map_str lower_char s.

Fixpoint lstrip_by (p : ascii -> bool) (s : string) : string :=
  match s with
  | EmptyString => EmptyString
  | String c s' => if p c then lstrip_by p s' else s
  end.
Definition rstrip_by (p : ascii -> bool) (s : string) : string := rev_str (lstrip_by p (rev_str s)).
Definition strip (s : string) : string := rstrip_by is_space (lstrip_by is_space s).
Definition lstrip_char (c : ascii) (s : string) : string := lstrip_by (fun d => char_eqb d c) s.

Definition startswith (s pre : string) : bool := String.prefix pre s.
Definition endswith (s suf : string) : bool := String.prefix (rev_str suf) (rev_str s).
Definition removeprefix (s pre : string) : string :=
  if startswith s pre then String.substring (String.length pre) (String.length s) s else s.

(** [s.partition(c)]: the text before the first [c], whether there is one, and
    the text after it. *)
Fixpoint partition_char (c : ascii) (s : string) : string * bool * string :=
  match s with
  | EmptyString => (EmptyString, false, EmptyString)
  | String d s' =>
      if char_eqb d c then (EmptyString, true, s')
      else let '(a, found, b) := partition_char c s' in (String d a, found, b)
  end.

(** [s.split(c, 1)[0]] *)
Definition before_char (c : ascii) (s : string) : string := (partition_char c s).1.1.

(** [s.rpartition(c)[2]]: the text after the last [c], [s] itself without one. *)
Definition after_last_char (c : ascii) (s : string) : string :=
  rev_str (before_char c (rev_str s)).

(** [s.split(c)] *)
Fixpoint split_char (c : ascii) (s : string) : list string :=
  match s with
  | EmptyString => [EmptyString]
  | String d s' =>
      if char_eqb d c then EmptyString :: split_char c s'
      else match split_char c s' with
           | [] => [String d EmptyString]
           | w :: ws => String d w :: ws
           end
  end.

Fixpoint join (sep : string) (l : list string) : string :=
  match l with
  | [] => EmptyString
  | [s] => s
  | s :: l' => String.append s (String.append sep (join sep l'))
  end.

(** Text up to the first character satisfying [p]. *)
Fixpoint take_until (p : ascii -> bool) (s : string) : string :=
  match s with
  | EmptyString => EmptyString
  | String c s' => if p c then EmptyString else String c (take_until p s')
  end.

(** ** [urllib.parse.urlsplit]: the scheme and the netloc *)
Module Url.
Definition is_c0_or_space (c : ascii) : bool := (code c <=? 32)%N.
Definition is_unsafe (c : ascii) : bool := (code c =? 9)%N || (code c =? 10)%N || (code c =? 13)%N.
Definition is_alpha (c : ascii) : bool := is_lower_ascii c || is_upper_ascii c.
Definition is_scheme_char (c : ascii) : bool :=
  is_alpha c || is_digit c || char_eqb c "+" || char_eqb c "-" || char_eqb c ".".
Definition ends_netloc (c : ascii) : bool := char_eqb c "/" || char_eqb c "?" || char_eqb c "#".

(** [urlsplit] strips leading C0 controls and spaces and removes tabs and
    newlines before parsing. *)
Definition clean (url : string) : string :=
  filter_str (fun c => negb (is_unsafe c)) (lstrip_by is_c0_or_space url).

Definition starts_alpha (s : string) : bool :=
  match s with EmptyString => false | String c _ => is_alpha c end.

Definition split_scheme (url : string) : string * string :=
  let '(pre, found, rest) := partition_char ":" url in
  if found && starts_alpha pre && all_chars is_scheme_char pre then (lower pre, rest) else (EmptyString, url).

Definition urlsplit (url : string) : string * string :=
  let '(scheme, rest) := split_scheme (clean url) in
  match rest with
  | String c1 (String c2 rest') =>
      if char_eqb c1 "/" && char_eqb c2 "/" then (scheme, take_until ends_netloc rest')
      else (scheme, EmptyString)
  | _ => (scheme, EmptyString)
  end.

Definition scheme (url : string) : string := (urlsplit url).1.
Definition netloc (url : string) : string := (urlsplit url).2.

(** The host a client contacts for a netloc [userinfo@host:port]
    ([SplitResult.hostname] for a netloc without brackets). *)
Definition hostname (netloc : string) : string := lower (before_char ":" (after_last_char "@" netloc)).
End Url.

(** ** Lemmas *)
#[global] Arguments String.append !_ _ / : simpl nomatch.

Lemma char_eqb_eq a b : char_eqb a b = true <-> a = b.
Proof. apply bool_decide_eq_true. Qed.
Lemma char_eqb_neq a b : char_eqb a b = false <-> a <> b.
Proof. apply bool_decide_eq_false. Qed.
Lemma char_eqb_refl a : char_eqb a a = true.
Proof. by apply char_eqb_eq. Qed.

Lemma app_empty_r (s : string) : String.append s "" = s.
Proof. induction s as [|c s IH]; simpl; [done | by rewrite IH]. Qed.

Lemma app_assoc_str (a b c : string) :
  String.append (String.append a b) c = String.append a (String.append b c).
Proof. induction a as [|x a IH]; simpl; [done | by rewrite IH]. Qed.

Lemma app_inj_l (a b c : string) : String.append a b = String.append a c -> b = c.
Proof. induction a as [|x a IH]; simpl; intros H; [done | apply IH; by injection H]. Qed.

Lemma length_app_str (a b : string) : String.length (String.append a b) = (String.length a + String.length b)%nat.
Proof. induction a as [|x a IH]; simpl; [done | by rewrite IH]. Qed.

Lemma rev_onto_app s acc : rev_onto s acc = String.append (rev_str s) acc.
Proof.
  unfold rev_str. revert acc. induction s as [|c s IH]; intros acc; [done |]. simpl.
  rewrite (IH (String c acc)), (IH (String c "")), app_assoc_str. done.
Qed.

Lemma rev_str_cons c s : rev_str (String c s) = String.append (rev_str s) (String c "").
Proof. unfold rev_str at 1. simpl. apply rev_onto_app. Qed.

Lemma rev_str_app a b : rev_str (String.append a b) = String.append (rev_str b) (rev_str a).
Proof.
  induction a as [|c a IH]; simpl; [symmetry; apply app_empty_r |].
  by rewrite !rev_str_cons, IH, app_assoc_str.
Qed.

Lemma rev_str_involutive s : rev_str (rev_str s) = s.
Proof. induction s as [|c s IH]; [done |]. rewrite rev_str_cons, rev_str_app, IH. done. Qed.

Lemma prefix_app pre s : String.prefix pre s = true <-> exists t, s = String.append pre t.
Proof.
  revert s. induction pre as [|c pre IH]; intros s; simpl.
  - split; [by exists s | destruct s; done].
  - destruct s as [|d s]; [split; [done | by intros [t ?]] |].
    change (String.prefix (String c pre) (String d s))
      with (if ascii_dec c d then String.prefix pre s else false).
    destruct (ascii_dec c d) as [->|Hne].
    + etransitivity; [exact (IH s) |].
      split; intros [t Ht]; exists t; [by rewrite Ht | by injection Ht].
    + split; [done |]. intros [t Ht]. injection Ht as -> _. done.
Qed.

Lemma startswith_spec s pre : startswith s pre = true <-> exists t, s = String.append pre t.
Proof. apply prefix_app. Qed.

Lemma endswith_spec s suf : endswith s suf = true <-> exists t, s = String.append t suf.
Proof.
  unfold endswith. rewrite prefix_app. split; intros [t Ht].
  - exists (rev_str t). rewrite <- (rev_str_involutive s), Ht, rev_str_app, rev_str_involutive. done.
  - exists (rev_str t). by rewrite Ht, rev_str_app.
Qed.

Lemma partition_char_eq c s a b :
  partition_char c s = (a, true, b) -> s = String.append a (String c b).
Proof.
  revert a b. induction s as [|d s IH]; intros a b; simpl; [done |].
  destruct (char_eqb d c) eqn:E.
  - apply char_eqb_eq in E as ->. by intros [= <- <-].
  - destruct (partition_char c s) as [[a' f] b']. intros [= <- -> <-]. simpl. f_equal. by apply IH.
Qed.

Lemma partition_char_app c a b :
  has_char c a = false -> partition_char c (String.append a (String c b)) = (a, true, b).
Proof.
  induction a as [|d a IH]; simpl; intros H; [by rewrite char_eqb_refl |].
  apply orb_false_iff in H as [-> H]. by rewrite IH.
Qed.

Lemma has_char_app c a b : has_char c (String.append a b) = has_char c a || has_char c b.
Proof. induction a as [|d a IH]; simpl; [done | by rewrite IH, orb_assoc]. Qed.

Lemma has_char_rev c s : has_char c (rev_str s) = has_char c s.
Proof.
  induction s as [|d s IH]; [done |]. rewrite rev_str_cons, has_char_app, IH. simpl.
  rewrite orb_false_r. apply orb_comm.
Qed.

Lemma all_chars_app p a b : all_chars p (String.append a b) = all_chars p a && all_chars p b.
Proof. induction a as [|c a IH]; simpl; [done | by rewrite IH, andb_assoc]. Qed.

Lemma lower_app a b : lower (String.append a b) = String.append (lower a) (lower b).
Proof. unfold lower. induction a as [|c a IH]; simpl; [done | by rewrite IH]. Qed.

Lemma startswith_app pre t : startswith (String.append pre t) pre = true.
Proof. apply startswith_spec. by exists t. Qed.

Lemma substring_all n s : (String.length s <= n)%nat -> String.substring 0 n s = s.
Proof.
  revert n. induction s as [|c s IH]; intros [|n]; simpl; intros H; [done | done | lia |].
  rewrite IH; [done | lia].
Qed.

Lemma removeprefix_app pre t : removeprefix (String.append pre t) pre = t.
Proof.
  unfold removeprefix. rewrite startswith_app.
  assert (H : forall m, (String.length t <= m)%nat ->
    String.substring (String.length pre) m (String.append pre t) = t).
  { intros m Hm. induction pre as [|c pre IH]; simpl; [by apply substring_all | exact IH]. }
  apply H. rewrite length_app_str. lia.
Qed.

(** ** [repr] of a [str] *)

Definition hex_digit_char (n : N) : ascii := if (n <? 10)%N then ascii_of_N (48 + n) else ascii_of_N (87 + n).

Definition is_printable (c : ascii) : bool :=
  in_range 32 126 c || (in_range 161 255 c && negb (code c =? 173)%N).

Fixpoint repr_body (quote : ascii) (s : string) : string :=
  match s with
  | EmptyString => EmptyString
  | String c s' =>
      let rest := repr_body quote s' in
      if char_eqb c quote || char_eqb c "\" then String "\" (String c rest)
      else if (code c =? 9)%N then String "\" (String "t" rest)
      else if (code c =? 10)%N then String "\" (String "n" rest)
      else if (code c =? 13)%N then String "\" (String "r" rest)
      else if is_printable c then String c rest
      else String "\" (String "x" (String (hex_digit_char (code c / 16)) (String (hex_digit_char (code c mod 16)) rest)))
  end.

Definition apostrophe : ascii := ascii_of_N 39.
Definition double_quote : ascii := ascii_of_N 34.

Definition py_repr (s : string) : string :=
  let quote := if has_char apostrophe s && negb (has_char double_quote s) then double_quote else apostrophe in
  String quote (String.append (repr_body quote s) (String quote EmptyString)).

Example repr_plain : py_repr "boss" = "'boss'".
Proof. reflexivity. Qed.
