(* ===== verification/Hashing.v ===== *)
(** [hashlib.sha256], [hmac] and [str.encode] of the Python standard library,
    executable: the application stores [sha256(token)] in hexadecimal and signs
    its OAuth states with HMAC-SHA256. The examples at the end are the test
    vectors of FIPS 180-2 and RFC 4231. *)
From S2P Require Import Prelude PyStr.

(** Python [bytes]: every [ascii] is an octet. *)
Abbreviation bytes := (list ascii).

Definition octet (n : N) : ascii := ascii_of_N (n mod 256).

(** [s.encode()] (UTF-8) for code points below 256. *)
Definition encode_char (c : ascii) : bytes :=
  if (code c <? 128)%N then [c] else [octet (192 + code c / 64); octet (128 + code c mod 64)].
Fixpoint encode (s : string) : bytes :=
  match s with EmptyString => [] | String c s' => encode_char c ++ encode s' end.

(** Text of ASCII bytes ([bytes.decode()] of ASCII data). *)
Definition text_of (b : bytes) : string := String.string_of_list_ascii b.

Module Sha256.
Local Open Scope N_scope.
Definition mask : N := 2 ^ 32 - 1.
Definition add32 (a b : N) : N := N.land (a + b) mask.
Definition not32 (a : N) : N := N.lxor a mask.
Definition rotr (n x : N) : N :=
  N.lor (N.shiftr x n) (N.land (N.shiftl x (32 - n)) mask).
Definition ch (x y z : N) : N := N.lxor (N.land x y) (N.land (not32 x) z).
Definition maj (x y z : N) : N := N.lxor (N.lxor (N.land x y) (N.land x z)) (N.land y z).
Definition Sigma0 x := N.lxor (N.lxor (rotr 2 x) (rotr 13 x)) (rotr 22 x).
Definition Sigma1 x := N.lxor (N.lxor (rotr 6 x) (rotr 11 x)) (rotr 25 x).
Definition sigma0 x := N.lxor (N.lxor (rotr 7 x) (rotr 18 x)) (N.shiftr x 3).
Definition sigma1 x := N.lxor (N.lxor (rotr 17 x) (rotr 19 x)) (N.shiftr x 10).

(** The constants are the first 32 bits of the fractional parts of the cube roots
    (of the square roots, for the initial state) of the first primes. *)
Definition is_prime (n : N) : bool :=
  forallb (fun d => negb (n mod N.of_nat d =? 0)) (List.seq 2 (N.to_nat n - 2)).
Definition primes : list N := List.filter is_prime (List.map N.of_nat (List.seq 2 310)).
(** The largest [r] with [r ^ k <= n], bit by bit. *)
Fixpoint root_bits (bits : nat) (k n r : N) : N :=
  match bits with
  | O => r
  | S b => let r' := r + 2 ^ N.of_nat b in root_bits b k n (if r' ^ k <=? n then r' else r)
  end.
Definition fraction_of_root (k p : N) : N := N.land (root_bits 40 k (p * 2 ^ (32 * k)) 0) mask.
Definition K : list N := Eval vm_compute in List.map (fraction_of_root 3) primes.
Definition H0 : list N := Eval vm_compute in List.map (fraction_of_root 2) (take 8 primes).

(** [n] as [k] big-endian octets. *)
Fixpoint be_octets (k : nat) (n : N) : bytes :=
  match k with
  | O => []
  | S k' => octet (n / 256 ^ N.of_nat k') :: be_octets k' n
  end.

Definition pad (m : bytes) : bytes :=
  let l := N.of_nat (length m) in
  let zeros := ((119 - l mod 64) mod 64)%N in
  m ++ [octet 128] ++ repeat (octet 0) (N.to_nat zeros) ++ be_octets 8 (8 * l).

Fixpoint words (m : bytes) : list N :=
  match m with
  | a :: b :: c :: d :: m' => (code a * 16777216 + code b * 65536 + code c * 256 + code d) :: words m'
  | _ => []
  end.

(** The message schedule, most recent word first: 16 words grow to 64. *)
Fixpoint schedule (n : nat) (w : list N) : list N :=
  match n with
  | O => w
  | S n' =>
      let g i := nth i w 0 in
      schedule n' (add32 (add32 (sigma1 (g 1%nat)) (g 6%nat)) (add32 (sigma0 (g 14%nat)) (g 15%nat)) :: w)
  end.

Definition round (s : list N) (kw : N * N) : list N :=
  match s with
  | [a; b; c; d; e; f; g; h] =>
      let t1 := add32 (add32 (add32 h (Sigma1 e)) (add32 (ch e f g) kw.1)) kw.2 in
      let t2 := add32 (Sigma0 a) (maj a b c) in
      [add32 t1 t2; a; b; c; add32 d t1; e; f; g]
  | _ => s
  end.

Definition block (s : list N) (w : list N) : list N :=
  let ws := rev (schedule 48 (rev w)) in
  zip_with add32 s (fold_left round (zip K ws) s).

Fixpoint blocks (fuel : nat) (s : list N) (w : list N) : list N :=
  match fuel with
  | O => s
  | S fuel' => match w with [] => s | _ => blocks fuel' (block s (take 16 w)) (drop 16 w) end
  end.

Definition sha256 (m : bytes) : bytes :=
  let w := words (pad m) in concat (map (be_octets 4) (blocks (length w) H0 w)).
End Sha256.

Module Hmac.
Definition block_size : nat := 64.
Definition xor_with (n : N) (b : bytes) : bytes := map (fun c => octet (N.lxor (code c) n)) b.
Definition block_key (key : bytes) : bytes :=
  let k := if (block_size <? length key)%nat then Sha256.sha256 key else key in
  k ++ repeat (octet 0) (block_size - length k).
(** [hmac.new(key, msg, hashlib.sha256).digest()] *)
Definition hmac_sha256 (key msg : bytes) : bytes :=
  let k := block_key key in
  Sha256.sha256 (xor_with 0x5c k ++ Sha256.sha256 (xor_with 0x36 k ++ msg)).
End Hmac.

Definition hex_digit (n : N) : ascii := if (n <? 10)%N then ascii_of_N (48 + n) else ascii_of_N (87 + n).
(** [bytes.hex()], [hashlib] [hexdigest()] *)
Fixpoint hex (b : bytes) : string :=
  match b with
  | [] => EmptyString
  | c :: b' => String (hex_digit (code c / 16)) (String (hex_digit (code c mod 16)) (hex b'))
  end.
Definition sha256_hexdigest (m : bytes) : string := hex (Sha256.sha256 m).

(** A digest has 32 octets. *)
Section digest_length.
Import Sha256.
Lemma be_octets_length k n : length (be_octets k n) = k.
Proof. induction k as [|k IH]; simpl; [done | by rewrite IH]. Qed.

Lemma round_length s kw : length s = 8%nat -> length (round s kw) = 8%nat.
Proof. intros H. do 9 (destruct s as [|? s]; try done). Qed.

Lemma block_length s w : length s = 8%nat -> length (block s w) = 8%nat.
Proof.
  intros H. unfold block. rewrite length_zip_with, H.
  assert (Hf : forall l s, length s = 8%nat -> length (fold_left round l s) = 8%nat).
  { clear s H w. induction l as [|kw l IH]; intros s H; simpl; [done |]. apply IH, round_length, H. }
  by rewrite Hf.
Qed.

Lemma blocks_length fuel s w : length s = 8%nat -> length (blocks fuel s w) = 8%nat.
Proof.
  revert s w. induction fuel as [|f IH]; intros s w H; simpl; [done |].
  destruct w; [done |]. by apply IH, block_length.
Qed.

Lemma sha256_length m : length (sha256 m) = 32%nat.
Proof.
  unfold sha256. set (l := blocks _ _ _).
  assert (Hl : length l = 8%nat) by by apply blocks_length. clearbody l.
  do 9 (destruct l as [|? l]; try done).
Qed.

Lemma hmac_length key m : length (Hmac.hmac_sha256 key m) = 32%nat.
Proof. apply sha256_length. Qed.
End digest_length.

#[global] Opaque Sha256.sha256 Hmac.hmac_sha256.

Example sha256_abc :
  sha256_hexdigest (encode "abc") = "ba7816bf8f01cfea414140de5dae2223b00361a396177a9cb410ff61f20015ad"%string.
Proof. vm_compute. reflexivity. Qed.
Example sha256_empty :
  sha256_hexdigest [] = "e3b0c44298fc1c149afbf4c8996fb92427ae41e4649b934ca495991b7852b855"%string.
Proof. vm_compute. reflexivity. Qed.
Example sha256_two_blocks :
  sha256_hexdigest (encode "abcdbcdecdefdefgefghfghighijhijkijkljklmklmnlmnomnopnopq") =
  "248d6a61d20638b8e5c026930c3e6039a33ce45964ff2167f6ecedd419db06c1"%string.
Proof. vm_compute. reflexivity. Qed.
Example hmac_rfc4231_2 :
  hex (Hmac.hmac_sha256 (encode "Jefe") (encode "what do ya want for nothing?")) =
  "5bdcc146bf60754e6a042426089575c75a003f089d2739839dec58b964ec3843"%string.
Proof. vm_compute. reflexivity. Qed.
#[global] Arguments Sha256.be_octets : simpl never.
#[global] Arguments hex : simpl never.
