(* ===== verification/Base64.v ===== *)
(** [base64.urlsafe_b64encode] / [urlsafe_b64decode] (the [binascii] state
    machine in its non-strict mode, which skips foreign characters and stops at
    a completed padding), and [secrets.token_urlsafe]. The round-trip lemmas
    serve the signed states and the audit cursors. *)
From S2P Require Import Prelude PyStr Hashing.

Section alphabet.
Local Open Scope N_scope.
(** The URL-safe alphabet: A-Z a-z 0-9 - _ *)
Definition b64_char (n : N) : ascii :=
  if n <? 26 then ascii_of_N (65 + n)
  else if n <? 52 then ascii_of_N (71 + n)
  else if n <? 62 then ascii_of_N (n - 4)
  else if n =? 62 then "-"%char else "_"%char.

(** [binascii] also accepts + and / after the URL-safe translation. *)
Definition b64_value (c : ascii) : option N :=
  let n := code c in
  if is_upper_ascii c then Some (n - 65)
  else if is_lower_ascii c then Some (n - 71)
  else if is_digit c then Some (n + 4)
  else if char_eqb c "-" || char_eqb c "+" then Some 62
  else if char_eqb c "_" || char_eqb c "/" then Some 63
  else None.
End alphabet.

(** Unpadded encoding: [urlsafe_b64encode(data).rstrip(b"=")]. *)
Fixpoint b64_nopad (b : bytes) : string :=
  match b with
  | x :: y :: z :: b' =>
      String (b64_char (code x / 4)) (String (b64_char ((code x mod 4) * 16 + code y / 16))
      (String (b64_char ((code y mod 16) * 4 + code z / 64)) (String (b64_char (code z mod 64)) (b64_nopad b'))))
  | [x; y] =>
      String (b64_char (code x / 4)) (String (b64_char ((code x mod 4) * 16 + code y / 16))
      (String (b64_char ((code y mod 16) * 4)) EmptyString))
  | [x] => String (b64_char (code x / 4)) (String (b64_char ((code x mod 4) * 16)) EmptyString)
  | [] => EmptyString
  end%N.

Definition padding (n : nat) : string := String.string_of_list_ascii (repeat "="%char n).

(** [base64.urlsafe_b64encode(data)] *)
Definition urlsafe_b64encode (b : bytes) : string :=
  String.append (b64_nopad b) (padding ((3 - length b mod 3) mod 3)).

(** The decoder: [quad] is the position in the current group of four, [left]
    the bits not yet written, [pads] the padding characters seen. *)
Fixpoint a2b (s : string) (quad left pads : N) : result bytes :=
  match s with
  | EmptyString =>
      if (quad =? 0)%N then Ok [] else Raise (ValueError "Incorrect padding")
  | String c s' =>
      if char_eqb c "=" then
        if (2 <=? quad)%N && (4 <=? quad + (pads + 1))%N then Ok []
        else a2b s' quad left (if (2 <=? quad)%N then pads + 1 else pads)%N
      else match b64_value c with
           | None => a2b s' quad left pads
           | Some v =>
               match quad with
               | 0 => a2b s' 1 v 0
               | 1 => result_map (cons (ascii_of_N (left * 4 + v / 16))) (a2b s' 2 (v mod 16) 0)
               | 2 => result_map (cons (ascii_of_N (left * 16 + v / 4))) (a2b s' 3 (v mod 4) 0)
               | _ => result_map (cons (ascii_of_N (left * 64 + v))) (a2b s' 0 0 0)
               end%N
           end
  end.

(** [base64.urlsafe_b64decode(s)] *)
Definition urlsafe_b64decode (s : string) : result bytes := a2b s 0 0 0.

(** [base64.b64decode(s)]: the standard alphabet, so - and _ are foreign. *)
Definition b64decode (s : string) : result bytes :=
  urlsafe_b64decode (filter_str (fun c => negb (char_eqb c "-" || char_eqb c "_")) s).

(** [secrets.token_urlsafe(n)] for the random octets [b]. *)
Definition token_urlsafe (b : bytes) : string := b64_nopad b.

(** ** The decoder undoes the encoder *)

Definition is_b64_char (c : ascii) : bool := is_some (b64_value c) && negb (char_eqb c "=").

Lemma code_lt c : (code c < 256)%N.
Proof. apply N_ascii_bounded. Qed.

Lemma ascii_of_code c n : n = code c -> ascii_of_N n = c.
Proof. intros ->. apply ascii_N_embedding. Qed.

Lemma b64_char_spec n : (n < 64)%N ->
  b64_value (b64_char n) = Some n /\ char_eqb (b64_char n) "=" = false /\ char_eqb (b64_char n) "." = false.
Proof.
  intros Hn.
  assert (Hall : forallb (fun k => bool_decide (b64_value (b64_char (N.of_nat k)) = Some (N.of_nat k) /\
      char_eqb (b64_char (N.of_nat k)) "=" = false /\ char_eqb (b64_char (N.of_nat k)) "." = false))
      (List.seq 0 64) = true) by (vm_compute; reflexivity).
  rewrite forallb_forall in Hall. specialize (Hall (N.to_nat n)).
  rewrite N2Nat.id in Hall. apply bool_decide_eq_true in Hall; [done |].
  apply List.in_seq. lia.
Qed.

Lemma b64_value_char n : (n < 64)%N -> b64_value (b64_char n) = Some n.
Proof. apply b64_char_spec. Qed.
Lemma b64_char_not_pad n : (n < 64)%N -> char_eqb (b64_char n) "=" = false.
Proof. apply b64_char_spec. Qed.
Lemma b64_char_not_dot n : (n < 64)%N -> char_eqb (b64_char n) "." = false.
Proof. apply b64_char_spec. Qed.

Ltac code_bounds :=
  repeat match goal with
  | c : ascii |- _ => lazymatch goal with
                      | _ : (code c < 256)%N |- _ => fail
                      | _ => pose proof (code_lt c)
                      end
  end.
Ltac zify_code := code_bounds; zify; Z.to_euclidean_division_equations; lia.

(** One step of the decoder at each position of a group. *)
Section a2b_steps.
Variables (n : N) (s : string) (left pads : N).
Hypothesis Hn : (n < 64)%N.
Ltac step := simpl; by rewrite b64_char_not_pad, b64_value_char.
Lemma a2b_0 : a2b (String (b64_char n) s) 0 left pads = a2b s 1 n 0.
Proof using Hn. step. Qed.
Lemma a2b_1 : a2b (String (b64_char n) s) 1 left pads =
  result_map (cons (ascii_of_N (left * 4 + n / 16))) (a2b s 2 (n mod 16) 0).
Proof using Hn. step. Qed.
Lemma a2b_2 : a2b (String (b64_char n) s) 2 left pads =
  result_map (cons (ascii_of_N (left * 16 + n / 4))) (a2b s 3 (n mod 4) 0).
Proof using Hn. step. Qed.
Lemma a2b_3 : a2b (String (b64_char n) s) 3 left pads =
  result_map (cons (ascii_of_N (left * 64 + n))) (a2b s 0 0 0).
Proof using Hn. step. Qed.
End a2b_steps.

Lemma a2b_pad1 left : a2b (padding 1) 3 left 0 = Ok [].
Proof. done. Qed.
Lemma a2b_pad2 left : a2b (padding 2) 2 left 0 = Ok [].
Proof. done. Qed.

(** Induction on bytes, three at a time. *)
Lemma bytes_ind3 (P : bytes -> Prop) :
  P [] -> (forall x, P [x]) -> (forall x y, P [x; y]) ->
  (forall x y z b, P b -> P (x :: y :: z :: b)) -> forall b, P b.
Proof.
  intros H0 H1 H2 H3. fix IH 1. intros [|x [|y [|z b]]]; [exact H0 | apply H1 | apply H2 |].
  apply H3, IH.
Qed.

Lemma a2b_b64_nopad b :
  a2b (String.append (b64_nopad b) (padding ((3 - length b mod 3) mod 3))) 0 0 0 = Ok b.
Proof.
  induction b as [|x|x y|x y z b IH] using bytes_ind3; [done | | |]; cbn [b64_nopad String.append].
  - rewrite a2b_0, a2b_1 by zify_code. rewrite (a2b_pad2 _ : a2b (String.append "" _) _ _ _ = _).
    simpl result_map. do 2 f_equal. apply ascii_of_code. zify_code.
  - rewrite a2b_0, a2b_1, a2b_2 by zify_code. rewrite (a2b_pad1 _ : a2b (String.append "" _) _ _ _ = _).
    simpl result_map. f_equal. f_equal; [| f_equal]; apply ascii_of_code; zify_code.
  - rewrite a2b_0, a2b_1, a2b_2, a2b_3 by zify_code.
    replace ((3 - length (x :: y :: z :: b) mod 3) mod 3)%nat with ((3 - length b mod 3) mod 3)%nat.
    + rewrite IH. simpl result_map. f_equal. f_equal; [| f_equal; [| f_equal]]; apply ascii_of_code; zify_code.
    + replace (length (x :: y :: z :: b)) with (length b + 1 * 3)%nat by (simpl; lia).
      by rewrite Nat.Div0.mod_add.
Qed.

Lemma b64_roundtrip b : urlsafe_b64decode (urlsafe_b64encode b) = Ok b.
Proof. apply a2b_b64_nopad. Qed.

Lemma b64_nopad_no_dot b : has_char "." (b64_nopad b) = false.
Proof.
  induction b as [|x|x y|x y z b IH] using bytes_ind3; [done | | |];
    cbn [b64_nopad has_char]; rewrite !b64_char_not_dot by zify_code; done.
Qed.

Lemma b64_char_ascii n : (n < 64)%N -> (code (b64_char n) <? 128)%N = true.
Proof.
  intros Hn.
  assert (Hall : forallb (fun k => (code (b64_char (N.of_nat k)) <? 128)%N) (List.seq 0 64) = true)
    by (vm_compute; reflexivity).
  rewrite forallb_forall in Hall. specialize (Hall (N.to_nat n)). rewrite N2Nat.id in Hall.
  apply Hall, List.in_seq. lia.
Qed.

Lemma b64_nopad_ascii b : all_chars (fun c => (code c <? 128)%N) (b64_nopad b) = true.
Proof.
  induction b as [|x|x y|x y z b IH] using bytes_ind3; [done | | |];
    cbn [b64_nopad all_chars]; rewrite !b64_char_ascii by zify_code; done.
Qed.

Lemma b64_nopad_length_le b : (String.length (b64_nopad b) <= 2 * length b)%nat.
Proof. induction b as [|x|x y|x y z b IH] using bytes_ind3; simpl in *; lia. Qed.
Lemma b64_nopad_length_mod b :
  ((- py_len (b64_nopad b)) mod 4 = Z.of_nat ((3 - length b mod 3) mod 3)).
Proof.
  unfold py_len. induction b as [|x|x y|x y z b IH] using bytes_ind3; [done | done | done |].
  cbn [b64_nopad String.length].
  replace (length (x :: y :: z :: b)) with (length b + 1 * 3)%nat by (simpl; lia).
  rewrite Nat.Div0.mod_add, <- IH.
  replace (- Z.of_nat (S (S (S (S (String.length (b64_nopad b)))))))
    with (- Z.of_nat (String.length (b64_nopad b)) + (-1) * 4) by lia.
  by rewrite Z.mod_add.
Qed.

Example token_example : token_urlsafe (encode "hello, world") = "aGVsbG8sIHdvcmxk"%string.
Proof. reflexivity. Qed.
#[global] Arguments b64_nopad : simpl never.
