(* ===== verification/Json.v ===== *)
(** The Python [json] module as the application uses it for signed states:
    [dumps(..., separators=(",", ":"))] and [loads].

    Strings hold code points below 256 (see PyStr), so [loads] rejects a [\u]
    escape above 00ff. A number with a fraction or an exponent keeps its literal
    ([JFloat]). The theorem [loads_dumps] is the round trip on values without
    floats whose objects have distinct keys (Python dicts). The parser's fuel is
    the length of its input plus one, which [loads_dumps] shows to be enough. *)
From S2P Require Import Prelude PyStr Hashing.
#[local] Set Warnings "-register-all".

Inductive json :=
  | JNull
  | JBool (b : bool)
  | JInt (z : Z)
  | JFloat (lit : string)
  | JStr (s : string)
  | JList (l : list json)
  | JObj (m : list (string * json)).

(** ** Decimal integers *)
Definition digit_char (n : N) : ascii := ascii_of_N (48 + n).
Definition digit_value (c : ascii) : N := (code c - 48)%N.

Fixpoint show_N_onto (fuel : nat) (n : N) (acc : string) : string :=
  match fuel with
  | O => acc
  | S f =>
      let acc' := String (digit_char (n mod 10)) acc in
      if (n <? 10)%N then acc' else show_N_onto f (n / 10) acc'
  end.
Definition show_N (n : N) : string := show_N_onto (S (N.size_nat n)) n EmptyString.
Definition show_Z (z : Z) : string :=
  if z <? 0 then String "-" (show_N (Z.abs_N z)) else show_N (Z.abs_N z).

(** The longest prefix of digits, as a number, and the rest. *)
Fixpoint read_digits (acc : N) (s : string) : N * string :=
  match s with
  | String c s' => if is_digit c then read_digits (acc * 10 + digit_value c) s' else (acc, s)
  | EmptyString => (acc, EmptyString)
  end.

(** ** Printing *)
Definition quote : ascii := ascii_of_N 34.
Definition backslash : ascii := ascii_of_N 92.

Definition escape_char (c : ascii) : string :=
  if char_eqb c quote then String backslash (String quote EmptyString)
  else if char_eqb c backslash then String backslash (String backslash EmptyString)
  else if (code c =? 10)%N then String backslash "n"
  else if (code c =? 13)%N then String backslash "r"
  else if (code c =? 9)%N then String backslash "t"
  else if (code c =? 12)%N then String backslash "f"
  else if (code c =? 8)%N then String backslash "b"
  else if in_range 32 126 c then String c EmptyString
  else String backslash (String "u" (String "0" (String "0"
         (String (hex_digit (code c / 16)) (String (hex_digit (code c mod 16)) EmptyString))))).

(** A string after its opening quote, up to and with the closing one. *)
Fixpoint dump_chars (s : string) : string :=
  match s with
  | EmptyString => String quote EmptyString
  | String c s' => String.append (escape_char c) (dump_chars s')
  end.
Definition dump_str (s : string) : string := String quote (dump_chars s).

Fixpoint dumps (v : json) : string :=
  match v with
  | JNull => "null"
  | JBool true => "true"
  | JBool false => "false"
  | JInt z => show_Z z
  | JFloat lit => lit
  | JStr s => dump_str s
  | JList l =>
      String "[" ((fix elems (l : list json) : string :=
        match l with
        | [] => "]"
        | [v] => String.append (dumps v) "]"
        | v :: l' => String.append (dumps v) (String "," (elems l'))
        end) l)
  | JObj m =>
      String "{" ((fix members (m : list (string * json)) : string :=
        match m with
        | [] => "}"
        | [(k, v)] => String.append (dump_str k) (String ":" (String.append (dumps v) "}"))
        | (k, v) :: m' =>
            String.append (dump_str k) (String ":" (String.append (dumps v) (String "," (members m'))))
        end) m)
  end%string.

(** ** Parsing *)
Definition is_json_space (c : ascii) : bool :=
  (code c =? 32)%N || (code c =? 9)%N || (code c =? 10)%N || (code c =? 13)%N.
Definition skip (s : string) : string := lstrip_by is_json_space s.

Definition hex_value (c : ascii) : option N :=
  if is_digit c then Some (code c - 48)%N
  else if in_range 97 102 c then Some (code c - 87)%N
  else if in_range 65 70 c then Some (code c - 55)%N
  else None.

Definition unescape (c : ascii) : option ascii :=
  if char_eqb c quote then Some quote
  else if char_eqb c backslash then Some backslash
  else if char_eqb c "/" then Some "/"%char
  else if char_eqb c "n" then Some (ascii_of_N 10)
  else if char_eqb c "r" then Some (ascii_of_N 13)
  else if char_eqb c "t" then Some (ascii_of_N 9)
  else if char_eqb c "f" then Some (ascii_of_N 12)
  else if char_eqb c "b" then Some (ascii_of_N 8)
  else None.

Definition cons_char (c : ascii) (r : option (string * string)) : option (string * string) :=
  match r with Some (s, rest) => Some (String c s, rest) | None => None end.

(** A string after its opening quote. *)
Fixpoint parse_chars (s : string) : option (string * string) :=
  match s with
  | EmptyString => None
  | String c s' =>
      if char_eqb c quote then Some (EmptyString, s')
      else if char_eqb c backslash then
        match s' with
        | String e s'' =>
            if char_eqb e "u" then
              match s'' with
              | String h1 (String h2 (String h3 (String h4 s3))) =>
                  match hex_value h1, hex_value h2, hex_value h3, hex_value h4 with
                  | Some 0%N, Some 0%N, Some x, Some y => cons_char (ascii_of_N (x * 16 + y)) (parse_chars s3)
                  | _, _, _, _ => None
                  end
              | _ => None
              end
            else match unescape e with
                 | Some d => cons_char d (parse_chars s'')
                 | None => None
                 end
        | EmptyString => None
        end
      else if (code c <? 32)%N then None
      else cons_char c (parse_chars s')
  end.

(** The fraction and exponent of a number, as literal text. *)
Fixpoint take_digits (s : string) : string * string :=
  match s with
  | String c s' => if is_digit c then let '(a, r) := take_digits s' in (String c a, r) else (EmptyString, s)
  | EmptyString => (EmptyString, EmptyString)
  end.
Definition parse_fraction (s : string) : string * string :=
  match s with
  | String c s' =>
      if char_eqb c "." then
        match take_digits s' with
        | (EmptyString, _) => (EmptyString, s)
        | (d, r) => (String c d, r)
        end
      else (EmptyString, s)
  | EmptyString => (EmptyString, s)
  end.
Definition parse_exponent (s : string) : string * string :=
  match s with
  | String c s' =>
      if char_eqb c "e" || char_eqb c "E" then
        let '(sign, s'') :=
          match s' with
          | String d t => if char_eqb d "+" || char_eqb d "-" then (String d EmptyString, t) else (EmptyString, s')
          | EmptyString => (EmptyString, s')
          end in
        match take_digits s'' with
        | (EmptyString, _) => (EmptyString, s)
        | (d, r) => (String c (String.append sign d), r)
        end
      else (EmptyString, s)
  | EmptyString => (EmptyString, s)
  end.

Definition parse_natural (s : string) : option (N * string) :=
  match s with
  | String c s' =>
      if char_eqb c "0" then Some (0%N, s')
      else if is_digit c then Some (read_digits 0 s) else None
  | EmptyString => None
  end.
Definition parse_number (s : string) : option (json * string) :=
  let '(neg, s1) := match s with
                    | String c s' => if char_eqb c "-" then (true, s') else (false, s)
                    | EmptyString => (false, s)
                    end in
  match parse_natural s1 with
  | None => None
  | Some (n, r) =>
      let z := if neg : bool then - Z.of_N n else Z.of_N n in
      let '(frac, r1) := parse_fraction r in
      let '(ex, r2) := parse_exponent r1 in
      match frac, ex with
      | EmptyString, EmptyString => Some (JInt z, r)
      | _, _ => Some (JFloat (String.append (show_Z z) (String.append frac ex)), r2)
      end
  end.

Definition literals : list (string * json) :=
  [("null", JNull); ("true", JBool true); ("false", JBool false);
   ("NaN", JFloat "NaN"); ("Infinity", JFloat "Infinity"); ("-Infinity", JFloat "-Infinity")]%string.
Fixpoint parse_literal (ls : list (string * json)) (s : string) : option (json * string) :=
  match ls with
  | [] => parse_number s
  | (w, v) :: ls' => if startswith s w then Some (v, removeprefix s w) else parse_literal ls' s
  end.

(** [d[k] = v] on an insertion-ordered dict. *)
Fixpoint dict_set (k : string) (v : json) (m : list (string * json)) : list (string * json) :=
  match m with
  | [] => [(k, v)]
  | (k', v') :: m' => if str_eqb k k' then (k, v) :: m' else (k', v') :: dict_set k v m'
  end.
Definition dict_of (kvs : list (string * json)) : list (string * json) :=
  fold_left (fun m kv => dict_set kv.1 kv.2 m) kvs [].

Fixpoint parse_value (fuel : nat) (s : string) : option (json * string) :=
  match fuel with
  | O => None
  | S f =>
      match s with
      | EmptyString => None
      | String c r =>
          if char_eqb c quote then
            match parse_chars r with Some (t, r') => Some (JStr t, r') | None => None end
          else if char_eqb c "[" then
            match skip r with
            | String d r' =>
                if char_eqb d "]" then Some (JList [], r')
                else match parse_elems f (String d r') with Some (l, r'') => Some (JList l, r'') | None => None end
            | EmptyString => None
            end
          else if char_eqb c "{" then
            match skip r with
            | String d r' =>
                if char_eqb d "}" then Some (JObj [], r')
                else match parse_members f (String d r') with
                     | Some (m, r'') => Some (JObj (dict_of m), r'')
                     | None => None
                     end
            | EmptyString => None
            end
          else parse_literal literals s
      end
  end
with parse_elems (fuel : nat) (s : string) : option (list json * string) :=
  match fuel with
  | O => None
  | S f =>
      match parse_value f s with
      | None => None
      | Some (v, r) =>
          match skip r with
          | String c r' =>
              if char_eqb c "]" then Some ([v], r')
              else if char_eqb c "," then
                match parse_elems f (skip r') with Some (l, r'') => Some (v :: l, r'') | None => None end
              else None
          | EmptyString => None
          end
      end
  end
with parse_members (fuel : nat) (s : string) : option (list (string * json) * string) :=
  match fuel with
  | O => None
  | S f =>
      match s with
      | EmptyString => None
      | String q r =>
          if char_eqb q quote then
            match parse_chars r with
            | None => None
            | Some (k, r1) =>
                match skip r1 with
                | String c r2 =>
                    if char_eqb c ":" then
                      match parse_value f (skip r2) with
                      | None => None
                      | Some (v, r3) =>
                          match skip r3 with
                          | String d r4 =>
                              if char_eqb d "}" then Some ([(k, v)], r4)
                              else if char_eqb d "," then
                                match parse_members f (skip r4) with
                                | Some (m, r5) => Some ((k, v) :: m, r5)
                                | None => None
                                end
                              else None
                          | EmptyString => None
                          end
                      end
                    else None
                | EmptyString => None
                end
            end
          else None
      end
  end.

Definition loads (s : string) : result json :=
  match parse_value (S (String.length s)) (skip s) with
  | Some (v, r) =>
      match skip r with EmptyString => Ok v | _ => Raise (ValueError "Extra data") end
  | None => Raise (ValueError "JSONDecodeError")
  end.

(** [d.get(k)] on a dict. *)
Fixpoint dict_get (k : string) (m : list (string * json)) : option json :=
  match m with
  | [] => None
  | (k', v) :: m' => if str_eqb k k' then Some v else dict_get k m'
  end.
Fixpoint dict_pop (k : string) (m : list (string * json)) : list (string * json) :=
  match m with
  | [] => []
  | (k', v) :: m' => if str_eqb k k' then m' else (k', v) :: dict_pop k m'
  end.

Example loads_spaced :
  loads " [ 1 , -20 , [ ] , null ]" = Ok (JList [JInt 1; JInt (-20); JList []; JNull]).
Proof. vm_compute. reflexivity. Qed.

(** ** Round trip *)

(** Values [dumps] prints and [loads] reads back: no floats, and objects with
    distinct keys, as Python dicts have. *)
Fixpoint wf_json (v : json) : Prop :=
  match v with
  | JFloat _ => False
  | JList l => (fix all (l : list json) : Prop := match l with [] => True | v :: l' => wf_json v /\ all l' end) l
  | JObj m =>
      List.NoDup (List.map fst m) /\
      (fix all (m : list (string * json)) : Prop :=
         match m with [] => True | kv :: m' => wf_json kv.2 /\ all m' end) m
  | _ => True
  end.

Fixpoint json_ind' (P : json -> Prop)
    (Hnull : P JNull) (Hbool : forall b, P (JBool b)) (Hint : forall z, P (JInt z))
    (Hfloat : forall l, P (JFloat l)) (Hstr : forall s, P (JStr s))
    (Hlist : forall l, Forall P l -> P (JList l))
    (Hobj : forall m, Forall (fun kv => P kv.2) m -> P (JObj m)) (v : json) : P v :=
  let rec := json_ind' P Hnull Hbool Hint Hfloat Hstr Hlist Hobj in
  match v with
  | JNull => Hnull
  | JBool b => Hbool b
  | JInt z => Hint z
  | JFloat l => Hfloat l
  | JStr s => Hstr s
  | JList l =>
      Hlist l ((fix go (l : list json) : Forall P l :=
        match l with [] => Forall_nil_2 _ | v :: l' => Forall_cons_2 _ _ _ (rec v) (go l') end) l)
  | JObj m =>
      Hobj m ((fix go (m : list (string * json)) : Forall (fun kv => P kv.2) m :=
        match m with [] => Forall_nil_2 _ | kv :: m' => Forall_cons_2 (fun kv => P kv.2) _ _ (rec kv.2) (go m') end) m)
  end.

(** The bodies of lists and objects, after their opening bracket. *)
Fixpoint elems (l : list json) : string :=
  match l with
  | [] => "]"
  | [v] => String.append (dumps v) "]"
  | v :: l' => String.append (dumps v) (String "," (elems l'))
  end%string.
Fixpoint members (m : list (string * json)) : string :=
  match m with
  | [] => "}"
  | [(k, v)] => String.append (dump_str k) (String ":" (String.append (dumps v) "}"))
  | (k, v) :: m' =>
      String.append (dump_str k) (String ":" (String.append (dumps v) (String "," (members m'))))
  end%string.

Lemma dumps_list l : dumps (JList l) = String "[" (elems l).
Proof. simpl. f_equal. Qed.
Lemma dumps_obj m : dumps (JObj m) = String "{" (members m).
Proof. simpl. f_equal. Qed.

(** *** Integers *)

Lemma show_onto_app fuel n acc rest :
  String.append (show_N_onto fuel n acc) rest = show_N_onto fuel n (String.append acc rest).
Proof.
  revert n acc. induction fuel as [|f IH]; intros n acc; simpl; [done |].
  destruct (n <? 10)%N; [done |]. by rewrite IH.
Qed.

Lemma digit_char_spec d : (d < 10)%N -> is_digit (digit_char d) = true /\ digit_value (digit_char d) = d.
Proof.
  intros Hd.
  assert (Hall : forallb (fun k => bool_decide (is_digit (digit_char (N.of_nat k)) = true /\
      digit_value (digit_char (N.of_nat k)) = N.of_nat k)) (List.seq 0 10) = true) by (vm_compute; reflexivity).
  rewrite forallb_forall in Hall. specialize (Hall (N.to_nat d)). rewrite N2Nat.id in Hall.
  apply bool_decide_eq_true in Hall; [done |]. apply List.in_seq. lia.
Qed.

Lemma read_digit a d s : (d < 10)%N -> read_digits a (String (digit_char d) s) = read_digits (a * 10 + d) s.
Proof. intros H. destruct (digit_char_spec _ H) as [H1 H2]. simpl. by rewrite H1, H2. Qed.

Lemma read_show fuel n acc : (n < 10 ^ N.of_nat fuel)%N -> (0 < fuel)%nat ->
  exists k, forall a, read_digits a (show_N_onto fuel n acc) = read_digits (a * k + n) acc.
Proof.
  revert n acc. induction fuel as [|f IH]; intros n acc Hn Hf; [lia |]. simpl.
  assert (Hm : (n mod 10 < 10)%N) by (apply N.mod_lt; lia).
  destruct (N.ltb_spec n 10) as [Hlt|Hge].
  - exists 10%N. intros a. rewrite read_digit by done. by rewrite N.mod_small.
  - rewrite Nat2N.inj_succ, N.pow_succ_r' in Hn.
    assert (Hf' : (0 < f)%nat). { destruct f; [simpl in Hn; lia | lia]. }
    destruct (IH (n / 10)%N (String (digit_char (n mod 10)) acc)) as [k Hk]; [| done |].
    { apply N.Div0.div_lt_upper_bound; lia. }
    exists (k * 10)%N. intros a. rewrite Hk, read_digit by done. f_equal.
    pose proof (N.div_mod n 10). lia.
Qed.

Lemma show_head fuel n acc : (n < 10 ^ N.of_nat fuel)%N -> (0 < fuel)%nat ->
  exists d t, show_N_onto fuel n acc = String (digit_char d) t /\ (d < 10)%N /\
    (d = 0%N -> n = 0%N /\ t = acc).
Proof.
  revert n acc. induction fuel as [|f IH]; intros n acc Hn Hf; [lia |]. simpl.
  assert (Hm : (n mod 10 < 10)%N) by (apply N.mod_lt; lia).
  destruct (N.ltb_spec n 10) as [Hlt|Hge].
  - exists (n mod 10)%N, acc. split_and!; [done | done |]. rewrite N.mod_small by done. done.
  - rewrite Nat2N.inj_succ, N.pow_succ_r' in Hn.
    assert (Hf' : (0 < f)%nat). { destruct f; [simpl in Hn; lia | lia]. }
    destruct (IH (n / 10)%N (String (digit_char (n mod 10)) acc)) as (d & t & -> & Hd & H0); [| done |].
    { apply N.Div0.div_lt_upper_bound; lia. }
    exists d, t. split_and!; [done | done |]. intros ->. destruct (H0 eq_refl) as [Hz _].
    exfalso. assert (1 <= n / 10)%N by (apply N.div_le_lower_bound; lia). lia.
Qed.

Lemma show_N_fuel n : (n < 10 ^ N.of_nat (S (N.size_nat n)))%N.
Proof.
  destruct n as [|p]; [done |].
  assert (H : (N.pos p < 2 ^ N.size (N.pos p))%N) by apply N.size_gt.
  assert (E : N.size (N.pos p) = N.of_nat (N.size_nat (N.pos p))).
  { assert (Hp : forall p, Pos.to_nat (Pos.size p) = Pos.size_nat p).
    { intros q. induction q as [q IH|q IH|]; cbn [Pos.size Pos.size_nat];
        [rewrite Pos2Nat.inj_succ; congruence.. | done]. }
    simpl. rewrite <- Hp. lia. }
  rewrite E in H. eapply N.lt_le_trans; [exact H |].
  transitivity (10 ^ N.of_nat (N.size_nat (N.pos p)))%N; [| apply N.pow_le_mono_r; lia].
  apply N.pow_le_mono_l. lia.
Qed.

(** What may follow a value inside a document: the end, or a closing mark. *)
Definition delim (rest : string) : Prop :=
  match rest with EmptyString => True | String c _ => c = ","%char \/ c = "]"%char \/ c = "}"%char end.

Lemma read_digits_delim a rest : delim rest -> read_digits a rest = (a, rest).
Proof. destruct rest as [|c rest]; [done |]. by intros [-> | [-> | ->]]. Qed.
Lemma fraction_delim rest : delim rest -> parse_fraction rest = (EmptyString, rest).
Proof. destruct rest as [|c rest]; [done |]. by intros [-> | [-> | ->]]. Qed.
Lemma exponent_delim rest : delim rest -> parse_exponent rest = (EmptyString, rest).
Proof. destruct rest as [|c rest]; [done |]. by intros [-> | [-> | ->]]. Qed.

Lemma parse_natural_show n rest : delim rest ->
  parse_natural (String.append (show_N n) rest) = Some (n, rest).
Proof.
  intros Hd. unfold show_N. rewrite show_onto_app. cbn [String.append].
  destruct (show_head (S (N.size_nat n)) n rest) as (d & t & E & Hlt & H0);
    [apply show_N_fuel | lia |].
  destruct (read_show (S (N.size_nat n)) n rest) as [k Hk]; [apply show_N_fuel | lia |].
  specialize (Hk 0%N). rewrite E in *. unfold parse_natural.
  destruct (digit_char_spec _ Hlt) as [H1 H2].
  destruct (char_eqb (digit_char d) "0") eqn:Ez.
  - apply char_eqb_eq in Ez. rewrite Ez in H2. destruct (H0 (eq_sym H2)) as [-> ->]. done.
  - rewrite H1, Hk. f_equal. by apply read_digits_delim.
Qed.

Lemma show_N_digit n : exists c t, show_N n = String c t /\ is_digit c = true.
Proof.
  destruct (show_head (S (N.size_nat n)) n EmptyString) as (d & t & E & Hlt & _);
    [apply show_N_fuel | lia |].
  exists (digit_char d), t. split; [exact E | by apply digit_char_spec].
Qed.

Lemma is_digit_cases c : is_digit c = true ->
  exists d, (d < 10)%N /\ c = digit_char d.
Proof.
  unfold is_digit, in_range. intros H. bool_hyps. apply N.leb_le in H, H0.
  exists (code c - 48)%N. split; [lia |]. unfold digit_char.
  replace (48 + (code c - 48))%N with (code c) by lia. symmetry. apply ascii_N_embedding.
Qed.

Lemma parse_number_show z rest : delim rest ->
  parse_number (String.append (show_Z z) rest) = Some (JInt z, rest).
Proof.
  intros Hd. unfold parse_number, show_Z.
  destruct (Z.ltb_spec z 0) as [Hneg|Hpos].
  - simpl. rewrite parse_natural_show by done.
    rewrite fraction_delim, exponent_delim by done. do 3 f_equal. lia.
  - pose proof (parse_natural_show (Z.abs_N z) rest Hd) as Hn.
    destruct (show_N_digit (Z.abs_N z)) as (c & t & E & Hc). rewrite E in *. cbn [String.append] in *.
    replace (char_eqb c "-") with false.
    2: { symmetry. apply char_eqb_neq. intros ->. done. }
    rewrite Hn, fraction_delim, exponent_delim by done. do 3 f_equal. lia.
Qed.

(** *** Strings *)

Lemma parse_escaped c s : parse_chars (String.append (escape_char c) s) = cons_char c (parse_chars s).
Proof. destruct c as [[] [] [] [] [] [] [] []]; reflexivity. Qed.

Lemma parse_dump_chars s rest : parse_chars (String.append (dump_chars s) rest) = Some (s, rest).
Proof.
  induction s as [|c s IH]; [done |]. cbn [dump_chars].
  by rewrite app_assoc_str, parse_escaped, IH.
Qed.

(** *** First characters *)

Definition starts_value (c : ascii) : Prop :=
  is_json_space c = false /\ c <> "]"%char /\ c <> "}"%char.

Lemma starts_digit c : is_digit c = true -> starts_value c.
Proof.
  intros (d & Hd & ->)%is_digit_cases.
  assert (E : In (N.to_nat d) (List.seq 0 10)) by (apply List.in_seq; lia).
  rewrite <- (N2Nat.id d). simpl in E. repeat destruct E as [<-|E]; by repeat split.
Qed.

Lemma dumps_head v : wf_json v -> exists c t, dumps v = String c t /\ starts_value c.
Proof.
  destruct v as [|[]|z|lit|s|l|m]; intros Hwf.
  - exists "n"%char, "ull"%string. by repeat split.
  - exists "t"%char, "rue"%string. by repeat split.
  - exists "f"%char, "alse"%string. by repeat split.
  - simpl. unfold show_Z. destruct (show_N_digit (Z.abs_N z)) as (c & t & E & Hc). destruct (z <? 0).
    + eexists "-"%char, _. split; [done | by repeat split].
    + rewrite E. exists c, t. split; [done | by apply starts_digit].
  - done.
  - eexists quote, _. split; [done | by repeat split].
  - rewrite dumps_list. eexists "["%char, _. split; [done | by repeat split].
  - rewrite dumps_obj. eexists "{"%char, _. split; [done | by repeat split].
Qed.

Lemma skip_value v rest : wf_json v -> skip (String.append (dumps v) rest) = String.append (dumps v) rest.
Proof. intros (c & t & -> & Hs & _)%dumps_head. unfold skip. simpl. by rewrite Hs. Qed.

(** *** Dicts *)

Lemma dict_set_fresh k v m : ~ In k (List.map fst m) -> dict_set k v m = m ++ [(k, v)].
Proof.
  induction m as [|[k' v'] m IH]; intros H; simpl in *; [done |].
  destruct (str_eqb k k') eqn:E; [apply str_eqb_eq in E as ->; tauto |]. rewrite IH; tauto.
Qed.

Lemma dict_of_nodup m : List.NoDup (List.map fst m) -> dict_of m = m.
Proof.
  unfold dict_of. intros Hnd.
  enough (H : forall acc, List.NoDup (List.map fst (acc ++ m)) ->
    fold_left (fun m kv => dict_set kv.1 kv.2 m) m acc = acc ++ m) by (by apply (H [])).
  clear Hnd. induction m as [|[k v] m IH]; intros acc Hnd; simpl; [by rewrite app_nil_r |].
  rewrite dict_set_fresh.
  - rewrite IH; rewrite <- app_assoc; done.
  - rewrite List.map_app in Hnd. simpl in Hnd. apply List.NoDup_remove_2 in Hnd.
    intros Hin. apply Hnd, List.in_or_app. by left.
Qed.

(** *** The parser reads a printed value back *)

(** Fuel that suffices for a value and for the bodies of lists and objects. *)
Definition reads (v : json) : Prop :=
  wf_json v -> forall fuel rest, delim rest ->
  (String.length (dumps v) <= fuel)%nat ->
  parse_value fuel (String.append (dumps v) rest) = Some (v, rest).

Lemma reads_int z : reads (JInt z).
Proof.
  intros _ [|f] rest Hd Hlen; [exfalso; simpl in Hlen |].
  - unfold show_Z in Hlen. destruct (show_N_digit (Z.abs_N z)) as (c & t & E & _).
    destruct (z <? 0); [simpl in Hlen; lia | rewrite E in Hlen; simpl in Hlen; lia].
  - clear Hlen. rewrite <- (parse_number_show z rest Hd). cbn [dumps].
    destruct (show_N_digit (Z.abs_N z)) as (c & t & E & (d & Hlt & ->)%is_digit_cases).
    assert (Hin : In (N.to_nat d) (List.seq 0 10)) by (apply List.in_seq; lia).
    rewrite <- (N2Nat.id d) in E. unfold show_Z. rewrite E. clear E. destruct (z <? 0);
      simpl in Hin; repeat destruct Hin as [<-|Hin]; done.
Qed.

Lemma parse_elems_correct l :
  Forall reads l -> wf_json (JList l) -> l <> [] -> forall fuel rest,
  (String.length (elems l) <= fuel)%nat ->
  parse_elems fuel (String.append (elems l) rest) = Some (l, rest).
Proof.
  induction 1 as [|v l Hv Hl IH]; intros Hwf Hne fuel rest Hlen; [done |].
  destruct Hwf as [Hwv Hwl].
  destruct fuel as [|f]. { exfalso. destruct l; simpl in Hlen; rewrite length_app_str in Hlen; simpl in Hlen; lia. }
  destruct l as [|v' l'].
  - cbn [elems] in *. rewrite length_app_str in Hlen. rewrite app_assoc_str. cbn [parse_elems].
    rewrite (Hv Hwv); [done | by right; left | simpl in Hlen; lia].
  - change (elems (v :: v' :: l')) with (String.append (dumps v) (String "," (elems (v' :: l')))) in *.
    rewrite length_app_str in Hlen. rewrite app_assoc_str. cbn [parse_elems].
    rewrite (Hv Hwv); [| by left | simpl in Hlen; lia]. cbn [String.append].
    change (skip (String "," ?x)) with (String "," x). cbn match.
    change (char_eqb "," "]") with false. change (char_eqb "," ",") with true. cbn match.
    assert (Hskip : forall r, skip (String.append (elems (v' :: l')) r) = String.append (elems (v' :: l')) r).
    { intros r. destruct l'; cbn [elems]; rewrite app_assoc_str; apply skip_value, Hwl. }
    rewrite Hskip, IH; [done | done | done | simpl in Hlen |- *; lia].
Qed.

Lemma parse_members_correct m :
  Forall (fun kv => reads kv.2) m -> wf_json (JObj m) -> m <> [] -> forall fuel rest,
  (String.length (members m) <= fuel)%nat ->
  parse_members fuel (String.append (members m) rest) = Some (m, rest).
Proof.
  induction 1 as [|[k v] m Hv Hm IH]; intros Hwf Hne fuel rest Hlen; [done |].
  destruct Hwf as [Hnd [Hwv Hwm]]. cbn [fst snd] in *.
  destruct fuel as [|f].
  { exfalso. destruct m as [|[]]; cbn [members] in Hlen; rewrite length_app_str in Hlen; simpl in Hlen; lia. }
  assert (Hnd' : List.NoDup (List.map fst m)) by (by inversion Hnd).
  destruct m as [|[k' v'] m'].
  - cbn [members] in *. unfold dump_str in *. cbn [String.append] in *.
    rewrite app_assoc_str. cbn [parse_members]. rewrite char_eqb_refl, parse_dump_chars.
    cbn [String.append]. change (skip (String ":" ?x)) with (String ":" x). cbn match.
    change (char_eqb ":" ":") with true. cbn match. rewrite app_assoc_str, skip_value by done.
    rewrite (Hv Hwv); [done | by right; right |]. simpl in Hlen. rewrite !length_app_str in Hlen.
    simpl in Hlen. rewrite length_app_str in Hlen. lia.
  - set (rec := members ((k', v') :: m')) in *.
    change (members ((k, v) :: (k', v') :: m')) with
      (String.append (dump_str k) (String ":" (String.append (dumps v) (String "," rec)))) in *.
    unfold dump_str in *. cbn [String.append] in *.
    rewrite app_assoc_str. cbn [parse_members]. rewrite char_eqb_refl, parse_dump_chars.
    cbn [String.append]. change (skip (String ":" ?x)) with (String ":" x). cbn match.
    change (char_eqb ":" ":") with true. cbn match. rewrite app_assoc_str, skip_value by done.
    simpl in Hlen. rewrite !length_app_str in Hlen. simpl in Hlen. rewrite length_app_str in Hlen. simpl in Hlen.
    rewrite (Hv Hwv); [| by left | lia]. cbn [String.append].
    change (skip (String "," ?x)) with (String "," x). cbn match.
    change (char_eqb "," "}") with false. change (char_eqb "," ",") with true. cbn match.
    assert (Hskip : forall r, skip (String.append rec r) = String.append rec r).
    { intros r. unfold rec. destruct m'; done. }
    rewrite Hskip, IH; [done | by split | done | lia].
Qed.

Lemma parse_literal_hit w v ls rest : parse_literal ((w, v) :: ls) (String.append w rest) = Some (v, rest).
Proof. cbn [parse_literal]. by rewrite startswith_app, removeprefix_app. Qed.

Lemma parse_value_correct v : reads v.
Proof.
  induction v as [|b|z|lit|s|l IH|m IH] using json_ind'; [| | apply reads_int | by intros [] | | |];
    intros Hwf fuel rest Hd Hlen; (destruct fuel as [|f]; [exfalso; try destruct b; simpl in Hlen; lia |]).
  - apply (parse_literal_hit "null").
  - destruct b; [apply (parse_literal_hit "true") | apply (parse_literal_hit "false")].
  - cbn [dumps dump_str String.append parse_value]. by rewrite char_eqb_refl, parse_dump_chars.
  - rewrite dumps_list in *. cbn [String.append parse_value].
    change (char_eqb "[" quote) with false. change (char_eqb "[" "[") with true. cbn match.
    destruct l as [|v l]; [done |].
    assert (Hh : exists c t, String.append (elems (v :: l)) rest = String c t /\ starts_value c).
    { destruct Hwf as [Hwv _]. destruct (dumps_head v Hwv) as (c & t & E & Hs).
      destruct l; cbn [elems]; rewrite E; eauto. }
    destruct Hh as (c & t & E & Hs1 & Hs2 & _). pose proof E as E'.
    unfold skip. rewrite E. simpl lstrip_by. rewrite Hs1.
    rewrite (proj2 (char_eqb_neq c "]") Hs2). rewrite <- E'.
    rewrite parse_elems_correct; [done | done | done | done | simpl in Hlen; simpl; lia].
  - rewrite dumps_obj in *. cbn [String.append parse_value].
    change (char_eqb "{" quote) with false. change (char_eqb "{" "[") with false.
    change (char_eqb "{" "{") with true. cbn match.
    destruct m as [|[k v] m]; [done |].
    assert (Hh : exists t, String.append (members ((k, v) :: m)) rest = String quote t).
    { destruct m as [|[]]; cbn [members]; unfold dump_str; cbn [String.append]; eauto. }
    destruct Hh as (t & E). pose proof E as E'. unfold skip. rewrite E. simpl lstrip_by.
    change (is_json_space quote) with false. change (char_eqb quote "}") with false. cbn match. rewrite <- E'.
    rewrite parse_members_correct; [| done | done | done | simpl in Hlen; simpl; lia].
    rewrite dict_of_nodup; [done | apply Hwf].
Qed.

(** [json.loads(json.dumps(v)) == v]. *)
Lemma loads_dumps v : wf_json v -> loads (dumps v) = Ok v.
Proof.
  intros Hwf. unfold loads. pose proof (skip_value v EmptyString Hwf) as Hs.
  rewrite app_empty_r in Hs. rewrite Hs. pose proof (parse_value_correct v Hwf) as Hp.
  specialize (Hp (S (String.length (dumps v))) EmptyString I). rewrite app_empty_r in Hp.
  by rewrite Hp by lia.
Qed.

(** Every character [dumps] writes is ASCII, so encoding it in UTF-8 is the identity. *)
Definition ascii_only (s : string) : bool := all_chars (fun c => (code c <? 128)%N) s.

Lemma encode_ascii s : ascii_only s = true -> text_of (encode s) = s.
Proof.
  unfold ascii_only, text_of. induction s as [|c s IH]; simpl; intros H; [done |]. bool_hyps.
  unfold encode_char. rewrite H. simpl. by rewrite IH.
Qed.

Lemma escape_char_ascii c : ascii_only (escape_char c) = true.
Proof. destruct c as [[] [] [] [] [] [] [] []]; reflexivity. Qed.

Lemma dump_chars_ascii s : ascii_only (dump_chars s) = true.
Proof.
  unfold ascii_only. induction s as [|c s IH]; [done |]. cbn [dump_chars].
  rewrite all_chars_app, IH, andb_true_r. apply escape_char_ascii.
Qed.

Lemma show_onto_ascii fuel n acc : ascii_only acc = true -> ascii_only (show_N_onto fuel n acc) = true.
Proof.
  revert n acc. induction fuel as [|f IH]; intros n acc H; simpl; [done |].
  assert (Hd : ascii_only (String (digit_char (n mod 10)) acc) = true).
  { unfold ascii_only in *. simpl. rewrite H, andb_true_r. apply N.ltb_lt.
    assert (Hm : (n mod 10 < 10)%N) by (apply N.mod_lt; lia). unfold digit_char, code.
    rewrite N_ascii_embedding; lia. }
  destruct (n <? 10)%N; [done | by apply IH].
Qed.

Lemma dumps_ascii v : wf_json v -> ascii_only (dumps v) = true.
Proof.
  unfold ascii_only. induction v as [|[]|z|lit|s|l IH|m IH] using json_ind'; intros Hwf; try done.
  - simpl. unfold show_Z. destruct (z <? 0); [simpl |]; by apply show_onto_ascii.
  - simpl. apply dump_chars_ascii.
  - rewrite dumps_list. simpl. induction IH as [|v l Hv Hl IHl]; [done |]. destruct Hwf as [Hwv Hwl].
    destruct l; cbn [elems] in *; rewrite all_chars_app, Hv by done; [done |]. simpl. by apply IHl.
  - rewrite dumps_obj. simpl. destruct Hwf as [_ Hwf]. induction IH as [|[k v] m Hv Hm IHm]; [done |].
    destruct Hwf as [Hwv Hwm]. cbn [snd] in Hv, Hwv. unfold dump_str in *.
    destruct m as [|[]]; cbn [members dump_str] in *; unfold dump_str; rewrite all_chars_app; simpl;
      (rewrite (dump_chars_ascii k : all_chars _ _ = true)); simpl; rewrite all_chars_app, Hv by done; [done |].
    simpl. by apply IHm.
Qed.
