(* ===== verification/Config.v ===== *)
(** [app/core/config.py] and [app/core/crypto.py]: the settings record, the
    master key, and the envelope encryption of the secrets kept in the database.

    AES-GCM (the [cryptography] package) is an interface; the laws are its
    documented behaviour: decryption under the same key and nonce gives the
    plaintext back, and the sealed text is the plaintext plus a 16-octet tag. *)
From S2P Require Import Prelude PyStr Hashing Base64.

Inductive AppEnv := dev | staging | prod.
#[export] Instance AppEnv_eq_dec : EqDecision AppEnv.
Proof. solve_decision. Defined.

(** The settings the modelled code reads ([get_settings()] caches one value). *)
Class Settings := {
  app_env : AppEnv;
  app_version : string;
  auth_master_key : string;
  session_ttl_hours : Z;
  session_cookie_name : string;
  session_cookie_domain : string;
  public_base_url : string;
  invitation_ttl_hours : Z;
  login_challenge_ttl_minutes : Z;
  google_client_id : string;
  google_client_secret : string;
  microsoft_client_id : string;
  microsoft_client_secret : string;
  google_connector_client_id : string;
  google_connector_client_secret : string;
  microsoft_connector_client_id : string;
  microsoft_connector_client_secret : string;
  connector_refresh_lead_minutes : Z;
  connector_webhook_base_url : string;
  smtp_host : string;
  smtp_port : Z;
  smtp_user : string;
  smtp_password : string;
  smtp_sender : string;
  auth_rate_limit_attempts : Z;
  auth_rate_limit_window_seconds : Z;
  anthropic_api_key : string;
  openai_api_key : string;
  mistral_api_key : string;
  ai_default_provider : string;
  ai_default_model : string;
  ai_request_timeout_seconds : Z;
  ai_quota_default_monthly_tokens : Z;
  ai_usage_raw_retention_days : Z;
}.

(** The defaults of the class. *)
Definition default_settings : Settings := {|
  app_env := dev;
  app_version := "0.1.0";
  auth_master_key := "";
  session_ttl_hours := 168;
  session_cookie_name := "saas_session";
  session_cookie_domain := "";
  public_base_url := "http://localhost:8000";
  invitation_ttl_hours := 168;
  login_challenge_ttl_minutes := 5;
  google_client_id := ""; google_client_secret := "";
  microsoft_client_id := ""; microsoft_client_secret := "";
  google_connector_client_id := ""; google_connector_client_secret := "";
  microsoft_connector_client_id := ""; microsoft_connector_client_secret := "";
  connector_refresh_lead_minutes := 10;
  connector_webhook_base_url := "";
  smtp_host := ""; smtp_port := 587; smtp_user := ""; smtp_password := ""; smtp_sender := "";
  auth_rate_limit_attempts := 10;
  auth_rate_limit_window_seconds := 300;
  anthropic_api_key := ""; openai_api_key := ""; mistral_api_key := "";
  ai_default_provider := "mistral";
  ai_default_model := "mistral-small-latest";
  ai_request_timeout_seconds := 120;
  ai_quota_default_monthly_tokens := 5000000;
  ai_usage_raw_retention_days := 90
|}.

(** [s] with the Google applications of the login and of the connectors configured. *)
Definition with_google (s : Settings) : Settings := {|
  app_env := @app_env s; app_version := @app_version s; auth_master_key := @auth_master_key s;
  session_ttl_hours := @session_ttl_hours s; session_cookie_name := @session_cookie_name s;
  session_cookie_domain := @session_cookie_domain s; public_base_url := @public_base_url s;
  invitation_ttl_hours := @invitation_ttl_hours s; login_challenge_ttl_minutes := @login_challenge_ttl_minutes s;
  google_client_id := "login-app"; google_client_secret := "login-secret";
  microsoft_client_id := @microsoft_client_id s; microsoft_client_secret := @microsoft_client_secret s;
  google_connector_client_id := "connector-app"; google_connector_client_secret := "connector-secret";
  microsoft_connector_client_id := @microsoft_connector_client_id s;
  microsoft_connector_client_secret := @microsoft_connector_client_secret s;
  connector_refresh_lead_minutes := @connector_refresh_lead_minutes s;
  connector_webhook_base_url := @connector_webhook_base_url s; smtp_host := @smtp_host s;
  smtp_port := @smtp_port s; smtp_user := @smtp_user s; smtp_password := @smtp_password s; smtp_sender := @smtp_sender s;
  auth_rate_limit_attempts := @auth_rate_limit_attempts s;
  auth_rate_limit_window_seconds := @auth_rate_limit_window_seconds s; anthropic_api_key := @anthropic_api_key s;
  openai_api_key := @openai_api_key s; mistral_api_key := @mistral_api_key s;
  ai_default_provider := @ai_default_provider s; ai_default_model := @ai_default_model s;
  ai_request_timeout_seconds := @ai_request_timeout_seconds s;
  ai_quota_default_monthly_tokens := @ai_quota_default_monthly_tokens s;
  ai_usage_raw_retention_days := @ai_usage_raw_retention_days s |}.

(** [hashlib.sha256(b"saas-dev-master-key-not-a-secret").digest()] *)
Definition dev_master_key : bytes := Sha256.sha256 (encode "saas-dev-master-key-not-a-secret").

#[global] Opaque dev_master_key.

Section config.
Context {CFG : Settings}.

Definition master_key_bytes : result bytes :=
  if negb (str_eqb auth_master_key "") then
    let! key := b64decode auth_master_key in
    raise_if! (negb (length key =? 32)%nat)
      (ValueError "AUTH_MASTER_KEY doit décoder exactement 32 octets (AES-256).") in
    Ok key
  else if bool_decide (app_env = dev) then
    Ok dev_master_key
  else Raise (ValueError "AUTH_MASTER_KEY est obligatoire hors environnement dev.").

Definition session_cookie_secure : bool := negb (bool_decide (app_env = dev)).
Definition connector_webhook_base : string := str_or connector_webhook_base_url public_base_url.
End config.

(** ** The key provider *)

Class AesGcm := {
  aes_seal : bytes -> bytes -> bytes -> bytes;
  aes_open : bytes -> bytes -> bytes -> option bytes;
  aes_open_seal k n p : aes_open k n (aes_seal k n p) = Some p;
  aes_seal_length k n p : length (aes_seal k n p) = (length p + 16)%nat;
}.

Module Crypto.
Definition NONCE_SIZE : nat := 12.

Section provider.
Context {CFG : Settings} {AES : AesGcm}.

(** [EnvKeyProvider(master_key)]: its state is the key. *)
Definition EnvKeyProvider (master_key : bytes) : result bytes :=
  raise_if! (negb (length master_key =? 32)%nat)
    (CryptoError "La clé maître doit faire exactement 32 octets (AES-256).") in
  Ok master_key.

Definition get_key_provider : result bytes :=
  let! key := master_key_bytes in EnvKeyProvider key.

(** [nonce] is [os.urandom(12)]. *)
Definition encrypt (key nonce plaintext : bytes) : bytes := nonce ++ aes_seal key nonce plaintext.

Definition decrypt (key ciphertext : bytes) : result bytes :=
  raise_if! (length ciphertext <=? NONCE_SIZE)%nat (CryptoError "Données chiffrées tronquées.") in
  match aes_open key (take NONCE_SIZE ciphertext) (drop NONCE_SIZE ciphertext) with
  | Some plaintext => Ok plaintext
  | None => Raise (CryptoError "Déchiffrement impossible : clé invalide ou données corrompues.")
  end.

Lemma decrypt_encrypt key nonce p :
  length nonce = NONCE_SIZE -> decrypt key (encrypt key nonce p) = Ok p.
Proof.
  intros Hn. unfold decrypt, encrypt.
  rewrite List.length_app, Hn, aes_seal_length.
  destruct (Nat.leb_spec (NONCE_SIZE + (length p + 16)) NONCE_SIZE); [lia |].
  by rewrite <- Hn, take_app_length, drop_app_length, aes_open_seal.
Qed.

End provider.
End Crypto.

(** Secrets in the database are encrypted with the configured key. *)
Section secrets.
Context {CFG : Settings} {AES : AesGcm}.

(** [get_key_provider().encrypt(text.encode())] *)
Definition seal_text (nonce : bytes) (text : string) : result bytes :=
  let! key := Crypto.get_key_provider in Ok (Crypto.encrypt key nonce (encode text)).

(** [get_key_provider().decrypt(sealed).decode()], for ASCII text. *)
Definition unseal_text (sealed : bytes) : result string :=
  let! key := Crypto.get_key_provider in
  let! p := Crypto.decrypt key sealed in Ok (text_of p).
End secrets.
