(* ===== verification/Tokens.v ===== *)
(** [app/auth/tokens.py]: opaque tokens and signed payloads. Instants are
    microseconds since the epoch; [time.time()] is the argument [now]. *)
From S2P Require Import Prelude PyStr Hashing Base64 Json Config.

Definition TOKEN_BYTES : nat := 32.
Definition second : Z := 1000000.

(** [generate_token()] for the 32 octets [secrets] draws. *)
Definition generate_token (random : bytes) : string := token_urlsafe random.
Definition hash_token (token : string) : string := sha256_hexdigest (encode token).
#[global] Opaque hash_token.

Definition b64encode_nopad (data : bytes) : string := b64_nopad data.
Definition b64decode_nopad (data : string) : result bytes :=
  urlsafe_b64decode (String.append data (padding (Z.to_nat ((- py_len data) mod 4)))).

(** [bytes.decode()] (UTF-8), for code points below 256. *)
Fixpoint decode_utf8 (b : bytes) : result string :=
  match b with
  | [] => Ok EmptyString
  | c :: b' =>
      if (code c <? 128)%N then result_map (String c) (decode_utf8 b')
      else match b' with
           | d :: b'' =>
               if in_range 194 195 c && in_range 128 191 d
               then result_map (String (ascii_of_N (64 * (code c - 192) + (code d - 128)))) (decode_utf8 b'')
               else Raise (ValueError "UnicodeDecodeError")
           | [] => Raise (ValueError "UnicodeDecodeError")
           end
  end.

(** [isinstance(x, int)]: booleans are integers. *)
Definition as_int (v : option json) : option Z :=
  match v with
  | Some (JInt z) => Some z
  | Some (JBool b) => Some (if b then 1 else 0)
  | _ => None
  end.

(** Errors of the decoding chain that are [ValueError]s become
    [InvalidSignedPayloadError]; others pass. *)
Definition unreadable {A} (r : result A) : result A :=
  match r with
  | Raise (ValueError _) => Raise (InvalidSignedPayloadError "Payload signé illisible.")
  | _ => r
  end.

Section tokens.
Context {CFG : Settings}.

Definition signature (payload : string) : result string :=
  let! key := master_key_bytes in
  Ok (b64encode_nopad (Hmac.hmac_sha256 key (encode payload))).

Definition signed_body (data : list (string * json)) (ttl_seconds now : Z) : list (string * json) :=
  dict_set "exp" (JInt (now / second + ttl_seconds)) data.

Definition sign_payload (data : list (string * json)) (ttl_seconds now : Z) : result string :=
  let payload := b64encode_nopad (encode (dumps (JObj (signed_body data ttl_seconds now)))) in
  let! sg := signature payload in
  Ok (String.append payload (String "." sg)).

(** [hmac.compare_digest] on two [str]: ASCII only. *)
Definition compare_digest (a b : string) : result bool :=
  if ascii_only a && ascii_only b then Ok (str_eqb a b) else Raise TypeError.

Definition verify_payload (signed : string) (now : Z) : result (list (string * json)) :=
  let '(payload, _, sg) := partition_char "." signed in
  raise_if! (str_eqb payload "" || str_eqb sg "") (InvalidSignedPayloadError "Payload signé malformé.") in
  let! expected := signature payload in
  let! same := compare_digest sg expected in
  raise_if! (negb same) (InvalidSignedPayloadError "Signature invalide.") in
  let! body := unreadable (let! raw := b64decode_nopad payload in
                           let! text := decode_utf8 raw in loads text) in
  match body with
  | JObj m =>
      match as_int (dict_get "exp" m) with
      | Some expires_at =>
          raise_if! (expires_at * second <? now) (InvalidSignedPayloadError "Payload signé expiré.") in
          Ok (dict_pop "exp" m)
      | None => Raise (InvalidSignedPayloadError "Payload signé expiré.")
      end
  | _ => Raise AttributeError
  end.
End tokens.

(** ** Lemmas *)

Lemma b64decode_encode b : b64decode_nopad (b64encode_nopad b) = Ok b.
Proof.
  unfold b64decode_nopad, b64encode_nopad. rewrite b64_nopad_length_mod, Nat2Z.id. apply a2b_b64_nopad.
Qed.

Lemma decode_encode_ascii s : ascii_only s = true -> decode_utf8 (encode s) = Ok s.
Proof.
  unfold ascii_only. induction s as [|c s IH]; intros H; [done |]. simpl in *. bool_hyps.
  unfold encode_char. rewrite H. simpl. rewrite H, IH by done. done.
Qed.

Lemma decode_encode_char c rest : decode_utf8 (encode_char c ++ rest) = result_map (String c) (decode_utf8 rest).
Proof. destruct c as [[] [] [] [] [] [] [] []]; reflexivity. Qed.
Lemma decode_encode s : decode_utf8 (encode s) = Ok s.
Proof.
  induction s as [|c s IH]; [done |]. change (encode (String c s)) with (encode_char c ++ encode s).
  by rewrite decode_encode_char, IH.
Qed.

Lemma dict_get_set k v m : dict_get k (dict_set k v m) = Some v.
Proof.
  induction m as [|[k' v'] m IH]; simpl; [by rewrite str_eqb_refl |].
  destruct (str_eqb k k') eqn:E; simpl; [by rewrite str_eqb_refl | by rewrite E].
Qed.

Lemma dict_set_keys k v m x : In x (List.map fst (dict_set k v m)) <-> x = k \/ In x (List.map fst m).
Proof.
  induction m as [|[k' v'] m IH]; simpl; [intuition congruence |].
  destruct (str_eqb k k') eqn:E; simpl; [apply str_eqb_eq in E as ->; intuition congruence |].
  rewrite IH. intuition congruence.
Qed.

Lemma wf_dict_set k v m : wf_json v -> wf_json (JObj m) -> wf_json (JObj (dict_set k v m)).
Proof.
  intros Hv [Hnd Hm]. split.
  - clear Hm. induction m as [|[k' v'] m IH]; simpl in *; [repeat constructor; by intros [] |].
    apply List.NoDup_cons_iff in Hnd as [Hni Hnd].
    destruct (str_eqb k k') eqn:E; simpl.
    + apply str_eqb_eq in E as ->. by constructor.
    + constructor; [| by apply IH]. rewrite dict_set_keys. apply str_eqb_neq in E. intuition congruence.
  - clear Hnd. induction m as [|[k' v'] m IH]; simpl in *; [done |].
    destruct Hm as [H1 H2]. destruct (str_eqb k k'); simpl; [done |]. split; [done | by apply IH].
Qed.

Section token_lemmas.
Context {CFG : Settings}.

Lemma signature_ascii p sg : signature p = Ok sg -> ascii_only sg = true.
Proof.
  unfold signature. destruct master_key_bytes as [key|]; [| done]. intros <-%Ok_inj. apply b64_nopad_ascii.
Qed.

Lemma signature_nonempty p sg : signature p = Ok sg -> str_eqb sg "" = false.
Proof.
  unfold signature. destruct master_key_bytes as [key|]; [| done]. intros <-%Ok_inj. unfold b64encode_nopad.
  pose proof (hmac_length key (encode p)) as Hl.
  destruct (Hmac.hmac_sha256 key (encode p)) as [|x [|y [|z b]]]; done.
Qed.

Lemma b64_nopad_nonempty b : b <> [] -> str_eqb (b64encode_nopad b) "" = false.
Proof. by destruct b as [|x [|y [|z b]]]. Qed.

Lemma compare_digest_refl sg : ascii_only sg = true -> compare_digest sg sg = Ok true.
Proof. intros H. unfold compare_digest. by rewrite H, str_eqb_refl. Qed.

(** The body of a payload that [sign_payload] produced reads back. *)
Lemma read_signed_body m : wf_json (JObj m) ->
  unreadable (let! raw := b64decode_nopad (b64encode_nopad (encode (dumps (JObj m)))) in
              let! text := decode_utf8 raw in loads text) = Ok (JObj m).
Proof.
  intros Hwf. rewrite b64decode_encode. cbn [result_bind].
  rewrite decode_encode_ascii by by apply dumps_ascii. cbn [result_bind]. by rewrite loads_dumps.
Qed.
End token_lemmas.

(** ** Properties *)

Section properties.
Context {CFG : Settings}.

(** What becomes of a signed payload. *)
Lemma signed_then_verified key data ttl now now' :
  master_key_bytes = Ok key -> wf_json (JObj data) ->
  exists signed, sign_payload data ttl now = Ok signed /\
    verify_payload signed now' =
      if (now / second + ttl) * second <? now'
      then Raise (InvalidSignedPayloadError "Payload signé expiré.")
      else Ok (dict_pop "exp" (signed_body data ttl now)).
Proof.
  intros Hkey Hwf. unfold sign_payload.
  set (payload := b64encode_nopad (encode (dumps (JObj (signed_body data ttl now))))).
  destruct (signature payload) as [sg|e] eqn:Esg; [| unfold signature in Esg; by rewrite Hkey in Esg].
  eexists. split; [done |]. unfold verify_payload.
  rewrite partition_char_app by apply b64_nopad_no_dot. cbn match.
  rewrite (signature_nonempty _ _ Esg), orb_false_r.
  replace (str_eqb payload "") with false by (symmetry; apply b64_nopad_nonempty; by rewrite dumps_obj).
  rewrite Esg. cbn [result_bind]. rewrite compare_digest_refl by by eapply signature_ascii.
  cbn [result_bind negb]. unfold payload. rewrite read_signed_body by by apply wf_dict_set.
  cbn [result_bind]. unfold signed_body at 1. by rewrite dict_get_set.
Qed.

(** A payload that [sign_payload] signed is accepted until the second its
    [exp] names, gives back the signed dict without [exp], and is refused as
    expired afterwards, for every dict of JSON values without floats. *)
Theorem verify_sign_payload key data ttl now now' :
  master_key_bytes = Ok key -> wf_json (JObj data) ->
  exists signed, sign_payload data ttl now = Ok signed /\
    verify_payload signed now' =
      if (now / second + ttl) * second <? now'
      then Raise (InvalidSignedPayloadError "Payload signé expiré.")
      else Ok (dict_pop "exp" (signed_body data ttl now)).
Proof. apply signed_then_verified. Qed.

(** Whatever [verify_payload] accepts carries the HMAC-SHA256 of its own
    payload under the master key and an [exp] that has not passed: no unsigned
    or expired state gets through, whatever its content. *)
Theorem verify_payload_authentic signed now body :
  verify_payload signed now = Ok body ->
  exists payload sg m exp,
    signed = String.append payload (String "." sg) /\ signature payload = Ok sg /\
    (let! raw := b64decode_nopad payload in let! text := decode_utf8 raw in loads text) = Ok (JObj m) /\
    as_int (dict_get "exp" m) = Some exp /\ now <= exp * second /\ body = dict_pop "exp" m.
Proof.
  unfold verify_payload. destruct (partition_char "." signed) as [[payload found] sg] eqn:Ep.
  destruct (str_eqb payload "" || str_eqb sg "") eqn:Ene; [done |].
  destruct (signature payload) as [expected|] eqn:Esg; [| done]. cbn [result_bind].
  unfold compare_digest. destruct (ascii_only sg && ascii_only expected); [| done]. cbn [result_bind].
  destruct (str_eqb sg expected) eqn:Eeq; [| done]. cbn [negb]. bool_hyps. subst expected.
  set (r := result_bind (b64decode_nopad payload) _). intros Hres.
  destruct r as [v|e] eqn:Er; [| by destruct e]. cbn [unreadable result_bind] in Hres.
  destruct v as [| | | | | |m]; try done.
  destruct (as_int (dict_get "exp" m)) as [z|] eqn:Ez; [| done].
  destruct (z * second <? now) eqn:Elt; [done |]. bool_hyps. apply Ok_inj in Hres as <-.
  destruct found.
  - apply partition_char_eq in Ep. exists payload, sg, m, z. done.
  - exfalso. assert (sg = EmptyString); [| done].
    clear -Ep. revert payload Ep. induction signed as [|c s IH]; simpl; intros payload Ep; [congruence |].
    destruct (char_eqb c "."); [done |]. destruct (partition_char "." s) as [[a f] b].
    injection Ep as <- -> ->. by eapply IH.
Qed.
End properties.

Lemma verify_sign_payload_witness :
  let data := [("p", JStr "google"); ("r", JStr "acme.example.com")] in
  exists signed, sign_payload (CFG := default_settings) data 600 5000000 = Ok signed /\
    verify_payload (CFG := default_settings) signed 605000000 = Ok data.
Proof.
  destruct (verify_sign_payload (CFG := default_settings) dev_master_key
    [("p", JStr "google"); ("r", JStr "acme.example.com")] 600 5000000 605000000)
    as (signed & H1 & H2); [reflexivity | | exists signed; split; [exact H1 | exact H2]].
  split; [repeat constructor; simpl; intuition discriminate | simpl; tauto].
Defined.

Definition example_signed : string :=
  match sign_payload (CFG := default_settings) [("p", JStr "google")] 600 0 with Ok s => s | Raise _ => "" end.

Lemma verify_payload_authentic_witness : exists payload sg m exp,
  example_signed = String.append payload (String "." sg) /\ signature (CFG := default_settings) payload = Ok sg /\
  (let! raw := b64decode_nopad payload in let! text := decode_utf8 raw in loads text) = Ok (JObj m) /\
  as_int (dict_get "exp" m) = Some exp /\ 0 <= exp * second /\ [("p", JStr "google")] = dict_pop "exp" m.
Proof.
  apply (verify_payload_authentic (CFG := default_settings) example_signed 0 [("p", JStr "google")]).
  vm_compute. reflexivity.
Defined.
