(* ===== verification/Models.v ===== *)
(** The tables: the SQLAlchemy models of the application as records, one
    constructor of [table] per mapped class, and the uniqueness constraints the
    models declare. UUIDs are numbers, instants are microseconds since the epoch
    (UTC), JSON columns are [json] values. [created_at] and [updated_at] are kept
    where code reads them. *)
From S2P Require Import Prelude PyStr Hashing Json.

(** ** Catalogue: [tenancy/models.py] *)
Inductive TenantState := ACTIVE | SUSPENDED.
#[export] Instance TenantState_eq_dec : EqDecision TenantState.
Proof. solve_decision. Defined.

Record Tenant := {
  tn_id : N; tn_slug : string; tn_name : string; tn_state : TenantState;
  tn_plan : string; tn_deleted_at : option Z; tn_created_at : Z }.

(** ** Identities: [directory/models.py] *)
Record User := { us_id : N; us_email : string; us_display_name : option string; us_created_at : Z }.
Record Membership := { mb_id : N; mb_user_id : N; mb_tenant_id : N; mb_role : string; mb_created_at : Z }.

(** ** Authentication: [auth/models.py] *)
Inductive OAuthProvider := OAUTH_GOOGLE | OAUTH_MICROSOFT.
#[export] Instance OAuthProvider_eq_dec : EqDecision OAuthProvider.
Proof. solve_decision. Defined.
Definition OAuthProvider_value (p : OAuthProvider) : string :=
  match p with OAUTH_GOOGLE => "google" | OAUTH_MICROSOFT => "microsoft" end.

Record UserCredentials := {
  uc_user_id : N; uc_password_hash : option string; uc_totp_secret_encrypted : option bytes;
  uc_totp_enabled : bool; uc_totp_last_counter : option Z }.
Record RecoveryCode := { rc_id : N; rc_user_id : N; rc_code_hash : string; rc_used_at : option Z }.
Record AuthSession := {
  as_id : N; as_user_id : N; as_token_hash : string; as_created_at : Z; as_expires_at : Z;
  as_last_seen_at : Z; as_revoked_at : option Z }.
Record LoginChallenge := {
  lc_id : N; lc_user_id : N; lc_token_hash : string; lc_expires_at : Z; lc_consumed_at : option Z }.
Record OAuthIdentity := {
  oi_id : N; oi_provider : OAuthProvider; oi_subject : string; oi_user_id : N }.
Record Invitation := {
  iv_id : N; iv_email : string; iv_tenant_id : N; iv_role : string; iv_token_hash : string;
  iv_expires_at : Z; iv_accepted_at : option Z; iv_invited_by_user_id : option N; iv_created_at : Z }.

(** ** Tenant-scoped tables: [audit/tenant_models.py], [directory/tenant_models.py] *)
Record AuditEvent := {
  ae_id : N; ae_tenant_id : N; ae_occurred_at : Z; ae_actor_user_id : option N; ae_actor_label : string;
  ae_action : string; ae_resource_type : string; ae_resource_id : string; ae_payload : list (string * json) }.
Record Team := { tm_id : N; tm_tenant_id : N; tm_name : string; tm_description : option string; tm_created_at : Z }.
Record TeamMember := { tmm_id : N; tmm_tenant_id : N; tmm_team_id : N; tmm_user_id : N; tmm_created_at : Z }.

(** ** AI policies and usage: [ai/models.py] *)
Inductive UsageStatus := USAGE_OK | USAGE_ERROR | USAGE_TIMEOUT.
#[export] Instance UsageStatus_eq_dec : EqDecision UsageStatus.
Proof. solve_decision. Defined.

Record TenantAIPolicy := {
  ap_tenant_id : N; ap_default_provider : option string; ap_default_model : option string;
  ap_allowed_providers : list string; ap_zero_retention : bool; ap_monthly_token_quota : option Z;
  ap_hard_limit_enabled : bool; ap_fallback_provider : option string; ap_fallback_model : option string;
  ap_byok_keys_enc : option bytes }.
Record AIUsageEvent := {
  ue_id : N; ue_occurred_at : Z; ue_tenant_id : N; ue_user_id : option N; ue_module : string;
  ue_provider : string; ue_model : string; ue_input_tokens : Z; ue_output_tokens : Z; ue_cached_tokens : Z;
  ue_latency_ms : Z; ue_estimated_cost_microeur : Z; ue_price_version : string; ue_status : UsageStatus;
  ue_error_kind : option string }.
Record AIUsageDaily := {
  ud_day : Z; ud_tenant_id : N; ud_provider : string; ud_model : string; ud_input_tokens : Z;
  ud_output_tokens : Z; ud_cached_tokens : Z; ud_request_count : Z; ud_error_count : Z;
  ud_estimated_cost_microeur : Z }.

(** ** Module activation: [automation/models.py] *)
Record TenantModule := { mo_id : N; mo_tenant_id : N; mo_module_name : string; mo_enabled : bool }.

(** ** Connectors: [connectors/tenant_models.py] and [connectors/models.py] *)
Inductive ConnectorProvider := CONNECTOR_GOOGLE | CONNECTOR_MICROSOFT.
#[export] Instance ConnectorProvider_eq_dec : EqDecision ConnectorProvider.
Proof. solve_decision. Defined.
Definition ConnectorProvider_value (p : ConnectorProvider) : string :=
  match p with CONNECTOR_GOOGLE => "google" | CONNECTOR_MICROSOFT => "microsoft" end.
Inductive ConnectionKind := KIND_TENANT | KIND_USER.
#[export] Instance ConnectionKind_eq_dec : EqDecision ConnectionKind.
Proof. solve_decision. Defined.
Definition ConnectionKind_value (k : ConnectionKind) : string :=
  match k with KIND_TENANT => "tenant" | KIND_USER => "user" end.
Inductive ConnectionStatus := CONN_ACTIVE | CONN_NEEDS_RECONSENT | CONN_REVOKED | CONN_ERROR.
#[export] Instance ConnectionStatus_eq_dec : EqDecision ConnectionStatus.
Proof. solve_decision. Defined.
Definition ConnectionStatus_value (st : ConnectionStatus) : string :=
  match st with
  | CONN_ACTIVE => "active" | CONN_NEEDS_RECONSENT => "needs_reconsent" | CONN_REVOKED => "revoked" | CONN_ERROR => "error"
  end.

Record ConnectorConnection := {
  cn_id : N; cn_tenant_id : N; cn_provider : ConnectorProvider; cn_kind : ConnectionKind; cn_user_id : option N;
  cn_account_label : string; cn_scopes : list string; cn_access_token_enc : bytes; cn_refresh_token_enc : bytes;
  cn_access_token_expires_at : Z; cn_status : ConnectionStatus; cn_last_error : option string;
  cn_health_checked_at : option Z; cn_created_at : Z }.
Record ConnectorSubscription := {
  sb_id : N; sb_tenant_id : N; sb_connection_id : N; sb_capability : string; sb_provider_subscription_id : string;
  sb_resource : string; sb_expires_at : Z; sb_client_state_hash : string; sb_provider_data : list (string * json) }.
Record WebhookRoute := {
  wr_id : N; wr_route_key : string; wr_provider : string; wr_tenant_id : N; wr_connection_id : N }.

(** ** The sample module: [modules/sample_digest/tenant_models.py] *)
Record SampleDigestDigest := {
  sd_id : N; sd_tenant_id : N; sd_generated_at : Z; sd_message_count : Z; sd_summary : string }.

(** ** The database *)
Inductive table :=
  | Tenants | Users | Memberships | Credentials | RecoveryCodes | Sessions | LoginChallenges
  | OAuthIdentities | Invitations | AuditEvents | Teams | TeamMembers
  | AIPolicies | AIUsageEvents | AIUsageDailies | TenantModules
  | Connections | Subscriptions | WebhookRoutes | Digests.

Definition row (t : table) : Type :=
  match t with
  | Tenants => Tenant | Users => User | Memberships => Membership | Credentials => UserCredentials
  | RecoveryCodes => RecoveryCode | Sessions => AuthSession | LoginChallenges => LoginChallenge
  | OAuthIdentities => OAuthIdentity | Invitations => Invitation | AuditEvents => AuditEvent
  | Teams => Team | TeamMembers => TeamMember | AIPolicies => TenantAIPolicy
  | AIUsageEvents => AIUsageEvent | AIUsageDailies => AIUsageDaily | TenantModules => TenantModule
  | Connections => ConnectorConnection | Subscriptions => ConnectorSubscription | WebhookRoutes => WebhookRoute
  | Digests => SampleDigestDigest
  end.

(** The tables whose class inherits [TenantScoped], with their [tenant_id]. *)
Definition tenant_id_of (t : table) : option (row t -> N) :=
  match t with
  | AuditEvents => Some ae_tenant_id
  | Teams => Some tm_tenant_id
  | TeamMembers => Some tmm_tenant_id
  | Connections => Some cn_tenant_id
  | Subscriptions => Some sb_tenant_id
  | Digests => Some sd_tenant_id
  | _ => None
  end.
Definition scoped (t : table) : bool := is_some (tenant_id_of t).
Definition owned_by (tid : N) (t : table) (r : row t) : bool :=
  match tenant_id_of t as o return (tenant_id_of t = o -> bool) with
  | Some f => fun _ => (f r =? tid)%N
  | None => fun _ => true
  end eq_refl.

(** [with_tenant_id t tid r] is [r] with its [tenant_id] column set. *)
Definition set_tenant_id (t : table) (tid : N) : row t -> row t :=
  match t with
  | AuditEvents => fun r => {|
      ae_id := ae_id r; ae_tenant_id := tid; ae_occurred_at := ae_occurred_at r;
      ae_actor_user_id := ae_actor_user_id r; ae_actor_label := ae_actor_label r; ae_action := ae_action r;
      ae_resource_type := ae_resource_type r; ae_resource_id := ae_resource_id r; ae_payload := ae_payload r |}
  | Teams => fun r => {|
      tm_id := tm_id r; tm_tenant_id := tid; tm_name := tm_name r; tm_description := tm_description r;
      tm_created_at := tm_created_at r |}
  | TeamMembers => fun r => {|
      tmm_id := tmm_id r; tmm_tenant_id := tid; tmm_team_id := tmm_team_id r; tmm_user_id := tmm_user_id r;
      tmm_created_at := tmm_created_at r |}
  | Connections => fun r => {|
      cn_id := cn_id r; cn_tenant_id := tid; cn_provider := cn_provider r; cn_kind := cn_kind r; cn_user_id := cn_user_id r;
      cn_account_label := cn_account_label r; cn_scopes := cn_scopes r; cn_access_token_enc := cn_access_token_enc r;
      cn_refresh_token_enc := cn_refresh_token_enc r; cn_access_token_expires_at := cn_access_token_expires_at r;
      cn_status := cn_status r; cn_last_error := cn_last_error r; cn_health_checked_at := cn_health_checked_at r;
      cn_created_at := cn_created_at r |}
  | Subscriptions => fun r => {|
      sb_id := sb_id r; sb_tenant_id := tid; sb_connection_id := sb_connection_id r; sb_capability := sb_capability r;
      sb_provider_subscription_id := sb_provider_subscription_id r; sb_resource := sb_resource r;
      sb_expires_at := sb_expires_at r; sb_client_state_hash := sb_client_state_hash r; sb_provider_data := sb_provider_data r |}
  | Digests => fun r => {|
      sd_id := sd_id r; sd_tenant_id := tid; sd_generated_at := sd_generated_at r; sd_message_count := sd_message_count r;
      sd_summary := sd_summary r |}
  | _ => fun r => r
  end.

(** Two rows that violate a primary key, a [UniqueConstraint] or a unique index. *)
Definition conflicts (t : table) : row t -> row t -> bool :=
  match t with
  | Tenants => fun a b => (tn_id a =? tn_id b)%N || str_eqb (tn_slug a) (tn_slug b)
  | Users => fun a b => (us_id a =? us_id b)%N || str_eqb (lower (us_email a)) (lower (us_email b))
  | Memberships => fun a b => (mb_id a =? mb_id b)%N ||
      ((mb_user_id a =? mb_user_id b)%N && (mb_tenant_id a =? mb_tenant_id b)%N)
  | Credentials => fun a b => (uc_user_id a =? uc_user_id b)%N
  | RecoveryCodes => fun a b => (rc_id a =? rc_id b)%N || str_eqb (rc_code_hash a) (rc_code_hash b)
  | Sessions => fun a b => (as_id a =? as_id b)%N || str_eqb (as_token_hash a) (as_token_hash b)
  | LoginChallenges => fun a b => (lc_id a =? lc_id b)%N || str_eqb (lc_token_hash a) (lc_token_hash b)
  | OAuthIdentities => fun a b => (oi_id a =? oi_id b)%N ||
      (bool_decide (oi_provider a = oi_provider b) &&
       (str_eqb (oi_subject a) (oi_subject b) || (oi_user_id a =? oi_user_id b)%N))
  | Invitations => fun a b => (iv_id a =? iv_id b)%N || str_eqb (iv_token_hash a) (iv_token_hash b)
  | AuditEvents => fun a b => (ae_id a =? ae_id b)%N
  | Teams => fun a b => (tm_id a =? tm_id b)%N ||
      ((tm_tenant_id a =? tm_tenant_id b)%N && str_eqb (tm_name a) (tm_name b))
  | TeamMembers => fun a b => (tmm_id a =? tmm_id b)%N ||
      ((tmm_team_id a =? tmm_team_id b)%N && (tmm_user_id a =? tmm_user_id b)%N)
  | AIPolicies => fun a b => (ap_tenant_id a =? ap_tenant_id b)%N
  | AIUsageEvents => fun a b => (ue_id a =? ue_id b)%N
  | AIUsageDailies => fun a b => (ud_day a =? ud_day b) && (ud_tenant_id a =? ud_tenant_id b)%N &&
      str_eqb (ud_provider a) (ud_provider b) && str_eqb (ud_model a) (ud_model b)
  | TenantModules => fun a b => (mo_id a =? mo_id b)%N ||
      ((mo_tenant_id a =? mo_tenant_id b)%N && str_eqb (mo_module_name a) (mo_module_name b))
  | Connections => fun a b => (cn_id a =? cn_id b)%N
  | Subscriptions => fun a b => (sb_id a =? sb_id b)%N
  | WebhookRoutes => fun a b => (wr_id a =? wr_id b)%N || str_eqb (wr_route_key a) (wr_route_key b)
  | Digests => fun a b => (sd_id a =? sd_id b)%N
  end.

(** The row an UPDATE or DELETE of a loaded object hits: the one with its primary
    key. For a tenant-scoped table the tenant is compared too, which selects the
    same row, as ids are unique and no code assigns [tenant_id]. *)
Definition same_row (t : table) : row t -> row t -> bool :=
  match t with
  | Tenants => fun a b => (tn_id a =? tn_id b)%N
  | Users => fun a b => (us_id a =? us_id b)%N
  | Memberships => fun a b => (mb_id a =? mb_id b)%N
  | Credentials => fun a b => (uc_user_id a =? uc_user_id b)%N
  | RecoveryCodes => fun a b => (rc_id a =? rc_id b)%N
  | Sessions => fun a b => (as_id a =? as_id b)%N
  | LoginChallenges => fun a b => (lc_id a =? lc_id b)%N
  | OAuthIdentities => fun a b => (oi_id a =? oi_id b)%N
  | Invitations => fun a b => (iv_id a =? iv_id b)%N
  | AuditEvents => fun a b => (ae_id a =? ae_id b)%N && (ae_tenant_id a =? ae_tenant_id b)%N
  | Teams => fun a b => (tm_id a =? tm_id b)%N && (tm_tenant_id a =? tm_tenant_id b)%N
  | TeamMembers => fun a b => (tmm_id a =? tmm_id b)%N && (tmm_tenant_id a =? tmm_tenant_id b)%N
  | AIPolicies => fun a b => (ap_tenant_id a =? ap_tenant_id b)%N
  | AIUsageEvents => fun a b => (ue_id a =? ue_id b)%N
  | AIUsageDailies => fun a b => (ud_day a =? ud_day b) && (ud_tenant_id a =? ud_tenant_id b)%N &&
      str_eqb (ud_provider a) (ud_provider b) && str_eqb (ud_model a) (ud_model b)
  | TenantModules => fun a b => (mo_id a =? mo_id b)%N
  | Connections => fun a b => (cn_id a =? cn_id b)%N && (cn_tenant_id a =? cn_tenant_id b)%N
  | Subscriptions => fun a b => (sb_id a =? sb_id b)%N && (sb_tenant_id a =? sb_tenant_id b)%N
  | WebhookRoutes => fun a b => (wr_id a =? wr_id b)%N
  | Digests => fun a b => (sd_id a =? sd_id b)%N && (sd_tenant_id a =? sd_tenant_id b)%N
  end.

(** [__tablename__] of the tables of [TenantScoped] mappers, in [sorted] order. *)
Definition scoped_table_names : list (string * table) :=
  [("audit_events", AuditEvents); ("connector_connections", Connections); ("connector_subscriptions", Subscriptions);
   ("sample_digest_digests", Digests); ("team_members", TeamMembers); ("teams", Teams)].

#[export] Instance table_eq_dec : EqDecision table.
Proof. solve_decision. Defined.

Definition Db : Type := forall t : table, list (row t).
Definition empty_db : Db := fun _ => [].

(** [upd t f db] rewrites one table. *)
Definition upd (t : table) (f : list (row t) -> list (row t)) (db : Db) : Db :=
  fun t' => match table_eq_dec t t' with
            | left e => eq_rect t (fun x => list (row x)) (f (db t)) t' e
            | right _ => db t'
            end.

Lemma upd_eq t f db : upd t f db t = f (db t).
Proof. unfold upd. by destruct t. Qed.

Lemma upd_ne t t' f db : t <> t' -> upd t f db t' = db t'.
Proof. intros H. unfold upd. by destruct (table_eq_dec t t') as [->|]. Qed.

Ltac simpl_db :=
  repeat first [ rewrite upd_eq | rewrite upd_ne by discriminate ].
Ltac simpl_db_in H :=
  repeat first [ rewrite upd_eq in H | rewrite upd_ne in H by discriminate ].

(** Case analysis on the query the goal looks at, with [row t] written as the
    record it is. *)
Tactic Notation "case_query" "as" simple_intropattern(pat) ident(E) :=
  cbn [row] in *;
  match goal with |- context [match first_where ?p ?l with _ => _ end] => destruct (first_where p l) as pat eqn:E end;
  cbn [row] in *.
Tactic Notation "case_if" "as" ident(E) :=
  cbn [row] in *; match goal with |- context [if ?b then _ else _] => destruct b eqn:E end; cbn [row] in *.
