(* ===== verification/Permissions.v ===== *)
(** [app/auth/permissions.py]: the built-in roles, their permission sets, and the
    registry of module permissions. The two module-level mutable sets of the
    source are the record [Grants], threaded through the operations. *)
From stdpp Require Import gmap.
From S2P Require Import Prelude PyStr.

(** ** Names *)

Definition is_lower_or_digit (c : ascii) : bool := is_lower_ascii c || is_digit c.
Definition is_word_lower (c : ascii) : bool := is_lower_or_digit c || char_eqb c "_".

(** [^(?!core\.)[a-z][a-z0-9_]{1,30}\.[a-z][a-z0-9_.]+$], by [fullmatch]: the
    classes before the first dot exclude the dot, so the split is forced. *)
Definition module_permission_match (name : string) : bool :=
  let '(m, dot, a) := partition_char "." name in
  negb (startswith name "core.") && dot &&
  match m with
  | String c m' => is_lower_ascii c && all_chars is_word_lower m' && (1 <=? py_len m') && (py_len m' <=? 30)
  | EmptyString => false
  end &&
  match a with
  | String c a' => is_lower_ascii c && all_chars (fun d => is_word_lower d || char_eqb d ".") a' && (1 <=? py_len a')
  | EmptyString => false
  end.

Definition ROLE_OWNER : string := "owner".
Definition ROLE_ADMIN : string := "admin".
Definition ROLE_MEMBER : string := "member".

Definition PERMISSIONS : list string :=
  ["core.members.read"; "core.members.manage"; "core.teams.read"; "core.teams.manage";
   "core.tenant.settings"; "core.audit.read"; "core.connectors.read"; "core.connectors.manage"; "core.ai.use"].
Definition _MEMBER_PERMISSIONS : list string := ["core.members.read"; "core.teams.read"; "core.connectors.read"].
Definition _ADMIN_PERMISSIONS : list string :=
  _MEMBER_PERMISSIONS ++
  ["core.members.manage"; "core.teams.manage"; "core.tenant.settings"; "core.audit.read";
   "core.connectors.manage"; "core.ai.use"].

(** [ROLE_PERMISSIONS.get(role, frozenset())] and [ROLES]. *)
Definition ROLE_PERMISSIONS : list (string * list string) :=
  [(ROLE_MEMBER, _MEMBER_PERMISSIONS); (ROLE_ADMIN, _ADMIN_PERMISSIONS); (ROLE_OWNER, _ADMIN_PERMISSIONS)].
Definition ROLES : list string := List.map fst ROLE_PERMISSIONS.
Definition core_permissions (role : string) : list string :=
  match List.find (fun rp => str_eqb rp.1 role) ROLE_PERMISSIONS with Some rp => rp.2 | None => [] end.

(** ** The module registry *)

Record Grants := {
  module_permissions : gset string;               (* [_module_permissions] *)
  module_role_grants : gmap string (gset string)  (* [_module_role_grants] *) }.

Definition initial_grants : Grants := {|
  module_permissions := ∅;
  module_role_grants := list_to_map (List.map (fun role => (role, ∅)) ROLES) |}.

(** The loop over [roles] stops at the first unknown one; the grants made before
    it stay. *)
Fixpoint grant_roles (name : string) (roles : list string) (g : gmap string (gset string)) :
    result unit * gmap string (gset string) :=
  match roles with
  | [] => (Ok tt, g)
  | role :: roles' =>
      match g !! role with
      | None => (Raise (ValueError ("Rôle inconnu pour la permission " +:+ py_repr name +:+ " : " +:+ py_repr role)), g)
      | Some s => grant_roles name roles' (<[role := {[name]} ∪ s]> g)
      end
  end.

Definition register_module_permission (name : string) (roles : list string) (g : Grants) : result unit * Grants :=
  if negb (module_permission_match name) then
    (Raise (ValueError ("Permission de module invalide : " +:+ py_repr name +:+
      " — attendu `<module>.<action>` en minuscules, jamais `core.*`.")), g)
  else
    let '(r, rg) := grant_roles name roles (module_role_grants g) in
    (r, {| module_permissions := {[name]} ∪ module_permissions g; module_role_grants := rg |}).

Definition reset_module_permissions (g : Grants) : Grants :=
  {| module_permissions := ∅; module_role_grants := (fun _ => ∅) <$> module_role_grants g |}.

Definition is_known_permission (g : Grants) (permission : string) : bool :=
  str_in permission PERMISSIONS || bool_decide (permission ∈ module_permissions g).

Definition validate_role (role : string) : result string :=
  raise_if! (negb (str_in role ROLES))
    (ValueError ("Rôle inconnu : " +:+ py_repr role +:+ " (attendu : admin, member, owner)")) in
  Ok role.

Definition role_has_permission (g : Grants) (role permission : string) : bool :=
  str_in permission (core_permissions role) ||
  bool_decide (permission ∈ default ∅ (module_role_grants g !! role)).

(** [require_permission]: what the factory checks when a route is declared; the
    dependency it returns is [Deps.require_permission]. *)
Definition declare_permission (permission : string) : result string :=
  if startswith permission "core." then
    raise_if! (negb (str_in permission PERMISSIONS))
      (ValueError ("Permission inconnue du registre : " +:+ py_repr permission)) in
    Ok permission
  else
    raise_if! (negb (module_permission_match permission))
      (ValueError ("Permission de module invalide : " +:+ py_repr permission)) in
    Ok permission.

(** ** The registry's invariant *)

(** A history of the registry: any sequence of registrations and resets. *)
Inductive registered : Grants -> Prop :=
  | registered_initial : registered initial_grants
  | registered_step name roles g : registered g -> registered (register_module_permission name roles g).2
  | registered_reset g : registered g -> registered (reset_module_permissions g).

Definition grants_wf (g : Grants) : Prop :=
  (forall role s p, module_role_grants g !! role = Some s -> p ∈ s ->
     module_permission_match p = true /\ p ∈ module_permissions g) /\
  (forall role, is_Some (module_role_grants g !! role) <-> role ∈ ROLES).

Lemma initial_grants_dom role : is_Some (module_role_grants initial_grants !! role) <-> role ∈ ROLES.
Proof.
  unfold initial_grants, ROLES, ROLE_PERMISSIONS; simpl.
  rewrite !lookup_insert_is_Some', lookup_empty, !elem_of_cons, elem_of_nil.
  split; [intros [<-|[<-|[<-|[? [=]]]]]; auto | intros [->|[->|[->|[]]]]; auto].
Qed.

Lemma grant_roles_spec name roles g :
  forall role, match (grant_roles name roles g).2 !! role with
  | Some s' => exists s, g !! role = Some s /\ s ⊆ s' /\ (forall p, p ∈ s' -> p = name \/ p ∈ s)
  | None => g !! role = None
  end.
Proof.
  revert g. induction roles as [|r roles IH]; intros g role; simpl.
  - destruct (g !! role) as [s|] eqn:E; [| done]. exists s. set_solver.
  - destruct (g !! r) as [s|] eqn:E; simpl.
    + specialize (IH (<[r:={[name]} ∪ s]> g) role).
      destruct (_ !! role) as [s'|] eqn:E'.
      * destruct IH as (s0 & H0 & Hsub & Hin). destruct (decide (r = role)) as [->|Hne].
        -- rewrite lookup_insert_eq in H0. injection H0 as <-. exists s. set_solver.
        -- rewrite lookup_insert_ne in H0 by done. eauto.
      * destruct (decide (r = role)) as [->|Hne]; [by rewrite lookup_insert_eq in IH |].
        by rewrite lookup_insert_ne in IH.
    + destruct (g !! role) as [s|] eqn:E'; [| done]. exists s. set_solver.
Qed.

Lemma module_match_not_core p : module_permission_match p = true -> startswith p "core." = false.
Proof.
  unfold module_permission_match. destruct (partition_char "." p) as [[m d] a]. intros H.
  bool_hyps. done.
Qed.

Lemma registered_wf g : registered g -> grants_wf g.
Proof.
  induction 1 as [|name roles g Hg [IH1 IH2]|g Hg [IH1 IH2]].
  - split.
    + intros role s p Hl Hp. unfold initial_grants in Hl; simpl in Hl.
      repeat (apply lookup_insert_Some in Hl as [[_ <-]|[_ Hl]]; [set_solver |]).
      by rewrite lookup_empty in Hl.
    + apply initial_grants_dom.
  - unfold register_module_permission. destruct (module_permission_match name) eqn:Em; [| done]. simpl.
    pose proof (grant_roles_spec name roles (module_role_grants g)) as Hspec.
    destruct (grant_roles name roles (module_role_grants g)) as [r rg]. simpl in *. split; simpl.
    + intros role s p Hl Hp. specialize (Hspec role). rewrite Hl in Hspec.
      destruct Hspec as (s0 & H0 & _ & Hin). destruct (Hin _ Hp) as [->|Hp']; [split; [done | set_solver] |].
      destruct (IH1 _ _ _ H0 Hp') as [? ?]. split; [done | set_solver].
    + intros role. rewrite <- IH2. specialize (Hspec role). destruct (rg !! role) as [s'|].
      * destruct Hspec as (s & -> & _). split; by eexists.
      * by rewrite Hspec.
  - split; simpl.
    + intros role s p Hl Hp. rewrite lookup_fmap in Hl. destruct (module_role_grants g !! role); [| done].
      simpl in Hl. injection Hl as <-. set_solver.
    + intros role. by rewrite lookup_fmap, fmap_is_Some.
Qed.

Lemma modules_hold_core g role p :
  registered g -> startswith p "core." = true -> role_has_permission g role p = str_in p (core_permissions role).
Proof.
  intros [Hwf Hdom]%registered_wf Hc. unfold role_has_permission.
  destruct (module_role_grants g !! role) as [s|] eqn:E; simpl.
  - rewrite (bool_decide_eq_false_2 (p ∈ s)); [by rewrite orb_false_r |].
    intros Hp. destruct (Hwf _ _ _ E Hp) as [Hm _]. apply module_match_not_core in Hm. congruence.
  - rewrite bool_decide_eq_false_2 by set_solver. by rewrite orb_false_r.
Qed.

(** ** Properties *)

(** Whatever modules register, reset or fail to register, they never change
    which role holds a [core.*] permission: a role has one exactly when the
    built-in table gives it, and an unknown role has none at all. *)
Theorem modules_never_grant_core g role p :
  registered g ->
  (startswith p "core." = true -> role_has_permission g role p = str_in p (core_permissions role)) /\
  (role ∉ ROLES -> role_has_permission g role p = false).
Proof.
  intros Hg. split; [by apply modules_hold_core |].
  apply registered_wf in Hg as [Hwf Hdom]. unfold role_has_permission.
  intros Hr. replace (module_role_grants g !! role) with (@None (gset string)).
  - simpl. rewrite (bool_decide_eq_false_2 (p ∈ ∅)) by set_solver. rewrite orb_false_r.
      unfold core_permissions, ROLE_PERMISSIONS, ROLES in *; simpl in *.
      rewrite !elem_of_cons in Hr. unfold str_eqb.
      rewrite !bool_decide_eq_false_2 by naive_solver. simpl. unfold str_in. by rewrite bool_decide_eq_false_2 by set_solver.
  - symmetry. apply eq_None_not_Some. by rewrite Hdom.
Qed.

Lemma modules_never_grant_core_witness :
  let g := (register_module_permission "digest.read" ["member"] initial_grants).2 in
  role_has_permission g "member" "digest.read" = true /\
  role_has_permission g "member" "core.audit.read" = false /\
  role_has_permission g "boss" "core.audit.read" = false.
Proof.
  intros g. assert (Hg : registered g) by (apply registered_step, registered_initial).
  destruct (modules_never_grant_core g "member" "core.audit.read" Hg) as [H1 _].
  destruct (modules_never_grant_core g "boss" "core.audit.read" Hg) as [_ H2].
  split; [vm_compute; reflexivity | split].
  - rewrite H1; reflexivity.
  - apply H2. vm_compute. intros H. repeat (apply elem_of_cons in H as [H|H]; [discriminate |]). by apply elem_of_nil in H.
Defined.

(** The built-in roles are ordered: a permission of [member] belongs to
    [admin], [admin] and [owner] hold the same core permissions, these are
    exactly the registry, and [member] can change nothing. *)
Theorem role_hierarchy p :
  (str_in p (core_permissions ROLE_MEMBER) = true -> str_in p (core_permissions ROLE_ADMIN) = true) /\
  core_permissions ROLE_ADMIN = core_permissions ROLE_OWNER /\
  str_in p (core_permissions ROLE_OWNER) = str_in p PERMISSIONS /\
  (str_in p (core_permissions ROLE_MEMBER) = true -> endswith p ".read" = true).
Proof.
  split; [| split; [reflexivity | split]].
  - unfold str_in. rewrite !bool_decide_eq_true. change (core_permissions ROLE_MEMBER) with _MEMBER_PERMISSIONS.
    change (core_permissions ROLE_ADMIN) with _ADMIN_PERMISSIONS. unfold _ADMIN_PERMISSIONS. set_solver.
  - apply bool_decide_ext. change (core_permissions ROLE_OWNER) with _ADMIN_PERMISSIONS.
    unfold _ADMIN_PERMISSIONS, PERMISSIONS, _MEMBER_PERMISSIONS; simpl. rewrite !elem_of_cons, !elem_of_nil. naive_solver.
  - unfold str_in. rewrite bool_decide_eq_true. change (core_permissions ROLE_MEMBER) with _MEMBER_PERMISSIONS.
    unfold _MEMBER_PERMISSIONS. rewrite !elem_of_cons, elem_of_nil. intros [-> | [-> | [-> | []]]]; reflexivity.
Qed.

Lemma role_hierarchy_witness :
  str_in "core.teams.read" (core_permissions ROLE_ADMIN) = true /\ endswith "core.teams.read" ".read" = true.
Proof.
  destruct (role_hierarchy "core.teams.read") as (H1 & _ & _ & H2). split; [apply H1 | apply H2]; reflexivity.
Defined.
