(* ===== verification/World.v ===== *)
(** The process and its surroundings: the database with one pending transaction
    per SQLAlchemy session, the clock, the random source, Valkey, the tenant
    context variable and the registries kept in module globals; and the monad of
    code that reads and changes them and may raise.

    Requests run one after the other, so the uniqueness an [INSERT] is checked
    for at the flush is checked here when the object is added; a session sees
    the committed tables with its own writes applied, and its writes reach the
    tables at [commit], as the functions of the table they are. *)
From S2P Require Import Prelude PyStr Hashing Base64 Json Config Models Permissions.

(** ** Third-party services *)

(** Valkey: keys with an optional deadline. The laws are the documented effect of
    the commands the application uses, read back with GET. *)
Inductive kv_value := KInt (z : Z) | KStr (s : string).

Class Valkey := {
  kv_store : Type;
  kv_look : Z -> string -> kv_store -> option (kv_value * option Z);
  kv_incrby : Z -> string -> Z -> kv_store -> kv_store;
  kv_set : Z -> string -> kv_value -> option Z -> kv_store -> kv_store;
  kv_expire : Z -> string -> Z -> kv_store -> kv_store;
  kv_del : string -> kv_store -> kv_store;
  kv_incrby_eq now k n s : kv_look now k (kv_incrby now k n s) =
    match kv_look now k s with
    | None => Some (KInt n, None)
    | Some (KInt z, d) => Some (KInt (z + n), d)
    | Some (KStr x, d) => Some (KStr x, d)
    end;
  kv_incrby_ne now now' k k' n s : k <> k' -> kv_look now' k' (kv_incrby now k n s) = kv_look now' k' s;
  kv_set_eq now k v ttl s : (forall t, ttl = Some t -> 0 < t) ->
    kv_look now k (kv_set now k v ttl s) = Some (v, Z.add now <$> ttl);
  kv_set_ne now now' k k' v ttl s : k <> k' -> kv_look now' k' (kv_set now k v ttl s) = kv_look now' k' s;
  kv_expire_eq now k t s : 0 < t ->
    kv_look now k (kv_expire now k t s) = (fun e => (e.1, Some (now + t))) <$> kv_look now k s;
  kv_expire_ne now now' k k' t s : k <> k' -> kv_look now' k' (kv_expire now k t s) = kv_look now' k' s;
  kv_del_eq now k s : kv_look now k (kv_del k s) = None;
  kv_del_ne now k k' s : k <> k' -> kv_look now k' (kv_del k s) = kv_look now k' s;
  kv_later now now' k s : now <= now' -> kv_look now' k s =
    match kv_look now k s with
    | Some (v, Some d) => if d <=? now' then None else Some (v, Some d)
    | e => e
    end
}.

(** argon2: what verification promises is that a hash verifies its password. *)
Class Argon2 := {
  argon2_hash : bytes -> string -> string;
  argon2_verify : string -> string -> bool;
  argon2_needs_rehash : string -> bool;
  argon2_verify_hash salt p : argon2_verify (argon2_hash salt p) p = true
}.

(** pyotp: secrets are base32 text, codes are digits. *)
Class PyOtp := {
  totp_interval : Z;
  totp_at : string -> Z -> string;
  random_base32 : N -> string;
  provisioning_uri : string -> string -> string -> string;
  totp_interval_pos : 0 < totp_interval;
  random_base32_ascii n : ascii_only (random_base32 n) = true;
  totp_at_ascii secret t : ascii_only (totp_at secret t) = true
}.

(** A relay for mail: what [smtplib] and [email.message] are asked for, and, by
    instant, whether the last step of a dialogue succeeds (the connection, the
    negotiation, the login, the submission, the end). *)
Record MailMessage := { mm_from : string; mm_to : string; mm_subject : string; mm_content : string }.
Inductive smtp_step :=
  | CONNECT (host : string) (port : Z) | STARTTLS | LOGIN (user password : string) | SEND (message : MailMessage) | QUIT.
Class Smtp := { smtp_accepts : Z -> list smtp_step -> bool }.

Class Platform := {
  plat_settings :: Settings;
  plat_aes :: AesGcm;
  plat_valkey :: Valkey;
  plat_argon2 :: Argon2;
  plat_pyotp :: PyOtp;
  plat_smtp :: Smtp
}.

(** ** The world *)

Record TenantContext := { tc_tenant_id : N; tc_slug : string; tc_role : option string }.

(** The sessions: the two a request depends on ([get_control_session] and
    [get_tenant_session]) and those that code opens for itself. *)
Inductive sess := Ctl | Ten | Own (n : nat).
#[export] Instance sess_eq_dec : EqDecision sess.
Proof. solve_decision. Defined.
#[global] Arguments sess_eq_dec : simpl never.

Inductive effect :=
  | EmailSent (to subject body : string)
  | ProviderCalled (provider model : string)
  | HttpCalled (method url : string)
  | TaskPublished (task : string) (args : list string).

Section world.
Context {VK : Valkey}.

Record World := {
  w_db : Db;                          (* committed *)
  w_pend : sess -> Db -> Db;          (* uncommitted writes of each session *)
  w_now : Z;
  w_entropy : nat -> N;               (* the n-th draw of the random source *)
  w_drawn : nat;
  w_tenant : option TenantContext;    (* [_current_tenant] *)
  w_grants : Grants;                  (* registry of module permissions *)
  w_kv : kv_store;
  w_states : gmap (N * string) (bool * Z);  (* [_state_cache] of the module activations *)
  w_out : list effect
}.

Definition set_db (f : Db) (w : World) : World := {| w_db := f; w_pend := w_pend w; w_now := w_now w;
  w_entropy := w_entropy w; w_drawn := w_drawn w; w_tenant := w_tenant w; w_grants := w_grants w;
  w_kv := w_kv w; w_states := w_states w; w_out := w_out w |}.
Definition set_pend (s : sess) (f : Db -> Db) (w : World) : World := {| w_db := w_db w;
  w_pend := fun s' => if sess_eq_dec s s' then f else w_pend w s'; w_now := w_now w;
  w_entropy := w_entropy w; w_drawn := w_drawn w; w_tenant := w_tenant w; w_grants := w_grants w;
  w_kv := w_kv w; w_states := w_states w; w_out := w_out w |}.
Definition set_drawn (n : nat) (w : World) : World := {| w_db := w_db w; w_pend := w_pend w; w_now := w_now w;
  w_entropy := w_entropy w; w_drawn := n; w_tenant := w_tenant w; w_grants := w_grants w;
  w_kv := w_kv w; w_states := w_states w; w_out := w_out w |}.
Definition set_tenant (c : option TenantContext) (w : World) : World := {| w_db := w_db w; w_pend := w_pend w;
  w_now := w_now w; w_entropy := w_entropy w; w_drawn := w_drawn w; w_tenant := c; w_grants := w_grants w;
  w_kv := w_kv w; w_states := w_states w; w_out := w_out w |}.
Definition set_kv (k : kv_store) (w : World) : World := {| w_db := w_db w; w_pend := w_pend w; w_now := w_now w;
  w_entropy := w_entropy w; w_drawn := w_drawn w; w_tenant := w_tenant w; w_grants := w_grants w;
  w_kv := k; w_states := w_states w; w_out := w_out w |}.
Definition set_out (o : list effect) (w : World) : World := {| w_db := w_db w; w_pend := w_pend w;
  w_now := w_now w; w_entropy := w_entropy w; w_drawn := w_drawn w; w_tenant := w_tenant w;
  w_grants := w_grants w; w_kv := w_kv w; w_states := w_states w; w_out := o |}.
Definition set_now (t : Z) (w : World) : World := {| w_db := w_db w; w_pend := w_pend w; w_now := t;
  w_entropy := w_entropy w; w_drawn := w_drawn w; w_tenant := w_tenant w; w_grants := w_grants w;
  w_kv := w_kv w; w_states := w_states w; w_out := w_out w |}.

Definition set_states (c : gmap (N * string) (bool * Z)) (w : World) : World := {| w_db := w_db w; w_pend := w_pend w;
  w_now := w_now w; w_entropy := w_entropy w; w_drawn := w_drawn w; w_tenant := w_tenant w; w_grants := w_grants w;
  w_kv := w_kv w; w_states := c; w_out := w_out w |}.

(** What session [s] reads, and the world after [s] has executed a write. *)
Definition sees (w : World) (s : sess) : Db := w_pend w s (w_db w).
Definition wrote (s : sess) (f : Db -> Db) (w : World) : World := set_pend s (fun db => f (w_pend w s db)) w.
(** The world before a request: no transaction is open, no context is set. *)
Definition quiet (w : World) : Prop := (forall s, w_pend w s = id) /\ w_tenant w = None.

Lemma sees_wrote w s f : sees (wrote s f w) s = f (sees w s).
Proof. unfold sees, wrote. simpl. by destruct (sess_eq_dec s s). Qed.
Lemma sees_wrote_ne w s s' f : s <> s' -> sees (wrote s f w) s' = sees w s'.
Proof. intros H. unfold sees, wrote. simpl. by destruct (sess_eq_dec s s'). Qed.

(** ** The monad *)
Definition M (A : Type) : Type := World -> result A * World.

Definition ret {A} (a : A) : M A := fun w => (Ok a, w).
Definition raise {A} (e : exn) : M A := fun w => (Raise e, w).
Definition bind {A B} (m : M A) (k : A -> M B) : M B :=
  fun w => match m w with (Ok a, w') => k a w' | (Raise e, w') => (Raise e, w') end.
(** [try: m except ...: h] where [h] says which exceptions are caught. *)
Definition catch {A} (m : M A) (h : exn -> option (M A)) : M A :=
  fun w => match m w with
           | (Ok a, w') => (Ok a, w')
           | (Raise e, w') => match h e with Some k => k w' | None => (Raise e, w') end
           end.
(** [try: m finally: f] for a cleanup that only changes the world. *)
Definition finally {A} (m : M A) (f : World -> World) : M A :=
  fun w => let '(r, w') := m w in (r, f w').
Definition of_result {A} (r : result A) : M A := fun w => (r, w).

Definition now : M Z := fun w => (Ok (w_now w), w).
Definition draw : M N := fun w => (Ok (w_entropy w (w_drawn w)), set_drawn (S (w_drawn w)) w).
Definition emit (e : effect) : M unit := fun w => (Ok tt, set_out (w_out w ++ [e]) w).
Definition view (s : sess) : M Db := fun w => (Ok (sees w s), w).
Definition write (s : sess) (f : Db -> Db) : M unit := fun w => (Ok tt, wrote s f w).

(** [session.commit()] and leaving [async with sessionmaker() as session]. *)
Definition commit (s : sess) : M unit := fun w => (Ok tt, set_pend s id (set_db (sees w s) w)).
Definition closed (s : sess) (w : World) : World := set_pend s id w.
Definition with_session {A} (s : sess) (body : M A) : M A :=
  fun w => finally body (closed s) (closed s w).

(** Random values: [uuid.uuid4()], octet strings. *)
Definition uuid4 : M N := fun w => (Ok (w_entropy w (w_drawn w) mod 2 ^ 128)%N, set_drawn (S (w_drawn w)) w).
Definition random_bytes (n : nat) : M bytes :=
  fun w => (Ok (Sha256.be_octets n (w_entropy w (w_drawn w))), set_drawn (S (w_drawn w)) w).
End world.

Arguments World : clear implicits.
Arguments World {VK}.
Arguments M {VK} A.

Notation "'let*' x := m 'in' k" := (bind m (fun x => k))
  (at level 10, x pattern, m at level 200, k at level 200) : code_scope.
Notation "'raise_when' c e 'in' k" := (if c then raise e else k)
  (at level 10, c at level 9, e at level 9, k at level 200) : code_scope.

(** [str(uuid)] *)
Definition uuid_str (u : N) : string :=
  let h := hex (Sha256.be_octets 16 u) in
  join "-" [String.substring 0 8 h; String.substring 8 4 h; String.substring 12 4 h;
            String.substring 16 4 h; String.substring 20 12 h].

(** Run the monadic code of the goal up to the next undetermined operation. *)
Ltac unfold_monad :=
  unfold bind, ret, raise, catch, finally, of_result, now, draw, emit, view, write, commit, closed,
    with_session, uuid4, random_bytes.

(** ** A concrete platform, for evaluating the model *)

Module SimpleKv.
Abbreviation store := (gmap string (kv_value * option Z)).
Definition alive (now : Z) (e : kv_value * option Z) : option (kv_value * option Z) :=
  match e.2 with Some d => if d <=? now then None else Some e | None => Some e end.
Definition look (now : Z) (k : string) (s : store) : option (kv_value * option Z) :=
  s !! k ≫= alive now.
Definition incrby (now : Z) (k : string) (n : Z) (s : store) : store :=
  match look now k s with
  | None => <[k := (KInt n, None)]> s
  | Some (KInt z, d) => <[k := (KInt (z + n), d)]> s
  | Some (KStr _, _) => s
  end.
Definition set (now : Z) (k : string) (v : kv_value) (ttl : option Z) (s : store) : store :=
  <[k := (v, Z.add now <$> ttl)]> s.
Definition expire (now : Z) (k : string) (t : Z) (s : store) : store :=
  match look now k s with Some (v, _) => <[k := (v, Some (now + t))]> s | None => s end.
Definition del (k : string) (s : store) : store := delete k s.

Lemma look_eq now k e s : look now k (<[k := e]> s) = alive now e.
Proof. unfold look. by rewrite lookup_insert_eq. Qed.
Lemma look_ne now k k' e s : k <> k' -> look now k' (<[k := e]> s) = look now k' s.
Proof. intros H. unfold look. by rewrite lookup_insert_ne. Qed.
Lemma look_alive now k s e : look now k s = Some e -> alive now e = Some e.
Proof.
  unfold look. destruct (s !! k) as [[v [d|]]|]; simpl; [| by intros [= <-] | done].
  unfold alive at 1; simpl. destruct (d <=? now) eqn:E; [done |]. intros [= <-]. unfold alive; simpl. by rewrite E.
Qed.

Lemma look_incrby now k n s : look now k (incrby now k n s) =
  match look now k s with
  | None => Some (KInt n, None)
  | Some (KInt z, d) => Some (KInt (z + n), d)
  | Some (KStr x, d) => Some (KStr x, d)
  end.
Proof.
  unfold incrby. destruct (look now k s) as [[[z|x] d]|] eqn:E; [| done | by rewrite look_eq].
  rewrite look_eq. apply look_alive in E. unfold alive in *; simpl in *.
  destruct d as [d|]; [| done]. by destruct (d <=? now).
Qed.

Lemma look_expire now k t s : 0 < t ->
  look now k (expire now k t s) = (fun e => (e.1, Some (now + t))) <$> look now k s.
Proof.
  intros Ht. unfold expire. destruct (look now k s) as [[v d]|] eqn:E; simpl; [| done].
  rewrite look_eq. unfold alive; simpl. by destruct (Z.leb_spec (now + t) now); [lia |].
Qed.

Lemma look_later now now' k s : now <= now' -> look now' k s =
  match look now k s with
  | Some (v, Some d) => if d <=? now' then None else Some (v, Some d)
  | e => e
  end.
Proof.
  intros H. unfold look. destruct (s !! k) as [[v [d|]]|]; [| done | done].
  unfold alive; simpl. destruct (Z.leb_spec d now); [| done].
  by destruct (Z.leb_spec d now'); [| lia].
Qed.
End SimpleKv.

Definition simple_valkey : Valkey.
Proof.
  refine {| kv_store := SimpleKv.store; kv_look := SimpleKv.look; kv_incrby := SimpleKv.incrby;
            kv_set := SimpleKv.set; kv_expire := SimpleKv.expire; kv_del := SimpleKv.del |}.
  - apply SimpleKv.look_incrby.
  - intros now now' k k' n s H. unfold SimpleKv.incrby.
    destruct (SimpleKv.look now k s) as [[[z|x] d]|]; [| done |]; by apply SimpleKv.look_ne.
  - intros now k v ttl s H. unfold SimpleKv.set. rewrite SimpleKv.look_eq. unfold SimpleKv.alive; simpl.
    destruct ttl as [t|]; simpl; [| done]. specialize (H t eq_refl). by destruct (Z.leb_spec (now + t) now); [lia |].
  - intros. by apply SimpleKv.look_ne.
  - intros. by apply SimpleKv.look_expire.
  - intros now now' k k' t s H. unfold SimpleKv.expire.
    destruct (SimpleKv.look now k s) as [[v d]|]; [by apply SimpleKv.look_ne | done].
  - intros now k s. unfold SimpleKv.look, SimpleKv.del. by rewrite lookup_delete_eq.
  - intros now k k' s H. unfold SimpleKv.look, SimpleKv.del. by rewrite lookup_delete_ne.
  - apply SimpleKv.look_later.
Defined.

(** A hash that keeps the password, a cipher that pads it: enough to run the
    code, not to protect anything. *)
Definition plain_argon2 : Argon2.
Proof.
  refine {| argon2_hash _ p := String.append "$argon2id$" p;
            argon2_verify h p := str_eqb h (String.append "$argon2id$" p);
            argon2_needs_rehash h := false |}.
  intros _ p. apply str_eqb_refl.
Defined.

Definition plain_aes : AesGcm.
Proof.
  refine {| aes_seal _ _ p := p ++ repeat (octet 0) 16;
            aes_open _ _ c := if (16 <=? length c)%nat then Some (take (length c - 16) c) else None |}.
  - intros _ _ p. rewrite List.length_app, repeat_length.
    destruct (Nat.leb_spec 16 (length p + 16)); [| lia].
    replace (length p + 16 - 16)%nat with (length p) by lia. by rewrite take_app_length.
  - intros _ _ p. by rewrite List.length_app, repeat_length.
Defined.

(** The code of a step is the step's number. *)
Definition counter_otp : PyOtp.
Proof.
  refine {| totp_interval := 30; totp_at _ t := dumps (JInt t);
            random_base32 n := dumps (JInt (Z.of_N n)); provisioning_uri s n i := String.append s (String.append n i) |}.
  - lia.
  - intros n. by apply dumps_ascii.
  - intros _ t. by apply dumps_ascii.
Defined.

Definition test_platform : Platform := {|
  plat_settings := default_settings; plat_aes := plain_aes; plat_valkey := simple_valkey;
  plat_argon2 := plain_argon2; plat_pyotp := counter_otp; plat_smtp := {| smtp_accepts _ _ := true |} |}.

(** The same with Google applications configured. *)
Definition google_platform : Platform := {|
  plat_settings := with_google default_settings; plat_aes := plain_aes; plat_valkey := simple_valkey;
  plat_argon2 := plain_argon2; plat_pyotp := counter_otp; plat_smtp := {| smtp_accepts _ _ := true |} |}.

(** A world in which nothing has happened at instant [t]. *)
Definition fresh_world (t : Z) (db : Db) : World (VK := simple_valkey) :=
  @Build_World simple_valkey db (fun _ => id) t (fun n => N.of_nat (n + 1000)) 0 None initial_grants
    (∅ : gmap string (kv_value * option Z)) ∅ [].
