(* ===== verification/Uuid.v ===== *)
(** [uuid.UUID] as text: [str(u)] is [uuid_str]; the constructor, which reads any
    text [int] accepts in base 16 once the dashes, braces and URN prefixes are
    gone, is [uuid_of_str]. *)
From S2P Require Import Prelude PyStr Hashing Json Tokens Models World.

(** [s.replace(needle, "")] for a needle that is not empty. *)
Fixpoint remove_sub (needle : string) (skip : nat) (s : string) : string :=
  match s with
  | EmptyString => EmptyString
  | String c s' =>
      match skip with
      | S k => remove_sub needle k s'
      | O => if startswith s needle then remove_sub needle (String.length needle - 1) s'
             else String c (remove_sub needle 0 s')
      end
  end.

Definition underscore (c : ascii) : bool := char_eqb c "_".

(** The digits of [int(s, 16)]: an underscore may only stand between two of them. *)
Fixpoint read_hex (acc : N) (fresh : bool) (s : string) : option N :=
  match s with
  | EmptyString => if fresh then None else Some acc
  | String c s' =>
      if underscore c then (if fresh then None else read_hex acc true s')
      else match hex_value c with Some v => read_hex (acc * 16 + v) false s' | None => None end
  end.
Definition unsigned_hex (s : string) : option N :=
  match s with
  | String "0" (String x rest) =>
      if char_eqb x "x" || char_eqb x "X" then
        match rest with
        | String c rest' => if underscore c then read_hex 0 true rest' else read_hex 0 true rest
        | EmptyString => None
        end
      else read_hex 0 true s
  | _ => read_hex 0 true s
  end.
Definition int16 (s : string) : option Z :=
  match strip s with
  | String c s' =>
      if char_eqb c "-" then Z.opp <$> (Z.of_N <$> unsigned_hex s')
      else if char_eqb c "+" then Z.of_N <$> unsigned_hex s'
      else Z.of_N <$> unsigned_hex (String c s')
  | EmptyString => None
  end.

Definition is_brace (c : ascii) : bool := char_eqb c "{" || char_eqb c "}".

(** [uuid.UUID(s)]; [None] stands for the [ValueError]. *)
Definition uuid_of_str (s : string) : option N :=
  let h := remove_sub "uuid:" 0 (remove_sub "urn:" 0 s) in
  let h := filter_str (fun c => negb (char_eqb c "-")) (rstrip_by is_brace (lstrip_by is_brace h)) in
  if negb (String.length h =? 32)%nat then None
  else match int16 h with
       | Some z => if (0 <=? z) && (z <? 2 ^ 128) then Some (Z.to_N z) else None
       | None => None
       end.

Example uuid_text : uuid_str 1 = "00000000-0000-0000-0000-000000000001".
Proof. reflexivity. Qed.
Example uuid_read : uuid_of_str "{00000000-0000-0000-0000-0000000000ff}" = Some 255%N.
Proof. reflexivity. Qed.
Example uuid_sloppy : uuid_of_str "0x0000000000000000000000000000_f" = Some 15%N.
Proof. reflexivity. Qed.
Example uuid_short : uuid_of_str "0000" = None.
Proof. reflexivity. Qed.

(** ** The round trip *)

Definition hex_char (c : ascii) : Prop := exists n, (n < 16)%N /\ c = hex_digit n.

(** What a hexadecimal digit is, and is not. *)
Lemma hex_char_facts c : hex_char c ->
  exists n, (n < 16)%N /\ hex_value c = Some n /\ c = hex_digit n /\ underscore c = false /\ char_eqb c "-" = false /\ char_eqb c "+" = false /\
    is_brace c = false /\ is_space c = false /\ char_eqb c "x" = false /\ char_eqb c "X" = false /\ char_eqb c "u" = false.
Proof.
  intros (n & Hn & ->). exists n. split; [done |].
  assert (H : In n (List.map N.of_nat (List.seq 0 16))).
  { rewrite <- (N2Nat.id n). apply List.in_map, List.in_seq. lia. }
  clear Hn. simpl in H. repeat (destruct H as [<-|H]; [by vm_compute |]). destruct H.
Qed.

Lemma remove_sub_none needle c t s : needle = String c t -> has_char c s = false -> remove_sub needle 0 s = s.
Proof.
  intros ->. induction s as [|d s IH]; [done |]. cbn [has_char remove_sub]. intros H. bool_hyps.
  assert (Hp : startswith (String d s) (String c t) = false).
  { unfold startswith. simpl. destruct (Ascii.ascii_dec c d) as [->|]; [| done]. by rewrite char_eqb_refl in *. }
  rewrite Hp, IH; done.
Qed.

Lemma lstrip_by_none p s : all_chars (fun c => negb (p c)) s = true -> lstrip_by p s = s.
Proof. destruct s as [|c s]; [done |]. simpl. intros H. bool_hyps. by rewrite H. Qed.

Lemma all_chars_rev p s : all_chars p (rev_str s) = all_chars p s.
Proof.
  induction s as [|c s IH]; [done |]. rewrite rev_str_cons, all_chars_app, IH. simpl.
  by rewrite andb_true_r, andb_comm.
Qed.
Lemma rstrip_by_none p s : all_chars (fun c => negb (p c)) s = true -> rstrip_by p s = s.
Proof. intros H. unfold rstrip_by. rewrite lstrip_by_none; [apply rev_str_involutive |]. by rewrite all_chars_rev. Qed.

Fixpoint all_hex (s : string) : Prop :=
  match s with EmptyString => True | String c s' => hex_char c /\ all_hex s' end.

Lemma all_hex_all s p : (forall c, hex_char c -> p c = true) -> all_hex s -> all_chars p s = true.
Proof. intros Hp. induction s as [|c s IH]; [done |]. simpl. intros [Hc Hs]. by rewrite Hp, IH. Qed.

Lemma hex_all b : all_hex (hex b).
Proof.
  induction b as [|c b IH]; [done |]. change (hex (c :: b)) with
    (String (hex_digit (code c / 16)) (String (hex_digit (code c mod 16)) (hex b))). simpl.
  assert (code c < 256)%N by apply N_ascii_bounded.
  split; [eexists; split; [| reflexivity]; apply N.Div0.div_lt_upper_bound; lia |].
  split; [eexists; split; [| reflexivity]; apply N.mod_lt; lia | done].
Qed.

Lemma hex_length b : String.length (hex b) = (2 * length b)%nat.
Proof.
  induction b as [|c b IH]; [done |]. change (hex (c :: b)) with
    (String (hex_digit (code c / 16)) (String (hex_digit (code c mod 16)) (hex b))). simpl. lia.
Qed.

(** Reading back the digits of octets. *)
Definition of_octets (acc : N) (b : bytes) : N := fold_left (fun a c => (a * 256 + code c)%N) b acc.

Lemma hex_value_digit n : (n < 16)%N -> hex_value (hex_digit n) = Some n /\ underscore (hex_digit n) = false.
Proof.
  intros Hn. destruct (hex_char_facts (hex_digit n)) as (m & Hm & H1 & H2 & H3 & _); [by exists n |].
  assert (In n (List.map N.of_nat (List.seq 0 16))) as H.
  { rewrite <- (N2Nat.id n). apply List.in_map, List.in_seq. lia. }
  simpl in H. repeat (destruct H as [<-|H]; [by vm_compute |]). destruct H.
Qed.

Lemma read_hex_octets b acc fresh : (b <> [] \/ fresh = false) -> read_hex acc fresh (hex b) = Some (of_octets acc b).
Proof.
  revert acc fresh. induction b as [|c b IH]; intros acc fresh H; [by destruct H as [| ->] |].
  change (hex (c :: b)) with (String (hex_digit (code c / 16)) (String (hex_digit (code c mod 16)) (hex b))).
  assert (code c < 256)%N by apply N_ascii_bounded.
  destruct (hex_value_digit (code c / 16)) as [V1 U1]; [apply N.Div0.div_lt_upper_bound; lia |].
  destruct (hex_value_digit (code c mod 16)) as [V2 U2]; [apply N.mod_lt; lia |].
  cbn [read_hex]. rewrite U1, V1. cbn [read_hex]. rewrite U2, V2, IH by auto. unfold of_octets. simpl. do 2 f_equal.
  pose proof (N.div_mod (code c) 16 ltac:(discriminate)). lia.
Qed.

Lemma of_octets_be k n acc : of_octets acc (Sha256.be_octets k n) = (acc * 256 ^ N.of_nat k + n mod 256 ^ N.of_nat k)%N.
Proof.
  revert acc. induction k as [|k IH]; intros acc.
  - change (Sha256.be_octets 0 n) with (@nil ascii). unfold of_octets. simpl fold_left. rewrite N.pow_0_r, N.mod_1_r. lia.
  - change (Sha256.be_octets (S k) n) with (octet (n / 256 ^ N.of_nat k) :: Sha256.be_octets k n). unfold of_octets in *. simpl fold_left. rewrite IH.
    unfold code, octet. rewrite N_ascii_embedding by (apply N.mod_lt; lia).
    rewrite Nat2N.inj_succ, N.pow_succ_r by lia. set (q := (256 ^ N.of_nat k)%N).
    assert (Hq : q <> 0%N) by (apply N.pow_nonzero; lia). rewrite (N.mul_comm 256 q), N.Div0.mod_mul_r. lia.
Qed.

Lemma substring_split n m s : String.substring 0 (n + m) s = String.append (String.substring 0 n s) (String.substring n m s).
Proof. revert s. induction n as [|n IH]; intros [|c s]; try done. simpl. by rewrite <- IH. Qed.

Lemma all_hex_substring n m s : all_hex s -> all_hex (String.substring n m s).
Proof.
  revert n m. induction s as [|c s IH]; intros n m H; [by destruct n, m |]. destruct H as [Hc Hs].
  destruct n; simpl; [destruct m; simpl; auto | by apply IH].
Qed.

Lemma filter_str_app p a b : filter_str p (String.append a b) = String.append (filter_str p a) (filter_str p b).
Proof. induction a as [|c a IH]; simpl; [done |]. rewrite IH. by destruct (p c). Qed.
Lemma filter_str_id p s : all_chars p s = true -> filter_str p s = s.
Proof. induction s as [|c s IH]; simpl; [done |]. intros H. bool_hyps. by rewrite H, IH. Qed.

Lemma has_char_all c s : has_char c s = false <-> all_chars (fun d => negb (char_eqb d c)) s = true.
Proof.
  induction s as [|d s IH]; [done |]. simpl. rewrite orb_false_iff, andb_true_iff, IH, negb_true_iff. done.
Qed.

(** Cutting the digits in five and joining them with dashes is undone by removing the dashes. *)
Definition dashed (h : string) : string :=
  join "-" [String.substring 0 8 h; String.substring 8 4 h; String.substring 12 4 h; String.substring 16 4 h;
            String.substring 20 12 h].
Lemma dashed_app h : dashed h = String.substring 0 8 h +:+ "-" +:+ String.substring 8 4 h +:+ "-" +:+
  String.substring 12 4 h +:+ "-" +:+ String.substring 16 4 h +:+ "-" +:+ String.substring 20 12 h.
Proof. done. Qed.

Lemma dashed_all h p : all_hex h -> p "-"%char = true -> (forall c, hex_char c -> p c = true) -> all_chars p (dashed h) = true.
Proof.
  intros Hh Hd Hp. rewrite dashed_app, !all_chars_app.
  rewrite !(all_hex_all (String.substring _ _ h) p Hp) by by apply all_hex_substring. cbn [all_chars]. by rewrite Hd.
Qed.

Lemma dashes_removed h : all_hex h -> String.length h = 32%nat ->
  filter_str (fun c => negb (char_eqb c "-")) (dashed h) = h.
Proof.
  intros Hh Hl. rewrite dashed_app, !filter_str_app.
  rewrite !(filter_str_id _ (String.substring _ _ h)) by
    (apply all_hex_all; [| by apply all_hex_substring]; intros c Hc; apply hex_char_facts in Hc as (n & _ & _ & _ & _ & -> & _); done).
  change (filter_str _ "-") with EmptyString. cbn [String.append].
  transitivity (String.substring 0 (8 + 4 + 4 + 4 + 12) h); [| apply substring_all; lia].
  by rewrite !substring_split, !app_assoc_str.
Qed.

Lemma uuid_roundtrip u : (u < 2 ^ 128)%N -> uuid_of_str (uuid_str u) = Some u.
Proof.
  intros Hu. unfold uuid_str, uuid_of_str. set (b := Sha256.be_octets 16 u).
  assert (Hb : length b = 16%nat) by apply be_octets_length.
  assert (Hl : String.length (hex b) = 32%nat) by (rewrite hex_length; lia).
  change (join "-" _) with (dashed (hex b)).
  pose proof (dashes_removed (hex b) (hex_all b) Hl) as H1.
  assert (H2 : all_chars (fun c => negb (is_brace c)) (dashed (hex b)) = true).
  { apply dashed_all; [apply hex_all | done |]. intros c Hc. by apply hex_char_facts in Hc as (n & _ & _ & _ & _ & _ & _ & -> & _). }
  assert (H3 : has_char "u" (dashed (hex b)) = false).
  { apply has_char_all, dashed_all; [apply hex_all | done |]. intros c Hc.
    by apply hex_char_facts in Hc as (n & _ & _ & _ & _ & _ & _ & _ & _ & _ & _ & ->). }
  rewrite (remove_sub_none "urn:" "u" "rn:"), (remove_sub_none "uuid:" "u" "uid:") by done.
  rewrite lstrip_by_none, rstrip_by_none, H1, Hl by done. cbn [negb Nat.eqb].
  assert (Hi : int16 (hex b) = Some (Z.of_N u)).
  { assert (Hs : strip (hex b) = hex b).
    { unfold strip. assert (Ha : all_chars (fun c => negb (is_space c)) (hex b) = true).
      { apply all_hex_all; [| apply hex_all]. intros c Hc. apply hex_char_facts in Hc as (n & _ & _ & _ & _ & _ & _ & _ & -> & _). done. }
      rewrite (lstrip_by_none _ _ Ha). by apply rstrip_by_none. }
    unfold int16. rewrite Hs. pose proof (hex_all b) as Ha.
    assert (Hr : read_hex 0 true (hex b) = Some u).
    { rewrite read_hex_octets by (left; by destruct b). f_equal. unfold b. rewrite of_octets_be. rewrite N.mod_small by exact Hu. lia. }
    destruct (hex b) as [|c h]; [done |]. destruct Ha as [Hc Ha].
    pose proof (hex_char_facts c Hc) as (n & Hn & _ & _ & _ & Hd & Hp & _). rewrite Hd, Hp.
    assert (Hq : unsigned_hex (String c h) = read_hex 0 true (String c h)).
    { unfold unsigned_hex. destruct h as [|d h]; [by destruct c as [[] [] [] [] [] [] [] []] |]. destruct Ha as [Hd' _].
      apply hex_char_facts in Hd' as (m & _ & _ & _ & _ & _ & _ & _ & _ & -> & -> & _).
      by destruct c as [[] [] [] [] [] [] [] []]. }
    by rewrite Hq, Hr. }
  rewrite Hi. rewrite (proj2 (Z.leb_le 0 _)) by lia. rewrite (proj2 (Z.ltb_lt _ _)) by lia. simpl. by rewrite N2Z.id.
Qed.

Lemma uuid_str_inj u v : (u < 2 ^ 128)%N -> (v < 2 ^ 128)%N -> uuid_str u = uuid_str v -> u = v.
Proof. intros Hu Hv E. apply (f_equal uuid_of_str) in E. rewrite !uuid_roundtrip in E by done. by injection E. Qed.

(** The text holds none of the characters that separate fields around it. *)
Lemma uuid_str_no_bar u : has_char "|" (uuid_str u) = false.
Proof.
  unfold uuid_str. set (b := Sha256.be_octets 16 u). change (join "-" _) with (dashed (hex b)).
  apply has_char_all, dashed_all; [apply hex_all | done |]. intros c (n & Hn & ->).
  assert (H : In n (List.map N.of_nat (List.seq 0 16))) by (rewrite <- (N2Nat.id n); apply List.in_map, List.in_seq; lia).
  simpl in H. repeat (destruct H as [<-|H]; [by vm_compute |]). destruct H.
Qed.

Lemma substring_length n m s : String.length (String.substring n m s) = Nat.min m (String.length s - n).
Proof.
  revert n m. induction s as [|c s IH]; intros n m; simpl; [by destruct n, m |].
  destruct n; [destruct m; simpl; [done |]; rewrite IH; lia | by rewrite IH].
Qed.
Lemma uuid_str_length u : String.length (uuid_str u) = 36%nat.
Proof.
  unfold uuid_str. set (b := Sha256.be_octets 16 u). change (join "-" _) with (dashed (hex b)).
  rewrite dashed_app, !length_app_str, !substring_length, hex_length. unfold b. by rewrite be_octets_length.
Qed.
Lemma app_same_length (a b c d : string) : String.length a = String.length b ->
  String.append a c = String.append b d -> a = b /\ c = d.
Proof. revert b. induction a as [|x a IH]; intros [|y b] Hl; try done. simpl. intros [= -> E]. injection Hl as Hl. by destruct (IH b Hl E) as [-> ->]. Qed.
