(* ===== verification/Sample.v ===== *)
(** A small deployment on which the witnesses of the properties are evaluated:
    two tenants, two owners and an outsider, one account with a second factor, a
    live session each, a pending invitation, a challenge, and teams on both sides. *)
From S2P Require Import Prelude PyStr Hashing Json Config Tokens Models Permissions World.

Definition t0 : Z := 1000000000000000.

Definition acme : Tenant := {| tn_id := 1; tn_slug := "acme"; tn_name := "Acme"; tn_state := ACTIVE; tn_plan := "standard";
  tn_deleted_at := None; tn_created_at := 0 |}.
Definition globex : Tenant := {| tn_id := 2; tn_slug := "globex"; tn_name := "Globex"; tn_state := ACTIVE; tn_plan := "standard";
  tn_deleted_at := None; tn_created_at := 0 |}.
Definition alice : User := {| us_id := 1; us_email := "Alice@acme.fr"; us_display_name := Some "Alice"; us_created_at := 0 |}.
Definition bob : User := {| us_id := 2; us_email := "bob@acme.fr"; us_display_name := None; us_created_at := 0 |}.
Definition carol : User := {| us_id := 3; us_email := "carol@globex.fr"; us_display_name := None; us_created_at := 0 |}.
Definition alice_owner : Membership := {| mb_id := 1; mb_user_id := 1; mb_tenant_id := 1; mb_role := ROLE_OWNER; mb_created_at := 0 |}.
Definition bob_owner : Membership := {| mb_id := 2; mb_user_id := 2; mb_tenant_id := 1; mb_role := ROLE_OWNER; mb_created_at := 0 |}.
Definition carol_owner : Membership := {| mb_id := 3; mb_user_id := 3; mb_tenant_id := 2; mb_role := ROLE_OWNER; mb_created_at := 0 |}.

Definition bob_secret : bytes :=
  match seal_text (CFG := default_settings) (AES := plain_aes) (repeat (octet 7) 12) "424242" with Ok b => b | Raise _ => [] end.
Definition alice_credentials : UserCredentials := {| uc_user_id := 1; uc_password_hash := Some "$argon2id$correct horse";
  uc_totp_secret_encrypted := None; uc_totp_enabled := false; uc_totp_last_counter := None |}.
Definition bob_credentials : UserCredentials := {| uc_user_id := 2; uc_password_hash := Some "$argon2id$battery staple";
  uc_totp_secret_encrypted := Some bob_secret; uc_totp_enabled := true; uc_totp_last_counter := None |}.

Definition session_of (id user : N) (token : string) : AuthSession := {| as_id := id; as_user_id := user;
  as_token_hash := hash_token token; as_created_at := 0; as_expires_at := t0 + 1; as_last_seen_at := 0; as_revoked_at := None |}.
Definition bob_challenge : LoginChallenge := {| lc_id := 1; lc_user_id := 2; lc_token_hash := hash_token "bob-challenge";
  lc_expires_at := t0 + 1; lc_consumed_at := None |}.
Definition dave_invitation : Invitation := {| iv_id := 1; iv_email := "dave@acme.fr"; iv_tenant_id := 1; iv_role := ROLE_MEMBER;
  iv_token_hash := hash_token "dave-invitation"; iv_expires_at := t0 + 1; iv_accepted_at := None;
  iv_invited_by_user_id := Some 1%N; iv_created_at := 0 |}.

Definition team_of (id tenant : N) (name : string) : Team := {| tm_id := id; tm_tenant_id := tenant; tm_name := name;
  tm_description := None; tm_created_at := 0 |}.

Definition acme_keys : bytes :=
  match seal_text (CFG := default_settings) (AES := plain_aes) (repeat (octet 9) 12) (dumps (JObj [("mistral", JStr "acme-key")])) with
  | Ok b => b | Raise _ => [] end.
Definition acme_policy : TenantAIPolicy := {| ap_tenant_id := 1; ap_default_provider := None; ap_default_model := None;
  ap_allowed_providers := []; ap_zero_retention := true; ap_monthly_token_quota := Some 10; ap_hard_limit_enabled := false;
  ap_fallback_provider := None; ap_fallback_model := None; ap_byok_keys_enc := Some acme_keys |}.

Definition sample_db : Db := fun t =>
  match t with
  | Tenants => [acme; globex]
  | Users => [alice; bob; carol]
  | Memberships => [alice_owner; bob_owner; carol_owner]
  | Credentials => [alice_credentials; bob_credentials]
  | Sessions => [session_of 1 1 "alice-token"; session_of 2 2 "bob-token"; session_of 3 3 "carol-token"]
  | LoginChallenges => [bob_challenge]
  | Invitations => [dave_invitation]
  | AIPolicies => [acme_policy]
  | Teams => [team_of 1 1 "Ops"; team_of 2 2 "Ops"]
  | _ => []
  end.
Definition sample_world : World (VK := simple_valkey) := fresh_world t0 sample_db.
Definition in_acme : World (VK := simple_valkey) :=
  set_tenant (Some {| tc_tenant_id := 1; tc_slug := "acme"; tc_role := Some ROLE_OWNER |}) sample_world.
Lemma sample_quiet : quiet sample_world.
Proof. done. Qed.
