(* ===== verification/Orm.v ===== *)
(** [app/tenancy/context.py], [app/tenancy/tenant_base.py], [app/tenancy/session.py]
    and [app/core/db.py]: the tenant context, the guards installed on every
    SQLAlchemy session, and the operations of a session that go through them.

    A query names the mapped class it selects; [guard_orm_execute] decides which
    tenant criterion its rows must meet. An object that is added, changed or
    deleted goes through the half of [guard_flush] that concerns it. *)
From S2P Require Import Prelude PyStr Hashing Json Models World Sample.

Section context.
Context {VK : Valkey}.

Definition no_context_msg : string :=
  "Aucun contexte tenant résolu — toute requête métier exige un tenant (dépendance resolve_tenant ou tenant_context()).".

Definition current_tenant : M TenantContext :=
  fun w => match w_tenant w with
           | Some ctx => (Ok ctx, w)
           | None => (Raise (TenantContextError no_context_msg), w)
           end.
Definition current_tenant_or_none : M (option TenantContext) := fun w => (Ok (w_tenant w), w).

(** [push_tenant] gives the token that [pop_tenant] restores. *)
Definition push_tenant (ctx : TenantContext) : M (option TenantContext) :=
  fun w => (Ok (w_tenant w), set_tenant (Some ctx) w).
Definition pop_tenant (token : option TenantContext) : World -> World := set_tenant token.

Definition tenant_context {A} (ctx : TenantContext) (body : M A) : M A :=
  let* token := push_tenant ctx in
  finally body (pop_tenant token).
End context.

(** ** The guards *)

Inductive statement_kind := SELECT | UPDATE | DELETE | INSERT.

(** What the guard inspects of a statement: [all_mappers] are the mapped classes
    it selects or targets, [tables] those [find_tables] meets. *)
Record ORMExecuteState := {
  statement : statement_kind;
  is_column_load : bool;
  is_relationship_load : bool;
  all_mappers : list table;
  tables : list table
}.

Section guards.
Context {VK : Valkey}.

Definition _touches_scoped_mapper (state : ORMExecuteState) : bool := existsb scoped (all_mappers state).

Definition list_repr (names : list string) : string := "[" +:+ join ", " (List.map py_repr names) +:+ "]".

Definition _refuse_unscoped_table_access (state : ORMExecuteState) : M unit :=
  let leaked := List.filter (fun nt => bool_decide (nt.2 ∈ tables state)) scoped_table_names in
  raise_when (negb (bool_decide (leaked = [])))
    (TenantContextError ("Requête sur table(s) scopée(s) " +:+ list_repr (List.map fst leaked) +:+
      " sans entité ORM : le filtre tenant automatique ne peut pas s'appliquer. Référencez la classe mappée (ex. func.count(Model.id) plutôt que select_from(Model)).")) in
  ret tt.

(** The result is the tenant of the [with_loader_criteria] added, if any. *)
Definition _guard_orm_execute (state : ORMExecuteState) : M (option N) :=
  match statement state with
  | INSERT => ret None
  | _ =>
      if is_column_load state || is_relationship_load state then ret None
      else if negb (_touches_scoped_mapper state) then
        let* _ := _refuse_unscoped_table_access state in ret None
      else let* ctx := current_tenant in ret (Some (tc_tenant_id ctx))
  end.

(** [_guard_flush], for an object of [session.new] whose [tenant_id] is [given]... *)
Definition guard_flush_new (t : table) (given : option N) (obj : row t) : M (row t) :=
  if scoped t then
    let* ctx := current_tenant in
    match given with
    | None => ret (set_tenant_id t (tc_tenant_id ctx) obj)
    | Some tenant_id =>
        raise_when (negb (tenant_id =? tc_tenant_id ctx)%N)
          (TenantContextError ("tenant_id " +:+ uuid_str tenant_id +:+ " ≠ contexte courant " +:+
            uuid_str (tc_tenant_id ctx) +:+ " (insert refusé)")) in
        ret (set_tenant_id t tenant_id obj)
    end
  else ret obj.

(** ... and for one of [session.dirty] or [session.deleted]. *)
Definition guard_flush_touched (t : table) (obj : row t) : M unit :=
  if scoped t then
    let* ctx := current_tenant in
    raise_when (negb (owned_by (tc_tenant_id ctx) t obj))
      (TenantContextError ("tenant_id ≠ contexte courant " +:+ uuid_str (tc_tenant_id ctx) +:+ " (écriture refusée)")) in
    ret tt
  else ret tt.

Definition meets (criterion : option N) (t : table) (r : row t) : bool :=
  match criterion with Some tid => owned_by tid t r | None => true end.

Definition statement_on (k : statement_kind) (t : table) : ORMExecuteState :=
  {| statement := k; is_column_load := false; is_relationship_load := false; all_mappers := [t]; tables := [t] |}.

(** ** Sessions: [session.scalars(select(...))], [session.scalar], [session.add], ... *)

Definition scalars (s : sess) (t : table) (p : row t -> bool) : M (list (row t)) :=
  let* criterion := _guard_orm_execute (statement_on SELECT t) in
  let* db := view s in
  ret (rows_where (fun r => meets criterion t r && p r) (db t)).

Definition scalar (s : sess) (t : table) (p : row t -> bool) : M (option (row t)) :=
  let* criterion := _guard_orm_execute (statement_on SELECT t) in
  let* db := view s in
  ret (first_where (fun r => meets criterion t r && p r) (db t)).

Definition add_as (s : sess) (t : table) (given : option N) (obj : row t) : M (row t) :=
  let* obj := guard_flush_new t given obj in
  let* db := view s in
  raise_when (existsb (conflicts t obj) (db t)) IntegrityError in
  let* _ := write s (upd t (fun l => l ++ [obj])) in
  ret obj.
Definition add (s : sess) (t : table) (obj : row t) : M (row t) := add_as s t None obj.

(** Assignments to columns of a loaded object. *)
Definition modify (s : sess) (t : table) (obj : row t) (f : row t -> row t) : M unit :=
  let* _ := guard_flush_touched t obj in
  write s (upd t (update_where (same_row t obj) f)).

Definition remove (s : sess) (t : table) (obj : row t) : M unit :=
  let* _ := guard_flush_touched t obj in
  write s (upd t (delete_where (same_row t obj))).

(** [session.execute(delete(t).where(p))]: the number of rows deleted. *)
Definition delete_rows (s : sess) (t : table) (p : row t -> bool) : M Z :=
  let* criterion := _guard_orm_execute (statement_on DELETE t) in
  let* db := view s in
  let* _ := write s (upd t (delete_where (fun r => meets criterion t r && p r))) in
  ret (Z.of_nat (count_where (fun r => meets criterion t r && p r) (db t))).

(** [get_tenant_session] and [tenant_session]: a session, if a context is set. *)
Definition get_tenant_session {A} (s : sess) (body : M A) : M A :=
  let* _ := current_tenant in with_session s body.
End guards.

(** ** How an operation on an unscoped table runs *)

Section unscoped.
Context {VK : Valkey}.
Implicit Types (w : World) (s : sess).

Lemma guard_unscoped k t w : scoped t = false -> _guard_orm_execute (statement_on k t) w = (Ok None, w).
Proof.
  intros H. destruct t; try discriminate H; by destruct k.
Qed.

Lemma scalar_unscoped s t p w : scoped t = false -> scalar s t p w = (Ok (first_where p (sees w s t)), w).
Proof. intros H. unfold scalar, bind. by rewrite guard_unscoped. Qed.

Lemma scalars_unscoped s t p w : scoped t = false -> scalars s t p w = (Ok (rows_where p (sees w s t)), w).
Proof. intros H. unfold scalars, bind. by rewrite guard_unscoped. Qed.

Lemma add_unscoped s t r w : scoped t = false ->
  add s t r w = if existsb (conflicts t r) (sees w s t) then (Raise IntegrityError, w)
                else (Ok r, wrote s (upd t (fun l => l ++ [r])) w).
Proof. intros H. unfold add, add_as, guard_flush_new, bind. rewrite H. simpl. by destruct (existsb _ _). Qed.

Lemma modify_unscoped s t r f w : scoped t = false ->
  modify s t r f w = (Ok tt, wrote s (upd t (update_where (same_row t r) f)) w).
Proof. intros H. unfold modify, guard_flush_touched, bind. by rewrite H. Qed.

Lemma remove_unscoped s t r w : scoped t = false ->
  remove s t r w = (Ok tt, wrote s (upd t (delete_where (same_row t r))) w).
Proof. intros H. unfold remove, guard_flush_touched, bind. by rewrite H. Qed.

Lemma delete_rows_unscoped s t p w : scoped t = false ->
  delete_rows s t p w = (Ok (Z.of_nat (count_where p (sees w s t))), wrote s (upd t (delete_where p)) w).
Proof. intros H. unfold delete_rows, bind. by rewrite guard_unscoped. Qed.

(** The same in a tenant context. *)
Lemma guard_scoped k t w ctx : scoped t = true -> w_tenant w = Some ctx -> k <> INSERT ->
  _guard_orm_execute (statement_on k t) w = (Ok (Some (tc_tenant_id ctx)), w).
Proof.
  intros H Hc Hk. destruct k; try done;
    unfold _guard_orm_execute, _touches_scoped_mapper, current_tenant, bind, ret; simpl; by rewrite H; simpl; rewrite Hc.
Qed.

Lemma scalar_scoped s t p w ctx : scoped t = true -> w_tenant w = Some ctx ->
  scalar s t p w = (Ok (first_where (fun r => owned_by (tc_tenant_id ctx) t r && p r) (sees w s t)), w).
Proof. intros H Hc. unfold scalar, bind. by rewrite (guard_scoped SELECT t w ctx). Qed.

Lemma scalars_scoped s t p w ctx : scoped t = true -> w_tenant w = Some ctx ->
  scalars s t p w = (Ok (rows_where (fun r => owned_by (tc_tenant_id ctx) t r && p r) (sees w s t)), w).
Proof. intros H Hc. unfold scalars, bind. by rewrite (guard_scoped SELECT t w ctx). Qed.

Lemma add_scoped s t r w ctx : scoped t = true -> w_tenant w = Some ctx ->
  add s t r w = let r' := set_tenant_id t (tc_tenant_id ctx) r in
    if existsb (conflicts t r') (sees w s t) then (Raise IntegrityError, w)
    else (Ok r', wrote s (upd t (fun l => l ++ [r'])) w).
Proof.
  intros H Hc. unfold add, add_as, guard_flush_new, current_tenant, bind. rewrite H, Hc. simpl.
  by destruct (existsb _ _).
Qed.

Lemma delete_rows_scoped s t p w ctx : scoped t = true -> w_tenant w = Some ctx ->
  delete_rows s t p w = (Ok (Z.of_nat (count_where (fun r => owned_by (tc_tenant_id ctx) t r && p r) (sees w s t))),
    wrote s (upd t (delete_where (fun r => owned_by (tc_tenant_id ctx) t r && p r))) w).
Proof. intros H Hc. unfold delete_rows, bind. by rewrite (guard_scoped DELETE t w ctx). Qed.

Lemma modify_scoped s t r f w ctx : scoped t = true -> w_tenant w = Some ctx ->
  owned_by (tc_tenant_id ctx) t r = true ->
  modify s t r f w = (Ok tt, wrote s (upd t (update_where (same_row t r) f)) w).
Proof. intros H Hc Ho. unfold modify, guard_flush_touched, current_tenant, bind. by rewrite H, Hc, Ho. Qed.
End unscoped.

(** ** Running a program step by step

    The rules say what an operation followed by a continuation does; [run] applies
    them to the goal from left to right, until a condition of the code is met. *)
Section run.
Context {VK : Valkey}.
Implicit Types (w : World) (s : sess).

Lemma bind_ret {A B} (a : A) (k : A -> M B) w : bind (ret a) k w = k a w.
Proof. done. Qed.
Lemma bind_raise {A B} e (k : A -> M B) w : bind (raise e) k w = (Raise e, w).
Proof. done. Qed.
Lemma bind_ok {A B} (a : A) (k : A -> M B) w : bind (of_result (Ok a)) k w = k a w.
Proof. done. Qed.
Lemma bind_err {A B} e (k : A -> M B) w : bind (of_result (Raise e)) k w = (Raise e, w).
Proof. done. Qed.
Lemma bind_bind {A B C} (m : M A) (k : A -> M B) (k' : B -> M C) w :
  bind (bind m k) k' w = bind m (fun a => bind (k a) k') w.
Proof. unfold bind. by destruct (m w) as [[|] ?]. Qed.
Lemma bind_now {B} (k : Z -> M B) w : bind now k w = k (w_now w) w.
Proof. done. Qed.
Lemma bind_uuid4 {B} (k : N -> M B) w :
  bind uuid4 k w = k (w_entropy w (w_drawn w) mod 2 ^ 128)%N (set_drawn (S (w_drawn w)) w).
Proof. done. Qed.
Lemma bind_random_bytes {B} n (k : bytes -> M B) w :
  bind (random_bytes n) k w = k (Sha256.be_octets n (w_entropy w (w_drawn w))) (set_drawn (S (w_drawn w)) w).
Proof. done. Qed.
Lemma bind_emit {B} e (k : unit -> M B) w : bind (emit e) k w = k tt (set_out (w_out w ++ [e]) w).
Proof. done. Qed.
Lemma bind_view {B} s (k : Db -> M B) w : bind (view s) k w = k (sees w s) w.
Proof. done. Qed.
Lemma bind_commit {B} s (k : unit -> M B) w : bind (commit s) k w = k tt (set_pend s id (set_db (sees w s) w)).
Proof. done. Qed.

Lemma bind_scalar {B} s t p (k : option (row t) -> M B) w : scoped t = false ->
  bind (scalar s t p) k w = k (first_where p (sees w s t)) w.
Proof. intros H. unfold bind at 1. by rewrite scalar_unscoped. Qed.
Lemma bind_scalars {B} s t p (k : list (row t) -> M B) w : scoped t = false ->
  bind (scalars s t p) k w = k (rows_where p (sees w s t)) w.
Proof. intros H. unfold bind at 1. by rewrite scalars_unscoped. Qed.
Lemma bind_add {B} s t r (k : row t -> M B) w : scoped t = false ->
  bind (add s t r) k w = if existsb (conflicts t r) (sees w s t) then (Raise IntegrityError, w)
                         else k r (wrote s (upd t (fun l => l ++ [r])) w).
Proof. intros H. unfold bind at 1. rewrite add_unscoped by done. by destruct (existsb _ _). Qed.
Lemma bind_modify {B} s t r f (k : unit -> M B) w : scoped t = false ->
  bind (modify s t r f) k w = k tt (wrote s (upd t (update_where (same_row t r) f)) w).
Proof. intros H. unfold bind at 1. by rewrite modify_unscoped. Qed.
Lemma bind_remove {B} s t r (k : unit -> M B) w : scoped t = false ->
  bind (remove s t r) k w = k tt (wrote s (upd t (delete_where (same_row t r))) w).
Proof. intros H. unfold bind at 1. by rewrite remove_unscoped. Qed.
Lemma bind_delete_rows {B} s t p (k : Z -> M B) w : scoped t = false ->
  bind (delete_rows s t p) k w =
  k (Z.of_nat (count_where p (sees w s t))) (wrote s (upd t (delete_where p)) w).
Proof. intros H. unfold bind at 1. by rewrite delete_rows_unscoped. Qed.

Lemma sees_set_drawn w n s : sees (set_drawn n w) s = sees w s.
Proof. done. Qed.
Lemma sees_set_kv w n s : sees (set_kv n w) s = sees w s.
Proof. done. Qed.
Lemma sees_set_out w n s : sees (set_out n w) s = sees w s.
Proof. done. Qed.
Lemma sees_set_tenant w c s : sees (set_tenant c w) s = sees w s.
Proof. done. Qed.
Lemma sees_committed w s : sees (set_pend s id (set_db (sees w s) w)) s = sees w s.
Proof. unfold sees; simpl. by destruct (sess_eq_dec s s). Qed.
Lemma pend_set w s f : w_pend (set_pend s f w) s = f.
Proof. simpl. by destruct (sess_eq_dec s s). Qed.
Lemma pend_set_ne w s s' f : s <> s' -> w_pend (set_pend s f w) s' = w_pend w s'.
Proof. intros H. simpl. by destruct (sess_eq_dec s s'). Qed.
Lemma sees_closed w s : sees (closed s w) s = w_db w.
Proof. unfold sees, closed. by rewrite pend_set. Qed.
Lemma db_wrote w s f : w_db (wrote s f w) = w_db w.
Proof. done. Qed.
End run.

#[export] Hint Rewrite @sees_set_drawn @sees_set_kv @sees_set_out @sees_set_tenant @sees_committed @sees_closed
  @sees_wrote @db_wrote @upd_eq : orm.

(** The equation is stated with the types of the goal, where [row t] may be
    written as the record it is. *)
Ltac run_step lhs rhs rule :=
  let H := fresh in assert (H : lhs = rhs) by exact rule; rewrite H; clear H.
Ltac run_query :=
  match goal with
  | |- context [@bind ?V ?A ?B (@scalar ?V ?s ?t ?p) ?k ?w] =>
      run_step (@bind V A B (@scalar V s t p) k w) (k (first_where p (sees w s t)) w) (bind_scalar s t p k w eq_refl)
  | |- context [@bind ?V ?A ?B (@scalars ?V ?s ?t ?p) ?k ?w] =>
      run_step (@bind V A B (@scalars V s t p) k w) (k (rows_where p (sees w s t)) w) (bind_scalars s t p k w eq_refl)
  | |- context [@bind ?V ?A ?B (@add ?V ?s ?t ?r) ?k ?w] =>
      run_step (@bind V A B (@add V s t r) k w)
        (if existsb (conflicts t r) (sees w s t) then (Raise IntegrityError, w)
         else k r (wrote s (upd t (fun l => l ++ [r])) w)) (bind_add s t r k w eq_refl)
  | |- context [bind (modify ?s ?t ?r ?f) ?k ?w] => rewrite (bind_modify s t r f k w eq_refl)
  | |- context [bind (remove ?s ?t ?r) ?k ?w] => rewrite (bind_remove s t r k w eq_refl)
  | |- context [bind (delete_rows ?s ?t ?p) ?k ?w] => rewrite (bind_delete_rows s t p k w eq_refl)
  end.
Ltac run1 :=
  first [ rewrite bind_ret | rewrite bind_raise | rewrite bind_ok | rewrite bind_err | rewrite bind_bind
        | rewrite bind_now | rewrite bind_uuid4 | rewrite bind_random_bytes | rewrite bind_emit
        | rewrite bind_view | rewrite bind_commit | run_query ];
  cbn beta.
Ltac simpl_view := repeat first [ progress autorewrite with orm | rewrite upd_ne by discriminate ].
Ltac run := repeat run1; simpl_view; cbn [row] in *.

(** ** Property *)

Section properties.
Context {VK : Valkey}.

(** C40: without a tenant context, nothing of a scoped table is read, added,
    changed or deleted: every session operation on it raises and the world is
    as before; nor does a query that meets a scoped table without selecting its
    class run, in any context. *)
Theorem no_context_no_access (s : sess) (t : table) (w : World) :
  scoped t = true ->
  (w_tenant w = None -> forall p r given f,
    (exists e, scalars s t p w = (Raise (TenantContextError e), w) /\
               scalar s t p w = (Raise (TenantContextError e), w) /\
               add_as s t given r w = (Raise (TenantContextError e), w) /\
               modify s t r f w = (Raise (TenantContextError e), w) /\
               remove s t r w = (Raise (TenantContextError e), w) /\
               delete_rows s t p w = (Raise (TenantContextError e), w))) /\
  (forall k ts ms, k <> INSERT -> In t ts -> Forall (fun u => scoped u = false) ms ->
    exists e, _guard_orm_execute {| statement := k; is_column_load := false; is_relationship_load := false;
                                    all_mappers := ms; tables := ts |} w = (Raise (TenantContextError e), w)).
Proof.
  intros Ht. split.
  - intros Hc p r given f. exists no_context_msg.
    unfold scalars, scalar, add_as, modify, remove, delete_rows, guard_flush_new, guard_flush_touched,
      _guard_orm_execute, _touches_scoped_mapper, current_tenant, bind. simpl. rewrite Ht. simpl. rewrite Hc. done.
  - intros k ts ms Hk Hin Hms. unfold _guard_orm_execute, _touches_scoped_mapper, _refuse_unscoped_table_access. simpl.
    replace (existsb scoped ms) with false.
    + eexists. assert (Hl : List.filter (fun nt => bool_decide (nt.2 ∈ ts)) scoped_table_names <> []).
      { apply list_elem_of_In in Hin. unfold scoped_table_names; simpl. destruct t; try discriminate Ht;
          rewrite (bool_decide_eq_true_2 _ Hin); repeat destruct (bool_decide _); done. }
      rewrite bool_decide_eq_false_2 by exact Hl. by destruct k.
    + symmetry. induction Hms as [|u ms Hu Hms IH]; [done |]. simpl. by rewrite Hu.
Qed.
End properties.

Lemma no_context_no_access_witness :
  exists e, scalars (VK := simple_valkey) Ten Teams (fun _ => true) sample_world = (Raise (TenantContextError e), sample_world).
Proof.
  destruct (no_context_no_access (VK := simple_valkey) Ten Teams sample_world eq_refl) as [H _].
  destruct (H eq_refl (fun _ => true) (team_of 1 1 "Ops") None id) as (e & He & _). by exists e.
Defined.
