(* ===== verification/Isolation.v ===== *)
(** The tenant isolation invariant of [app/tenancy/tenant_base.py]: code that
    reaches the database through sessions, run in the context of one tenant,
    neither reads nor changes a row of another tenant in a scoped table. *)
From S2P Require Import Prelude PyStr Hashing Models World Orm Sample.

Section isolation.
Context {VK : Valkey}.

(** Programs made of session operations and ordinary computation, that stay in
    the context they run in. *)
Inductive orm_code : forall X : Type, M X -> Prop :=
  | code_ret X (a : X) : orm_code X (ret a)
  | code_raise X e : orm_code X (raise e)
  | code_of_result X (r : result X) : orm_code X (of_result r)
  | code_bind X Y (m : M X) (k : X -> M Y) :
      orm_code X m -> (forall a, orm_code Y (k a)) -> orm_code Y (bind m k)
  | code_catch X (m : M X) h : orm_code X m -> h IntegrityError = None ->
      (forall e k, h e = Some k -> orm_code X k) -> orm_code X (catch m h)
  | code_now : orm_code Z now
  | code_uuid4 : orm_code N uuid4
  | code_random_bytes n : orm_code bytes (random_bytes n)
  | code_emit e : orm_code unit (emit e)
  | code_current_tenant : orm_code TenantContext current_tenant
  | code_scalars s t p : orm_code (list (row t)) (scalars s t p)
  | code_scalar s t p : orm_code (option (row t)) (scalar s t p)
  | code_add s t given r : orm_code (row t) (add_as s t given r)
  | code_modify s t r f : (forall tid x, owned_by tid t (f x) = owned_by tid t x) ->
      orm_code unit (modify s t r f)
  | code_remove s t r : orm_code unit (remove s t r)
  | code_delete_rows s t p : orm_code Z (delete_rows s t p)
  | code_commit s : orm_code unit (commit s).
Arguments orm_code {X} m.

Variable A : N.

(** What tenant [A] may see of the tables, and what it may not. *)
Definition agree (d1 d2 : Db) : Prop :=
  forall t, rows_where (owned_by A t) (d1 t) = rows_where (owned_by A t) (d2 t).
Definition foreign (d : Db) (t : table) : list (row t) := rows_where (fun r => negb (owned_by A t r)) (d t).

Definition same_pend (f g : Db -> Db) : Prop := forall d1 d2, agree d1 d2 -> agree (f d1) (g d2).
Definition keeps_foreign (f : Db -> Db) : Prop := forall d t, foreign (f d) t = foreign d t.

(** Two worlds that differ at most in the rows of other tenants. *)
Record alike (w1 w2 : World) : Prop := {
  alike_db : agree (w_db w1) (w_db w2);
  alike_pend s : same_pend (w_pend w1 s) (w_pend w2 s);
  alike_now : w_now w1 = w_now w2;
  alike_entropy : w_entropy w1 = w_entropy w2;
  alike_drawn : w_drawn w1 = w_drawn w2;
  alike_tenant : w_tenant w1 = w_tenant w2;
  alike_grants : w_grants w1 = w_grants w2;
  alike_kv : w_kv w1 = w_kv w2;
  alike_out : w_out w1 = w_out w2
}.

Definition in_context (w : World) : Prop := exists ctx, w_tenant w = Some ctx /\ tc_tenant_id ctx = A.

(** The worlds [w] and [w'] hold the same rows of other tenants, committed or not. *)
Definition untouched (w w' : World) : Prop :=
  w_tenant w' = w_tenant w /\
  ((forall s, keeps_foreign (w_pend w s)) ->
   (forall s, keeps_foreign (w_pend w' s)) /\ forall t, foreign (w_db w') t = foreign (w_db w) t).

(** ** Facts about rows *)

Lemma owned_set_tenant_id t tid r : scoped t = true -> owned_by A t (set_tenant_id t tid r) = (tid =? A)%N.
Proof. by destruct t. Qed.
Lemma owned_unscoped t r : scoped t = false -> owned_by A t r = true.
Proof. by destruct t. Qed.
Lemma owned_same_row t x y : same_row t x y = true -> owned_by A t x = owned_by A t y.
Proof. destruct t; simpl; try done; intros H; unfold owned_by; simpl; bool_hyps; congruence. Qed.

Lemma agree_upd t f g d1 d2 :
  (rows_where (owned_by A t) (f (d1 t)) = rows_where (owned_by A t) (g (d2 t))) ->
  agree d1 d2 -> agree (upd t f d1) (upd t g d2).
Proof.
  intros Hf Hd t'. destruct (decide (t = t')) as [<-|Hne]; [by rewrite !upd_eq | by rewrite !upd_ne].
Qed.

Lemma foreign_upd t f d :
  rows_where (fun r => negb (owned_by A t r)) (f (d t)) = rows_where (fun r => negb (owned_by A t r)) (d t) ->
  forall t', foreign (upd t f d) t' = foreign d t'.
Proof.
  intros Hf t'. unfold foreign. destruct (decide (t = t')) as [<-|Hne]; [by rewrite !upd_eq | by rewrite !upd_ne].
Qed.

Lemma rows_where_and {X} (p q : X -> bool) l : rows_where (fun r => p r && q r) l = rows_where q (rows_where p l).
Proof.
  induction l as [|a l IH]; [done |]. unfold rows_where in *; simpl.
  destruct (p a); simpl; [by destruct (q a); rewrite IH | done].
Qed.

Lemma first_where_and {X} (p q : X -> bool) l : first_where (fun r => p r && q r) l = first_where q (rows_where p l).
Proof. by rewrite first_where_filter. Qed.

Lemma rows_where_update_keep {X} (own p : X -> bool) f (l : list X) :
  (forall x, own (f x) = own x) ->
  rows_where own (update_where p f l) = update_where p f (rows_where own l).
Proof. intros H. apply rows_where_update. intros; apply H. Qed.

(** A write confined to the rows of [A] (a row of [A] is added, or rows meeting
    a criterion of [A] change within [A]). *)
Lemma agree_append t r d1 d2 : agree d1 d2 ->
  agree (upd t (fun l => l ++ [r]) d1) (upd t (fun l => l ++ [r]) d2).
Proof. intros H. apply agree_upd; [| done]. by rewrite !rows_where_app, (H t). Qed.

Lemma foreign_append t r d : owned_by A t r = true ->
  forall t', foreign (upd t (fun l => l ++ [r]) d) t' = foreign d t'.
Proof. intros H. apply foreign_upd. rewrite rows_where_app. unfold rows_where at 2. simpl. rewrite H. by rewrite app_nil_r. Qed.

Lemma agree_update t p f d1 d2 : (forall x, owned_by A t (f x) = owned_by A t x) -> agree d1 d2 ->
  agree (upd t (update_where p f) d1) (upd t (update_where p f) d2).
Proof. intros Hf H. apply agree_upd; [| done]. by rewrite !rows_where_update_keep, (H t). Qed.

Lemma foreign_update t p f d : (forall x, owned_by A t (f x) = owned_by A t x) ->
  (forall x, p x = true -> owned_by A t x = true) ->
  forall t', foreign (upd t (update_where p f) d) t' = foreign d t'.
Proof.
  intros Hf Hp. apply foreign_upd. rewrite rows_where_update by (intros; by rewrite Hf).
  apply update_where_none. intros x [_ Hx]%in_rows_where. bool_hyps. destruct (p x) eqn:E; [| done].
  apply Hp in E. congruence.
Qed.

Lemma agree_delete t p d1 d2 : agree d1 d2 -> agree (upd t (delete_where p) d1) (upd t (delete_where p) d2).
Proof. intros H. apply agree_upd; [| done]. by rewrite !rows_where_delete, (H t). Qed.

Lemma foreign_delete t p d : (forall x, p x = true -> owned_by A t x = true) ->
  forall t', foreign (upd t (delete_where p) d) t' = foreign d t'.
Proof.
  intros Hp. apply foreign_upd. apply rows_where_delete_disjoint. intros x _ Hx. bool_hyps.
  destruct (p x) eqn:E; [| done]. apply Hp in E. congruence.
Qed.

(** ** Facts about worlds *)

Lemma alike_sees w1 w2 s : alike w1 w2 -> agree (sees w1 s) (sees w2 s).
Proof. intros H. by apply (alike_pend _ _ H), (alike_db _ _ H). Qed.

Lemma alike_wrote w1 w2 s f g : alike w1 w2 -> same_pend f g -> alike (wrote s f w1) (wrote s g w2).
Proof.
  intros [] Hf. constructor; simpl; try done. intros s'. destruct (sess_eq_dec s s'); [| done].
  intros d1 d2 Hd. apply Hf. naive_solver.
Qed.

Lemma untouched_refl w : untouched w w.
Proof. done. Qed.
Lemma untouched_trans w1 w2 w3 : untouched w1 w2 -> untouched w2 w3 -> untouched w1 w3.
Proof.
  intros [Ht1 H1] [Ht2 H2]. split; [congruence |]. intros Hp. destruct (H1 Hp) as [Hp2 Hd2].
  destruct (H2 Hp2) as [Hp3 Hd3]. split; [done |]. intros t. by rewrite Hd3.
Qed.
Lemma untouched_wrote w s f : keeps_foreign f -> untouched w (wrote s f w).
Proof.
  intros Hf. split; [done |]. intros Hp. split; [| done]. intros s'. simpl.
  destruct (sess_eq_dec s s') as [<-|]; [| done]. intros d t. by rewrite Hf, Hp.
Qed.

(** ** Both runs of an operation *)

Definition refused {X} (r : result X) : Prop := r = Raise IntegrityError.

(** From two alike worlds: the same result and alike worlds, or a uniqueness
    constraint refused one of the runs. *)
Definition indifferent {X} (m : M X) : Prop :=
  forall w1 w2, in_context w1 -> alike w1 w2 ->
    refused (m w1).1 \/ refused (m w2).1 \/ ((m w1).1 = (m w2).1 /\ alike (m w1).2 (m w2).2).
Definition confined {X} (m : M X) : Prop := forall w, in_context w -> untouched w (m w).2.

Lemma in_context_untouched w w' : untouched w w' -> in_context w -> in_context w'.
Proof. intros [H _] (ctx & Hc & Ha). exists ctx. split; [congruence | done]. Qed.

Lemma in_context_alike w w' : alike w w' -> in_context w -> in_context w'.
Proof. intros H (ctx & Hc & Ha). exists ctx. split; [by rewrite <- (alike_tenant _ _ H) | done]. Qed.

(** In context, each session operation runs as follows. *)
Lemma guard_criterion k t w : in_context w -> k <> INSERT ->
  exists c, _guard_orm_execute (statement_on k t) w = (Ok c, w) /\ forall r, meets c t r = owned_by A t r.
Proof.
  intros (ctx & Hc & Ha) Hk. destruct (scoped t) eqn:Es.
  - exists (Some A). split; [| done]. rewrite (guard_scoped k t w ctx) by done. by rewrite Ha.
  - exists None. split; [by apply guard_unscoped |]. intros r. by rewrite owned_unscoped.
Qed.

Lemma run_scalars s t p w : in_context w ->
  scalars s t p w = (Ok (rows_where p (rows_where (owned_by A t) (sees w s t))), w).
Proof.
  intros Hw. destruct (guard_criterion SELECT t w Hw) as (c & Hg & Hc); [done |].
  unfold scalars, bind. rewrite Hg. simpl. unfold ret. rewrite <- rows_where_and. f_equal. f_equal.
  apply rows_where_ext. intros r _. by rewrite Hc.
Qed.

Lemma run_scalar s t p w : in_context w ->
  scalar s t p w = (Ok (first_where p (rows_where (owned_by A t) (sees w s t))), w).
Proof.
  intros Hw. destruct (guard_criterion SELECT t w Hw) as (c & Hg & Hc); [done |].
  unfold scalar, bind. rewrite Hg. simpl. unfold ret. rewrite <- first_where_and. f_equal. f_equal.
  apply first_where_ext. intros r _. by rewrite Hc.
Qed.

Lemma run_delete_rows s t p w : in_context w -> exists q,
  (forall r, q r = owned_by A t r && p r) /\
  delete_rows s t p w = (Ok (Z.of_nat (length (rows_where p (rows_where (owned_by A t) (sees w s t))))),
                         wrote s (upd t (delete_where q)) w).
Proof.
  intros Hw. destruct (guard_criterion DELETE t w Hw) as (c & Hg & Hc); [done |].
  exists (fun r => meets c t r && p r). split; [intros r; by rewrite Hc |].
  unfold delete_rows, bind. rewrite Hg. simpl. unfold ret, count_where. rewrite <- rows_where_and.
  f_equal. do 3 f_equal. apply rows_where_ext. intros r _. by rewrite Hc.
Qed.

Lemma run_guard_new t given r w : in_context w ->
  (exists e, forall w', w_tenant w' = w_tenant w -> guard_flush_new t given r w' = (Raise e, w')) \/
  (exists r', owned_by A t r' = true /\ forall w', w_tenant w' = w_tenant w -> guard_flush_new t given r w' = (Ok r', w')).
Proof.
  intros (ctx & Hc & Ha). unfold guard_flush_new. destruct (scoped t) eqn:Es.
  - destruct given as [tid|]; [destruct (tid =? tc_tenant_id ctx)%N eqn:E |].
    + right. eexists. split; [by rewrite owned_set_tenant_id, <- Ha |].
      intros w' Hw'. unfold bind, current_tenant. rewrite Hw', Hc. simpl. by rewrite E.
    + left. eexists. intros w' Hw'. unfold bind, current_tenant.
      rewrite Hw', Hc. simpl. by rewrite E.
    + right. eexists. split; [rewrite owned_set_tenant_id by done; apply N.eqb_eq, Ha |].
      intros w' Hw'. unfold bind, current_tenant. by rewrite Hw', Hc.
  - right. exists r. split; [by apply owned_unscoped | done].
Qed.

Lemma run_guard_touched t r w : in_context w ->
  exists res, (res = Ok tt -> owned_by A t r = true) /\
    forall w', w_tenant w' = w_tenant w -> guard_flush_touched t r w' = (res, w').
Proof.
  intros (ctx & Hc & Ha). unfold guard_flush_touched. destruct (scoped t) eqn:Es.
  - destruct (owned_by A t r) eqn:E.
    + exists (Ok tt). split; [done |]. intros w' Hw'. unfold bind, current_tenant. by rewrite Hw', Hc, Ha, E.
    + eexists (Raise _). split; [done |]. intros w' Hw'. unfold bind, current_tenant. rewrite Hw', Hc. simpl.
      rewrite Ha, E. simpl. done.
  - exists (Ok tt). split; [intros _; by apply owned_unscoped | done].
Qed.

(** ** Each operation is indifferent and confined *)

Lemma confined_wrote {X} w s f (x : result X) : keeps_foreign f -> untouched w (x, wrote s f w).2.
Proof. apply untouched_wrote. Qed.

Lemma add_runs s t given r : indifferent (add_as s t given r) /\ confined (add_as s t given r).
Proof.
  split.
  - intros w1 w2 Hw Ha. unfold add_as, bind, view, write, ret, raise, refused.
    destruct (run_guard_new t given r w1 Hw) as [(e & He) | (r' & Ho & Hr)].
    + rewrite !He by (done || symmetry; apply Ha). by right; right.
    + rewrite !Hr by (done || symmetry; apply Ha).
      destruct (existsb (conflicts t r') (sees w1 s t)); [by left |].
      destruct (existsb (conflicts t r') (sees w2 s t)); [by right; left |]. right; right. simpl. split; [done |].
      apply alike_wrote; [done |]. intros d1 d2. apply agree_append.
  - intros w Hw. unfold add_as, bind, view, write, ret, raise.
    destruct (run_guard_new t given r w Hw) as [(e & He) | (r' & Ho & Hr)].
    + by rewrite He by done.
    + rewrite Hr by done. destruct (existsb (conflicts t r') (sees w s t)); [done |].
      apply confined_wrote. intros d t'. by apply foreign_append.
Qed.

Lemma modify_runs s t r f : (forall x, owned_by A t (f x) = owned_by A t x) ->
  indifferent (modify s t r f) /\ confined (modify s t r f).
Proof.
  intros Hf. split.
  - intros w1 w2 Hw Ha. unfold modify, bind, write.
    destruct (run_guard_touched t r w1 Hw) as (res & Ho & Hr).
    rewrite !Hr by (done || symmetry; apply Ha). right; right. destruct res as [[]|e]; [| done]. simpl. split; [done |].
    apply alike_wrote; [done |]. intros d1 d2. by apply agree_update.
  - intros w Hw. unfold modify, bind, write.
    destruct (run_guard_touched t r w Hw) as (res & Ho & Hr). rewrite Hr by done.
    destruct res as [[]|e]; [| done]. apply confined_wrote. intros d t'. apply foreign_update; [done |].
    intros x Hx. rewrite <- (owned_same_row t r x Hx). by apply Ho.
Qed.

Lemma remove_runs s t r : indifferent (remove s t r) /\ confined (remove s t r).
Proof.
  split.
  - intros w1 w2 Hw Ha. unfold remove, bind, write.
    destruct (run_guard_touched t r w1 Hw) as (res & Ho & Hr).
    rewrite !Hr by (done || symmetry; apply Ha). right; right. destruct res as [[]|e]; [| done]. simpl. split; [done |].
    apply alike_wrote; [done |]. intros d1 d2. by apply agree_delete.
  - intros w Hw. unfold remove, bind, write.
    destruct (run_guard_touched t r w Hw) as (res & Ho & Hr). rewrite Hr by done.
    destruct res as [[]|e]; [| done]. apply confined_wrote. intros d t'. apply foreign_delete.
    intros x Hx. rewrite <- (owned_same_row t r x Hx). by apply Ho.
Qed.

Lemma delete_rows_runs s t p : indifferent (delete_rows s t p) /\ confined (delete_rows s t p).
Proof.
  split.
  - intros w1 w2 Hw Ha. right; right.
    destruct (run_delete_rows s t p w1 Hw) as (q1 & Hq1 & ->).
    destruct (run_delete_rows s t p w2 (in_context_alike _ _ Ha Hw)) as (q2 & Hq2 & ->). simpl.
    rewrite (alike_sees _ _ s Ha t). split; [done |]. apply alike_wrote; [done |]. intros d1 d2 Hd.
    apply agree_upd; [| done]. rewrite !rows_where_delete, (Hd t).
    apply List.filter_ext. intros x. by rewrite Hq1, Hq2.
  - intros w Hw. destruct (run_delete_rows s t p w Hw) as (q & Hq & ->).
    apply confined_wrote. intros d t'. apply foreign_delete. intros x Hx. rewrite Hq in Hx. by bool_hyps.
Qed.

Lemma commit_runs s : indifferent (commit s) /\ confined (commit s).
Proof.
  split.
  - intros w1 w2 Hw Ha. right; right. split; [done |]. pose proof (alike_sees _ _ s Ha) as Hs. destruct Ha. unfold commit.
    constructor; simpl; try done. intros s'. destruct (sess_eq_dec s s'); [intros d1 d2 Hd; exact Hd | apply alike_pend0].
  - intros w Hw. split; [done |]. intros Hp. unfold commit; simpl. split; [| intros t; apply Hp].
    intros s'. destruct (sess_eq_dec s s'); [done | apply Hp].
Qed.

Lemma read_only {X} (m : M X) : (forall w, (m w).2 = w) ->
  (forall w1 w2, in_context w1 -> alike w1 w2 -> (m w1).1 = (m w2).1) -> indifferent m /\ confined m.
Proof.
  intros Hs Hr. split.
  - intros w1 w2 Hw Ha. right; right. rewrite !Hs. split; [by apply Hr | done].
  - intros w Hw. rewrite Hs. apply untouched_refl.
Qed.

Lemma drawing {X} (g : N -> X) :
  let m := fun w : World => (Ok (g (w_entropy w (w_drawn w))), set_drawn (S (w_drawn w)) w) in
  indifferent m /\ confined m.
Proof.
  split.
  - intros w1 w2 Hw []. right; right. simpl. split; [congruence |]. constructor; simpl; solve [done | congruence].
  - intros w Hw. done.
Qed.

Lemma emit_runs e : indifferent (emit e) /\ confined (emit e).
Proof.
  split.
  - intros w1 w2 Hw []. right; right. split; [done |]. constructor; simpl; solve [done | congruence].
  - done.
Qed.

Lemma bind_runs {X Y} (m : M X) (k : X -> M Y) :
  indifferent m /\ confined m -> (forall a, indifferent (k a) /\ confined (k a)) ->
  indifferent (bind m k) /\ confined (bind m k).
Proof.
  intros [Hm1 Hm2] Hk. split.
  - intros w1 w2 Hw Ha. unfold bind. pose proof (Hm2 w1 Hw) as Hu. destruct (Hm1 w1 w2 Hw Ha) as [H | [H | [H Ha']]].
    + left. destruct (m w1) as [r1 w1']. simpl in H. by rewrite H.
    + right; left. destruct (m w2) as [r2 w2']. simpl in H. by rewrite H.
    + destruct (m w1) as [r1 w1'], (m w2) as [r2 w2']. simpl in *. subst r2.
      destruct r1 as [a|e]; [| by right; right]. apply (Hk a); [by eapply in_context_untouched | done].
  - intros w Hw. unfold bind. pose proof (Hm2 w Hw) as Hu. destruct (m w) as [[a|e] w']; [| done].
    eapply untouched_trans; [exact Hu |]. apply (Hk a). by eapply in_context_untouched.
Qed.

Lemma catch_runs {X} (m : M X) h :
  indifferent m /\ confined m -> h IntegrityError = None ->
  (forall e k, h e = Some k -> indifferent k /\ confined k) ->
  indifferent (catch m h) /\ confined (catch m h).
Proof.
  intros [Hm1 Hm2] Hh Hk. split.
  - intros w1 w2 Hw Ha. unfold catch. pose proof (Hm2 w1 Hw) as Hu. destruct (Hm1 w1 w2 Hw Ha) as [H | [H | [H Ha']]].
    + left. destruct (m w1) as [r1 w1']. unfold refused in H; simpl in H; subst r1. by rewrite Hh.
    + right; left. destruct (m w2) as [r2 w2']. unfold refused in H; simpl in H; subst r2. by rewrite Hh.
    + destruct (m w1) as [r1 w1'], (m w2) as [r2 w2']. simpl in *. subst r2.
      destruct r1 as [a|e]; [by right; right |]. destruct (h e) as [k|] eqn:E; [| by right; right].
      apply (Hk e k E); [by eapply in_context_untouched | done].
  - intros w Hw. unfold catch. pose proof (Hm2 w Hw) as Hu. destruct (m w) as [[a|e] w']; [done |].
    destruct (h e) as [k|] eqn:E; [| done]. eapply untouched_trans; [exact Hu |].
    apply (Hk e k E). by eapply in_context_untouched.
Qed.

Lemma orm_code_runs X (m : M X) : orm_code m -> indifferent m /\ confined m.
Proof.
  induction 1.
  - by apply read_only.
  - by apply read_only.
  - by apply read_only.
  - by apply bind_runs.
  - by apply catch_runs.
  - apply read_only; [done |]. intros w1 w2 _ []. unfold now; simpl; congruence.
  - apply (drawing (fun n => n mod 2 ^ 128)%N).
  - apply (drawing (Sha256.be_octets n)).
  - apply emit_runs.
  - apply read_only; [intros w; unfold current_tenant; by destruct (w_tenant w) |].
    intros w1 w2 _ []. unfold current_tenant. rewrite <- alike_tenant0. by destruct (w_tenant w1).
  - split; [| intros w Hw; by rewrite run_scalars]. intros w1 w2 Hw Ha. right; right.
    rewrite !run_scalars by (done || by eapply in_context_alike). by rewrite (alike_sees _ _ s Ha t).
  - split; [| intros w Hw; by rewrite run_scalar]. intros w1 w2 Hw Ha. right; right.
    rewrite !run_scalar by (done || by eapply in_context_alike). by rewrite (alike_sees _ _ s Ha t).
  - apply add_runs.
  - apply modify_runs. eauto.
  - apply remove_runs.
  - apply delete_rows_runs.
  - apply commit_runs.
Qed.
End isolation.

Arguments orm_code {VK X} m.
Create HintDb orm_code.
#[export] Hint Constructors orm_code : orm_code.

Lemma code_add_unstamped {VK : Valkey} s t r : orm_code (add s t r).
Proof. apply code_add. Qed.
#[export] Hint Resolve code_add_unstamped : orm_code.

(** ** Properties *)

Section properties.
Context {VK : Valkey}.

(** C1: the root invariant. Whatever code runs in the context of tenant [A]
    through sessions, two databases that differ only in other tenants' rows
    give it the same result and leave it in states that still differ only
    there; the one exception is an insert that a uniqueness constraint refuses. *)
Theorem tenant_reads_isolated (A : N) (X : Type) (m : M X) (w1 w2 : World) :
  orm_code m -> in_context A w1 -> alike A w1 w2 ->
  (m w1).1 <> Raise IntegrityError -> (m w2).1 <> Raise IntegrityError ->
  (m w1).1 = (m w2).1 /\ alike A (m w1).2 (m w2).2.
Proof.
  intros Hm Hw Ha H1 H2. destruct (orm_code_runs A X m Hm) as [Hi _].
  destruct (Hi w1 w2 Hw Ha) as [H | [H | H]]; [done | done | exact H].
Qed.

(** C2: such code, from a point where no transaction is open, leaves every row
    of every other tenant in every scoped table as it was, whether it commits,
    raises or is abandoned, and stays in its context. *)
Theorem tenant_writes_isolated (A : N) (X : Type) (m : M X) (w : World) :
  orm_code m -> in_context A w -> (forall s, w_pend w s = id) ->
  in_context A (m w).2 /\
  forall s t, foreign A (w_db (m w).2) t = foreign A (w_db w) t /\
              foreign A (sees (m w).2 s) t = foreign A (w_db w) t.
Proof.
  intros Hm Hw Hp. destruct (orm_code_runs A X m Hm) as [_ Hc].
  pose proof (Hc w Hw) as Hu. split; [by eapply in_context_untouched |].
  destruct Hu as [_ Hu]. destruct Hu as [Hp' Hd]; [intros s; by rewrite Hp |].
  intros s t. split; [by apply Hd |]. unfold sees. by rewrite Hp', Hd.
Qed.
End properties.

(** ** Witnesses *)

Lemma tenant_reads_isolated_witness :
  let w2 := set_db (upd Teams (List.map (fun t => if (tm_tenant_id t =? 2)%N then team_of 2 2 "Secret" else t)) sample_db) in_acme in
  (scalars (VK := simple_valkey) Ten Teams (fun _ => true) in_acme).1 =
  (scalars (VK := simple_valkey) Ten Teams (fun _ => true) w2).1.
Proof.
  intros w2. apply (tenant_reads_isolated (VK := simple_valkey) 1 _ (scalars Ten Teams (fun _ => true)) in_acme w2).
  - apply code_scalars.
  - by eexists.
  - constructor; try done; [intros t; by destruct t | by intros s d1 d2 H].
  - done.
  - done.
Defined.

Lemma tenant_writes_isolated_witness :
  foreign 1 (w_db ((let* _ := delete_rows Ten Teams (fun _ => true) in commit Ten) in_acme).2) Teams = [team_of 2 2 "Ops"].
Proof.
  apply (tenant_writes_isolated (VK := simple_valkey) 1 _ (let* _ := delete_rows Ten Teams (fun _ => true) in commit Ten) in_acme).
  - apply code_bind; [apply code_delete_rows | intros _; apply code_commit].
  - by eexists.
  - done.
  - exact Ten.
Defined.
