(* ===== verification/AuthService.v ===== *)
(** [app/auth/service.py]: passwords, server sessions, the partial-login
    challenge, TOTP with its recovery codes. Each operation works in the session
    its caller passes and leaves the commit to it. *)
From S2P Require Import Prelude PyStr Hashing Base64 Json Config Tokens Models World Orm Sample.

Definition TOTP_ISSUER : string := "Socle SaaS".
Definition RECOVERY_CODE_COUNT : nat := 8.
Definition hour : Z := 3600 * second.
Definition minute : Z := 60 * second.

(** Columns of [UserCredentials] the code assigns. *)
Definition with_password_hash (h : option string) (c : UserCredentials) : UserCredentials := {|
  uc_user_id := uc_user_id c; uc_password_hash := h; uc_totp_secret_encrypted := uc_totp_secret_encrypted c;
  uc_totp_enabled := uc_totp_enabled c; uc_totp_last_counter := uc_totp_last_counter c |}.
Definition with_totp (secret : option bytes) (enabled : bool) (c : UserCredentials) : UserCredentials := {|
  uc_user_id := uc_user_id c; uc_password_hash := uc_password_hash c; uc_totp_secret_encrypted := secret;
  uc_totp_enabled := enabled; uc_totp_last_counter := None |}.
Definition with_totp_enabled (c : UserCredentials) : UserCredentials := {|
  uc_user_id := uc_user_id c; uc_password_hash := uc_password_hash c;
  uc_totp_secret_encrypted := uc_totp_secret_encrypted c; uc_totp_enabled := true;
  uc_totp_last_counter := uc_totp_last_counter c |}.
Definition with_last_counter (n : Z) (c : UserCredentials) : UserCredentials := {|
  uc_user_id := uc_user_id c; uc_password_hash := uc_password_hash c;
  uc_totp_secret_encrypted := uc_totp_secret_encrypted c; uc_totp_enabled := uc_totp_enabled c;
  uc_totp_last_counter := Some n |}.
Definition empty_credentials (user_id : N) : UserCredentials := {|
  uc_user_id := user_id; uc_password_hash := None; uc_totp_secret_encrypted := None;
  uc_totp_enabled := false; uc_totp_last_counter := None |}.

Definition with_last_seen (t : Z) (a : AuthSession) : AuthSession := {|
  as_id := as_id a; as_user_id := as_user_id a; as_token_hash := as_token_hash a; as_created_at := as_created_at a;
  as_expires_at := as_expires_at a; as_last_seen_at := t; as_revoked_at := as_revoked_at a |}.
Definition with_revoked (t : Z) (a : AuthSession) : AuthSession := {|
  as_id := as_id a; as_user_id := as_user_id a; as_token_hash := as_token_hash a; as_created_at := as_created_at a;
  as_expires_at := as_expires_at a; as_last_seen_at := as_last_seen_at a; as_revoked_at := Some t |}.
Definition with_consumed (t : Z) (c : LoginChallenge) : LoginChallenge := {|
  lc_id := lc_id c; lc_user_id := lc_user_id c; lc_token_hash := lc_token_hash c;
  lc_expires_at := lc_expires_at c; lc_consumed_at := Some t |}.
Definition with_used (t : Z) (c : RecoveryCode) : RecoveryCode := {|
  rc_id := rc_id c; rc_user_id := rc_user_id c; rc_code_hash := rc_code_hash c; rc_used_at := Some t |}.

(** Run an operation for each element, in order. *)
Fixpoint for_each {VK : Valkey} {A} (l : list A) (f : A -> M unit) : M unit :=
  match l with
  | [] => ret tt
  | a :: l' => let* _ := f a in for_each l' f
  end.
Fixpoint collect {VK : Valkey} {A} (n : nat) (m : M A) : M (list A) :=
  match n with
  | O => ret []
  | S n' => let* a := m in let* l := collect n' m in ret (a :: l)
  end.

Section service.
Context {P : Platform}.

(** [_hasher.hash(password)] draws a 16-octet salt. *)
Definition hash_password (password : string) : M string :=
  let* salt := random_bytes 16 in ret (argon2_hash salt password).

Definition verify_password (password_hash password : string) : bool * bool :=
  if argon2_verify password_hash password then (true, argon2_needs_rehash password_hash) else (false, false).

Definition get_user_by_email (s : sess) (email : string) : M (option User) :=
  scalar s Users (fun u => str_eqb (lower (us_email u)) (lower email)).
Definition get_user (s : sess) (user_id : N) : M (option User) :=
  scalar s Users (fun u => (us_id u =? user_id)%N).
Definition get_credentials (s : sess) (user_id : N) : M (option UserCredentials) :=
  scalar s Credentials (fun c => (uc_user_id c =? user_id)%N).

Definition credentials_or_new (s : sess) (user_id : N) : M UserCredentials :=
  let* credentials := get_credentials s user_id in
  match credentials with
  | Some c => ret c
  | None => add s Credentials (empty_credentials user_id)
  end.

Definition set_password (s : sess) (user_id : N) (password : string) : M unit :=
  let* credentials := credentials_or_new s user_id in
  let* h := hash_password password in
  modify s Credentials credentials (with_password_hash (Some h)).

(** The verification of a dummy hash for an unknown email only takes time. *)
Definition authenticate (s : sess) (email password : string) : M (option (User * UserCredentials)) :=
  let* user := get_user_by_email s email in
  let* credentials := match user with Some u => get_credentials s (us_id u) | None => ret None end in
  match user, credentials with
  | Some user, Some credentials =>
      match uc_password_hash credentials with
      | None => ret None
      | Some password_hash =>
          let '(valid, needs_rehash) := verify_password password_hash password in
          if negb valid then ret None
          else if needs_rehash then
            let* h := hash_password password in
            let* _ := modify s Credentials credentials (with_password_hash (Some h)) in
            ret (Some (user, with_password_hash (Some h) credentials))
          else ret (Some (user, credentials))
      end
  | _, _ => ret None
  end.

(** ** Server sessions *)

Definition create_session (s : sess) (user_id : N) : M string :=
  let* random := random_bytes TOKEN_BYTES in
  let token := generate_token random in
  let* t := now in
  let* id := uuid4 in
  let* _ := add s Sessions {|
    as_id := id; as_user_id := user_id; as_token_hash := hash_token token; as_created_at := t;
    as_expires_at := t + session_ttl_hours * hour; as_last_seen_at := t; as_revoked_at := None |} in
  ret token.

Definition resolve_session (s : sess) (token : string) : M (option (AuthSession * User)) :=
  let* auth_session := scalar s Sessions (fun a => str_eqb (as_token_hash a) (hash_token token)) in
  match auth_session with
  | None => ret None
  | Some a =>
      if is_some (as_revoked_at a) then ret None
      else
        let* t := now in
        if as_expires_at a <? t then ret None
        else
          let* user := get_user s (as_user_id a) in
          match user with
          | None => ret None
          | Some u =>
              let* _ := modify s Sessions a (with_last_seen t) in
              ret (Some (with_last_seen t a, u))
          end
  end.

Definition revoke_session (s : sess) (auth_session : AuthSession) : M unit :=
  let* t := now in modify s Sessions auth_session (with_revoked t).

Definition revoke_all_sessions (s : sess) (user_id : N) : M unit :=
  let* sessions := scalars s Sessions (fun a => (as_user_id a =? user_id)%N && is_none (as_revoked_at a)) in
  let* t := now in
  for_each sessions (fun a => modify s Sessions a (with_revoked t)).

(** ** Partial login *)

Definition create_login_challenge (s : sess) (user_id : N) : M string :=
  let* random := random_bytes TOKEN_BYTES in
  let token := generate_token random in
  let* t := now in
  let* id := uuid4 in
  let* _ := add s LoginChallenges {|
    lc_id := id; lc_user_id := user_id; lc_token_hash := hash_token token;
    lc_expires_at := t + login_challenge_ttl_minutes * minute; lc_consumed_at := None |} in
  ret token.

Definition consume_login_challenge (s : sess) (token : string) : M (option N) :=
  let* challenge := scalar s LoginChallenges (fun c => str_eqb (lc_token_hash c) (hash_token token)) in
  let* t := now in
  match challenge with
  | None => ret None
  | Some c =>
      if is_some (lc_consumed_at c) || (lc_expires_at c <? t) then ret None
      else let* _ := modify s LoginChallenges c (with_consumed t) in ret (Some (lc_user_id c))
  end.

(** ** TOTP and recovery codes *)

Definition _decrypt_totp_secret (credentials : UserCredentials) : result string :=
  match uc_totp_secret_encrypted credentials with
  | None => Raise (AuthError "Aucun secret TOTP enregistré.")
  | Some sealed => unseal_text sealed
  end.

Definition setup_totp (s : sess) (user : User) : M (string * string) :=
  let* credentials := credentials_or_new s (us_id user) in
  raise_when (uc_totp_enabled credentials) (AuthError "Le TOTP est déjà activé.") in
  let* n := draw in
  let secret := random_base32 n in
  let* nonce := random_bytes Crypto.NONCE_SIZE in
  let* sealed := of_result (seal_text nonce secret) in
  let* _ := modify s Credentials credentials (with_totp (Some sealed) (uc_totp_enabled credentials)) in
  ret (secret, provisioning_uri secret (us_email user) TOTP_ISSUER).

(** The loop over the offsets 0, -1, +1. *)
Fixpoint try_counters (s : sess) (credentials : UserCredentials) (secret code : string) (step : Z)
    (offsets : list Z) : M bool :=
  match offsets with
  | [] => ret false
  | offset :: offsets' =>
      let counter := step + offset in
      let* same := of_result (compare_digest (totp_at secret (counter * totp_interval)) code) in
      if negb same then try_counters s credentials secret code step offsets'
      else if match uc_totp_last_counter credentials with Some last => counter <=? last | None => false end
      then ret false
      else let* _ := modify s Credentials credentials (with_last_counter counter) in ret true
  end.

Definition _verify_totp_code (s : sess) (credentials : UserCredentials) (code : string) : M bool :=
  let* secret := of_result (_decrypt_totp_secret credentials) in
  let* t := now in
  let timestamp := Z.quot t second in
  try_counters s credentials secret code (timestamp / totp_interval) [0; -1; 1].

Definition new_recovery_code (s : sess) (user_id : N) (c : string) : M unit :=
  let* id := uuid4 in
  let* _ := add s RecoveryCodes {|
    rc_id := id; rc_user_id := user_id; rc_code_hash := hash_token c; rc_used_at := None |} in
  ret tt.

Definition token_hex (n : nat) : M string := let* b := random_bytes n in ret (hex b).

Definition activate_totp (s : sess) (user_id : N) (code : string) : M (list string) :=
  let* credentials := get_credentials s user_id in
  match credentials with
  | None => raise (AuthError "Aucun enrôlement TOTP en cours.")
  | Some c =>
      raise_when (is_none (uc_totp_secret_encrypted c)) (AuthError "Aucun enrôlement TOTP en cours.") in
      raise_when (uc_totp_enabled c) (AuthError "Le TOTP est déjà activé.") in
      let* valid := _verify_totp_code s c code in
      raise_when (negb valid) (AuthError "Code TOTP invalide.") in
      let* _ := modify s Credentials c with_totp_enabled in
      let* codes := collect RECOVERY_CODE_COUNT (token_hex 5) in
      let* _ := for_each codes (new_recovery_code s user_id) in
      ret codes
  end.

Definition disable_totp (s : sess) (user_id : N) (password : string) : M unit :=
  let* credentials := get_credentials s user_id in
  match credentials with
  | None => raise (AuthError "Le TOTP n'est pas activé.")
  | Some c =>
      raise_when (negb (uc_totp_enabled c)) (AuthError "Le TOTP n'est pas activé.") in
      raise_when (match uc_password_hash c with
                  | None => true
                  | Some h => negb (verify_password h password).1
                  end) (AuthError "Mot de passe invalide.") in
      let* _ := modify s Credentials c (with_totp None false) in
      let* existing := scalars s RecoveryCodes (fun r => (rc_user_id r =? user_id)%N) in
      for_each existing (remove s RecoveryCodes)
  end.

Definition verify_second_factor (s : sess) (user_id : N) (code : string) : M bool :=
  let* credentials := get_credentials s user_id in
  match credentials with
  | None => ret false
  | Some c =>
      if negb (uc_totp_enabled c) then ret false
      else
        let* valid := _verify_totp_code s c code in
        if valid then ret true
        else
          let* recovery := scalar s RecoveryCodes (fun r =>
            (rc_user_id r =? user_id)%N && str_eqb (rc_code_hash r) (hash_token code) && is_none (rc_used_at r)) in
          match recovery with
          | None => ret false
          | Some r =>
              let* t := now in
              let* _ := modify s RecoveryCodes r (with_used t) in
              ret true
          end
  end.
End service.

(** ** Loops over selected rows *)

Section loops.
Context {VK : Valkey}.

Lemma for_each_modify s t f l w : scoped t = false ->
  exists w', for_each l (fun a => modify s t a f) w = (Ok tt, w') /\
    sees w' s t = fold_left (fun rows a => update_where (same_row t a) f rows) l (sees w s t) /\
    (forall t', t <> t' -> sees w' s t' = sees w s t') /\ w_db w' = w_db w /\ w_now w' = w_now w.
Proof.
  intros Ht. revert w. induction l as [|a l IH]; intros w; [by exists w |]. cbn [for_each fold_left].
  rewrite bind_modify by done. set (w1 := wrote _ _ w). destruct (IH w1) as (w' & -> & H1 & H2 & H3 & H4).
  exists w'. split; [done |]. split; [rewrite H1; unfold w1; by simpl_view |].
  split; [| done]. intros t' Hne. rewrite H2 by done. unfold w1. by rewrite sees_wrote, upd_ne.
Qed.

End loops.

(** ** Sessions refine a map from token hashes to owners and deadlines *)

Definition live (l : list AuthSession) (h : string) : option (N * Z) :=
  match first_where (fun a => str_eqb (as_token_hash a) h && is_none (as_revoked_at a)) l with
  | Some a => Some (as_user_id a, as_expires_at a)
  | None => None
  end.

(** The unique constraints of the table. *)
Definition sessions_wf (l : list AuthSession) : Prop := unique_by as_id l /\ unique_by as_token_hash l.

Lemma no_conflict_session a l : existsb (conflicts Sessions a) l = false ->
  ~ In (as_id a) (List.map as_id l) /\ ~ In (as_token_hash a) (List.map as_token_hash l).
Proof.
  intros H. rewrite <- not_true_iff_false, existsb_exists in H.
  split; intros (x & E & Hx)%List.in_map_iff; apply H; exists x; (split; [done |]); simpl.
  - by rewrite E, N.eqb_refl.
  - by rewrite E, str_eqb_refl, orb_true_r.
Qed.

Lemma live_by_hash l a h : unique_by as_token_hash l -> In a l -> as_token_hash a = h ->
  live l h = if is_some (as_revoked_at a) then None else Some (as_user_id a, as_expires_at a).
Proof.
  intros Hu Ha <-. unfold live. destruct (first_where _ l) as [b|] eqn:E.
  - apply first_where_Some in E as [Hb Hp]. bool_hyps.
    assert (b = a) as -> by by eapply unique_by_eq. unfold is_none in *. bool_hyps. by destruct (as_revoked_at a).
  - rewrite first_where_None in E. specialize (E a Ha). rewrite str_eqb_refl in E. simpl in E.
    unfold is_none in E. by destruct (as_revoked_at a).
Qed.

Lemma live_none l h : (forall a, In a l -> as_token_hash a = h -> as_revoked_at a <> None) -> live l h = None.
Proof.
  intros H. unfold live. rewrite (proj2 (first_where_None _ l)); [done |]. intros a Ha.
  destruct (str_eqb (as_token_hash a) h) eqn:E; [| done]. bool_hyps. simpl. specialize (H a Ha E).
  unfold is_none. by destruct (as_revoked_at a).
Qed.

Lemma live_ext l f h : (forall a, as_token_hash (f a) = as_token_hash a) ->
  (forall a, as_revoked_at (f a) = as_revoked_at a) -> (forall a, as_user_id (f a) = as_user_id a) ->
  (forall a, as_expires_at (f a) = as_expires_at a) -> forall p, live (update_where p f l) h = live l h.
Proof.
  intros H1 H2 H3 H4 p. unfold live. rewrite first_where_update by (intros x _; by rewrite H1, H2).
  destruct (first_where _ l) as [a|]; [| done]. simpl. destruct (p a); [by rewrite H3, H4 | done].
Qed.

(** Revoking the sessions that meet [p] removes exactly these from the map. *)
Lemma live_revoke l p t h : unique_by as_token_hash l ->
  live (update_where p (with_revoked t) l) h =
  match first_where (fun a => str_eqb (as_token_hash a) h) l with
  | Some a => if p a then None else live l h
  | None => None
  end.
Proof.
  intros Hu. destruct (first_where _ l) as [a|] eqn:E.
  - apply first_where_Some in E as [Ha Hh]. bool_hyps.
    set (f := fun x => if p x then with_revoked t x else x).
    assert (Hin : In (f a) (update_where p (with_revoked t) l)) by (apply in_update_where; by exists a).
    assert (Hf : as_token_hash (f a) = h) by (unfold f; by destruct (p a)).
    rewrite (live_by_hash _ (f a)); [| by apply unique_by_update | done | done].
    unfold f. destruct (p a); [done |]. by rewrite (live_by_hash l a).
  - rewrite first_where_None in E. apply live_none. intros a (b & Hb & ->)%in_update_where.
    specialize (E b Hb). bool_hyps. by destruct (p b).
Qed.

Section session_spec.
Context {P : Platform}.
Implicit Types (w : World) (s : sess).

Lemma sessions_wf_update l p f : (forall a, as_id (f a) = as_id a) ->
  (forall a, as_token_hash (f a) = as_token_hash a) -> sessions_wf l -> sessions_wf (update_where p f l).
Proof. intros H1 H2 []. split; by apply unique_by_update. Qed.

Lemma session_same_row a b : same_row Sessions a b = true <-> as_id a = as_id b.
Proof. apply N.eqb_eq. Qed.

Lemma create_session_run s uid tok w w' : create_session s uid w = (Ok tok, w') ->
  exists a, as_user_id a = uid /\ as_token_hash a = hash_token tok /\ as_revoked_at a = None /\
    as_expires_at a = w_now w + session_ttl_hours * hour /\
    existsb (conflicts Sessions a) (sees w s Sessions) = false /\
    sees w' s Sessions = sees w s Sessions ++ [a] /\
    (forall t, t <> Sessions -> sees w' s t = sees w s t) /\ w_db w' = w_db w.
Proof.
  unfold create_session. run. simpl. destruct (existsb _ _) eqn:E; [done |]. intros [= <- <-].
  eexists (Build_AuthSession _ _ _ _ _ _ _). do 4 (split; [reflexivity |]). split; [exact E |]. split; [by simpl_view |].
  split; [| done]. intros t Ht. simpl_view. by rewrite upd_ne.
Qed.

(** The tables through a session, as the abstract map. *)
Definition live_in (w : World) (s : sess) (h : string) : option (N * Z) := live (sees w s Sessions) h.
End session_spec.

Section session_refinement.
Context {P : Platform}.
Implicit Types (w : World) (s : sess).

Lemma live_create l (a : AuthSession) h : sessions_wf l -> existsb (conflicts Sessions a) l = false -> as_revoked_at a = None ->
  sessions_wf (l ++ [a]) /\ live l (as_token_hash a) = None /\
  live (l ++ [a]) h = if str_eqb h (as_token_hash a) then Some (as_user_id a, as_expires_at a) else live l h.
Proof.
  intros [H1 H2] [Hc1 Hc2]%no_conflict_session Hr. split; [split; by apply unique_by_snoc |].
  assert (Hn : live l (as_token_hash a) = None).
  { apply live_none. intros b Hb E. exfalso. apply Hc2. rewrite <- E. by apply List.in_map. }
  split; [done |]. destruct (str_eqb h (as_token_hash a)) eqn:E; bool_hyps.
  - subst h. rewrite (live_by_hash (l ++ [a]) a); [by rewrite Hr | by apply unique_by_snoc | | done].
    apply List.in_or_app. right. by left.
  - unfold live. rewrite first_where_app. case_query as [b|] Eb; [done |]. unfold first_where; simpl.
    replace (str_eqb (as_token_hash a) h) with false; [done |]. symmetry. apply str_eqb_neq. congruence.
Qed.

Lemma live_revoke_one l (a : AuthSession) t h : sessions_wf l -> In a l ->
  live (update_where (same_row Sessions a) (with_revoked t) l) h =
  if str_eqb h (as_token_hash a) then None else live l h.
Proof.
  intros [H1 H2] Ha. rewrite live_revoke by done. destruct (first_where _ l) as [b|] eqn:E.
  - apply first_where_Some in E as [Hb Hh]. bool_hyps. subst h.
    destruct (same_row Sessions a b) eqn:Es.
    + apply session_same_row in Es. rewrite (unique_by_eq as_id l a b) by done. by rewrite str_eqb_refl.
    + destruct (str_eqb (as_token_hash b) (as_token_hash a)) eqn:Eh; [| done]. bool_hyps.
      rewrite (unique_by_eq as_token_hash l b a) in Es by done.
      apply not_true_iff_false in Es. by rewrite session_same_row in Es.
  - rewrite first_where_None in E. destruct (str_eqb h (as_token_hash a)) eqn:Eh; [done |].
    symmetry. apply live_none. intros b Hb Hh. specialize (E b Hb). by rewrite Hh, str_eqb_refl in E.
Qed.

Lemma live_revoke_where l (p : AuthSession -> bool) t h : sessions_wf l ->
  live (update_where (fun a => p a && is_none (as_revoked_at a)) (with_revoked t) l) h =
  match first_where (fun a => str_eqb (as_token_hash a) h && is_none (as_revoked_at a)) l with
  | Some a => if p a then None else live l h
  | None => None
  end.
Proof.
  intros [H1 H2]. rewrite live_revoke by done.
  destruct (first_where (fun a => str_eqb (as_token_hash a) h) l) as [b|] eqn:E.
  - apply first_where_Some in E as [Hb Hh]. bool_hyps. rewrite (live_by_hash l b) by done.
    destruct (first_where (fun a => _ && _) l) as [c|] eqn:Ec.
    + apply first_where_Some in Ec as [Hc Hp]. bool_hyps.
      assert (c = b) as -> by by (eapply unique_by_eq; eauto; congruence).
      unfold is_none in *. bool_hyps. rewrite H0. simpl. by rewrite andb_true_r.
    + rewrite first_where_None in Ec. specialize (Ec b Hb). rewrite Hh, str_eqb_refl in Ec. simpl in Ec.
      unfold is_none in *. bool_hyps. rewrite Ec. simpl. by rewrite andb_false_r.
  - rewrite (proj2 (first_where_None _ l)); [done |]. rewrite first_where_None in E. intros a Ha. by rewrite (E a Ha).
Qed.

Lemma resolve_session_refines s tok w r w' : sessions_wf (sees w s Sessions) -> resolve_session s tok w = (r, w') ->
  sessions_wf (sees w' s Sessions) /\ (forall h, live_in w' s h = live_in w s h) /\
  match live_in w s (hash_token tok) with
  | Some (uid, expires) =>
      match first_where (fun u => (us_id u =? uid)%N) (sees w s Users) with
      | Some u => if expires <? w_now w then r = Ok None
                  else exists a, r = Ok (Some (a, u)) /\ as_user_id a = uid /\ as_token_hash a = hash_token tok
      | None => r = Ok None
      end
  | None => r = Ok None
  end.
Proof.
  intros Hwf. unfold live_in, resolve_session, get_user. run. cbn [row] in *. case_query as [a|] Ea; cbn [row] in *.
  - apply first_where_Some in Ea as [Ha Hh]. bool_hyps. rewrite (live_by_hash _ a _ (proj2 Hwf) Ha Hh).
    destruct (is_some (as_revoked_at a)); [by intros [= <- <-] |]. run.
    destruct (as_expires_at a <? w_now w); [intros [= <- <-]; split; [done |]; split; [done |]; by destruct (first_where _ _) |].
    run. case_query as [u|] Eu; [| intros [= <- <-]; done]. run.
    intros [= <- <-]. simpl_view. split; [by apply sessions_wf_update |].
    split; [intros h; by apply live_ext |]. by exists (with_last_seen (w_now w) a).
  - intros [= <- <-]. rewrite live_none; [done |]. rewrite first_where_None in Ea. intros a Ha Hh.
    specialize (Ea a Ha). by rewrite Hh, str_eqb_refl in Ea.
Qed.

(** C13: the session store refines a map from token hashes to an owner and a
    deadline. Creating adds the new token's hash, which was not in it, with the
    configured lifetime; resolving a token answers exactly when the map has its
    hash with a deadline that has not passed and the owner exists, and leaves
    the map alone; revoking a session removes it; revoking all sessions of a
    user removes the user's entries and no other. *)
Theorem session_refinement s w : sessions_wf (sees w s Sessions) ->
  (forall uid tok w', create_session s uid w = (Ok tok, w') ->
     sessions_wf (sees w' s Sessions) /\ live_in w s (hash_token tok) = None /\
     forall h, live_in w' s h = if str_eqb h (hash_token tok)
                                then Some (uid, w_now w + session_ttl_hours * hour) else live_in w s h) /\
  (forall tok r w', resolve_session s tok w = (r, w') ->
     sessions_wf (sees w' s Sessions) /\ (forall h, live_in w' s h = live_in w s h) /\
     match live_in w s (hash_token tok) with
     | Some (uid, expires) =>
         match first_where (fun u => (us_id u =? uid)%N) (sees w s Users) with
         | Some u => if expires <? w_now w then r = Ok None
                     else exists a, r = Ok (Some (a, u)) /\ as_user_id a = uid /\ as_token_hash a = hash_token tok
         | None => r = Ok None
         end
     | None => r = Ok None
     end) /\
  (forall a, In a (sees w s Sessions) -> let '(r, w') := revoke_session s a w in
     r = Ok tt /\ sessions_wf (sees w' s Sessions) /\
     forall h, live_in w' s h = if str_eqb h (as_token_hash a) then None else live_in w s h) /\
  (forall uid, let '(r, w') := revoke_all_sessions s uid w in
     r = Ok tt /\ sessions_wf (sees w' s Sessions) /\
     forall h, live_in w' s h = match live_in w s h with
                                | Some (u, e) => if (u =? uid)%N then None else Some (u, e)
                                | None => None
                                end).
Proof.
  intros Hwf. split; [| split; [| split]].
  - intros uid tok w' Hc. apply create_session_run in Hc as (a & Hu & Hh & Hr & He & Hf & Hs & _).
    unfold live_in. rewrite Hs, <- Hh, <- Hu, <- He.
    destruct (live_create _ a EmptyString Hwf Hf Hr) as (H1 & H2 & _). split; [done |]. split; [done |].
    intros h. destruct (live_create _ a h Hwf Hf Hr) as (_ & _ & H3). exact H3.
  - intros tok r w' Hr. by apply resolve_session_refines.
  - intros a Ha. unfold revoke_session. run. rewrite modify_unscoped by done. split; [done |].
    unfold live_in. rewrite sees_wrote, upd_eq. split; [by apply sessions_wf_update |].
    intros h. by apply live_revoke_one.
  - intros uid. unfold revoke_all_sessions. run.
    destruct (for_each_modify s Sessions (with_revoked (w_now w)) (rows_where (fun a => (as_user_id a =? uid)%N && is_none (as_revoked_at a)) (sees w s Sessions)) w eq_refl)
      as (w' & E & Hs & _).
    cbn [row] in *. rewrite E. split; [done |]. unfold live_in. cbn [row] in *. rewrite Hs.
    rewrite (update_selected as_id) by (apply session_same_row || apply Hwf || done).
    split; [by apply sessions_wf_update |]. intros h. rewrite live_revoke_where by done. unfold live.
    destruct (first_where _ _) as [a|]; [| done]. by destruct (as_user_id a =? uid)%N.
Qed.
End session_refinement.

(** ** Partial login and second factor *)

Section second_factor.
Context {P : Platform}.
Implicit Types (w : World) (s : sess).

Definition login_step (t : Z) : Z := Z.quot t second / totp_interval.
Definition fresh_counter (c : UserCredentials) (counter : Z) : Prop :=
  match uc_totp_last_counter c with Some last => last < counter | None => True end.

Lemma compare_digest_true a b : compare_digest a b = Ok true -> a = b.
Proof. unfold compare_digest. destruct (ascii_only a && ascii_only b); [| done]. intros [= H]. by bool_hyps. Qed.

Lemma try_counters_run s c secret code step offsets w b w' :
  try_counters s c secret code step offsets w = (Ok b, w') ->
  (b = false /\ w' = w) \/
  (b = true /\ exists offset, In offset offsets /\ totp_at secret ((step + offset) * totp_interval) = code /\
    fresh_counter c (step + offset) /\
    w' = wrote s (upd Credentials (update_where (same_row Credentials c) (with_last_counter (step + offset)))) w).
Proof.
  induction offsets as [|o offsets IH]; cbn [try_counters]; [intros [= <- <-]; by left |].
  destruct (compare_digest _ code) as [[|]|e] eqn:E; [| | done].
  - run. cbn [negb]. apply compare_digest_true in E. unfold fresh_counter.
    destruct (uc_totp_last_counter c) as [last|]; [destruct (step + o <=? last) eqn:El; [intros [= <- <-]; by left |] |];
      run; intros [= <- <-]; right; (split; [done |]); exists o; bool_hyps; (split; [by left | done]).
  - run. cbn [negb]. intros H. destruct (IH H) as [|(-> & o' & Hin & Hrest)]; [by left |].
    right. split; [done |]. exists o'. split; [by right | done].
Qed.

Lemma verify_totp_run s c code w b w' : _verify_totp_code s c code w = (Ok b, w') ->
  (b = false /\ w' = w) \/
  (b = true /\ exists secret counter, _decrypt_totp_secret c = Ok secret /\
    login_step (w_now w) - 1 <= counter <= login_step (w_now w) + 1 /\
    totp_at secret (counter * totp_interval) = code /\ fresh_counter c counter /\
    w' = wrote s (upd Credentials (update_where (same_row Credentials c) (with_last_counter counter))) w).
Proof.
  unfold _verify_totp_code. destruct (_decrypt_totp_secret c) as [secret|e]; [| done]. run.
  intros [|(-> & o & Ho & Hat & Hf & ->)]%try_counters_run; [by left |]. right. split; [done |].
  exists secret, (login_step (w_now w) + o). split; [done |]. split; [| done].
  repeat destruct Ho as [<-|Ho]; try lia. destruct Ho.
Qed.

(** Reading back a credentials row after an assignment to it. *)
Lemma credentials_after l (c : UserCredentials) f uid :
  unique_by uc_user_id l -> (forall x, uc_user_id (f x) = uc_user_id x) ->
  first_where (fun x => (uc_user_id x =? uid)%N) l = Some c ->
  first_where (fun x => (uc_user_id x =? uid)%N) (update_where (same_row Credentials c) f l) = Some (f c).
Proof.
  intros Hu Hf Hc. rewrite first_where_update by (intros x _; by rewrite Hf). rewrite Hc. simpl.
  by rewrite N.eqb_refl.
Qed.

Definition credentials_of (w : World) (s : sess) (uid : N) : option UserCredentials :=
  first_where (fun c => (uc_user_id c =? uid)%N) (sees w s Credentials).

Lemma second_factor_run s uid code w b w' :
  unique_by uc_user_id (sees w s Credentials) ->
  verify_second_factor s uid code w = (Ok b, w') ->
  (b = false /\ w' = w) \/
  (b = true /\ exists c, credentials_of w s uid = Some c /\ uc_totp_enabled c = true /\
    ((exists secret counter, _decrypt_totp_secret c = Ok secret /\
        login_step (w_now w) - 1 <= counter <= login_step (w_now w) + 1 /\
        totp_at secret (counter * totp_interval) = code /\ fresh_counter c counter /\
        credentials_of w' s uid = Some (with_last_counter counter c) /\
        sees w' s RecoveryCodes = sees w s RecoveryCodes) \/
     (exists r, In r (sees w s RecoveryCodes) /\ rc_user_id r = uid /\ rc_code_hash r = hash_token code /\
        rc_used_at r = None /\ sees w' s Credentials = sees w s Credentials /\
        sees w' s RecoveryCodes =
          update_where (same_row RecoveryCodes r) (with_used (w_now w)) (sees w s RecoveryCodes)))).
Proof.
  intros Hu. unfold verify_second_factor, get_credentials, credentials_of. run.
  case_query as [c|] Ec; [| intros [= <- <-]; by left].
  destruct (uc_totp_enabled c) eqn:Een; [| intros [= <- <-]; by left]. cbn [negb].
  destruct (_verify_totp_code s c code w) as [[bt|e] w1] eqn:Ev; [| by unfold bind; rewrite Ev].
  unfold bind at 1. rewrite Ev.
  apply verify_totp_run in Ev as [[-> ->] | (-> & secret & counter & Hd & Hr & Hat & Hf & ->)].
  - run. case_query as [r|] Er; [| intros [= <- <-]; by left]. run. intros [= <- <-]. right. split; [done |].
    exists c. do 2 (split; [done |]). right. apply first_where_Some in Er as [Hin Hp]. bool_hyps.
    exists r. do 3 (split; [done |]). unfold is_none in *. bool_hyps.
    split; [by destruct (rc_used_at r) |]. split; by simpl_view.
  - intros [= <- <-]. right. split; [done |]. exists c. do 2 (split; [done |]). left. exists secret, counter.
    do 4 (split; [done |]). split; [| by simpl_view]. rewrite sees_wrote, upd_eq. by apply credentials_after.
Qed.

(** C14: the second factor. A code is accepted either because it is the TOTP code
    of a time step within one of the current one and strictly later than every
    step accepted before, which becomes the last accepted step; or because it is
    an unused recovery code of this user, which becomes used. A refused code
    changes nothing. So no time step is accepted twice. *)
Theorem second_factor_no_replay s uid code w b w' :
  unique_by uc_user_id (sees w s Credentials) ->
  verify_second_factor s uid code w = (Ok b, w') ->
  (b = false /\ w' = w) \/
  (b = true /\ exists c, credentials_of w s uid = Some c /\ uc_totp_enabled c = true /\
    ((exists secret counter, _decrypt_totp_secret c = Ok secret /\
        login_step (w_now w) - 1 <= counter <= login_step (w_now w) + 1 /\
        totp_at secret (counter * totp_interval) = code /\ fresh_counter c counter /\
        credentials_of w' s uid = Some (with_last_counter counter c) /\
        sees w' s RecoveryCodes = sees w s RecoveryCodes) \/
     (exists r, In r (sees w s RecoveryCodes) /\ rc_user_id r = uid /\ rc_code_hash r = hash_token code /\
        rc_used_at r = None /\ sees w' s Credentials = sees w s Credentials /\
        sees w' s RecoveryCodes =
          update_where (same_row RecoveryCodes r) (with_used (w_now w)) (sees w s RecoveryCodes)))).
Proof. apply second_factor_run. Qed.

(** A partial-login token works once: the call that consumes it names the
    user it was issued for, within its lifetime, and afterwards no call accepts
    it, whenever it comes and whatever else has happened to other challenges. *)
Theorem challenge_single_use s uid tok w w1 :
  unique_by lc_token_hash (sees w s LoginChallenges) ->
  create_login_challenge s uid w = (Ok tok, w1) ->
  forall w2 r w3, sees w2 s LoginChallenges = sees w1 s LoginChallenges ->
  consume_login_challenge s tok w2 = (r, w3) ->
  (if w_now w + login_challenge_ttl_minutes * minute <? w_now w2 then r = Ok None /\ w3 = w2 else r = Ok (Some uid)) /\
  (forall w4, (forall c, In c (sees w4 s LoginChallenges) -> lc_token_hash c = hash_token tok ->
                 In c (sees w3 s LoginChallenges)) -> r = Ok (Some uid) ->
     consume_login_challenge s tok w4 = (Ok None, w4)).
Proof.
  intros Hu. unfold create_login_challenge. run. destruct (existsb _ _) eqn:Ec; [done |]. cbn beta. run. cbn [row] in *.
  set (c := Build_LoginChallenge _ _ _ _ _). intros [= <- <-] w2 r w3. simpl_view. intros Hs.
  set (tok := generate_token _) in *.
  assert (Hf : first_where (fun c => str_eqb (lc_token_hash c) (hash_token tok)) (sees w2 s LoginChallenges) = Some c).
  { rewrite Hs. apply (first_where_unique lc_token_hash).
    - apply unique_by_snoc; [done |]. intros (x & E & Hx)%List.in_map_iff.
      rewrite <- not_true_iff_false, existsb_exists in Ec. apply Ec. exists x. split; [done |]. simpl.
      by rewrite E, str_eqb_refl, orb_true_r.
    - apply List.in_or_app. right. by left.
    - apply str_eqb_refl.
    - intros y Hy. bool_hyps. by rewrite Hy. }
  cbn [row] in *. unfold consume_login_challenge. run. rewrite Hf. cbn [lc_consumed_at lc_expires_at c is_some orb].
  destruct (_ <? w_now w2); [intros [= <- <-]; split; [done | done] |]. run. intros [= <- <-].
  split; [done |]. intros w4 Hin _. unfold consume_login_challenge. run.
  case_query as [c4|] E4; [| done]. apply first_where_Some in E4 as [H4 Hh]. bool_hyps.
  specialize (Hin c4 H4 Hh). rewrite sees_wrote, upd_eq in Hin.
  apply in_update_where in Hin as (x & Hx & ->).
  assert (x = c) as ->.
  { rewrite Hs in Hx. apply (unique_by_eq lc_token_hash (sees w s LoginChallenges ++ [c])); [| done | |].
    - apply unique_by_snoc; [done |]. intros (y & E & Hy)%List.in_map_iff.
      rewrite <- not_true_iff_false, existsb_exists in Ec. apply Ec. exists y. split; [done |]. simpl.
      by rewrite E, str_eqb_refl, orb_true_r.
    - apply List.in_or_app. right. by left.
    - revert Hh. by destruct (_ =? lc_id x)%N. }
  simpl. by rewrite N.eqb_refl.
Qed.
End second_factor.

(** ** Passwords and enrolment *)

Section enrolment.
Context {P : Platform}.
Implicit Types (w : World) (s : sess).

Lemma credentials_or_new_run s uid w : unique_by uc_user_id (sees w s Credentials) ->
  exists c w1, credentials_or_new s uid w = (Ok c, w1) /\ credentials_of w1 s uid = Some c /\
    (credentials_of w s uid = Some c /\ w1 = w \/
     credentials_of w s uid = None /\ c = empty_credentials uid) /\
    unique_by uc_user_id (sees w1 s Credentials) /\ (forall t, t <> Credentials -> sees w1 s t = sees w s t) /\
    w_now w1 = w_now w.
Proof.
  intros Hu. unfold credentials_or_new, get_credentials, credentials_of. run. case_query as [c|] Ec.
  - exists c, w. split; [done |]. split; [done |]. split; [by left |]. done.
  - assert (Hno : forall x, In x (sees w s Credentials) -> uc_user_id x <> uid).
    { rewrite first_where_None in Ec. intros x Hx E. specialize (Ec x Hx). simpl in Ec.
      by rewrite E, N.eqb_refl in Ec. }
    rewrite (add_unscoped s Credentials) by done.
    replace (existsb _ _) with false.
    + eexists _, _. split; [done |]. rewrite sees_wrote, upd_eq. cbn [row] in *. split; [| split; [by right | split; [| split; [| done]]]].
      * rewrite first_where_app, Ec. unfold first_where; simpl. by rewrite N.eqb_refl.
      * apply unique_by_snoc; [done |]. intros (x & E & Hx)%List.in_map_iff. by apply (Hno x Hx).
      * intros t Ht. by rewrite upd_ne.
    + symmetry. apply not_true_iff_false. rewrite existsb_exists. intros (x & Hx & Hc). simpl in Hc. bool_hyps.
      by apply (Hno x Hx).
Qed.

Lemma set_password_run s uid pw w : unique_by uc_user_id (sees w s Credentials) ->
  exists w1 c h, set_password s uid pw w = (Ok tt, w1) /\ argon2_verify h pw = true /\
    credentials_of w1 s uid = Some (with_password_hash (Some h) c) /\
    (forall t, t <> Credentials -> sees w1 s t = sees w s t).
Proof.
  intros Hu. destruct (credentials_or_new_run s uid w Hu) as (c & w1 & E & Hc & _ & Hu1 & Ht & _).
  unfold set_password. unfold bind at 1. rewrite E. unfold hash_password. run.
  rewrite modify_unscoped by done. eexists _, c, _. split; [done |]. split; [apply argon2_verify_hash |].
  split; [| intros t Hne; rewrite sees_wrote, upd_ne by done; by apply Ht].
  unfold credentials_of. rewrite sees_wrote, upd_eq. by apply credentials_after.
Qed.

Lemma authenticate_run s email pw w r w' : authenticate s email pw w = (r, w') ->
  (r = Ok None /\ w' = w) \/
  exists u c h, In u (sees w s Users) /\ lower (us_email u) = lower email /\
    credentials_of w s (us_id u) = Some c /\ uc_password_hash c = Some h /\ argon2_verify h pw = true /\
    exists c', r = Ok (Some (u, c')) /\ uc_totp_enabled c' = uc_totp_enabled c.
Proof.
  unfold authenticate, get_user_by_email, get_credentials, credentials_of. run.
  case_query as [u|] Eu; run; [| intros [= <- <-]; by left].
  case_query as [c|] Ec; [| intros [= <- <-]; by left].
  destruct (uc_password_hash c) as [h|] eqn:Eh; [| intros [= <- <-]; by left].
  unfold verify_password. destruct (argon2_verify h pw) eqn:Ev; [| intros [= <- <-]; by left]. cbn [negb].
  apply first_where_Some in Eu as [Hin Hl]. bool_hyps. intros H. right. exists u, c, h.
  do 5 (split; [done |]). revert H. destruct (argon2_needs_rehash h); [unfold hash_password; run |];
    intros [= <- <-]; by eexists.
Qed.

(** After [set_password], the password authenticates the user under any
    spelling of the email; and [authenticate] only ever answers with a user
    whose stored hash verifies the password. Every failure (unknown email, no
    password, wrong password) is the same answer and changes nothing. *)
Theorem authenticate_password s w :
  (forall uid pw, unique_by uc_user_id (sees w s Credentials) ->
     exists w1, set_password s uid pw w = (Ok tt, w1) /\
     forall email u w2, sees w2 s Credentials = sees w1 s Credentials -> us_id u = uid ->
       first_where (fun u => str_eqb (lower (us_email u)) (lower email)) (sees w2 s Users) = Some u ->
       exists c, (authenticate s email pw w2).1 = Ok (Some (u, c)) /\ uc_user_id c = uid) /\
  (forall email pw r w', authenticate s email pw w = (r, w') ->
     (r = Ok None /\ w' = w) \/
     exists u c h, In u (sees w s Users) /\ lower (us_email u) = lower email /\
       credentials_of w s (us_id u) = Some c /\ uc_password_hash c = Some h /\ argon2_verify h pw = true /\
       exists c', r = Ok (Some (u, c')) /\ uc_totp_enabled c' = uc_totp_enabled c).
Proof.
  split.
  - intros uid pw Hu. destruct (set_password_run s uid pw w Hu) as (w1 & c & h & E & Hv & Hc & _).
    exists w1. split; [done |]. intros email u w2 Hs <- Hf. unfold authenticate, get_user_by_email, get_credentials.
    run. rewrite Hf. run. unfold credentials_of in Hc. rewrite Hs, Hc. cbn [uc_password_hash with_password_hash].
    apply first_where_Some in Hc as [_ Hid]. bool_hyps.
    unfold verify_password. rewrite Hv. cbn [negb].
    destruct (argon2_needs_rehash h); unfold hash_password; run; by eexists.
  - intros email pw r w' H. by apply authenticate_run.
Qed.

Lemma collect_run {A} n (m : M A) (Q : A -> Prop) w :
  (forall w, exists a k, m w = (Ok a, set_drawn k w) /\ Q a) ->
  exists l k, collect n m w = (Ok l, set_drawn k w) /\ length l = n /\ Forall Q l.
Proof.
  intros Hm. revert w. induction n as [|n IH]; intros w; cbn [collect].
  - exists [], (w_drawn w). split; [by destruct w | done].
  - destruct (Hm w) as (a & k & E & Hq). unfold bind at 1. rewrite E.
    destruct (IH (set_drawn k w)) as (l & k' & E' & Hl & Hf). unfold bind at 1. rewrite E'.
    exists (a :: l), k'. split; [by destruct w |]. split; [by simpl; f_equal | by constructor].
Qed.

Definition unused_code (uid : N) (h : string) (r : RecoveryCode) : Prop :=
  rc_user_id r = uid /\ rc_code_hash r = h /\ rc_used_at r = None.

Lemma recovery_codes_run s uid codes w r w' :
  for_each codes (new_recovery_code s uid) w = (r, w') ->
  r = Raise IntegrityError \/
  (r = Ok tt /\ exists rows, sees w' s RecoveryCodes = sees w s RecoveryCodes ++ rows /\
     Forall2 (unused_code uid) (List.map hash_token codes) rows /\
     (forall t, t <> RecoveryCodes -> sees w' s t = sees w s t)).
Proof.
  revert w. induction codes as [|c codes IH]; intros w; cbn [for_each].
  - intros [= <- <-]. right. split; [done |]. exists []. by rewrite app_nil_r.
  - unfold new_recovery_code at 1. run. destruct (existsb _ _); [intros [= <- <-]; by left |]. run.
    intros [|(-> & rows & Hr & Hf & Ht)]%IH; [by left |]. right. split; [done |].
    eexists (_ :: rows). rewrite Hr. simpl_view. rewrite <- app_assoc. split; [done |].
    split; [by constructor |]. intros t Hne. rewrite Ht by done. rewrite sees_wrote, upd_ne by done. done.
Qed.

Lemma unseal_seal nonce secret sealed : length nonce = Crypto.NONCE_SIZE -> ascii_only secret = true ->
  seal_text nonce secret = Ok sealed -> unseal_text sealed = Ok secret.
Proof.
  intros Hn Ha. unfold seal_text, unseal_text. destruct Crypto.get_key_provider as [key|]; [| done]. simpl.
  intros <-%Ok_inj. rewrite Crypto.decrypt_encrypt by done. simpl. by rewrite encode_ascii.
Qed.

(** TOTP enrolment. The secret [setup_totp] returns is the one stored, under
    encryption; the account is not protected yet; the current code of that
    secret then activates it, whatever happened to other accounts in between,
    records the step as used, and stores eight unused recovery codes, the hashes
    of the eight returned in clear. *)
Theorem totp_enrolment s user w secret uri w1 :
  unique_by uc_user_id (sees w s Credentials) ->
  setup_totp s user w = (Ok (secret, uri), w1) ->
  (exists c, credentials_of w1 s (us_id user) = Some c /\ uc_totp_enabled c = false /\
             _decrypt_totp_secret c = Ok secret) /\
  forall w2, credentials_of w2 s (us_id user) = credentials_of w1 s (us_id user) ->
    unique_by uc_user_id (sees w2 s Credentials) ->
    let step := login_step (w_now w2) in
    let '(r, w3) := activate_totp s (us_id user) (totp_at secret (step * totp_interval)) w2 in
    r = Raise IntegrityError \/
    exists codes c rows, r = Ok codes /\ length codes = RECOVERY_CODE_COUNT /\
      credentials_of w3 s (us_id user) = Some c /\ uc_totp_enabled c = true /\
      _decrypt_totp_secret c = Ok secret /\ uc_totp_last_counter c = Some step /\
      sees w3 s RecoveryCodes = sees w2 s RecoveryCodes ++ rows /\
      Forall2 (unused_code (us_id user)) (List.map hash_token codes) rows.
Proof.
  intros Hu. destruct (credentials_or_new_run s (us_id user) w Hu) as (c & w0 & E & Hc & _ & Hu0 & _).
  unfold setup_totp. unfold bind at 1. rewrite E. destruct (uc_totp_enabled c) eqn:Een; [done |].
  unfold bind at 1, draw at 1. run.
  set (sec := random_base32 _). set (nonce := Sha256.be_octets _ _).
  assert (Hn : length nonce = Crypto.NONCE_SIZE) by apply be_octets_length.
  destruct (seal_text nonce sec) as [sealed|] eqn:Es; [| done]. run. intros [= <- _ Hw1].
  set (c1 := with_totp (Some sealed) false c).
  assert (Hdec : _decrypt_totp_secret c1 = Ok sec).
  { unfold _decrypt_totp_secret. simpl. eapply unseal_seal; [exact Hn | apply random_base32_ascii | exact Es]. }
  assert (Hc1 : credentials_of w1 s (us_id user) = Some c1).
  { rewrite <- Hw1. unfold credentials_of. rewrite sees_wrote, upd_eq. by apply credentials_after. }
  clear Hw1. split; [by exists c1 |].
  intros w2 Hw2 Hu2. set (step := login_step (w_now w2)). rewrite Hc1 in Hw2. unfold credentials_of in Hw2.
  destruct (activate_totp _ _ _ w2) as [r w3] eqn:Ea. revert Ea. unfold activate_totp, get_credentials. run.
  rewrite Hw2. cbn [c1 with_totp uc_totp_secret_encrypted uc_totp_enabled is_none is_some negb]. fold c1.
  unfold _verify_totp_code. rewrite Hdec. run. fold (login_step (w_now w2)). fold step.
  cbn [try_counters]. rewrite Z.add_0_r. rewrite compare_digest_refl by apply totp_at_ascii. run.
  change (uc_totp_last_counter c1) with (@None Z). cbn [negb]. run. cbn [negb]. run.
  match goal with |- context [bind (collect ?n ?m) ?k ?w'] =>
    destruct (collect_run n m (fun _ => True) w') as (codes & kd & Ec & Hl & _) end.
  { intros v. eexists _, _. split; [reflexivity | done]. }
  unfold bind at 1. rewrite Ec. unfold bind at 1.
  match goal with |- context [for_each codes ?f ?w'] => destruct (for_each codes f w') as [r' w''] eqn:Ef end.
  apply recovery_codes_run in Ef as [-> | (-> & rows & Hrows & Hf & Ht)]; intros [= <- <-]; [by left |].
  right. exists codes, (with_totp_enabled (with_last_counter step c1)), rows.
  do 2 (split; [done |]). split.
  - unfold credentials_of. rewrite Ht by done. simpl_view.
    apply (credentials_after _ (with_last_counter step c1)).
    + by apply unique_by_update.
    + done.
    + by apply credentials_after.
  - do 3 (split; [done |]). split; [| done]. rewrite Hrows. by simpl_view.
Qed.
End enrolment.

(** ** Witnesses *)

Lemma session_refinement_witness :
  live_in (P := test_platform) (resolve_session (P := test_platform) Ctl "alice-token" sample_world).2 Ctl (hash_token "bob-token") =
  live_in (P := test_platform) sample_world Ctl (hash_token "bob-token").
Proof.
  destruct (session_refinement (P := test_platform) Ctl sample_world) as (_ & H & _).
  - split; decide_unique.
  - destruct (resolve_session (P := test_platform) Ctl "alice-token" sample_world) as [r w'] eqn:E.
    destruct (H _ _ _ E) as (_ & Hl & _). apply Hl.
Defined.

(** Bob's code of the current step. *)
Definition bob_code : string := totp_at (PyOtp := counter_otp) "424242" (login_step (P := test_platform) t0 * 30).

Lemma second_factor_no_replay_witness :
  exists w', verify_second_factor (P := test_platform) Ctl 2 bob_code sample_world = (Ok true, w') /\
    exists c, credentials_of (P := test_platform) sample_world Ctl 2 = Some c /\ uc_totp_enabled c = true.
Proof.
  destruct (verify_second_factor (P := test_platform) Ctl 2 bob_code sample_world) as [r w'] eqn:E.
  assert (Hr : r = Ok true).
  { change r with (fst (r, w')). rewrite <- E. vm_compute. reflexivity. }
  subst r. exists w'. split; [reflexivity |].
  destruct (second_factor_no_replay (P := test_platform) Ctl 2 bob_code sample_world true w') as [[Hb _] | (_ & c & Hc & He & _)].
  - decide_unique.
  - exact E.
  - discriminate Hb.
  - exists c. by split.
Defined.

Lemma challenge_single_use_witness :
  exists tok w1, create_login_challenge (P := test_platform) Ctl 2 sample_world = (Ok tok, w1) /\
    (consume_login_challenge (P := test_platform) Ctl tok w1).1 = Ok (Some 2%N).
Proof.
  destruct (create_login_challenge (P := test_platform) Ctl 2 sample_world) as [r w1] eqn:E.
  assert (Hr : exists tok, r = Ok tok).
  { change r with (fst (r, w1)). rewrite <- E. eexists. vm_compute. reflexivity. }
  assert (Hn : w_now w1 = t0).
  { change w1 with (snd (r, w1)). rewrite <- E. vm_compute. reflexivity. }
  destruct Hr as [tok ->]. exists tok, w1. split; [reflexivity |].
  destruct (consume_login_challenge (P := test_platform) Ctl tok w1) as [r w3] eqn:E3.
  destruct (challenge_single_use (P := test_platform) Ctl 2 tok sample_world w1) with (w2 := w1) (r := r) (w3 := w3) as [H _].
  - decide_unique.
  - exact E.
  - reflexivity.
  - exact E3.
  - rewrite Hn in H. exact H.
Defined.

Lemma authenticate_password_witness :
  exists w1, set_password (P := test_platform) Ctl 1 "a new password" sample_world = (Ok tt, w1) /\
    exists c, (authenticate (P := test_platform) Ctl "ALICE@acme.fr" "a new password" w1).1 = Ok (Some (alice, c)).
Proof.
  destruct (authenticate_password (P := test_platform) Ctl sample_world) as [H _].
  destruct (H 1%N "a new password") as (w1 & E & Hw); [decide_unique |]. exists w1. split; [exact E |].
  destruct (Hw "ALICE@acme.fr" alice w1) as (c & Hc & _).
  - reflexivity.
  - reflexivity.
  - change w1 with (snd (Ok tt, w1)). rewrite <- E. vm_compute. reflexivity.
  - by exists c.
Defined.

Lemma totp_enrolment_witness :
  exists secret uri w1, setup_totp (P := test_platform) Ctl alice sample_world = (Ok (secret, uri), w1) /\
    exists c, credentials_of (P := test_platform) w1 Ctl 1 = Some c /\ uc_totp_enabled c = false.
Proof.
  destruct (setup_totp (P := test_platform) Ctl alice sample_world) as [r w1] eqn:E.
  assert (Hr : exists secret uri, r = Ok (secret, uri)).
  { change r with (fst (r, w1)). rewrite <- E. eexists _, _. vm_compute. reflexivity. }
  destruct Hr as (secret & uri & ->). exists secret, uri, w1. split; [reflexivity |].
  destruct (totp_enrolment (P := test_platform) Ctl alice sample_world secret uri w1) as [(c & Hc & He & _) _].
  - decide_unique.
  - exact E.
  - exists c. split; [exact Hc | exact He].
Defined.
