(* ===== verification/Slug.v ===== *)
(** Slugs of tenants: [validate_slug] of [app/tenancy/models.py] and [extract_slug]
    of [app/tenancy/deps.py]. *)
From S2P Require Import Prelude PyStr.

Definition is_slug_char (c : ascii) : bool := is_lower_ascii c || is_digit c || char_eqb c "-".

(** [^[a-z][a-z0-9-]{1,38}$], by [fullmatch] *)
Definition SLUG_RE_fullmatch (slug : string) : bool :=
  match slug with
  | String c rest => is_lower_ascii c && all_chars is_slug_char rest && (1 <=? py_len rest) && (py_len rest <=? 38)
  | EmptyString => false
  end.

Definition RESERVED_SLUGS : list string := ["www"; "api"; "admin"; "app"; "staging"; "status"; "grafana"].

Definition validate_slug (slug : string) : result string :=
  raise_if! (negb (SLUG_RE_fullmatch slug))
    (ValueError ("Slug invalide : " +:+ py_repr slug +:+
      " — attendu ^[a-z][a-z0-9-]{1,38}$ (minuscules, chiffres, tirets, 2 à 39 caractères)")) in
  raise_if! (str_in slug RESERVED_SLUGS)
    (ValueError ("Slug réservé par la plateforme : " +:+ py_repr slug)) in
  Ok slug.

(** [host_header.split(":", 1)[0].strip().lower()], also [_bare_host] of [core/csrf.py]. *)
Definition bare_host (value : string) : string := lower (strip (before_char ":" value)).

Definition extract_slug (host_header : string) : option string :=
  let labels := split_char "." (bare_host host_header) in
  if (length labels <? 2)%nat then None
  else match labels with
       | candidate :: _ => if SLUG_RE_fullmatch candidate then Some candidate else None
       | [] => None
       end.

(** ** Lemmas *)

Lemma slug_chars slug : SLUG_RE_fullmatch slug = true -> all_chars is_slug_char slug = true.
Proof.
  destruct slug as [|c rest]; [done |]. simpl. rewrite !andb_true_iff. intros [[[Hc Hr] _] _].
  rewrite Hr. unfold is_slug_char, is_lower_ascii in *. by rewrite Hc.
Qed.

Lemma lstrip_by_stop p a c b : p c = false ->
  lstrip_by p (String.append a (String c b)) = String.append (lstrip_by p a) (String c b).
Proof. intros H. induction a as [|d a IH]; simpl; [by rewrite H | by destruct (p d)]. Qed.

Lemma rstrip_by_stop p a c b : p c = false ->
  rstrip_by p (String.append a (String c b)) = String.append a (String c (rstrip_by p b)).
Proof.
  intros H. unfold rstrip_by. rewrite rev_str_app, rev_str_cons, app_assoc_str. simpl.
  rewrite lstrip_by_stop by done. rewrite rev_str_app. simpl. rewrite rev_str_cons, rev_str_involutive, app_assoc_str. done.
Qed.

Lemma map_str_id f s p : (forall c, p c = true -> f c = c) -> all_chars p s = true -> map_str f s = s.
Proof. intros H. induction s as [|c s IH]; simpl; [done |]. intros Hs. bool_hyps. by rewrite H, IH. Qed.

Lemma slug_char_facts c : is_slug_char c = true ->
  lower_char c = c /\ is_space c = false /\ char_eqb c ":" = false /\ char_eqb c "." = false.
Proof. destruct c as [[] [] [] [] [] [] [] []]; try discriminate; intros _; repeat split; reflexivity. Qed.

Lemma all_chars_no_char p c s : (forall d, p d = true -> char_eqb d c = false) -> all_chars p s = true -> has_char c s = false.
Proof. intros H. induction s as [|d s IH]; simpl; [done |]. intros Hs. bool_hyps. by rewrite H, IH. Qed.

Lemma before_char_app c a d x : has_char c a = false -> char_eqb d c = false ->
  before_char c (String.append a (String d x)) = String.append a (String d (before_char c x)).
Proof.
  intros Ha Hd. unfold before_char. induction a as [|e a IH]; simpl in *.
  - rewrite Hd. by destruct (partition_char c x) as [[y f] z].
  - apply orb_false_iff in Ha as [-> Ha]. specialize (IH Ha).
    destruct (partition_char c (String.append a (String d x))) as [[y f] z]. simpl in *. by rewrite IH.
Qed.

Lemma bare_host_slug slug x : SLUG_RE_fullmatch slug = true ->
  exists y, bare_host (slug +:+ "." +:+ x) = slug +:+ "." +:+ y.
Proof.
  intros H. pose proof (slug_chars _ H) as Hc. unfold bare_host. simpl.
  rewrite before_char_app; [| eapply all_chars_no_char; [| exact Hc]; apply slug_char_facts | done].
  unfold strip. replace (lstrip_by is_space _) with (String.append slug (String "." (before_char ":" x))).
  - rewrite rstrip_by_stop by done. rewrite lower_app. unfold lower at 1.
    rewrite (map_str_id _ _ is_slug_char) by (apply slug_char_facts || done). by eexists.
  - destruct slug as [|c rest]; [done |]. simpl in *. apply andb_true_iff in Hc as [Hc _].
    by apply slug_char_facts in Hc as (_ & -> & _).
Qed.

Lemma split_char_app c a b : has_char c a = false -> split_char c (String.append a (String c b)) = a :: split_char c b.
Proof.
  induction a as [|d a IH]; simpl; intros H; [by rewrite char_eqb_refl |].
  apply orb_false_iff in H as [Hd H]. rewrite Hd, IH by done. done.
Qed.

Lemma split_char_nonempty c s : exists a l, split_char c s = a :: l.
Proof. destruct s as [|d s]; simpl; [eauto |]. destruct (char_eqb d c); [eauto |]. destruct (split_char c s); eauto. Qed.

Lemma extract_slug_host slug apex : SLUG_RE_fullmatch slug = true -> extract_slug (slug +:+ "." +:+ apex) = Some slug.
Proof.
  intros Hm. destruct (bare_host_slug slug apex Hm) as [y Hy]. simpl in *. unfold extract_slug. rewrite Hy.
  rewrite split_char_app by (eapply all_chars_no_char; [| by apply slug_chars]; apply slug_char_facts).
  destruct (split_char_nonempty "." y) as (a & l & ->). simpl. by rewrite Hm.
Qed.

Lemma validate_slug_ok slug r : validate_slug slug = Ok r -> r = slug /\ SLUG_RE_fullmatch slug = true /\ str_in slug RESERVED_SLUGS = false.
Proof.
  unfold validate_slug. destruct (SLUG_RE_fullmatch slug) eqn:Hm; [| done]. simpl.
  destruct (str_in slug RESERVED_SLUGS) eqn:Hr; [done |]. intros H%Ok_inj. done.
Qed.

(** ** Properties *)

(** A slug the platform accepts is exactly what the [Host] header of its
    subdomain gives back, for every apex domain and port, and no [Host] header
    yields a candidate outside the slug grammar. *)
Theorem slug_host_roundtrip slug apex :
  validate_slug slug = Ok slug ->
  extract_slug (slug +:+ "." +:+ apex) = Some slug /\
  ~ In slug RESERVED_SLUGS /\
  forall host candidate, extract_slug host = Some candidate -> SLUG_RE_fullmatch candidate = true.
Proof.
  intros (_ & Hm & Hr)%validate_slug_ok. split; [by apply extract_slug_host | split].
  - unfold str_in in Hr. apply bool_decide_eq_false in Hr. intros Hin. by apply Hr, list_elem_of_In.
  - intros host candidate. unfold extract_slug. destruct (length _ <? 2)%nat; [done |].
    destruct (split_char "." (bare_host host)) as [|c l]; [done |].
    destruct (SLUG_RE_fullmatch c) eqn:E; [| done]. by intros [= <-].
Qed.

Lemma slug_host_roundtrip_witness : extract_slug "acme-2.Example.com:8443" = Some "acme-2".
Proof. apply (slug_host_roundtrip "acme-2" "Example.com:8443"). reflexivity. Defined.
