(* ===== verification/Deps.v ===== *)
(** The FastAPI dependencies that stand before every handler: [app/auth/deps.py]
    (who is calling), [resolve_tenant] of [app/tenancy/deps.py] (for which
    tenant), and the dependency [require_permission] of [app/auth/permissions.py]
    returns. A dependency that yields takes the rest of the request as its
    continuation, and cleans up after it. *)
From S2P Require Import Prelude PyStr Hashing Config Tokens Models Permissions World Orm Slug AuthService Sample.

(** What the code reads of a request. *)
Record Request := {
  rq_method : string;
  rq_host : option string;
  rq_origin : option string;
  rq_cookies : list (string * string);
  rq_client : option string
}.

Record CurrentAuth := { ca_user : User; ca_session : AuthSession }.

Definition cookie (rq : Request) (name : string) : option string :=
  snd <$> List.find (fun kv => str_eqb kv.1 name) (rq_cookies rq).

Section deps.
Context {P : Platform}.

Definition current_auth_or_none (rq : Request) : M (option CurrentAuth) :=
  match cookie rq session_cookie_name with
  | None => ret None
  | Some token =>
      if str_eqb token "" then ret None
      else
        let* resolved := resolve_session Ctl token in
        match resolved with
        | None => ret None
        | Some (auth_session, user) =>
            let* _ := commit Ctl in
            ret (Some {| ca_user := user; ca_session := auth_session |})
        end
  end.

Definition current_auth (auth : option CurrentAuth) : M CurrentAuth :=
  match auth with
  | None => raise (HTTPException 401 "Authentification requise")
  | Some a => ret a
  end.

Definition get_membership_row (s : sess) (tenant_id user_id : N) : M (option Membership) :=
  scalar s Memberships (fun m => (mb_user_id m =? user_id)%N && (mb_tenant_id m =? tenant_id)%N).

Definition resolve_tenant {A} (rq : Request) (auth : option CurrentAuth) (k : TenantContext -> M A) : M A :=
  match extract_slug (default EmptyString (rq_host rq)) with
  | None => raise (HTTPException 404 "Tenant introuvable")
  | Some slug =>
      let* tenant := scalar Ctl Tenants (fun t => str_eqb (tn_slug t) slug) in
      match tenant with
      | None => raise (HTTPException 404 "Tenant introuvable")
      | Some t =>
          raise_when (is_some (tn_deleted_at t)) (HTTPException 404 "Tenant introuvable") in
          raise_when (bool_decide (tn_state t = SUSPENDED)) (HTTPException 403 "Tenant suspendu") in
          match auth with
          | None => raise (HTTPException 401 "Authentification requise")
          | Some a =>
              let* membership := get_membership_row Ctl (tn_id t) (us_id (ca_user a)) in
              match membership with
              | None => raise (HTTPException 403 "Accès refusé à ce tenant")
              | Some m =>
                  let ctx := {| tc_tenant_id := tn_id t; tc_slug := tn_slug t; tc_role := Some (mb_role m) |} in
                  let* token := push_tenant ctx in
                  finally (k ctx) (pop_tenant token)
              end
          end
      end
  end.

Definition require_permission {A} (permission : string) (rq : Request) (auth : option CurrentAuth)
    (k : TenantContext -> M A) : M A :=
  resolve_tenant rq auth (fun ctx w =>
    match tc_role ctx with
    | Some role =>
        if role_has_permission (w_grants w) role permission then k ctx w
        else (Raise (HTTPException 403 "Permission refusée"), w)
    | None => (Raise (HTTPException 403 "Permission refusée"), w)
    end).

(** A request: its control session is opened before the dependencies run and
    closed after the response, whatever it is. *)
Definition request {A} (m : M A) : M A := with_session Ctl m.

(** The routes: anonymous, authenticated, and within a tenant. *)
Definition public_route {A} (handler : M A) : M A := request handler.
Definition auth_route {A} (rq : Request) (handler : CurrentAuth -> M A) : M A :=
  request (let* auth := current_auth_or_none rq in
           let* a := current_auth auth in
           handler a).
Definition tenant_route {A} (permission : string) (rq : Request)
    (handler : TenantContext -> CurrentAuth -> M A) : M A :=
  request (let* auth := current_auth_or_none rq in
           require_permission permission rq auth (fun ctx =>
             let* a := current_auth auth in
             get_tenant_session Ten (handler ctx a))).
End deps.

(** ** The access decision, as a function of the tables *)

Section access.
Context {P : Platform}.
Implicit Types (w : World) (db : Db).

Definition session_user db (t : Z) (rq : Request) : option (AuthSession * User) :=
  match cookie rq session_cookie_name with
  | None => None
  | Some token =>
      if str_eqb token "" then None
      else match first_where (fun a => str_eqb (as_token_hash a) (hash_token token)) (db Sessions) with
           | None => None
           | Some a =>
               if is_some (as_revoked_at a) || (as_expires_at a <? t) then None
               else match first_where (fun u => (us_id u =? as_user_id a)%N) (db Users) with
                    | Some u => Some (a, u)
                    | None => None
                    end
           end
  end.

Definition operational_tenant db (rq : Request) : result Tenant :=
  match extract_slug (default EmptyString (rq_host rq)) with
  | None => Raise (HTTPException 404 "Tenant introuvable")
  | Some slug =>
      match first_where (fun t => str_eqb (tn_slug t) slug) (db Tenants) with
      | None => Raise (HTTPException 404 "Tenant introuvable")
      | Some t =>
          if is_some (tn_deleted_at t) then Raise (HTTPException 404 "Tenant introuvable")
          else if bool_decide (tn_state t = SUSPENDED) then Raise (HTTPException 403 "Tenant suspendu")
          else Ok t
      end
  end.

Definition access db (t : Z) (g : Grants) (permission : string) (rq : Request) :
    result (TenantContext * AuthSession * User) :=
  let! tenant := operational_tenant db rq in
  match session_user db t rq with
  | None => Raise (HTTPException 401 "Authentification requise")
  | Some (a, u) =>
      match first_where (fun m => (mb_user_id m =? us_id u)%N && (mb_tenant_id m =? tn_id tenant)%N) (db Memberships) with
      | None => Raise (HTTPException 403 "Accès refusé à ce tenant")
      | Some m =>
          if role_has_permission g (mb_role m) permission
          then Ok ({| tc_tenant_id := tn_id tenant; tc_slug := tn_slug tenant; tc_role := Some (mb_role m) |}, a, u)
          else Raise (HTTPException 403 "Permission refusée")
      end
  end.

(** The same decision short of the permission: the tenant and the caller's role there. *)
Definition resolution db (t : Z) (rq : Request) : result (TenantContext * AuthSession * User) :=
  let! tenant := operational_tenant db rq in
  match session_user db t rq with
  | None => Raise (HTTPException 401 "Authentification requise")
  | Some (a, u) =>
      match first_where (fun m => (mb_user_id m =? us_id u)%N && (mb_tenant_id m =? tn_id tenant)%N) (db Memberships) with
      | None => Raise (HTTPException 403 "Accès refusé à ce tenant")
      | Some m => Ok ({| tc_tenant_id := tn_id tenant; tc_slug := tn_slug tenant; tc_role := Some (mb_role m) |}, a, u)
      end
  end.
Lemma access_resolution db t g permission rq : access db t g permission rq =
  let! (ctx, a, u) := resolution db t rq in
  if role_has_permission g (default EmptyString (tc_role ctx)) permission then Ok (ctx, a, u)
  else Raise (HTTPException 403 "Permission refusée").
Proof.
  unfold access, resolution. destruct (operational_tenant db rq); [| done]. simpl. destruct (session_user db t rq) as [[a' u]|]; [| done].
  by case_query as [m|] Em.
Qed.
Lemma resolution_role db t rq ctx a u : resolution db t rq = Ok (ctx, a, u) -> exists role, tc_role ctx = Some role.
Proof.
  unfold resolution. destruct (operational_tenant db rq); [| done]. simpl. destruct (session_user db t rq) as [[a' u']|]; [| done].
  case_query as [m|] Em; [| done]. intros [= <- _ _]. by eexists.
Qed.

(** Authentication writes the time of the visit, and nothing else. *)
Definition visited (w : World) (rq : Request) : World :=
  match session_user (w_db w) (w_now w) rq with
  | Some (a, _) => set_db (upd Sessions (update_where (same_row Sessions a) (with_last_seen (w_now w))) (w_db w)) w
  | None => w
  end.

(** Two worlds in which every field is the same and the pending writes agree. *)
Record same_world (w w' : World) : Prop := {
  sw_db : w_db w = w_db w'; sw_pend s : w_pend w s = w_pend w' s; sw_now : w_now w = w_now w';
  sw_entropy : w_entropy w = w_entropy w'; sw_drawn : w_drawn w = w_drawn w';
  sw_tenant : w_tenant w = w_tenant w'; sw_grants : w_grants w = w_grants w';
  sw_kv : w_kv w = w_kv w'; sw_states : w_states w = w_states w'; sw_out : w_out w = w_out w' }.

Lemma current_auth_run w rq : (forall s, w_pend w s = id) -> exists w',
  current_auth_or_none rq w =
    (Ok (match session_user (w_db w) (w_now w) rq with
         | Some (a, u) => Some {| ca_user := u; ca_session := with_last_seen (w_now w) a |}
         | None => None
         end), w') /\ same_world w' (visited w rq).
Proof.
  intros Hp. unfold current_auth_or_none, visited, session_user.
  assert (Hs : sees w Ctl = w_db w) by (unfold sees; by rewrite Hp).
  destruct (cookie rq session_cookie_name) as [token|]; [| by exists w].
  destruct (str_eqb token ""); [by exists w |].
  unfold resolve_session, get_user. run. rewrite Hs. case_query as [a|] Ea; [| by exists w].
  destruct (is_some (as_revoked_at a)); [by exists w |]. run. cbn [orb].
  destruct (as_expires_at a <? w_now w); [by exists w |]. run. rewrite Hs.
  case_query as [u|] Eu; [| by exists w]. run. rewrite Hs. eexists. split; [reflexivity |].
  constructor; simpl; try done. intros s. destruct s; simpl; by rewrite Hp.
Qed.
End access.

Section route_lemmas.
Context {P : Platform}.
Implicit Types (w : World).

(** What a request leaves behind its handler: no transaction, no context. *)
Definition after_handler {A} (r : result A * World) : result A * World :=
  (r.1, closed Ctl (set_tenant None (closed Ten r.2))).

Lemma same_world_trans w1 w2 w3 : same_world w1 w2 -> same_world w2 w3 -> same_world w1 w3.
Proof. intros [] []. constructor; intros; congruence. Qed.

Lemma same_world_closed s w w' : same_world w w' -> w_pend w' s = id -> same_world (closed s w) w'.
Proof.
  intros [] Hp. constructor; simpl; try done. intros s'. destruct (sess_eq_dec s s') as [<-|]; [by rewrite Hp | done].
Qed.

Lemma visited_fields w rq : w_pend (visited w rq) = w_pend w /\ w_tenant (visited w rq) = w_tenant w /\
  w_grants (visited w rq) = w_grants w /\ w_now (visited w rq) = w_now w /\
  w_kv (visited w rq) = w_kv w /\ w_out (visited w rq) = w_out w /\
  forall t, t <> Sessions -> w_db (visited w rq) t = w_db w t.
Proof.
  unfold visited. destruct (session_user _ _ _) as [[a u]|]; simpl; [| done].
  repeat (split; [done |]). intros t Ht. by rewrite upd_ne.
Qed.

(** Once the caller and the tenant are known, the rest runs in the tenant's context. *)
Lemma resolved_run {A} rq (k : option CurrentAuth -> TenantContext -> M A) w : quiet w ->
  let run := request (let* auth := current_auth_or_none rq in resolve_tenant rq auth (k auth)) w in
  match resolution (w_db w) (w_now w) rq with
  | Raise e => exists w', run = (Raise e, w') /\ same_world w' (visited w rq)
  | Ok (ctx, a, u) =>
      exists w1, same_world w1 (set_tenant (Some ctx) (visited w rq)) /\
        run = let '(r, w2) := k (Some {| ca_user := u; ca_session := with_last_seen (w_now w) a |}) ctx w1 in (r, closed Ctl (set_tenant None w2))
  end.
Proof.
  intros [Hp Ht]. unfold request, with_session. cbn zeta.
  set (wc := closed Ctl w).
  assert (Hwc : same_world wc w) by (apply same_world_closed; [done | apply Hp]).
  destruct (current_auth_run wc rq) as (w' & E & Hw').
  { intros s. by rewrite (sw_pend _ _ Hwc). }
  assert (Hv : same_world w' (visited w rq)).
  { eapply same_world_trans; [exact Hw' |]. unfold visited. rewrite (sw_db _ _ Hwc), (sw_now _ _ Hwc).
    destruct (session_user _ _ _) as [[a u]|]; [| done]. destruct Hwc. constructor; simpl; done. }
  rewrite (sw_db _ _ Hwc), (sw_now _ _ Hwc) in E. clear Hw'.
  destruct (visited_fields w rq) as (Vp & Vt & Vg & Vn & _ & _ & Vd).
  assert (Hsees : forall t, t <> Sessions -> sees w' Ctl t = w_db w t).
  { intros t Hne. unfold sees. rewrite (sw_pend _ _ Hv), Vp, Hp, (sw_db _ _ Hv). by apply Vd. }
  assert (Hcl : same_world (closed Ctl w') (visited w rq)).
  { apply same_world_closed; [done |]. by rewrite Vp, Hp. }
  assert (Erun : forall k : option CurrentAuth -> M A, finally (bind (current_auth_or_none rq) k) (closed Ctl) wc =
    let '(r, w2) := k (match session_user (w_db w) (w_now w) rq with
         | Some (a, u) => Some {| ca_user := u; ca_session := with_last_seen (w_now w) a |}
         | None => None
         end) w' in (r, closed Ctl w2)) by (intros k'; unfold finally, bind; by rewrite E).
  rewrite !Erun. clear E Erun. unfold resolve_tenant, resolution, operational_tenant.
  destruct (extract_slug _) as [slug|]; [| by exists (closed Ctl w')]. run. rewrite Hsees by done.
  case_query as [t|] Et; [| by exists (closed Ctl w')].
  destruct (is_some (tn_deleted_at t)); [by exists (closed Ctl w') |].
  destruct (bool_decide (tn_state t = SUSPENDED)); [by exists (closed Ctl w') |]. cbn [result_bind].
  destruct (session_user (w_db w) (w_now w) rq) as [[a u]|]; [| by exists (closed Ctl w')]. cbn [ca_user].
  unfold get_membership_row. run. rewrite Hsees by done.
  case_query as [m|] Em; [| by exists (closed Ctl w')].
  unfold bind, push_tenant, finally.
  exists (set_tenant (Some {| tc_tenant_id := tn_id t; tc_slug := tn_slug t; tc_role := Some (mb_role m) |}) w').
  split; [destruct Hv; constructor; simpl; done |]. destruct (k _ _ _) as [r w2]. unfold pop_tenant. by rewrite (sw_tenant _ _ Hv), Vt, Ht.
Qed.

Lemma tenant_route_run {A} permission rq (handler : TenantContext -> CurrentAuth -> M A) w : quiet w ->
  match access (w_db w) (w_now w) (w_grants w) permission rq with
  | Raise e => exists w', tenant_route permission rq handler w = (Raise e, w') /\ same_world w' (visited w rq)
  | Ok (ctx, a, u) =>
      exists w1, same_world w1 (set_tenant (Some ctx) (visited w rq)) /\
        tenant_route permission rq handler w =
          after_handler (handler ctx {| ca_user := u; ca_session := with_last_seen (w_now w) a |} w1)
  end.
Proof.
  intros Hq. destruct (visited_fields w rq) as (Vp & _ & Vg & _). rewrite access_resolution.
  unfold tenant_route, require_permission.
  pose proof (resolved_run rq (fun auth ctx w =>
    match tc_role ctx with
    | Some role => if role_has_permission (w_grants w) role permission
        then (let* a := current_auth auth in get_tenant_session Ten (handler ctx a)) w
        else (Raise (HTTPException 403 "Permission refusée"), w)
    | None => (Raise (HTTPException 403 "Permission refusée"), w)
    end) w Hq) as H. cbn zeta in H.
  destruct (resolution (w_db w) (w_now w) rq) as [[[ctx a] u]|e] eqn:Er; cbn [result_bind]; [| exact H].
  destruct H as (w1 & Hw1 & E). assert (Hg : w_grants w1 = w_grants w) by (rewrite (sw_grants _ _ Hw1); exact Vg).
  destruct (resolution_role _ _ _ _ _ _ Er) as (role & Hr). rewrite Hr in E |- *. rewrite Hg in E. change (default EmptyString (Some role)) with role. destruct (role_has_permission _ role permission).
  - exists (closed Ten w1). split.
    + apply same_world_closed; [done |]. simpl. by rewrite Vp, (proj1 Hq).
    + etransitivity; [exact E |]. unfold current_auth, get_tenant_session, current_tenant, with_session, finally, bind, ret, after_handler.
      rewrite (sw_tenant _ _ Hw1). cbn [set_tenant w_tenant]. by destruct (handler _ _ _) as [r w2].
  - eexists. split; [exact E |]. eapply same_world_trans with (w2 := set_tenant None (closed Ctl w1)); [by constructor |].
    assert (Hc : same_world (closed Ctl w1) (set_tenant (Some ctx) (visited w rq))) by (apply same_world_closed; [done | simpl; by rewrite Vp, (proj1 Hq)]).
    destruct Hc. constructor; simpl in *; try done. by rewrite (proj1 (proj2 (visited_fields w rq))), (proj2 Hq).
Qed.
End route_lemmas.

(** ** Properties *)

Section properties.
Context {P : Platform}.

(** C10: a tenant route answers as the access decision says. When it refuses, the
    response is its status, the handler does not run, and the only write is the
    time of the caller's visit; when it allows, the handler runs once, in the
    context of that tenant with the caller's role there, and its result is the
    response. In all cases the context and the open transactions are gone after. *)
Theorem tenant_route_decides {A} permission rq (handler : TenantContext -> CurrentAuth -> M A) (w : World) :
  quiet w ->
  let '(r, w') := tenant_route permission rq handler w in
  w_tenant w' = None /\
  match access (w_db w) (w_now w) (w_grants w) permission rq with
  | Raise e => r = Raise e /\ same_world w' (visited w rq)
  | Ok (ctx, a, u) => exists w1, same_world w1 (set_tenant (Some ctx) (visited w rq)) /\
      (r, w') = after_handler (handler ctx {| ca_user := u; ca_session := with_last_seen (w_now w) a |} w1)
  end.
Proof.
  intros Hq. pose proof (tenant_route_run permission rq handler w Hq) as H.
  destruct (tenant_route permission rq handler w) as [r w'].
  destruct (access _ _ _ _ _) as [[[ctx a] u]|e].
  - destruct H as (w1 & Hw1 & H). split; [| by exists w1].
    injection H as _ ->. done.
  - destruct H as (w2 & [= -> ->] & Hs). split; [| done].
    rewrite (sw_tenant _ _ Hs). destruct (visited_fields w rq) as (_ & -> & _). apply Hq.
Qed.

(** C3: what the access decision demands. It never allows a caller without a
    live session of an existing user, a tenant that is unknown, soft-deleted or
    suspended, a user without membership of that very tenant, or a role without
    the permission; a core permission is then in the role's built-in set. *)
Theorem access_is_sound db t g permission rq ctx a u :
  registered g -> access db t g permission rq = Ok (ctx, a, u) ->
  (exists tenant, In tenant (db Tenants) /\ extract_slug (default EmptyString (rq_host rq)) = Some (tn_slug tenant) /\
     tn_deleted_at tenant = None /\ tn_state tenant = ACTIVE /\
     tc_tenant_id ctx = tn_id tenant /\ tc_slug ctx = tn_slug tenant) /\
  (exists token, cookie rq session_cookie_name = Some token /\ token <> "" /\
     In a (db Sessions) /\ as_token_hash a = hash_token token /\ as_revoked_at a = None /\ t <= as_expires_at a /\
     In u (db Users) /\ us_id u = as_user_id a) /\
  (exists m, In m (db Memberships) /\ mb_user_id m = us_id u /\ mb_tenant_id m = tc_tenant_id ctx /\
     tc_role ctx = Some (mb_role m) /\ role_has_permission g (mb_role m) permission = true /\
     (startswith permission "core." = true -> In permission (core_permissions (mb_role m)))).
Proof.
  intros Hg. unfold access, operational_tenant.
  destruct (extract_slug _) as [slug|] eqn:Eslug; [| done]. case_query as [tn|] Et; [| done].
  destruct (is_some (tn_deleted_at tn)) eqn:Ed; [done |].
  destruct (bool_decide (tn_state tn = SUSPENDED)) eqn:Es; [done |]. cbn [result_bind].
  destruct (session_user db t rq) as [[a' u']|] eqn:Eu; [| done]. case_query as [m|] Em; [| done].
  destruct (role_has_permission g (mb_role m) permission) eqn:Ep; [| done]. intros [= <- <- <-].
  apply first_where_Some in Et as [Ht1 Ht2]. apply first_where_Some in Em as [Hm1 Hm2]. bool_hyps.
  split; [| split].
  - exists tn. split; [done |]. split; [congruence |]. split; [by destruct (tn_deleted_at tn) |].
    split; [by destruct (tn_state tn) | done].
  - unfold session_user in Eu. destruct (cookie rq session_cookie_name) as [token|]; [| done].
    destruct (str_eqb token "") eqn:Etk; [done |]. exists token. split; [done |]. bool_hyps.
    revert Eu. case_query as [a|] Ea; [| done]. destruct (_ || _) eqn:Eor; [done |]. case_query as [u|] Euu; [| done].
    intros [= <- <-]. apply first_where_Some in Ea as [? ?]. apply first_where_Some in Euu as [? ?]. bool_hyps.
    split; [done |]. split; [done |]. split; [done |]. split; [by destruct (as_revoked_at a) |]. done.
  - exists m. do 3 (split; [done |]). split; [done |]. split; [done |]. intros Hc.
    rewrite (modules_hold_core g (mb_role m) permission Hg Hc) in Ep.
    unfold str_in in Ep. bool_hyps. by apply list_elem_of_In.
Qed.
End properties.

(** ** Witnesses *)

Definition visit (cookie host : string) : Request := {| rq_method := "GET"; rq_host := Some host; rq_origin := None;
  rq_cookies := [("saas_session", cookie)]; rq_client := Some "10.0.0.1" |}.
Definition alice_visit : Request := visit "alice-token" "acme.example.com".

Lemma tenant_route_decides_witness :
  (tenant_route (P := test_platform) "core.teams.manage" (visit "carol-token" "acme.example.com")
     (fun _ _ => ret tt) sample_world).1 = Raise (HTTPException 403 "Accès refusé à ce tenant").
Proof.
  pose proof (tenant_route_decides (P := test_platform) "core.teams.manage" (visit "carol-token" "acme.example.com")
    (fun _ _ => ret tt) sample_world sample_quiet) as H.
  destruct (tenant_route (P := test_platform) _ _ _ sample_world) as [r w']. destruct H as [_ H].
  set (decision := access _ _ _ _ _) in H.
  assert (Ha : decision = Raise (HTTPException 403 "Accès refusé à ce tenant")) by (vm_compute; reflexivity).
  rewrite Ha in H. apply H.
Defined.

Lemma access_is_sound_witness :
  exists ctx a u, access (P := test_platform) sample_db t0 initial_grants "core.teams.manage" alice_visit = Ok (ctx, a, u) /\
    tc_role ctx = Some ROLE_OWNER /\ In "core.teams.manage" (core_permissions ROLE_OWNER).
Proof.
  destruct (access (P := test_platform) sample_db t0 initial_grants "core.teams.manage" alice_visit) as [[[ctx a] u]|e] eqn:E;
    [| vm_compute in E; discriminate E].
  exists ctx, a, u. split; [reflexivity |].
  destruct (access_is_sound (P := test_platform) sample_db t0 initial_grants "core.teams.manage" alice_visit ctx a u) as (_ & _ & m & _ & _ & _ & Hr & _ & Hc).
  - constructor.
  - exact E.
  - assert (Hrole : tc_role ctx = Some ROLE_OWNER) by (vm_compute in E; by injection E as <- _ _).
    split; [exact Hrole |]. rewrite Hrole in Hr. injection Hr as Hm. rewrite <- Hm in Hc. apply Hc. reflexivity.
Defined.
