(* ===== verification/Edge.v ===== *)
(** What stands before the handlers: the CSRF middleware [app/core/csrf.py] and
    the rate limiter [app/auth/rate_limit.py]. *)
From S2P Require Import Prelude PyStr Hashing Config Tokens Models World Orm Slug AuthService Deps.

(** ** CSRF *)

Module Csrf.
Definition _MUTATING_METHODS : list string := ["POST"; "PUT"; "PATCH"; "DELETE"].
Definition _bare_host (value : string) : string := bare_host value.

Section csrf.
Context {CFG : Settings}.

Definition cookie_domain : string := lower (lstrip_char "." session_cookie_domain).

Definition origin_allowed (origin request_host : string) : bool :=
  let origin_host := _bare_host (Url.netloc origin) in
  if str_eqb origin_host "" then false
  else if str_eqb origin_host (_bare_host request_host) then true
  else negb (str_eqb cookie_domain "") &&
       (str_eqb origin_host cookie_domain || endswith origin_host ("." +:+ cookie_domain)).

(** The response of a refusal is the JSON an [HTTPException] renders to. *)
Definition dispatch {VK : Valkey} {A} (rq : Request) (call_next : M A) : M A :=
  if str_in (rq_method rq) _MUTATING_METHODS then
    match rq_origin rq with
    | Some origin =>
        raise_when (negb (origin_allowed origin (default EmptyString (rq_host rq))))
          (HTTPException 403 "Origin non autorisée") in
        call_next
    | None => call_next
    end
  else call_next.

(** A mutating request that carries an [Origin] reaches its handler only if
    the origin's host is the request's own or the cookie domain or a proper
    subdomain of it, on a label boundary; otherwise nothing runs. With no
    cookie domain, only the same host passes. Requests without [Origin] and
    reads are untouched. *)
Theorem csrf_same_site {VK : Valkey} {A} (rq : Request) (call_next : M A) (w : World) :
  let host := _bare_host (default EmptyString (rq_host rq)) in
  let passes := fun origin => let o := _bare_host (Url.netloc origin) in
    o <> EmptyString /\ (o = host \/ (cookie_domain <> EmptyString /\
      (o = cookie_domain \/ exists sub, o = sub +:+ "." +:+ cookie_domain))) in
  (forall origin, In (rq_method rq) _MUTATING_METHODS -> rq_origin rq = Some origin ->
     (passes origin /\ dispatch rq call_next w = call_next w) \/
     (~ passes origin /\ dispatch rq call_next w = (Raise (HTTPException 403 "Origin non autorisée"), w))) /\
  (rq_origin rq = None \/ ~ In (rq_method rq) _MUTATING_METHODS -> dispatch rq call_next w = call_next w).
Proof.
  intros host passes. unfold dispatch, str_in. split.
  - intros origin Hm Ho. rewrite bool_decide_eq_true_2 by by apply list_elem_of_In. rewrite Ho.
    assert (Hp : origin_allowed origin (default EmptyString (rq_host rq)) = true <-> passes origin).
    { unfold origin_allowed, passes, host. set (o := _bare_host _). set (h := _bare_host _). clearbody o h.
      destruct (str_eqb o "") eqn:E1; bool_hyps; [naive_solver |].
      destruct (str_eqb o h) eqn:E2; bool_hyps; [naive_solver |].
      rewrite andb_true_iff, negb_true_iff, orb_true_iff, str_eqb_neq, str_eqb_eq, endswith_spec. naive_solver. }
    destruct (origin_allowed _ _); [left | right]; (split; [| done]); [by apply Hp |].
    intros Hn. apply Hp in Hn. done.
  - intros [->|Hm]; [by destruct (bool_decide _) |].
    rewrite bool_decide_eq_false_2; [done |]. intros H. by apply Hm, list_elem_of_In.
Qed.
End csrf.

Lemma csrf_same_site_witness :
  let rq := {| rq_method := "POST"; rq_host := Some "acme.example.com"; rq_origin := Some "https://evil-acme.example.com.attacker.net";
               rq_cookies := []; rq_client := None |} in
  dispatch (CFG := default_settings) (VK := simple_valkey) rq (ret tt) (fresh_world 0 empty_db) =
    (Raise (HTTPException 403 "Origin non autorisée"), fresh_world 0 empty_db).
Proof.
  intros rq. destruct (csrf_same_site (CFG := default_settings) (VK := simple_valkey) rq (ret tt) (fresh_world 0 empty_db)) as [H _].
  destruct (H "https://evil-acme.example.com.attacker.net" ltac:(by left) eq_refl) as [[[_ [Hs | [Hs _]]] _] | [_ Hr]].
  - vm_compute in Hs. discriminate.
  - exfalso. by apply Hs.
  - exact Hr.
Defined.
End Csrf.

(** ** Rate limiting *)

Module RateLimit.
Section rate_limit.
Context {P : Platform}.

(** The identifier is hashed: no email and no address in the store. *)
Definition _key (scope identifier : string) : string :=
  "rl:" +:+ scope +:+ ":" +:+ String.substring 0 32 (sha256_hexdigest (encode (lower identifier))).

(** [INCR] answers the new value; on text it is an error. *)
Definition incr (key : string) : M Z := fun w =>
  let kv := kv_incrby (w_now w) key 1 (w_kv w) in
  match kv_look (w_now w) key kv with
  | Some (KInt z, _) => (Ok z, set_kv kv w)
  | _ => (Raise (ResponseError "value is not an integer or out of range"), w)
  end.
Definition expire (key : string) (seconds : Z) : M unit := fun w =>
  (Ok tt, set_kv (kv_expire (w_now w) key (seconds * second) (w_kv w)) w).

(** One turn of the loop over the keys. *)
Definition hit (key : string) : M unit :=
  let* count := incr key in
  let* _ := (if count =? 1 then expire key auth_rate_limit_window_seconds else ret tt) in
  raise_when (auth_rate_limit_attempts <? count)
    (HTTPException 429 "Trop de tentatives — réessayez plus tard.") in
  ret tt.

Definition limit_keys (rq : Request) (scope : string) (identifiers : list string) : list string :=
  _key scope (default "unknown" (rq_client rq)) ::
  List.map (_key scope) (List.filter (fun i => negb (str_eqb i "")) identifiers).

Definition enforce_rate_limit (rq : Request) (scope : string) (identifiers : list string) : M unit :=
  for_each (limit_keys rq scope identifiers) hit.
End rate_limit.

Section bound.
Context {P : Platform}.
Implicit Types (w : World) (k : string).
Hypothesis window_pos : 0 < auth_rate_limit_window_seconds.

(** The counter of [k] stands at [z], until [d]. *)
Definition counts w k (z d : Z) : Prop := kv_look (w_now w) k (w_kv w) = Some (KInt z, Some d) /\ 1 <= z.
Definition absent w k : Prop := kv_look (w_now w) k (w_kv w) = None.

Lemma hit_run k w z d : counts w k z d ->
  exists w', hit k w = ((if auth_rate_limit_attempts <? z + 1
                        then Raise (HTTPException 429 "Trop de tentatives — réessayez plus tard.") else Ok tt), w') /\
    counts w' k (z + 1) d /\ w_now w' = w_now w.
Proof.
  intros [Hl Hz]. unfold hit, bind, incr. rewrite kv_incrby_eq, Hl.
  destruct (z + 1 =? 1) eqn:E; bool_hyps; [lia |]. unfold ret.
  eexists. split; [by destruct (_ <? z + 1) |]. split; [| done].
  split; [simpl; by rewrite kv_incrby_eq, Hl | lia].
Qed.

Lemma hit_first k w : absent w k ->
  exists w', hit k w = ((if auth_rate_limit_attempts <? 1
                        then Raise (HTTPException 429 "Trop de tentatives — réessayez plus tard.") else Ok tt), w') /\
    counts w' k 1 (w_now w + auth_rate_limit_window_seconds * second) /\ w_now w' = w_now w.
Proof.
  intros Ha. unfold hit, bind, incr. rewrite kv_incrby_eq, Ha. cbn match. unfold expire, ret. simpl.
  eexists. split; [by destruct (_ <? 1) |]. split; [| done].
  split; [| lia]. simpl. rewrite kv_expire_eq by (unfold second; lia). by rewrite kv_incrby_eq, Ha.
Qed.

Lemma hit_other k k' w r w' : k' <> k -> hit k' w = (r, w') ->
  w_now w' = w_now w /\ forall t, kv_look t k (w_kv w') = kv_look t k (w_kv w).
Proof.
  intros Hne. unfold hit, bind, incr, expire, ret, raise.
  destruct (kv_look _ k' _) as [[[z|x] dl]|]; [| by intros [= <- <-] | by intros [= <- <-]].
  destruct (z =? 1); simpl; destruct (_ <? z); intros [= <- <-]; simpl; (split; [done |]); intros t;
    rewrite ?kv_expire_ne by done; by apply kv_incrby_ne.
Qed.

(** Within [T], the counter is absent or counting towards a deadline past [T]. *)
Definition state w k (T n : Z) : Prop :=
  (n = 0 /\ absent w k /\ T <= w_now w + auth_rate_limit_window_seconds * second) \/ (exists d, T <= d /\ counts w k n d).

Lemma hits_run keys k T : forall w n r w', state w k T n -> 0 <= n -> for_each keys hit w = (r, w') ->
  w_now w' = w_now w /\ exists n', state w' k T n' /\ n <= n' /\
    (~ In k keys -> n' = n) /\ (r = Ok tt -> In k keys -> n + 1 <= n' <= auth_rate_limit_attempts).
Proof.
  induction keys as [|k' keys IH]; intros w n r w' Hs Hn; cbn [for_each].
  - intros [= <- <-]. split; [done |]. exists n. split; [done |]. split; [lia |]. split; [done |]. intros _ [].
  - unfold bind at 1. destruct (hit k' w) as [rh w1] eqn:Eh.
    assert (H1 : w_now w1 = w_now w /\ exists n1, state w1 k T n1 /\ n <= n1 /\ (k' <> k -> n1 = n) /\
              (k' = k -> n1 = n + 1 /\ (rh = Ok tt -> n1 <= auth_rate_limit_attempts))).
    { destruct (decide (k' = k)) as [->|Hne].
      - destruct Hs as [(-> & Ha & HT) | (d & Hd & Hc)].
        + destruct (hit_first k w Ha) as (w2 & E & Hc & Hnow). rewrite Eh in E. injection E as -> <-.
          split; [done |]. exists 1. split; [right; eexists; split; [| exact Hc]; done |].
          split; [lia |]. split; [done |]. intros _. split; [lia |]. destruct (_ <? 1) eqn:E; [done |]. bool_hyps. lia.
        + destruct (hit_run k w n d Hc) as (w2 & E & Hc2 & Hnow). rewrite Eh in E. injection E as -> <-.
          split; [done |]. exists (n + 1). split; [right; by exists d |]. split; [lia |]. split; [done |].
          intros _. split; [lia |]. destruct (_ <? n + 1) eqn:E; [done |]. bool_hyps. lia.
      - destruct (hit_other k k' w rh w1 Hne Eh) as [Hnow Hk]. split; [done |]. exists n.
        split; [| split; [lia |]; split; [done |]; done].
        unfold state, absent, counts in *. by rewrite Hnow, !Hk. }
    destruct H1 as (Hnow1 & n1 & Hs1 & Hle & Hne & Heq).
    destruct rh as [[]|e].
    + intros Hr. destruct (IH w1 n1 r w' Hs1 ltac:(lia) Hr) as (Hnow & n' & Hs' & Hle' & Hout & Hin).
      split; [congruence |]. exists n'. split; [done |]. split; [lia |]. split.
      * intros Hk. rewrite Hout by (intros ?; apply Hk; by right). apply Hne. intros ->. apply Hk. by left.
      * intros Hok Hk. destruct (List.in_dec String.string_dec k keys) as [Hi|Hi]; [specialize (Hin Hok Hi); lia |].
        rewrite (Hout Hi). destruct Hk as [->|Hk]; [| done]. destruct (Heq eq_refl) as [-> Hb]. specialize (Hb eq_refl). lia.
    + intros [= <- <-]. split; [done |]. exists n1. split; [done |]. split; [lia |]. split; [| done].
      intros Hk. apply Hne. intros ->. apply Hk. by left.
Qed.

(** A series of calls, each at its own time, with any other use of the process
    in between that leaves this counter alone. *)
Inductive calls (scope ident : string) (T : Z) : World -> nat -> World -> Prop :=
  | calls_done w : calls scope ident T w 0 w
  | calls_call w w1 r w2 n w3 rq ids :
      w_now w <= w_now w1 < T ->
      (forall t, kv_look t (_key scope ident) (w_kv w1) = kv_look t (_key scope ident) (w_kv w)) ->
      In ident ids -> ident <> EmptyString ->
      enforce_rate_limit rq scope ids w1 = (r, w2) ->
      calls scope ident T w2 n w3 ->
      calls scope ident T w ((if r is Ok _ then 1 else 0) + n) w3.

Lemma state_later w w1 k T n : w_now w <= w_now w1 < T ->
  (forall t, kv_look t k (w_kv w1) = kv_look t k (w_kv w)) -> state w k T n -> state w1 k T n.
Proof.
  intros [Ht HT] Hk. unfold state, absent, counts.
  intros [(-> & Ha & Hw) | (d & Hd & Hc & Hz)].
  - left. split; [done |]. split; [| lia]. rewrite Hk, (kv_later (w_now w) (w_now w1)) by lia. by rewrite Ha.
  - right. exists d. split; [done |]. split; [| done]. rewrite Hk, (kv_later (w_now w) (w_now w1)) by lia. rewrite Hc.
    destruct (d <=? w_now w1) eqn:E; [| done]. bool_hyps. lia.
Qed.

Lemma calls_bound scope ident T w n w' m : state w (_key scope ident) T m -> 0 <= m ->
  calls scope ident T w n w' -> Z.of_nat n <= Z.max 0 (auth_rate_limit_attempts - m).
Proof.
  intros Hs Hm Hc. revert m Hs Hm. induction Hc as [|w w1 r w2 n w3 rq ids Ht Hk Hi Hne Hr Hc IH]; intros m Hs Hm; [lia |].
  apply (state_later w w1 _ _ _ Ht Hk) in Hs.
  assert (Hin : In (_key scope ident) (limit_keys rq scope ids)).
  { right. apply List.in_map, List.filter_In. split; [done |]. apply negb_true_iff. by apply str_eqb_neq. }
  destruct (hits_run _ _ _ _ _ _ _ Hs Hm Hr) as (_ & m' & Hs' & Hle & _ & Hok).
  specialize (IH m' Hs' ltac:(lia)). destruct r as [[]|e]; [| lia]. specialize (Hok eq_refl Hin). lia.
Qed.
End bound.

(** C39: for every scope and identifier, in any stretch of time shorter than the
    window and starting without a counter, at most [auth_rate_limit_attempts]
    calls that name the identifier pass, whatever their number, their other
    identifiers and addresses, and whatever else the process does in between
    with other keys; the rest are refused. *)
Theorem rate_limit_bound {P : Platform} scope ident (w : World) n w' :
  0 < auth_rate_limit_window_seconds -> 0 <= auth_rate_limit_attempts ->
  kv_look (w_now w) (_key scope ident) (w_kv w) = None ->
  calls scope ident (w_now w + auth_rate_limit_window_seconds * second) w n w' ->
  Z.of_nat n <= auth_rate_limit_attempts.
Proof.
  intros Hw Ha Hk Hc. apply (calls_bound Hw scope ident _ w n w' 0) in Hc; [lia | | lia].
  left. split; [done |]. split; [done | lia].
Qed.
End RateLimit.

Lemma rate_limit_bound_witness :
  let rq := {| rq_method := "POST"; rq_host := None; rq_origin := None; rq_cookies := []; rq_client := Some "10.0.0.1" |} in
  exists n w', RateLimit.calls (P := test_platform) "login" "a@b.c" 300000000 (fresh_world 0 empty_db) n w' /\
    n = 1%nat /\ Z.of_nat n <= 10.
Proof.
  intros rq.
  pose (w1 := (RateLimit.enforce_rate_limit (P := test_platform) rq "login" ["a@b.c"] (fresh_world 0 empty_db)).2).
  assert (Hc : RateLimit.calls (P := test_platform) "login" "a@b.c" 300000000 (fresh_world 0 empty_db) 1 w1).
  { eapply (RateLimit.calls_call (P := test_platform) "login" "a@b.c" 300000000 (fresh_world 0 empty_db)
      (fresh_world 0 empty_db) (Ok tt) w1 0 w1 rq ["a@b.c"]).
    - split; [apply Z.le_refl | reflexivity].
    - reflexivity.
    - by left.
    - discriminate.
    - apply injective_projections; [vm_compute; reflexivity | reflexivity].
    - apply RateLimit.calls_done. }
  exists 1%nat, w1. split; [exact Hc |]. split; [reflexivity |].
  apply (RateLimit.rate_limit_bound (P := test_platform) "login" "a@b.c" (fresh_world 0 empty_db) 1 w1); [reflexivity | discriminate | reflexivity | exact Hc].
Defined.
