(* ===== verification/Journal.v ===== *)
(** [app/audit/service.py]: the one way to write the audit journal, in the
    transaction of the audited action or, outside a request's context, in one of
    its own. *)
From S2P Require Import Prelude PyStr Hashing Json Config Tokens Models World Orm Isolation Sample.

Definition SYSTEM_ACTOR_LABEL : string := "system".
Definition CLI_ACTOR_LABEL : string := "cli".

Section audit.
Context {P : Platform}.

(** [AuditEvent(...)] leaves [tenant_id] unset; the flush guard stamps it. *)
Definition record_audit_event (s : sess) (action resource_type resource_id : string)
    (payload : list (string * json)) (actor_user_id : option N) (actor_label : string) : M AuditEvent :=
  let* id := uuid4 in
  let* t := now in
  add s AuditEvents {|
    ae_id := id; ae_tenant_id := 0; ae_occurred_at := t; ae_actor_user_id := actor_user_id;
    ae_actor_label := actor_label; ae_action := action; ae_resource_type := resource_type;
    ae_resource_id := resource_id; ae_payload := payload |}.

Definition record_audit_event_for_tenant (own : nat) (tenant : Tenant) (action resource_type resource_id : string)
    (payload : list (string * json)) (actor_user_id : option N) (actor_label : string) : M unit :=
  let ctx := {| tc_tenant_id := tn_id tenant; tc_slug := tn_slug tenant; tc_role := None |} in
  tenant_context ctx (get_tenant_session (Own own)
    (let* _ := record_audit_event (Own own) action resource_type resource_id payload actor_user_id actor_label in
     commit (Own own))).

(** ** Lemmas *)

Lemma record_audit_event_code s a rt ri p u l : orm_code (record_audit_event s a rt ri p u l).
Proof. unfold record_audit_event. eauto 6 with orm_code. Qed.

(** An event of tenant [tid] with these contents. *)
Definition event_is (tid : N) (t : Z) (a rt ri : string) (p : list (string * json)) (u : option N) (l : string)
    (e : AuditEvent) : Prop :=
  ae_tenant_id e = tid /\ ae_occurred_at e = t /\ ae_action e = a /\ ae_resource_type e = rt /\
  ae_resource_id e = ri /\ ae_payload e = p /\ ae_actor_user_id e = u /\ ae_actor_label e = l.

Lemma record_audit_event_run s a rt ri p u l w ctx r w' : w_tenant w = Some ctx ->
  record_audit_event s a rt ri p u l w = (r, w') ->
  (r = Raise IntegrityError /\ w' = set_drawn (S (w_drawn w)) w) \/
  exists e, r = Ok e /\ event_is (tc_tenant_id ctx) (w_now w) a rt ri p u l e /\
    w' = wrote s (upd AuditEvents (fun rows => rows ++ [e])) (set_drawn (S (w_drawn w)) w).
Proof.
  intros Hc. unfold record_audit_event. run.
  rewrite (add_scoped s AuditEvents _ _ ctx) by done. cbn zeta.
  destruct (existsb _ _); intros [= <- <-]; [by left |]. right. eexists. split; [done |]. by split.
Qed.

(** An event in a session of its own, committed at once. *)
Lemma audit_alone_run own ctx a rt ri p u l w :
  let '(r, w') := tenant_context ctx (get_tenant_session (Own own)
      (let* _ := record_audit_event (Own own) a rt ri p u l in commit (Own own))) w in
  w_tenant w' = w_tenant w /\
  (forall s, w_pend w' s = if sess_eq_dec (Own own) s then id else w_pend w s) /\
  (w_now w' = w_now w /\ w_out w' = w_out w /\ w_entropy w' = w_entropy w /\ w_drawn w' = S (w_drawn w)) /\
  w_kv w' = w_kv w /\
  (r = Raise IntegrityError /\ w_db w' = w_db w \/
   r = Ok tt /\ exists e, event_is (tc_tenant_id ctx) (w_now w) a rt ri p u l e /\
     w_db w' = upd AuditEvents (fun rows => rows ++ [e]) (w_db w)).
Proof.
  unfold tenant_context, get_tenant_session, with_session, push_tenant.
  unfold bind at 1, finally at 1, bind at 1, current_tenant. cbn [set_tenant w_tenant].
  unfold finally at 1, bind at 1.
  set (w0 := closed (Own own) (set_tenant (Some ctx) w)).
  assert (Hs : sees w0 (Own own) = w_db w) by exact (sees_closed (set_tenant (Some ctx) w) (Own own)).
  destruct (record_audit_event (Own own) a rt ri p u l w0) as [r w1] eqn:E.
  apply (record_audit_event_run _ _ _ _ _ _ _ _ ctx) in E; [| done].
  destruct E as [[-> ->] | (e & -> & He & ->)]; cbn beta iota.
  - split; [done |]. split; [intros s; simpl; by destruct (sess_eq_dec (Own own) s) |]. do 2 (split; [done |]). by left.
  - split; [done |]. split; [intros s; simpl; by destruct (sess_eq_dec (Own own) s) |]. do 2 (split; [done |]).
    right. split; [done |]. exists e. split; [done |].
    unfold pop_tenant, closed, commit. cbn [fst snd w_db set_pend set_db set_tenant]. simpl_view. by rewrite Hs.
Qed.
End audit.

#[export] Hint Resolve record_audit_event_code : orm_code.

(** ** Properties *)

Section properties.
Context {P : Platform}.

(** An event is written for the tenant of the context and no other, with the
    author, action and payload given, stamped with the current time, at the end
    of a journal that is otherwise unchanged; nothing else is written. Without a
    context it is refused. Until the caller commits, only its own session sees
    the event, and abandoning the session abandons it. *)
Theorem audit_event_appended s a rt ri p u l (w : World) :
  match w_tenant w with
  | None => exists e, (record_audit_event s a rt ri p u l w).1 = Raise (TenantContextError e) /\
                      forall s' t, sees (record_audit_event s a rt ri p u l w).2 s' t = sees w s' t
  | Some ctx =>
      let '(r, w') := record_audit_event s a rt ri p u l w in
      r = Raise IntegrityError \/
      exists e, r = Ok e /\ event_is (tc_tenant_id ctx) (w_now w) a rt ri p u l e /\
        sees w' s AuditEvents = sees w s AuditEvents ++ [e] /\
        (forall t, t <> AuditEvents -> sees w' s t = sees w s t) /\
        (forall s', s' <> s -> sees w' s' = sees w s') /\
        w_db w' = w_db w /\ w_db (closed s w') = w_db w /\ w_tenant w' = w_tenant w
  end.
Proof.
  destruct (w_tenant w) as [ctx|] eqn:Ec.
  - destruct (record_audit_event s a rt ri p u l w) as [r w'] eqn:E.
    apply (record_audit_event_run _ _ _ _ _ _ _ _ ctx) in E; [| done].
    destruct E as [[-> _] | (e & -> & He & ->)]; [by left |]. right. exists e. split; [done |]. split; [done |].
    split; [by simpl_view |]. split; [intros t Ht; simpl_view; by rewrite upd_ne |].
    split; [intros s' Hs; by rewrite sees_wrote_ne |]. done.
  - exists no_context_msg. unfold record_audit_event. run.
    unfold add, add_as, guard_flush_new, bind, current_tenant. simpl. rewrite Ec. done.
Qed.

(** Outside a request, the event of a tenant is committed on its own, for that
    tenant, and the caller's context is back afterwards, also when the insert
    fails; no row of another tenant and no other table changes. *)
Theorem audit_for_tenant_restores_context own tenant a rt ri p u l (w : World) :
  w_pend w (Own own) = id ->
  let '(r, w') := record_audit_event_for_tenant own tenant a rt ri p u l w in
  w_tenant w' = w_tenant w /\ w_pend w' (Own own) = id /\
  (forall t, t <> AuditEvents -> w_db w' t = w_db w t) /\
  (r = Raise IntegrityError /\ w_db w' AuditEvents = w_db w AuditEvents \/
   r = Ok tt /\ exists e, event_is (tn_id tenant) (w_now w) a rt ri p u l e /\
     w_db w' AuditEvents = w_db w AuditEvents ++ [e]).
Proof.
  intros Hp. pose proof (audit_alone_run own {| tc_tenant_id := tn_id tenant; tc_slug := tn_slug tenant; tc_role := None |}
    a rt ri p u l w) as H. unfold record_audit_event_for_tenant.
  destruct (tenant_context _ _ w) as [r w']. destruct H as (H1 & H2 & _ & _ & H). split; [done |].
  split; [rewrite H2; by destruct (sess_eq_dec (Own own) (Own own)) |].
  destruct H as [[-> ->] | (-> & e & He & ->)]; [by split; [| left] |].
  split; [intros t Ht; by rewrite upd_ne |]. right. split; [done |]. exists e. by rewrite upd_eq.
Qed.
End properties.

(** ** Witness *)

Lemma audit_for_tenant_restores_context_witness :
  w_tenant (record_audit_event_for_tenant (P := test_platform) 0 acme "core.tenant.renamed" "tenant" "1" [] None "cli" sample_world).2 = None.
Proof.
  pose proof (audit_for_tenant_restores_context (P := test_platform) 0 acme "core.tenant.renamed" "tenant" "1" [] None "cli"
    sample_world eq_refl) as H.
  destruct (record_audit_event_for_tenant (P := test_platform) _ _ _ _ _ _ _ _ sample_world) as [r w']. apply H.
Defined.
