(* ===== verification/Frame.v ===== *)
(** Which tables a program may write. [still W m]: [m] commits nothing and its
    pending writes are confined to the tables [W]. [frame W m]: run from a point
    where nothing is pending outside [W], [m] leaves the tables outside [W] as
    they were, committed or not. The rules follow the shape of the code, so that
    [auto with frame] settles the question for an operation. *)
From S2P Require Import Prelude PyStr Hashing Base64 Json Config Tokens Models World Orm AuthService Journal.

Section frame.
Context {VK : Valkey}.
Variable W : list table.

Definition still {A} (m : M A) : Prop := forall w,
  w_db (m w).2 = w_db w /\ w_now (m w).2 = w_now w /\ w_tenant (m w).2 = w_tenant w /\
  forall s d t, ~ In t W -> w_pend (m w).2 s d t = w_pend w s d t.

Definition clean (w : World) : Prop := forall s d t, ~ In t W -> w_pend w s d t = d t.
Definition frame {A} (m : M A) : Prop := forall w, clean w ->
  clean (m w).2 /\ forall t, ~ In t W -> w_db (m w).2 t = w_db w t.

Lemma still_frame {A} (m : M A) : still m -> frame m.
Proof.
  intros H w Hc. destruct (H w) as (Hd & _ & _ & Hp). split; [| by rewrite Hd].
  intros s d t Ht. by rewrite Hp, Hc.
Qed.

Lemma still_sees {A} (m : M A) w s t : still m -> ~ In t W -> sees (m w).2 s t = sees w s t.
Proof. intros H Ht. destruct (H w) as (Hd & _ & _ & Hp). unfold sees. by rewrite Hd, Hp. Qed.

Lemma still_pure {A} (m : M A) :
  (forall w, w_db (m w).2 = w_db w /\ w_now (m w).2 = w_now w /\ w_tenant (m w).2 = w_tenant w /\
             w_pend (m w).2 = w_pend w) -> still m.
Proof. intros H w. destruct (H w) as (H1 & H2 & H3 & H4). repeat (split; [done |]). intros. by rewrite H4. Qed.

Lemma still_ret {A} (a : A) : still (ret a).
Proof. done. Qed.
Lemma still_raise {A} e : still (raise (A := A) e).
Proof. done. Qed.
Lemma still_of_result {A} (r : result A) : still (of_result r).
Proof. done. Qed.
Lemma still_now : still now.
Proof. done. Qed.
Lemma still_uuid4 : still uuid4.
Proof. done. Qed.
Lemma still_draw : still draw.
Proof. done. Qed.
Lemma still_random_bytes n : still (random_bytes n).
Proof. done. Qed.
Lemma still_emit e : still (emit e).
Proof. done. Qed.
Lemma still_current_tenant : still current_tenant.
Proof. apply still_pure. intros w. unfold current_tenant. by destruct (w_tenant w) eqn:?. Qed.

Lemma still_bind {A B} (m : M A) (k : A -> M B) : still m -> (forall a, still (k a)) -> still (bind m k).
Proof.
  intros Hm Hk w. unfold bind. destruct (Hm w) as (H1 & H2 & H3 & H4). destruct (m w) as [[a|e] w']; [| done]. simpl in *.
  destruct (Hk a w') as (G1 & G2 & G3 & G4). split; [congruence |]. split; [congruence |]. split; [congruence |].
  intros s d t Ht. by rewrite G4, H4.
Qed.

Lemma still_catch {A} (m : M A) h : still m -> (forall e k, h e = Some k -> still k) -> still (catch m h).
Proof.
  intros Hm Hh w. unfold catch. destruct (Hm w) as (H1 & H2 & H3 & H4). destruct (m w) as [[a|e] w']; [done |]. simpl in *.
  destruct (h e) as [k|] eqn:E; [| done]. destruct (Hh e k E w') as (G1 & G2 & G3 & G4).
  split; [congruence |]. split; [congruence |]. split; [congruence |]. intros s d t Ht. by rewrite G4, H4.
Qed.

Lemma still_guard k t : still (_guard_orm_execute (statement_on k t)).
Proof.
  apply still_pure. intros w. destruct (scoped t) eqn:E; [| by rewrite guard_unscoped by done].
  unfold _guard_orm_execute, _touches_scoped_mapper. simpl. rewrite E. simpl.
  destruct k; try done; unfold bind, current_tenant; by destruct (w_tenant w) eqn:?.
Qed.
Lemma still_scalar s t p : still (scalar s t p).
Proof. apply still_bind; [apply still_guard |]. intros c. apply still_bind; [done |]. done. Qed.
Lemma still_scalars s t p : still (scalars s t p).
Proof. apply still_bind; [apply still_guard |]. intros c. apply still_bind; [done |]. done. Qed.

Lemma still_write s t f : In t W -> still (write s (upd t f)).
Proof.
  intros Ht w. split; [done |]. split; [done |]. split; [done |]. intros s' d t' Ht'. simpl.
  destruct (sess_eq_dec s s') as [<-|]; [| done]. apply upd_ne. by intros ->.
Qed.
Lemma still_guard_new t g r : still (guard_flush_new t g r).
Proof.
  unfold guard_flush_new. destruct (scoped t); [| done]. apply still_bind; [apply still_current_tenant |].
  intros ctx. destruct g as [tid|]; [| done]. by destruct (negb _).
Qed.
Lemma still_guard_touched t r : still (guard_flush_touched t r).
Proof.
  unfold guard_flush_touched. destruct (scoped t); [| done]. apply still_bind; [apply still_current_tenant |].
  intros ctx. by destruct (negb _).
Qed.
Lemma still_add s t r : In t W -> still (add s t r).
Proof.
  intros Ht. apply still_bind; [apply still_guard_new |]. intros r'. apply still_bind; [done |]. intros db.
  destruct (existsb _ _); [done |]. apply still_bind; [by apply still_write | done].
Qed.
Lemma still_modify s t r f : In t W -> still (modify s t r f).
Proof. intros Ht. apply still_bind; [apply still_guard_touched |]. intros _. by apply still_write. Qed.
Lemma still_remove s t r : In t W -> still (remove s t r).
Proof. intros Ht. apply still_bind; [apply still_guard_touched |]. intros _. by apply still_write. Qed.

Lemma still_for_each {A} (l : list A) f : (forall a, still (f a)) -> still (for_each l f).
Proof. intros H. induction l as [|a l IH]; [done |]. simpl. by apply still_bind. Qed.
Lemma still_collect {A} n (m : M A) : still m -> still (collect n m).
Proof.
  intros H. induction n as [|n IH]; [done |]. simpl. apply still_bind; [done |]. intros a.
  apply still_bind; [done |]. done.
Qed.

(** ** Programs that commit *)

Lemma frame_bind {A B} (m : M A) (k : A -> M B) : frame m -> (forall a, frame (k a)) -> frame (bind m k).
Proof.
  intros Hm Hk w Hc. unfold bind. destruct (Hm w Hc) as [H1 H2]. destruct (m w) as [[a|e] w']; [| done]. simpl in *.
  destruct (Hk a w' H1) as [G1 G2]. split; [done |]. intros t Ht. by rewrite G2, H2.
Qed.
Lemma frame_commit s : frame (commit s).
Proof.
  intros w Hc. simpl. split; [| intros t Ht; by apply Hc]. intros s' d t Ht. simpl.
  destruct (sess_eq_dec s s'); [done | by apply Hc].
Qed.
Lemma frame_finally {A} (m : M A) f : frame m -> (forall w, w_db (f w) = w_db w /\ (clean w -> clean (f w))) ->
  frame (finally m f).
Proof.
  intros Hm Hf w Hc. unfold finally. destruct (Hm w Hc) as [H1 H2]. destruct (m w) as [r w']. simpl in *.
  destruct (Hf w') as [G1 G2]. split; [by apply G2 | intros t Ht; by rewrite G1, H2].
Qed.
Lemma frame_catch {A} (m : M A) h : frame m -> (forall e k, h e = Some k -> frame k) -> frame (catch m h).
Proof.
  intros Hm Hh w Hc. unfold catch. destruct (Hm w Hc) as [H1 H2]. destruct (m w) as [[a|e] w']; [done |]. simpl in *.
  destruct (h e) as [k|] eqn:E; [| done]. destruct (Hh e k E w' H1) as [G1 G2]. split; [done |].
  intros t Ht. by rewrite G2, H2.
Qed.
Lemma clean_closed s w : clean w -> clean (closed s w).
Proof. intros Hc s' d t Ht. simpl. destruct (sess_eq_dec s s'); [done | by apply Hc]. Qed.
Lemma frame_with_session {A} s (m : M A) : frame m -> frame (with_session s m).
Proof.
  intros Hm w Hc. destruct (frame_finally m (closed s) Hm) with (w := closed s w) as [H1 H2].
  - intros w'. split; [done | apply clean_closed].
  - by apply clean_closed.
  - split; [exact H1 | exact H2].
Qed.
Lemma frame_tenant_context {A} ctx (m : M A) : frame m -> frame (tenant_context ctx m).
Proof.
  intros Hm. apply frame_bind; [intros w Hc; by split |]. intros token. apply frame_finally; [done |].
  intros w. split; [done |]. done.
Qed.
Lemma frame_get_tenant_session {A} s (m : M A) : frame m -> frame (get_tenant_session s m).
Proof.
  intros Hm. apply frame_bind; [apply still_frame, still_current_tenant |]. intros _. by apply frame_with_session.
Qed.
Lemma frame_delete_rows s t p : In t W -> frame (delete_rows s t p).
Proof.
  intros Ht. apply still_frame, still_bind; [apply still_guard |]. intros c. apply still_bind; [done |]. intros db.
  apply still_bind; [by apply still_write | done].
Qed.
End frame.

Lemma still_weaken {VK : Valkey} W W' {A} (m : M A) : (forall t, In t W -> In t W') -> still W m -> still W' m.
Proof.
  intros H Hm w. destruct (Hm w) as (H1 & H2 & H3 & H4). do 3 (split; [done |]). intros s d t Ht. apply H4. intros Hi. by apply Ht, H.
Qed.

Create HintDb frame.
#[export] Hint Resolve still_ret still_raise still_of_result still_now still_uuid4 still_draw still_random_bytes
  still_emit still_current_tenant still_scalar still_scalars still_add still_modify still_remove : frame.
#[export] Hint Extern 1 (In _ _) => (simpl; tauto) : frame.

(** Follow the code: sequence, branch, and look up each operation. *)
Ltac still_code :=
  repeat (cbn zeta beta; match goal with
  | |- still _ (bind _ _) => apply still_bind; [| intros ?]
  | |- still _ (for_each _ _) => apply still_for_each; intros ?
  | |- still _ (collect _ _) => apply still_collect
  | |- still ?W (scalar ?s ?t ?p) => exact (still_scalar W s t p)
  | |- still ?W (scalars ?s ?t ?p) => exact (still_scalars W s t p)
  | |- still ?W (add ?s ?t ?r) => simple refine (still_add W s t r _); solve [assumption | simpl; tauto]
  | |- still _ (modify _ _ _ _) => apply still_modify; solve [assumption | simpl; tauto]
  | |- still _ (remove _ _ _) => apply still_remove; solve [assumption | simpl; tauto]
  | |- still _ (match ?x with _ => _ end) => destruct x
  | |- still _ _ => solve [auto 2 with frame]
  end).
Ltac frame_code :=
  repeat (cbn zeta beta; match goal with
  | |- frame _ (bind _ _) => apply frame_bind; [| intros ?]
  | |- frame _ (commit _) => apply frame_commit
  | |- frame _ (with_session _ _) => apply frame_with_session
  | |- frame _ (get_tenant_session _ _) => apply frame_get_tenant_session
  | |- frame _ (tenant_context _ _) => apply frame_tenant_context
  | |- frame _ (catch _ _) => apply frame_catch; [| intros ?e ?k; destruct e; intros [= <-]]
  | |- frame _ (match ?x with _ => _ end) => destruct x
  | |- frame _ (delete_rows _ _ _) => apply frame_delete_rows; simpl; tauto
  | |- frame _ _ => solve [auto 2 with frame | apply still_frame; still_code]
  end).

(** ** The authentication service *)

Section service.
Context {P : Platform}.
Variable W : list table.

Lemma still_hash_password p : still W (hash_password p).
Proof. unfold hash_password. still_code. Qed.
Lemma still_credentials_or_new s u : In Credentials W -> still W (credentials_or_new s u).
Proof. intros H. unfold credentials_or_new, get_credentials. still_code. Qed.
Lemma still_set_password s u p : In Credentials W -> still W (set_password s u p).
Proof. intros H. pose proof (still_credentials_or_new s u H). pose proof (still_hash_password p). unfold set_password. still_code. Qed.
Lemma still_authenticate s e p : In Credentials W -> still W (authenticate s e p).
Proof.
  intros H. pose proof (still_hash_password p). unfold authenticate, get_user_by_email, get_credentials, verify_password. still_code.
Qed.
Lemma still_create_session s u : In Sessions W -> still W (create_session s u).
Proof. intros H. unfold create_session. still_code. Qed.
Lemma still_resolve_session s t : In Sessions W -> still W (resolve_session s t).
Proof. intros H. unfold resolve_session, get_user. still_code. Qed.
Lemma still_revoke_session s a : In Sessions W -> still W (revoke_session s a).
Proof. intros H. unfold revoke_session. still_code. Qed.
Lemma still_revoke_all_sessions s u : In Sessions W -> still W (revoke_all_sessions s u).
Proof. intros H. unfold revoke_all_sessions. still_code. Qed.
Lemma still_create_login_challenge s u : In LoginChallenges W -> still W (create_login_challenge s u).
Proof. intros H. unfold create_login_challenge. still_code. Qed.
Lemma still_consume_login_challenge s t : In LoginChallenges W -> still W (consume_login_challenge s t).
Proof. intros H. unfold consume_login_challenge. still_code. Qed.
Lemma still_verify_totp_code s c code : In Credentials W -> still W (_verify_totp_code s c code).
Proof. intros H. unfold _verify_totp_code. cbn [try_counters]. still_code. Qed.
Lemma still_setup_totp s u : In Credentials W -> still W (setup_totp s u).
Proof. intros H. pose proof (still_credentials_or_new s (us_id u) H). unfold setup_totp. still_code. Qed.
Lemma still_activate_totp s u c : In Credentials W -> In RecoveryCodes W -> still W (activate_totp s u c).
Proof.
  intros H1 H2. unfold activate_totp, get_credentials, token_hex, new_recovery_code. apply still_bind; [exact (still_scalar W s Credentials _) |].
  intros [cr|]; [| auto with frame]. pose proof (still_verify_totp_code s cr c H1). still_code.
Qed.
Lemma still_disable_totp s u p : In Credentials W -> In RecoveryCodes W -> still W (disable_totp s u p).
Proof. intros H1 H2. unfold disable_totp, get_credentials. still_code. Qed.
Lemma still_verify_second_factor s u c : In Credentials W -> In RecoveryCodes W -> still W (verify_second_factor s u c).
Proof.
  intros H1 H2. unfold verify_second_factor, get_credentials. apply still_bind; [exact (still_scalar W s Credentials _) |].
  intros [cr|]; [| auto with frame]. pose proof (still_verify_totp_code s cr c H1). still_code.
Qed.
Lemma still_record_audit_event s a rt ri p u l : In AuditEvents W -> still W (record_audit_event s a rt ri p u l).
Proof. intros H. unfold record_audit_event. still_code. Qed.
End service.

#[export] Hint Resolve still_hash_password still_set_password still_authenticate still_create_session
  still_resolve_session still_revoke_session still_revoke_all_sessions still_create_login_challenge
  still_consume_login_challenge still_setup_totp still_activate_totp still_disable_totp
  still_verify_second_factor still_record_audit_event : frame.
