(* ===== verification/Http.v ===== *)
(** Outgoing HTTP: what the code uses of httpx, the network being an interface.
    A request is recorded as an effect of the world; the answer is a function of
    the request, the instant and the number of effects so far. *)
From S2P Require Import Prelude PyStr Hashing Json Config Tokens Models World Orm AuthService Journal Frame.

Record HttpRequest := {
  hr_method : string; hr_url : string; hr_bearer : option string; hr_params : list (string * string);
  hr_data : list (string * string); hr_json : option json }.
Record HttpResponse := { hs_status : Z; hs_retry_after : option string; hs_body : string }.

(** A transport failure is named by the class of its [httpx.HTTPError].
    [query_string] is [str(httpx.QueryParams(...))]. *)
Class Httpx := {
  http_answer : HttpRequest -> Z -> nat -> string + HttpResponse;
  query_string : list (string * string) -> string
}.

Section http.
Context {VK : Valkey} {HX : Httpx}.

Definition http_send (rq : HttpRequest) : M HttpResponse := fun w =>
  let w' := set_out (w_out w ++ [HttpCalled (hr_method rq) (hr_url rq)]) w in
  match http_answer rq (w_now w) (length (w_out w)) with
  | inl kind => (Raise (HTTPError kind), w')
  | inr r => (Ok r, w')
  end.
Definition http_get (url : string) (bearer : option string) : M HttpResponse :=
  http_send {| hr_method := "GET"; hr_url := url; hr_bearer := bearer; hr_params := []; hr_data := []; hr_json := None |}.
Definition http_post (url : string) (data : list (string * string)) : M HttpResponse :=
  http_send {| hr_method := "POST"; hr_url := url; hr_bearer := None; hr_params := []; hr_data := data; hr_json := None |}.

(** [response.raise_for_status()] lets the 2xx through. *)
Definition raise_for_status (r : HttpResponse) : result unit :=
  if (200 <=? hs_status r) && (hs_status r <=? 299) then Ok tt else Raise (HTTPError "HTTPStatusError").
(** [response.json()] *)
Definition response_json (r : HttpResponse) : result json := loads (hs_body r).
End http.

(** [v.get(k)], [v[k]] on a decoded value, and a value used as an URL. *)
Definition json_get (v : json) (k : string) : result (option json) :=
  match v with JObj m => Ok (dict_get k m) | _ => Raise AttributeError end.
Definition json_item (v : json) (k : string) : result json :=
  match v with
  | JObj m => match dict_get k m with Some x => Ok x | None => Raise KeyError end
  | _ => Raise TypeError
  end.
Definition as_url (v : json) : result string := match v with JStr s => Ok s | _ => Raise TypeError end.
Definition as_str (v : option json) : option string := match v with Some (JStr s) => Some s | _ => None end.

(** [bool(v)]; a float is zero when its digits are. *)
Fixpoint mantissa_nonzero (lit : string) : bool :=
  match lit with
  | EmptyString => false
  | String c s => if char_eqb c "e" || char_eqb c "E" then false
                  else if in_range 49 57 c || is_lower_ascii c || is_upper_ascii c then true else mantissa_nonzero s
  end.
Definition truthy (v : json) : bool :=
  match v with
  | JNull => false
  | JBool b => b
  | JInt z => negb (z =? 0)
  | JFloat lit => mantissa_nonzero lit
  | JStr s => negb (str_eqb s "")
  | JList l => match l with [] => false | _ => true end
  | JObj m => match m with [] => false | _ => true end
  end.

Section frames.
Context {VK : Valkey} {HX : Httpx}.
Variable W : list table.

Lemma still_http_send rq : still W (http_send rq).
Proof. apply still_pure. intros w. unfold http_send. by destruct (http_answer _ _ _). Qed.
Lemma still_http_get url b : still W (http_get url b).
Proof. apply still_http_send. Qed.
Lemma still_http_post url d : still W (http_post url d).
Proof. apply still_http_send. Qed.
End frames.
#[export] Hint Resolve still_http_send still_http_get still_http_post : frame.
