(* ===== verification/Directory.v ===== *)
(** [app/directory/service.py]: invitations, members, and the rules on owners. *)
From S2P Require Import Prelude PyStr Hashing Base64 Json Config Tokens Models Permissions World Orm AuthService Journal Frame Sample.

(** [ORDER BY]: a stable insertion sort. *)
Fixpoint insert_by {A} (le : A -> A -> bool) (a : A) (l : list A) : list A :=
  match l with
  | [] => [a]
  | b :: l' => if le a b then a :: l else b :: insert_by le a l'
  end.
Definition order_by {A} (le : A -> A -> bool) (l : list A) : list A := fold_right (insert_by le) [] l.

Definition with_role (role : string) (m : Membership) : Membership := {|
  mb_id := mb_id m; mb_user_id := mb_user_id m; mb_tenant_id := mb_tenant_id m; mb_role := role;
  mb_created_at := mb_created_at m |}.
Definition with_accepted (t : Z) (i : Invitation) : Invitation := {|
  iv_id := iv_id i; iv_email := iv_email i; iv_tenant_id := iv_tenant_id i; iv_role := iv_role i;
  iv_token_hash := iv_token_hash i; iv_expires_at := iv_expires_at i; iv_accepted_at := Some t;
  iv_invited_by_user_id := iv_invited_by_user_id i; iv_created_at := iv_created_at i |}.
Definition with_display_name (n : option string) (u : User) : User := {|
  us_id := us_id u; us_email := us_email u; us_display_name := n; us_created_at := us_created_at u |}.

Section directory.
Context {P : Platform}.

Definition accept_url_for (token : string) : string :=
  public_base_url +:+ "/accept-invitation?token=" +:+ token.

Definition is_owner_of (tenant_id : N) (m : Membership) : bool :=
  (mb_tenant_id m =? tenant_id)%N && str_eqb (mb_role m) ROLE_OWNER.

Definition _count_owners (s : sess) (tenant_id : N) : M Z :=
  let* owners := scalars s Memberships (is_owner_of tenant_id) in
  ret (Z.of_nat (length owners)).

Definition get_membership (s : sess) (tenant_id user_id : N) : M (option Membership) :=
  scalar s Memberships (fun m => (mb_user_id m =? user_id)%N && (mb_tenant_id m =? tenant_id)%N).

Definition create_invitation (s : sess) (tenant_id : N) (email role : string)
    (actor_role : option string) (invited_by_user_id : option N) : M (Invitation * string) :=
  let* _ := of_result (validate_role role) in
  raise_when (str_eqb role ROLE_OWNER &&
              match actor_role with Some a => negb (str_eqb a ROLE_OWNER) | None => false end)
    (DirectoryError "Seul un owner peut inviter un owner.") in
  let* existing_user := get_user_by_email s email in
  let* membership := match existing_user with
                     | Some u => get_membership s tenant_id (us_id u)
                     | None => ret None
                     end in
  raise_when (is_some membership) (DirectoryError "Cet email est déjà membre du tenant.") in
  let* t := now in
  let* pending := scalar s Invitations (fun i =>
    str_eqb (lower (iv_email i)) (lower email) && (iv_tenant_id i =? tenant_id)%N &&
    is_none (iv_accepted_at i) && (t <? iv_expires_at i)) in
  raise_when (is_some pending)
    (DirectoryError "Une invitation est déjà en cours pour cet email — révoquez-la d'abord.") in
  let* random := random_bytes TOKEN_BYTES in
  let token := generate_token random in
  let* id := uuid4 in
  let* invitation := add s Invitations {|
    iv_id := id; iv_email := email; iv_tenant_id := tenant_id; iv_role := role;
    iv_token_hash := hash_token token; iv_expires_at := t + invitation_ttl_hours * hour;
    iv_accepted_at := None; iv_invited_by_user_id := invited_by_user_id; iv_created_at := t |} in
  ret (invitation, token).

Definition list_pending_invitations (s : sess) (tenant_id : N) : M (list Invitation) :=
  let* rows := scalars s Invitations (fun i => (iv_tenant_id i =? tenant_id)%N && is_none (iv_accepted_at i)) in
  ret (order_by (fun a b => iv_created_at b <=? iv_created_at a) rows).

Definition revoke_invitation (s : sess) (tenant_id invitation_id : N) : M Invitation :=
  let* invitation := scalar s Invitations (fun i => (iv_id i =? invitation_id)%N) in
  match invitation with
  | None => raise (DirectoryError "Invitation introuvable.")
  | Some i =>
      raise_when (negb (iv_tenant_id i =? tenant_id)%N) (DirectoryError "Invitation introuvable.") in
      raise_when (is_some (iv_accepted_at i))
        (DirectoryError "Invitation déjà acceptée — retirez plutôt le membre.") in
      let* _ := remove s Invitations i in
      ret i
  end.

(** The user an invitation is for: created, or the existing account of that email. *)
Definition invited_user (s : sess) (invitation : Invitation) (password display_name : option string) : M User :=
  let* user := get_user_by_email s (iv_email invitation) in
  match user with
  | None =>
      let* id := uuid4 in
      let* t := now in
      let* user := add s Users {|
        us_id := id; us_email := iv_email invitation; us_display_name := display_name; us_created_at := t |} in
      let* _ := match password with Some p => set_password s (us_id user) p | None => ret tt end in
      ret user
  | Some user =>
      let* user := (if is_some display_name && is_none (us_display_name user) then
                      let* _ := modify s Users user (with_display_name display_name) in
                      ret (with_display_name display_name user)
                    else ret user) in
      raise_when (is_some password) (DirectoryError "Ce compte existe déjà — connectez-vous avec ses identifiants.") in
      ret user
  end.

Definition accept_invitation (s : sess) (token : string) (password display_name : option string) :
    M (User * Invitation) :=
  let* invitation := scalar s Invitations (fun i => str_eqb (iv_token_hash i) (hash_token token)) in
  let* t := now in
  match invitation with
  | None => raise (DirectoryError "Invitation invalide ou expirée.")
  | Some i =>
      raise_when (is_some (iv_accepted_at i) || (iv_expires_at i <? t))
        (DirectoryError "Invitation invalide ou expirée.") in
      let* user := invited_user s i password display_name in
      let* membership := get_membership s (iv_tenant_id i) (us_id user) in
      raise_when (is_some membership) (DirectoryError "Déjà membre de ce tenant.") in
      let* id := uuid4 in
      let* _ := add s Memberships {|
        mb_id := id; mb_user_id := us_id user; mb_tenant_id := iv_tenant_id i; mb_role := iv_role i;
        mb_created_at := t |} in
      let* _ := modify s Invitations i (with_accepted t) in
      ret (user, with_accepted t i)
  end.

(** [JOIN ... ON Membership.user_id = User.id] *)
Definition join_members (users : list User) (memberships : list Membership) : list (User * Membership) :=
  flat_map (fun u => List.map (fun m => (u, m)) (List.filter (fun m => (mb_user_id m =? us_id u)%N) memberships)) users.

Definition list_members (s : sess) (tenant_id : N) : M (list (User * Membership)) :=
  let* users := scalars s Users (fun _ => true) in
  let* memberships := scalars s Memberships (fun m => (mb_tenant_id m =? tenant_id)%N) in
  ret (order_by (fun a b => String.leb (lower (us_email a.1)) (lower (us_email b.1))) (join_members users memberships)).

Definition change_member_role (s : sess) (tenant_id user_id : N) (new_role actor_role : string) : M Membership :=
  let* _ := of_result (validate_role new_role) in
  let* membership := get_membership s tenant_id user_id in
  match membership with
  | None => raise (DirectoryError "Membre introuvable.")
  | Some m =>
      raise_when (str_in ROLE_OWNER [new_role; mb_role m] && negb (str_eqb actor_role ROLE_OWNER))
        (DirectoryError "Seul un owner peut promouvoir ou rétrograder un owner.") in
      let* last := (if str_eqb (mb_role m) ROLE_OWNER && negb (str_eqb new_role ROLE_OWNER) then
                      let* n := _count_owners s tenant_id in ret (n <=? 1)
                    else ret false) in
      raise_when last (DirectoryError "Impossible de rétrograder le dernier owner du tenant.") in
      let* _ := modify s Memberships m (with_role new_role) in
      ret (with_role new_role m)
  end.

Definition remove_member (s : sess) (tenant_id user_id : N) (actor_role : string) : M unit :=
  let* membership := get_membership s tenant_id user_id in
  match membership with
  | None => raise (DirectoryError "Membre introuvable.")
  | Some m =>
      if str_eqb (mb_role m) ROLE_OWNER then
        raise_when (negb (str_eqb actor_role ROLE_OWNER)) (DirectoryError "Seul un owner peut retirer un owner.") in
        let* n := _count_owners s tenant_id in
        raise_when (n <=? 1) (DirectoryError "Impossible de retirer le dernier owner du tenant.") in
        remove s Memberships m
      else remove s Memberships m
  end.
End directory.

(** ** Owners *)

Definition owners (l : list Membership) (tid : N) : list Membership := rows_where (is_owner_of tid) l.

(** The unique constraints of the table: one row per id, one per user and tenant. *)
Definition membership_key (m : Membership) : N * N := (mb_user_id m, mb_tenant_id m).
Definition memberships_wf (l : list Membership) : Prop := unique_by mb_id l /\ unique_by membership_key l.

Lemma membership_same_row a b : same_row Memberships a b = true <-> mb_id a = mb_id b.
Proof. apply N.eqb_eq. Qed.

(** Splitting a table at a row. *)
Lemma update_at {A} (k : A -> N) (same : A -> A -> bool) (f : A -> A) (l1 l2 : list A) x :
  (forall a b, same a b = true <-> k a = k b) -> unique_by k (l1 ++ x :: l2) ->
  update_where (same x) f (l1 ++ x :: l2) = l1 ++ f x :: l2.
Proof.
  intros Hs Hu. unfold unique_by in Hu. rewrite List.map_app in Hu. simpl in Hu.
  pose proof (List.NoDup_remove_2 _ _ _ Hu) as Hni.
  assert (Hn : forall y, In y (l1 ++ l2) -> same x y = false).
  { intros y Hy. apply not_true_iff_false. intros E%Hs. apply Hni. rewrite E, <- List.map_app. by apply List.in_map. }
  rewrite update_where_app. unfold update_where at 2. simpl. rewrite (proj2 (Hs x x) eq_refl). fold (update_where (same x) f l2).
  rewrite !update_where_none; [done | |]; intros y Hy; apply Hn, List.in_or_app; auto.
Qed.

Lemma delete_at {A} (k : A -> N) (same : A -> A -> bool) (l1 l2 : list A) x :
  (forall a b, same a b = true <-> k a = k b) -> unique_by k (l1 ++ x :: l2) ->
  delete_where (same x) (l1 ++ x :: l2) = l1 ++ l2.
Proof.
  intros Hs Hu. unfold unique_by in Hu. rewrite List.map_app in Hu. simpl in Hu.
  pose proof (List.NoDup_remove_2 _ _ _ Hu) as Hni.
  assert (Hn : forall y, In y (l1 ++ l2) -> negb (same x y) = true).
  { intros y Hy. apply negb_true_iff, not_true_iff_false. intros E%Hs. apply Hni. rewrite E, <- List.map_app. by apply List.in_map. }
  unfold delete_where. rewrite List.filter_app. simpl. rewrite (proj2 (Hs x x) eq_refl). simpl.
  rewrite !List.forallb_filter_id; [done | |]; apply List.forallb_forall; intros y Hy; apply Hn, List.in_or_app; auto.
Qed.

Lemma owners_length_update tid l m role : memberships_wf l -> In m l ->
  (length (owners (update_where (same_row Memberships m) (with_role role) l) tid) + (if is_owner_of tid m then 1 else 0) =
   length (owners l tid) + (if is_owner_of tid (with_role role m) then 1 else 0))%nat.
Proof.
  intros [Hu _] (l1 & l2 & ->)%List.in_split. rewrite (update_at mb_id _ _ _ _ _ membership_same_row Hu).
  unfold owners. rewrite !rows_where_app, !List.length_app. unfold rows_where at 2 4. simpl.
  destruct (is_owner_of tid m), (is_owner_of tid (with_role role m)); simpl; unfold rows_where; lia.
Qed.

Lemma owners_length_delete tid l m : memberships_wf l -> In m l ->
  (length (owners (delete_where (same_row Memberships m) l) tid) + (if is_owner_of tid m then 1 else 0) =
   length (owners l tid))%nat.
Proof.
  intros [Hu _] (l1 & l2 & ->)%List.in_split. cbn [row]. rewrite (delete_at (A := Membership) mb_id _ _ _ _ membership_same_row Hu).
  unfold owners. rewrite !rows_where_app, !List.length_app. unfold rows_where at 4. simpl.
  destruct (is_owner_of tid m); simpl; unfold rows_where; lia.
Qed.

Lemma memberships_wf_update p role l : memberships_wf l -> memberships_wf (update_where p (with_role role) l).
Proof. intros []. split; by apply unique_by_update. Qed.
Lemma memberships_wf_delete p l : memberships_wf l -> memberships_wf (delete_where p l).
Proof. intros []. split; by apply unique_by_filter. Qed.
Lemma memberships_wf_add m l : memberships_wf l -> existsb (conflicts Memberships m) l = false -> memberships_wf (l ++ [m]).
Proof.
  intros [H1 H2] Hc. rewrite <- not_true_iff_false, existsb_exists in Hc.
  split; apply unique_by_snoc; try done; intros (x & E & Hx)%List.in_map_iff; apply Hc; exists x; (split; [done |]); simpl.
  - by rewrite E, N.eqb_refl.
  - injection E as E1 E2. by rewrite E1, E2, !N.eqb_refl, orb_true_r.
Qed.

(** ** Which tables the operations write *)

Section frames.
Context {P : Platform}.
Variable W : list table.

Lemma still_get_membership s t u : still W (get_membership s t u).
Proof. exact (still_scalar W s Memberships _). Qed.
Lemma still_get_user_by_email s e : still W (get_user_by_email s e).
Proof. exact (still_scalar W s Users _). Qed.
Lemma still_invited_user s i p d : In Users W -> In Credentials W -> still W (invited_user s i p d).
Proof.
  intros H1 H2. unfold invited_user. pose proof (still_get_user_by_email s (iv_email i)).
  pose proof (fun u p => still_set_password W s u p H2). still_code.
Qed.
Lemma still_create_invitation s t e r a b : In Invitations W -> still W (create_invitation s t e r a b).
Proof.
  intros H. unfold create_invitation. pose proof (still_get_user_by_email s e).
  pose proof (fun u => still_get_membership s t u). still_code.
Qed.
Lemma still_revoke_invitation s t i : In Invitations W -> still W (revoke_invitation s t i).
Proof. intros H. unfold revoke_invitation. still_code. Qed.
Lemma still_list_pending_invitations s t : still W (list_pending_invitations s t).
Proof. unfold list_pending_invitations. still_code. Qed.
Lemma still_list_members s t : still W (list_members s t).
Proof. unfold list_members. still_code. Qed.
End frames.
#[export] Hint Resolve still_get_membership still_get_user_by_email still_invited_user still_create_invitation
  still_revoke_invitation still_list_pending_invitations still_list_members : frame.

(** ** Properties *)

Section properties.
Context {P : Platform}.
Implicit Types (w : World) (s : sess).

Definition membership_of (w : World) (s : sess) (tid uid : N) : option Membership :=
  first_where (fun m => (mb_user_id m =? uid)%N && (mb_tenant_id m =? tid)%N) (sees w s Memberships).

Lemma validate_role_run role :
  (validate_role role = Ok role /\ In role ROLES) \/ (exists e, validate_role role = Raise (ValueError e) /\ ~ In role ROLES).
Proof.
  unfold validate_role, str_in. pose proof (list_elem_of_In ROLES role) as Hin. destruct (decide (role ∈ ROLES)) as [H|H].
  - left. rewrite bool_decide_eq_true_2 by done. split; [done | tauto].
  - right. rewrite bool_decide_eq_false_2 by done. eexists. split; [done | tauto].
Qed.

(** What the rules demand for a change of role, and for a removal. *)
Definition may_change (l : list Membership) (tid : N) (m : Membership) (new_role actor_role : string) : Prop :=
  (new_role = ROLE_OWNER \/ mb_role m = ROLE_OWNER -> actor_role = ROLE_OWNER) /\
  (mb_role m = ROLE_OWNER -> new_role <> ROLE_OWNER -> (1 < length (owners l tid))%nat).
Definition may_remove (l : list Membership) (tid : N) (m : Membership) (actor_role : string) : Prop :=
  mb_role m = ROLE_OWNER -> actor_role = ROLE_OWNER /\ (1 < length (owners l tid))%nat.

Lemma change_member_role_run s tid uid new_role actor_role w :
  let '(r, w') := change_member_role s tid uid new_role actor_role w in
  match membership_of w s tid uid with
  | None => w' = w /\ exists e, r = Raise e
  | Some m =>
      (In new_role ROLES /\ may_change (sees w s Memberships) tid m new_role actor_role /\
       r = Ok (with_role new_role m) /\
       w' = wrote s (upd Memberships (update_where (same_row Memberships m) (with_role new_role))) w) \/
      (~ (In new_role ROLES /\ may_change (sees w s Memberships) tid m new_role actor_role) /\
       w' = w /\ exists e, r = Raise e)
  end.
Proof.
  unfold change_member_role, get_membership, _count_owners, membership_of, may_change.
  destruct (validate_role_run new_role) as [[-> Hr] | (e & -> & Hr)]; run.
  2: { case_query as [m|] Em; [right; split; [tauto | by split; [| eexists]] | by split; [| eexists]]. }
  case_query as [m|] Em; [| by split; [| eexists]].
  unfold str_in at 1. destruct (bool_decide (ROLE_OWNER ∈ [new_role; mb_role m])) eqn:Eo; bool_hyps;
    rewrite !elem_of_cons, !elem_of_nil in *; destruct (str_eqb actor_role ROLE_OWNER) eqn:Ea; bool_hyps; simpl.
  2: { right. split; [| by split; [| eexists]]. intros (_ & Hx & _). apply Ea, Hx. naive_solver. }
  all: destruct (str_eqb (mb_role m) ROLE_OWNER) eqn:Em'; bool_hyps;
    destruct (str_eqb new_role ROLE_OWNER) eqn:En; bool_hyps; simpl; run.
  all: try (left; split; [done |]; split; [split; [naive_solver | naive_solver] | done]).
  - fold (owners (sees w s Memberships) tid).
    destruct (Z.leb_spec (Z.of_nat (length (owners (sees w s Memberships) tid))) 1).
    + right. split; [| by split; [| eexists]]. intros (_ & _ & Hx). specialize (Hx Em' En). lia.
    + run. left. split; [done |]. split; [split; [naive_solver | intros _ _; lia] | done].
  - exfalso. naive_solver.
  - exfalso. naive_solver.
Qed.

Lemma remove_member_run s tid uid actor_role w :
  let '(r, w') := remove_member s tid uid actor_role w in
  match membership_of w s tid uid with
  | None => w' = w /\ exists e, r = Raise e
  | Some m =>
      (may_remove (sees w s Memberships) tid m actor_role /\ r = Ok tt /\
       w' = wrote s (upd Memberships (delete_where (same_row Memberships m))) w) \/
      (~ may_remove (sees w s Memberships) tid m actor_role /\ w' = w /\ exists e, r = Raise e)
  end.
Proof.
  unfold remove_member, get_membership, _count_owners, membership_of, may_remove. run.
  case_query as [m|] Em; [| by split; [| eexists]].
  destruct (str_eqb (mb_role m) ROLE_OWNER) eqn:Eo; bool_hyps; [| rewrite remove_unscoped by done; left; tauto].
  destruct (str_eqb actor_role ROLE_OWNER) eqn:Ea; bool_hyps; simpl;
    [| right; split; [tauto | by split; [| eexists]]].
  run. fold (owners (sees w s Memberships) tid).
  destruct (Z.leb_spec (Z.of_nat (length (owners (sees w s Memberships) tid))) 1).
  - right. split; [| by split; [| eexists]]. intros Hx. specialize (Hx Eo). lia.
  - rewrite remove_unscoped by done. left. split; [| done]. intros _. split; [done | lia].
Qed.

Lemma membership_of_Some w s tid uid m : membership_of w s tid uid = Some m ->
  In m (sees w s Memberships) /\ mb_user_id m = uid /\ mb_tenant_id m = tid.
Proof. unfold membership_of. intros [H1 H2]%first_where_Some. by bool_hyps. Qed.

Lemma same_membership l m x : memberships_wf l -> In m l -> In x l -> same_row Memberships m x = true -> x = m.
Proof. intros [Hu _] Hm Hx E%membership_same_row. by apply (unique_by_eq mb_id l). Qed.

Lemma is_owner_of_with_role tid m role : is_owner_of tid (with_role role m) = (mb_tenant_id m =? tid)%N && str_eqb role ROLE_OWNER.
Proof. done. Qed.

(** An owner operation: giving a role, or removing. *)
Definition member_op (s : sess) (tid uid : N) (new_role : option string) (actor_role : string) : M unit :=
  match new_role with
  | Some role => let* _ := change_member_role s tid uid role actor_role in ret tt
  | None => remove_member s tid uid actor_role
  end.

Lemma member_op_run s tid uid new_role actor_role w :
  (member_op s tid uid new_role actor_role w).2 = w \/
  exists m, membership_of w s tid uid = Some m /\
    match new_role with
    | Some role => may_change (sees w s Memberships) tid m role actor_role /\
        (member_op s tid uid new_role actor_role w).2 =
          wrote s (upd Memberships (update_where (same_row Memberships m) (with_role role))) w
    | None => may_remove (sees w s Memberships) tid m actor_role /\
        (member_op s tid uid new_role actor_role w).2 =
          wrote s (upd Memberships (delete_where (same_row Memberships m))) w
    end.
Proof.
  unfold member_op. destruct new_role as [role|].
  - pose proof (change_member_role_run s tid uid role actor_role w) as H. unfold bind.
    destruct (change_member_role s tid uid role actor_role w) as [r w'].
    destruct (membership_of w s tid uid) as [m|]; [| destruct H as [-> [e ->]]; by left].
    destruct H as [(_ & Hm & -> & ->) | (_ & -> & e & ->)]; [right; by exists m | by left].
  - pose proof (remove_member_run s tid uid actor_role w) as H.
    destruct (remove_member s tid uid actor_role w) as [r w'].
    destruct (membership_of w s tid uid) as [m|]; [| destruct H as [-> _]; by left].
    destruct H as [(Hm & _ & ->) | (_ & -> & _)]; [right; by exists m | by left].
Qed.

(** The two writes keep what the rules protect. *)
Lemma write_change l tid m role actor_role : memberships_wf l -> In m l -> mb_tenant_id m = tid ->
  may_change l tid m role actor_role ->
  let l' := update_where (same_row Memberships m) (with_role role) l in
  memberships_wf l' /\ (forall t, (1 <= length (owners l t))%nat -> (1 <= length (owners l' t))%nat) /\
  (actor_role <> ROLE_OWNER -> forall t, owners l' t = owners l t) /\
  (forall t, t <> tid -> rows_where (fun x => (mb_tenant_id x =? t)%N) l' = rows_where (fun x => (mb_tenant_id x =? t)%N) l).
Proof.
  intros Hwf Hm Ht [Hr1 Hr2] l'. split; [by apply memberships_wf_update |]. split; [| split].
  - intros t Hl. pose proof (owners_length_update t l m role Hwf Hm) as Hc. fold l' in Hc. unfold owners in *.
    rewrite is_owner_of_with_role in Hc. unfold is_owner_of at 2 in Hc. rewrite Ht in Hc.
    destruct (tid =? t)%N eqn:E; simpl in Hc; [| lia]. bool_hyps. subst t.
    destruct (str_eqb (mb_role m) ROLE_OWNER) eqn:Eo, (str_eqb role ROLE_OWNER) eqn:En; bool_hyps; try lia.
    specialize (Hr2 Eo En). unfold owners in Hr2. lia.
  - intros Ha t. apply rows_where_update_out. intros x Hx E. rewrite (same_membership l m x) by done.
    rewrite is_owner_of_with_role. unfold is_owner_of.
    destruct (str_eqb (mb_role m) ROLE_OWNER) eqn:Eo; bool_hyps; [exfalso; apply Ha, Hr1; by right |].
    destruct (str_eqb role ROLE_OWNER) eqn:En; bool_hyps; [exfalso; apply Ha, Hr1; by left |].
    by rewrite !andb_false_r.
  - intros t Hne. apply rows_where_update_out. intros x Hx E. rewrite (same_membership l m x) by done. simpl.
    rewrite Ht. split; by apply N.eqb_neq.
Qed.

Lemma write_remove l tid m actor_role : memberships_wf l -> In m l -> mb_tenant_id m = tid ->
  may_remove l tid m actor_role ->
  let l' := delete_where (same_row Memberships m) l in
  memberships_wf l' /\ (forall t, (1 <= length (owners l t))%nat -> (1 <= length (owners l' t))%nat) /\
  (actor_role <> ROLE_OWNER -> forall t, owners l' t = owners l t) /\
  (forall t, t <> tid -> rows_where (fun x => (mb_tenant_id x =? t)%N) l' = rows_where (fun x => (mb_tenant_id x =? t)%N) l).
Proof.
  intros Hwf Hm Ht Hr l'. split; [by apply memberships_wf_delete |].
  assert (Hdel : forall q, q m = false -> rows_where q l' = rows_where q l).
  { intros q Hq. apply rows_where_delete_disjoint. intros x Hx Hqx. apply not_true_iff_false. intros E.
    rewrite (same_membership l m x Hwf Hm Hx E) in Hqx. congruence. }
  split; [| split].
  - intros t Hl. pose proof (owners_length_delete t l m Hwf Hm) as Hc. fold l' in Hc.
    unfold is_owner_of at 1 in Hc. rewrite Ht in Hc.
    destruct (tid =? t)%N eqn:E; simpl in Hc; [| lia]. bool_hyps. subst t.
    destruct (str_eqb (mb_role m) ROLE_OWNER) eqn:Eo; bool_hyps; [| lia]. destruct (Hr Eo) as [_ Hn]. lia.
  - intros Ha t. apply Hdel. unfold is_owner_of. destruct (str_eqb (mb_role m) ROLE_OWNER) eqn:Eo; bool_hyps;
      [exfalso; by apply Ha, Hr |]. by rewrite andb_false_r.
  - intros t Hne. apply Hdel. rewrite Ht. by apply N.eqb_neq.
Qed.

(** The rules on owners, whatever the actor, the target and the new role and
    whether or not the operation is refused: a tenant that has an owner keeps
    one; an actor who is not owner changes nothing about who the owners of any
    tenant are; no row of another tenant changes; one membership per user and
    tenant stays true. *)
Theorem owner_rules s tid uid new_role actor_role w : memberships_wf (sees w s Memberships) ->
  let l := sees w s Memberships in
  let l' := sees (member_op s tid uid new_role actor_role w).2 s Memberships in
  memberships_wf l' /\
  (forall t, (1 <= length (owners l t))%nat -> (1 <= length (owners l' t))%nat) /\
  (actor_role <> ROLE_OWNER -> forall t, owners l' t = owners l t) /\
  (forall t, t <> tid -> rows_where (fun x => (mb_tenant_id x =? t)%N) l' = rows_where (fun x => (mb_tenant_id x =? t)%N) l).
Proof.
  intros Hwf l l'. unfold l'. destruct (member_op_run s tid uid new_role actor_role w) as [-> | (m & Hm & H)]; [done |].
  apply membership_of_Some in Hm as (Hin & _ & Ht).
  destruct new_role as [role|]; destruct H as [Hr ->]; rewrite sees_wrote, upd_eq;
    [by apply (write_change l tid m role actor_role) | by apply (write_remove l tid m actor_role)].
Qed.

Lemma membership_found w s l m tid : sees w s Memberships = l -> memberships_wf l -> In m l ->
  mb_tenant_id m = tid -> membership_of w s tid (mb_user_id m) = Some m.
Proof.
  intros Hs Hwf Hm Ht. unfold membership_of. rewrite Hs.
  apply (first_where_unique membership_key); try apply Hwf; try done.
  - by rewrite N.eqb_refl, Ht, N.eqb_refl.
  - intros y Hy. bool_hyps. unfold membership_key. congruence.
Qed.

(** An owner demoting a fellow owner: allowed while the view shows two. *)
Lemma demotion_runs w s l m tid : sees w s Memberships = l -> memberships_wf l -> In m l ->
  mb_tenant_id m = tid -> (1 < length (owners l tid))%nat ->
  change_member_role s tid (mb_user_id m) ROLE_MEMBER ROLE_OWNER w =
    (Ok (with_role ROLE_MEMBER m),
     wrote s (upd Memberships (update_where (same_row Memberships m) (with_role ROLE_MEMBER))) w).
Proof.
  intros Hs Hwf Hm Ht Hn. pose proof (change_member_role_run s tid (mb_user_id m) ROLE_MEMBER ROLE_OWNER w) as H.
  destruct (change_member_role _ _ _ _ _ w) as [r w'].
  rewrite (membership_found w s l m tid), Hs in H by done.
  destruct H as [(_ & _ & -> & ->) | (Hno & _)]; [done |]. exfalso. apply Hno. split; [by left | by split].
Qed.

Lemma two_owners l tid m1 m2 : memberships_wf l -> owners l tid = [m1; m2] ->
  In m1 l /\ In m2 l /\ mb_tenant_id m1 = tid /\ mb_tenant_id m2 = tid /\
  is_owner_of tid m1 = true /\ is_owner_of tid m2 = true /\ same_row Memberships m1 m2 = false.
Proof.
  intros Hwf Ho.
  assert (Hin : forall m, In m [m1; m2] -> In m l /\ mb_tenant_id m = tid /\ is_owner_of tid m = true).
  { intros m Hm. rewrite <- Ho in Hm. apply in_rows_where in Hm as [H1 H2]. split; [done |]. split; [| done].
    unfold is_owner_of in H2. by bool_hyps. }
  destruct (Hin m1 ltac:(by left)) as (H1 & T1 & R1). destruct (Hin m2 ltac:(right; by left)) as (H2 & T2 & R2).
  do 6 (split; [done |]). apply not_true_iff_false. intros E. apply (same_membership l) in E as ->; [| done..].
  assert (Hnd : unique_by mb_id (owners l tid)) by (apply unique_by_filter, Hwf).
  rewrite Ho in Hnd. unfold unique_by in Hnd. simpl in Hnd. inversion Hnd as [|? ? Hni]. apply Hni. by left.
Qed.

(** The rule of the last owner is checked against the session's own view, so
    it does not survive two concurrent requests: when the two owners of a tenant
    demote each other, each transaction still sees the other owner, both
    succeed, and after both commits the tenant has no owner. *)
Theorem concurrent_demotions_leave_no_owner w tid m1 m2 :
  (forall s, w_pend w s = id) -> memberships_wf (w_db w Memberships) ->
  owners (w_db w Memberships) tid = [m1; m2] ->
  let '(r1, w1) := change_member_role (Own 1) tid (mb_user_id m1) ROLE_MEMBER ROLE_OWNER w in
  let '(r2, w2) := change_member_role (Own 2) tid (mb_user_id m2) ROLE_MEMBER ROLE_OWNER w1 in
  let w3 := (commit (Own 2) (commit (Own 1) w2).2).2 in
  r1 = Ok (with_role ROLE_MEMBER m1) /\ r2 = Ok (with_role ROLE_MEMBER m2) /\
  owners (w_db w3 Memberships) tid = [].
Proof.
  intros Hp Hwf Ho. set (l := w_db w Memberships) in *.
  destruct (two_owners l tid m1 m2 Hwf Ho) as (H1 & H2 & T1 & T2 & O1 & O2 & Hne).
  assert (Hs1 : forall s, sees w s Memberships = l) by (intros s; unfold sees; by rewrite Hp).
  assert (Hn : (1 < length (owners l tid))%nat) by (rewrite Ho; simpl; lia).
  rewrite (demotion_runs w (Own 1) l m1 tid) by done.
  rewrite (demotion_runs _ (Own 2) l m2 tid) by (done || by rewrite sees_wrote_ne).
  split; [done |]. split; [done |]. simpl. unfold sees. simpl. rewrite !Hp, !upd_eq. fold l. unfold id.
  pose (l1 := update_where (same_row Memberships m1) (with_role ROLE_MEMBER) l).
  change (owners (update_where (same_row Memberships m2) (with_role ROLE_MEMBER) l1) tid = []).
  pose proof (owners_length_update tid l m1 ROLE_MEMBER Hwf H1) as C1. fold l1 in C1.
  assert (Hwf1 : memberships_wf l1) by by apply memberships_wf_update.
  assert (Hin2 : In m2 l1) by (apply in_update_where; exists m2; by rewrite Hne).
  pose proof (owners_length_update tid l1 m2 ROLE_MEMBER Hwf1 Hin2) as C2.
  rewrite Ho, O1, is_owner_of_with_role, andb_false_r in C1. rewrite O2, is_owner_of_with_role, andb_false_r in C2.
  cbn [length] in C1.
  apply List.length_zero_iff_nil. lia.
Qed.
End properties.

Section invitations.
Context {P : Platform}.
Implicit Types (w : World) (s : sess).

Definition invalid_invitation : exn := DirectoryError "Invitation invalide ou expirée.".

Lemma invited_user_email s i pw dn w u w' : invited_user s i pw dn w = (Ok u, w') ->
  lower (us_email u) = lower (iv_email i).
Proof.
  unfold invited_user, get_user_by_email. run. case_query as [u0|] Eu.
  - apply first_where_Some in Eu as [_ Hl]. bool_hyps.
    destruct (is_some dn && is_none (us_display_name u0)); run; destruct (is_some pw); by intros [= <- _].
  - run. destruct (existsb _ _); [done |]. destruct pw as [p|].
    + unfold bind. destruct (set_password _ _ _ _) as [[[]|] ?]; [| done]. by intros [= <- _].
    + run. by intros [= <- _].
Qed.

Lemma create_invitation_run s tid email role ar inv w i tok w1 :
  create_invitation s tid email role ar inv w = (Ok (i, tok), w1) ->
  In role ROLES /\ (role = ROLE_OWNER -> ar = None \/ ar = Some ROLE_OWNER) /\
  iv_email i = email /\ iv_tenant_id i = tid /\ iv_role i = role /\ iv_token_hash i = hash_token tok /\
  iv_expires_at i = w_now w + invitation_ttl_hours * hour /\ iv_accepted_at i = None /\
  existsb (conflicts Invitations i) (sees w s Invitations) = false /\
  w1 = wrote s (upd Invitations (fun l => l ++ [i])) (set_drawn (S (S (w_drawn w))) w).
Proof.
  unfold create_invitation, get_user_by_email, get_membership.
  destruct (validate_role_run role) as [[-> Hr] | (e & -> & _)]; [| done]. run.
  destruct (str_eqb role ROLE_OWNER && _) eqn:Eo; [done |]. run.
  case_query as [u|] Eu; run.
  1: case_if as Em; [done |].
  all: run; cbn [is_some]; run; case_if as Ep; [done |]; run;
    case_if as Ec; [done |]; run; intros [= <- <- <-];
    (split; [done |]; split; [| repeat (split; [reflexivity |]); split; [exact Ec | reflexivity]]);
    intros ->; destruct ar as [a|]; [right | by left]; rewrite str_eqb_refl in Eo; simpl in Eo; bool_hyps; by rewrite Eo.
Qed.

Lemma accept_refused s tok pw dn w i : first_where (fun i => str_eqb (iv_token_hash i) (hash_token tok)) (sees w s Invitations) = Some i ->
  (iv_accepted_at i <> None \/ iv_expires_at i < w_now w) -> accept_invitation s tok pw dn w = (Raise invalid_invitation, w).
Proof.
  intros Hf Hi. unfold accept_invitation. run. rewrite Hf. run.
  replace (is_some (iv_accepted_at i) || (iv_expires_at i <? w_now w)) with true; [done |]. symmetry.
  destruct (iv_accepted_at i); [done |]. destruct Hi as [|Hi]; [done |]. by apply Z.ltb_lt in Hi as ->.
Qed.

Lemma accept_run s tok pw dn w i r w' :
  first_where (fun i => str_eqb (iv_token_hash i) (hash_token tok)) (sees w s Invitations) = Some i ->
  iv_accepted_at i = None -> w_now w <= iv_expires_at i -> accept_invitation s tok pw dn w = (r, w') ->
  (exists e, r = Raise e) \/
  exists u m, r = Ok (u, with_accepted (w_now w) i) /\ lower (us_email u) = lower (iv_email i) /\
    sees w' s Memberships = sees w s Memberships ++ [m] /\
    mb_user_id m = us_id u /\ mb_tenant_id m = iv_tenant_id i /\ mb_role m = iv_role i /\
    sees w' s Invitations = update_where (same_row Invitations i) (with_accepted (w_now w)) (sees w s Invitations).
Proof.
  intros Hf Ha He. unfold accept_invitation. run. rewrite Hf. run. rewrite Ha. cbn [is_some orb].
  destruct (Z.ltb_spec (iv_expires_at i) (w_now w)); [lia |].
  destruct (invited_user s i pw dn w) as [[u|e] wu] eqn:Eu; unfold bind at 1; rewrite Eu; [| intros [= <- _]; left; by eexists].
  assert (Hst : forall t, t <> Users -> t <> Credentials -> sees wu s t = sees w s t).
  { intros t H1 H2. pose proof (still_sees [Users; Credentials] (invited_user s i pw dn) w s t) as Hs. rewrite Eu in Hs.
    apply Hs; [apply still_invited_user; simpl; tauto | simpl; intuition]. }
  unfold get_membership. run. rewrite (Hst Memberships) by done.
  case_if as Em; [intros [= <- _]; left; by eexists |]. run. rewrite (Hst Memberships) by done.
  case_if as Ec; [intros [= <- _]; left; by eexists |]. run. intros [= <- <-]. right.
  eexists u, _. split; [done |]. split; [by eapply invited_user_email |]. simpl_view.
  rewrite (Hst Memberships), (Hst Invitations) by done. split; [done |]. by repeat (split; [reflexivity |]).
Qed.

(** An invitation opens one door once. Only a known role is ever invited, and
    an owner only by an owner (or an administrator's command). Its token, within
    the configured lifetime, makes the account of the invited email (in any
    case) a member of that tenant with that role; after the lifetime it is
    refused and nothing is written; and once accepted it is refused for good. *)
Theorem invitation_single_use s tid email role ar inv w i tok w1 :
  unique_by iv_token_hash (sees w s Invitations) ->
  create_invitation s tid email role ar inv w = (Ok (i, tok), w1) ->
  In role ROLES /\ (role = ROLE_OWNER -> ar = None \/ ar = Some ROLE_OWNER) /\
  forall w2 pw dn r w3, sees w2 s Invitations = sees w1 s Invitations ->
    accept_invitation s tok pw dn w2 = (r, w3) ->
    (w_now w + invitation_ttl_hours * hour < w_now w2 -> r = Raise invalid_invitation /\ w3 = w2) /\
    forall u i', r = Ok (u, i') ->
      w_now w2 <= w_now w + invitation_ttl_hours * hour /\ lower (us_email u) = lower email /\
      (exists m, sees w3 s Memberships = sees w2 s Memberships ++ [m] /\
         mb_user_id m = us_id u /\ mb_tenant_id m = tid /\ mb_role m = role) /\
      forall w4 pw' dn', sees w4 s Invitations = sees w3 s Invitations ->
        accept_invitation s tok pw' dn' w4 = (Raise invalid_invitation, w4).
Proof.
  intros Hu Hc. apply create_invitation_run in Hc as (Hr & Ho & He & Ht & Hro & Hh & Hx & Ha & Hcf & ->).
  split; [done |]. split; [done |]. intros w2 pw dn r w3. simpl_view. intros Hs Hacc.
  assert (Hu2 : unique_by iv_token_hash (sees w2 s Invitations)).
  { rewrite Hs. apply unique_by_snoc; [done |]. intros (x & E & Hx')%List.in_map_iff.
    rewrite <- not_true_iff_false, existsb_exists in Hcf. apply Hcf. exists x. split; [done |]. simpl.
    by rewrite E, str_eqb_refl, orb_true_r. }
  assert (Hf : first_where (fun i => str_eqb (iv_token_hash i) (hash_token tok)) (sees w2 s Invitations) = Some i).
  { apply (first_where_unique iv_token_hash); [done | | by rewrite Hh; apply str_eqb_refl |].
    - rewrite Hs. apply List.in_or_app. right. by left.
    - intros y Hy. bool_hyps. congruence. }
  destruct (Z.lt_ge_cases (iv_expires_at i) (w_now w2)) as [Hlt|Hge].
  - rewrite (accept_refused s tok pw dn w2 i Hf) in Hacc by by right. injection Hacc as <- <-.
    split; [done |]. by intros.
  - split; [lia |]. intros u i' ->. destruct (accept_run _ _ _ _ _ _ _ _ Hf Ha Hge Hacc) as [[? ?]|(u' & m & Hr' & Hem & Hm & M1 & M2 & M3 & Hi)]; [done |].
    injection Hr' as -> ->. split; [lia |]. split; [congruence |]. split; [exists m; repeat (split; [congruence |]); congruence |].
    intros w4 pw' dn' Hw4. apply (accept_refused s tok pw' dn' w4 (with_accepted (w_now w2) i)); [| by left].
    rewrite Hw4, Hi. rewrite first_where_update by done. rewrite Hf. simpl. by rewrite N.eqb_refl.
Qed.
End invitations.

(** ** Witnesses *)

Lemma owner_rules_witness :
  (1 <= length (owners (sees (member_op (P := test_platform) Ctl 1 2 (Some ROLE_MEMBER) ROLE_OWNER sample_world).2 Ctl Memberships) 1))%nat.
Proof.
  apply (owner_rules (P := test_platform) Ctl 1 2 (Some ROLE_MEMBER) ROLE_OWNER sample_world).
  - split; decide_unique.
  - change (1 <= length (owners [alice_owner; bob_owner; carol_owner] 1))%nat. vm_compute. lia.
Defined.

Lemma concurrent_demotions_leave_no_owner_witness :
  let w2 := (change_member_role (P := test_platform) (Own 2) 1 2 ROLE_MEMBER ROLE_OWNER
              (change_member_role (P := test_platform) (Own 1) 1 1 ROLE_MEMBER ROLE_OWNER sample_world).2).2 in
  owners (w_db (commit (Own 2) (commit (Own 1) w2).2).2 Memberships) 1 = [].
Proof.
  pose proof (concurrent_demotions_leave_no_owner (P := test_platform) sample_world 1 alice_owner bob_owner) as H.
  cbn [mb_user_id alice_owner bob_owner] in H.
  destruct (change_member_role (P := test_platform) (Own 1) 1 1 ROLE_MEMBER ROLE_OWNER sample_world) as [r1 w1]. cbn [snd].
  destruct (change_member_role (P := test_platform) (Own 2) 1 2 ROLE_MEMBER ROLE_OWNER w1) as [r2 w2]. cbn [snd]. apply H.
  - reflexivity.
  - split; decide_unique.
  - reflexivity.
Defined.

Lemma invitation_single_use_witness :
  exists i tok w1, create_invitation (P := test_platform) Ctl 1 "erin@acme.fr" ROLE_MEMBER (Some ROLE_OWNER) (Some 1%N) sample_world
      = (Ok (i, tok), w1) /\
    forall u i' w3, accept_invitation (P := test_platform) Ctl tok (Some "a long password") None w1 = (Ok (u, i'), w3) ->
      lower (us_email u) = "erin@acme.fr".
Proof.
  destruct (create_invitation (P := test_platform) Ctl 1 "erin@acme.fr" ROLE_MEMBER (Some ROLE_OWNER) (Some 1%N) sample_world) as [r w1] eqn:E.
  assert (Hr : exists i tok, r = Ok (i, tok)).
  { change r with (fst (r, w1)). rewrite <- E. eexists _, _. vm_compute. reflexivity. }
  destruct Hr as (i & tok & ->). exists i, tok, w1. split; [reflexivity |]. intros u i' w3 Ha.
  destruct (invitation_single_use (P := test_platform) Ctl 1 "erin@acme.fr" ROLE_MEMBER (Some ROLE_OWNER) (Some 1%N) sample_world i tok w1)
    as (_ & _ & H).
  - decide_unique.
  - exact E.
  - destruct (H w1 (Some "a long password") None (Ok (u, i')) w3 eq_refl Ha) as [_ H2].
    destruct (H2 u i' eq_refl) as (_ & Hl & _). exact Hl.
Defined.
