(* ===== verification/AuthRouter.v ===== *)
(** [app/auth/router.py] (without the OAuth login) and the purge of
    [app/auth/tasks.py]: the handlers, with their dependencies, their rate limit,
    the translation of service errors, and their commits. *)
From S2P Require Import Prelude PyStr Hashing Base64 Json Config Tokens Models Permissions World Orm AuthService Slug Deps Edge Journal Frame Directory Sample.

(** ** Responses *)

Record SetCookie := {
  sc_key : string; sc_value : string; sc_max_age : Z; sc_httponly : bool; sc_secure : bool;
  sc_samesite : string; sc_domain : option string; sc_path : string }.
Record Response (A : Type) := { rs_body : A; rs_cookies : list SetCookie }.
Arguments rs_body {A} _.
Arguments rs_cookies {A} _.
Definition plain {A} (a : A) : Response A := {| rs_body := a; rs_cookies := [] |}.

Inductive LoginResponse := LoginOk | TotpRequired (challenge_token : string).

Record MembershipInfo := { mi_tenant_slug : string; mi_role : string }.
Record MeResponse := {
  me_id : N; me_email : string; me_display_name : option string; me_totp_enabled : bool;
  me_memberships : list MembershipInfo }.

(** [Field(min_length=..., max_length=...)]: checked after the dependencies ran. *)
Definition length_between (lo hi : Z) (s : string) : bool := (lo <=? py_len s) && (py_len s <=? hi).
Definition unprocessable : exn := HTTPException 422 "Unprocessable Entity".
Definition opt_valid (p : string -> bool) (o : option string) : bool :=
  match o with Some s => p s | None => true end.

Section router.
Context {P : Platform}.

Definition cookie_domain_or_none : option string :=
  if str_eqb session_cookie_domain "" then None else Some session_cookie_domain.

Definition session_cookie (token : string) : SetCookie := {|
  sc_key := session_cookie_name; sc_value := token; sc_max_age := session_ttl_hours * 3600;
  sc_httponly := true; sc_secure := session_cookie_secure; sc_samesite := "lax";
  sc_domain := cookie_domain_or_none; sc_path := "/" |}.
(** [delete_cookie]: an empty value that expires at once. *)
Definition cleared_cookie : SetCookie := {|
  sc_key := session_cookie_name; sc_value := EmptyString; sc_max_age := 0; sc_httponly := false;
  sc_secure := false; sc_samesite := "lax"; sc_domain := cookie_domain_or_none; sc_path := "/" |}.

(** [except service.AuthError as exc: raise HTTPException(status, str(exc))] *)
Definition auth_error_as {A} (status : Z) (m : M A) : M A :=
  catch m (fun e => match e with AuthError msg => Some (raise (HTTPException status msg)) | _ => None end).
Definition directory_error_as {A} (status : Z) (m : M A) : M A :=
  catch m (fun e => match e with DirectoryError msg => Some (raise (HTTPException status msg)) | _ => None end).

Definition login (rq : Request) (email password : string) : M (Response LoginResponse) :=
  public_route (
    raise_when (negb (1 <=? py_len password)) unprocessable in
    let* _ := RateLimit.enforce_rate_limit rq "login" [email] in
    let* result := authenticate Ctl email password in
    match result with
    | None => raise (HTTPException 401 "Identifiants invalides")
    | Some (user, credentials) =>
        if uc_totp_enabled credentials then
          let* challenge_token := create_login_challenge Ctl (us_id user) in
          let* _ := commit Ctl in
          ret (plain (TotpRequired challenge_token))
        else
          let* token := create_session Ctl (us_id user) in
          let* _ := commit Ctl in
          ret {| rs_body := LoginOk; rs_cookies := [session_cookie token] |}
    end).

(** [user_id is None or not await verify_second_factor(...)] *)
Definition challenge_user (challenge_token code : string) : M (option N) :=
  let* user_id := consume_login_challenge Ctl challenge_token in
  match user_id with
  | None => ret None
  | Some u => let* accepted := verify_second_factor Ctl u code in ret (if accepted then Some u else None)
  end.

Definition login_totp (rq : Request) (challenge_token code : string) : M (Response LoginResponse) :=
  public_route (
    raise_when (negb (length_between 6 16 code)) unprocessable in
    let* _ := RateLimit.enforce_rate_limit rq "login-totp" [challenge_token] in
    let* user_id := challenge_user challenge_token code in
    match user_id with
    | None => let* _ := commit Ctl in raise (HTTPException 401 "Code invalide ou challenge expiré")
    | Some u =>
        let* token := create_session Ctl u in
        let* _ := commit Ctl in
        ret {| rs_body := LoginOk; rs_cookies := [session_cookie token] |}
    end).

Definition logout (rq : Request) : M (Response unit) :=
  auth_route rq (fun auth =>
    let* _ := revoke_session Ctl (ca_session auth) in
    let* _ := commit Ctl in
    ret {| rs_body := tt; rs_cookies := [cleared_cookie] |}).

(** The join of memberships with tenants, ordered by slug. *)
Definition join_tenants (tenants : list Tenant) (memberships : list Membership) : list (Tenant * Membership) :=
  flat_map (fun t => List.map (fun m => (t, m)) (List.filter (fun m => (mb_tenant_id m =? tn_id t)%N) memberships)) tenants.

Definition get_me (rq : Request) : M (Response MeResponse) :=
  auth_route rq (fun auth =>
    let user := ca_user auth in
    let* credentials := get_credentials Ctl (us_id user) in
    let* tenants := scalars Ctl Tenants (fun _ => true) in
    let* memberships := scalars Ctl Memberships (fun m => (mb_user_id m =? us_id user)%N) in
    let rows := order_by (fun a b => String.leb (tn_slug a.1) (tn_slug b.1)) (join_tenants tenants memberships) in
    ret (plain {|
      me_id := us_id user; me_email := us_email user; me_display_name := us_display_name user;
      me_totp_enabled := match credentials with Some c => uc_totp_enabled c | None => false end;
      me_memberships := List.map (fun tm => {| mi_tenant_slug := tn_slug tm.1; mi_role := mb_role tm.2 |}) rows |})).

Definition totp_setup (rq : Request) : M (Response (string * string)) :=
  auth_route rq (fun auth =>
    let* secret_uri := auth_error_as 409 (setup_totp Ctl (ca_user auth)) in
    let* _ := commit Ctl in
    ret (plain secret_uri)).

Definition totp_activate (rq : Request) (code : string) : M (Response (list string)) :=
  auth_route rq (fun auth =>
    raise_when (negb (length_between 6 8 code)) unprocessable in
    let* codes := auth_error_as 400 (activate_totp Ctl (us_id (ca_user auth)) code) in
    let* _ := commit Ctl in
    ret (plain codes)).

Definition totp_disable (rq : Request) (password : string) : M (Response unit) :=
  auth_route rq (fun auth =>
    raise_when (negb (1 <=? py_len password)) unprocessable in
    let* _ := auth_error_as 400 (disable_totp Ctl (us_id (ca_user auth)) password) in
    let* _ := commit Ctl in
    ret (plain tt)).

Definition display_label (user : User) : string := ostr_or (us_display_name user) (us_email user).

Definition invitations_accept (rq : Request) (token : string) (password display_name : option string) : M (Response unit) :=
  public_route (
    raise_when (negb (opt_valid (length_between 12 256) password &&
                      opt_valid (fun d => py_len d <=? 255) display_name)) unprocessable in
    let* _ := RateLimit.enforce_rate_limit rq "invitation-accept" [token] in
    let* (user, invitation) := directory_error_as 400 (accept_invitation Ctl token password display_name) in
    let* _ := commit Ctl in
    let* tenant := scalar Ctl Tenants (fun t => (tn_id t =? iv_tenant_id invitation)%N) in
    let* _ := match tenant with
              | Some t => record_audit_event_for_tenant 0 t "core.member.invitation_accepted" "membership"
                  (uuid_str (us_id user)) [("email", JStr (us_email user)); ("role", JStr (iv_role invitation))]
                  (Some (us_id user)) (display_label user)
              | None => ret tt
              end in
    ret (plain tt)).

(** ** [auth/tasks.py] *)

Record PurgeCounts := { pc_sessions : Z; pc_login_challenges : Z; pc_invitations : Z }.

Definition purge_expired_auth_rows : M PurgeCounts :=
  let* t := now in
  with_session (Own 0) (
    let* sessions := delete_rows (Own 0) Sessions (fun a => (as_expires_at a <? t) || is_some (as_revoked_at a)) in
    let* challenges := delete_rows (Own 0) LoginChallenges (fun c => lc_expires_at c <? t) in
    let* invitations := delete_rows (Own 0) Invitations (fun i => (iv_expires_at i <? t) && is_none (iv_accepted_at i)) in
    let* _ := commit (Own 0) in
    ret {| pc_sessions := Z.max sessions 0; pc_login_challenges := Z.max challenges 0; pc_invitations := Z.max invitations 0 |}).
End router.

(** ** Which tables the handlers write *)

Section frames.
Context {P : Platform}.
Variable W : list table.

Lemma still_enforce rq scope ids : still W (RateLimit.enforce_rate_limit rq scope ids).
Proof.
  unfold RateLimit.enforce_rate_limit. apply still_for_each. intros k. unfold RateLimit.hit. apply still_bind.
  - apply still_pure. intros w. unfold RateLimit.incr. by destruct (kv_look _ _ _) as [[[?|?] ?]|].
  - intros n. apply still_bind; [destruct (n =? 1); by apply still_pure |]. intros _. by destruct (_ <? n).
Qed.
Lemma frame_current_auth_or_none rq : In Sessions W -> frame W (current_auth_or_none rq).
Proof. intros H. unfold current_auth_or_none. pose proof (fun t => still_resolve_session W Ctl t H). frame_code. Qed.
Lemma frame_record_for_tenant o t a rt ri p u l : In AuditEvents W -> frame W (record_audit_event_for_tenant o t a rt ri p u l).
Proof. intros H. unfold record_audit_event_for_tenant. frame_code. Qed.
End frames.
#[export] Hint Resolve still_enforce frame_current_auth_or_none frame_record_for_tenant : frame.

(** ** Running a route *)

Section routes.
Context {P : Platform}.
Implicit Types (w : World).

(** A public route runs its handler from the committed tables, and drops what it
    has not committed. *)
Lemma public_route_run {A} (m : M A) w : quiet w ->
  exists w0 r w1, same_world w0 w /\ sees w0 Ctl = w_db w /\ m w0 = (r, w1) /\
    public_route m w = (r, closed Ctl w1).
Proof.
  intros [Hp Ht]. destruct (m (closed Ctl w)) as [r w1] eqn:E. exists (closed Ctl w), r, w1.
  split; [by apply same_world_closed |]. split; [apply sees_closed |]. split; [done |].
  unfold public_route, request, with_session, finally. by rewrite E.
Qed.

Lemma still_here {A} W (m : M A) w r w' t : still W m -> m w = (r, w') -> ~ In t W ->
  sees w' Ctl t = sees w Ctl t /\ w_db w' = w_db w /\ w_now w' = w_now w.
Proof.
  intros Hs E Ht. pose proof (still_sees W m w Ctl t Hs Ht) as H1. destruct (Hs w) as (H2 & H3 & _).
  rewrite E in H1, H2, H3. done.
Qed.
Lemma still_db {A} W (m : M A) w r w' : still W m -> m w = (r, w') -> w_db w' = w_db w /\ w_now w' = w_now w.
Proof. intros Hs E. destruct (Hs w) as (H2 & H3 & _). by rewrite E in H2, H3. Qed.
Lemma still_nil {A} (m : M A) w r w' : still [] m -> m w = (r, w') ->
  (forall s t, sees w' s t = sees w s t) /\ w_db w' = w_db w /\ w_now w' = w_now w.
Proof.
  intros Hs E. destruct (Hs w) as (H2 & H3 & _). rewrite E in H2, H3. split; [| done]. intros s t.
  pose proof (still_sees [] m w s t Hs) as H. rewrite E in H. apply H. intros [].
Qed.

End routes.

Ltac open_route w Hq :=
  match goal with
  | |- context [public_route ?m w] => destruct (public_route_run m w Hq) as (w0 & r & wr & Hw & Hs & Hm & ->)
  end; cbn beta iota.

Section login_route.
Context {P : Platform}.
Implicit Types (w : World).

Definition new_session_for (uid : N) (token : string) (t : Z) (a : AuthSession) : Prop :=
  as_user_id a = uid /\ as_token_hash a = hash_token token /\ as_revoked_at a = None /\
  as_expires_at a = t + session_ttl_hours * hour.

End login_route.

Section second_factor_route.
Context {P : Platform}.
Implicit Types (w : World).

(** A challenge that [consume_login_challenge] accepts at [t]. *)
Definition live_challenge (l : list LoginChallenge) (t : Z) (token : string) (ch : LoginChallenge) : Prop :=
  first_where (fun c => str_eqb (lc_token_hash c) (hash_token token)) l = Some ch /\
  lc_consumed_at ch = None /\ t <= lc_expires_at ch.

Lemma consume_run s tok w r w' : consume_login_challenge s tok w = (r, w') ->
  (r = Ok None /\ w' = w /\ forall ch, ~ live_challenge (sees w s LoginChallenges) (w_now w) tok ch) \/
  exists ch, live_challenge (sees w s LoginChallenges) (w_now w) tok ch /\ r = Ok (Some (lc_user_id ch)) /\
    w' = wrote s (upd LoginChallenges (update_where (same_row LoginChallenges ch) (with_consumed (w_now w)))) w.
Proof.
  unfold consume_login_challenge, live_challenge. run. case_query as [ch|] Ech.
  - destruct (is_some (lc_consumed_at ch) || (lc_expires_at ch <? w_now w)) eqn:E.
    + intros [= <- <-]. left. split; [done |]. split; [done |]. intros ch' ([= <-] & Hc & Ht).
      rewrite Hc in E. simpl in E. bool_hyps. lia.
    + run. intros [= <- <-]. right. exists ch. bool_hyps. split; [| done]. split; [done |].
      split; [by destruct (lc_consumed_at ch) | done].
  - intros [= <- <-]. left. split; [done |]. split; [done |]. intros ch ([=] & _).
Qed.


(** A TOTP code with a character outside ASCII, which the schema accepts, does
    not count as a wrong code: the constant-time comparison rejects its type, the
    request ends in an error that no handler translates, and the challenge stays
    live, so it is not a single try for such codes. *)
Theorem non_ascii_code_keeps_challenge rq tok code w ch c secret : quiet w ->
  length_between 6 16 code = true -> ascii_only code = false ->
  (RateLimit.enforce_rate_limit rq "login-totp" [tok] (closed Ctl w)).1 = Ok tt ->
  live_challenge (w_db w LoginChallenges) (w_now w) tok ch ->
  first_where (fun c => (uc_user_id c =? lc_user_id ch)%N) (w_db w Credentials) = Some c ->
  uc_totp_enabled c = true -> _decrypt_totp_secret c = Ok secret ->
  let '(r, w') := login_totp rq tok code w in
  r = Raise TypeError /\ w_db w' = w_db w /\ live_challenge (w_db w' LoginChallenges) (w_now w) tok ch.
Proof.
  intros [Hp Ht] Hlen Hasc Hrl Hlive Hc Hen Hsec. unfold login_totp, public_route, request, with_session, finally.
  rewrite Hlen. cbn [negb].
  destruct (RateLimit.enforce_rate_limit rq "login-totp" [tok] (closed Ctl w)) as [re w1] eqn:Ee.
  simpl in Hrl. subst re. unfold bind at 1. rewrite Ee.
  destruct (still_nil _ _ _ _ (still_enforce [] rq "login-totp" [tok]) Ee) as (S1 & D1 & N1).
  assert (Hs : sees w1 Ctl = w_db w \/ forall t, sees w1 Ctl t = w_db w t) by (right; intros t; by rewrite S1, sees_closed).
  assert (Hs1 : forall t, sees w1 Ctl t = w_db w t) by (intros t; by rewrite S1, sees_closed). clear Hs.
  destruct (consume_login_challenge Ctl tok w1) as [rc w2] eqn:Ec. unfold challenge_user. rewrite !bind_bind.
  unfold bind at 1. rewrite Ec. apply consume_run in Ec. rewrite Hs1, N1 in Ec. simpl in Ec.
  destruct Ec as [(_ & _ & Hno) | (ch' & [Hch' _] & -> & ->)]; [by apply Hno in Hlive |].
  pose proof Hlive as [Hch _]. rewrite Hch in Hch'. injection Hch' as <-.
  unfold verify_second_factor, get_credentials. run. rewrite Hs1, Hc, Hen. cbn [negb]. run.
  unfold _verify_totp_code. rewrite Hsec. run. cbn [try_counters]. unfold compare_digest. rewrite Hasc, andb_false_r. run.
  simpl. split; [done |]. split; [by rewrite D1 | by rewrite D1].
Qed.
End second_factor_route.

(** ** Logging out, and the purge *)

Section lifetime.
Context {P : Platform}.
Implicit Types (w : World).

Definition dead_session (t : Z) (a : AuthSession) : bool := (as_expires_at a <? t) || is_some (as_revoked_at a).
Definition dead_challenge (t : Z) (c : LoginChallenge) : bool := lc_expires_at c <? t.
Definition dead_invitation (t : Z) (i : Invitation) : bool := (iv_expires_at i <? t) && is_none (iv_accepted_at i).

(** The purge in one equation. *)
Lemma purge_run w : quiet w -> exists n w', purge_expired_auth_rows w = (Ok n, w') /\
  pc_sessions n = Z.max (Z.of_nat (count_where (dead_session (w_now w)) (w_db w Sessions))) 0 /\
  pc_login_challenges n = Z.max (Z.of_nat (count_where (dead_challenge (w_now w)) (w_db w LoginChallenges))) 0 /\
  pc_invitations n = Z.max (Z.of_nat (count_where (dead_invitation (w_now w)) (w_db w Invitations))) 0 /\
  w_db w' Sessions = delete_where (dead_session (w_now w)) (w_db w Sessions) /\
  w_db w' LoginChallenges = delete_where (dead_challenge (w_now w)) (w_db w LoginChallenges) /\
  w_db w' Invitations = delete_where (dead_invitation (w_now w)) (w_db w Invitations) /\
  (forall t, t <> Sessions -> t <> LoginChallenges -> t <> Invitations -> w_db w' t = w_db w t) /\ quiet w'.
Proof.
  intros [Hp Ht]. unfold purge_expired_auth_rows. run. unfold with_session, finally.
  set (w0 := closed (Own 0) w).
  assert (Hs : sees w0 (Own 0) = w_db w) by apply sees_closed. run. rewrite ?Hs. simpl_view. rewrite ?Hs.
  eexists _, _. split; [reflexivity |]. do 3 (split; [reflexivity |]). simpl. simpl_view. rewrite ?Hs. simpl_view.
  do 3 (split; [reflexivity |]). split.
  - intros t H1 H2 H3. by rewrite !upd_ne.
  - split; [| done]. intros s. simpl. destruct (sess_eq_dec (Own 0) s); [done |]. apply Hp.
Qed.

(** The purge only removes what is already dead: from then on, every session
    cookie, partial-login token and invitation link meets the same fate as
    without it, the counts are those of the rows removed, and no other table is
    touched. *)
Theorem purge_is_invisible w : quiet w ->
  sessions_wf (w_db w Sessions) -> unique_by lc_token_hash (w_db w LoginChallenges) ->
  unique_by iv_token_hash (w_db w Invitations) ->
  let '(r, w') := purge_expired_auth_rows w in
  (exists n, r = Ok n /\
     pc_sessions n = Z.of_nat (length (w_db w Sessions)) - Z.of_nat (length (w_db w' Sessions)) /\
     pc_login_challenges n = Z.of_nat (length (w_db w LoginChallenges)) - Z.of_nat (length (w_db w' LoginChallenges)) /\
     pc_invitations n = Z.of_nat (length (w_db w Invitations)) - Z.of_nat (length (w_db w' Invitations))) /\
  (forall t rq, w_now w <= t -> session_user (w_db w') t rq = session_user (w_db w) t rq) /\
  (forall t tok ch, w_now w <= t ->
     live_challenge (w_db w' LoginChallenges) t tok ch <-> live_challenge (w_db w LoginChallenges) t tok ch) /\
  (forall tok i, (iv_accepted_at i <> None \/ w_now w <= iv_expires_at i) ->
     first_where (fun i => str_eqb (iv_token_hash i) (hash_token tok)) (w_db w' Invitations) = Some i <->
     first_where (fun i => str_eqb (iv_token_hash i) (hash_token tok)) (w_db w Invitations) = Some i) /\
  (forall t, t <> Sessions -> t <> LoginChallenges -> t <> Invitations -> w_db w' t = w_db w t).
Proof.
  intros Hq [Hs1 Hs2] Hc Hi. destruct (purge_run w Hq) as (n & w' & -> & N1 & N2 & N3 & S1 & S2 & S3 & S4 & _).
  split; [exists n; rewrite N1, N2, N3, S1, S2, S3, !count_deleted; done |]. split; [| split; [| split; [| done]]].
  - intros t rq Ht. unfold session_user. destruct (cookie rq session_cookie_name) as [tok|]; [| done].
    destruct (str_eqb tok ""); [done |]. rewrite S1, (S4 Users) by done. cbn [row].
    rewrite (first_where_deleted as_token_hash _ _ _ (hash_token tok)) by (done || intros y Hy; by bool_hyps).
    case_query as [a|] Ea; [| done]. unfold dead_session.
    destruct (is_some (as_revoked_at a)) eqn:Er; [by rewrite orb_true_r |]. rewrite orb_false_r.
    destruct (as_expires_at a <? w_now w) eqn:E1; [| by rewrite Er]. simpl.
    destruct (as_expires_at a <? t) eqn:E2; [done |]. bool_hyps. lia.
  - intros t tok ch Ht. unfold live_challenge. rewrite S2. cbn [row].
    rewrite (first_where_deleted lc_token_hash _ _ _ (hash_token tok)) by (done || intros y Hy; by bool_hyps).
    unfold dead_challenge. split.
    + case_query as [c|] Ec; [| tauto]. destruct (lc_expires_at c <? w_now w); [by intros [? _] | done].
    + intros (-> & H2 & H3). destruct (Z.ltb_spec (lc_expires_at ch) (w_now w)); [lia | done].
  - intros tok i Hli. rewrite S3. cbn [row].
    rewrite (first_where_deleted iv_token_hash _ _ _ (hash_token tok)) by (done || intros y Hy; by bool_hyps).
    unfold dead_invitation. split.
    + case_query as [c|] Ec; [| done]. by destruct (_ && _).
    + intros ->. replace (_ && _) with false; [done |]. symmetry. apply andb_false_iff.
      destruct Hli as [Ha|Ht]; [right | left; by apply Z.ltb_ge]. unfold is_none. by destruct (iv_accepted_at i).
Qed.

Lemma session_user_dead (db : Db) t rq tok : sessions_wf (db Sessions) -> cookie rq session_cookie_name = Some tok ->
  live (db Sessions) (hash_token tok) = None -> session_user db t rq = None.
Proof.
  intros [_ Hu] Hc Hl. unfold session_user. rewrite Hc. destruct (str_eqb tok ""); [done |].
  case_query as [a|] Ea; [| done]. apply first_where_Some in Ea as [Ha Hh]. bool_hyps.
  rewrite (live_by_hash _ a _ Hu Ha Hh) in Hl. by destruct (is_some (as_revoked_at a)).
Qed.

Lemma session_user_row (db : Db) t rq a u : session_user db t rq = Some (a, u) ->
  exists tok, cookie rq session_cookie_name = Some tok /\ In a (db Sessions) /\ as_token_hash a = hash_token tok.
Proof.
  unfold session_user. destruct (cookie rq session_cookie_name) as [tok|]; [| done].
  destruct (str_eqb tok ""); [done |]. case_query as [b|] Eb; [| done].
  destruct (is_some (as_revoked_at b) || _); [done |]. case_query as [v|] Ev; [| done]. intros [= -> ->].
  exists tok. apply first_where_Some in Eb as [? ?]. by bool_hyps.
Qed.

(** Logging out. The cookie that logged out never authenticates again, at any
    time and wherever it is sent; every other session of anyone is as it was. *)
Theorem logout_is_final rq w : quiet w -> sessions_wf (w_db w Sessions) ->
  let '(r, w') := logout rq w in
  match session_user (w_db w) (w_now w) rq with
  | None => r = Raise (HTTPException 401 "Authentification requise") /\ w_db w' = w_db w
  | Some (a, u) => r = Ok {| rs_body := tt; rs_cookies := [cleared_cookie] |} /\
      (forall rq' t, cookie rq' session_cookie_name = cookie rq session_cookie_name -> session_user (w_db w') t rq' = None) /\
      forall h, live (w_db w' Sessions) h = if str_eqb h (as_token_hash a) then None else live (w_db w Sessions) h
  end.
Proof.
  intros Hq Hwf. unfold logout, auth_route, request, with_session, finally.
  assert (Hcl : same_world (closed Ctl w) w) by (apply same_world_closed; [done | apply Hq]).
  destruct (current_auth_run (closed Ctl w) rq) as (w1 & E & Hw1); [intros s; rewrite (sw_pend _ _ Hcl); apply Hq |].
  unfold bind at 1. rewrite E. clear E. change (w_db (closed Ctl w)) with (w_db w) in *. change (w_now (closed Ctl w)) with (w_now w) in *.
  assert (Hdb : w_db w1 = w_db (visited w rq)).
  { rewrite (sw_db _ _ Hw1). unfold visited. simpl. by destruct (session_user (w_db w) (w_now w) rq) as [[a u]|]. }
  assert (Hv : sees w1 Ctl = w_db (visited w rq)).
  { unfold sees. rewrite (sw_pend _ _ Hw1), Hdb.
    replace (w_pend (visited (closed Ctl w) rq) Ctl) with (@id Db); [done |].
    destruct (visited_fields (closed Ctl w) rq) as (-> & _). symmetry. apply pend_set. }
  destruct (session_user (w_db w) (w_now w) rq) as [[a u]|] eqn:Eu; [| by unfold visited in Hdb; rewrite Eu in Hdb].
  unfold current_auth. run. unfold revoke_session. run. simpl.
  assert (Hn : w_now w1 = w_now w).
  { rewrite (sw_now _ _ Hw1). by destruct (visited_fields (closed Ctl w) rq) as (_ & _ & _ & -> & _). }
  split; [done |]. rewrite Hv, Hn. unfold visited. rewrite Eu. simpl.
  apply session_user_row in Eu as (tok & Hck & Hin & Hh). set (db' := upd Sessions _ _).
  set (l1 := update_where (same_row Sessions a) (with_last_seen (w_now w)) (w_db w Sessions)).
  assert (Hdb' : db' Sessions = update_where (same_row Sessions (with_last_seen (w_now w) a)) (with_revoked (w_now w)) l1)
    by (unfold db'; by rewrite !upd_eq).
  assert (Hwf1 : sessions_wf l1) by by apply sessions_wf_update.
  assert (Hin1 : In (with_last_seen (w_now w) a) l1).
  { apply in_update_where. exists a. simpl. by rewrite N.eqb_refl. }
  assert (Hlive : forall h, live (db' Sessions) h = if str_eqb h (as_token_hash a) then None else live (w_db w Sessions) h).
  { intros h. rewrite Hdb', live_revoke_one by done. simpl. destruct (str_eqb h (as_token_hash a)); [done |]. by apply live_ext. }
  split; [| exact Hlive]. intros rq' t Hc. apply (session_user_dead _ _ _ tok); [| congruence |].
  - rewrite Hdb'. by apply sessions_wf_update.
  - rewrite Hlive, Hh. by rewrite str_eqb_refl.
Qed.
End lifetime.

(** ** Witnesses *)



Definition accented_code : string := String (ascii_of_N 233) "00000".
Lemma non_ascii_code_keeps_challenge_witness :
  (login_totp (P := test_platform) alice_visit "bob-challenge" accented_code sample_world).1 = Raise TypeError.
Proof.
  pose proof (non_ascii_code_keeps_challenge (P := test_platform) alice_visit "bob-challenge" accented_code sample_world
    bob_challenge bob_credentials "424242" sample_quiet) as H.
  destruct (login_totp (P := test_platform) alice_visit "bob-challenge" accented_code sample_world) as [r w']. cbn [fst].
  refine (proj1 (H _ _ _ _ _ _ _)).
  - vm_compute. reflexivity.
  - vm_compute. reflexivity.
  - vm_compute. reflexivity.
  - split; [vm_compute; reflexivity |]. split; [reflexivity | vm_compute; discriminate].
  - vm_compute. reflexivity.
  - reflexivity.
  - vm_compute. reflexivity.
Defined.

Lemma purge_is_invisible_witness :
  w_db (purge_expired_auth_rows (P := test_platform) (set_now (t0 + 5) sample_world)).2 Memberships = sample_db Memberships.
Proof.
  pose proof (purge_is_invisible (P := test_platform) (set_now (t0 + 5) sample_world)) as H.
  destruct (purge_expired_auth_rows (P := test_platform) (set_now (t0 + 5) sample_world)) as [r w']. cbn [snd].
  destruct H as (_ & _ & _ & _ & H).
  - split; [reflexivity | reflexivity].
  - split; decide_unique.
  - decide_unique.
  - decide_unique.
  - exact (H Memberships ltac:(discriminate) ltac:(discriminate) ltac:(discriminate)).
Defined.

Lemma logout_is_final_witness :
  session_user (P := test_platform) (w_db (logout (P := test_platform) alice_visit sample_world).2) t0 alice_visit = None.
Proof.
  assert (Hwf : sessions_wf (w_db sample_world Sessions)) by (split; decide_unique).
  pose proof (logout_is_final (P := test_platform) alice_visit sample_world sample_quiet Hwf) as H.
  destruct (logout (P := test_platform) alice_visit sample_world) as [r w']. cbn [snd].
  destruct (session_user _ _ _) as [[a u]|] eqn:E in H; [| vm_compute in E; discriminate E].
  destruct H as (_ & H & _). exact (H alice_visit t0 eq_refl).
Defined.
