(* ===== verification/Dates.v ===== *)
(** Calendar dates of the Python [datetime] module, in UTC: the part of
    [date], [replace] and [strftime] the quotas and the usage rollup rely on. The
    conversion of a day number to a date counts in cycles of 400 years from the
    first of March. *)
From S2P Require Import Prelude PyStr Hashing Json Tokens.

Definition day : Z := 86400 * second.
(** Days since the epoch. *)
Definition day_of (t : Z) : Z := t / day.

Record date := { year : Z; month : Z; mday : Z }.

Definition civil (n : Z) : date :=
  let z := n + 719468 in
  let era := z / 146097 in
  let doe := z mod 146097 in
  let yoe := (doe - doe / 1460 + doe / 36524 - doe / 146096) / 365 in
  let doy := doe - (365 * yoe + yoe / 4 - yoe / 100) in
  let mp := (5 * doy + 2) / 153 in
  let m := if mp <? 10 then mp + 3 else mp - 9 in
  {| year := yoe + era * 400 + (if m <=? 2 then 1 else 0); month := m; mday := doy - (153 * mp + 2) / 5 + 1 |}.

Example epoch : civil 0 = {| year := 1970; month := 1; mday := 1 |}.
Proof. reflexivity. Qed.
Example leap_day : civil 19782 = {| year := 2024; month := 2; mday := 29 |}.
Proof. reflexivity. Qed.
Example last_day : civil 20818 = {| year := 2026; month := 12; mday := 31 |}.
Proof. reflexivity. Qed.

Definition two_digits (z : Z) : string := if z <? 10 then String.append "0" (show_Z z) else show_Z z.
(** [f"{now:%Y-%m}"] and [f"{now:%Y-%m-%d}"] *)
Definition year_month (t : Z) : string :=
  let d := civil (day_of t) in show_Z (year d) +:+ "-" +:+ two_digits (month d).
Definition iso_day (t : Z) : string :=
  let d := civil (day_of t) in show_Z (year d) +:+ "-" +:+ two_digits (month d) +:+ "-" +:+ two_digits (mday d).

(** [now.replace(day=1, hour=0, minute=0, second=0, microsecond=0)] *)
Definition month_start (t : Z) : Z := (day_of t - (mday (civil (day_of t)) - 1)) * day.

Lemma same_day_text t t' : day_of t = day_of t' -> iso_day t = iso_day t'.
Proof. unfold iso_day. by intros ->. Qed.

Lemma day_bounds t : day_of t * day <= t < (day_of t + 1) * day.
Proof.
  unfold day_of. pose proof (Z.mod_pos_bound t day ltac:(reflexivity)).
  pose proof (Z.div_mod t day ltac:(discriminate)). lia.
Qed.
