(* ===== verification/Iso.v ===== *)
(** [datetime.isoformat()] of an instant in UTC and [datetime.fromisoformat], for
    the form the former writes; the other forms the latter reads are an
    interface. The round trip rests on the inverse of the calendar conversion of
    [Dates], checked for one cycle of 400 years. *)
From S2P Require Import Prelude PyStr Hashing Json Tokens Dates.

(** ** Dates back to day numbers *)

Definition day_number (d : date) : Z :=
  let y := if month d <=? 2 then year d - 1 else year d in
  let era := y / 400 in
  let yoe := y mod 400 in
  let mp := (month d + 9) mod 12 in
  let doy := (153 * mp + 2) / 5 + mday d - 1 in
  era * 146097 + (yoe * 365 + yoe / 4 - yoe / 100 + doy) - 719468.

(** The year of the cycle, counted from March, the month and the day of its day [doe]. *)
Definition cycle_year (doe : Z) : Z := (doe - doe / 1460 + doe / 36524 - doe / 146096) / 365.
Definition cycle_ok (doe : Z) : bool :=
  let yoe := cycle_year doe in
  let doy := doe - (365 * yoe + yoe / 4 - yoe / 100) in
  let mp := (5 * doy + 2) / 153 in
  let m := if mp <? 10 then mp + 3 else mp - 9 in
  let d := doy - (153 * mp + 2) / 5 + 1 in
  (0 <=? yoe) && (yoe <? 400) && (1 <=? m) && (m <=? 12) && (1 <=? d) && (d <=? 31) && ((m + 9) mod 12 =? mp).

Fixpoint all_ok (fuel : nat) (doe : Z) : bool :=
  match fuel with O => true | S f => cycle_ok doe && all_ok f (doe + 1) end.
Lemma all_ok_spec fuel from : all_ok fuel from = true ->
  forall doe, from <= doe < from + Z.of_nat fuel -> cycle_ok doe = true.
Proof.
  revert from. induction fuel as [|f IH]; intros from H doe Hd; [lia |]. simpl in H. bool_hyps.
  destruct (Z.eq_dec doe from) as [->|]; [done |]. apply (IH (from + 1)); [done | lia].
Qed.
Lemma cycle_checked : all_ok (Z.to_nat 146097) 0 = true.
Proof. vm_compute. reflexivity. Qed.

Lemma civil_facts n : let d := civil n in
  1 <= month d <= 12 /\ 1 <= mday d <= 31 /\ day_number d = n.
Proof.
  unfold civil. set (z := n + 719468). set (era := z / 146097). set (doe := z mod 146097).
  assert (Hd : 0 <= doe < 146097) by (apply Z.mod_pos_bound; done).
  assert (Hz : z = 146097 * era + doe) by (apply Z.div_mod; done).
  assert (Hok : cycle_ok doe = true) by (apply (all_ok_spec _ 0 cycle_checked); lia).
  unfold cycle_ok in Hok. cbn zeta in *. fold (cycle_year doe). set (yoe := cycle_year doe) in *.
  set (doy := doe - (365 * yoe + yoe / 4 - yoe / 100)) in *. set (mp := (5 * doy + 2) / 153) in *.
  set (m := if mp <? 10 then mp + 3 else mp - 9) in *. bool_hyps. cbn [month mday].
  split; [done |]. split; [done |]. unfold day_number. cbn [month mday year].
  assert (Hy : (if m <=? 2 then yoe + era * 400 + (if m <=? 2 then 1 else 0) - 1 else yoe + era * 400 + (if m <=? 2 then 1 else 0)) =
    yoe + era * 400) by (destruct (m <=? 2); lia).
  rewrite Hy, Z.div_add, Z.mod_add, (Z.div_small yoe), (Z.mod_small yoe) by lia.
  match goal with H : (m + 9) mod 12 = mp |- _ => rewrite H end. unfold doy. lia.
Qed.

(** ** Fixed-width numbers *)

Definition digit_of (n : Z) : ascii := ascii_of_N (48 + Z.to_N n).
Fixpoint digits (k : nat) (z : Z) : string :=
  match k with O => EmptyString | S k' => String (digit_of (z / 10 ^ Z.of_nat k' mod 10)) (digits k' z) end.
Definition digit_Z (c : ascii) : option Z := if is_digit c then Some (Z.of_N (code c) - 48) else None.
Fixpoint read_fixed (k : nat) (acc : Z) (s : string) : option (Z * string) :=
  match k, s with
  | O, _ => Some (acc, s)
  | S k', String c s' => match digit_Z c with Some d => read_fixed k' (acc * 10 + d) s' | None => None end
  | S _, EmptyString => None
  end.

Lemma digit_Z_of n : 0 <= n < 10 -> digit_Z (digit_of n) = Some n.
Proof.
  intros Hn. assert (H : In n (List.map Z.of_nat (List.seq 0 10))).
  { rewrite <- (Z2Nat.id n) by lia. apply List.in_map, List.in_seq. lia. }
  clear Hn. simpl in H. repeat (destruct H as [<-|H]; [by vm_compute |]). destruct H.
Qed.

Lemma read_digits_fixed k z acc rest : 0 <= z ->
  read_fixed k acc (digits k z +:+ rest) = Some (acc * 10 ^ Z.of_nat k + z mod 10 ^ Z.of_nat k, rest).
Proof.
  intros Hz. revert acc. induction k as [|k IH]; intros acc.
  - simpl. rewrite Z.mod_1_r. do 2 f_equal. lia.
  - cbn [digits read_fixed String.append]. rewrite digit_Z_of by (apply Z.mod_pos_bound; lia). rewrite IH. do 2 f_equal.
    rewrite Nat2Z.inj_succ, Z.pow_succ_r by lia. set (q := 10 ^ Z.of_nat k).
    assert (Hq : 0 < q) by (apply Z.pow_pos_nonneg; lia). rewrite (Z.mul_comm 10 q), Z.rem_mul_r by lia. lia.
Qed.
Lemma read_digits_small k z rest : 0 <= z < 10 ^ Z.of_nat k -> read_fixed k 0 (digits k z +:+ rest) = Some (z, rest).
Proof. intros Hz. rewrite read_digits_fixed by lia. rewrite Z.mod_small by done. done. Qed.

(** ** The text of an instant *)

(** Without the offset. *)
Definition wall_text (t : Z) : string :=
  let d := civil (day_of t) in
  let us := t mod day in
  let secs := us / second in
  digits 4 (year d) +:+ "-" +:+ digits 2 (month d) +:+ "-" +:+ digits 2 (mday d) +:+ "T" +:+
  digits 2 (secs / 3600) +:+ ":" +:+ digits 2 (secs / 60 mod 60) +:+ ":" +:+ digits 2 (secs mod 60) +:+
  (if us mod second =? 0 then EmptyString else "." +:+ digits 6 (us mod second)).
Definition isoformat (t : Z) : string := wall_text t +:+ "+00:00".

Example iso_epoch : isoformat 0 = "1970-01-01T00:00:00+00:00".
Proof. reflexivity. Qed.
Example iso_micro : isoformat (1709164800 * second + 42) = "2024-02-29T00:00:00.000042+00:00".
Proof. reflexivity. Qed.

(** A character that must be there. *)
Definition expect (c : ascii) (s : string) : option string :=
  match s with String d s' => if char_eqb d c then Some s' else None | EmptyString => None end.
Definition check (b : bool) : option unit := if b then Some tt else None.

Definition read_fraction (s : string) : option (Z * string) :=
  match expect "." s with Some s' => read_fixed 6 0 s' | None => Some (0, s) end.

(** Date and time of day, and what follows. *)
Definition parse_wall (s : string) : option (Z * string) :=
  '(y, s) ← read_fixed 4 0 s; s ← expect "-" s;
  '(mo, s) ← read_fixed 2 0 s; s ← expect "-" s;
  '(d, s) ← read_fixed 2 0 s; s ← expect "T" s;
  '(h, s) ← read_fixed 2 0 s; s ← expect ":" s;
  '(mi, s) ← read_fixed 2 0 s; s ← expect ":" s;
  '(se, s) ← read_fixed 2 0 s;
  '(us, s) ← read_fraction s;
  let date := {| year := y; month := mo; mday := d |} in
  let n := day_number date in
  let d' := civil n in
  _ ← check ((1 <=? y) && (1 <=? mo) && (mo <=? 12) && (1 <=? d) && (year d' =? y) && (month d' =? mo) && (mday d' =? d) &&
             (h <? 24) && (mi <? 60) && (se <? 60));
  Some (n * day + (h * 3600 + mi * 60 + se) * second + us, s).
Definition parse_iso (s : string) : option Z :=
  '(t, s) ← parse_wall s; _ ← check (str_eqb s "+00:00"); Some t.

Class IsoFormats := { other_iso : string -> option Z }.
(** [datetime.fromisoformat(s)]; [None] stands for the [ValueError]. *)
Definition fromisoformat {IF : IsoFormats} (s : string) : option Z :=
  match parse_iso s with Some t => Some t | None => other_iso s end.

(** The instants a [datetime] can name. *)
Definition representable (t : Z) : Prop := 1 <= year (civil (day_of t)) <= 9999.

Lemma expect_app c s : expect c (String c EmptyString +:+ s) = Some s.
Proof. simpl. by rewrite char_eqb_refl. Qed.

Lemma read_fraction_app us s : 0 <= us < second -> expect "." s = None ->
  read_fraction ((if us =? 0 then EmptyString else "." +:+ digits 6 us) +:+ s) = Some (us, s).
Proof.
  intros Hu Hs. unfold read_fraction. destruct (Z.eqb_spec us 0) as [->|].
  - cbn [String.append]. by rewrite Hs.
  - rewrite app_assoc_str, expect_app. by apply read_digits_small.
Qed.

Lemma parse_wall_text t rest : representable t -> expect "." rest = None -> parse_wall (wall_text t +:+ rest) = Some (t, rest).
Proof.
  intros Hy Hrest. unfold wall_text. rewrite !app_assoc_str. destruct (civil_facts (day_of t)) as (Hm & Hd & Hn).
  assert (Hus : 0 <= t mod day < day) by (apply Z.mod_pos_bound; done).
  set (us := t mod day) in *. set (secs := us / second).
  assert (Hsecs : 0 <= secs < 86400).
  { unfold secs. split; [apply Z.div_pos; [lia | done] | apply Z.div_lt_upper_bound; [done |]; unfold day in Hus; lia]. }
  assert (Hus2 : us = second * secs + us mod second) by (apply Z.div_mod; done).
  assert (Hmod : 0 <= us mod second < second) by (apply Z.mod_pos_bound; done).
  assert (Ht : t = day * day_of t + us) by (apply Z.div_mod; done).
  unfold parse_wall. unfold representable in Hy. destruct (civil (day_of t)) as [y mo d] eqn:Ec. cbn [year month mday] in *.
  rewrite read_digits_small by (simpl; lia). cbn [mbind option_bind]. rewrite expect_app. cbn [mbind option_bind].
  rewrite read_digits_small by (simpl; lia). cbn [mbind option_bind]. rewrite expect_app. cbn [mbind option_bind].
  rewrite read_digits_small by (simpl; lia). cbn [mbind option_bind]. rewrite expect_app. cbn [mbind option_bind].
  assert (Hh : 0 <= secs / 3600 < 24) by (split; [apply Z.div_pos; lia | apply Z.div_lt_upper_bound; lia]).
  assert (Hmi : 0 <= secs / 60 mod 60 < 60) by (apply Z.mod_pos_bound; lia).
  assert (Hse : 0 <= secs mod 60 < 60) by (apply Z.mod_pos_bound; lia).
  rewrite read_digits_small by (simpl; lia). cbn [mbind option_bind]. rewrite expect_app. cbn [mbind option_bind].
  rewrite read_digits_small by (simpl; lia). cbn [mbind option_bind]. rewrite expect_app. cbn [mbind option_bind].
  rewrite read_digits_small by (simpl; lia). cbn [mbind option_bind].
  rewrite read_fraction_app by done. cbn [mbind option_bind].
  rewrite Hn, Ec. cbn [year month mday]. rewrite !Z.eqb_refl.
  rewrite (proj2 (Z.leb_le 1 y)), (proj2 (Z.leb_le 1 mo)), (proj2 (Z.leb_le mo 12)), (proj2 (Z.leb_le 1 d)) by lia.
  rewrite (proj2 (Z.ltb_lt _ 24)), (proj2 (Z.ltb_lt _ 60)), (proj2 (Z.ltb_lt (secs mod 60) 60)) by lia.
  cbn [andb check mbind option_bind]. do 2 f_equal.
  assert (Hs : secs = secs / 3600 * 3600 + secs / 60 mod 60 * 60 + secs mod 60).
  { pose proof (Z.div_mod secs 60 ltac:(lia)). pose proof (Z.div_mod (secs / 60) 60 ltac:(lia)).
    rewrite Z.div_div in * by lia. change (60 * 60) with 3600 in *. lia. }
  rewrite Hus2 in Ht. rewrite Ht at 2. rewrite Hs at 4. lia.
Qed.
Lemma parse_isoformat t : representable t -> parse_iso (isoformat t) = Some t.
Proof. intros H. unfold parse_iso, isoformat. by rewrite parse_wall_text. Qed.

(** No other form, for evaluating the model. *)
Definition plain_iso : IsoFormats := {| other_iso _ := None |}.
