(* ===== verification/Pricing.v ===== *)
(** [app/ai/pricing.py]: the versioned price table and the estimated cost. *)
From S2P Require Import Prelude.

Definition PRICE_VERSION : string := "2026-07-12".

(** Micro-euros per million tokens. *)
Record ModelPrice := { input_per_mtok : Z; output_per_mtok : Z; cached_input_per_mtok : Z }.
Record TokenUsage := { input_tokens : Z; output_tokens : Z; cached_tokens : Z }.

Definition price (i o c : Z) : ModelPrice :=
  {| input_per_mtok := i; output_per_mtok := o; cached_input_per_mtok := c |}.

Definition PRICES : list (string * string * ModelPrice) :=
  [("mistral", "mistral-small-latest", price 200000 600000 200000);
   ("mistral", "mistral-large-latest", price 2000000 6000000 2000000);
   ("mistral", "mistral-embed", price 100000 0 100000);
   ("anthropic", "claude-3-5-haiku-latest", price 800000 4000000 80000);
   ("anthropic", "claude-3-5-sonnet-latest", price 3000000 15000000 300000);
   ("openai", "gpt-4o-mini", price 150000 600000 75000);
   ("openai", "gpt-4o", price 2500000 10000000 1250000);
   ("openai", "text-embedding-3-small", price 20000 0 20000)].

(** [PRICES.get((provider, model))] *)
Definition price_of (provider model : string) : option ModelPrice :=
  snd <$> List.find (fun e => str_eqb e.1.1 provider && str_eqb e.1.2 model) PRICES.

Definition estimate_cost (provider model : string) (usage : TokenUsage) : Z :=
  match price_of provider model with
  | None => 0
  | Some p =>
      let billable_input := Z.max (input_tokens usage - cached_tokens usage) 0 in
      let total := billable_input * input_per_mtok p
                   + cached_tokens usage * cached_input_per_mtok p
                   + output_tokens usage * output_per_mtok p in
      total / 1000000
  end.

(** ** Properties *)

(** What every entry of the table satisfies. *)
Definition sane (p : ModelPrice) : Prop :=
  0 <= cached_input_per_mtok p <= input_per_mtok p /\ input_per_mtok p <= 3000000 /\ 0 <= output_per_mtok p <= 15000000.

Lemma prices_sane provider model p : price_of provider model = Some p -> sane p.
Proof.
  unfold price_of. destruct (List.find _ PRICES) as [[[a b] q]|] eqn:E; [| done]. intros [= <-].
  apply List.find_some in E as [Hin _]. simpl in *. unfold sane.
  repeat (destruct Hin as [[= <- <- <-]|Hin]; [simpl; lia |]). destruct Hin.
Qed.

(** The exact cost, in millionths of a micro-euro. *)
Definition exact_cost (p : ModelPrice) (u : TokenUsage) : Z :=
  (input_tokens u - cached_tokens u) * input_per_mtok p + cached_tokens u * cached_input_per_mtok p
  + output_tokens u * output_per_mtok p.

(** The estimate is the exact cost rounded down to the micro-euro, never
    negative; a model without a price costs nothing instead of failing; cached
    tokens never cost more than uncached ones; and counts that fit the columns
    of the usage event give a cost that fits its 64-bit column. *)
Theorem estimate_cost_exact provider model (u : TokenUsage) :
  0 <= cached_tokens u <= input_tokens u -> 0 <= output_tokens u ->
  let c := estimate_cost provider model u in
  0 <= c /\
  (price_of provider model = None -> c = 0) /\
  (forall p, price_of provider model = Some p -> 1000000 * c <= exact_cost p u < 1000000 * (c + 1)) /\
  c <= estimate_cost provider model {| input_tokens := input_tokens u; output_tokens := output_tokens u; cached_tokens := 0 |} /\
  (input_tokens u < 2 ^ 31 -> output_tokens u < 2 ^ 31 -> c < 2 ^ 63).
Proof.
  intros [Hc0 Hc] Ho. unfold estimate_cost. destruct (price_of provider model) as [p|] eqn:E; [| repeat split; intros; try done; lia].
  apply prices_sane in E as ([H1 H2] & H3 & H4 & H5). cbn [input_tokens output_tokens cached_tokens].
  rewrite !Z.max_l by lia. rewrite Z.sub_0_r, Z.mul_0_l, Z.add_0_r.
  fold (exact_cost p u). set (x := exact_cost p u).
  assert (Hx : 0 <= x <= input_tokens u * input_per_mtok p + output_tokens u * output_per_mtok p) by (unfold x, exact_cost; nia).
  pose proof (Z.div_mod x 1000000 ltac:(lia)). pose proof (Z.mod_pos_bound x 1000000 ltac:(lia)).
  split; [apply Z.div_pos; lia |]. split; [done |]. split; [intros q [= <-]; fold x; lia |].
  split; [apply Z.div_le_mono; lia |]. intros Hi Hoo.
  apply Z.div_lt_upper_bound; [lia |]. nia.
Qed.

Lemma estimate_cost_exact_witness :
  estimate_cost "anthropic" "claude-3-5-haiku-latest" {| input_tokens := 1000; output_tokens := 500; cached_tokens := 400 |} <= 2800.
Proof.
  destruct (estimate_cost_exact "anthropic" "claude-3-5-haiku-latest" {| input_tokens := 1000; output_tokens := 500; cached_tokens := 400 |})
    as (_ & _ & _ & H & _); [simpl; lia | simpl; lia | exact H].
Defined.
