(* ===== verification/Policy.v ===== *)
(** [app/ai/policy.py]: the effective AI policy of a tenant, and the choice of a
    provider and a model under it. *)
From S2P Require Import Prelude PyStr Hashing Base64 Json Config Tokens Models Permissions World Sample Orm.

Definition ZERO_RETENTION_PROVIDERS : list string := ["mistral"].

Record ResolvedPolicy := {
  rp_slug : string; rp_default_provider : string; rp_default_model : string;
  rp_allowed_providers : list string; rp_zero_retention : bool; rp_monthly_token_quota : Z;
  rp_hard_limit_enabled : bool; rp_fallback_provider : option string; rp_fallback_model : option string;
  rp_byok_keys : list (string * string) }.

(** [self.select(provider, model)] *)
Definition select (self : ResolvedPolicy) (provider model : option string) : result (string * string) :=
  let resolved_provider := ostr_or provider (rp_default_provider self) in
  let resolved_model := ostr_or model (rp_default_model self) in
  raise_if! (negb (bool_decide (rp_allowed_providers self = [])) &&
             negb (str_in resolved_provider (rp_allowed_providers self)))
    (PolicyError ("Provider " +:+ py_repr resolved_provider +:+ " non autorisé par la politique du tenant.")) in
  raise_if! (rp_zero_retention self && negb (str_in resolved_provider ZERO_RETENTION_PROVIDERS))
    (PolicyError ("Provider " +:+ py_repr resolved_provider +:+ " refusé : le tenant est en zéro-rétention, seuls les providers ZDR (" +:+
                  join ", " ZERO_RETENTION_PROVIDERS +:+ ") sont autorisés.")) in
  Ok (resolved_provider, resolved_model).

Definition byok_key_for (self : ResolvedPolicy) (provider : string) : option string :=
  snd <$> List.find (fun kv => str_eqb kv.1 provider) (rp_byok_keys self).

(** [str(v)] of a value [json.loads] returns; inside a container a string shows
    as its [repr]. A float shows as its literal. *)
Fixpoint py_show (nested : bool) (v : json) : string :=
  match v with
  | JNull => "None"
  | JBool b => if b then "True" else "False"
  | JInt z => show_Z z
  | JFloat lit => lit
  | JStr s => if nested then py_repr s else s
  | JList l => "[" +:+ join ", " (List.map (py_show true) l) +:+ "]"
  | JObj m => "{" +:+ join ", " (List.map (fun kv => py_repr kv.1 +:+ ": " +:+ py_show true kv.2) m) +:+ "}"
  end.

Section policy.
Context {CFG : Settings} {AES : AesGcm}.

Definition _decrypt_byok (sealed : option bytes) : result (list (string * string)) :=
  match sealed with
  | None | Some [] => Ok []
  | Some sealed =>
      let! key := Crypto.get_key_provider in
      let! raw := Crypto.decrypt key sealed in
      let! text := decode_utf8 raw in
      let! data := loads text in
      match data with
      | JObj m => Ok (List.map (fun kv => (kv.1, py_show false kv.2)) m)
      | _ => Raise AttributeError
      end
  end.

Definition resolve_record (slug : string) (record : option TenantAIPolicy) : result ResolvedPolicy :=
  match record with
  | None => Ok {|
      rp_slug := slug; rp_default_provider := ai_default_provider; rp_default_model := ai_default_model;
      rp_allowed_providers := []; rp_zero_retention := false; rp_monthly_token_quota := ai_quota_default_monthly_tokens;
      rp_hard_limit_enabled := false; rp_fallback_provider := None; rp_fallback_model := None; rp_byok_keys := [] |}
  | Some record =>
      let! byok_keys := _decrypt_byok (ap_byok_keys_enc record) in
      Ok {|
        rp_slug := slug;
        rp_default_provider := ostr_or (ap_default_provider record) ai_default_provider;
        rp_default_model := ostr_or (ap_default_model record) ai_default_model;
        rp_allowed_providers := ap_allowed_providers record;
        rp_zero_retention := ap_zero_retention record;
        rp_monthly_token_quota := default ai_quota_default_monthly_tokens (ap_monthly_token_quota record);
        rp_hard_limit_enabled := ap_hard_limit_enabled record;
        rp_fallback_provider := ap_fallback_provider record;
        rp_fallback_model := ap_fallback_model record;
        rp_byok_keys := byok_keys |}
  end.
End policy.

Definition get_policy {CFG : Settings} {AES : AesGcm} {VK : Valkey} (s : sess) (tenant_id : N) (slug : string) :
    M ResolvedPolicy :=
  let* record := scalar s AIPolicies (fun p => (ap_tenant_id p =? tenant_id)%N) in
  of_result (resolve_record slug record).

(** ** Properties *)

(** A provider the policy lets data go to. *)
Definition permitted (p : ResolvedPolicy) (provider : string) : Prop :=
  (rp_allowed_providers p = [] \/ In provider (rp_allowed_providers p)) /\
  (rp_zero_retention p = true -> In provider ZERO_RETENTION_PROVIDERS).

Lemma select_ok p provider model pr mo : select p provider model = Ok (pr, mo) ->
  permitted p pr /\ pr = ostr_or provider (rp_default_provider p) /\ mo = ostr_or model (rp_default_model p).
Proof.
  unfold select, permitted, str_in. intros H.
  destruct (negb (bool_decide (rp_allowed_providers p = [])) && _) eqn:E1; [done |].
  destruct (rp_zero_retention p && _) eqn:E2; [done |]. injection H as <- <-.
  split; [| done]. split.
  - destruct (decide (rp_allowed_providers p = [])) as [Hn|Hn]; [by left | right].
    rewrite bool_decide_eq_false_2 in E1 by done. simpl in E1. bool_hyps. by apply list_elem_of_In.
  - intros Hz. rewrite Hz in E2. simpl in E2. bool_hyps. by apply list_elem_of_In.
Qed.

Lemma select_refused p provider model e : select p provider model = Raise e ->
  ~ permitted p (ostr_or provider (rp_default_provider p)) /\ exists msg, e = PolicyError msg.
Proof.
  unfold select, permitted, str_in. intros H.
  destruct (negb (bool_decide (rp_allowed_providers p = [])) && _) eqn:E1.
  - bool_hyps. injection H as <-. split; [| by eexists]. intros [[Hn|Hin] _]; [done |]. by apply list_elem_of_In in Hin.
  - destruct (rp_zero_retention p && _) eqn:E2; [| done]. bool_hyps. injection H as <-. split; [| by eexists].
    intros [_ Hz]. specialize (Hz ltac:(done)). by apply list_elem_of_In in Hz.
Qed.

(** The policy decides and never degrades: the provider chosen is the one asked
    for, or the policy's default, exactly when it is allowed and, under zero
    retention, one of the listed providers; otherwise the request is refused with
    a policy error, never redirected. *)
Theorem select_decides p provider model :
  let pr := ostr_or provider (rp_default_provider p) in
  let mo := ostr_or model (rp_default_model p) in
  (permitted p pr <-> select p provider model = Ok (pr, mo)) /\
  (~ permitted p pr <-> exists msg, select p provider model = Raise (PolicyError msg)).
Proof.
  intros pr mo. destruct (select p provider model) as [[pr' mo']|e] eqn:E.
  - apply select_ok in E as (Hp & -> & ->). split; [done |]. split; [done | by intros [? ?]].
  - apply select_refused in E as [Hn [msg ->]]. split; split; try done. by exists msg.
Qed.
