(* ===== verification/OAuth.v ===== *)
(** [app/auth/oauth.py] and the OAuth routes of [app/auth/router.py]: login with a
    Google or Microsoft account, for users who exist already.

    Authlib's JOSE is an interface: the claims of an id_token that is valid, at an
    instant, under a key set and for a client. *)
From S2P Require Import Prelude PyStr Hashing Base64 Json Config Tokens Models Permissions World Orm Isolation AuthService Slug Deps Edge Journal Frame Directory AuthRouter Policy Http Sample.

Definition STATE_TTL_SECONDS : Z := 600.
Definition metadata_url (provider : OAuthProvider) : string :=
  match provider with
  | OAUTH_GOOGLE => "https://accounts.google.com/.well-known/openid-configuration"
  | OAUTH_MICROSOFT => "https://login.microsoftonline.com/common/v2.0/.well-known/openid-configuration"
  end.

(** [jwt.decode(id_token, jwks, ...)] then [claims.validate(now)], which demands
    the audience and an expiry that has not passed. *)
Class Jose := { jwt_claims : string -> json -> string -> Z -> result (list (string * json)) }.

Record OAuthUserInfo := { ou_provider : OAuthProvider; ou_subject : string; ou_email : string; ou_email_verified : bool }.
Record Redirect := { rd_status : Z; rd_url : string }.

Section oauth.
Context {P : Platform} {HX : Httpx} {JW : Jose}.

Definition _client_credentials (provider : OAuthProvider) : result (string * string) :=
  let '(client_id, secret) := match provider with
    | OAUTH_GOOGLE => (google_client_id, google_client_secret)
    | OAUTH_MICROSOFT => (microsoft_client_id, microsoft_client_secret)
    end in
  raise_if! (str_eqb client_id "" || str_eqb secret "")
    (OAuthLoginError ("Provider OAuth " +:+ OAuthProvider_value provider +:+ " non configuré (client_id/client_secret manquants).")) in
  Ok (client_id, secret).

Definition redirect_uri (provider : OAuthProvider) : string :=
  public_base_url +:+ "/api/v1/auth/oauth/" +:+ OAuthProvider_value provider +:+ "/callback".

Definition _fetch_metadata (provider : OAuthProvider) : M json :=
  let* response := http_get (metadata_url provider) None in
  let* _ := of_result (raise_for_status response) in
  of_result (response_json response).

Definition oauth_state (provider : OAuthProvider) (return_host nonce : string) (now : Z) : result string :=
  sign_payload [("p", JStr (OAuthProvider_value provider)); ("r", JStr return_host); ("n", JStr nonce)] STATE_TTL_SECONDS now.

Definition build_authorization_url (provider : OAuthProvider) (return_host : string) : M string :=
  let* (client_id, _) := of_result (_client_credentials provider) in
  let* metadata := _fetch_metadata provider in
  let* random := random_bytes TOKEN_BYTES in
  let nonce := generate_token random in
  let* t := now in
  let* state := of_result (oauth_state provider return_host nonce t) in
  let params := query_string [("response_type", "code"); ("client_id", client_id); ("redirect_uri", redirect_uri provider);
                              ("scope", "openid email profile"); ("state", state); ("nonce", nonce)] in
  let* authorization_endpoint := of_result (json_item metadata "authorization_endpoint") in
  ret (py_show false authorization_endpoint +:+ "?" +:+ params).

Definition _exchange_code (provider : OAuthProvider) (code : string) (metadata : json) : M string :=
  let* (client_id, client_secret) := of_result (_client_credentials provider) in
  let* endpoint := of_result (let! v := json_item metadata "token_endpoint" in as_url v) in
  let* response := http_post endpoint
    [("grant_type", "authorization_code"); ("code", code); ("redirect_uri", redirect_uri provider);
     ("client_id", client_id); ("client_secret", client_secret)] in
  raise_when (negb (hs_status response =? 200))
    (OAuthLoginError ("Échange de code refusé par " +:+ OAuthProvider_value provider +:+ " (HTTP " +:+ show_Z (hs_status response) +:+ ").")) in
  let* id_token := of_result (let! body := response_json response in json_get body "id_token") in
  match as_str id_token with
  | Some t => ret t
  | None => raise (OAuthLoginError ("Réponse token de " +:+ OAuthProvider_value provider +:+ " sans id_token."))
  end.

(** The checks on the claims of a valid token. *)
Definition read_claims (provider : OAuthProvider) (nonce : string) (claims : list (string * json)) : result OAuthUserInfo :=
  raise_if! (negb (match dict_get "nonce" claims with Some (JStr n) => str_eqb n nonce | _ => false end))
    (OAuthLoginError "Nonce de l'id_token inattendu.") in
  match as_str (dict_get "email" claims), as_str (dict_get "sub" claims) with
  | Some email, Some subject =>
      Ok {| ou_provider := provider; ou_subject := subject; ou_email := email;
            ou_email_verified := truthy (default (JBool false) (dict_get "email_verified" claims)) |}
  | _, _ => Raise (OAuthLoginError "id_token sans email ou subject.")
  end.

Definition _validate_id_token (provider : OAuthProvider) (id_token nonce : string) (metadata : json) : M OAuthUserInfo :=
  let* (client_id, _) := of_result (_client_credentials provider) in
  let* jwks_uri := of_result (let! v := json_item metadata "jwks_uri" in as_url v) in
  let* response := http_get jwks_uri None in
  let* _ := of_result (raise_for_status response) in
  let* jwks := of_result (response_json response) in
  let* t := now in
  let* claims := catch (of_result (jwt_claims id_token jwks client_id (t / second))) (fun e =>
    match e with
    | JoseError => Some (raise (OAuthLoginError ("id_token invalide (" +:+ OAuthProvider_value provider +:+ ").")))
    | _ => None
    end) in
  of_result (read_claims provider nonce claims).

(** [except ValueError], of which [InvalidSignedPayloadError] is a subclass. *)
Definition parse_state (state : string) (expected_provider : OAuthProvider) (now : Z) : result (string * string) :=
  let! payload := match verify_payload state now with
                  | Raise (ValueError _ | InvalidSignedPayloadError _) => Raise (OAuthLoginError "State OAuth invalide ou expiré.")
                  | r => r
                  end in
  raise_if! (negb (match dict_get "p" payload with Some (JStr p) => str_eqb p (OAuthProvider_value expected_provider) | _ => false end))
    (OAuthLoginError "State OAuth émis pour un autre provider.") in
  match as_str (dict_get "r" payload), as_str (dict_get "n" payload) with
  | Some return_host, Some nonce => Ok (return_host, nonce)
  | _, _ => Raise (OAuthLoginError "State OAuth incomplet.")
  end.

Definition fetch_info (provider : OAuthProvider) (code nonce : string) : M OAuthUserInfo :=
  let* metadata := _fetch_metadata provider in
  let* id_token := _exchange_code provider code metadata in
  _validate_id_token provider id_token nonce metadata.

(** The user of an identity, or the account to link it to. *)
Definition identified_user (s : sess) (provider : OAuthProvider) (info : OAuthUserInfo) : M User :=
  let* identity := scalar s OAuthIdentities (fun i => bool_decide (oi_provider i = provider) && str_eqb (oi_subject i) (ou_subject info)) in
  match identity with
  | Some i =>
      let* user := get_user s (oi_user_id i) in
      match user with
      | Some u => ret u
      | None => raise (OAuthLoginError "Identité OAuth orpheline.")
      end
  | None =>
      raise_when (negb (ou_email_verified info))
        (OAuthLoginError ("Email non vérifié chez " +:+ OAuthProvider_value provider +:+ " — liaison refusée.")) in
      let* user := get_user_by_email s (ou_email info) in
      match user with
      | None => raise (OAuthLoginError "Aucun compte pour cette identité — l'inscription se fait sur invitation.")
      | Some u =>
          let* id := uuid4 in
          let* _ := add s OAuthIdentities {| oi_id := id; oi_provider := provider; oi_subject := ou_subject info; oi_user_id := us_id u |} in
          ret u
      end
  end.

Definition complete_login (s : sess) (provider : OAuthProvider) (code nonce : string) : M User :=
  let* info := fetch_info provider code nonce in
  identified_user s provider info.

(** ** The routes *)

Definition _apex_host : string := Url.netloc public_base_url.
Definition _validate_return_host (host : string) : string :=
  let bare := before_char ":" host in
  let apex_bare := before_char ":" _apex_host in
  if str_eqb bare apex_bare || endswith bare ("." +:+ apex_bare) then host else _apex_host.

Definition oauth_error_as {A} (status : Z) (detail : string -> string) (m : M A) : M A :=
  catch m (fun e => match e with OAuthLoginError msg => Some (raise (HTTPException status (detail msg))) | _ => None end).

(** The route depends on no session. *)
Definition oauth_start (provider : OAuthProvider) (rq : Request) : M Redirect :=
  let return_host := _validate_return_host (default _apex_host (rq_host rq)) in
  let* url := oauth_error_as 503 (fun msg => msg) (build_authorization_url provider return_host) in
  ret {| rd_status := 307; rd_url := url |}.

(** The body of the [try]. *)
Definition caller_of (provider : OAuthProvider) (code state : string) : M (string * User) :=
  let* t := now in
  let* (return_host, nonce) := of_result (parse_state state provider t) in
  let* user := complete_login Ctl provider code nonce in
  ret (return_host, user).

Definition oauth_callback (provider : OAuthProvider) (code state : string) : M (Response Redirect) :=
  public_route (
    let* (return_host, user) := oauth_error_as 403 (fun _ => "Connexion OAuth refusée")
      (caller_of provider code state) in
    let* token := create_session Ctl (us_id user) in
    let* _ := commit Ctl in
    ret {| rs_body := {| rd_status := 303; rd_url := Url.scheme public_base_url +:+ "://" +:+ _validate_return_host return_host +:+ "/" |};
           rs_cookies := [session_cookie token] |}).
End oauth.

(** ** Running *)

Section running.
Context {P : Platform} {HX : Httpx} {JW : Jose}.
Implicit Types (w : World).

Lemma still_fetch_info W provider code nonce : still W (fetch_info provider code nonce).
Proof.
  unfold fetch_info, _fetch_metadata, _exchange_code, _validate_id_token. apply still_bind.
  { apply still_bind; [apply still_http_get |]. intros r. apply still_bind; done. }
  intros metadata. apply still_bind.
  - apply still_bind; [done |]. intros [id secret]. apply still_bind; [done |]. intros url. apply still_bind; [apply still_http_post |].
    intros r. destruct (negb _); [done |]. apply still_bind; [done |]. intros t. by destruct (as_str t).
  - intros tok. apply still_bind; [done |]. intros [id secret]. apply still_bind; [done |]. intros url.
    apply still_bind; [apply still_http_get |]. intros r. apply still_bind; [done |]. intros _. apply still_bind; [done |].
    intros jwks. apply still_bind; [done |]. intros t. apply still_bind; [| done].
    apply still_pure. intros w. unfold catch, of_result. by destruct (jwt_claims _ _ _ _) as [|[]].
Qed.

(** An id_token of the provider's that vouches for [info]. *)
Definition vouched (provider : OAuthProvider) (nonce : string) (t : Z) (info : OAuthUserInfo) : Prop :=
  exists id_token jwks client_id secret claims,
    _client_credentials provider = Ok (client_id, secret) /\
    jwt_claims id_token jwks client_id (t / second) = Ok claims /\
    dict_get "nonce" claims = Some (JStr nonce) /\ dict_get "sub" claims = Some (JStr (ou_subject info)) /\
    dict_get "email" claims = Some (JStr (ou_email info)) /\
    (ou_email_verified info = true -> exists v, dict_get "email_verified" claims = Some v /\ truthy v = true).

Lemma as_str_Some v s : as_str v = Some s -> v = Some (JStr s).
Proof. destruct v as [[]|]; simpl; congruence. Qed.

Lemma read_claims_ok provider nonce claims info : read_claims provider nonce claims = Ok info ->
  dict_get "nonce" claims = Some (JStr nonce) /\ dict_get "sub" claims = Some (JStr (ou_subject info)) /\
  dict_get "email" claims = Some (JStr (ou_email info)) /\
  (ou_email_verified info = true -> exists v, dict_get "email_verified" claims = Some v /\ truthy v = true).
Proof.
  unfold read_claims. destruct (dict_get "nonce" claims) as [[| | | |n| |]|]; try done. simpl.
  destruct (str_eqb n nonce) eqn:En; [| done]. bool_hyps. subst n. simpl.
  destruct (as_str (dict_get "email" claims)) as [email|] eqn:Ee; [| done].
  destruct (as_str (dict_get "sub" claims)) as [sub|] eqn:Es; [| done]. intros [= <-]. simpl.
  apply as_str_Some in Ee, Es. split; [done |]. split; [done |]. split; [done |].
  destruct (dict_get "email_verified" claims) as [v|]; simpl; [| done]. intros H. by exists v.
Qed.

Lemma fetch_info_ok provider code nonce w info w' : fetch_info provider code nonce w = (Ok info, w') ->
  vouched provider nonce (w_now w) info.
Proof.
  unfold fetch_info. unfold bind at 1. destruct (_fetch_metadata provider w) as [[metadata|e] w1] eqn:E1; [| done].
  assert (H1 : w_now w1 = w_now w).
  { refine (proj2 (still_db [] _ _ _ _ _ E1)). unfold _fetch_metadata.
    apply still_bind; [apply still_http_get |]. intros r. by apply still_bind. }
  unfold bind at 1. destruct (_exchange_code provider code metadata w1) as [[tok|e] w2] eqn:E2; [| done].
  assert (H2 : w_now w2 = w_now w1).
  { refine (proj2 (still_db [] _ _ _ _ _ E2)). unfold _exchange_code. apply still_bind; [done |]. intros [id secret].
    apply still_bind; [done |]. intros url. apply still_bind; [apply still_http_post |]. intros r. destruct (negb _); [done |].
    apply still_bind; [done |]. intros t. by destruct (as_str t). }
  unfold _validate_id_token. destruct (_client_credentials provider) as [[client_id secret]|e] eqn:Ec; run; [| done].
  destruct (result_bind _ _) as [url|e]; run; [| done].
  unfold bind at 1. destruct (http_get url None w2) as [[r|e] w3] eqn:E3; [| done].
  assert (H3 : w_now w3 = w_now w2) by (refine (proj2 (still_db [] _ _ _ _ _ E3)); apply still_http_get).
  destruct (raise_for_status r) as [[]|e]; run; [| done]. destruct (response_json r) as [jwks|e]; run; [| done].
  unfold bind, catch, of_result. destruct (jwt_claims tok jwks client_id (w_now w3 / second)) as [claims|e] eqn:Ej; [| by destruct e].
  intros [= H <-]. rewrite H3, H2, H1 in Ej. exists tok, jwks, client_id, secret, claims.
  split; [done |]. split; [done |]. by apply (read_claims_ok provider).
Qed.

(** The two ways to be known. *)
Definition known (db : Db) (provider : OAuthProvider) (info : OAuthUserInfo) (u : User) (db' : Db) : Prop :=
  In u (db Users) /\
  ((exists i, In i (db OAuthIdentities) /\ oi_provider i = provider /\ oi_subject i = ou_subject info /\ oi_user_id i = us_id u /\
      db' OAuthIdentities = db OAuthIdentities) \/
   ((forall i, In i (db OAuthIdentities) -> oi_provider i = provider -> oi_subject i <> ou_subject info) /\
    ou_email_verified info = true /\ lower (us_email u) = lower (ou_email info) /\
    (forall i, In i (db OAuthIdentities) -> oi_provider i = provider -> oi_user_id i <> us_id u) /\
    exists id, db' OAuthIdentities = db OAuthIdentities ++
      [{| oi_id := id; oi_provider := provider; oi_subject := ou_subject info; oi_user_id := us_id u |}])).

Lemma identified_ok s provider info w u w' : identified_user s provider info w = (Ok u, w') ->
  known (sees w s) provider info u (sees w' s) /\ (forall t, t <> OAuthIdentities -> sees w' s t = sees w s t).
Proof.
  unfold identified_user, get_user, get_user_by_email. run. case_query as [i|] Ei.
  - apply first_where_Some in Ei as [Hi Ep]. bool_hyps. run. case_query as [u'|] Eu; run; [| done]. intros [= <- <-].
    apply first_where_Some in Eu as [Hu Eu]. bool_hyps. split; [| done]. split; [done |]. left. by exists i.
  - rewrite first_where_None in Ei.
    assert (Hno : forall i, In i (sees w s OAuthIdentities) -> oi_provider i = provider -> oi_subject i <> ou_subject info).
    { intros i Hi Hp Hs. specialize (Ei i Hi). rewrite Hp, Hs, str_eqb_refl, bool_decide_eq_true_2 in Ei by done. done. }
    destruct (ou_email_verified info) eqn:Ev; simpl; [| done]. run. case_query as [u'|] Eu; run; [| done].
    apply first_where_Some in Eu as [Hu Eu]. bool_hyps.
    destruct (existsb _ _) eqn:Ec; [done |]. run. intros [= <- <-]. split.
    + split; [done |]. right. split; [done |]. split; [done |]. split; [done |]. split.
      * intros i Hi Hp Hs. apply not_true_iff_false in Ec. apply Ec, existsb_exists. exists i. split; [exact Hi |].
        simpl. rewrite Hs, N.eqb_refl, Hp, bool_decide_eq_true_2 by done.
        simpl. by rewrite !orb_true_r.
      * eexists. simpl_view. reflexivity.
    + intros t Ht. simpl_view. by rewrite upd_ne.
Qed.

Lemma still_identified_user s provider info : still [OAuthIdentities] (identified_user s provider info).
Proof.
  unfold identified_user, get_user, get_user_by_email. apply still_bind; [exact (still_scalar _ s OAuthIdentities _) |]. intros [i|].
  - apply still_bind; [exact (still_scalar _ s Users _) |]. by intros [u|].
  - destruct (negb _); [done |]. apply still_bind; [exact (still_scalar _ s Users _) |]. intros [u|]; [| done].
    apply still_bind; [done |]. intros id. apply still_bind; [apply still_add; by left |]. done.
Qed.

Lemma parse_state_ok state provider t host nonce : parse_state state provider t = Ok (host, nonce) ->
  exists payload, verify_payload state t = Ok payload /\ dict_get "p" payload = Some (JStr (OAuthProvider_value provider)) /\
    dict_get "r" payload = Some (JStr host) /\ dict_get "n" payload = Some (JStr nonce).
Proof.
  unfold parse_state. destruct (verify_payload state t) as [payload|e]; [| by destruct e].
  simpl. destruct (dict_get "p" payload) as [[| | | |p| |]|] eqn:Ep; try done. destruct (str_eqb p _) eqn:E; [| done]. bool_hyps. subst p.
  simpl. destruct (as_str (dict_get "r" payload)) as [r|] eqn:Er; [| done].
  destruct (as_str (dict_get "n" payload)) as [n|] eqn:En; [| done]. intros [= <- <-]. apply as_str_Some in Er, En. by exists payload.
Qed.

Lemma oauth_error_as_run {A} status detail (m : M A) w r w' : oauth_error_as status detail m w = (r, w') ->
  (exists x, r = Ok x /\ m w = (Ok x, w')) \/ (exists e e', r = Raise e /\ m w = (Raise e', w')).
Proof.
  unfold oauth_error_as, catch. destruct (m w) as [[x|e] w1]; [intros [= <- <-]; left; by exists x |].
  intros H. right. exists (match e with OAuthLoginError msg => HTTPException status (detail msg) | _ => e end), e.
  destruct e; by injection H as <- <-.
Qed.

Lemma still_caller_of provider code state : still [OAuthIdentities] (caller_of provider code state).
Proof.
  unfold caller_of, complete_login. apply still_bind; [done |]. intros t. apply still_bind; [done |]. intros [host nonce].
  apply still_bind; [| done]. apply still_bind; [apply still_fetch_info |]. intros info. apply still_identified_user.
Qed.

Lemma caller_of_ok provider code state w host u w' : caller_of provider code state w = (Ok (host, u), w') ->
  exists payload nonce info,
    verify_payload state (w_now w) = Ok payload /\
    dict_get "p" payload = Some (JStr (OAuthProvider_value provider)) /\ dict_get "n" payload = Some (JStr nonce) /\
    vouched provider nonce (w_now w) info /\ known (sees w Ctl) provider info u (sees w' Ctl) /\
    (forall t, t <> OAuthIdentities -> sees w' Ctl t = sees w Ctl t).
Proof.
  unfold caller_of, complete_login. run. destruct (parse_state state provider (w_now w)) as [[h nonce]|e] eqn:Ep; run; [| done].
  destruct (fetch_info provider code nonce w) as [[info|e] w1] eqn:Ef; unfold bind at 1; rewrite Ef; [| done].
  destruct (still_nil _ _ _ _ (still_fetch_info [] provider code nonce) Ef) as (S1 & D1 & N1). apply fetch_info_ok in Ef.
  unfold bind. destruct (identified_user Ctl provider info w1) as [[u'|e] w2] eqn:Eu; [| done]. intros [= -> -> ->].
  apply identified_ok in Eu as [Hk S2]. apply parse_state_ok in Ep as (payload & E1 & E2 & _ & E3).
  exists payload, nonce, info. do 4 (split; [done |]). split.
  - unfold known in *. by rewrite !S1 in Hk.
  - intros t Ht. by rewrite S2, S1.
Qed.
End running.

(** ** Properties *)

Section properties.
Context {P : Platform} {HX : Httpx} {JW : Jose}.
Implicit Types (w : World).

(** C20: who logs in with OAuth. The callback answers with a session only on a state
    the server signed itself for that provider, still valid, and on an id_token
    that is valid for the configured client and carries the state's nonce. The
    session is that of the user linked to the token's subject, or, when no one
    is, of the existing user whose email the token states as verified, who gets
    linked and had no identity at that provider. No user is ever created, and
    nothing but the link and the session is written; every other outcome leaves
    the database as it was. *)
Theorem oauth_callback_decides provider code state w : quiet w ->
  let '(r, w') := oauth_callback provider code state w in
  match r with
  | Ok resp => exists payload nonce info u token a,
      verify_payload state (w_now w) = Ok payload /\
      dict_get "p" payload = Some (JStr (OAuthProvider_value provider)) /\ dict_get "n" payload = Some (JStr nonce) /\
      vouched provider nonce (w_now w) info /\ known (w_db w) provider info u (w_db w') /\
      rs_cookies resp = [session_cookie token] /\ new_session_for (us_id u) token (w_now w) a /\
      w_db w' Sessions = w_db w Sessions ++ [a] /\
      (forall t, t <> Sessions -> t <> OAuthIdentities -> w_db w' t = w_db w t)
  | Raise _ => w_db w' = w_db w
  end.
Proof.
  intros Hq. unfold oauth_callback. open_route w Hq. revert Hm.
  assert (Hn : w_now w0 = w_now w) by apply Hw. assert (Hd : w_db w0 = w_db w) by apply Hw.
  unfold bind at 1. destruct (oauth_error_as _ _ (caller_of provider code state) w0) as [rc w1] eqn:E1.
  apply oauth_error_as_run in E1 as [([host u] & -> & E1) | (e & e' & -> & E1)];
    destruct (still_db _ _ _ _ _ (still_caller_of provider code state) E1) as [D1 N1].
  2: { intros [= <- <-]. simpl. congruence. }
  apply caller_of_ok in E1 as (payload & nonce & info & C1 & C2 & C3 & C4 & C5 & C6).
  unfold bind at 1. destruct (create_session Ctl (us_id u) w1) as [rc w2] eqn:Ec.
  destruct (still_db _ _ _ _ _ (still_create_session [Sessions] Ctl (us_id u) ltac:(by left)) Ec) as (D2 & _).
  destruct rc as [tok|e]; [| intros [= <- <-]; simpl; congruence].
  apply create_session_run in Ec as (a & A1 & A2 & A3 & A4 & _ & A5 & A6 & _). run. intros [= <- <-]. simpl.
  rewrite Hn in *. exists payload, nonce, info, u, tok, a. do 4 (split; [done |]). split.
  { unfold known in *. rewrite A6 by done. by rewrite !Hs in C5. }
  split; [done |]. split; [unfold new_session_for; rewrite A4; repeat (split; [done |]); congruence |].
  split; [by rewrite A5, C6, Hs |]. intros t Ht1 Ht2. by rewrite A6, C6, Hs.
Qed.

(** The state of a login round trip. What the start signs for a provider, the
    callback of that provider reads back, host and nonce, for ten minutes; the
    callback of the other provider refuses it, and so does anyone later. *)
Theorem oauth_state_roundtrip key provider provider' return_host nonce now now' :
  master_key_bytes = Ok key ->
  exists state, oauth_state provider return_host nonce now = Ok state /\
    parse_state state provider' now' =
      if (now / second + STATE_TTL_SECONDS) * second <? now' then Raise (OAuthLoginError "State OAuth invalide ou expiré.")
      else if bool_decide (provider = provider') then Ok (return_host, nonce)
      else Raise (OAuthLoginError "State OAuth émis pour un autre provider.").
Proof.
  intros Hkey. unfold oauth_state.
  destruct (signed_then_verified key [("p", JStr (OAuthProvider_value provider)); ("r", JStr return_host); ("n", JStr nonce)]
    STATE_TTL_SECONDS now now' Hkey) as (st & E1 & E2).
  { split; [repeat constructor; simpl; intuition discriminate | simpl; tauto]. }
  exists st. split; [done |]. unfold parse_state. rewrite E2. destruct (_ <? now'); [done |]. by destruct provider, provider'.
Qed.
End properties.

(** ** Witnesses *)

(** A provider with the three endpoints the login talks to, and a token of Bob's. *)
Definition google_answers : Httpx := {|
  http_answer rq _ _ := inr {| hs_status := 200; hs_retry_after := None;
    hs_body := if str_eqb (hr_url rq) "https://idp/token" then dumps (JObj [("id_token", JStr "bob-token")])
               else if str_eqb (hr_url rq) "https://idp/keys" then dumps (JList [])
               else dumps (JObj [("token_endpoint", JStr "https://idp/token"); ("jwks_uri", JStr "https://idp/keys")]) |};
  query_string _ := "" |}.
Definition bob_token : Jose := {| jwt_claims id_token _ client_id _ :=
  if str_eqb id_token "bob-token" && str_eqb client_id "login-app" then
    Ok [("nonce", JStr "nonce-1"); ("sub", JStr "google-bob"); ("email", JStr "BOB@acme.fr"); ("email_verified", JBool true)]
  else Raise JoseError |}.
Definition bob_state : string :=
  match oauth_state (P := google_platform) OAUTH_GOOGLE "acme.localhost:8000" "nonce-1" t0 with Ok st => st | Raise _ => EmptyString end.

Lemma oauth_callback_decides_witness :
  let '(r, w') := oauth_callback (P := google_platform) (HX := google_answers) (JW := bob_token) OAUTH_GOOGLE "code" bob_state sample_world in
  exists resp u, r = Ok resp /\ rd_url (rs_body resp) = "http://acme.localhost:8000/" /\
    known sample_db OAUTH_GOOGLE {| ou_provider := OAUTH_GOOGLE; ou_subject := "google-bob"; ou_email := "BOB@acme.fr"; ou_email_verified := true |}
      u (w_db w').
Proof.
  pose proof (oauth_callback_decides (P := google_platform) (HX := google_answers) (JW := bob_token)
    OAUTH_GOOGLE "code" bob_state sample_world sample_quiet) as H.
  destruct (oauth_callback (P := google_platform) (HX := google_answers) (JW := bob_token) OAUTH_GOOGLE "code" bob_state sample_world)
    as [[resp|e] w'] eqn:E.
  - exists resp. assert (Hu : rd_url (rs_body resp) = "http://acme.localhost:8000/").
    { apply (f_equal fst) in E. vm_compute in E. injection E as <-. reflexivity. }
    destruct H as (payload & nonce & info & u & token & a & _ & _ & _ & Hv & Hk & _). exists u. split; [reflexivity |]. split; [exact Hu |].
    destruct Hv as (tok & jwks & cid & secret & claims & _ & Hc & _ & Hsub & Hem & Hver).
    assert (Hcl : claims = [("nonce", JStr "nonce-1"); ("sub", JStr "google-bob"); ("email", JStr "BOB@acme.fr"); ("email_verified", JBool true)]).
    { unfold bob_token in Hc. cbn [jwt_claims] in Hc. destruct (str_eqb tok _ && _); [| discriminate Hc]. injection Hc as <-. reflexivity. }
    subst claims. clear E. destruct Hk as [Hin Hk]. split; [exact Hin |].
    injection Hsub as Hs. injection Hem as Hm. rewrite <- Hs, <- Hm in Hk.
    destruct Hk as [Hk | (K1 & K2 & K3)]; [left; exact Hk | right; split; [exact K1 |]; split; [reflexivity | exact K3]].
  - exfalso. apply (f_equal fst) in E. vm_compute in E. discriminate E.
Defined.

Lemma oauth_state_roundtrip_witness :
  exists state, oauth_state (P := google_platform) OAUTH_GOOGLE "acme.localhost:8000" "nonce-1" t0 = Ok state /\
    parse_state (P := google_platform) state OAUTH_GOOGLE (t0 + 60 * second) = Ok ("acme.localhost:8000", "nonce-1").
Proof.
  destruct (oauth_state_roundtrip (P := google_platform) dev_master_key OAUTH_GOOGLE OAUTH_GOOGLE "acme.localhost:8000" "nonce-1"
    t0 (t0 + 60 * second) eq_refl) as (st & H1 & H2). exists st. split; [exact H1 | exact H2].
Defined.
