(* ===== verification/Providers.v ===== *)
(** [app/connectors/registry.py], the two provider manifests and
    [app/connectors/capabilities.py]: what a provider offers, which scopes are
    asked for, and which capabilities a connection has been granted.

    The registry is read as the constant the code registers: [Globals] shows when it is. *)
From S2P Require Import Prelude PyStr Json Models Uuid World Directory Http Sample.

Definition CAPABILITY_MAIL : string := "mail".
Definition CAPABILITY_CALENDAR : string := "calendar".
Definition KNOWN_CAPABILITIES : list string := [CAPABILITY_MAIL; CAPABILITY_CALENDAR].

Record ProviderManifest := {
  pm_provider : ConnectorProvider;
  pm_authorization_endpoint : string;
  pm_token_endpoint : string;
  pm_account_info_endpoint : string;
  pm_parse_account_label : json -> result (option string);
  pm_base_scopes : list string;
  pm_capability_scopes : list (string * list string);
  pm_api_base_url : string;
  pm_revoke_endpoint : option string;
  pm_authorization_extra_params : list (string * string);
  pm_requests_per_minute : Z;
  pm_subscription_ttl_hours : Z
}.

Definition capabilities (self : ProviderManifest) : list string := List.map fst (pm_capability_scopes self).

(** [mapping[key]] on a dict of the code, as the list of its items. *)
Definition item_of {A} (key : string) (m : list (string * A)) : option A :=
  snd <$> List.find (fun kv => str_eqb kv.1 key) m.

(** [scopes.extend(scope for scope in more if scope not in scopes)]: the generator
    looks at the list as it grows. *)
Fixpoint extend_new (scopes more : list string) : list string :=
  match more with
  | [] => scopes
  | scope :: more' => extend_new (if str_in scope scopes then scopes else scopes ++ [scope]) more'
  end.

Fixpoint add_scopes (self : ProviderManifest) (asked scopes : list string) : result (list string) :=
  match asked with
  | [] => Ok scopes
  | capability :: asked' =>
      match item_of capability (pm_capability_scopes self) with
      | None => Raise (UnsupportedCapabilityError ("Capability " +:+ py_repr capability +:+ " non supportée par " +:+
                  ConnectorProvider_value (pm_provider self) +:+ "."))
      | Some capability_scopes => add_scopes self asked' (extend_new scopes capability_scopes)
      end
  end.
Definition scopes_for (self : ProviderManifest) (asked : list string) : result (list string) :=
  add_scopes self asked (pm_base_scopes self).

(** ** The manifests *)

Definition google_account_label (payload : json) : result (option string) :=
  let! email := json_get payload "email" in Ok (as_str email).

Definition GOOGLE_MANIFEST : ProviderManifest := {|
  pm_provider := CONNECTOR_GOOGLE;
  pm_authorization_endpoint := "https://accounts.google.com/o/oauth2/v2/auth";
  pm_token_endpoint := "https://oauth2.googleapis.com/token";
  pm_account_info_endpoint := "https://openidconnect.googleapis.com/v1/userinfo";
  pm_parse_account_label := google_account_label;
  pm_base_scopes := ["openid"; "email"];
  pm_capability_scopes := [
    (CAPABILITY_MAIL, ["https://www.googleapis.com/auth/gmail.readonly"; "https://www.googleapis.com/auth/gmail.send"]);
    (CAPABILITY_CALENDAR, ["https://www.googleapis.com/auth/calendar"])];
  pm_api_base_url := "https://www.googleapis.com";
  pm_revoke_endpoint := Some "https://oauth2.googleapis.com/revoke";
  pm_authorization_extra_params := [("access_type", "offline"); ("prompt", "consent")];
  pm_requests_per_minute := 240;
  pm_subscription_ttl_hours := 7 * 24 |}.

Fixpoint first_text (payload : json) (keys : list string) : result (option string) :=
  match keys with
  | [] => Ok None
  | key :: keys' =>
      let! value := json_get payload key in
      match as_str value with
      | Some s => if str_eqb s "" then first_text payload keys' else Ok (Some s)
      | None => first_text payload keys'
      end
  end.
Definition microsoft_account_label (payload : json) : result (option string) :=
  first_text payload ["mail"; "userPrincipalName"].

Definition MICROSOFT_MANIFEST : ProviderManifest := {|
  pm_provider := CONNECTOR_MICROSOFT;
  pm_authorization_endpoint := "https://login.microsoftonline.com/common/oauth2/v2.0/authorize";
  pm_token_endpoint := "https://login.microsoftonline.com/common/oauth2/v2.0/token";
  pm_account_info_endpoint := "https://graph.microsoft.com/v1.0/me";
  pm_parse_account_label := microsoft_account_label;
  pm_base_scopes := ["openid"; "email"; "offline_access"];
  pm_capability_scopes := [
    (CAPABILITY_MAIL, ["Mail.Read"; "Mail.Send"]);
    (CAPABILITY_CALENDAR, ["Calendars.ReadWrite"])];
  pm_api_base_url := "https://graph.microsoft.com/v1.0";
  pm_revoke_endpoint := None;
  pm_authorization_extra_params := [];
  pm_requests_per_minute := 600;
  pm_subscription_ttl_hours := 3 * 24 |}.

(** ** The registry *)

Definition _register (provider : ConnectorProvider) : ProviderManifest :=
  match provider with CONNECTOR_GOOGLE => GOOGLE_MANIFEST | CONNECTOR_MICROSOFT => MICROSOFT_MANIFEST end.

(** [ConnectorProvider(text)] and [ConnectionKind(text)]. *)
Definition ConnectorProvider_of (text : string) : option ConnectorProvider :=
  List.find (fun p => str_eqb (ConnectorProvider_value p) text) [CONNECTOR_GOOGLE; CONNECTOR_MICROSOFT].
Definition ConnectionKind_of (text : string) : option ConnectionKind :=
  List.find (fun k => str_eqb (ConnectionKind_value k) text) [KIND_TENANT; KIND_USER].

(** A member of the enumeration is the text it stands for. *)
Definition get_provider (provider : string) : result ProviderManifest :=
  match ConnectorProvider_of provider with
  | Some key => Ok (_register key)
  | None => Raise (UnknownProviderError ("Provider de connecteur inconnu : " +:+ py_repr provider))
  end.

(** ** Capabilities *)

(** The classes a caller may name: the two protocols, or another type. *)
Inductive capability_type := MailCapability | CalendarCapability | OtherType (name : string).

Definition CAPABILITY_NAMES (capability : capability_type) : option string :=
  match capability with
  | MailCapability => Some CAPABILITY_MAIL
  | CalendarCapability => Some CAPABILITY_CALENDAR
  | OtherType _ => None
  end.
Definition type_repr (capability : capability_type) : string :=
  match capability with
  | MailCapability => "<class 'app.connectors.capabilities.MailCapability'>"
  | CalendarCapability => "<class 'app.connectors.capabilities.CalendarCapability'>"
  | OtherType name => "<class '" +:+ name +:+ "'>"
  end.

Definition issuperset (granted scopes : list string) : bool := forallb (fun scope => str_in scope granted) scopes.

Definition granted_capabilities (connection : ConnectorConnection) : list string :=
  List.map fst (List.filter (fun cs => issuperset (cn_scopes connection) cs.2)
    (pm_capability_scopes (_register (cn_provider connection)))).

(** The class that implements a capability of a provider; [factory(session,
    connection)] only stores its arguments. *)
Inductive implementation := GoogleMail | GoogleCalendar | MicrosoftMail | MicrosoftCalendar.
Definition _implementations (provider : ConnectorProvider) (name : string) : option implementation :=
  match provider with
  | CONNECTOR_GOOGLE => item_of name [(CAPABILITY_MAIL, GoogleMail); (CAPABILITY_CALENDAR, GoogleCalendar)]
  | CONNECTOR_MICROSOFT => item_of name [(CAPABILITY_MAIL, MicrosoftMail); (CAPABILITY_CALENDAR, MicrosoftCalendar)]
  end.

Definition get_capability (connection : ConnectorConnection) (capability : capability_type) : result implementation :=
  match CAPABILITY_NAMES capability with
  | None => Raise (CapabilityError ("Capability inconnue : " +:+ type_repr capability))
  | Some name =>
      raise_if! (negb (bool_decide (cn_status connection = CONN_ACTIVE)))
        (CapabilityError ("Connexion " +:+ uuid_str (cn_id connection) +:+ " non active (" +:+
          ConnectionStatus_value (cn_status connection) +:+ ").")) in
      raise_if! (negb (str_in name (capabilities (_register (cn_provider connection)))))
        (CapabilityError ("Capability " +:+ py_repr name +:+ " non supportée par " +:+
          ConnectorProvider_value (cn_provider connection) +:+ ".")) in
      raise_if! (negb (str_in name (granted_capabilities connection)))
        (CapabilityError ("Capability " +:+ py_repr name +:+ " non consentie par la connexion " +:+
          uuid_str (cn_id connection) +:+ " (scopes insuffisants — re-consentement requis).")) in
      match _implementations (cn_provider connection) name with
      | Some factory => Ok factory
      | None => Raise KeyError
      end
  end.

(** ** Lemmas *)

Lemma extend_new_In scopes more x : In x (extend_new scopes more) <-> In x scopes \/ In x more.
Proof.
  revert scopes. induction more as [|s more IH]; intros scopes; simpl; [tauto |]. rewrite IH.
  destruct (str_in s scopes) eqn:E.
  - unfold str_in in E. bool_hyps. apply list_elem_of_In in E. intuition congruence.
  - rewrite in_app_iff. simpl. intuition congruence.
Qed.

Lemma extend_new_NoDup scopes more : List.NoDup scopes -> List.NoDup (extend_new scopes more).
Proof.
  revert scopes. induction more as [|s more IH]; intros scopes H; simpl; [done |]. apply IH.
  destruct (str_in s scopes) eqn:E; [done |]. unfold str_in in E. bool_hyps.
  apply List.NoDup_app; [done | repeat constructor; by intros [] |].
  intros y Hy [<-|[]]. by apply E, list_elem_of_In.
Qed.

Lemma issuperset_spec granted scopes : issuperset granted scopes = true <-> forall x, In x scopes -> In x granted.
Proof.
  unfold issuperset. rewrite forallb_forall. split; intros H x Hx; specialize (H x Hx); unfold str_in in *.
  - bool_hyps. by apply list_elem_of_In.
  - apply bool_decide_eq_true. by apply list_elem_of_In.
Qed.

(** A capability of a provider, with the scopes it needs. *)
Definition needs (p : ConnectorProvider) (name : string) (scopes : list string) : Prop :=
  In (name, scopes) (pm_capability_scopes (_register p)).

Lemma granted_capabilities_In c name : In name (granted_capabilities c) <->
  exists scopes, needs (cn_provider c) name scopes /\ forall x, In x scopes -> In x (cn_scopes c).
Proof.
  unfold granted_capabilities, needs. rewrite List.in_map_iff. split.
  - intros ([n scopes] & <- & [Hin Hs]%List.filter_In). exists scopes. split; [done |]. by apply issuperset_spec.
  - intros (scopes & Hin & Hs). exists (name, scopes). split; [done |]. apply List.filter_In. split; [done |].
    by apply issuperset_spec.
Qed.

Lemma add_scopes_ok self asked scopes out : add_scopes self asked scopes = Ok out ->
  (List.NoDup scopes -> List.NoDup out) /\ (forall x, In x scopes -> In x out) /\
  forall name, In name asked -> exists needed, item_of name (pm_capability_scopes self) = Some needed /\ forall x, In x needed -> In x out.
Proof.
  revert scopes. induction asked as [|c asked IH]; intros scopes; simpl; [by intros [= <-] |].
  destruct (item_of c _) as [needed|] eqn:E; [| done]. intros H. destruct (IH _ H) as (H1 & H2 & H3). split; [| split].
  - intros Hn. by apply H1, extend_new_NoDup.
  - intros x Hx. apply H2, extend_new_In. by left.
  - intros name [<-|Hn]; [| by apply H3]. exists needed. split; [done |]. intros x Hx. apply H2, extend_new_In. by right.
Qed.

(** The scopes a manifest names for a capability are unique to it. *)
Lemma needs_item p name scopes : needs p name scopes <-> item_of name (pm_capability_scopes (_register p)) = Some scopes.
Proof.
  unfold needs, item_of, capabilities. destruct p; cbv [_register GOOGLE_MANIFEST MICROSOFT_MANIFEST pm_capability_scopes List.find fst snd In].
  all: destruct (str_eqb CAPABILITY_MAIL name) eqn:E1; destruct (str_eqb CAPABILITY_CALENDAR name) eqn:E2; bool_hyps; subst; simpl.
  all: try discriminate; split; [naive_solver | intros [= <-]; tauto] || (split; [naive_solver | done]).
Qed.

(** ** Property *)

(** Modules only get capabilities that were consented to. [get_capability]
    answers with the provider's own implementation exactly when the connection is
    active and every scope the capability needs is among the scopes it was
    granted; otherwise it raises [CapabilityError], and nothing else. And the
    scopes an authorisation asks for are enough: a connection that was granted
    what [scopes_for] lists for some capabilities has all of them. *)
Theorem capability_is_consented (c : ConnectorConnection) (capability : capability_type) :
  let consented := fun name => exists scopes, needs (cn_provider c) name scopes /\ forall x, In x scopes -> In x (cn_scopes c) in
  match get_capability c capability with
  | Ok factory => cn_status c = CONN_ACTIVE /\ exists name, CAPABILITY_NAMES capability = Some name /\ consented name /\
      _implementations (cn_provider c) name = Some factory
  | Raise e => (exists msg, e = CapabilityError msg) /\
      ~ (cn_status c = CONN_ACTIVE /\ exists name, CAPABILITY_NAMES capability = Some name /\ consented name)
  end /\
  (forall asked scopes, scopes_for (_register (cn_provider c)) asked = Ok scopes -> (forall x, In x scopes -> In x (cn_scopes c)) ->
    forall name, In name asked -> consented name).
Proof.
  intros consented. split.
  - unfold get_capability. destruct (CAPABILITY_NAMES capability) as [name|] eqn:En; [| split; [eauto | naive_solver]].
    destruct (bool_decide (cn_status c = CONN_ACTIVE)) eqn:Es; bool_hyps; simpl; [| split; [eauto | naive_solver]].
    assert (Hg : str_in name (granted_capabilities c) = true <-> consented name).
    { unfold str_in. rewrite bool_decide_eq_true, list_elem_of_In. apply granted_capabilities_In. }
    destruct (str_in name (capabilities (_register (cn_provider c)))) eqn:Ek; simpl.
    + destruct (str_in name (granted_capabilities c)) eqn:Eg; simpl; [| split; [eauto |]].
      * destruct (_implementations (cn_provider c) name) as [f|] eqn:Ef; [naive_solver |]. exfalso.
        unfold str_in in Ek. bool_hyps. apply list_elem_of_In in Ek.
        destruct (cn_provider c); destruct Ek as [<-|[<-|[]]]; discriminate Ef.
      * intros (_ & n & [= <-] & Hc%Hg). done.
    + split; [eauto |]. intros (_ & n & [= <-] & scopes & Hc & _). unfold str_in in Ek. bool_hyps.
      apply Ek, list_elem_of_In. apply (List.in_map fst) in Hc. exact Hc.
  - intros asked scopes H Hs name Hn. apply add_scopes_ok in H as (_ & _ & H). destruct (H name Hn) as (needed & E & Hi).
    exists needed. split; [by apply needs_item |]. auto.
Qed.

(** Acme's connection to Google, with the scopes of both capabilities. *)
Definition google_scopes : list string :=
  match scopes_for GOOGLE_MANIFEST [CAPABILITY_MAIL; CAPABILITY_CALENDAR] with Ok scopes => scopes | Raise _ => [] end.
Definition acme_google : ConnectorConnection := {| cn_id := 7; cn_tenant_id := 1; cn_provider := CONNECTOR_GOOGLE; cn_kind := KIND_TENANT;
  cn_user_id := None; cn_account_label := "contact@acme.fr"; cn_scopes := google_scopes; cn_access_token_enc := []; cn_refresh_token_enc := [];
  cn_access_token_expires_at := t0; cn_status := CONN_ACTIVE; cn_last_error := None; cn_health_checked_at := None; cn_created_at := 0 |}.

Lemma capability_is_consented_witness :
  length google_scopes = 5%nat /\ get_capability acme_google MailCapability = Ok GoogleMail /\
  exists scopes, needs CONNECTOR_GOOGLE CAPABILITY_CALENDAR scopes /\ forall x, In x scopes -> In x google_scopes.
Proof.
  split; [reflexivity |]. split; [vm_compute; reflexivity |].
  destruct (capability_is_consented acme_google MailCapability) as [_ H].
  exact (H [CAPABILITY_MAIL; CAPABILITY_CALENDAR] google_scopes eq_refl (fun x Hx => Hx) CAPABILITY_CALENDAR (or_intror (or_introl eq_refl))).
Defined.
