(* ===== verification/Throttle.v ===== *)
(** [app/connectors/throttle.py]: the envelope of every call to a provider, and
    the locks in Valkey that serialise the work on a connection.

    A process that sleeps lets the others run: what they do to the committed
    tables and to Valkey meanwhile is an interface. Delays are microseconds. *)
From S2P Require Import Prelude PyStr Hashing Json Config Tokens Models Permissions World Uuid Sample Orm Deps Edge Journal Frame Providers.

(** What the other processes have made of the tables and of Valkey after the
    [n]-th draw, at an instant. *)
Class Others {VK : Valkey} := { meanwhile : Z -> nat -> Db -> kv_store -> Db * kv_store }.

Definition WINDOW_SECONDS : Z := 60.
Definition MAX_ATTEMPTS : nat := 5.
Definition LOCK_TTL_SECONDS : Z := 30.
Definition LOCK_ATTEMPTS : nat := 20.
Definition LOCK_INTERVAL : Z := 250000.

Section throttle.
Context {P : Platform} {OT : Others}.

(** [asyncio.sleep]: a negative delay is none. *)
Definition _sleep (delay : Z) : M unit := fun w =>
  let t := w_now w + Z.max 0 delay in
  let r := meanwhile t (w_drawn w) (w_db w) (w_kv w) in
  (Ok tt, set_kv r.2 (set_db r.1 (set_now t w))).

(** ** Budget and backoff *)

(** [TTL]: seconds to the deadline, -1 without one, -2 without the key. *)
Definition ttl (key : string) : M Z := fun w =>
  (Ok match kv_look (w_now w) key (w_kv w) with
      | None => -2
      | Some (_, None) => -1
      | Some (_, Some d) => (d - w_now w + second / 2) / second
      end, w).

Definition budget_key (manifest : ProviderManifest) (connection_id : N) : string :=
  "connector:rl:" +:+ ConnectorProvider_value (pm_provider manifest) +:+ ":" +:+ uuid_str connection_id.

Definition _budget_delay (manifest : ProviderManifest) (connection_id : N) : M (option Z) :=
  let key := budget_key manifest connection_id in
  let* count := RateLimit.incr key in
  let* _ := (if count =? 1 then RateLimit.expire key WINDOW_SECONDS else ret tt) in
  if pm_requests_per_minute manifest <? count then
    let* t := ttl key in
    ret (Some (Z.max t 1 * second))
  else ret None.

(** [random.uniform(0, 0.5)] to the microsecond. *)
Definition _backoff_delay (attempt_no : Z) : M Z :=
  let* n := draw in
  ret (2 ^ attempt_no * (second / 2) + Z.of_N n mod (second / 2 + 1)).

Definition retryable (status_code : Z) : bool := (status_code =? 429) || (500 <=? status_code).

Definition unavailable (manifest : ProviderManifest) : exn :=
  ConnectorUnavailable ("Provider " +:+ ConnectorProvider_value (pm_provider manifest) +:+ " indisponible après " +:+
    show_Z (Z.of_nat MAX_ATTEMPTS) +:+ " tentatives.").

(** The turns of the loop that are left. *)
Fixpoint attempts {T} (manifest : ProviderManifest) (connection_id : N) (attempt : M T) (left : nat) : M T :=
  match left with
  | O => raise (unavailable manifest)
  | S left' =>
      let* budget_wait := _budget_delay manifest connection_id in
      let* _ := match budget_wait with Some d => _sleep d | None => ret tt end in
      catch attempt (fun e =>
        match e with
        | ProviderResponseError status_code retry_after =>
            if retryable status_code then Some (
              let* delay := match retry_after with
                            | Some d => ret d
                            | None => _backoff_delay (Z.of_nat MAX_ATTEMPTS - Z.of_nat left)
                            end in
              let* _ := _sleep delay in
              attempts manifest connection_id attempt left')
            else None
        | _ => None
        end)
  end.
Definition run_with_backoff {T} (manifest : ProviderManifest) (connection_id : N) (attempt : M T) : M T :=
  attempts manifest connection_id attempt MAX_ATTEMPTS.

(** ** Locks *)

(** [uuid.uuid4().hex] *)
Definition uuid_hex (u : N) : string := hex (Sha256.be_octets 16 u).
Definition lock_key (name : string) : string := "connector:lock:" +:+ name.

(** [SET key value NX EX seconds] *)
Definition set_nx (key value : string) (seconds : Z) : M bool := fun w =>
  match kv_look (w_now w) key (w_kv w) with
  | Some _ => (Ok false, w)
  | None => (Ok true, set_kv (kv_set (w_now w) key (KStr value) (Some (seconds * second)) (w_kv w)) w)
  end.
(** [GET], decoded. *)
Definition kv_text (v : kv_value) : string := match v with KStr s => s | KInt z => show_Z z end.
Definition kv_get (key : string) : M (option string) := fun w =>
  (Ok ((fun e => kv_text e.1) <$> kv_look (w_now w) key (w_kv w)), w).
Definition kv_delete (key : string) : M unit := fun w => (Ok tt, set_kv (kv_del key (w_kv w)) w).

Definition acquire_lock (name : string) (ttl_seconds : Z) : M (option string) :=
  let* u := uuid4 in
  let token := uuid_hex u in
  let* acquired := set_nx (lock_key name) token ttl_seconds in
  ret (if acquired then Some token else None).

(** The test of [release_lock], then the whole of it: two commands. *)
Definition still_ours (name token : string) : M bool :=
  let* current := kv_get (lock_key name) in
  ret match current with Some text => str_eqb text token | None => false end.
Definition release_lock (name token : string) : M unit :=
  let* ours := still_ours name token in
  if ours then kv_delete (lock_key name) else ret tt.

Definition lock_busy (name : string) : exn :=
  ConnectorUnavailable ("Verrou connecteur " +:+ py_repr name +:+ " toujours occupé après " +:+ show_Z (Z.of_nat LOCK_ATTEMPTS) +:+ " tentatives.").
Fixpoint wait_attempts (name : string) (left : nat) : M string :=
  match left with
  | O => raise (lock_busy name)
  | S left' =>
      let* token := acquire_lock name LOCK_TTL_SECONDS in
      match token with
      | Some token => ret token
      | None => let* _ := _sleep LOCK_INTERVAL in wait_attempts name left'
      end
  end.
Definition wait_for_lock (name : string) : M string := wait_attempts name LOCK_ATTEMPTS.
End throttle.

(** ** How they run *)

Section running.
Context {P : Platform} {OT : Others}.
Implicit Types (w : World).

(** What the throttle may touch: Valkey, the clock, the random source, and,
    while it sleeps, whatever the others change in the committed tables. *)
Record around (w w' : World) : Prop := {
  ar_pend : w_pend w' = w_pend w; ar_tenant : w_tenant w' = w_tenant w; ar_entropy : w_entropy w' = w_entropy w;
  ar_grants : w_grants w' = w_grants w; ar_states : w_states w' = w_states w; ar_out : w_out w' = w_out w }.

(** The same for code that also calls out. *)
Record steady (w w' : World) : Prop := {
  st_pend : w_pend w' = w_pend w; st_tenant : w_tenant w' = w_tenant w; st_entropy : w_entropy w' = w_entropy w;
  st_grants : w_grants w' = w_grants w; st_states : w_states w' = w_states w }.

Lemma around_trans w1 w2 w3 : around w1 w2 -> around w2 w3 -> around w1 w3.
Proof. intros [] []. split; congruence. Qed.

Lemma around_steady w w' : around w w' -> steady w w'.
Proof. intros []. by split. Qed.
Lemma steady_refl w : steady w w.
Proof. by split. Qed.
Lemma steady_trans w1 w2 w3 : steady w1 w2 -> steady w2 w3 -> steady w1 w3.
Proof. intros [] []. split; congruence. Qed.

Lemma incr_around key w r w' : RateLimit.incr key w = (r, w') -> 
  around w w' /\ w_db w' = w_db w /\ w_now w' = w_now w /\ (forall e, r = Raise e -> exists msg, e = ResponseError msg).
Proof.
  unfold RateLimit.incr. destruct (kv_look _ _ _) as [[[] ?]|]; intros [= <- <-]; (split; [by split |]); do 2 (split; [done |]);
    intros e [= <-]; eauto.
Qed.

Lemma _budget_delay_run m c w r w' : _budget_delay m c w = (r, w') ->
  around w w' /\ w_db w' = w_db w /\ w_now w' = w_now w /\ (forall e, r = Raise e -> exists msg, e = ResponseError msg).
Proof.
  unfold _budget_delay. unfold bind at 1. destruct (RateLimit.incr _ w) as [[z|e] w1] eqn:E; apply incr_around in E as (E & Ed & En & Ee).
  2: { intros [= <- <-]. do 3 (split; [done |]). intros e' [= <-]. by apply Ee. }
  destruct (z =? 1); unfold bind, ret, RateLimit.expire, ttl; destruct (_ <? z); intros [= <- <-]; simpl;
    destruct E; (split; [split; simpl; congruence |]); by repeat split.
Qed.

Lemma _sleep_run d w r w' : _sleep d w = (r, w') -> r = Ok tt /\ around w w' /\ w_now w' = w_now w + Z.max 0 d.
Proof. unfold _sleep. intros [= <- <-]. by repeat split. Qed.

(** One turn of the loop: the budget and its wait, then the attempt, and on a
    retryable answer the delay and the rest. *)
Lemma attempts_step {T} m c (attempt : M T) left w r w' : attempts m c attempt (S left) w = (r, w') ->
  (exists msg, r = Raise (ResponseError msg) /\ around w w' /\ w_now w' = w_now w) \/
  exists w1, around w w1 /\ w_now w <= w_now w1 /\
    (attempt w1 = (r, w') /\ (forall st ra, r = Raise (ProviderResponseError st ra) -> retryable st = false) \/
     exists st ra w2 w3, attempt w1 = (Raise (ProviderResponseError st ra), w2) /\ retryable st = true /\
       around w2 w3 /\ w_now w2 + Z.max 0 (default 0 ra) <= w_now w3 /\ attempts m c attempt left w3 = (r, w')).
Proof.
  cbn [attempts]. unfold bind at 1. destruct (_budget_delay m c w) as [[bw|e] w0] eqn:E0; apply _budget_delay_run in E0 as (A0 & _ & N0 & Ee).
  2: { intros [= <- <-]. left. destruct (Ee e eq_refl) as (msg & ->). by exists msg. }
  unfold bind at 1. assert (Hw : exists w1, (match bw with Some d => _sleep d | None => ret tt end) w0 = (Ok tt, w1) /\ around w0 w1 /\ w_now w0 <= w_now w1).
  { destruct bw as [d|]; [| by exists w0]. destruct (_sleep d w0) as [r1 w1] eqn:E1. apply _sleep_run in E1 as (-> & A1 & N1).
    exists w1. repeat (split; [done |]). lia. }
  destruct Hw as (w1 & -> & A1 & N1). unfold catch. intros H. right. exists w1.
  split; [by eapply around_trans |]. split; [lia |]. revert H.
  destruct (attempt w1) as [[a|e] w2] eqn:Ea; [intros [= <- <-]; left; by split |].
  destruct e; try (intros [= <- <-]; left; by split). destruct (retryable status_code) eqn:Er.
  2: { intros [= <- <-]. left. split; [done |]. intros st ra [= <- <-]. done. }
  intros H. right. exists status_code, retry_after, w2. unfold bind at 1 in H. revert H.
  set (md := match retry_after with Some d => _ | None => _ end). destruct (md w2) as [rd w3] eqn:Ed.
  assert (Hd : exists d, rd = Ok d /\ default 0 retry_after <= Z.max 0 d /\ around w2 w3 /\ w_now w3 = w_now w2).
  { unfold md in Ed. destruct retry_after as [d|].
    - injection Ed as <- <-. exists d. split; [done |]. split; [simpl; lia |]. by split.
    - unfold _backoff_delay, bind, draw, ret in Ed. injection Ed as <- <-. eexists. split; [done |]. split; [simpl; lia |]. by repeat split. }
  destruct Hd as (d & -> & Hd & A3 & N3). unfold bind. destruct (_sleep d w3) as [rs w4] eqn:Es.
  apply _sleep_run in Es as (-> & A4 & N4). intros H. exists w4. split; [done |]. split; [done |].
  split; [by eapply around_trans |]. split; [lia | done].
Qed.

(** What an attempt preserves, the loop preserves. *)
Lemma attempts_steady {T} m c (attempt : M T) left :
  (forall w, steady w (attempt w).2) -> forall w, steady w (attempts m c attempt left w).2.
Proof.
  intros Ha. induction left as [|left IH]; intros w; [apply steady_refl |].
  destruct (attempts m c attempt (S left) w) as [r w'] eqn:E. simpl.
  apply attempts_step in E as [(e & -> & A & _)|(w1 & A & _ & H)]; [by apply around_steady |].
  eapply steady_trans; [by apply around_steady |]. destruct H as [[E _]|(st & ra & w2 & w3 & E & _ & A2 & _ & E')].
  - specialize (Ha w1). by rewrite E in Ha.
  - specialize (Ha w1). rewrite E in Ha. eapply steady_trans; [exact Ha |].
    eapply steady_trans; [by apply around_steady |]. specialize (IH w3). by rewrite E' in IH.
Qed.

(** A result is the result of an attempt. *)
Lemma attempts_ok {T} m c (attempt : M T) left w a w' : attempts m c attempt left w = (Ok a, w') ->
  exists w1, attempt w1 = (Ok a, w').
Proof.
  revert w. induction left as [|left IH]; intros w; [done |].
  intros [(e & ? & _)|(w1 & _ & _ & [[E _]|(st & ra & w2 & w3 & _ & _ & _ & _ & E)])]%attempts_step; [done | by exists w1 |].
  by eapply IH.
Qed.

(** ** The locks *)

Lemma acquire_lock_run name ttl_seconds w : 0 < ttl_seconds ->
  let token := uuid_hex (w_entropy w (w_drawn w) mod 2 ^ 128) in
  let '(r, w') := acquire_lock name ttl_seconds w in
  around w w' /\ w_db w' = w_db w /\ w_now w' = w_now w /\
  (r = Ok None /\ kv_look (w_now w) (lock_key name) (w_kv w) <> None /\ w_kv w' = w_kv w \/
   r = Ok (Some token) /\ kv_look (w_now w) (lock_key name) (w_kv w) = None /\
   kv_look (w_now w) (lock_key name) (w_kv w') = Some (KStr token, Some (w_now w + ttl_seconds * second))).
Proof.
  intros Ht. unfold acquire_lock, set_nx, bind, uuid4, ret. cbn zeta. simpl.
  destruct (kv_look (w_now w) (lock_key name) (w_kv w)) as [e|] eqn:E; simpl.
  - split; [by split |]. do 2 (split; [done |]). by left.
  - split; [by split |]. do 2 (split; [done |]). right. split; [done |]. split; [done |].
    rewrite kv_set_eq; [done |]. intros t [= <-]. unfold second. lia.
Qed.

Lemma release_lock_run name token w :
  let '(r, w') := release_lock name token w in
  r = Ok tt /\ around w w' /\ w_db w' = w_db w /\ w_now w' = w_now w /\
  (forall d, kv_look (w_now w) (lock_key name) (w_kv w') <> Some (KStr token, d)) /\
  (forall k now, k <> lock_key name -> kv_look now k (w_kv w') = kv_look now k (w_kv w)) /\
  (forall v d, kv_look (w_now w) (lock_key name) (w_kv w) = Some (v, d) -> kv_text v <> token -> w_kv w' = w_kv w).
Proof.
  unfold release_lock, still_ours, kv_get, kv_delete, bind, ret.
  destruct (kv_look (w_now w) (lock_key name) (w_kv w)) as [[v d]|] eqn:E; simpl.
  - destruct (str_eqb (kv_text v) token) eqn:Et; bool_hyps; simpl; split; try done; (split; [by split |]); do 2 (split; [done |]); (split; [| split]).
    + intros d'. by rewrite kv_del_eq.
    + intros k now Hk. by rewrite kv_del_ne.
    + by intros v' d' [= <- <-].
    + intros d'. rewrite E. intros [= -> _]. by apply Et.
    + done.
    + done.
  - split; [done |]. split; [by split |]. do 2 (split; [done |]). split; [| done]. intros d. by rewrite E.
Qed.

(** Waiting ends, with the lock or without it. *)
Lemma wait_attempts_run name left w :
  let '(r, w') := wait_attempts name left w in
  around w w' /\
  match r with
  | Ok token => exists d, kv_look (w_now w') (lock_key name) (w_kv w') = Some (KStr token, Some d)
  | Raise e => e = lock_busy name
  end.
Proof.
  revert w. induction left as [|left IH]; intros w; [by split |]. cbn [wait_attempts]. unfold bind at 1.
  pose proof (acquire_lock_run name LOCK_TTL_SECONDS w ltac:(done)) as H. cbn zeta in H.
  destruct (acquire_lock name LOCK_TTL_SECONDS w) as [r1 w1]. destruct H as (A & _ & N & [(-> & _ & _)|(-> & _ & Hk)]).
  - unfold bind. destruct (_sleep LOCK_INTERVAL w1) as [rs w2] eqn:Es. apply _sleep_run in Es as (-> & A2 & _).
    specialize (IH w2). destruct (wait_attempts name left w2) as [r w']. destruct IH as [A3 Hr]. split; [| done].
    by do 2 (eapply around_trans; [done |]).
  - unfold ret. split; [done |]. rewrite N. eauto.
Qed.
End running.

(** ** Processes and a lock

    Processes take the lock, work, and release it; [release_lock] is two commands
    to Valkey, and other processes may run in between. *)
Section processes.
Context {P : Platform}.
Variable name : string.

Inductive phase :=
  | Idle
  | Holding (token : string) (since : Z)
  | Releasing (token : string) (since : Z).   (* read its own token, not yet deleted the key *)
Record System := { sy_world : World; sy_phase : nat -> phase }.

Definition set_phase (i : nat) (p : phase) (f : nat -> phase) : nat -> phase := fun j => if (i =? j)%nat then p else f j.

(** Since when the process has been inside. *)
Definition inside (p : phase) : option Z :=
  match p with Idle => None | Holding _ since | Releasing _ since => Some since end.
Definition within_ttl (t : Z) (p : phase) : Prop :=
  match inside p with Some since => t < since + LOCK_TTL_SECONDS * second | None => True end.

(** [prompt]: time does not reach the deadline of a process before it is through
    with its release. *)
Inductive step (prompt : Prop) : System -> System -> Prop :=
  | step_acquire i w ph token w' :
      ph i = Idle -> acquire_lock name LOCK_TTL_SECONDS w = (Ok (Some token), w') ->
      step prompt {| sy_world := w; sy_phase := ph |}
        {| sy_world := w'; sy_phase := set_phase i (Holding token (w_now w)) ph |}
  | step_refused i w ph w' :
      ph i = Idle -> acquire_lock name LOCK_TTL_SECONDS w = (Ok None, w') ->
      step prompt {| sy_world := w; sy_phase := ph |} {| sy_world := w'; sy_phase := ph |}
  | step_test i w ph token since ours w' :
      ph i = Holding token since -> still_ours name token w = (Ok ours, w') ->
      step prompt {| sy_world := w; sy_phase := ph |}
        {| sy_world := w'; sy_phase := set_phase i (if ours then Releasing token since else Idle) ph |}
  | step_delete i w ph token since w' :
      ph i = Releasing token since -> kv_delete (lock_key name) w = (Ok tt, w') ->
      step prompt {| sy_world := w; sy_phase := ph |} {| sy_world := w'; sy_phase := set_phase i Idle ph |}
  | step_time w ph d :
      0 <= d -> (prompt -> forall i, within_ttl (w_now w + d) (ph i)) ->
      step prompt {| sy_world := w; sy_phase := ph |} {| sy_world := set_now (w_now w + d) w; sy_phase := ph |}.

Definition initial (w : World) : System := {| sy_world := w; sy_phase := fun _ => Idle |}.
Definition reachable (prompt : Prop) (w : World) : System -> Prop := rtc (step prompt) (initial w).

(** Who is inside owns the key until its own deadline. *)
Definition owns (w : World) (p : phase) : Prop :=
  match p with
  | Idle => True
  | Holding token since | Releasing token since =>
      kv_look (w_now w) (lock_key name) (w_kv w) = Some (KStr token, Some (since + LOCK_TTL_SECONDS * second)) /\
      w_now w < since + LOCK_TTL_SECONDS * second
  end.
Definition exclusive (s : System) : Prop :=
  forall i j, inside (sy_phase s i) <> None -> inside (sy_phase s j) <> None -> i = j.
Definition lock_inv (s : System) : Prop := (forall i, owns (sy_world s) (sy_phase s i)) /\ exclusive s.

Lemma set_phase_eq i p f : set_phase i p f i = p.
Proof. unfold set_phase. by rewrite Nat.eqb_refl. Qed.
Lemma set_phase_ne i j p f : i <> j -> set_phase i p f j = f j.
Proof. intros H. unfold set_phase. by destruct (Nat.eqb_spec i j). Qed.

Lemma owns_look w p : inside p <> None -> owns w p -> kv_look (w_now w) (lock_key name) (w_kv w) <> None.
Proof. destruct p; simpl; [done | |]; intros _ [-> _]; done. Qed.

Lemma inside_set i p f j : inside p = None \/ inside (f i) <> None ->
  inside (set_phase i p f j) <> None -> inside (f j) <> None.
Proof.
  intros Hp. destruct (Nat.eq_dec i j) as [<-|Hne]; [rewrite set_phase_eq | by rewrite set_phase_ne].
  intros H. destruct Hp as [Hp|Hp]; [by rewrite Hp in H | done].
Qed.

Lemma exclusive_set i p w w' ph : inside p = None \/ inside (ph i) <> None ->
  exclusive {| sy_world := w; sy_phase := ph |} -> exclusive {| sy_world := w'; sy_phase := set_phase i p ph |}.
Proof. intros Hp H j k Hj Hk. simpl in *. apply H; simpl; by eapply inside_set. Qed.

Lemma lock_step s s' : step True s s' -> lock_inv s -> lock_inv s'.
Proof.
  intros Hs [Ho He]. destruct Hs as [i w ph token w' Hi E|i w ph w' Hi E|i w ph token since ours w' Hi E|i w ph token since w' Hi E|w ph d Hd Ht]; simpl in *.
  - pose proof (acquire_lock_run name LOCK_TTL_SECONDS w ltac:(done)) as H. cbn zeta in H. rewrite E in H.
    destruct H as (_ & _ & N & [(? & _)|([= ->] & Hn & Hk)]); [done |].
    assert (Hall : forall j, inside (ph j) = None).
    { intros j. destruct (inside (ph j)) eqn:Ej; [| done]. exfalso. apply (owns_look w (ph j)); [by rewrite Ej | apply Ho | done]. }
    split.
    + intros j. simpl. destruct (Nat.eq_dec i j) as [<-|Hne]; [rewrite set_phase_eq | rewrite set_phase_ne by done].
      * simpl. rewrite N. split; [done |]. unfold LOCK_TTL_SECONDS, second. lia.
      * specialize (Hall j). by destruct (ph j).
    + intros j k. simpl. destruct (Nat.eq_dec i j) as [<-|Hj]; [| rewrite (set_phase_ne i j) by done; by rewrite Hall].
      destruct (Nat.eq_dec i k) as [<-|Hk']; [done | rewrite (set_phase_ne i k) by done; by rewrite Hall].
  - pose proof (acquire_lock_run name LOCK_TTL_SECONDS w ltac:(done)) as H. cbn zeta in H. rewrite E in H.
    destruct H as (_ & _ & N & [(_ & _ & K)|(? & _)]); [| done]. split; [| exact He].
    intros j. specialize (Ho j). simpl in *. destruct (ph j); simpl in *; by rewrite ?N, ?K.
  - assert (Hw : w' = w) by (unfold still_ours, kv_get, bind, ret in E; by injection E as _ <-).
    subst w'. split; [| eapply exclusive_set, He; right; by rewrite Hi].
    intros j. simpl. destruct (Nat.eq_dec i j) as [<-|Hne]; [rewrite set_phase_eq | rewrite set_phase_ne by done; apply Ho].
    specialize (Ho i). rewrite Hi in Ho. by destruct ours.
  - injection E as <-. split; [| eapply exclusive_set, He; by left].
    intros j. simpl. destruct (Nat.eq_dec i j) as [<-|Hne]; [by rewrite set_phase_eq | rewrite set_phase_ne by done].
    destruct (ph j) eqn:Ej; [done | |]; exfalso; apply Hne, He; simpl; by rewrite ?Hi, ?Ej.
  - split; [| exact He]. intros j. specialize (Ho j). specialize (Ht I j). simpl in *.
    unfold within_ttl in Ht. destruct (ph j); simpl in *; [done | |]; destruct Ho as [Hk _]; (split; [| done]);
      rewrite (kv_later (w_now w)) by lia; rewrite Hk; by destruct (Z.leb_spec (since + LOCK_TTL_SECONDS * second) (w_now w + d)); [lia |].
Qed.
End processes.

(** ** Properties *)

Section properties.
Context {P : Platform} {OT : Others}.
Implicit Types (w : World).

(** A provider is called at most five times. When every attempt sends one
    request, the loop sends between none and five; it gives what an attempt gave,
    it lets an answer that is not worth retrying through at once, and it calls the provider unavailable only after five
    attempts; it always ends. *)
Theorem backoff_is_bounded {T} (m : ProviderManifest) (c : N) (attempt : M T) w :
  (forall w, length (w_out (attempt w).2) = S (length (w_out w)) /\ w_now w <= w_now (attempt w).2 /\
             forall msg, (attempt w).1 <> Raise (ConnectorUnavailable msg)) ->
  let '(r, w') := run_with_backoff m c attempt w in
  let calls := Z.of_nat (length (w_out w')) - Z.of_nat (length (w_out w)) in
  0 <= calls <= 5 /\ w_now w <= w_now w' /\
  match r with
  | Ok a => 1 <= calls /\ exists w1, attempt w1 = (Ok a, w')
  | Raise (ProviderResponseError status_code _) => retryable status_code = false
  | Raise (ConnectorUnavailable _) => calls = 5
  | Raise _ => True
  end.
Proof.
  intros Ha. change 5 with (Z.of_nat MAX_ATTEMPTS). unfold run_with_backoff. generalize MAX_ATTEMPTS as left. intros left.
  revert w. induction left as [|left IH]; intros w; [simpl; lia |].
  destruct (attempts m c attempt (S left) w) as [r w'] eqn:E. cbn zeta.
  apply attempts_step in E as [(msg & -> & A & N)|(w1 & A & Nw & [[E Hr]|(st & ra & w2 & w3 & E & _ & A2 & N2 & E')])].
  - rewrite (ar_out _ _ A), N. lia.
  - destruct (Ha w1) as (H1 & H2 & H3). rewrite E, (ar_out _ _ A) in H1. rewrite E in H2, H3. simpl in *.
    split; [lia |]. split; [lia |]. destruct r as [a|e]; [split; [lia | by exists w1] |].
    destruct e; try done; [by destruct (H3 msg) | by apply (Hr _ retry_after)].
  - destruct (Ha w1) as (H1 & H2 & _). rewrite E, (ar_out _ _ A) in H1. rewrite E in H2. simpl in *.
    specialize (IH w3). rewrite E' in IH. cbn zeta in IH. rewrite (ar_out _ _ A2), H1 in IH.
    destruct IH as (I1 & I2 & I3). split; [lia |]. split; [| destruct r as [a|[]]; try done; [split; [lia | apply I3] | lia]].
    lia.
Qed.

(** C34: a lock excludes. Processes take it, work and release it, their commands to
    Valkey interleaved in any order with each other and with the passing of time:
    as long as each one is through with its release before the time to live of
    the key is over, no two are inside at once. *)
Theorem lock_excludes (name : string) (w : World) (s : System) :
  reachable name True w s -> exclusive s.
Proof.
  intros Hr. assert (H : lock_inv name s); [| apply H].
  unfold reachable in Hr. assert (H0 : lock_inv name (initial w)) by (split; [done | intros i j Hi; by destruct Hi]).
  revert H0. generalize (initial w) Hr. clear w Hr. intros s0 Hr. induction Hr as [s|s1 s2 s3 Hs _ IH]; [done |].
  intros H. by apply IH, (lock_step name s1).
Qed.
End properties.

(** The race in [release_lock]: three processes, the first of which reads its token
    at 29 seconds and deletes the key at 31. *)
Module Race.
Definition at_ (w : World (VK := simple_valkey)) (ph : nat -> phase) : System (P := test_platform) :=
  @Build_System test_platform w ph.
Definition take (w : World (VK := simple_valkey)) : result (option string) * World :=
  acquire_lock (P := test_platform) "refresh" LOCK_TTL_SECONDS w.
Definition token_of (r : result (option string)) : string := match r with Ok (Some token) => token | _ => EmptyString end.
Definition w1 := (take sample_world).2.
Definition w2 := set_now (w_now w1 + 29 * second) w1.
Definition w3 := set_now (w_now w2 + 2 * second) w2.
Definition w4 := (take w3).2.
Definition w5 := (kv_delete (P := test_platform) (lock_key "refresh") w4).2.
Definition w6 := (take w5).2.
Definition t1 := token_of (take sample_world).1.
Definition t2 := token_of (take w3).1.
Definition t3 := token_of (take w5).1.
Definition ph1 := set_phase 0 (Holding t1 (w_now sample_world)) (fun _ => Idle).
Definition ph2 := set_phase 0 (Releasing t1 (w_now sample_world)) ph1.
Definition ph3 := set_phase 1 (Holding t2 (w_now w3)) ph2.
Definition ph4 := set_phase 0 Idle ph3.
Definition ph5 := set_phase 2 (Holding t3 (w_now w5)) ph4.

Lemma run : reachable (P := test_platform) "refresh" False sample_world (at_ w6 ph5).
Proof.
  unfold reachable. eapply rtc_l; [apply (step_acquire (P := test_platform) "refresh" False 0 sample_world _ t1 w1); reflexivity |].
  eapply rtc_l; [apply (step_time (P := test_platform) "refresh" False w1 ph1 (29 * second)); [done | intros []] |].
  eapply rtc_l; [apply (step_test (P := test_platform) "refresh" False 0 w2 ph1 t1 (w_now sample_world) true w2); reflexivity |].
  eapply rtc_l; [apply (step_time (P := test_platform) "refresh" False w2 ph2 (2 * second)); [done | intros []] |].
  eapply rtc_l; [apply (step_acquire (P := test_platform) "refresh" False 1 w3 ph2 t2 w4); reflexivity |].
  eapply rtc_l; [apply (step_delete (P := test_platform) "refresh" False 0 w4 ph3 t1 (w_now sample_world) w5); reflexivity |].
  eapply rtc_l; [apply (step_acquire (P := test_platform) "refresh" False 2 w5 ph4 t3 w6); reflexivity |].
  apply rtc_refl.
Qed.
End Race.

(** The release is not atomic. When a process tests its token in time but its
    deletion comes after the deadline, it deletes the key of the next holder, and
    a third process enters beside it: two processes are inside, each within
    its own time to live. *)
Theorem release_is_not_atomic :
  exists s, reachable (P := test_platform) "refresh" False sample_world s /\ ~ exclusive s /\
    forall i, within_ttl (w_now (sy_world s)) (sy_phase s i).
Proof.
  exists (Race.at_ Race.w6 Race.ph5). split; [exact Race.run |]. split.
  - intros H. assert (E : 1%nat = 2%nat); [| discriminate E]. by apply H.
  - intros i. destruct i as [|[|[|i]]]; vm_compute; reflexivity || exact I.
Qed.

(** ** Witnesses *)

Definition alone : Others (VK := simple_valkey) := {| meanwhile _ _ db kv := (db, kv) |}.

(** A provider that answers 503 until the fifth call. *)
Definition flaky : M (VK := simple_valkey) nat := fun w =>
  let w' := set_out (w_out w ++ [HttpCalled "GET" "https://graph.microsoft.com/v1.0/me"]) w in
  if (length (w_out w) <? 4)%nat then (Raise (ProviderResponseError 503 None), w') else (Ok (length (w_out w)), w').

Lemma flaky_calls (w : World (VK := simple_valkey)) :
  length (w_out (flaky w).2) = S (length (w_out w)) /\ w_now w <= w_now (flaky w).2 /\
  forall msg, (flaky w).1 <> Raise (ConnectorUnavailable msg).
Proof.
  unfold flaky. destruct (length (w_out w) <? 4)%nat; (split; [exact (List.last_length _ _) |]); (split; [simpl; lia | discriminate]).
Qed.

Lemma backoff_is_bounded_witness :
  let '(r, w') := run_with_backoff (P := test_platform) (OT := alone) MICROSOFT_MANIFEST 7 flaky sample_world in
  r = Ok 4%nat /\ length (w_out w') = 5%nat /\ exists w1, flaky w1 = (Ok 4%nat, w').
Proof.
  pose proof (backoff_is_bounded (P := test_platform) (OT := alone) MICROSOFT_MANIFEST 7 flaky sample_world) as H.
  destruct (run_with_backoff (P := test_platform) (OT := alone) MICROSOFT_MANIFEST 7 flaky sample_world) as [r w'] eqn:E.
  assert (Hr : r = Ok 4%nat) by (apply (f_equal fst) in E; vm_compute in E; symmetry; exact E).
  assert (Hl : length (w_out w') = 5%nat) by (apply (f_equal (fun x => length (w_out x.2))) in E; vm_compute in E; symmetry; exact E).
  subst r. split; [reflexivity |]. split; [exact Hl |]. exact (proj2 (proj2 (proj2 (H flaky_calls)))).
Defined.

Lemma lock_excludes_witness :
  let s := Race.at_ Race.w1 Race.ph1 in
  reachable (P := test_platform) "refresh" True sample_world s /\ exclusive s.
Proof.
  assert (H : reachable (P := test_platform) "refresh" True sample_world (Race.at_ Race.w1 Race.ph1)).
  { apply rtc_once. apply (step_acquire (P := test_platform) "refresh" True 0 sample_world _ Race.t1 Race.w1); reflexivity. }
  split; [exact H |]. exact (lock_excludes (P := test_platform) "refresh" sample_world _ H).
Defined.
