(* ===== verification/Rely.v ===== *)
(** Invariants of the rows of one table, in the style of rely and guarantee: if the
    other processes leave every committed row of the table good, and an operation
    only adds good rows and only changes good rows into good ones, the committed
    tables and whatever a session has pending stay good. The rules follow the
    shape of the code; [keeps_code] applies them. *)
From S2P Require Import Prelude PyStr Hashing Base64 Json Config Tokens Models Permissions World Orm Isolation AuthService Deps Edge Journal Frame Http Providers Throttle.

Section rely.
Context {P : Platform}.
Variable T : table.
Variable good : row T -> Prop.

Definition all_good (d : Db) : Prop := forall r, In r (d T) -> good r.
Definition good_world (w : World) : Prop := all_good (w_db w) /\ forall s d, all_good d -> all_good (w_pend w s d).
Definition keeps {A} (m : M A) : Prop := forall w, good_world w -> good_world (m w).2.
(** The same, and a result of [m] meets [Q]. *)
Definition yields {A} (m : M A) (Q : A -> Prop) : Prop := forall w, good_world w ->
  good_world (m w).2 /\ match (m w).1 with Ok a => Q a | Raise _ => True end.

Lemma good_sees w s : good_world w -> all_good (sees w s).
Proof. intros [H1 H2]. by apply H2. Qed.

Lemma keeps_pure {A} (m : M A) : (forall w, w_db (m w).2 = w_db w /\ w_pend (m w).2 = w_pend w) -> keeps m.
Proof. intros H w [H1 H2]. unfold good_world. destruct (H w) as [-> ->]. by split. Qed.
Lemma keeps_still W {A} (m : M A) : still W m -> ~ In T W -> keeps m.
Proof.
  intros Hm HT w [H1 H2]. unfold good_world. destruct (Hm w) as (-> & _ & _ & Hp). split; [done |].
  intros s d Hd r. rewrite Hp by done. by apply H2.
Qed.
Lemma keeps_ret {A} (a : A) : keeps (ret a).
Proof. by apply keeps_pure. Qed.
Lemma keeps_raise {A} e : keeps (raise (A := A) e).
Proof. by apply keeps_pure. Qed.
Lemma keeps_of_result {A} (r : result A) : keeps (of_result r).
Proof. by apply keeps_pure. Qed.
Lemma keeps_now : keeps now.
Proof. by apply keeps_pure. Qed.
Lemma keeps_draw : keeps draw.
Proof. by apply keeps_pure. Qed.
Lemma keeps_uuid4 : keeps uuid4.
Proof. by apply keeps_pure. Qed.
Lemma keeps_random_bytes n : keeps (random_bytes n).
Proof. by apply keeps_pure. Qed.
Lemma keeps_emit e : keeps (emit e).
Proof. by apply keeps_pure. Qed.
Lemma keeps_current_tenant : keeps current_tenant.
Proof. apply keeps_pure. intros w. unfold current_tenant. by destruct (w_tenant w). Qed.

Lemma yields_keeps {A} (m : M A) Q : yields m Q -> keeps m.
Proof. intros H w Hw. by apply H. Qed.
Lemma keeps_yields {A} (m : M A) : keeps m -> yields m (fun _ => True).
Proof. intros H w Hw. split; [by apply H |]. by destruct (m w) as [[]]. Qed.
Lemma keeps_bind_yields {A B} (m : M A) Q (k : A -> M B) : yields m Q -> (forall a, Q a -> keeps (k a)) -> keeps (bind m k).
Proof.
  intros Hm Hk w Hw. unfold bind. destruct (Hm w Hw) as [H1 H2]. destruct (m w) as [[a|e] w']; simpl in *; [| done].
  by apply Hk.
Qed.
Lemma keeps_bind {A B} (m : M A) (k : A -> M B) : keeps m -> (forall a, keeps (k a)) -> keeps (bind m k).
Proof. intros Hm Hk. eapply keeps_bind_yields; [by apply keeps_yields | auto]. Qed.
Lemma yields_bind {A B} (m : M A) Q (k : A -> M B) R :
  yields m Q -> (forall a, Q a -> yields (k a) R) -> yields (bind m k) R.
Proof.
  intros Hm Hk w Hw. unfold bind. destruct (Hm w Hw) as [H1 H2]. destruct (m w) as [[a|e] w']; simpl in *; [| done].
  by apply Hk.
Qed.
Lemma yields_ret {A} (a : A) (Q : A -> Prop) : Q a -> yields (ret a) Q.
Proof. by intros H w Hw. Qed.
Lemma keeps_catch {A} (m : M A) h : keeps m -> (forall e k, h e = Some k -> keeps k) -> keeps (catch m h).
Proof.
  intros Hm Hh w Hw. unfold catch. specialize (Hm w Hw). destruct (m w) as [[a|e] w']; [done |]. simpl in *.
  destruct (h e) as [k|] eqn:E; [by apply (Hh e) | done].
Qed.
Lemma keeps_world (f : World -> World) : (forall w, w_db (f w) = w_db w /\ forall s, w_pend (f w) s = w_pend w s \/ w_pend (f w) s = id) ->
  forall w, good_world w -> good_world (f w).
Proof.
  intros H w [H1 H2]. destruct (H w) as [Hd Hp]. split; [by rewrite Hd |]. intros s d Hd'. destruct (Hp s) as [->| ->]; [by apply H2 | done].
Qed.
Lemma keeps_finally {A} (m : M A) f : keeps m -> (forall w, good_world w -> good_world (f w)) -> keeps (finally m f).
Proof. intros Hm Hf w Hw. unfold finally. specialize (Hm w Hw). destruct (m w) as [r w']. by apply Hf. Qed.
Lemma good_closed s w : good_world w -> good_world (closed s w).
Proof. apply keeps_world. intros w'. split; [done |]. intros s'. simpl. destruct (sess_eq_dec s s'); [by right | by left]. Qed.
Lemma keeps_commit s : keeps (commit s).
Proof.
  intros w Hw. split; [by apply good_sees |]. intros s' d Hd. simpl. destruct (sess_eq_dec s s'); [done | by apply Hw].
Qed.
Lemma keeps_with_session {A} s (m : M A) : keeps m -> keeps (with_session s m).
Proof. intros Hm w Hw. apply (keeps_finally m (closed s)); [done | apply good_closed | by apply good_closed]. Qed.
Lemma keeps_tenant_context {A} ctx (m : M A) : keeps m -> keeps (tenant_context ctx m).
Proof.
  intros Hm. apply keeps_bind; [by apply keeps_pure |]. intros tok. apply keeps_finally; [done |]. by apply keeps_world; intros w; split; [| left].
Qed.
Lemma keeps_get_tenant_session {A} s (m : M A) : keeps m -> keeps (get_tenant_session s m).
Proof. intros Hm. apply keeps_bind; [apply keeps_current_tenant |]. intros _. by apply keeps_with_session. Qed.

(** Operations of a session. *)
Lemma keeps_guard k t : keeps (_guard_orm_execute (statement_on k t)).
Proof. apply (keeps_still []); [apply still_guard | by intros []]. Qed.
Lemma keeps_scalar s t p : keeps (scalar s t p).
Proof. apply (keeps_still []); [apply still_scalar | by intros []]. Qed.
Lemma keeps_scalars s t p : keeps (scalars s t p).
Proof. apply (keeps_still []); [apply still_scalars | by intros []]. Qed.

Lemma keeps_write s t f : (forall d, all_good d -> all_good (upd t f d)) -> keeps (write s (upd t f)).
Proof.
  intros Hf w [H1 H2]. split; [done |]. intros s' d Hd. simpl. destruct (sess_eq_dec s s') as [<-|]; [by apply Hf, H2 | by apply H2].
Qed.
Lemma good_other t f d : t <> T -> all_good d -> all_good (upd t f d).
Proof. intros H Hd r. rewrite upd_ne by done. apply Hd. Qed.
Lemma good_update s p (f : row T -> row T) : (forall r, good r -> good (f r)) -> keeps (write s (upd T (update_where p f))).
Proof.
  intros Hf. apply keeps_write. intros d Hd r. rewrite upd_eq. intros (y & Hy & ->)%in_update_where.
  destruct (p y); [by apply Hf, Hd | by apply Hd].
Qed.
Lemma good_delete s p : keeps (write s (upd T (delete_where p))).
Proof. apply keeps_write. intros d Hd r. rewrite upd_eq. intros [Hr _]%in_delete_where. by apply Hd. Qed.
Lemma good_append s r : good r -> keeps (write s (upd T (fun l => l ++ [r]))).
Proof.
  intros Hr. apply keeps_write. intros d Hd x. rewrite upd_eq, in_app_iff. intros [Hx|[<-|[]]]; [by apply Hd | done].
Qed.

Lemma keeps_modify s r f : (forall r, good r -> good (f r)) -> keeps (modify s T r f).
Proof.
  intros Hf. apply keeps_bind; [apply (keeps_still []); [apply still_guard_touched | by intros []] |]. intros _. by apply good_update.
Qed.
Lemma keeps_delete_rows s t p : keeps (delete_rows s t p).
Proof.
  apply keeps_bind; [apply keeps_guard |]. intros c. apply keeps_bind; [by apply keeps_pure |]. intros d.
  apply keeps_bind; [| intros _; by apply keeps_pure]. destruct (decide (t = T)) as [->|Hne]; [apply good_delete |].
  apply keeps_write. intros d' Hd. by apply good_other.
Qed.
Lemma yields_add s r : good r -> (forall tid r, good r -> good (set_tenant_id T tid r)) -> yields (add s T r) good.
Proof.
  intros Hr Ht w Hw. unfold add, add_as, bind. pose proof (still_guard_new [] T None r w) as Hs.
  assert (Hg : match (guard_flush_new T None r w).1 with Ok r' => good r' | Raise _ => True end).
  { unfold guard_flush_new, current_tenant, bind. destruct (scoped T); [| done]. destruct (w_tenant w); simpl; [by apply Ht | done]. }
  assert (Hw' : good_world (guard_flush_new T None r w).2) by (apply (keeps_still []); [apply still_guard_new | by intros [] | done]).
  destruct (guard_flush_new T None r w) as [[r'|e] w']; [| done]. simpl in *.
  unfold view. destruct (existsb _ _); [done |]. split; [by apply (good_append s r') | done].
Qed.
Lemma keeps_for_each {A} (l : list A) f : (forall a, In a l -> keeps (f a)) -> keeps (for_each l f).
Proof.
  induction l as [|a l IH]; intros H; [apply keeps_ret |]. simpl. apply keeps_bind; [apply H; by left |]. intros _.
  apply IH. intros b Hb. apply H. by right.
Qed.
Lemma keeps_http {HX : Httpx} rq : keeps (http_send rq).
Proof. apply (keeps_still []); [apply still_http_send | by intros []]. Qed.

(** ** The throttle *)

Context {OT : Others}.
Hypothesis others_good : forall t n db kv, all_good db -> all_good (meanwhile t n db kv).1.

Lemma keeps_sleep d : keeps (_sleep d).
Proof. intros w [H1 H2]. split; [by apply others_good | done]. Qed.
Lemma keeps_budget m c : keeps (_budget_delay m c).
Proof.
  apply keeps_pure. intros w. destruct (_budget_delay m c w) as [r w'] eqn:E. apply _budget_delay_run in E as (A & D & _).
  simpl. by rewrite (ar_pend _ _ A).
Qed.
Lemma keeps_attempts {A} m c (attempt : M A) left : keeps attempt -> keeps (attempts m c attempt left).
Proof.
  intros Ha. induction left as [|left IH]; [apply keeps_raise |]. cbn [attempts]. apply keeps_bind; [apply keeps_budget |].
  intros bw. apply keeps_bind; [destruct bw; [apply keeps_sleep | apply keeps_ret] |]. intros _. apply keeps_catch; [done |].
  intros e k. destruct e; try done. destruct (retryable _); [| done]. intros [= <-]. apply keeps_bind.
  - destruct retry_after; [apply keeps_ret |]. apply keeps_bind; [apply keeps_draw |]. intros n. apply keeps_ret.
  - intros d. apply keeps_bind; [apply keeps_sleep | done].
Qed.
Lemma keeps_acquire n t : keeps (acquire_lock n t).
Proof.
  apply keeps_bind; [apply keeps_uuid4 |]. intros u. apply keeps_bind; [| intros b; apply keeps_ret].
  apply keeps_pure. intros w. unfold set_nx. by destruct (kv_look _ _ _).
Qed.
Lemma keeps_release n t : keeps (release_lock n t).
Proof.
  apply keeps_pure. intros w. pose proof (release_lock_run n t w) as H. destruct (release_lock n t w) as [r w'].
  destruct H as (_ & A & D & _). simpl. split; [done | apply A].
Qed.
Lemma keeps_wait n : keeps (wait_for_lock n).
Proof.
  unfold wait_for_lock. induction LOCK_ATTEMPTS as [|left IH]; [apply keeps_raise |]. cbn [wait_attempts].
  apply keeps_bind; [apply keeps_acquire |]. intros [t|]; [apply keeps_ret |]. apply keeps_bind; [apply keeps_sleep | done].
Qed.
End rely.

Create HintDb keeps.
#[export] Hint Resolve keeps_ret keeps_raise keeps_of_result keeps_now keeps_draw keeps_uuid4 keeps_random_bytes keeps_emit
  keeps_current_tenant keeps_commit keeps_http keeps_acquire keeps_release : keeps.

(** Follow the code; what touches the table, or sleeps, is left or found among the
    hypotheses. *)
Ltac keeps_code :=
  repeat (cbn zeta beta; match goal with
  | |- keeps _ _ (bind _ _) => apply keeps_bind; [| intros ?]
  | |- keeps _ _ (with_session _ _) => apply keeps_with_session
  | |- keeps _ _ (get_tenant_session _ _) => apply keeps_get_tenant_session
  | |- keeps _ _ (tenant_context _ _) => apply keeps_tenant_context
  | |- keeps _ _ (for_each _ _) => apply keeps_for_each; intros ? ?
  | |- keeps ?T ?g (scalar ?s ?t ?p) => exact (keeps_scalar T g s t p)
  | |- keeps ?T ?g (scalars ?s ?t ?p) => exact (keeps_scalars T g s t p)
  | |- keeps ?T ?g (delete_rows ?s ?t ?p) => exact (keeps_delete_rows T g s t p)
  | |- keeps _ _ (match ?x with _ => _ end) => destruct x
  | |- keeps _ _ _ => solve [assumption | auto 2 with keeps]
  end).
