(* ===== verification/ConnectorTokens.v ===== *)
(** [app/connectors/service.py] and [app/connectors/client_base.py]: the life of a
    connection's tokens, and the calls made with them.

    The code mutates the loaded connection; here an operation that does so gives
    the object as it stands afterwards with its result. *)
From S2P Require Import Prelude PyStr Hashing Base64 Json Config Tokens Models Permissions World Uuid Sample Orm Deps Edge Journal Frame Http Directory Policy Providers Throttle Rely.

Definition EXPIRY_SKEW_SECONDS : Z := 60.
Record TokenBundle := { tb_access_token : string; tb_expires_in : Z; tb_refresh_token : option string; tb_scopes : list string }.

(** Numbers the code reads from text that are not plain decimal digits:
    [float(text)] in microseconds, [int(x)] of a JSON float by its literal, [None]
    when it is infinite. *)
Class Floats := { float_of_text : string -> option Z; int_of_float : string -> option Z }.

(** [int(text)]: digits, single underscores between them, a sign, white space around. *)
Fixpoint read_decimal (acc : N) (fresh : bool) (s : string) : option N :=
  match s with
  | EmptyString => if fresh then None else Some acc
  | String c s' =>
      if underscore c then (if fresh then None else read_decimal acc true s')
      else if is_digit c then read_decimal (acc * 10 + digit_value c) false s' else None
  end.
Definition int10 (s : string) : option Z :=
  match strip s with
  | String c s' =>
      if char_eqb c "-" then Z.opp <$> (Z.of_N <$> read_decimal 0 true s')
      else if char_eqb c "+" then Z.of_N <$> read_decimal 0 true s'
      else Z.of_N <$> read_decimal 0 true (String c s')
  | EmptyString => None
  end.
Definition py_int {FL : Floats} (v : json) : result Z :=
  match v with
  | JInt z => Ok z
  | JBool b => Ok (if b then 1 else 0)
  | JStr s => match int10 s with Some z => Ok z | None => Raise (ValueError "invalid literal for int() with base 10") end
  | JFloat lit => match int_of_float lit with Some z => Ok z | None => Raise OverflowError end
  | _ => Raise TypeError
  end.

(** [s.split()] *)
Fixpoint split_words (s word : string) : list string :=
  match s with
  | EmptyString => if str_eqb word "" then [] else [word]
  | String c s' =>
      if is_space c then (if str_eqb word "" then split_words s' "" else word :: split_words s' "")
      else split_words s' (word +:+ String c EmptyString)
  end.

Example split_scopes : split_words " openid  email " "" = ["openid"; "email"].
Proof. reflexivity. Qed.
Example int_text : (int10 " 3_600 ", int10 "36 00", int10 "-5") = (Some 3600, None, Some (-5)).
Proof. reflexivity. Qed.

(** Assignments to the columns of a connection. *)
Definition with_tokens (access : bytes) (refresh : option bytes) (expires_at t : Z) (c : ConnectorConnection) : ConnectorConnection := {|
  cn_id := cn_id c; cn_tenant_id := cn_tenant_id c; cn_provider := cn_provider c; cn_kind := cn_kind c; cn_user_id := cn_user_id c;
  cn_account_label := cn_account_label c; cn_scopes := cn_scopes c; cn_access_token_enc := access;
  cn_refresh_token_enc := default (cn_refresh_token_enc c) refresh; cn_access_token_expires_at := expires_at;
  cn_status := CONN_ACTIVE; cn_last_error := None; cn_health_checked_at := Some t; cn_created_at := cn_created_at c |}.
Definition with_health (status : ConnectionStatus) (last_error : option string) (t : Z) (c : ConnectorConnection) : ConnectorConnection := {|
  cn_id := cn_id c; cn_tenant_id := cn_tenant_id c; cn_provider := cn_provider c; cn_kind := cn_kind c; cn_user_id := cn_user_id c;
  cn_account_label := cn_account_label c; cn_scopes := cn_scopes c; cn_access_token_enc := cn_access_token_enc c;
  cn_refresh_token_enc := cn_refresh_token_enc c; cn_access_token_expires_at := cn_access_token_expires_at c;
  cn_status := status; cn_last_error := last_error; cn_health_checked_at := Some t; cn_created_at := cn_created_at c |}.
Definition with_error (last_error : string) (t : Z) (c : ConnectorConnection) : ConnectorConnection := with_health (cn_status c) (Some last_error) t c.
Definition with_revocation (t : Z) (c : ConnectorConnection) : ConnectorConnection := {|
  cn_id := cn_id c; cn_tenant_id := cn_tenant_id c; cn_provider := cn_provider c; cn_kind := cn_kind c; cn_user_id := cn_user_id c;
  cn_account_label := cn_account_label c; cn_scopes := cn_scopes c; cn_access_token_enc := []; cn_refresh_token_enc := [];
  cn_access_token_expires_at := cn_access_token_expires_at c; cn_status := CONN_REVOKED; cn_last_error := None;
  cn_health_checked_at := Some t; cn_created_at := cn_created_at c |}.

(** [exc.__class__.__name__] of what the handlers catch. *)
Definition class_name (e : exn) : string :=
  match e with
  | HTTPException _ _ => "HTTPException" | ValueError _ => "ValueError" | CryptoError _ => "CryptoError"
  | InvalidSignedPayloadError _ => "InvalidSignedPayloadError" | TenantContextError _ => "TenantContextError"
  | ProvisioningError _ => "ProvisioningError" | DirectoryError _ => "DirectoryError" | AuthError _ => "AuthError"
  | OAuthLoginError _ => "OAuthLoginError" | PolicyError _ => "PolicyError" | GatewayError _ => "GatewayError"
  | ProviderUnavailable _ | ConnectorUnavailable _ => "ProviderUnavailable" | ModuleError _ => "ModuleError"
  | ModuleRegistryError _ => "ModuleRegistryError" | TypeError => "TypeError" | AttributeError => "AttributeError"
  | KeyError => "KeyError" | AssertionError => "AssertionError" | IntegrityError => "IntegrityError"
  | ResponseError _ => "ResponseError" | NoResultFound => "NoResultFound" | InvalidRequestError => "InvalidRequestError"
  | OverflowError => "OverflowError" | SMTPException => "SMTPException" | HTTPError kind => kind | JoseError => "JoseError"
  | ConnectorError _ => "ConnectorError" | InvalidGrantError _ => "InvalidGrantError"
  | MissingRefreshTokenError _ => "MissingRefreshTokenError" | ConnectorOAuthError _ => "ConnectorOAuthError"
  | ConnectorCallError _ => "ConnectorCallError" | ProviderResponseError _ _ => "ProviderResponseError"
  | UnknownProviderError _ => "UnknownProviderError" | UnsupportedCapabilityError _ => "UnsupportedCapabilityError"
  | CapabilityError _ => "CapabilityError" | SampleDigestError _ => "SampleDigestError"
  end.

Section service.
Context {P : Platform} {OT : Others} {HX : Httpx} {FL : Floats}.

Definition encrypt_token (token : string) : M bytes :=
  let* nonce := random_bytes Crypto.NONCE_SIZE in
  of_result (seal_text nonce token).
Definition decrypt_token (sealed : bytes) : result string :=
  let! key := Crypto.get_key_provider in
  let! raw := Crypto.decrypt key sealed in
  decode_utf8 raw.

Definition client_credentials (manifest : ProviderManifest) : result (string * string) :=
  let '(client_id, client_secret) :=
    if str_eqb (ConnectorProvider_value (pm_provider manifest)) "google"
    then (google_connector_client_id, google_connector_client_secret)
    else (microsoft_connector_client_id, microsoft_connector_client_secret) in
  raise_if! (str_eqb client_id "" || str_eqb client_secret "")
    (ConnectorError ("App OAuth connecteurs " +:+ ConnectorProvider_value (pm_provider manifest) +:+ " non configurée.")) in
  Ok (client_id, client_secret).

(** [error_code] of a response that is not a 200. *)
Definition error_code (response : HttpResponse) : result string :=
  match response_json response with
  | Ok (JObj raw) => Ok (py_show false (default (JStr "") (dict_get "error" raw)))
  | Ok _ | Raise (ValueError _) => Ok EmptyString
  | Raise e => Raise e
  end.

Definition _parse_token_response (response : HttpResponse) (manifest : ProviderManifest) : result TokenBundle :=
  let provider := ConnectorProvider_value (pm_provider manifest) in
  if negb (hs_status response =? 200) then
    let! code := error_code response in
    raise_if! (str_eqb code "invalid_grant")
      (InvalidGrantError ("Refresh token invalidé par " +:+ provider +:+ " (invalid_grant).")) in
    Raise (ProviderResponseError (hs_status response) None)
  else
    let! payload := response_json response in
    let! access := json_get payload "access_token" in
    match as_str access with
    | None => Raise (ConnectorError ("Réponse token de " +:+ provider +:+ " sans access_token."))
    | Some access_token =>
        raise_if! (str_eqb access_token "") (ConnectorError ("Réponse token de " +:+ provider +:+ " sans access_token.")) in
        let! refresh_token := json_get payload "refresh_token" in
        let! expires_in := json_get payload "expires_in" in
        let! scope := json_get payload "scope" in
        let! seconds := py_int (default (JInt 3600) expires_in) in
        Ok {| tb_access_token := access_token; tb_expires_in := seconds; tb_refresh_token := as_str refresh_token;
              tb_scopes := match default (JStr "") scope with JStr text => split_words text "" | _ => [] end |}
    end.

Definition exchange_code (manifest : ProviderManifest) (code redirect_uri : string) : M TokenBundle :=
  let* (client_id, client_secret) := of_result (client_credentials manifest) in
  let* response := http_post (pm_token_endpoint manifest)
    [("grant_type", "authorization_code"); ("code", code); ("redirect_uri", redirect_uri);
     ("client_id", client_id); ("client_secret", client_secret)] in
  of_result (_parse_token_response response manifest).

Definition refresh_token_grant (manifest : ProviderManifest) (refresh_token : string) : M TokenBundle :=
  let* (client_id, client_secret) := of_result (client_credentials manifest) in
  let* response := http_post (pm_token_endpoint manifest)
    [("grant_type", "refresh_token"); ("refresh_token", refresh_token);
     ("client_id", client_id); ("client_secret", client_secret)] in
  of_result (_parse_token_response response manifest).

Definition fetch_account_label (manifest : ProviderManifest) (access_token : string) : M string :=
  let anonymous := "compte " +:+ ConnectorProvider_value (pm_provider manifest) in
  let* response := http_get (pm_account_info_endpoint manifest) (Some access_token) in
  if negb (hs_status response =? 200) then ret anonymous
  else
    let* label := of_result (let! payload := response_json response in pm_parse_account_label manifest payload) in
    ret (ostr_or label anonymous).

(** The assignments [apply_token_bundle] makes. *)
Definition apply_token_bundle (bundle : TokenBundle) : M (ConnectorConnection -> ConnectorConnection) :=
  let* access := encrypt_token (tb_access_token bundle) in
  let* refresh := match tb_refresh_token bundle with
                  | Some token => if str_eqb token "" then ret None else let* b := encrypt_token token in ret (Some b)
                  | None => ret None
                  end in
  let* t := now in
  ret (with_tokens access refresh (t + tb_expires_in bundle * second) t).

Definition _refresh_lock_name (connection_id : N) : string := "refresh:" +:+ uuid_str connection_id.
Definition access_token_expiring (connection : ConnectorConnection) (lead t : Z) : bool :=
  cn_access_token_expires_at connection <=? t + lead.

(** [session.refresh(obj)]: the row is read again by its primary key. *)
Definition session_refresh (s : sess) (t : table) (obj : row t) : M (row t) :=
  let* _ := _guard_orm_execute {| statement := SELECT; is_column_load := true; is_relationship_load := false;
                                  all_mappers := [t]; tables := [t] |} in
  let* db := view s in
  match first_where (same_row t obj) (db t) with Some r => ret r | None => raise InvalidRequestError end.

(** ** Refreshing *)

Definition refresh_grant (manifest : ProviderManifest) (connection : ConnectorConnection) : M TokenBundle :=
  let* refresh_token := of_result (decrypt_token (cn_refresh_token_enc connection)) in
  run_with_backoff manifest (cn_id connection) (refresh_token_grant manifest refresh_token).

Definition reconsent_msg : string := "Refresh token invalidé par le provider (invalid_grant).".

(** The [try] of [refresh_connection]: the new tokens, or the object once the
    handler of [InvalidGrantError] is through. *)
Definition guarded_grant (s : sess) (manifest : ProviderManifest) (connection : ConnectorConnection) :
    M (TokenBundle + ConnectorConnection) :=
  catch (let* bundle := refresh_grant manifest connection in ret (inl bundle)) (fun e =>
    match e with
    | InvalidGrantError _ => Some (
        let* t := now in
        let change := with_health CONN_NEEDS_RECONSENT (Some reconsent_msg) t in
        let* _ := modify s Connections connection change in
        let* _ := record_audit_event s "connector.reconsent_required" "connector_connection" (uuid_str (cn_id connection))
          [("provider", JStr (ConnectorProvider_value (cn_provider connection))); ("account", JStr (cn_account_label connection))]
          None SYSTEM_ACTOR_LABEL in
        ret (inr (change connection)))
    | ProviderResponseError _ _ | ConnectorUnavailable _ | HTTPError _ => Some (
        let* t := now in
        let* _ := modify s Connections connection (with_error ("Refresh échoué : " +:+ class_name e) t) in
        raise e)
    | _ => None
    end).

(** What follows, once the lock is held. *)
Definition refresh_locked (s : sess) (connection : ConnectorConnection) (token : string) : M (ConnectorConnection * bool) :=
  let manifest := _register (cn_provider connection) in
  let* outcome := finally (guarded_grant s manifest connection)
    (fun w => (release_lock (_refresh_lock_name (cn_id connection)) token w).2) in
  match outcome with
  | inr connection => ret (connection, false)
  | inl bundle =>
      let* change := apply_token_bundle bundle in
      let* _ := modify s Connections connection change in
      ret (change connection, true)
  end.

Definition refresh_connection (s : sess) (connection : ConnectorConnection) (block : bool) : M (ConnectorConnection * bool) :=
  let lock_name := _refresh_lock_name (cn_id connection) in
  if block then
    let* token := wait_for_lock lock_name in
    let* connection := session_refresh s Connections connection in
    let* t := now in
    if negb (access_token_expiring connection (EXPIRY_SKEW_SECONDS * second) t) then
      let* _ := release_lock lock_name token in
      ret (connection, false)
    else refresh_locked s connection token
  else
    let* maybe_token := acquire_lock lock_name LOCK_TTL_SECONDS in
    match maybe_token with
    | None => ret (connection, false)
    | Some token => refresh_locked s connection token
    end.

(** The body of the [try] of [revoke_connection], whose handler only logs. *)
Definition remote_revoke (connection : ConnectorConnection) (revoke_endpoint : string) : M unit :=
  let* refresh_token := of_result (decrypt_token (cn_refresh_token_enc connection)) in
  let* _ := http_post revoke_endpoint [("token", refresh_token)] in
  ret tt.
Definition revoke_connection (s : sess) (connection : ConnectorConnection) : M ConnectorConnection :=
  let manifest := _register (cn_provider connection) in
  let* _ := match pm_revoke_endpoint manifest with
            | Some revoke_endpoint => catch (remote_revoke connection revoke_endpoint) (fun _ => Some (ret tt))
            | None => ret tt
            end in
  let* t := now in
  let* _ := modify s Connections connection (with_revocation t) in
  ret (with_revocation t connection).

(** ** Calls *)

Definition fresh_access_token (s : sess) (connection : ConnectorConnection) : M (ConnectorConnection * string) :=
  raise_when (negb (bool_decide (cn_status connection = CONN_ACTIVE)))
    (ConnectorCallError ("Connexion " +:+ uuid_str (cn_id connection) +:+ " non active (" +:+
      ConnectionStatus_value (cn_status connection) +:+ ").")) in
  let* t := now in
  let* connection := (if access_token_expiring connection (EXPIRY_SKEW_SECONDS * second) t then
                        let* (connection, _) := refresh_connection s connection true in
                        let* _ := commit s in
                        ret connection
                      else ret connection) in
  let* token := of_result (decrypt_token (cn_access_token_enc connection)) in
  ret (connection, token).

(** [float(raw)], in microseconds. *)
Definition _retry_after_seconds (response : HttpResponse) : option Z :=
  match hs_retry_after response with
  | None => None
  | Some raw => if all_chars is_digit raw && negb (str_eqb raw "") then (fun z => z * second) <$> int10 raw else float_of_text raw
  end.

(** [httpx.URL(url).path] *)
Definition url_path (url : string) : string :=
  let '(_, rest) := Url.split_scheme url in
  let after := match rest with String "/" (String "/" r) => r | _ => rest end in
  let path := String.substring (String.length (take_until Url.ends_netloc after)) (String.length after) after in
  take_until (fun c => char_eqb c "?" || char_eqb c "#") path.

Definition provider_attempt (method url access_token : string) (body : option json) (params : list (string * string)) : M HttpResponse :=
  let* response := http_send {| hr_method := method; hr_url := url; hr_bearer := Some access_token; hr_params := params;
                                hr_data := []; hr_json := body |} in
  raise_when ((hs_status response =? 429) || (500 <=? hs_status response))
    (ProviderResponseError (hs_status response) (_retry_after_seconds response)) in
  ret response.

Definition provider_http_request (manifest : ProviderManifest) (connection : ConnectorConnection) (method url access_token : string)
    (body : option json) (params : list (string * string)) : M HttpResponse :=
  let* response := run_with_backoff manifest (cn_id connection) (provider_attempt method url access_token body params) in
  raise_when (400 <=? hs_status response)
    (ConnectorCallError ("Appel " +:+ ConnectorProvider_value (pm_provider manifest) +:+ " refusé (HTTP " +:+
      show_Z (hs_status response) +:+ ", " +:+ method +:+ " " +:+ url_path url +:+ ").")) in
  ret response.

Definition graph_request (s : sess) (connection : ConnectorConnection) (method path : string) (body : option json)
    (params : list (string * string)) : M (ConnectorConnection * HttpResponse) :=
  let manifest := _register (cn_provider connection) in
  let* (connection, access_token) := fresh_access_token s connection in
  let* response := provider_http_request manifest connection method (pm_api_base_url manifest +:+ path) access_token body params in
  ret (connection, response).
End service.

Example graph_path : url_path "https://graph.microsoft.com/v1.0/me/events?$top=5" = "/v1.0/me/events".
Proof. reflexivity. Qed.

(** ** Tokens at rest *)

Section sealed.
Context {P : Platform} {OT : Others} {HX : Httpx} {FL : Floats}.

(** Nothing, or the encryption of some text under the configured key. *)
Definition sealed (b : bytes) : Prop := b = [] \/ exists nonce text, length nonce = Crypto.NONCE_SIZE /\ seal_text nonce text = Ok b.
Definition conn_ok (c : ConnectorConnection) : Prop :=
  sealed (cn_access_token_enc c) /\ sealed (cn_refresh_token_enc c) /\
  (cn_status c = CONN_REVOKED -> cn_access_token_enc c = [] /\ cn_refresh_token_enc c = []).

Lemma decrypt_sealed nonce text b : length nonce = Crypto.NONCE_SIZE -> seal_text nonce text = Ok b -> decrypt_token b = Ok text.
Proof.
  intros Hn. unfold seal_text, decrypt_token. destruct Crypto.get_key_provider as [key|e]; [| done]. cbn [result_bind].
  intros <-%Ok_inj. rewrite Crypto.decrypt_encrypt by done. cbn [result_bind]. apply decode_encode.
Qed.

Lemma encrypt_token_run token w r w' : encrypt_token token w = (r, w') ->
  around w w' /\ w_db w' = w_db w /\ w_now w' = w_now w /\ w_kv w' = w_kv w /\
  match r with
  | Ok b => b <> [] /\ sealed b /\ decrypt_token b = Ok token
  | Raise e => Crypto.get_key_provider = Raise e
  end.
Proof.
  unfold encrypt_token, bind, random_bytes, of_result. intros [= <- <-]. split; [by split |]. do 3 (split; [done |]).
  set (nonce := Sha256.be_octets _ _). assert (Hn : length nonce = Crypto.NONCE_SIZE) by apply be_octets_length.
  destruct (seal_text nonce token) as [b|e] eqn:E.
  - split; [| split; [right; by exists nonce, token | by apply (decrypt_sealed nonce)]].
    intros ->. revert E. unfold seal_text. destruct Crypto.get_key_provider; [| done]. cbn [result_bind]. intros E%Ok_inj.
    apply (f_equal length) in E. unfold Crypto.encrypt in E. rewrite List.length_app, Hn in E. done.
  - revert E. unfold seal_text. destruct Crypto.get_key_provider; [done |]. by intros [= <-].
Qed.

Lemma conn_ok_set_tenant tid c : conn_ok c -> conn_ok (set_tenant_id Connections tid c).
Proof. done. Qed.
Lemma conn_ok_health st e t c : st <> CONN_REVOKED -> conn_ok c -> conn_ok (with_health st e t c).
Proof. intros Hs (H1 & H2 & _). by split. Qed.
Lemma conn_ok_error e t c : conn_ok c -> conn_ok (with_error e t c).
Proof. done. Qed.
Lemma conn_ok_revocation t c : conn_ok (with_revocation t c).
Proof. split; [by left |]. split; [by left |]. done. Qed.
Lemma conn_ok_tokens a rf x t c : sealed a -> (forall b, rf = Some b -> sealed b) -> conn_ok c -> conn_ok (with_tokens a rf x t c).
Proof. intros Ha Hr (_ & H2 & _). split; [done |]. split; [destruct rf; [by apply Hr | done] | done]. Qed.

Abbreviation keeps := (keeps Connections conn_ok).
Abbreviation yields := (yields Connections conn_ok).
Hypothesis others_ok : forall t n db kv, all_good Connections conn_ok db -> all_good Connections conn_ok (meanwhile t n db kv).1.

Lemma apply_token_bundle_yields bundle : yields (apply_token_bundle bundle) (fun change => forall c, conn_ok c -> conn_ok (change c)).
Proof.
  assert (He : forall token, yields (encrypt_token token) sealed).
  { intros token w Hw. destruct (encrypt_token token w) as [r w'] eqn:E. apply encrypt_token_run in E as (A & D & _ & _ & H).
    simpl. split; [| destruct r; [apply H | done]]. unfold good_world. rewrite D, (ar_pend _ _ A). exact Hw. }
  unfold apply_token_bundle. eapply yields_bind; [apply He |]. intros a Ha.
  apply (yields_bind _ _ _ (fun rf => forall b, rf = Some b -> sealed b)).
  - destruct (tb_refresh_token bundle) as [token|]; [destruct (str_eqb token "") |]; try by apply yields_ret.
    eapply yields_bind; [apply He |]. intros b Hb. apply yields_ret. by intros b' [= <-].
  - intros rf Hr. eapply yields_bind; [apply keeps_yields, keeps_now |]. intros t _. apply yields_ret.
    intros c Hc. by apply conn_ok_tokens.
Qed.

Lemma keeps_token_grant manifest rt : keeps (refresh_token_grant manifest rt).
Proof. unfold refresh_token_grant, http_post. keeps_code. Qed.
Lemma keeps_refresh_grant manifest c : keeps (refresh_grant manifest c).
Proof.
  unfold refresh_grant, run_with_backoff. apply keeps_bind; [apply keeps_of_result |]. intros rt.
  apply keeps_attempts; [done | apply keeps_token_grant].
Qed.
Lemma keeps_record s a rt ri p u l : keeps (record_audit_event s a rt ri p u l).
Proof. apply (keeps_still _ _ [AuditEvents]); [apply still_record_audit_event; by left | simpl; intuition discriminate]. Qed.
Lemma keeps_guarded_grant s manifest c : keeps (guarded_grant s manifest c).
Proof.
  unfold guarded_grant. apply keeps_catch.
  - apply keeps_bind; [apply keeps_refresh_grant |]. intros b. apply keeps_ret.
  - assert (He : forall e t, keeps (modify s Connections c (with_error e t))) by (intros e t; apply keeps_modify; by apply conn_ok_error).
    intros e k. destruct e; try done; intros [= <-].
    all: apply keeps_bind; [apply keeps_now |]; intros t; apply keeps_bind; [| intros _]; try apply He; try apply keeps_raise.
    { apply keeps_modify. intros r. by apply conn_ok_health. }
    apply keeps_bind; [apply keeps_record |]. intros _. apply keeps_ret.
Qed.
Lemma keeps_refresh_locked s c token : keeps (refresh_locked s c token).
Proof.
  unfold refresh_locked. apply keeps_bind.
  - apply keeps_finally; [apply keeps_guarded_grant | intros w; apply keeps_release].
  - intros [bundle|c']; [| apply keeps_ret]. eapply keeps_bind_yields; [apply apply_token_bundle_yields |]. intros change Hc.
    apply keeps_bind; [by apply keeps_modify |]. intros _. apply keeps_ret.
Qed.
Lemma keeps_session_refresh s c : keeps (session_refresh s Connections c).
Proof. apply keeps_bind; [by apply keeps_pure |]. intros _. apply keeps_bind; [by apply keeps_pure |]. intros d. destruct (first_where _ _); [apply keeps_ret | apply keeps_raise]. Qed.
Lemma keeps_refresh_connection s c block : keeps (refresh_connection s c block).
Proof.
  unfold refresh_connection. destruct block.
  - apply keeps_bind; [by apply keeps_wait |]. intros token. apply keeps_bind; [apply keeps_session_refresh |]. intros c'.
    apply keeps_bind; [apply keeps_now |]. intros t. destruct (negb _); [| apply keeps_refresh_locked]. keeps_code.
  - apply keeps_bind; [apply keeps_acquire |]. intros [token|]; [apply keeps_refresh_locked | apply keeps_ret].
Qed.
Lemma keeps_revoke_connection s c : keeps (revoke_connection s c).
Proof.
  unfold revoke_connection. apply keeps_bind.
  - destruct (pm_revoke_endpoint _); [| apply keeps_ret]. apply keeps_catch; [| intros e k [= <-]; apply keeps_ret].
    unfold remote_revoke, http_post. keeps_code.
  - intros _. apply keeps_bind; [apply keeps_now |]. intros t. apply keeps_bind; [| intros _; apply keeps_ret].
    apply keeps_modify. intros r _. apply conn_ok_revocation.
Qed.
Lemma keeps_fresh_access_token s c : keeps (fresh_access_token s c).
Proof.
  unfold fresh_access_token. destruct (negb _); [apply keeps_raise |]. pose proof (keeps_refresh_connection s). keeps_code; auto.
Qed.
Lemma keeps_provider_http_request m c meth url tok body ps : keeps (provider_http_request m c meth url tok body ps).
Proof.
  unfold provider_http_request, run_with_backoff, provider_attempt. apply keeps_bind; [apply keeps_attempts; [done |] | intros r]; keeps_code.
Qed.
End sealed.

(** ** A refresh *)

Section refresh.
Context {P : Platform} {OT : Others} {HX : Httpx} {FL : Floats}.
Implicit Types (w : World) (c : ConnectorConnection).

(** The provider issued [bundle] for the refresh token [rt]. *)
Definition issued (manifest : ProviderManifest) (rt : string) (bundle : TokenBundle) : Prop :=
  exists w1 w2, refresh_token_grant manifest rt w1 = (Ok bundle, w2).
Definition row_change c (f : ConnectorConnection -> ConnectorConnection) (db : Db) : Db :=
  upd Connections (update_where (same_row Connections c) f) db.
(** All that session [s] has written between [w] and [w'] is [f]; no other session
    has, and the tenant is the same. *)
Definition has_written s (f : Db -> Db) w w' : Prop :=
  w_tenant w' = w_tenant w /\ (forall db, w_pend w' s db = f (w_pend w s db)) /\
  forall s', s' <> s -> w_pend w' s' = w_pend w s'.
Definition provider_failure (e : exn) : Prop :=
  match e with ProviderResponseError _ _ | ConnectorUnavailable _ | HTTPError _ => True | _ => False end.

Lemma pend_wrote s f w db : w_pend (wrote s f w) s db = f (w_pend w s db).
Proof. unfold wrote. by rewrite pend_set. Qed.
Lemma pend_wrote_ne s s' f w : s' <> s -> w_pend (wrote s f w) s' = w_pend w s'.
Proof. intros H. unfold wrote. by rewrite pend_set_ne. Qed.

Lemma steady_written s w w' : steady w w' -> has_written s (fun db => db) w w'.
Proof. intros H. split; [apply H |]. by rewrite (st_pend _ _ H). Qed.
Lemma written_steady s f w w1 w' : has_written s f w w1 -> steady w1 w' -> has_written s f w w'.
Proof. intros (H1 & H2 & H3) H. split; [rewrite (st_tenant _ _ H); done |]. by rewrite (st_pend _ _ H). Qed.
Lemma written_modify s c f w w1 ctx g : w_tenant w = Some ctx -> cn_tenant_id c = tc_tenant_id ctx -> has_written s g w w1 ->
  exists w2, modify s Connections c f w1 = (Ok tt, w2) /\ has_written s (fun db => row_change c f (g db)) w w2 /\ w_now w2 = w_now w1 /\ w_kv w2 = w_kv w1.
Proof.
  intros Hc Ho (H1 & H2 & H3). rewrite (modify_scoped s Connections c f w1 ctx); [| done | congruence |].
  - eexists. split; [done |]. split; [| done]. split; [done |]. split.
    + intros db. rewrite pend_wrote. unfold row_change. by rewrite H2.
    + intros s' Hs. rewrite pend_wrote_ne by done. by apply H3.
  - unfold owned_by. simpl. by apply N.eqb_eq.
Qed.

Lemma session_refresh_run s c w : session_refresh s Connections c w = (Raise InvalidRequestError, w) \/
  exists c0, same_row Connections c c0 = true /\ session_refresh s Connections c w = (Ok c0, w).
Proof.
  unfold session_refresh, bind, view, ret, raise. cbn [_guard_orm_execute statement is_column_load orb].
  pose proof (first_where_Some (same_row Connections c) (sees w s Connections)) as H. unfold ret.
  destruct (first_where _ _) as [c0|]; [| by left]. right. exists c0. split; [by apply H | done].
Qed.

Lemma token_grant_steady manifest rt w : steady w (refresh_token_grant manifest rt w).2.
Proof.
  unfold refresh_token_grant, http_post, http_send, bind, of_result. destruct (client_credentials manifest) as [[id sec]|]; [| by split].
  by destruct (http_answer _ _ _).
Qed.

Lemma refresh_grant_run manifest c w :
  steady w (refresh_grant manifest c w).2 /\
  forall bundle, (refresh_grant manifest c w).1 = Ok bundle ->
    exists rt, decrypt_token (cn_refresh_token_enc c) = Ok rt /\ issued manifest rt bundle.
Proof.
  unfold refresh_grant. unfold bind at 1 2. destruct (decrypt_token _) as [rt|e]; unfold of_result; [| by split].
  unfold run_with_backoff. split; [apply attempts_steady; intros w'; apply token_grant_steady |].
  intros bundle. destruct (attempts _ _ _ _ w) as [r w'] eqn:E. simpl. intros ->. apply attempts_ok in E as (w1 & E).
  exists rt. split; [done |]. by exists w1, w'.
Qed.

Definition reconsent_event (ctx : TenantContext) c t (e : AuditEvent) : Prop :=
  event_is (tc_tenant_id ctx) t "connector.reconsent_required" "connector_connection" (uuid_str (cn_id c))
    [("provider", JStr (ConnectorProvider_value (cn_provider c))); ("account", JStr (cn_account_label c))] None SYSTEM_ACTOR_LABEL e.

Lemma guarded_grant_run s c w ctx : w_tenant w = Some ctx -> cn_tenant_id c = tc_tenant_id ctx ->
  let '(r, w') := guarded_grant s (_register (cn_provider c)) c w in
  match r with
  | Ok (inl bundle) => has_written s (fun db => db) w w' /\
      exists rt, decrypt_token (cn_refresh_token_enc c) = Ok rt /\ issued (_register (cn_provider c)) rt bundle
  | Ok (inr c') => exists t e, c' = with_health CONN_NEEDS_RECONSENT (Some reconsent_msg) t c /\ reconsent_event ctx c t e /\
      has_written s (fun db => upd AuditEvents (fun l => l ++ [e]) (row_change c (with_health CONN_NEEDS_RECONSENT (Some reconsent_msg) t) db)) w w'
  | Raise e => has_written s (fun db => db) w w' \/
      (exists t, provider_failure e /\ has_written s (row_change c (with_error ("Refresh échoué : " +:+ class_name e) t)) w w') \/
      (exists t, e = IntegrityError /\ has_written s (row_change c (with_health CONN_NEEDS_RECONSENT (Some reconsent_msg) t)) w w')
  end.
Proof.
  intros Hc Ho. destruct (refresh_grant_run (_register (cn_provider c)) c w) as [Hs Hi].
  unfold guarded_grant, catch. unfold bind at 1. destruct (refresh_grant _ c w) as [[bundle|e] w1]; simpl in Hs, Hi.
  { simpl. split; [by apply steady_written | by apply Hi]. }
  apply (steady_written s) in Hs.
  assert (Hf : forall e, provider_failure e -> exists t w2,
    (let* t := now in let* _ := modify s Connections c (with_error ("Refresh échoué : " +:+ class_name e) t) in
     raise (A := TokenBundle + ConnectorConnection) e) w1 = (Raise e, w2) /\
    has_written s (row_change c (with_error ("Refresh échoué : " +:+ class_name e) t)) w w2).
  { intros e' He. unfold bind, now.
    destruct (written_modify s c (with_error ("Refresh échoué : " +:+ class_name e') (w_now w1)) w w1 ctx _ Hc Ho Hs) as (w2 & E & H2 & _).
    rewrite E. exists (w_now w1), w2. by split. }
  destruct e; try (left; exact Hs).
  1,3,4: edestruct Hf as (t & w2 & E & H2); [| rewrite E; right; left; exists t; split; [exact I | exact H2]]; exact I.
  unfold bind at 1, now. set (f := with_health _ _ _).
  destruct (written_modify s c f w w1 ctx _ Hc Ho Hs) as (w2 & E & H2 & N2 & _). unfold bind at 1. rewrite E.
  unfold bind. destruct (record_audit_event s _ _ _ _ _ _ w2) as [rr w3] eqn:Er.
  destruct H2 as (T2 & P2 & Q2). apply (record_audit_event_run _ _ _ _ _ _ _ _ ctx) in Er; [| congruence].
  destruct Er as [[-> ->]|(ev & -> & He & ->)].
  - right. right. exists (w_now w1). split; [done |]. by repeat split.
  - unfold ret. exists (w_now w1), ev. split; [done |]. split; [by rewrite N2 in He |]. split; [done |]. split.
    + intros db. rewrite pend_wrote. simpl. by rewrite P2.
    + intros s' Hs'. rewrite pend_wrote_ne by done. by apply Q2.
Qed.

Lemma apply_token_bundle_run bundle w : let '(r, w') := apply_token_bundle bundle w in
  around w w' /\ w_db w' = w_db w /\ w_kv w' = w_kv w /\ w_now w' = w_now w /\
  match r with
  | Ok change => exists access refresh, change = with_tokens access refresh (w_now w + tb_expires_in bundle * second) (w_now w) /\
      decrypt_token access = Ok (tb_access_token bundle) /\
      match tb_refresh_token bundle with
      | Some token => if str_eqb token "" then refresh = None else exists b, refresh = Some b /\ decrypt_token b = Ok token
      | None => refresh = None
      end
  | Raise _ => True
  end.
Proof.
  unfold apply_token_bundle. unfold bind at 1. destruct (encrypt_token _ w) as [ra w1] eqn:E.
  apply encrypt_token_run in E as (A & D & N & K & Ha).
  destruct ra as [a|e]; [| by split]. destruct Ha as (_ & _ & Ha). destruct (tb_refresh_token bundle) as [token|].
  2: { unfold bind, ret, now. rewrite N. do 4 (split; [done |]). by exists a, None. }
  destruct (str_eqb token "").
  { unfold bind, ret, now. rewrite N. do 4 (split; [done |]). by exists a, None. }
  unfold bind at 1 2. destruct (encrypt_token token w1) as [rb w2] eqn:E2. apply encrypt_token_run in E2 as (A2 & D2 & N2 & K2 & Hb).
  assert (A3 : around w w2) by by eapply around_trans.
  destruct rb as [b|e]; unfold ret; [unfold bind, now |]; (split; [done |]); (split; [congruence |]); (split; [congruence |]);
    (split; [congruence |]); [| done].
  rewrite N2, N. destruct Hb as (_ & _ & Hb). exists a, (Some b). split; [done |]. split; [done |]. by exists b.
Qed.

(** What a refresh of [c] under the lock may come to. *)
Definition refresh_outcome s (ctx : TenantContext) c (r : result (ConnectorConnection * bool)) w w' : Prop :=
  match r with
  | Ok (c', true) => exists rt bundle access refresh t,
      decrypt_token (cn_refresh_token_enc c) = Ok rt /\ issued (_register (cn_provider c)) rt bundle /\
      decrypt_token access = Ok (tb_access_token bundle) /\
      match tb_refresh_token bundle with
      | Some token => if str_eqb token "" then refresh = None else exists b, refresh = Some b /\ decrypt_token b = Ok token
      | None => refresh = None
      end /\
      let change := with_tokens access refresh (t + tb_expires_in bundle * second) t in
      c' = change c /\ has_written s (row_change c change) w w'
  | Ok (c', false) => exists t e,
      let change := with_health CONN_NEEDS_RECONSENT (Some reconsent_msg) t in
      c' = change c /\ reconsent_event ctx c t e /\
      has_written s (fun db => upd AuditEvents (fun l => l ++ [e]) (row_change c change db)) w w'
  | Raise e => has_written s (fun db => db) w w' \/
      (exists t, provider_failure e /\ has_written s (row_change c (with_error ("Refresh échoué : " +:+ class_name e) t)) w w') \/
      (exists t, e = IntegrityError /\ has_written s (row_change c (with_health CONN_NEEDS_RECONSENT (Some reconsent_msg) t)) w w')
  end.
Definition released c token w : Prop :=
  forall d, kv_look (w_now w) (lock_key (_refresh_lock_name (cn_id c))) (w_kv w) <> Some (KStr token, d).

Lemma written_after s f w w1 w' : steady w w1 -> has_written s f w1 w' -> has_written s f w w'.
Proof. intros H (H1 & H2 & H3). rewrite (st_pend _ _ H), (st_tenant _ _ H) in *. by repeat split. Qed.
Lemma outcome_after s ctx c r w w1 w' : steady w w1 -> refresh_outcome s ctx c r w1 w' -> refresh_outcome s ctx c r w w'.
Proof.
  intros H. destruct r as [[c' []]|e]; simpl.
  - intros (rt & b & a & rf & t & H1 & H2 & H3 & H4 & H5 & H6). exists rt, b, a, rf, t. do 5 (split; [done |]). by eapply written_after.
  - intros (t & e & H1 & H2 & H3). exists t, e. do 2 (split; [done |]). by eapply written_after.
  - intros [H1|[(t & H1 & H2)|(t & H1 & H2)]]; [left | right; left; exists t; split; [done |] | right; right; exists t; split; [done |]];
      by eapply written_after.
Qed.

Lemma refresh_locked_run s c token w ctx : w_tenant w = Some ctx -> cn_tenant_id c = tc_tenant_id ctx ->
  let '(r, w') := refresh_locked s c token w in refresh_outcome s ctx c r w w' /\ released c token w'.
Proof.
  intros Hc Ho. unfold refresh_locked. unfold bind at 1, finally at 1.
  pose proof (guarded_grant_run s c w ctx Hc Ho) as Hg. destruct (guarded_grant s _ c w) as [rg w1].
  pose proof (release_lock_run (_refresh_lock_name (cn_id c)) token w1) as Hr.
  destruct (release_lock _ token w1) as [rr w2]. destruct Hr as (_ & A & _ & N & Hk & _). apply around_steady in A. simpl.
  assert (Hrel : released c token w2) by (intros d; rewrite N; apply Hk).
  destruct rg as [[bundle|c']|e].
  - destruct Hg as (Hw & rt & Hrt & Hi). apply (written_steady s _ _ _ w2) in Hw; [| done].
    pose proof (apply_token_bundle_run bundle w2) as Ha. unfold bind. destruct (apply_token_bundle bundle w2) as [ra w3].
    destruct Ha as (A3 & _ & K3 & N3 & Ha). apply around_steady in A3. apply (written_steady s _ _ _ w3) in Hw; [| done].
    assert (Hrel3 : released c token w3) by (intros d; rewrite K3, N3; apply Hrel).
    destruct ra as [change|e]; [| split; [by left | done]]. destruct Ha as (access & refresh & -> & Hac & Hre).
    set (change := with_tokens _ _ _ _).
    destruct (written_modify s c change w w3 ctx _ Hc Ho Hw) as (w4 & -> & H4 & N4 & K4). unfold ret. split.
    + exists rt, bundle, access, refresh, (w_now w2). do 4 (split; [done |]). by split.
    + intros d. rewrite K4, N4. apply Hrel3.
  - destruct Hg as (t & e & -> & He & Hw). unfold ret. split; [| done]. exists t, e. do 2 (split; [done |]). by eapply written_steady.
  - split; [| done]. destruct Hg as [Hw|[(t & He & Hw)|(t & He & Hw)]].
    + left. by eapply written_steady.
    + right. left. exists t. split; [done |]. by eapply written_steady.
    + right. right. exists t. split; [done |]. by eapply written_steady.
Qed.
Lemma revoke_connection_run s c w ctx : w_tenant w = Some ctx -> cn_tenant_id c = tc_tenant_id ctx ->
  let '(r, w') := revoke_connection s c w in
  r = Ok (with_revocation (w_now w) c) /\
  has_written s (row_change c (with_revocation (w_now w))) w w' /\ w_db w' = w_db w /\ w_now w' = w_now w /\
  (w_out w' = w_out w \/ exists url, pm_revoke_endpoint (_register (cn_provider c)) = Some url /\ w_out w' = w_out w ++ [HttpCalled "POST" url]).
Proof.
  intros Hc Ho. unfold revoke_connection. unfold bind at 1.
  set (m := match pm_revoke_endpoint _ with Some _ => _ | None => _ end). destruct (m w) as [rm w1] eqn:Em.
  assert (H : rm = Ok tt /\ steady w w1 /\ w_now w1 = w_now w /\ w_db w1 = w_db w /\
    (w_out w1 = w_out w \/ exists url, pm_revoke_endpoint (_register (cn_provider c)) = Some url /\ w_out w1 = w_out w ++ [HttpCalled "POST" url])).
  { unfold m in Em. destruct (pm_revoke_endpoint _) as [url|]; [| injection Em as <- <-; split; [done |]; split; [by split |]; split; [done |]; by split; [| left]].
    unfold catch, remote_revoke, http_post, http_send, bind, of_result, ret in Em. destruct (decrypt_token _) as [rt|e].
    - destruct (http_answer _ _ _); injection Em as <- <-; (split; [done |]); (split; [by split |]); (split; [done |]); (split; [done |]); right; by exists url.
    - injection Em as <- <-. split; [done |]. split; [by split |]. split; [done |]. by split; [| left]. }
  destruct H as (-> & S1 & N1 & D1 & O1). unfold bind at 1, now. rewrite N1.
  apply (steady_written s) in S1. destruct (written_modify s c (with_revocation (w_now w)) w w1 ctx _ Hc Ho S1) as (w2 & E & H2 & N2 & _).
  assert (Eo : w_out w2 = w_out w1 /\ w_db w2 = w_db w1).
  { revert E. unfold modify, guard_flush_touched, bind, current_tenant, raise, ret, write. simpl. destruct (w_tenant w1); [| done].
    destruct (negb _); [done |]. by intros [= <-]. }
  destruct Eo as [Eo Ed].
  unfold bind. rewrite E. unfold ret. split; [done |]. split; [exact H2 |].
  rewrite Eo, Ed. split; [congruence |]. split; [congruence | done].
Qed.
End refresh.

(** ** Properties *)

Section properties.
Context {P : Platform} {OT : Others} {HX : Httpx} {FL : Floats}.
Implicit Types (w : World) (c : ConnectorConnection).


(** Revoking is local and cannot fail. Whatever the stored token is and
    whatever the provider answers, if it is reachable at all, the row has no token
    left and the status [REVOKED], nothing else is written, and only a provider
    with a revocation endpoint is called, once at most. *)
Theorem revocation_is_unconditional (s : sess) c w ctx :
  w_tenant w = Some ctx -> cn_tenant_id c = tc_tenant_id ctx ->
  let '(r, w') := revoke_connection s c w in
  r = Ok (with_revocation (w_now w) c) /\
  has_written s (row_change c (with_revocation (w_now w))) w w' /\
  (w_out w' = w_out w \/ exists url, pm_revoke_endpoint (_register (cn_provider c)) = Some url /\ w_out w' = w_out w ++ [HttpCalled "POST" url]).
Proof. intros Hc Ho. pose proof (revoke_connection_run s c w ctx Hc Ho) as H. destruct (revoke_connection s c w). tauto. Qed.
End properties.

(** ** Running it *)

Definition no_floats : Floats := {| float_of_text _ := None; int_of_float _ := None |}.
Definition sealed_sample (text : string) : bytes :=
  match seal_text (CFG := default_settings) (AES := plain_aes) (repeat (octet 5) 12) text with Ok b => b | Raise _ => [] end.
Definition live_google : ConnectorConnection :=
  with_tokens (sealed_sample "old-access") (Some (sealed_sample "refresh-1")) t0 0 acme_google.
Definition google_tokens : Httpx := {|
  http_answer _ _ _ := inr {| hs_status := 200; hs_retry_after := None;
    hs_body := dumps (JObj [("access_token", JStr "new-access"); ("expires_in", JInt 3599)]) |};
  query_string _ := "" |}.
Definition connected_db : Db := upd Connections (fun _ => [live_google]) sample_db.
Definition in_acme_connected : World (VK := simple_valkey) := set_db connected_db in_acme.


Lemma revocation_is_unconditional_witness :
  (revoke_connection (P := google_platform) (HX := google_tokens) Ten live_google in_acme_connected).1 = Ok (with_revocation t0 live_google).
Proof.
  pose proof (revocation_is_unconditional (P := google_platform) (HX := google_tokens) Ten live_google in_acme_connected
    {| tc_tenant_id := 1; tc_slug := "acme"; tc_role := Some ROLE_OWNER |} eq_refl eq_refl) as H.
  destruct (revoke_connection (P := google_platform) (HX := google_tokens) Ten live_google in_acme_connected) as [r w'].
  exact (proj1 H).
Defined.

(** ** A refresh may outlive its lock *)

Definition google_lock : string := lock_key (_refresh_lock_name 7).
(** Another worker that takes the lock as soon as it is free. *)
Definition rival : Others (VK := simple_valkey) := {| meanwhile t _ db kv :=
  (db, match kv_look (Valkey := simple_valkey) t google_lock kv with
       | Some _ => kv
       | None => kv_set (Valkey := simple_valkey) t google_lock (KStr "rival") (Some (LOCK_TTL_SECONDS * second)) kv
       end) |}.
(** The connection has used up its budget of the minute. *)
Definition busy_minute : World (VK := simple_valkey) :=
  set_kv (kv_set (Valkey := simple_valkey) t0 (budget_key GOOGLE_MANIFEST 7) (KInt 240) (Some (60 * second)) (w_kv in_acme)) in_acme_connected.

(** The lock does not serialise the refreshes of a connection. It lives 30
    seconds, and the refresh under it first waits for its budget, up to a minute:
    here the lock expires during the wait, another process takes it, and the
    first one calls the provider with the same refresh token and stores the
    answer all the same. *)
Theorem refresh_outlives_its_lock :
  exists c' w', refresh_connection (P := google_platform) (OT := rival) (HX := google_tokens) (FL := no_floats)
      Ten live_google false busy_minute = (Ok (c', true), w') /\
    w_out w' = [HttpCalled "POST" "https://oauth2.googleapis.com/token"] /\
    kv_look (Valkey := simple_valkey) (w_now w') google_lock (w_kv w') = Some (KStr "rival", Some (t0 + 90 * second)).
Proof.
  destruct (refresh_connection (P := google_platform) (OT := rival) (HX := google_tokens) (FL := no_floats) Ten live_google false busy_minute)
    as [[[c' b]|e] w'] eqn:E; [| apply (f_equal fst) in E; vm_compute in E; discriminate E].
  assert (Hb : b = true) by (apply (f_equal fst) in E; vm_compute in E; injection E; congruence).
  exists c', w'. subst b. split; [reflexivity |].
  assert (Ho : w_out w' = [HttpCalled "POST" "https://oauth2.googleapis.com/token"])
    by (apply (f_equal (fun x => w_out x.2)) in E; vm_compute in E; symmetry; exact E).
  split; [exact Ho |].
  apply (f_equal (fun x => kv_look (Valkey := simple_valkey) (w_now x.2) google_lock (w_kv x.2))) in E.
  vm_compute in E. symmetry. exact E.
Qed.
