(* ===== verification/JournalRouter.v ===== *)
(** [app/audit/router.py]: reading the journal, page by page, with a cursor made
    of the instant and the id of the last event shown. *)
From stdpp Require Import sorting.
From S2P Require Import Prelude PyStr Hashing Base64 Json Config Tokens Models Permissions World Uuid Orm Isolation AuthService Slug Deps Journal Frame Directory AuthRouter Dates Iso Sample.

Definition DEFAULT_PAGE_SIZE : Z := 50.
Definition MAX_PAGE_SIZE : Z := 200.

Record AuditEventOut := {
  eo_id : N; eo_occurred_at : Z; eo_actor_user_id : option N; eo_actor_label : string; eo_action : string;
  eo_resource_type : string; eo_resource_id : string; eo_payload : list (string * json) }.
Record AuditEventPage := { pg_items : list AuditEventOut; pg_next_cursor : option string }.

Definition event_out (row : AuditEvent) : AuditEventOut := {|
  eo_id := ae_id row; eo_occurred_at := ae_occurred_at row; eo_actor_user_id := ae_actor_user_id row;
  eo_actor_label := ae_actor_label row; eo_action := ae_action row; eo_resource_type := ae_resource_type row;
  eo_resource_id := ae_resource_id row; eo_payload := ae_payload row |}.

(** The query parameters that filter. *)
Record Filters := {
  fl_action : option string; fl_actor_user_id : option N; fl_occurred_from : option Z; fl_occurred_to : option Z }.
Definition no_filter : Filters :=
  {| fl_action := None; fl_actor_user_id := None; fl_occurred_from := None; fl_occurred_to := None |}.

Definition _encode_cursor (occurred_at : Z) (event_id : N) : string :=
  urlsafe_b64encode (encode (isoformat occurred_at +:+ "|" +:+ uuid_str event_id)).

(** [s.rsplit("|", 1)], unpacked in two. *)
Definition rsplit_bar (s : string) : option (string * string) :=
  let '(b, found, a) := partition_char "|" (rev_str s) in
  if found then Some (rev_str a, rev_str b) else None.

Definition optionally {A} (o : option A) (p : A -> bool) : bool := match o with Some a => p a | None => true end.

(** [ORDER BY occurred_at DESC, id DESC] *)
Definition newest_first (a b : AuditEvent) : bool :=
  (ae_occurred_at b <? ae_occurred_at a) || ((ae_occurred_at a =? ae_occurred_at b) && (ae_id b <=? ae_id a)%N).
(** The keyset condition of the cursor. *)
Definition older_than (c : Z * N) (e : AuditEvent) : bool :=
  (ae_occurred_at e <? c.1) || ((ae_occurred_at e =? c.1) && (ae_id e <? c.2)%N).

Section router.
Context {P : Platform} {IF : IsoFormats}.

(** [binascii.Error] and [UnicodeDecodeError] are [ValueError]s. *)
Definition _decode_cursor (cursor : string) : result (Z * N) :=
  let invalid := HTTPException 400 "Curseur de pagination invalide" in
  match (let! raw := urlsafe_b64decode cursor in decode_utf8 raw) with
  | Ok raw =>
      match rsplit_bar raw with
      | Some (occurred_at_raw, id_raw) =>
          match fromisoformat occurred_at_raw, uuid_of_str id_raw with
          | Some occurred_at, Some id => Ok (occurred_at, id)
          | _, _ => Raise invalid
          end
      | None => Raise invalid
      end
  | Raise _ => Raise invalid
  end.

Definition matches (filters : Filters) (e : AuditEvent) : bool :=
  optionally (fl_action filters) (fun a => str_eqb (ae_action e) a) &&
  optionally (fl_actor_user_id filters) (fun u => bool_decide (ae_actor_user_id e = Some u)) &&
  optionally (fl_occurred_from filters) (fun t => t <=? ae_occurred_at e) &&
  optionally (fl_occurred_to filters) (fun t => ae_occurred_at e <=? t).

Definition audit_events_list_in (limit : Z) (cursor : option string) (filters : Filters) : M AuditEventPage :=
  raise_when (negb ((1 <=? limit) && (limit <=? MAX_PAGE_SIZE))) unprocessable in
  let* after := of_result (match cursor with Some c => result_map Some (_decode_cursor c) | None => Ok None end) in
  let* rows := scalars Ten AuditEvents (fun e => optionally after (fun c => older_than c e) && matches filters e) in
  let rows := take (Z.to_nat (limit + 1)) (order_by newest_first rows) in
  let has_more := limit <? Z.of_nat (length rows) in
  let rows := take (Z.to_nat limit) rows in
  let next_cursor := if has_more then match last rows with
                                      | Some e => Some (_encode_cursor (ae_occurred_at e) (ae_id e))
                                      | None => None
                                      end
                     else None in
  ret {| pg_items := List.map event_out rows; pg_next_cursor := next_cursor |}.

Definition audit_events_list (limit : Z) (cursor : option string) (filters : Filters) (rq : Request) : M AuditEventPage :=
  request (let* auth := current_auth_or_none rq in
           require_permission "core.audit.read" rq auth (fun ctx =>
             get_tenant_session Ten (audit_events_list_in limit cursor filters))).
End router.

(** ** Sorting *)

Section sorting.
Context {A : Type} (le : A -> A -> bool).
Hypothesis le_trans : forall a b c, le a b = true -> le b c = true -> le a c = true.
Hypothesis le_total : forall a b, le a b = false -> le b a = true.
Implicit Types (l : list A).

Definition ordered l : Prop := StronglySorted (fun a b => le a b = true) l.

Lemma in_insert_by a l x : In x (insert_by le a l) <-> x = a \/ In x l.
Proof.
  induction l as [|b l IH]; simpl; [intuition congruence |]. destruct (le a b); simpl; [intuition congruence |]. rewrite IH. intuition.
Qed.
Lemma in_order_by l x : In x (order_by le l) <-> In x l.
Proof. induction l as [|a l IH]; [done |]. simpl. rewrite in_insert_by, IH. intuition congruence. Qed.

Lemma insert_sorted a l : ordered l -> ordered (insert_by le a l).
Proof.
  unfold ordered. induction 1 as [|b l Hs IH Hall]; simpl; [repeat constructor |]. rewrite List.Forall_forall in Hall.
  destruct (le a b) eqn:E.
  - constructor; [by constructor; [| by apply List.Forall_forall] |]. apply List.Forall_forall. intros x [<-|Hx]; [done |].
    apply (le_trans a b x); [done |]. by apply Hall.
  - constructor; [done |]. apply List.Forall_forall. intros x Hx. apply in_insert_by in Hx as [->|Hx]; [| by apply Hall].
    by apply le_total.
Qed.
Lemma order_by_sorted l : ordered (order_by le l).
Proof. induction l as [|a l IH]; [constructor |]. by apply insert_sorted. Qed.

(** Sorting and selecting commute. *)
Lemma filter_insert p a l : ordered l ->
  List.filter p (insert_by le a l) = if p a then insert_by le a (List.filter p l) else List.filter p l.
Proof.
  induction 1 as [|b l Hs IH Hall]; simpl; [done |]. destruct (le a b) eqn:E; simpl.
  - destruct (p a) eqn:Ea; [| done]. destruct (p b) eqn:Eb; simpl; [by rewrite E |].
    assert (Hfirst : forall l', (forall x, In x l' -> le a x = true) -> insert_by le a l' = a :: l').
    { intros [|x l'] H; [done |]. simpl. by rewrite H by by left. }
    rewrite Hfirst; [done |]. intros x [Hx _]%List.filter_In. rewrite List.Forall_forall in Hall.
    apply (le_trans a b x); [done |]. by apply Hall.
  - rewrite IH. destruct (p a) eqn:Ea, (p b) eqn:Eb; simpl; by rewrite ?E.
Qed.
Lemma order_by_filter p l : order_by le (List.filter p l) = List.filter p (order_by le l).
Proof.
  induction l as [|a l IH]; [done |]. simpl. rewrite filter_insert by apply order_by_sorted. destruct (p a); simpl; by rewrite IH.
Qed.
End sorting.

Lemma filter_filter_and {A} (p q : A -> bool) l : List.filter p (List.filter q l) = List.filter (fun x => p x && q x) l.
Proof. induction l as [|a l IH]; [done |]. simpl. destruct (q a) eqn:E; simpl; rewrite ?andb_true_r, ?andb_false_r, IH; done. Qed.

(** ** The order of the journal *)

Definition event_key (e : AuditEvent) : Z * N := (ae_occurred_at e, ae_id e).

Lemma newest_trans a b c : newest_first a b = true -> newest_first b c = true -> newest_first a c = true.
Proof.
  unfold newest_first. rewrite !orb_true_iff, !andb_true_iff, !Z.ltb_lt, !Z.eqb_eq, !N.leb_le. lia.
Qed.
Lemma newest_total a b : newest_first a b = false -> newest_first b a = true.
Proof.
  unfold newest_first. rewrite !orb_false_iff, !andb_false_iff, !orb_true_iff, !andb_true_iff, !Z.ltb_lt, !Z.ltb_ge, !Z.eqb_eq, !Z.eqb_neq,
    !N.leb_le, !N.leb_gt. lia.
Qed.

(** What follows an event in the order is what is older than its key. *)
Lemma older_split l1 e l2 : ordered newest_first (l1 ++ e :: l2) -> unique_by ae_id (l1 ++ e :: l2) ->
  List.filter (older_than (event_key e)) (l1 ++ e :: l2) = l2.
Proof.
  intros Hs Hu. rewrite List.filter_app. simpl.
  assert (Hself : older_than (event_key e) e = false).
  { unfold older_than. simpl. rewrite Z.ltb_irrefl, Z.eqb_refl, N.ltb_irrefl. done. }
  rewrite Hself. assert (H1 : List.filter (older_than (event_key e)) l1 = []).
  { apply rows_where_nil. intros x Hx. apply StronglySorted_app_1_elem_of with (x1 := x) (x2 := e) in Hs;
      [| by apply list_elem_of_In | apply list_elem_of_In; by left].
    unfold newest_first, older_than in *. simpl.
    rewrite orb_true_iff, andb_true_iff, Z.ltb_lt, Z.eqb_eq, N.leb_le in Hs.
    apply not_true_iff_false. rewrite orb_true_iff, andb_true_iff, !Z.ltb_lt, Z.eqb_eq, N.ltb_lt. lia. }
  rewrite H1. simpl. apply List.forallb_filter_id, List.forallb_forall. intros x Hx.
  apply StronglySorted_app_1_r in Hs. apply StronglySorted_inv in Hs as [_ Hall]. rewrite List.Forall_forall in Hall.
  specialize (Hall x Hx).
  assert (Hne : ae_id x <> ae_id e).
  { intros E. unfold unique_by in Hu. rewrite List.map_app in Hu. apply List.NoDup_app_remove_l in Hu. simpl in Hu.
    inversion_clear Hu as [|? ? Hn _]. apply Hn. rewrite <- E. by apply List.in_map. }
  unfold newest_first, older_than in *. simpl.
  rewrite orb_true_iff, andb_true_iff, Z.ltb_lt, Z.eqb_eq, N.leb_le in Hall.
  rewrite orb_true_iff, andb_true_iff, Z.ltb_lt, Z.eqb_eq, N.ltb_lt. lia.
Qed.

(** ** The cursor *)

Section cursor.
Context {IF : IsoFormats}.

Lemma rsplit_bar_app a b : has_char "|" b = false -> rsplit_bar (a +:+ "|" +:+ b) = Some (a, b).
Proof.
  intros H. unfold rsplit_bar. rewrite rev_str_app. change ("|" +:+ b) with (String "|" b). rewrite rev_str_cons, app_assoc_str.
  change (String "|" "" +:+ rev_str a) with (String "|" (rev_str a)).
  rewrite partition_char_app by by rewrite has_char_rev. by rewrite !rev_str_involutive.
Qed.

Lemma digits_ascii k z : ascii_only (digits k z) = true.
Proof.
  induction k as [|k IH]; [done |]. cbn [digits ascii_only all_chars]. apply andb_true_iff. split; [| exact IH].
  set (n := z / 10 ^ Z.of_nat k mod 10). assert (Hn : 0 <= n < 10) by (apply Z.mod_pos_bound; lia). clearbody n.
  assert (H : In n (List.map Z.of_nat (List.seq 0 10))).
  { rewrite <- (Z2Nat.id n) by lia. apply List.in_map, List.in_seq. lia. }
  clear Hn. simpl in H. repeat (destruct H as [<-|H]; [by vm_compute |]). destruct H.
Qed.

Lemma ascii_only_app a b : ascii_only (a +:+ b) = ascii_only a && ascii_only b.
Proof. apply all_chars_app. Qed.

Lemma isoformat_ascii t : ascii_only (isoformat t) = true.
Proof.
  unfold isoformat, wall_text. rewrite !ascii_only_app, !digits_ascii. destruct (_ =? 0); [done |]. by rewrite ascii_only_app, digits_ascii.
Qed.
Lemma uuid_str_ascii u : ascii_only (uuid_str u) = true.
Proof.
  unfold uuid_str. set (b := Sha256.be_octets 16 u). change (join "-" _) with (dashed (hex b)).
  apply dashed_all; [apply hex_all | done |]. intros c (n & Hn & ->).
  assert (H : In n (List.map N.of_nat (List.seq 0 16))) by (rewrite <- (N2Nat.id n); apply List.in_map, List.in_seq; lia).
  simpl in H. repeat (destruct H as [<-|H]; [by vm_compute |]). destruct H.
Qed.

Lemma decode_encode_cursor t id : representable t -> (id < 2 ^ 128)%N -> _decode_cursor (_encode_cursor t id) = Ok (t, id).
Proof.
  intros Ht Hid. unfold _decode_cursor, _encode_cursor. rewrite b64_roundtrip. cbn [result_bind].
  rewrite decode_encode_ascii by by rewrite !ascii_only_app, isoformat_ascii, uuid_str_ascii.
  rewrite rsplit_bar_app by apply uuid_str_no_bar. unfold fromisoformat. by rewrite parse_isoformat, uuid_roundtrip.
Qed.
End cursor.

(** ** Browsing *)

Section browsing.
Context {P : Platform} {IF : IsoFormats}.
Implicit Types (w : World).

Definition visible (ctx : TenantContext) (filters : Filters) w : list AuditEvent :=
  order_by newest_first (rows_where (fun e => owned_by (tc_tenant_id ctx) AuditEvents e && matches filters e) (sees w Ten AuditEvents)).

Definition after_cursor (after : option (Z * N)) (l : list AuditEvent) : list AuditEvent :=
  List.filter (fun e => optionally after (fun c => older_than c e)) l.

Lemma page_run limit cursor filters w ctx after : w_tenant w = Some ctx -> 1 <= limit <= MAX_PAGE_SIZE ->
  match cursor with Some c => _decode_cursor c = Ok (default (0, 0%N) after) /\ is_some after = true | None => after = None end ->
  let rest := after_cursor after (visible ctx filters w) in
  audit_events_list_in limit cursor filters w =
    (Ok {| pg_items := List.map event_out (take (Z.to_nat limit) rest);
           pg_next_cursor := if (Z.to_nat limit <? length rest)%nat then
                               match last (take (Z.to_nat limit) rest) with
                               | Some e => Some (_encode_cursor (ae_occurred_at e) (ae_id e))
                               | None => None
                               end
                             else None |}, w).
Proof.
  intros Hc [Hl Hm] Hcur rest. unfold audit_events_list_in.
  rewrite (proj2 (Z.leb_le 1 limit)), (proj2 (Z.leb_le limit MAX_PAGE_SIZE)) by done. cbn [andb negb].
  assert (Hcur' : match cursor with Some c => result_map Some (_decode_cursor c) | None => Ok None end = Ok after).
  { destruct cursor as [c|]; [| by rewrite Hcur]. destruct Hcur as [-> Ha]. by destruct after. }
  rewrite Hcur'. run. unfold bind at 1. rewrite (scalars_scoped Ten AuditEvents _ w ctx eq_refl Hc).
  assert (Hrows : order_by newest_first (rows_where (fun e => owned_by (tc_tenant_id ctx) AuditEvents e &&
      (optionally after (fun c => older_than c e) && matches filters e)) (sees w Ten AuditEvents)) = rest).
  { unfold rest, after_cursor, visible. rewrite <- order_by_filter by (exact newest_trans || exact newest_total). f_equal.
    unfold rows_where. rewrite filter_filter_and. apply List.filter_ext. intros e. by rewrite !andb_assoc, (andb_comm (owned_by _ _ _)). }
  cbn [row] in *. rewrite Hrows. unfold ret. rewrite take_take, Nat.min_l by lia.
  replace (limit <? Z.of_nat (length (take (Z.to_nat (limit + 1)) rest))) with (Z.to_nat limit <? length rest)%nat; [done |].
  rewrite length_take. apply eq_true_iff_eq. rewrite Nat.ltb_lt, Z.ltb_lt. lia.
Qed.

(** Following the cursors while the world moves on: the pages read at
    [ws 0], [ws 1], ... one after the other. *)
Fixpoint browse (fuel : nat) (limit : Z) (filters : Filters) (ws : nat -> World) (k : nat) (cursor : option string) :
    option (list AuditEventOut) :=
  match fuel with
  | O => None
  | S f =>
      match (audit_events_list_in limit cursor filters (ws k)).1 with
      | Ok page =>
          match pg_next_cursor page with
          | None => Some (pg_items page)
          | Some c => app (pg_items page) <$> browse f limit filters ws (S k) (Some c)
          end
      | Raise _ => None
      end
  end.
End browsing.

(** ** Property *)

Section property.
Context {P : Platform} {IF : IsoFormats}.
Variables (ctx : TenantContext) (filters : Filters) (limit : Z) (ws : nat -> World).

(** Meanwhile events are only appended, each later than those of the first page. *)
Definition events (w : World) : list AuditEvent := sees w Ten AuditEvents.
Definition grows : Prop := forall k, exists new, events (ws k) = events (ws 0%nat) ++ new /\
  forall e e0, In e new -> In e0 (events (ws 0%nat)) -> ae_occurred_at e0 < ae_occurred_at e.

Hypothesis in_context : forall k, w_tenant (ws k) = Some ctx.
Hypothesis limit_ok : 1 <= limit <= MAX_PAGE_SIZE.
Hypothesis growth : grows.
Hypothesis ids : unique_by ae_id (events (ws 0%nat)).
Hypothesis printable : forall e, In e (events (ws 0%nat)) -> representable (ae_occurred_at e) /\ (ae_id e < 2 ^ 128)%N.

Let all : list AuditEvent := visible ctx filters (ws 0%nat).

Lemma all_in e : In e all -> In e (events (ws 0%nat)).
Proof. unfold all, visible. intros H%in_order_by. by apply in_rows_where in H as [H _]. Qed.
Lemma all_sorted : ordered newest_first all.
Proof. apply order_by_sorted; [exact newest_trans | exact newest_total]. Qed.
Lemma all_unique : unique_by ae_id all.
Proof.
  assert (Hi : forall l, unique_by ae_id l -> unique_by ae_id (order_by newest_first l)).
  { assert (Hins : forall a l, Permutation (insert_by newest_first a l) (a :: l)).
    { intros a l. induction l as [|b l IH]; [done |]. simpl. destruct (newest_first a b); [done |]. rewrite IH. constructor. }
    assert (Hp : forall l, Permutation (order_by newest_first l) l) by (induction l as [|a l IH]; [done |]; simpl; by rewrite Hins, IH).
    intros l H. unfold unique_by. by rewrite (Permutation_map ae_id (Hp l)). }
  apply Hi. by apply unique_by_filter.
Qed.

(** Under a cursor among the first events, a later page sees what the first would have. *)
Lemma later_same k e : In e all -> after_cursor (Some (event_key e)) (visible ctx filters (ws k)) =
  after_cursor (Some (event_key e)) all.
Proof.
  intros He. destruct (growth k) as (new & Hnew & Hlate). unfold all, after_cursor, visible.
  rewrite <- !order_by_filter by (exact newest_trans || exact newest_total). f_equal. unfold events in Hnew. rewrite Hnew.
  unfold rows_where. rewrite !List.filter_app.
  assert (Hnil : List.filter (fun e0 => optionally (Some (event_key e)) (fun c => older_than c e0))
    (List.filter (fun e0 => owned_by (tc_tenant_id ctx) AuditEvents e0 && matches filters e0) new) = []).
  { apply rows_where_nil. intros x [Hx _]%List.filter_In. specialize (Hlate x e Hx (all_in e He)).
    unfold optionally, older_than, event_key. cbn [fst snd]. apply orb_false_iff. split; [apply Z.ltb_ge; lia |].
    apply andb_false_iff. left. apply Z.eqb_neq. lia. }
  cbn [row] in *. by rewrite Hnil, app_nil_r.
Qed.

(** What is left to show when [shown] and [e] have been shown. *)
Lemma browse_rest fuel : forall k shown e rest, all = shown ++ e :: rest -> (length rest < fuel)%nat ->
  browse fuel limit filters ws k (Some (_encode_cursor (ae_occurred_at e) (ae_id e))) = Some (List.map event_out rest).
Proof.
  induction fuel as [|fuel IH]; intros k shown e rest Hall Hf; [lia |].
  assert (He : In e all) by (rewrite Hall; apply List.in_app_iff; right; by left).
  destruct (printable e (all_in e He)) as [Ht Hid]. cbn [browse].
  rewrite (page_run limit _ filters (ws k) ctx (Some (event_key e)) (in_context k) limit_ok)
    by (split; [by rewrite decode_encode_cursor | done]). cbn [fst pg_next_cursor pg_items].
  assert (Hrest : after_cursor (Some (event_key e)) (visible ctx filters (ws k)) = rest).
  { rewrite (later_same k e He), Hall. apply older_split; rewrite <- Hall; [apply all_sorted | apply all_unique]. }
  rewrite Hrest.
  destruct (Nat.ltb_spec (Z.to_nat limit) (length rest)) as [Hlt|Hge].
  - destruct (last (take (Z.to_nat limit) rest)) as [e'|] eqn:El.
    + apply last_Some in El as [init Hinit].
      assert (Hsplit : rest = init ++ e' :: drop (Z.to_nat limit) rest).
      { rewrite <- (take_drop (Z.to_nat limit) rest) at 1. by rewrite Hinit, <- app_assoc. }
      rewrite (IH (S k) (shown ++ e :: init) e' (drop (Z.to_nat limit) rest)).
      * simpl. f_equal. rewrite <- List.map_app. f_equal. by rewrite take_drop.
      * by rewrite Hall, <- app_assoc, <- app_comm_cons, <- Hsplit.
      * rewrite length_drop. lia.
    + apply last_None in El. apply (f_equal length) in El. rewrite length_take in El. simpl in El. lia.
  - by rewrite take_ge by lia.
Qed.

(** C35: browsing the journal ends and is complete. Asking for pages of any size and
    following the cursors, while other requests add events, one reaches a page
    without a cursor, and the pages together are exactly the events of the
    tenant that matched at the first page, newest first, each once. *)
Theorem browsing_is_complete :
  browse (S (length all)) limit filters ws 0 None = Some (List.map event_out all).
Proof.
  cbn [browse]. rewrite (page_run limit None filters (ws 0%nat) ctx None (in_context 0%nat) limit_ok eq_refl).
  cbn [fst pg_next_cursor pg_items]. unfold after_cursor. cbn [optionally]. fold all.
  rewrite List.forallb_filter_id by by apply List.forallb_forall.
  destruct (Nat.ltb_spec (Z.to_nat limit) (length all)) as [Hlt|Hge]; [| by rewrite take_ge by lia].
  destruct (last (take (Z.to_nat limit) all)) as [e|] eqn:El.
  - apply last_Some in El as [init Hinit].
    assert (Hsplit : all = init ++ e :: drop (Z.to_nat limit) all).
    { rewrite <- (take_drop (Z.to_nat limit) all) at 1. by rewrite Hinit, <- app_assoc. }
    rewrite (browse_rest (length all) 1 init e (drop (Z.to_nat limit) all)) by (done || (rewrite length_drop; lia)).
    simpl. f_equal. by rewrite <- List.map_app, take_drop.
  - apply last_None in El. apply (f_equal length) in El. rewrite length_take in El. simpl in El. lia.
Qed.
End property.

(** ** Witness *)

Definition event_at (id tenant : N) (t : Z) : AuditEvent := {|
  ae_id := id; ae_tenant_id := tenant; ae_occurred_at := t; ae_actor_user_id := Some 1%N; ae_actor_label := "Alice";
  ae_action := "core.team.created"; ae_resource_type := "team"; ae_resource_id := "1"; ae_payload := [] |}.
Definition journal_world (l : list AuditEvent) : World := set_db (upd AuditEvents (fun _ => l) sample_db) in_acme.
Definition first_events : list AuditEvent :=
  [event_at 1 1 t0; event_at 2 1 t0; event_at 3 2 (t0 + 1); event_at 4 1 (t0 + 2); event_at 5 1 (t0 + second)].
(** Another event is recorded after each page. *)
Definition journal_worlds (k : nat) : World := journal_world (first_events ++ (if (k =? 0)%nat then [] else [event_at 6 1 (t0 + day)])).

Lemma browsing_is_complete_witness :
  exists ids, browse (P := test_platform) (IF := plain_iso) 5 2 no_filter journal_worlds 0 None = Some ids /\
    List.map eo_id ids = [5; 4; 2; 1]%N.
Proof.
  exists (List.map event_out (visible (P := test_platform) {| tc_tenant_id := 1; tc_slug := "acme"; tc_role := Some ROLE_OWNER |} no_filter (journal_worlds 0))).
  split; [| vm_compute; reflexivity].
  refine (browsing_is_complete (P := test_platform) (IF := plain_iso)
    {| tc_tenant_id := 1; tc_slug := "acme"; tc_role := Some ROLE_OWNER |} no_filter 2 journal_worlds _ _ _ _ _).
  - intros k. reflexivity.
  - split; discriminate.
  - intros [|k].
    + exists []. split; [reflexivity | intros e e0 []].
    + exists [event_at 6 1 (t0 + day)]. split; [reflexivity |]. intros e e0 [<-|[]] H0.
      change (In e0 first_events) in H0. simpl in H0. repeat (destruct H0 as [<-|H0]; [reflexivity |]). destruct H0.
  - decide_unique.
  - intros e H. change (In e first_events) in H. simpl in H.
    repeat (destruct H as [<-|H]; [split; [vm_compute; split; discriminate | reflexivity] |]). destruct H.
Defined.
