(* ===== verification/Mailer.v ===== *)
(** [app/core/mailer.py]: the mail of invitations, when a relay is configured. The
    message is submitted step by step; whatever a step raises comes out, and ends the
    dialogue (the [with] of the source also says goodbye then, to no other effect). *)
From S2P Require Import Prelude PyStr Hashing Base64 Json Config Models Permissions World.

Section mailer.
Context {P : Platform}.

Definition smtp_do (done : list smtp_step) (step : smtp_step) : M (list smtp_step) :=
  let* t := now in
  raise_when (negb (smtp_accepts t (done ++ [step]))) SMTPException in
  ret (done ++ [step]).

(** The header [From] is the sender, or else the user of the relay. *)
Definition mail_message (to subject body : string) : MailMessage := {|
  mm_from := str_or smtp_sender smtp_user; mm_to := to; mm_subject := subject; mm_content := body |}.

Definition SmtpMailer_send (to subject body : string) : M unit :=
  let* dialogue := smtp_do [] (CONNECT smtp_host smtp_port) in
  let* dialogue := smtp_do dialogue STARTTLS in
  let* dialogue := if str_eqb smtp_user "" then ret dialogue else smtp_do dialogue (LOGIN smtp_user smtp_password) in
  let* dialogue := smtp_do dialogue (SEND (mail_message to subject body)) in
  let* _ := emit (EmailSent to subject body) in
  let* _ := smtp_do dialogue QUIT in
  ret tt.
Definition NullMailer_send (to subject body : string) : M unit := ret tt.
(** [get_mailer().send(to, subject, body)] *)
Definition get_mailer (to subject body : string) : M unit :=
  if negb (str_eqb smtp_host "") then SmtpMailer_send to subject body else NullMailer_send to subject body.

(** ** What comes of a mail *)

(** The dialogue of the code when no step fails. *)
Definition whole_dialogue (to subject body : string) : list smtp_step :=
  [CONNECT smtp_host smtp_port; STARTTLS] ++ (if str_eqb smtp_user "" then [] else [LOGIN smtp_user smtp_password]) ++
  [SEND (mail_message to subject body); QUIT].
(** A relay goes along with the dialogue up to its [n]th step. *)
Definition goes_along (t : Z) (dialogue : list smtp_step) (n : nat) : bool :=
  forallb (fun k => smtp_accepts t (take (S k) dialogue)) (seq 0 n).

(** The message is out exactly when the relay accepts every step up to it, and only
    then can the end of the dialogue still fail. Without a relay nothing happens. *)
Lemma get_mailer_run to subject body w :
  let dialogue := whole_dialogue to subject body in
  let n := length dialogue in
  get_mailer to subject body w =
    if str_eqb smtp_host "" then (Ok tt, w)
    else if goes_along (w_now w) dialogue (n - 1)
    then (if goes_along (w_now w) dialogue n then Ok tt else Raise SMTPException, set_out (w_out w ++ [EmailSent to subject body]) w)
    else (Raise SMTPException, w).
Proof.
  unfold get_mailer, NullMailer_send, SmtpMailer_send, whole_dialogue, goes_along. destruct (str_eqb smtp_host ""); cbn [negb]; [done |].
  destruct (str_eqb smtp_user ""); unfold smtp_do, bind, now, emit, ret; cbn -[smtp_accepts mail_message];
    repeat (match goal with |- context [smtp_accepts ?t ?d] => destruct (smtp_accepts t d) end; cbn -[smtp_accepts mail_message]); reflexivity.
Qed.

Lemma get_mailer_outcomes to subject body w : exists sent,
  get_mailer to subject body w = (Ok tt, set_out (w_out w ++ sent) w) \/
  get_mailer to subject body w = (Raise SMTPException, set_out (w_out w ++ sent) w).
Proof.
  assert (E : forall w', set_out (w_out w' ++ []) w' = w') by (intros w'; rewrite app_nil_r; by destruct w').
  rewrite get_mailer_run. cbv zeta. destruct (str_eqb smtp_host ""); [exists []; left; by rewrite E |].
  destruct (goes_along _ _ (_ - 1)); [| exists []; right; by rewrite E].
  exists [EmailSent to subject body]. destruct (goes_along _ _ _); auto.
Qed.
End mailer.
