(* ===== verification/DirectoryRouter.v ===== *)
(** [app/directory/router.py]: members, invitations and teams of the current
    tenant. Members and invitations live in unscoped tables read through the
    control session, teams in tenant-scoped tables read through the tenant
    session; every change is audited in the tenant session. *)
From S2P Require Import Prelude PyStr Hashing Base64 Json Config Tokens Models Permissions World Orm Isolation AuthService Slug Deps Edge Journal Frame Directory AuthRouter Sample Mailer.

Record MemberOut := { mo_user_id : N; mo_email : string; mo_display_name : option string; mo_role : string }.
Record InvitationOut := { io_id : N; io_role : string; io_expires_at : Z; io_accept_url : string }.
Record PendingInvitationOut := { po_id : N; po_email : string; po_role : string; po_expires_at : Z; po_created_at : Z }.
Record TeamOut := { to_id : N; to_name : string; to_description : option string }.

Definition member_out (u : User) (role : string) : MemberOut :=
  {| mo_user_id := us_id u; mo_email := us_email u; mo_display_name := us_display_name u; mo_role := role |}.
Definition team_out (t : Team) : TeamOut :=
  {| to_id := tm_id t; to_name := tm_name t; to_description := tm_description t |}.
Definition json_opt (o : option string) : json := match o with Some s => JStr s | None => JNull end.
Definition new_line : string := String (ascii_of_N 10) EmptyString.

Section router.
Context {P : Platform}.

Definition _actor_label (user : User) : string := ostr_or (us_display_name user) (us_email user).

(** [except (ValueError, service.DirectoryError) as exc: raise HTTPException(400, str(exc))] *)
Definition value_or_directory_error_as {A} (status : Z) (m : M A) : M A :=
  catch m (fun e => match e with
                    | ValueError msg | DirectoryError msg => Some (raise (HTTPException status msg))
                    | _ => None
                    end).

Definition get_one_user (s : sess) (user_id : N) : M User :=
  let* user := get_user s user_id in
  match user with Some u => ret u | None => raise NoResultFound end.

Definition audit (action resource_type resource_id : string) (payload : list (string * json)) (auth : CurrentAuth) :
    M AuditEvent :=
  record_audit_event Ten action resource_type resource_id payload
    (Some (us_id (ca_user auth))) (_actor_label (ca_user auth)).

(** ** Members *)

Definition members_list (rq : Request) : M (list MemberOut) :=
  tenant_route "core.members.read" rq (fun ctx auth =>
    let* members := list_members Ctl (tc_tenant_id ctx) in
    ret (List.map (fun um => member_out um.1 (mb_role um.2)) members)).

Definition member_change_role_in (user_id : N) (role : string) (ctx : TenantContext) (auth : CurrentAuth) : M MemberOut :=
  match tc_role ctx with
  | None => raise AssertionError
  | Some ctx_role =>
      let* previous := get_membership Ctl (tc_tenant_id ctx) user_id in
      let old_role := mb_role <$> previous in
      let* membership := value_or_directory_error_as 400
        (change_member_role Ctl (tc_tenant_id ctx) user_id role ctx_role) in
      let* user := get_one_user Ctl user_id in
      let* _ := audit "core.member.role_changed" "membership" (uuid_str user_id)
        [("email", JStr (us_email user)); ("old_role", json_opt old_role); ("new_role", JStr (mb_role membership))] auth in
      let* _ := commit Ten in
      let* _ := commit Ctl in
      ret (member_out user (mb_role membership))
  end.
Definition member_change_role (user_id : N) (role : string) (rq : Request) : M MemberOut :=
  tenant_route "core.members.manage" rq (member_change_role_in user_id role).

Definition member_remove_in (user_id : N) (ctx : TenantContext) (auth : CurrentAuth) : M unit :=
  match tc_role ctx with
  | None => raise AssertionError
  | Some ctx_role =>
      let* target := get_membership Ctl (tc_tenant_id ctx) user_id in
      let* target_email := match target with
                           | Some _ => let* user := get_one_user Ctl user_id in ret (Some (us_email user))
                           | None => ret None
                           end in
      let* _ := directory_error_as 400 (remove_member Ctl (tc_tenant_id ctx) user_id ctx_role) in
      let* _ := audit "core.member.removed" "membership" (uuid_str user_id)
        [("email", json_opt target_email); ("role", json_opt (mb_role <$> target))] auth in
      let* _ := commit Ten in
      let* _ := commit Ctl in
      ret tt
  end.
Definition member_remove (user_id : N) (rq : Request) : M unit :=
  tenant_route "core.members.manage" rq (member_remove_in user_id).

(** ** Invitations *)

Definition invitations_list (rq : Request) : M (list PendingInvitationOut) :=
  tenant_route "core.members.read" rq (fun ctx auth =>
    let* invitations := list_pending_invitations Ctl (tc_tenant_id ctx) in
    ret (List.map (fun i => {| po_id := iv_id i; po_email := iv_email i; po_role := iv_role i;
                               po_expires_at := iv_expires_at i; po_created_at := iv_created_at i |}) invitations)).

Definition invitation_create_in (email role : string) (ctx : TenantContext) (auth : CurrentAuth) : M InvitationOut :=
  let* (invitation, token) := value_or_directory_error_as 400
    (create_invitation Ctl (tc_tenant_id ctx) email role (tc_role ctx) (Some (us_id (ca_user auth)))) in
  let* _ := audit "core.member.invited" "invitation" (uuid_str (iv_id invitation))
    [("email", JStr (iv_email invitation)); ("role", JStr (iv_role invitation))] auth in
  let* _ := commit Ten in
  let* _ := commit Ctl in
  let accept_url := accept_url_for token in
  let* _ := get_mailer email "Invitation à rejoindre un espace de travail"
    ("Vous êtes invité(e) à rejoindre l'espace " +:+ tc_slug ctx +:+ "." +:+ new_line +:+
     "Acceptez l'invitation ici : " +:+ accept_url +:+ new_line) in
  ret {| io_id := iv_id invitation; io_role := iv_role invitation; io_expires_at := iv_expires_at invitation;
         io_accept_url := accept_url |}.
Definition invitation_create (email role : string) (rq : Request) : M InvitationOut :=
  tenant_route "core.members.manage" rq (invitation_create_in email role).

Definition invitation_revoke_in (invitation_id : N) (ctx : TenantContext) (auth : CurrentAuth) : M unit :=
  let* invitation := directory_error_as 404 (revoke_invitation Ctl (tc_tenant_id ctx) invitation_id) in
  let* _ := audit "core.member.invitation_revoked" "invitation" (uuid_str invitation_id)
    [("email", JStr (iv_email invitation)); ("role", JStr (iv_role invitation))] auth in
  let* _ := commit Ten in
  let* _ := commit Ctl in
  ret tt.
Definition invitation_revoke (invitation_id : N) (rq : Request) : M unit :=
  tenant_route "core.members.manage" rq (invitation_revoke_in invitation_id).

(** ** Teams *)

Definition teams_list_in (ctx : TenantContext) (auth : CurrentAuth) : M (list TeamOut) :=
  let* teams := scalars Ten Teams (fun _ => true) in
  ret (List.map team_out (order_by (fun a b => String.leb (tm_name a) (tm_name b)) teams)).
Definition teams_list (rq : Request) : M (list TeamOut) := tenant_route "core.teams.read" rq teams_list_in.

Definition get_team (team_id : N) : M (option Team) := scalar Ten Teams (fun t => (tm_id t =? team_id)%N).

Definition team_create_in (name : string) (description : option string) (ctx : TenantContext) (auth : CurrentAuth) :
    M TeamOut :=
  raise_when (negb (length_between 1 120 name && opt_valid (fun d => py_len d <=? 2000) description)) unprocessable in
  let* existing := scalar Ten Teams (fun t => str_eqb (tm_name t) name) in
  raise_when (is_some existing) (HTTPException 409 "Une équipe porte déjà ce nom") in
  let* id := uuid4 in
  let* t := now in
  let* team := add Ten Teams {|
    tm_id := id; tm_tenant_id := 0; tm_name := name; tm_description := description; tm_created_at := t |} in
  let* _ := audit "core.team.created" "team" (uuid_str (tm_id team)) [("name", JStr (tm_name team))] auth in
  let* _ := commit Ten in
  ret (team_out team).
Definition team_create (name : string) (description : option string) (rq : Request) : M TeamOut :=
  tenant_route "core.teams.manage" rq (team_create_in name description).

(** [session.delete(team)]; the foreign key of [team_members] cascades. The rows
    of a team carry its tenant, as [team_member_add] stamps them. *)
Definition delete_team (team : Team) : M unit :=
  let* _ := remove Ten Teams team in
  let* _ := delete_rows Ten TeamMembers (fun m => (tmm_team_id m =? tm_id team)%N) in
  ret tt.

Definition team_delete_in (team_id : N) (ctx : TenantContext) (auth : CurrentAuth) : M unit :=
  let* team := get_team team_id in
  match team with
  | None => raise (HTTPException 404 "Équipe introuvable")
  | Some team =>
      let* _ := audit "core.team.deleted" "team" (uuid_str (tm_id team)) [("name", JStr (tm_name team))] auth in
      let* _ := delete_team team in
      let* _ := commit Ten in
      ret tt
  end.
Definition team_delete (team_id : N) (rq : Request) : M unit :=
  tenant_route "core.teams.manage" rq (team_delete_in team_id).

Definition team_members_list_in (team_id : N) (ctx : TenantContext) (auth : CurrentAuth) : M (list MemberOut) :=
  let* team := get_team team_id in
  match team with
  | None => raise (HTTPException 404 "Équipe introuvable")
  | Some _ =>
      let* team_members := scalars Ten TeamMembers (fun m => (tmm_team_id m =? team_id)%N) in
      let user_ids := List.map tmm_user_id team_members in
      if bool_decide (user_ids = []) then ret []
      else
        let* users := scalars Ctl Users (fun u => bool_decide (us_id u ∈ user_ids)) in
        let* memberships := scalars Ctl Memberships (fun m => (mb_tenant_id m =? tc_tenant_id ctx)%N) in
        ret (List.map (fun um => member_out um.1 (mb_role um.2)) (join_members users memberships))
  end.
Definition team_members_list (team_id : N) (rq : Request) : M (list MemberOut) :=
  tenant_route "core.teams.read" rq (team_members_list_in team_id).

Definition team_member_add_in (team_id user_id : N) (ctx : TenantContext) (auth : CurrentAuth) : M unit :=
  let* team := get_team team_id in
  match team with
  | None => raise (HTTPException 404 "Équipe introuvable")
  | Some team =>
      let* membership := get_membership Ctl (tc_tenant_id ctx) user_id in
      raise_when (is_none membership) (HTTPException 400 "Cet utilisateur n'est pas membre du tenant") in
      let* duplicate := scalar Ten TeamMembers (fun m => (tmm_team_id m =? team_id)%N && (tmm_user_id m =? user_id)%N) in
      raise_when (is_some duplicate) (HTTPException 409 "Déjà membre de l'équipe") in
      let* id := uuid4 in
      let* t := now in
      let* _ := add Ten TeamMembers {|
        tmm_id := id; tmm_tenant_id := 0; tmm_team_id := team_id; tmm_user_id := user_id; tmm_created_at := t |} in
      let* _ := audit "core.team.member_added" "team" (uuid_str team_id)
        [("team_name", JStr (tm_name team)); ("user_id", JStr (uuid_str user_id))] auth in
      let* _ := commit Ten in
      ret tt
  end.
Definition team_member_add (team_id user_id : N) (rq : Request) : M unit :=
  tenant_route "core.teams.manage" rq (team_member_add_in team_id user_id).

Definition team_member_remove_in (team_id user_id : N) (ctx : TenantContext) (auth : CurrentAuth) : M unit :=
  let* team_member := scalar Ten TeamMembers (fun m => (tmm_team_id m =? team_id)%N && (tmm_user_id m =? user_id)%N) in
  match team_member with
  | None => raise (HTTPException 404 "Membre d'équipe introuvable")
  | Some team_member =>
      let* team := get_team team_id in
      let* _ := audit "core.team.member_removed" "team" (uuid_str team_id)
        [("team_name", json_opt (tm_name <$> team)); ("user_id", JStr (uuid_str user_id))] auth in
      let* _ := remove Ten TeamMembers team_member in
      let* _ := commit Ten in
      ret tt
  end.
Definition team_member_remove (team_id user_id : N) (rq : Request) : M unit :=
  tenant_route "core.teams.manage" rq (team_member_remove_in team_id user_id).

(** ** The routes that change something *)

Inductive mutation :=
  | ChangeRole (user_id : N) (role : string)
  | RemoveMember (user_id : N)
  | CreateInvitation (email role : string)
  | RevokeInvitation (invitation_id : N)
  | CreateTeam (name : string) (description : option string)
  | DeleteTeam (team_id : N)
  | AddTeamMember (team_id user_id : N)
  | RemoveTeamMember (team_id user_id : N).

Definition mutation_permission (m : mutation) : string :=
  match m with
  | ChangeRole _ _ | RemoveMember _ | CreateInvitation _ _ | RevokeInvitation _ => "core.members.manage"
  | _ => "core.teams.manage"
  end.
Definition mutation_action (m : mutation) : string :=
  match m with
  | ChangeRole _ _ => "core.member.role_changed"
  | RemoveMember _ => "core.member.removed"
  | CreateInvitation _ _ => "core.member.invited"
  | RevokeInvitation _ => "core.member.invitation_revoked"
  | CreateTeam _ _ => "core.team.created"
  | DeleteTeam _ => "core.team.deleted"
  | AddTeamMember _ _ => "core.team.member_added"
  | RemoveTeamMember _ _ => "core.team.member_removed"
  end.
Definition mutation_handler (m : mutation) (ctx : TenantContext) (auth : CurrentAuth) : M unit :=
  match m with
  | ChangeRole u r => let* _ := member_change_role_in u r ctx auth in ret tt
  | RemoveMember u => member_remove_in u ctx auth
  | CreateInvitation e r => let* _ := invitation_create_in e r ctx auth in ret tt
  | RevokeInvitation i => invitation_revoke_in i ctx auth
  | CreateTeam n d => let* _ := team_create_in n d ctx auth in ret tt
  | DeleteTeam t => team_delete_in t ctx auth
  | AddTeamMember t u => team_member_add_in t u ctx auth
  | RemoveTeamMember t u => team_member_remove_in t u ctx auth
  end.
Definition mutate (m : mutation) (rq : Request) : M unit :=
  tenant_route (mutation_permission m) rq (mutation_handler m).
End router.

(** ** Every change is audited

    The shape the handlers share: work that does not touch the journal, the event,
    more such work, the commit of the tenant session, the commit of the control
    session. The rules below follow it. *)
Section traced.
Context {P : Platform}.
Implicit Types (w : World).

Definition off_journal : list table :=
  [Tenants; Users; Memberships; Credentials; RecoveryCodes; Sessions; LoginChallenges; OAuthIdentities;
   Invitations; Teams; TeamMembers; AIPolicies; AIUsageEvents; AIUsageDailies; TenantModules;
   Connections; Subscriptions; WebhookRoutes; Digests].

Lemma journal_off : ~ In AuditEvents off_journal.
Proof. simpl. intuition discriminate. Qed.

Variables (ctx : TenantContext) (uid : N) (action : string) (t0 : Z).

Definition trace (e : AuditEvent) : Prop :=
  ae_tenant_id e = tc_tenant_id ctx /\ ae_actor_user_id e = Some uid /\ ae_action e = action /\ ae_occurred_at e = t0.

(** Nothing is pending on the journal. *)
Definition before w : Prop :=
  w_tenant w = Some ctx /\ w_now w = t0 /\ forall s d, w_pend w s d AuditEvents = d AuditEvents.
(** Exactly [e] is, in the tenant session. *)
Definition pending (e : AuditEvent) w : Prop :=
  w_tenant w = Some ctx /\ w_now w = t0 /\
  forall s d, w_pend w s d AuditEvents = if decide (s = Ten) then d AuditEvents ++ [e] else d AuditEvents.

Definition traced {A} (m : M A) : Prop := forall w, before w ->
  match (m w).1 with
  | Ok _ => exists e, trace e /\ w_db (m w).2 AuditEvents = w_db w AuditEvents ++ [e]
  | Raise x => w_db (m w).2 = w_db w \/
      x = SMTPException /\ exists e, trace e /\ w_db (m w).2 AuditEvents = w_db w AuditEvents ++ [e]
  end.
Definition sealed {A} (m : M A) : Prop := forall e w, pending e w ->
  match (m w).1 with
  | Ok _ => w_db (m w).2 AuditEvents = w_db w AuditEvents ++ [e]
  | Raise x => w_db (m w).2 = w_db w \/
      x = SMTPException /\ w_db (m w).2 AuditEvents = w_db w AuditEvents ++ [e]
  end.
Definition finishes {A} (m : M A) : Prop := forall w, before w ->
  match (m w).1 with Ok _ => True | Raise x => x = SMTPException end /\
  w_db (m w).2 AuditEvents = w_db w AuditEvents.

Lemma traced_raise {A} e : traced (raise (A := A) e).
Proof. intros w Hw. by left. Qed.

Lemma traced_still {A B} (m : M A) (k : A -> M B) : still off_journal m -> (forall a, traced (k a)) -> traced (bind m k).
Proof.
  intros Hm Hk w (H1 & H2 & H3). unfold bind. destruct (Hm w) as (G1 & G2 & G3 & G4).
  destruct (m w) as [[a|e] w']; simpl in *; [| by left].
  assert (Hb : before w').
  { split; [congruence |]. split; [congruence |]. intros s d. by rewrite (G4 s d AuditEvents journal_off). }
  specialize (Hk a w' Hb). destruct (k a w') as [[b|e] w'']; simpl in *; by rewrite <- G1.
Qed.

Lemma traced_event {B} rt ri p l (k : AuditEvent -> M B) : (forall e, sealed (k e)) ->
  traced (bind (record_audit_event Ten action rt ri p (Some uid) l) k).
Proof.
  intros Hk w (H1 & H2 & H3). unfold bind.
  destruct (record_audit_event Ten action rt ri p (Some uid) l w) as [r w1] eqn:E.
  apply (record_audit_event_run _ _ _ _ _ _ _ _ ctx) in E as [[-> ->] | (e & -> & He & ->)]; [by left | | done].
  set (w1 := wrote _ _ _). assert (Hp : pending e w1).
  { split; [done |]. split; [done |]. intros s d. simpl. destruct (sess_eq_dec Ten s) as [<-|Hne].
    - rewrite upd_eq, H3. by rewrite decide_True.
    - rewrite H3. by rewrite decide_False by congruence. }
  specialize (Hk e e w1 Hp). change (w_db w) with (w_db w1). assert (Ht : trace e).
  { destruct He as (E1 & E2 & E3 & _ & _ & _ & E7 & _). unfold trace. rewrite E1, E2, E3, E7. done. }
  destruct (k e w1) as [[b|e'] w']; simpl in *; [by exists e |].
  destruct Hk as [Hk | [-> Hk]]; [by left | right]. split; [done |]. by exists e.
Qed.

Lemma sealed_still {A B} (m : M A) (k : A -> M B) : still off_journal m -> (forall a, sealed (k a)) -> sealed (bind m k).
Proof.
  intros Hm Hk e w (H1 & H2 & H3). unfold bind. destruct (Hm w) as (G1 & G2 & G3 & G4).
  destruct (m w) as [[a|e'] w']; simpl in *; [| by left].
  assert (Hb : pending e w').
  { split; [congruence |]. split; [congruence |]. intros s d. by rewrite (G4 s d AuditEvents journal_off). }
  specialize (Hk a e w' Hb). destruct (k a w') as [[b|e'] w'']; simpl in *; by rewrite <- G1.
Qed.

Lemma sealed_commit {A} (m : M A) : finishes m -> sealed (bind (commit Ten) (fun _ => m)).
Proof.
  intros Hm e w (H1 & H2 & H3). unfold bind, commit. set (w' := set_pend Ten id _).
  assert (Hb : before w').
  { split; [done |]. split; [done |]. intros s d. simpl. destruct (sess_eq_dec Ten s); [done |].
    rewrite H3. by rewrite decide_False by congruence. }
  destruct (Hm w' Hb) as (Hr & Hd). assert (Hd' : w_db (m w').2 AuditEvents = w_db w AuditEvents ++ [e]).
  { rewrite Hd. simpl. unfold sees. rewrite H3. by rewrite decide_True. }
  destruct (m w') as [[a|x] w'']; simpl in *; [done | by right].
Qed.

Lemma finishes_ret {A} (a : A) : finishes (ret a).
Proof. intros w Hw. done. Qed.
Lemma finishes_commit {A} (m : M A) : finishes m -> finishes (bind (commit Ctl) (fun _ => m)).
Proof.
  intros Hm w (H1 & H2 & H3). unfold bind, commit. set (w' := set_pend Ctl id _).
  assert (Hb : before w').
  { split; [done |]. split; [done |]. intros s d. simpl. by destruct (sess_eq_dec Ctl s). }
  destruct (Hm w' Hb) as [Hr Hd]. split; [done |]. rewrite Hd. simpl. unfold sees. by rewrite H3.
Qed.
Lemma finishes_mail {A} to subj body (m : M A) : finishes m -> finishes (bind (get_mailer to subj body) (fun _ => m)).
Proof.
  intros Hm w (H1 & H2 & H3). unfold bind at 1 2. destruct (get_mailer_outcomes to subj body w) as (sent & [E|E]); rewrite E; [| done].
  exact (Hm (set_out (w_out w ++ sent) w) ltac:(done)).
Qed.

Lemma traced_forget {A} (m : M A) : traced m -> traced (bind m (fun _ => ret tt)).
Proof. intros Hm w Hw. specialize (Hm w Hw). unfold bind. by destruct (m w) as [[a|e] w']. Qed.
End traced.

(** ** The handlers have the shape *)

Section handlers.
Context {P : Platform}.

Lemma still_value_error W {A} n (m : M A) : still W m -> still W (value_or_directory_error_as n m).
Proof. intros H. apply still_catch; [done |]. intros e k. destruct e; intros [= <-]; done. Qed.
Lemma still_directory_error W {A} n (m : M A) : still W m -> still W (directory_error_as n m).
Proof. intros H. apply still_catch; [done |]. intros e k. destruct e; intros [= <-]; done. Qed.
Lemma still_get_one_user W s u : still W (get_one_user s u).
Proof. unfold get_one_user, get_user. still_code. Qed.
Lemma still_change_member_role W s t u r a : In Memberships W -> still W (change_member_role s t u r a).
Proof. intros H. unfold change_member_role, get_membership, _count_owners. still_code. Qed.
Lemma still_remove_member W s t u a : In Memberships W -> still W (remove_member s t u a).
Proof. intros H. unfold remove_member, get_membership, _count_owners. still_code. Qed.
Lemma still_delete_rows W s t p : In t W -> still W (delete_rows s t p).
Proof.
  intros Ht. apply still_bind; [apply still_guard |]. intros c. apply still_bind; [done |]. intros db.
  apply still_bind; [by apply still_write | done].
Qed.
Lemma still_delete_team W t : In Teams W -> In TeamMembers W -> still W (delete_team t).
Proof.
  intros H1 H2. unfold delete_team. apply still_bind; [still_code |]. intros _.
  apply still_bind; [by apply still_delete_rows | done].
Qed.
Hint Resolve still_value_error still_directory_error still_get_one_user still_change_member_role
  still_remove_member still_delete_team : frame.

Ltac traced_code :=
  repeat (cbn zeta beta; match goal with
  | |- traced _ _ _ _ (bind (record_audit_event _ _ _ _ _ _ _) _) => apply traced_event; intros ?
  | |- traced _ _ _ _ (bind _ _) => apply traced_still; [solve [still_code | auto with frame] | intros ?]
  | |- traced _ _ _ _ (raise _) => apply traced_raise
  | |- traced _ _ _ _ (match ?x with _ => _ end) => destruct x
  | |- sealed _ _ (bind (commit Ten) _) => apply sealed_commit
  | |- sealed _ _ (bind _ _) => apply sealed_still; [solve [still_code | auto with frame] | intros ?]
  | |- finishes _ _ (bind (commit Ctl) _) => apply finishes_commit
  | |- finishes _ _ (bind (get_mailer _ _ _) _) => apply finishes_mail
  | |- finishes _ _ (ret _) => apply finishes_ret
  end).

Lemma mutation_traced m ctx auth t :
  traced ctx (us_id (ca_user auth)) (mutation_action m) t (mutation_handler m ctx auth).
Proof.
  destruct m; simpl; try apply traced_forget;
    unfold member_change_role_in, member_remove_in, invitation_create_in, invitation_revoke_in, team_create_in,
      team_delete_in, team_member_add_in, team_member_remove_in, get_team, audit; traced_code.
Qed.
End handlers.

#[export] Hint Resolve still_value_error still_directory_error still_get_one_user still_change_member_role
  still_remove_member still_delete_team : frame.

(** ** Team handlers only use sessions *)

Section team_code.
Context {P : Platform}.

Ltac orm_program :=
  repeat (cbn zeta beta; match goal with
  | |- orm_code (bind _ _) => apply code_bind; [| intros ?]
  | |- orm_code (match ?x with _ => _ end) => destruct x
  | |- orm_code (scalar ?s ?t ?p) => exact (code_scalar s t p)
  | |- orm_code (scalars ?s ?t ?p) => exact (code_scalars s t p)
  | |- orm_code (add ?s ?t ?r) => exact (code_add_unstamped s t r)
  | |- orm_code (remove ?s ?t ?r) => exact (code_remove s t r)
  | |- orm_code (delete_rows ?s ?t ?p) => exact (code_delete_rows s t p)
  | |- orm_code (get_membership _ _ _) => exact (code_scalar _ Memberships _)
  | |- orm_code _ => solve [auto with orm_code | apply record_audit_event_code]
  end).

(** A handler of a team route, reading or changing. *)
Inductive team_handler : forall {A}, (TenantContext -> CurrentAuth -> M A) -> Prop :=
  | th_list : team_handler teams_list_in
  | th_members t : team_handler (team_members_list_in t)
  | th_create n d : team_handler (team_create_in n d)
  | th_delete t : team_handler (team_delete_in t)
  | th_add t u : team_handler (team_member_add_in t u)
  | th_remove t u : team_handler (team_member_remove_in t u).

Lemma team_handler_code {A} (h : TenantContext -> CurrentAuth -> M A) ctx auth : team_handler h -> orm_code (h ctx auth).
Proof.
  intros []; unfold teams_list_in, team_members_list_in, team_create_in, team_delete_in, team_member_add_in,
    team_member_remove_in, delete_team, get_team, audit; orm_program.
Qed.
End team_code.

(** ** Properties *)

Section properties.
Context {P : Platform}.

(** The event of the caller's action, at the end of the journal. *)
Definition audited (m : mutation) (rq : Request) (w w' : World) : Prop := exists ctx a u e,
  access (w_db w) (w_now w) (w_grants w) (mutation_permission m) rq = Ok (ctx, a, u) /\
  trace ctx (us_id u) (mutation_action m) (w_now w) e /\
  w_db w' AuditEvents = w_db w AuditEvents ++ [e].


(** Teams are the tenant's own. Whatever a team route does for a caller of
    tenant [A], a change in the rows other tenants hold makes no difference to
    its answer, and it leaves those rows as they are. *)
Theorem team_routes_isolated {A} (h : TenantContext -> CurrentAuth -> M A) ctx auth (w1 w2 : World) :
  team_handler h -> w_tenant w1 = Some ctx -> (forall s, w_pend w1 s = id) ->
  alike (tc_tenant_id ctx) w1 w2 ->
  (forall s t, foreign (tc_tenant_id ctx) (sees (h ctx auth w1).2 s) t = foreign (tc_tenant_id ctx) (w_db w1) t) /\
  ((h ctx auth w1).1 = (h ctx auth w2).1 \/ (h ctx auth w1).1 = Raise IntegrityError \/
   (h ctx auth w2).1 = Raise IntegrityError).
Proof.
  intros Hh Hc Hp Ha. destruct (orm_code_runs (tc_tenant_id ctx) A _ (team_handler_code h ctx auth Hh)) as [Hi Hcf].
  assert (Hin : in_context (tc_tenant_id ctx) w1) by by exists ctx. split.
  - destruct (Hcf w1 Hin) as [_ Hu]. destruct Hu as [Hp' Hd]; [intros s; by rewrite Hp |].
    intros s t. unfold sees. by rewrite Hp', Hd.
  - destruct (Hi w1 w2 Hin Ha) as [H | [H | [H _]]]; unfold refused in H; auto.
Qed.
End properties.

(** ** Witnesses *)


(** The same world, but for the name of the other tenant's team. *)
Definition elsewhere : World (VK := simple_valkey) :=
  set_db (upd Teams (List.map (fun t => if (tm_tenant_id t =? 2)%N then team_of 2 2 "Secret" else t)) sample_db) in_acme.
Lemma team_routes_isolated_witness :
  let auth := {| ca_user := alice; ca_session := session_of 1 1 "alice-token" |} in
  let ctx := {| tc_tenant_id := 1; tc_slug := "acme"; tc_role := Some ROLE_OWNER |} in
  (teams_list_in (P := test_platform) ctx auth in_acme).1 = (teams_list_in (P := test_platform) ctx auth elsewhere).1.
Proof.
  intros auth ctx.
  destruct (team_routes_isolated (P := test_platform) teams_list_in ctx auth in_acme elsewhere) as [_ [H | [H | H]]].
  - constructor.
  - reflexivity.
  - reflexivity.
  - constructor; try done; [intros t; by destruct t | by intros s d1 d2 H].
  - exact H.
  - vm_compute in H. discriminate H.
  - vm_compute in H. discriminate H.
Defined.
