(* ===== verification/ConnectorRouter.v ===== *)
(** [app/connectors/oauth.py] and [app/connectors/router.py]: connecting an account
    with OAuth, asking for consent again, listing and revoking connections. *)
From S2P Require Import Prelude PyStr Hashing Base64 Json Config Tokens Models Permissions World Uuid Sample Orm Isolation AuthService Slug Deps Edge Journal Frame Http Directory AuthRouter Policy OAuth DirectoryRouter Providers Throttle Rely ConnectorTokens.

Definition CONNECTOR_STATE_TTL_SECONDS : Z := 600.

(** [sorted(set(l))] *)
Definition sorted_set (l : list string) : list string := order_by String.leb (remove_dups l).

Definition with_account (label : string) (scopes : list string) (c : ConnectorConnection) : ConnectorConnection := {|
  cn_id := cn_id c; cn_tenant_id := cn_tenant_id c; cn_provider := cn_provider c; cn_kind := cn_kind c; cn_user_id := cn_user_id c;
  cn_account_label := label; cn_scopes := scopes; cn_access_token_enc := cn_access_token_enc c;
  cn_refresh_token_enc := cn_refresh_token_enc c; cn_access_token_expires_at := cn_access_token_expires_at c;
  cn_status := cn_status c; cn_last_error := cn_last_error c; cn_health_checked_at := cn_health_checked_at c; cn_created_at := cn_created_at c |}.

(** The exceptions an [except service.ConnectorError] catches, with their text. *)
Definition connector_error (e : exn) : option string :=
  match e with ConnectorError msg | InvalidGrantError msg | MissingRefreshTokenError msg => Some msg | _ => None end.

Record ConnectionOut := {
  co_id : N; co_provider : ConnectorProvider; co_kind : ConnectionKind; co_account_label : string; co_scopes : list string;
  co_status : ConnectionStatus; co_last_error : option string; co_health_checked_at : option Z;
  co_access_token_expires_at : Z; co_created_at : Z }.
Definition _to_out (c : ConnectorConnection) : ConnectionOut := {|
  co_id := cn_id c; co_provider := cn_provider c; co_kind := cn_kind c; co_account_label := cn_account_label c; co_scopes := cn_scopes c;
  co_status := cn_status c; co_last_error := cn_last_error c; co_health_checked_at := cn_health_checked_at c;
  co_access_token_expires_at := cn_access_token_expires_at c; co_created_at := cn_created_at c |}.

(** What the callback reads of a state. *)
Record StateInfo := {
  si_return_host : string; si_tenant_slug : string; si_kind : result ConnectionKind; si_capabilities : list string;
  si_user_id : result (option N); si_connection_id : result (option N) }.

Section oauth.
Context {P : Platform} {OT : Others} {HX : Httpx} {FL : Floats}.

Definition connector_redirect_uri (provider : ConnectorProvider) : string :=
  public_base_url +:+ "/api/v1/connectors/" +:+ ConnectorProvider_value provider +:+ "/callback".

(** The module has its own copies of the two functions of [auth/router.py]. *)
Definition _apex_host : string := Url.netloc public_base_url.
Definition _validate_return_host (host : string) : string :=
  let apex := _apex_host in
  let bare := before_char ":" host in
  let apex_bare := before_char ":" apex in
  if str_eqb bare apex_bare || endswith bare ("." +:+ apex_bare) then host else apex.

Definition validate_capabilities (manifest : ProviderManifest) (asked : list string) : result (list string) :=
  let unknown := List.filter (fun c => negb (str_in c KNOWN_CAPABILITIES)) asked in
  raise_if! (negb (bool_decide (unknown = [])) || bool_decide (asked = []))
    (ConnectorOAuthError ("Capabilities invalides : " +:+ if bool_decide (unknown = []) then "aucune" else list_repr unknown)) in
  let unsupported := List.filter (fun c => negb (str_in c (capabilities manifest))) asked in
  raise_if! (negb (bool_decide (unsupported = [])))
    (ConnectorOAuthError ("Capabilities non supportées par " +:+ ConnectorProvider_value (pm_provider manifest) +:+ " : " +:+ list_repr unsupported)) in
  Ok asked.

Definition connector_state (provider : ConnectorProvider) (tenant_slug : string) (user_id : N) (kind : ConnectionKind)
    (asked : list string) (return_host : string) (connection_id : option N) (now : Z) : result string :=
  sign_payload
    [("p", JStr (ConnectorProvider_value provider)); ("t", JStr tenant_slug); ("u", JStr (uuid_str user_id));
     ("k", JStr (ConnectionKind_value kind)); ("c", JList (List.map JStr asked)); ("r", JStr (_validate_return_host return_host));
     ("cid", match connection_id with Some id => JStr (uuid_str id) | None => JNull end)]
    CONNECTOR_STATE_TTL_SECONDS now.

Definition connector_authorization_url (provider : ConnectorProvider) (tenant_slug : string) (user_id : N) (kind : ConnectionKind)
    (asked : list string) (return_host : string) (connection_id : option N) : M string :=
  let manifest := _register provider in
  let* _ := of_result (validate_capabilities manifest asked) in
  let* (client_id, _) := of_result (client_credentials manifest) in
  let* t := now in
  let* state := of_result (connector_state provider tenant_slug user_id kind asked return_host connection_id t) in
  let* scopes := of_result (scopes_for manifest asked) in
  let params := query_string ([("response_type", "code"); ("client_id", client_id); ("redirect_uri", connector_redirect_uri provider);
                               ("scope", join " " scopes); ("state", state)] ++ pm_authorization_extra_params manifest) in
  ret (pm_authorization_endpoint manifest +:+ "?" +:+ params).

Definition parse_connector_state (state : string) (expected_provider : ConnectorProvider) (now : Z) : result (list (string * json)) :=
  let! payload := match verify_payload state now with
                  | Raise (InvalidSignedPayloadError _) => Raise (ConnectorOAuthError "State OAuth invalide ou expiré.")
                  | r => r
                  end in
  raise_if! (negb (match dict_get "p" payload with Some (JStr p) => str_eqb p (ConnectorProvider_value expected_provider) | _ => false end))
    (ConnectorOAuthError "State OAuth émis pour un autre provider.") in
  match dict_get "t" payload, dict_get "c" payload with
  | Some (JStr _), Some (JList _) => Ok payload
  | _, _ => Raise (ConnectorOAuthError "State OAuth incomplet.")
  end.

(** [uuid.UUID(v) if isinstance(v, str) else None] *)
Definition optional_uuid (v : option json) : result (option N) :=
  match as_str v with
  | Some text => match uuid_of_str text with Some u => Ok (Some u) | None => Raise (ValueError "badly formed hexadecimal UUID string") end
  | None => Ok None
  end.
Definition read_state (payload : list (string * json)) : StateInfo :=
  let kind_text := py_show false (default (JStr (ConnectionKind_value KIND_TENANT)) (dict_get "k" payload)) in
  {| si_return_host := _validate_return_host (py_show false (default (JStr "") (dict_get "r" payload)));
     si_tenant_slug := py_show false (default JNull (dict_get "t" payload));
     si_kind := match ConnectionKind_of kind_text with
                | Some kind => Ok kind
                | None => Raise (ValueError (py_repr kind_text +:+ " is not a valid ConnectionKind"))
                end;
     si_capabilities := match dict_get "c" payload with Some (JList l) => List.map (py_show false) l | _ => [] end;
     si_user_id := optional_uuid (dict_get "u" payload);
     si_connection_id := optional_uuid (dict_get "cid" payload) |}.

(** ** The connection *)

Definition missing_msg (provider : ConnectorProvider) : string :=
  ConnectorProvider_value provider +:+ " n'a pas émis de refresh token — reconnectez le compte (chez Google, le consentement doit être re-demandé avec prompt=consent).".

(** The existing row, by the state or by the account. *)
Definition find_connection (s : sess) (provider : ConnectorProvider) (kind : ConnectionKind) (account_label : string)
    (connection_id : option N) : M (option ConnectorConnection) :=
  let* connection := match connection_id with
                     | Some id => scalar s Connections (fun c => (cn_id c =? id)%N)
                     | None => ret None
                     end in
  match connection with
  | Some c => ret (Some c)
  | None => scalar s Connections (fun c => bool_decide (cn_provider c = provider) && bool_decide (cn_kind c = kind) &&
              str_eqb (cn_account_label c) account_label && negb (bool_decide (cn_status c = CONN_REVOKED)))
  end.

Definition _upsert_connection (s : sess) (provider : ConnectorProvider) (kind : ConnectionKind) (user_id : option N)
    (account_label : string) (scopes : list string) (bundle : TokenBundle) (connection_id : option N) : M ConnectorConnection :=
  let* existing := find_connection s provider kind account_label connection_id in
  let no_token := MissingRefreshTokenError (ConnectorProvider_value provider +:+ " n'a pas émis de refresh token pour cette connexion.") in
  match existing with
  | None =>
      raise_when (is_none (tb_refresh_token bundle)) (MissingRefreshTokenError (missing_msg provider)) in
      let* id := uuid4 in
      let* t := now in
      let* change := apply_token_bundle bundle in
      let connection := change {|
        cn_id := id; cn_tenant_id := 0; cn_provider := provider; cn_kind := kind; cn_user_id := user_id; cn_account_label := account_label;
        cn_scopes := scopes; cn_access_token_enc := []; cn_refresh_token_enc := []; cn_access_token_expires_at := t;
        cn_status := CONN_ACTIVE; cn_last_error := None; cn_health_checked_at := None; cn_created_at := t |} in
      raise_when (bool_decide (cn_refresh_token_enc connection = [])) no_token in
      add s Connections connection
  | Some c =>
      let union := sorted_set (cn_scopes c ++ scopes) in
      let* change := apply_token_bundle bundle in
      raise_when (bool_decide (cn_refresh_token_enc (change c) = [])) no_token in
      let assignments := fun r => change (with_account account_label union r) in
      let* _ := modify s Connections c assignments in
      ret (assignments c)
  end.

Definition _ensure_webhook_route (s : sess) (tenant : Tenant) (provider : ConnectorProvider) (connection_id : N) : M WebhookRoute :=
  let* route := scalar s WebhookRoutes (fun r => (wr_connection_id r =? connection_id)%N) in
  match route with
  | Some r => ret r
  | None =>
      let* random := random_bytes TOKEN_BYTES in
      let* id := uuid4 in
      add s WebhookRoutes {| wr_id := id; wr_route_key := generate_token random; wr_provider := ConnectorProvider_value provider;
                             wr_tenant_id := tn_id tenant; wr_connection_id := connection_id |}
  end.

Definition enqueue_subscription_sync (slug : string) (connection_id : N) : M unit :=
  emit (TaskPublished "connectors.sync_subscriptions" [slug; uuid_str connection_id]).

(** ** The callback *)

Definition state_error_as_400 {A} (m : M A) : M A :=
  catch m (fun e => match e with ConnectorOAuthError _ => Some (raise (HTTPException 400 "State OAuth invalide")) | _ => None end).

Definition issued_tokens (manifest : ProviderManifest) (provider : ConnectorProvider) (code : string) : M (TokenBundle * string) :=
  catch (let* bundle := exchange_code manifest code (connector_redirect_uri provider) in
         let* account_label := fetch_account_label manifest (tb_access_token bundle) in
         ret (bundle, account_label))
    (fun e => match connector_error e with
              | Some msg => Some (raise (HTTPException 400 msg))
              | None => match e with HTTPError _ => Some (raise (HTTPException 502 "Provider OAuth injoignable")) | _ => None end
              end).

Definition upsert_or_400 (m : M ConnectorConnection) : M ConnectorConnection :=
  catch m (fun e => match e with MissingRefreshTokenError msg => Some (raise (HTTPException 400 msg)) | _ => None end).

(** What happens under the tenant's context. *)
Definition store_connection (provider : ConnectorProvider) (kind : ConnectionKind) (user_id connection_id : option N)
    (account_label : string) (asked granted_scopes : list string) (bundle : TokenBundle) : M N :=
  let* connection := upsert_or_400 (_upsert_connection (Own 0) provider kind (if bool_decide (kind = KIND_USER) then user_id else None)
                       account_label granted_scopes bundle connection_id) in
  let* _ := record_audit_event (Own 0) "connector.connected" "connector_connection" (uuid_str (cn_id connection))
    [("provider", JStr (ConnectorProvider_value provider)); ("account", JStr account_label);
     ("kind", JStr (ConnectionKind_value kind)); ("capabilities", JList (List.map JStr asked))] user_id account_label in
  let* _ := commit (Own 0) in
  ret (cn_id connection).

(** The callback once the state is accepted and the consent given. *)
Definition connect (provider : ConnectorProvider) (info : StateInfo) (code : string) : M Redirect :=
  let manifest := _register provider in
  let connectors_page := Url.scheme public_base_url +:+ "://" +:+ si_return_host info +:+ "/connectors" in
  let* tenant := scalar Ctl Tenants (fun t => str_eqb (tn_slug t) (si_tenant_slug info)) in
  match tenant with
  | None => raise (HTTPException 400 "Tenant introuvable ou inactif")
  | Some tenant =>
      raise_when (negb (bool_decide (tn_state tenant = ACTIVE)) || is_some (tn_deleted_at tenant))
        (HTTPException 400 "Tenant introuvable ou inactif") in
      let* kind := of_result (si_kind info) in
      let* user_id := of_result (si_user_id info) in
      let* reconsent_id := of_result (si_connection_id info) in
      let* (bundle, account_label) := issued_tokens manifest provider code in
      let* granted_scopes := (match tb_scopes bundle with
                              | [] => of_result (scopes_for manifest (si_capabilities info))
                              | scopes => ret scopes
                              end) in
      let ctx := {| tc_tenant_id := tn_id tenant; tc_slug := tn_slug tenant; tc_role := None |} in
      let* connection_id := tenant_context ctx (get_tenant_session (Own 0)
        (store_connection provider kind user_id reconsent_id account_label (si_capabilities info) granted_scopes bundle)) in
      let* _ := _ensure_webhook_route Ctl tenant provider connection_id in
      let* _ := commit Ctl in
      let* _ := enqueue_subscription_sync (tn_slug tenant) connection_id in
      ret {| rd_status := 303; rd_url := connectors_page +:+ "?connected=" +:+ ConnectorProvider_value provider |}
  end.

Definition connector_oauth_callback (provider : ConnectorProvider) (state : string) (code error : option string) : M Redirect :=
  public_route (
    let* t := now in
    let* payload := state_error_as_400 (of_result (parse_connector_state state provider t)) in
    let info := read_state payload in
    match error, code with
    | None, Some code => connect provider info code
    | _, _ => ret {| rd_status := 303;
                     rd_url := Url.scheme public_base_url +:+ "://" +:+ si_return_host info +:+ "/connectors?error=denied" |}
    end).

(** ** The routes of a tenant *)

(** A route that opens no tenant session. *)
Definition permission_route {A} (permission : string) (rq : Request) (handler : TenantContext -> CurrentAuth -> M A) : M A :=
  request (let* auth := current_auth_or_none rq in
           require_permission permission rq auth (fun ctx =>
             let* a := current_auth auth in
             handler ctx a)).

Definition connectors_list_in (ctx : TenantContext) (auth : CurrentAuth) : M (list ConnectionOut) :=
  let* connections := scalars Ten Connections (fun _ => true) in
  ret (List.map _to_out (order_by (fun a b => cn_created_at a <=? cn_created_at b) connections)).
Definition connectors_list (rq : Request) : M (list ConnectionOut) :=
  tenant_route "core.connectors.read" rq connectors_list_in.

Definition connector_start_in (provider : ConnectorProvider) (asked : list string) (kind : ConnectionKind) (rq : Request)
    (ctx : TenantContext) (auth : CurrentAuth) : M string :=
  catch (connector_authorization_url provider (tc_slug ctx) (us_id (ca_user auth)) kind
           (match asked with [] => ["mail"; "calendar"] | l => l end) (default EmptyString (rq_host rq)) None)
    (fun e => match e with
              | ConnectorOAuthError msg => Some (raise (HTTPException 400 msg))
              | _ => match connector_error e with Some msg => Some (raise (HTTPException 503 msg)) | None => None end
              end).
Definition connector_start (provider : ConnectorProvider) (asked : list string) (kind : ConnectionKind) (rq : Request) : M string :=
  permission_route "core.connectors.manage" rq (connector_start_in provider asked kind rq).

Definition connector_reconsent_in (connection_id : N) (rq : Request) (ctx : TenantContext) (auth : CurrentAuth) : M string :=
  let* connection := scalar Ten Connections (fun c => (cn_id c =? connection_id)%N) in
  match connection with
  | None => raise (HTTPException 404 "Connexion introuvable")
  | Some c =>
      raise_when (negb (bool_decide (cn_status c = CONN_NEEDS_RECONSENT)))
        (HTTPException 409 "La connexion n'attend pas de re-consentement") in
      let granted := sorted_set (granted_capabilities c) in
      let asked := match granted with [] => sorted_set (capabilities (_register (cn_provider c))) | _ => granted end in
      catch (connector_authorization_url (cn_provider c) (tc_slug ctx) (us_id (ca_user auth)) (cn_kind c) asked
               (default EmptyString (rq_host rq)) (Some (cn_id c)))
        (fun e => match e with
                  | ConnectorOAuthError msg => Some (raise (HTTPException 503 msg))
                  | _ => match connector_error e with Some msg => Some (raise (HTTPException 503 msg)) | None => None end
                  end)
  end.
Definition connector_reconsent (connection_id : N) (rq : Request) : M string :=
  tenant_route "core.connectors.manage" rq (connector_reconsent_in connection_id rq).

Definition connector_revoke_in (connection_id : N) (ctx : TenantContext) (auth : CurrentAuth) : M unit :=
  let* connection := scalar Ten Connections (fun c => (cn_id c =? connection_id)%N) in
  match connection with
  | None => raise (HTTPException 404 "Connexion introuvable")
  | Some c =>
      if bool_decide (cn_status c = CONN_REVOKED) then ret tt
      else
        let* c := revoke_connection Ten c in
        let* _ := delete_rows Ten Subscriptions (fun sb => (sb_connection_id sb =? cn_id c)%N) in
        let* _ := audit "connector.revoked" "connector_connection" (uuid_str (cn_id c))
          [("provider", JStr (ConnectorProvider_value (cn_provider c))); ("account", JStr (cn_account_label c))] auth in
        let* _ := commit Ten in
        let* _ := delete_rows Ctl WebhookRoutes (fun r => (wr_connection_id r =? cn_id c)%N) in
        let* _ := commit Ctl in
        ret tt
  end.
Definition connector_revoke (connection_id : N) (rq : Request) : M unit :=
  tenant_route "core.connectors.manage" rq (connector_revoke_in connection_id).
End oauth.

(** ** Running *)

Section running.
Context {P : Platform} {OT : Others} {HX : Httpx} {FL : Floats}.
Implicit Types (w : World) (c : ConnectorConnection).

(** A row that keeps its identity. *)
Definition same_identity (f : ConnectorConnection -> ConnectorConnection) : Prop :=
  forall c, cn_id (f c) = cn_id c /\ cn_tenant_id (f c) = cn_tenant_id c.

(** The connection as the callback leaves it, from the tokens issued. *)
Definition connected (bundle : TokenBundle) (label : string) c : Prop :=
  cn_status c = CONN_ACTIVE /\ cn_account_label c = label /\ cn_last_error c = None /\
  decrypt_token (cn_access_token_enc c) = Ok (tb_access_token bundle) /\ cn_refresh_token_enc c <> [].

(** One connection of the tenant is new, or one of its own has changed. *)
Definition stored (tid : N) (before : list ConnectorConnection) c (f : list ConnectorConnection -> list ConnectorConnection) : Prop :=
  cn_tenant_id c = tid /\
  ((f = fun l => l ++ [c]) \/
   exists c0 g, In c0 before /\ cn_tenant_id c0 = tid /\ same_identity g /\ c = g c0 /\ f = update_where (same_row Connections c0) g).

Lemma find_connection_run s provider kind label cid w ctx : w_tenant w = Some ctx ->
  exists o, find_connection s provider kind label cid w = (Ok o, w) /\
    forall c, o = Some c -> In c (sees w s Connections) /\ cn_tenant_id c = tc_tenant_id ctx.
Proof.
  intros Hc. unfold find_connection.
  assert (Hscal : forall p, exists o, scalar s Connections p w = (Ok o, w) /\
    forall c, o = Some c -> In c (sees w s Connections) /\ cn_tenant_id c = tc_tenant_id ctx).
  { intros p. rewrite (scalar_scoped s Connections p w ctx) by done. eexists. split; [done |]. intros c [H1 H2]%first_where_Some.
    split; [exact H1 |]. unfold owned_by in H2. simpl in H2. by bool_hyps. }
  destruct cid as [id|].
  - unfold bind. match goal with |- context [scalar s Connections ?p w] => destruct (Hscal p) as (o & E & H) end. rewrite E.
    destruct o as [c|]; [| apply Hscal]. exists (Some c). split; [done |]. exact H.
  - unfold bind, ret. apply Hscal.
Qed.

Lemma upsert_connection_run s provider kind uid label scopes bundle cid w ctx r w' : w_tenant w = Some ctx ->
  _upsert_connection s provider kind uid label scopes bundle cid w = (r, w') ->
  w_tenant w' = Some ctx /\ w_db w' = w_db w /\ w_now w' = w_now w /\ w_out w' = w_out w /\ (forall s', s' <> s -> w_pend w' s' = w_pend w s') /\
  match r with
  | Ok c => connected bundle label c /\ exists f, stored (tc_tenant_id ctx) (sees w s Connections) c f /\
      forall db, w_pend w' s db = upd Connections f (w_pend w s db)
  | Raise _ => w_pend w' = w_pend w
  end.
Proof.
  intros Hc. unfold _upsert_connection. unfold bind at 1.
  destruct (find_connection_run s provider kind label cid w ctx Hc) as (o & -> & Ho).
  assert (Hb := apply_token_bundle_run bundle). destruct o as [c|].
  - destruct (Ho c eq_refl) as [Hin Ht]. unfold bind at 1. specialize (Hb w). destruct (apply_token_bundle bundle w) as [ra w1].
    destruct Hb as (A & D & K & N & Ha).
    assert (Hstop : w_tenant w1 = Some ctx /\ w_db w1 = w_db w /\ w_now w1 = w_now w /\ w_out w1 = w_out w /\
      (forall s', s' <> s -> w_pend w1 s' = w_pend w s') /\ w_pend w1 = w_pend w).
    { rewrite (ar_pend _ _ A), (ar_tenant _ _ A), (ar_out _ _ A). by repeat split. }
    destruct ra as [change|e]; [| by intros [= <- <-]].
    destruct Ha as (access & refresh & -> & Hac & _). set (change := with_tokens _ _ _ _).
    destruct (bool_decide (cn_refresh_token_enc (change c) = [])) eqn:Er; [by intros [= <- <-] |].
    set (g := fun r => change (with_account label _ r)). unfold bind.
    rewrite (modify_scoped s Connections c g w1 ctx); [| done | apply Hstop | unfold owned_by; simpl; by apply N.eqb_eq].
    intros [= <- <-]. bool_hyps. split; [apply Hstop |]. do 2 (split; [done |]). split; [apply A |].
    split; [intros s' Hs; rewrite pend_wrote_ne by done; by rewrite (ar_pend _ _ A) |]. split.
    + do 3 (split; [done |]). split; [exact Hac | exact Er].
    + exists (update_where (same_row Connections c) g). split; [| intros db; rewrite pend_wrote; by rewrite (ar_pend _ _ A)].
      split; [exact Ht |]. right. exists c, g. by repeat split.
  - destruct (is_none _) eqn:En; [intros [= <- <-]; done |]. unfold bind at 1 2, uuid4, now. set (w0 := set_drawn _ w).
    set (id := (_ mod _)%N). unfold bind at 1. specialize (Hb w0). destruct (apply_token_bundle bundle w0) as [ra w1].
    destruct Hb as (A & D & K & N & Ha).
    assert (Hstop : w_tenant w1 = Some ctx /\ w_db w1 = w_db w /\ w_now w1 = w_now w /\ w_out w1 = w_out w /\
      (forall s', s' <> s -> w_pend w1 s' = w_pend w s') /\ w_pend w1 = w_pend w).
    { rewrite (ar_pend _ _ A), (ar_tenant _ _ A), (ar_out _ _ A). by repeat split. }
    destruct ra as [change|e]; [| by intros [= <- <-]].
    destruct Ha as (access & refresh & -> & Hac & _). destruct (bool_decide _) eqn:Er; [by intros [= <- <-] |].
    rewrite (add_scoped s Connections _ w1 ctx); [| done | apply Hstop]. cbn zeta.
    destruct (existsb _ _); intros [= <- <-]; [done |]. bool_hyps. split; [apply Hstop |]. do 2 (split; [done |]). split; [apply A |].
    split; [intros s' Hs; rewrite pend_wrote_ne by done; by rewrite (ar_pend _ _ A) |]. split.
    + do 3 (split; [done |]). split; [exact Hac | exact Er].
    + eexists. split; [| intros db; rewrite pend_wrote; by rewrite (ar_pend _ _ A)]. split; [done |]. by left.
Qed.

Definition connected_event (tid : N) (t : Z) (provider : ConnectorProvider) (kind : ConnectionKind) (uid : option N) (label : string)
    (asked : list string) c (e : AuditEvent) : Prop :=
  event_is tid t "connector.connected" "connector_connection" (uuid_str (cn_id c))
    [("provider", JStr (ConnectorProvider_value provider)); ("account", JStr label);
     ("kind", JStr (ConnectionKind_value kind)); ("capabilities", JList (List.map JStr asked))] uid label e.

Lemma store_run provider kind uid cid label asked scopes bundle ctx w :
  let '(r, w') := tenant_context ctx (get_tenant_session (Own 0) (store_connection provider kind uid cid label asked scopes bundle)) w in
  w_tenant w' = w_tenant w /\ w_now w' = w_now w /\ w_out w' = w_out w /\
  (forall s, w_pend w' s = if sess_eq_dec (Own 0) s then id else w_pend w s) /\
  match r with
  | Ok id => exists c f e, id = cn_id c /\ connected bundle label c /\ stored (tc_tenant_id ctx) (w_db w Connections) c f /\
      connected_event (tc_tenant_id ctx) (w_now w) provider kind uid label asked c e /\
      w_db w' = upd AuditEvents (fun l => l ++ [e]) (upd Connections f (w_db w))
  | Raise _ => w_db w' = w_db w
  end.
Proof.
  unfold tenant_context, get_tenant_session, with_session, push_tenant.
  unfold bind at 1, finally at 1, bind at 1, current_tenant. cbn [set_tenant w_tenant]. unfold finally at 1.
  set (w0 := closed (Own 0) (set_tenant (Some ctx) w)).
  assert (Hs : sees w0 (Own 0) = w_db w) by exact (sees_closed (set_tenant (Some ctx) w) (Own 0)).
  assert (Hp : w_pend w0 (Own 0) = id) by exact (pend_set (set_tenant (Some ctx) w) (Own 0) id).
  assert (Hq : forall s, (if sess_eq_dec (Own 0) s then id else w_pend w0 s) = if sess_eq_dec (Own 0) s then id else w_pend w s)
    by (intros s; simpl; by destruct (sess_eq_dec (Own 0) s)).
  unfold store_connection, upsert_or_400, catch. unfold bind at 1.
  destruct (_upsert_connection (Own 0) provider kind _ label scopes bundle cid w0) as [rc w1] eqn:E.
  apply (upsert_connection_run _ _ _ _ _ _ _ _ _ ctx) in E as (T1 & D1 & N1 & O1 & Q1 & H1); [| done]. destruct rc as [c|e].
  2: { set (r := match match e with MissingRefreshTokenError _ => _ | _ => _ end with Some _ => _ | None => _ end).
       assert (Hr : r = (Raise match e with MissingRefreshTokenError msg => HTTPException 400 msg | _ => e end, w1)) by (unfold r; by destruct e).
       rewrite Hr. simpl. split; [done |]. do 2 (split; [done |]). split; [intros s; rewrite H1; apply Hq | done]. }
  destruct H1 as (Hc & f & Hst & Hpd). unfold bind at 1.
  destruct (record_audit_event (Own 0) _ _ _ _ _ _ w1) as [re w2] eqn:E2.
  apply (record_audit_event_run _ _ _ _ _ _ _ _ ctx) in E2; [| done].
  assert (Hq1 : forall s, (if sess_eq_dec (Own 0) s then id else w_pend w1 s) = if sess_eq_dec (Own 0) s then id else w_pend w s).
  { intros s. rewrite <- Hq. destruct (sess_eq_dec (Own 0) s) as [|Hn]; [done |]. by rewrite Q1 by congruence. }
  destruct E2 as [[-> ->] | (e & -> & He & ->)].
  - simpl. split; [done |]. do 2 (split; [done |]). split; [intros s; apply Hq1 | done].
  - unfold bind at 1, commit, ret, pop_tenant. cbn [fst snd set_tenant closed set_pend w_tenant w_now w_out w_pend w_db set_db].
    split; [done |]. do 2 (split; [done |]). split.
    + intros s. rewrite <- (Hq1 s). simpl. by destruct (sess_eq_dec (Own 0) s).
    + exists c, f, e. split; [done |]. split; [done |]. split; [by rewrite Hs in Hst |]. split; [by rewrite N1 in He |].
      rewrite sees_wrote. unfold sees. simpl. rewrite Hpd, D1, Hp. done.
Qed.

Lemma still_issued_tokens W manifest provider code : still W (issued_tokens manifest provider code).
Proof.
  unfold issued_tokens. apply still_catch.
  - apply still_bind.
    + unfold exchange_code. apply still_bind; [done |]. intros [id secret]. apply still_bind; [apply still_http_post | done].
    + intros b. apply still_bind; [| done]. unfold fetch_account_label. apply still_bind; [apply still_http_get |]. intros r.
      destruct (negb _); [done |]. by apply still_bind.
  - intros e k. destruct (connector_error e); [by intros [= <-] |]. destruct e; by intros [= <-].
Qed.

Lemma issued_tokens_ok manifest provider code w bundle label w' : issued_tokens manifest provider code w = (Ok (bundle, label), w') ->
  exists w1 w2, exchange_code manifest code (connector_redirect_uri provider) w1 = (Ok bundle, w2).
Proof.
  unfold issued_tokens, catch. unfold bind at 1. destruct (exchange_code _ _ _ w) as [[b|e] w1] eqn:E.
  - unfold bind. destruct (fetch_account_label _ _ w1) as [[l|e] w2]; unfold ret; [by intros [= <- <- <-]; exists w, w1 |].
    destruct (connector_error e); [done |]. by destruct e.
  - destruct (connector_error e); [done |]. by destruct e.
Qed.

Lemma ensure_route_run s tenant provider cid w r w' : _ensure_webhook_route s tenant provider cid w = (r, w') ->
  w_db w' = w_db w /\ (forall s', s' <> s -> w_pend w' s' = w_pend w s') /\
  match r with
  | Ok route => wr_connection_id route = cid /\ exists l, sees w' s WebhookRoutes = sees w s WebhookRoutes ++ l /\
      In route (sees w' s WebhookRoutes) /\ forall t, t <> WebhookRoutes -> sees w' s t = sees w s t
  | Raise e => e = IntegrityError
  end.
Proof.
  unfold _ensure_webhook_route. run. case_query as [route|] Er.
  - intros [= <- <-]. apply first_where_Some in Er as [Hin E]. bool_hyps. do 2 (split; [done |]). split; [done |].
    exists []. by rewrite app_nil_r.
  - rewrite first_where_None in Er. run. rewrite (add_unscoped s WebhookRoutes) by done. destruct (existsb _ _); intros [= <- <-]; [done |].
    split; [done |]. split; [intros s' Hs; by rewrite pend_wrote_ne |]. split; [done |]. eexists. simpl_view.
    split; [reflexivity |]. split; [apply in_app_iff; right; by left |]. intros t Ht. by rewrite upd_ne.
Qed.
End running.

(** ** Properties *)

Section properties.
Context {P : Platform} {OT : Others} {HX : Httpx} {FL : Floats}.
Implicit Types (w : World) (c : ConnectorConnection).

(** What a callback that connected an account has done to the database. *)
Definition connection_made (provider : ConnectorProvider) (payload : list (string * json)) (code : string) (t : Z) (db db' : Db) : Prop :=
  exists tenant bundle label kind uid c f e route l,
    In tenant (db Tenants) /\ dict_get "t" payload = Some (JStr (tn_slug tenant)) /\
    tn_state tenant = ACTIVE /\ tn_deleted_at tenant = None /\
    (exists w1 w2, exchange_code (_register provider) code (connector_redirect_uri provider) w1 = (Ok bundle, w2)) /\
    connected bundle label c /\ stored (tn_id tenant) (db Connections) c f /\ db' Connections = f (db Connections) /\
    connected_event (tn_id tenant) t provider kind uid label (si_capabilities (read_state payload)) c e /\
    db' AuditEvents = db AuditEvents ++ [e] /\
    wr_connection_id route = cn_id c /\ In route (db' WebhookRoutes) /\ db' WebhookRoutes = db WebhookRoutes ++ l /\
    forall t, t <> Connections -> t <> AuditEvents -> t <> WebhookRoutes -> db' t = db t.

Lemma parse_connector_state_ok state provider t payload : parse_connector_state state provider t = Ok payload ->
  verify_payload state t = Ok payload /\ dict_get "p" payload = Some (JStr (ConnectorProvider_value provider)) /\
  exists slug, dict_get "t" payload = Some (JStr slug).
Proof.
  unfold parse_connector_state. destruct (verify_payload state t) as [m|e]; [| by destruct e]. cbn [result_bind].
  destruct (dict_get "p" m) as [[| | | |p| |]|] eqn:Ep; try done. destruct (str_eqb p _) eqn:E; [| done]. bool_hyps. subst p. cbn [negb].
  destruct (dict_get "t" m) as [[| | | |slug| |]|] eqn:Et; try done. destruct (dict_get "c" m) as [[]|]; try done.
  intros [= <-]. split; [done |]. split; [done |]. by exists slug.
Qed.

Lemma connect_run provider payload code w slug : (forall s, w_pend w s = id) ->
  dict_get "t" payload = Some (JStr slug) ->
  let '(r, w') := connect provider (read_state payload) code w in
  match r with
  | Ok rd => rd_status rd = 303 /\ connection_made provider payload code (w_now w) (w_db w) (w_db w')
  | Raise e => w_db w' = w_db w \/ e = IntegrityError
  end.
Proof.
  intros Hp Hslug. unfold connect. assert (Hs : forall s, sees w s = w_db w) by (intros s; unfold sees; by rewrite Hp).
  run. rewrite Hs. case_query as [tenant|] Et; [| by left]. apply first_where_Some in Et as [Hin Et].
  assert (Hsl : tn_slug tenant = slug) by (simpl in Et; rewrite Hslug in Et; simpl in Et; by bool_hyps).
  destruct (bool_decide (tn_state tenant = ACTIVE)) eqn:Ea; cbn [negb orb]; [| by left].
  destruct (tn_deleted_at tenant) eqn:Ed; cbn [is_some]; [by left |]. bool_hyps.
  destruct (si_kind (read_state payload)) as [kind|e]; run; [| cbn beta iota; by left]. destruct (si_user_id (read_state payload)) as [uid|e]; run; [| cbn beta iota; by left].
  destruct (si_connection_id (read_state payload)) as [cid|e]; run; [| cbn beta iota; by left].
  destruct (still_issued_tokens [] (_register provider) provider code w) as (D1 & N1 & _ & P1).
  unfold bind at 1. destruct (issued_tokens _ _ _ w) as [[[bundle label]|e] w1] eqn:Ei; [| by left]. simpl in D1, N1, P1.
  apply issued_tokens_ok in Ei.
  set (ms := match tb_scopes bundle with [] => _ | _ => _ end). unfold bind at 1.
  assert (Hms : exists rs, ms w1 = (rs, w1)) by (unfold ms; destruct (tb_scopes bundle); eexists; reflexivity).
  destruct Hms as [[scopes|e] ->]; [| left; done]. unfold bind at 1.
  pose proof (store_run provider kind uid cid label (si_capabilities (read_state payload)) scopes bundle
    {| tc_tenant_id := tn_id tenant; tc_slug := tn_slug tenant; tc_role := None |} w1) as Hst.
  destruct (tenant_context _ _ w1) as [rk w2]. destruct Hst as (T2 & N2 & _ & Q2 & Hst).
  destruct rk as [conn_id|e]; [| left; congruence]. destruct Hst as (c & f & e & -> & Hc & Hsto & Hev & Hdb). simpl in Hsto, Hev.
  unfold bind at 1. destruct (_ensure_webhook_route Ctl tenant provider (cn_id c) w2) as [rr w3] eqn:Er.
  apply ensure_route_run in Er as (D3 & Q3 & Hr). destruct rr as [route|er]; [| right; done].
  destruct Hr as (Hrc & l & Hl & Hri & Ho). unfold enqueue_subscription_sync. run.
  unfold ret. split; [done |]. cbn [w_db set_out set_pend set_db].
  assert (Hctl : forall t, sees w2 Ctl t = w_db w2 t).
  { intros t. unfold sees. rewrite Q2. simpl. rewrite P1 by (intros []). by rewrite Hp. }
  assert (Hfin : forall t, sees w3 Ctl t = match table_eq_dec t WebhookRoutes with left _ => sees w3 Ctl t | right _ => w_db w2 t end).
  { intros t. destruct (table_eq_dec t WebhookRoutes) as [|Hn]; [done |]. by rewrite Ho, Hctl. }
  rewrite Hctl in Hl. exists tenant, bundle, label, kind, uid, c, f, e, route, l. rewrite D1 in Hsto. rewrite N2, N1 in Hev || rewrite N1 in Hev.
  split; [done |]. split; [by rewrite Hsl |]. do 2 (split; [done |]). split; [done |]. split; [done |]. split; [done |].
  split; [rewrite (Hfin Connections); simpl; rewrite Hdb; simpl_db; by rewrite D1 |]. split; [done |].
  split; [rewrite (Hfin AuditEvents); simpl; rewrite Hdb; simpl_db; by rewrite D1 |]. split; [done |]. split; [done |].
  split; [rewrite Hl, Hdb; simpl_db; by rewrite D1 |].
  intros t H1 H2 H3. rewrite (Hfin t). destruct (table_eq_dec t WebhookRoutes); [done |]. rewrite Hdb. rewrite !upd_ne by done. by rewrite D1.
Qed.


(** C36: a revocation cuts everything. It answers 404 for a connection that is not
    of the tenant; otherwise, unless the connection was revoked before, when it
    returns the row has no token, no subscription of the tenant and no webhook
    route of the connection is left, and one audit event of the tenant tells who
    did it; the provider's answer cannot prevent it. *)
Theorem revoke_cuts_everything (connection_id : N) ctx auth w :
  w_tenant w = Some ctx -> (forall s, w_pend w s = id) ->
  let '(r, w') := connector_revoke_in connection_id ctx auth w in
  let mine := fun c => In c (w_db w Connections) /\ cn_id c = connection_id /\ cn_tenant_id c = tc_tenant_id ctx in
  match r with
  | Ok _ => exists c, mine c /\
      ((cn_status c = CONN_REVOKED /\ w_db w' = w_db w) \/
       ((forall c', In c' (w_db w' Connections) -> cn_id c' = connection_id -> cn_tenant_id c' = tc_tenant_id ctx ->
           cn_status c' = CONN_REVOKED /\ cn_access_token_enc c' = [] /\ cn_refresh_token_enc c' = []) /\
        (forall sb, In sb (w_db w' Subscriptions) -> sb_tenant_id sb = tc_tenant_id ctx -> sb_connection_id sb <> connection_id) /\
        (forall route, In route (w_db w' WebhookRoutes) -> wr_connection_id route <> connection_id) /\
        exists e, w_db w' AuditEvents = w_db w AuditEvents ++ [e] /\
          event_is (tc_tenant_id ctx) (w_now w) "connector.revoked" "connector_connection" (uuid_str connection_id)
            [("provider", JStr (ConnectorProvider_value (cn_provider c))); ("account", JStr (cn_account_label c))]
            (Some (us_id (ca_user auth))) (_actor_label (ca_user auth)) e))
  | Raise e => w_db w' = w_db w /\ (e = IntegrityError \/ (e = HTTPException 404 "Connexion introuvable" /\ forall c, ~ mine c))
  end.
Proof.
  intros Hc Hp. unfold connector_revoke_in. assert (Hs : forall s, sees w s = w_db w) by (intros s; unfold sees; by rewrite Hp).
  unfold bind at 1. rewrite (scalar_scoped Ten Connections _ w ctx) by done. rewrite Hs. cbn [row] in *.
  case_query as [c|] Ec.
  2: { unfold raise. split; [done |]. right. split; [done |]. intros c (Hin & Hid & Ht). rewrite first_where_None in Ec.
       specialize (Ec c Hin). simpl in Ec. rewrite Hid, N.eqb_refl, andb_true_r in Ec. unfold owned_by in Ec. simpl in Ec.
       bool_hyps. congruence. }
  apply first_where_Some in Ec as [Hin Eo]. unfold owned_by in Eo. simpl in Eo. bool_hyps.
  destruct (bool_decide (cn_status c = CONN_REVOKED)) eqn:Er; bool_hyps.
  { unfold ret. exists c. split; [done |]. left. done. }
  unfold bind at 1. destruct (revoke_connection Ten c w) as [rv w1] eqn:Ev.
  pose proof (revoke_connection_run Ten c w ctx Hc ltac:(done)) as Hw1. rewrite Ev in Hw1.
  destruct Hw1 as (-> & (T1 & P1 & Q1) & D1 & N1 & _). set (c' := with_revocation (w_now w) c).
  unfold bind at 1. rewrite (delete_rows_scoped Ten Subscriptions _ w1 ctx) by (done || congruence).
  set (w2 := wrote Ten _ w1). unfold audit. unfold bind at 1.
  destruct (record_audit_event Ten _ _ _ _ _ _ w2) as [re w3] eqn:Ee.
  apply (record_audit_event_run _ _ _ _ _ _ _ _ ctx) in Ee; [| simpl; congruence].
  destruct Ee as [[-> ->] | (e & -> & He & ->)].
  { split; [by rewrite <- D1 | by left]. }
  run. unfold ret. change (w_now w2) with (w_now w1) in He. rewrite N1 in He.
  assert (Hdb : forall t, w_pend w1 Ten (w_db w1) t = row_change c (with_revocation (w_now w)) (w_db w) t).
  { intros t. rewrite P1, D1, Hp. done. }
  assert (Hctl : w_pend w1 Ctl = id) by (rewrite Q1 by done; apply Hp).
  exists c. split; [done |]. right. unfold sees. cbn -[conflicts upd]. rewrite Hctl. unfold row_change in Hdb.
  destruct (sess_eq_dec Ten Ten) as [_|[]]; [| done]. destruct (sess_eq_dec Ten Ctl) as [?|_]; [done |]. unfold id in *.
  split; [| split; [| split]].
  - intros x. simpl_db. rewrite Hdb. simpl_db. intros (y & Hy & ->)%in_update_where. simpl.
    destruct (_ && _) eqn:E; [done |]. intros Hid Ht. exfalso. revert E. rewrite Hid, Ht. simpl.
    rewrite H0, H. rewrite !N.eqb_refl. done.
  - intros sb. simpl_db. intros [Hx E]%in_delete_where Ht Hb. revert E. unfold owned_by. simpl.
    rewrite Ht, Hb, N.eqb_refl. simpl. rewrite H0, N.eqb_refl. done.
  - intros route. simpl_db. intros [_ E]%in_delete_where Hb. revert E. simpl. rewrite Hb. rewrite H0, N.eqb_refl. done.
  - exists e. split; [simpl_db; rewrite Hdb; by simpl_db |]. unfold c' in He. simpl in He. by rewrite H0 in He.
Qed.
End properties.

(** ** Witnesses *)

(** Google issues a code's tokens and names the account. *)
Definition google_consents : Httpx := {|
  http_answer rq _ _ := inr {| hs_status := 200; hs_retry_after := None;
    hs_body := if str_eqb (hr_method rq) "POST"
               then dumps (JObj [("access_token", JStr "access-9"); ("refresh_token", JStr "refresh-9"); ("expires_in", JInt 3600)])
               else dumps (JObj [("email", JStr "sales@acme.fr")]) |};
  query_string _ := "" |}.
Definition acme_state : string :=
  match connector_state (P := google_platform) CONNECTOR_GOOGLE "acme" 1 KIND_TENANT ["mail"] "acme.localhost:8000" None t0 with
  | Ok st => st | Raise _ => EmptyString end.


Definition alice_auth : CurrentAuth := {| ca_user := alice; ca_session := session_of 1 1 "alice-token" |}.
Definition acme_ctx : TenantContext := {| tc_tenant_id := 1; tc_slug := "acme"; tc_role := Some ROLE_OWNER |}.

Lemma revoke_cuts_everything_witness :
  let '(r, w') := connector_revoke_in (P := google_platform) (HX := google_tokens) 7 acme_ctx alice_auth in_acme_connected in
  r = Ok tt /\ exists e, w_db w' AuditEvents = [e] /\ ae_action e = "connector.revoked".
Proof.
  pose proof (revoke_cuts_everything (P := google_platform) (HX := google_tokens) 7 acme_ctx alice_auth in_acme_connected eq_refl
    (fun _ => eq_refl)) as H.
  destruct (connector_revoke_in (P := google_platform) (HX := google_tokens) 7 acme_ctx alice_auth in_acme_connected) as [r w'] eqn:E.
  assert (Hr : r = Ok tt) by (apply (f_equal fst) in E; vm_compute in E; symmetry; exact E).
  assert (Hd : length (w_db w' AuditEvents) = 1%nat)
    by (apply (f_equal (fun x => length (w_db x.2 AuditEvents))) in E; vm_compute in E; symmetry; exact E).
  clear E. subst r. split; [reflexivity |]. destruct H as (c & _ & [[_ Hdb] | (_ & _ & _ & e & Ha & He)]).
  - rewrite Hdb in Hd. discriminate Hd.
  - exists e. split; [exact Ha | apply He].
Defined.
