(* ===== verification/Webhooks.v ===== *)
(** [app/connectors/webhooks.py]: notifications from the providers, on an anonymous
    route. A notification that is not authenticated gets the answer of one that is. *)
From S2P Require Import Prelude PyStr Hashing Base64 Json Config Tokens Models Permissions World Uuid Sample Orm Isolation AuthService Slug Deps Edge Journal Frame Http Directory AuthRouter Policy Providers.

Record ConnectorEvent := {
  ev_provider : ConnectorProvider; ev_capability : string; ev_connection_id : N; ev_change_type : string; ev_resource_id : option string }.

(** ** The registry of handlers: a dict of lists, in the order of registration *)
Section handlers.
Context {H : Type}.
Definition Handlers : Type := list (string * list H).
Definition event_handlers (registry : Handlers) (capability : string) : list H :=
  default [] (item_of capability registry).
Fixpoint on_connector_event (capability : string) (handler : H) (registry : Handlers) : Handlers :=
  match registry with
  | [] => [(capability, [handler])]
  | (c, l) :: registry' =>
      if str_eqb c capability then (c, l ++ [handler]) :: registry' else (c, l) :: on_connector_event capability handler registry'
  end.
Definition reset_event_handlers : Handlers := [].

Lemma event_handlers_registered registry c c' h :
  event_handlers (on_connector_event c h registry) c' = event_handlers registry c' ++ if str_eqb c c' then [h] else [].
Proof.
  unfold event_handlers, item_of. induction registry as [|[k l] registry IH]; simpl; [by destruct (str_eqb c c') |].
  destruct (str_eqb k c) eqn:E; simpl.
  - bool_hyps. subst k. destruct (str_eqb c c'); [done | by rewrite app_nil_r].
  - destruct (str_eqb k c') eqn:E'; simpl; [| exact IH]. bool_hyps. subst k.
    destruct (str_eqb c c') eqn:E2; bool_hyps; [by subst | by rewrite app_nil_r].
Qed.
End handlers.
Arguments Handlers : clear implicits.

(** ** Reception *)

(** Header names are in lower case, as lookups ignore it. *)
Record WebhookRequest := { wq_body : string; wq_headers : list (string * string); wq_query : list (string * string) }.
Inductive WebhookResponse := PlainText (text : string) | Neutral.   (* 202 with the constant body *)

Definition header (rq : WebhookRequest) (name : string) : option string := item_of name (wq_headers rq).

Record Notification := { nt_subscription : ConnectorSubscription; nt_change_type : string; nt_resource_id : option string }.

Section webhooks.
Context {P : Platform}.

(** [{s.provider_subscription_id: s for s in rows}.get(id)]: the last row wins. *)
Definition subscription_of (rows : list ConnectorSubscription) (id : string) : option ConnectorSubscription :=
  first_where (fun sb => str_eqb (sb_provider_subscription_id sb) id) (rev rows).

Definition graph_notification (rows : list ConnectorSubscription) (item : json) : list Notification :=
  match item with
  | JObj notification =>
      match subscription_of rows (py_show false (default (JStr "") (dict_get "subscriptionId" notification))),
            as_str (dict_get "clientState" notification) with
      | Some subscription, Some client_state =>
          if negb (str_eqb (hash_token client_state) (sb_client_state_hash subscription)) then []
          else
            let resource_id := match dict_get "resourceData" notification with
                               | Some (JObj data) => Some (py_show false (default JNull (dict_get "id" data)))
                               | _ => None
                               end in
            [{| nt_subscription := subscription;
                nt_change_type := py_show false (default (JStr "updated") (dict_get "changeType" notification));
                nt_resource_id := resource_id |}]
      | _, _ => []
      end
  | _ => []
  end.
Definition graph_notifications (rows : list ConnectorSubscription) (rq : WebhookRequest) : list Notification :=
  match loads (wq_body rq) with
  | Ok (JObj body) =>
      match default (JList []) (dict_get "value" body) with
      | JList items => flat_map (graph_notification rows) items
      | _ => []
      end
  | _ => []
  end.

Definition google_notifications (rows : list ConnectorSubscription) (rq : WebhookRequest) : list Notification :=
  let channel_id := default EmptyString (header rq "x-goog-channel-id") in
  let channel_token := default EmptyString (header rq "x-goog-channel-token") in
  let resource_state := default EmptyString (header rq "x-goog-resource-state") in
  match subscription_of rows channel_id with
  | None => []
  | Some subscription =>
      if str_eqb channel_token "" || negb (str_eqb (hash_token channel_token) (sb_client_state_hash subscription)) then []
      else if str_eqb resource_state "sync" then []
      else [{| nt_subscription := subscription; nt_change_type := str_or resource_state "updated";
               nt_resource_id := header rq "x-goog-resource-id" |}]
  end.

Definition _validated_notifications (s : sess) (provider : ConnectorProvider) (connection_id : N) (rq : WebhookRequest) : M (list Notification) :=
  let* rows := scalars s Subscriptions (fun sb => (sb_connection_id sb =? connection_id)%N) in
  ret match provider with
      | CONNECTOR_MICROSOFT => graph_notifications rows rq
      | CONNECTOR_GOOGLE => google_notifications rows rq
      end.

(** [connector_event_received_task.delay(...)]; an absent resource id is no argument. *)
Definition event_task (slug : string) (connection_id : N) (provider capability change_type : string) (resource_id : option string) : effect :=
  TaskPublished "connectors.event_received"
    ([slug; uuid_str connection_id; provider; capability; change_type] ++ match resource_id with Some r => [r] | None => [] end).
Definition enqueue_event (slug : string) (connection_id : N) (provider capability change_type : string) (resource_id : option string) : M unit :=
  emit (event_task slug connection_id provider capability change_type resource_id).

Definition dispatch_notification (tenant : Tenant) (route : WebhookRoute) (provider : ConnectorProvider) (n : Notification) : M unit :=
  enqueue_event (tn_slug tenant) (wr_connection_id route) (ConnectorProvider_value provider)
    (sb_capability (nt_subscription n)) (nt_change_type n) (nt_resource_id n).

Definition receive_webhook_in (provider : ConnectorProvider) (route_key : string) (rq : WebhookRequest) : M WebhookResponse :=
  match item_of "validationToken" (wq_query rq) with
  | Some validation_token => ret (PlainText validation_token)
  | None =>
      let* route := scalar Ctl WebhookRoutes (fun r => str_eqb (wr_route_key r) route_key && str_eqb (wr_provider r) (ConnectorProvider_value provider)) in
      match route with
      | None => ret Neutral
      | Some route =>
          let* tenant := scalar Ctl Tenants (fun t => (tn_id t =? wr_tenant_id route)%N) in
          match tenant with
          | None => ret Neutral
          | Some tenant =>
              if negb (bool_decide (tn_state tenant = ACTIVE)) || is_some (tn_deleted_at tenant) then ret Neutral
              else
                let ctx := {| tc_tenant_id := tn_id tenant; tc_slug := tn_slug tenant; tc_role := None |} in
                let* notifications := tenant_context ctx (get_tenant_session (Own 0)
                  (_validated_notifications (Own 0) provider (wr_connection_id route) rq)) in
                let* _ := for_each notifications (dispatch_notification tenant route provider) in
                ret Neutral
          end
      end
  end.
Definition receive_webhook (provider : ConnectorProvider) (route_key : string) (rq : WebhookRequest) : M WebhookResponse :=
  public_route (receive_webhook_in provider route_key rq).
End webhooks.

(** ** Who sent it *)

(** The request gives [secret] for the subscription that the provider calls [id]. *)
Definition presents (provider : ConnectorProvider) (rq : WebhookRequest) (id secret : string) : Prop :=
  match provider with
  | CONNECTOR_MICROSOFT => exists body items item, loads (wq_body rq) = Ok (JObj body) /\
      dict_get "value" body = Some (JList items) /\ In (JObj item) items /\
      dict_get "clientState" item = Some (JStr secret) /\ py_show false (default (JStr "") (dict_get "subscriptionId" item)) = id
  | CONNECTOR_GOOGLE => header rq "x-goog-channel-token" = Some secret /\ secret <> EmptyString /\
      default EmptyString (header rq "x-goog-channel-id") = id /\ header rq "x-goog-resource-state" <> Some "sync"
  end.
Definition authentic (provider : ConnectorProvider) (rq : WebhookRequest) (sb : ConnectorSubscription) : Prop :=
  exists secret, presents provider rq (sb_provider_subscription_id sb) secret /\ hash_token secret = sb_client_state_hash sb.

Lemma subscription_of_Some rows id sb : subscription_of rows id = Some sb -> In sb rows /\ sb_provider_subscription_id sb = id.
Proof. unfold subscription_of. intros [H E]%first_where_Some. rewrite <- in_rev in H. by bool_hyps. Qed.

Lemma notifications_authentic provider rows rq n :
  In n match provider with CONNECTOR_MICROSOFT => graph_notifications rows rq | CONNECTOR_GOOGLE => google_notifications rows rq end ->
  In (nt_subscription n) rows /\ authentic provider rq (nt_subscription n).
Proof.
  destruct provider.
  - unfold google_notifications. destruct (subscription_of rows _) as [sb|] eqn:Es; [| done].
    apply subscription_of_Some in Es as [Hin Hid].
    destruct (header rq "x-goog-channel-token") as [secret|] eqn:Et; simpl; [| done].
    destruct (str_eqb secret "") eqn:E0; simpl; [done |]. destruct (str_eqb (hash_token secret) _) eqn:Eh; simpl; [| done].
    destruct (str_eqb (default _ (header rq "x-goog-resource-state")) "sync") eqn:E1; [done |]. intros [<-|[]]. simpl. bool_hyps.
    split; [done |]. exists secret. split; [| done]. split; [done |]. split; [done |]. split; [done |].
    intros H. by rewrite H in E1.
  - unfold graph_notifications. destruct (loads (wq_body rq)) as [[| | | | | |body]|] eqn:El; try done.
    destruct (dict_get "value" body) as [[| | | | |items|]|] eqn:Ev; simpl; try done.
    intros (item & Hi & Hn)%in_flat_map. unfold graph_notification in Hn. destruct item as [| | | | | |m]; try done.
    destruct (subscription_of rows _) as [sb|] eqn:Es; [| done]. apply subscription_of_Some in Es as [Hin Hid].
    destruct (dict_get "clientState" m) as [[| | | |secret| |]|] eqn:Ec; try done. simpl in Hn.
    destruct (str_eqb (hash_token secret) _) eqn:Eh; simpl in Hn; [| done]. destruct Hn as [<-|[]]. simpl. bool_hyps.
    split; [done |]. exists secret. split; [| done]. by exists body, items, m.
Qed.

Section properties.
Context {P : Platform}.
Implicit Types (w : World).

Lemma dispatch_run tenant route provider l w :
  for_each l (dispatch_notification tenant route provider) w =
  (Ok tt, set_out (w_out w ++ List.map (fun n => event_task (tn_slug tenant) (wr_connection_id route) (ConnectorProvider_value provider)
             (sb_capability (nt_subscription n)) (nt_change_type n) (nt_resource_id n)) l) w).
Proof.
  revert w. induction l as [|n l IH]; intros w; simpl.
  - rewrite app_nil_r. by destruct w.
  - unfold dispatch_notification at 1, enqueue_event. run. rewrite IH. simpl. by rewrite <- app_assoc.
Qed.

(** C15: only authentic notifications have an effect, and none can tell. The route
    answers the validation handshake with its token, and everything else with
    the same neutral response, whatever it found; it writes nothing. It publishes
    an event only for a route of that key and provider whose tenant is active,
    and only for a subscription of that tenant and connection for which the
    request presents the secret whose hash is stored. *)
Theorem webhooks_are_authenticated provider route_key rq w : quiet w ->
  let '(r, w') := receive_webhook provider route_key rq w in
  w_db w' = w_db w /\
  match item_of "validationToken" (wq_query rq) with
  | Some token => r = Ok (PlainText token) /\ w_out w' = w_out w
  | None => r = Ok Neutral /\ exists events, w_out w' = w_out w ++ events /\
      forall event, In event events -> exists route tenant n,
        In route (w_db w WebhookRoutes) /\ wr_route_key route = route_key /\ wr_provider route = ConnectorProvider_value provider /\
        In tenant (w_db w Tenants) /\ tn_id tenant = wr_tenant_id route /\ tn_state tenant = ACTIVE /\ tn_deleted_at tenant = None /\
        In (nt_subscription n) (w_db w Subscriptions) /\ sb_tenant_id (nt_subscription n) = tn_id tenant /\
        sb_connection_id (nt_subscription n) = wr_connection_id route /\ authentic provider rq (nt_subscription n) /\
        event = event_task (tn_slug tenant) (wr_connection_id route) (ConnectorProvider_value provider)
                  (sb_capability (nt_subscription n)) (nt_change_type n) (nt_resource_id n)
  end.
Proof.
  intros Hq. unfold receive_webhook. open_route w Hq. revert Hm.
  assert (Hd : w_db w0 = w_db w) by apply Hw. assert (Ho : w_out w0 = w_out w) by apply Hw.
  unfold receive_webhook_in. destruct (item_of "validationToken" (wq_query rq)) as [token|].
  { intros [= <- <-]. by repeat split. }
  assert (Hnone : forall r1 w1, (Ok Neutral, w0) = (r1, w1) -> w_db (closed Ctl w1) = w_db w /\ r1 = Ok Neutral /\
    exists events, w_out (closed Ctl w1) = w_out w ++ events /\ forall event : effect, In event events -> False).
  { intros r1 w1 [= <- <-]. split; [done |]. split; [done |]. exists []. by rewrite app_nil_r. }
  assert (Hnone' : forall r1 w1 (Q : effect -> Prop), (Ok Neutral, w0) = (r1, w1) -> w_db (closed Ctl w1) = w_db w /\ r1 = Ok Neutral /\
    exists events, w_out (closed Ctl w1) = w_out w ++ events /\ forall event : effect, In event events -> Q event).
  { intros r1 w1 Q E. destruct (Hnone r1 w1 E) as (E1 & E2 & ev & E3 & E4). do 2 (split; [done |]). exists ev. split; [done |].
    intros e He. by destruct (E4 e He). }
  clear Hnone. run. rewrite Hs. case_query as [route|] Er; [| run; apply Hnone']. apply first_where_Some in Er as [Hr Er]. bool_hyps.
  run. rewrite Hs. case_query as [tenant|] Et; [| run; apply Hnone']. apply first_where_Some in Et as [Ht Et]. bool_hyps.
  destruct (bool_decide (tn_state tenant = ACTIVE)) eqn:Ea; cbn [negb orb]; [| apply Hnone'].
  destruct (tn_deleted_at tenant) eqn:Ed; cbn [is_some]; [apply Hnone' |]. bool_hyps.
  set (ctx := {| tc_tenant_id := tn_id tenant; tc_slug := _; tc_role := _ |}).
  unfold tenant_context, get_tenant_session, with_session, push_tenant, _validated_notifications.
  unfold bind at 1 2, finally at 1, bind at 1, current_tenant. cbn [set_tenant w_tenant]. unfold finally at 1.
  set (w1 := closed (Own 0) (set_tenant (Some ctx) w0)).
  assert (Hs1 : sees w1 (Own 0) = w_db w0) by exact (sees_closed (set_tenant (Some ctx) w0) (Own 0)).
  unfold bind at 1. rewrite (scalars_scoped (Own 0) Subscriptions _ w1 ctx) by done. rewrite Hs1.
  unfold ret at 1. cbn beta iota. set (l := match provider with CONNECTOR_GOOGLE => _ | CONNECTOR_MICROSOFT => _ end).
  unfold bind. rewrite dispatch_run. unfold ret. intros [= <- <-]. split; [done |]. split; [done |].
  eexists. split; [simpl; by rewrite Ho |]. intros event (n & <- & Hn)%List.in_map_iff.
  unfold l in Hn. assert (Hn' : In (nt_subscription n) (rows_where (fun sb => owned_by (tn_id tenant) Subscriptions sb &&
      (sb_connection_id sb =? wr_connection_id route)%N) (w_db w0 Subscriptions)) /\ authentic provider rq (nt_subscription n)).
  { apply notifications_authentic. destruct provider; exact Hn. }
  destruct Hn' as [[Hin Hown]%in_rows_where Hau]. unfold owned_by in Hown. simpl in Hown. bool_hyps. rewrite Hd in Hin.
  exists route, tenant, n. by repeat (split; [done |]).
Qed.
End properties.

(** Google's channel of Acme's connection. *)
Definition acme_channel : ConnectorSubscription := {| sb_id := 1; sb_tenant_id := 1; sb_connection_id := 7; sb_capability := "calendar";
  sb_provider_subscription_id := "channel-1"; sb_resource := "calendar/primary/events"; sb_expires_at := t0;
  sb_client_state_hash := hash_token "channel-secret"; sb_provider_data := [] |}.
Definition acme_route : WebhookRoute := {| wr_id := 1; wr_route_key := "key-1"; wr_provider := "google"; wr_tenant_id := 1; wr_connection_id := 7 |}.
Definition channel_db : Db := upd Subscriptions (fun _ => [acme_channel]) (upd WebhookRoutes (fun _ => [acme_route]) sample_db).
Definition channel_call : WebhookRequest := {| wq_body := ""; wq_query := [];
  wq_headers := [("x-goog-channel-id", "channel-1"); ("x-goog-channel-token", "channel-secret"); ("x-goog-resource-state", "exists")] |}.

Lemma webhooks_are_authenticated_witness :
  let '(r, w') := receive_webhook (P := test_platform) CONNECTOR_GOOGLE "key-1" channel_call (set_db channel_db sample_world) in
  r = Ok Neutral /\ w_out w' = [event_task "acme" 7 "google" "calendar" "exists" None] /\
  exists sb, In sb [acme_channel] /\ authentic CONNECTOR_GOOGLE channel_call sb.
Proof.
  pose proof (webhooks_are_authenticated (P := test_platform) CONNECTOR_GOOGLE "key-1" channel_call (set_db channel_db sample_world) (conj (fun _ => eq_refl) eq_refl)) as H.
  destruct (receive_webhook (P := test_platform) CONNECTOR_GOOGLE "key-1" channel_call (set_db channel_db sample_world)) as [r w'] eqn:E.
  assert (Ho : w_out w' = [event_task "acme" 7 "google" "calendar" "exists" None])
    by (apply (f_equal (fun x => w_out x.2)) in E; vm_compute in E; symmetry; exact E).
  clear E. destruct H as (_ & Hr & events & He & H). split; [exact Hr |]. split; [exact Ho |].
  rewrite He in Ho. simpl in Ho. destruct (H (event_task "acme" 7 "google" "calendar" "exists" None)) as (_ & _ & n & _ & _ & _ & _ & _ & _ & _ & Hin & _ & _ & Hau & _).
  - rewrite Ho. left. reflexivity.
  - exists (nt_subscription n). split; [exact Hin | exact Hau].
Defined.
