(* ===== verification/Subscriptions.v ===== *)
(** [app/connectors/subscriptions.py]: creating and renewing the webhook
    subscriptions at the providers. *)
From S2P Require Import Prelude PyStr Hashing Base64 Json Config Tokens Models Permissions World Uuid Sample Orm Deps Edge Journal Frame Http Directory Dates Iso Policy Providers Throttle Rely ConnectorTokens.

Definition hour_us : Z := 3600 * second.
Definition RENEWAL_LEAD : Z := 24 * hour_us.
Definition _GRAPH_RESOURCES : list (string * string) :=
  [(CAPABILITY_MAIL, "/me/messages"); (CAPABILITY_CALENDAR, "/me/events")].

(** ** Instants as the providers write them *)

Fixpoint leading_digits (s : string) : nat :=
  match s with String c s' => if is_digit c then S (leading_digits s') else O | EmptyString => O end.
(** [re.sub(r"\.(\d{6})\d+", r".\1", s)]: [kept] counts the digits still to keep of
    the fraction being read. *)
Fixpoint trim_fraction (kept : option nat) (s : string) : string :=
  match s with
  | EmptyString => EmptyString
  | String c s' =>
      let plain := if char_eqb c "." && (7 <=? leading_digits s')%nat then String c (trim_fraction (Some 6%nat) s')
                   else String c (trim_fraction None s') in
      match kept with
      | None => plain
      | Some (S k) => String c (trim_fraction (Some k) s')
      | Some O => if is_digit c then trim_fraction (Some O) s' else plain
      end
  end.
Definition removesuffix (s suffix : string) : string :=
  if endswith s suffix then String.substring 0 (String.length s - String.length suffix) s else s.

(** The forms Graph uses: an offset, [Z], or none, which is read as UTC. *)
Definition parse_graph_datetime {IF : IsoFormats} (value : string) : result Z :=
  let trimmed := trim_fraction None value in
  match parse_iso trimmed, parse_iso (removesuffix trimmed "Z" +:+ "+00:00"), other_iso trimmed with
  | Some t, _, _ | None, Some t, _ | None, None, Some t => Ok t
  | None, None, None => Raise (ValueError ("Invalid isoformat string: " +:+ py_repr trimmed))
  end.

Example graph_fraction : parse_graph_datetime (IF := {| other_iso _ := None |}) "1970-01-02T00:00:01.1234567Z" = Ok (86401123456).
Proof. reflexivity. Qed.
Example graph_naive : parse_graph_datetime (IF := {| other_iso _ := None |}) "1970-01-02T00:00:01.5000000" = Ok (86401500000).
Proof. reflexivity. Qed.

(** Google counts milliseconds. *)
Definition _parse_expiration {IF : IsoFormats} (value : option json) (default_ : Z) : result Z :=
  match as_str value with
  | Some text =>
      if str_eqb text "" then Ok default_
      else if all_chars is_digit text then
        match int10 text with Some ms => Ok (ms * 1000) | None => Raise (ValueError "invalid literal for int() with base 10") end
      else parse_graph_datetime text
  | None => Ok default_
  end.

(** [t.strftime("%Y-%m-%dT%H:%M:%SZ")] *)
Definition graph_stamp (t : Z) : string :=
  let d := civil (day_of t) in
  let secs := (t mod day) / second in
  digits 4 (year d) +:+ "-" +:+ digits 2 (month d) +:+ "-" +:+ digits 2 (mday d) +:+ "T" +:+
  digits 2 (secs / 3600) +:+ ":" +:+ digits 2 (secs / 60 mod 60) +:+ ":" +:+ digits 2 (secs mod 60) +:+ "Z".

Definition with_expiry (t : Z) (sb : ConnectorSubscription) : ConnectorSubscription := {|
  sb_id := sb_id sb; sb_tenant_id := sb_tenant_id sb; sb_connection_id := sb_connection_id sb; sb_capability := sb_capability sb;
  sb_provider_subscription_id := sb_provider_subscription_id sb; sb_resource := sb_resource sb; sb_expires_at := t;
  sb_client_state_hash := sb_client_state_hash sb; sb_provider_data := sb_provider_data sb |}.

Section subscriptions.
Context {P : Platform} {OT : Others} {HX : Httpx} {FL : Floats} {IF : IsoFormats}.

Definition webhook_url (provider : ConnectorProvider) (route_key : string) : string :=
  connector_webhook_base +:+ "/api/v1/webhooks/" +:+ ConnectorProvider_value provider +:+ "/" +:+ route_key.

Definition _create_google_channel (s : sess) (connection : ConnectorConnection) (route_key : string) :
    M (ConnectorConnection * ConnectorSubscription) :=
  let manifest := _register (cn_provider connection) in
  let* random := random_bytes TOKEN_BYTES in
  let client_state := generate_token random in
  let* u := uuid4 in
  let channel_id := uuid_str u in
  let ttl_seconds := pm_subscription_ttl_hours manifest * 3600 in
  let* (connection, access_token) := fresh_access_token s connection in
  let* response := provider_http_request manifest connection "POST"
    (pm_api_base_url manifest +:+ "/calendar/v3/calendars/primary/events/watch") access_token
    (Some (JObj [("id", JStr channel_id); ("type", JStr "web_hook");
                 ("address", JStr (webhook_url (cn_provider connection) route_key)); ("token", JStr client_state);
                 ("params", JObj [("ttl", JStr (show_Z ttl_seconds))])])) [] in
  let* payload := of_result (response_json response) in
  let* expiration := of_result (json_get payload "expiration") in
  let* t := now in
  let* expires_at := of_result (_parse_expiration expiration (t + ttl_seconds * second)) in
  let* resource_id := of_result (json_get payload "resourceId") in
  let* id := uuid4 in
  let* subscription := add s Subscriptions {|
    sb_id := id; sb_tenant_id := 0; sb_connection_id := cn_id connection; sb_capability := CAPABILITY_CALENDAR;
    sb_provider_subscription_id := channel_id; sb_resource := "calendar/primary/events"; sb_expires_at := expires_at;
    sb_client_state_hash := hash_token client_state;
    sb_provider_data := [("resource_id", JStr (py_show false (default (JStr "") resource_id)))] |} in
  ret (connection, subscription).

(** Best effort; what [connection] has become is of no use to the caller. *)
Definition _stop_google_channel (s : sess) (connection : ConnectorConnection) (subscription : ConnectorSubscription) : M unit :=
  let manifest := _register (cn_provider connection) in
  catch (let* (connection, access_token) := fresh_access_token s connection in
         let* _ := provider_http_request manifest connection "POST" (pm_api_base_url manifest +:+ "/calendar/v3/channels/stop") access_token
           (Some (JObj [("id", JStr (sb_provider_subscription_id subscription));
                        ("resourceId", default (JStr "") (dict_get "resource_id" (sb_provider_data subscription)))])) [] in
         ret tt)
    (fun _ => Some (ret tt)).

Definition _create_graph_subscription (s : sess) (connection : ConnectorConnection) (route_key capability : string) :
    M (ConnectorConnection * ConnectorSubscription) :=
  let manifest := _register (cn_provider connection) in
  let* random := random_bytes TOKEN_BYTES in
  let client_state := generate_token random in
  let* t := now in
  let expires_at := t + pm_subscription_ttl_hours manifest * hour_us in
  let* (connection, access_token) := fresh_access_token s connection in
  let* resource := of_result match item_of capability _GRAPH_RESOURCES with Some r => Ok r | None => Raise KeyError end in
  let* response := provider_http_request manifest connection "POST" (pm_api_base_url manifest +:+ "/subscriptions") access_token
    (Some (JObj [("changeType", JStr "created,updated"); ("notificationUrl", JStr (webhook_url (cn_provider connection) route_key));
                 ("resource", JStr resource); ("expirationDateTime", JStr (graph_stamp expires_at)); ("clientState", JStr client_state)])) [] in
  let* payload := of_result (response_json response) in
  let* sub_id := of_result (json_get payload "id") in
  let* expiration := of_result (json_get payload "expirationDateTime") in
  let* expiry := of_result (_parse_expiration expiration expires_at) in
  let* id := uuid4 in
  let* subscription := add s Subscriptions {|
    sb_id := id; sb_tenant_id := 0; sb_connection_id := cn_id connection; sb_capability := capability;
    sb_provider_subscription_id := py_show false (default (JStr "") sub_id); sb_resource := resource; sb_expires_at := expiry;
    sb_client_state_hash := hash_token client_state; sb_provider_data := [] |} in
  ret (connection, subscription).

(** One turn of the loop over the capabilities. *)
Definition ensure_one (s : sess) (existing : list string) (route_key : string) (connection : ConnectorConnection) (capability : string) :
    M ConnectorConnection :=
  if str_in capability existing then ret connection
  else
    match cn_provider connection with
    | CONNECTOR_GOOGLE =>
        if str_eqb capability CAPABILITY_MAIL then ret connection
        else let* r := _create_google_channel s connection route_key in ret r.1
    | CONNECTOR_MICROSOFT =>
        let* r := _create_graph_subscription s connection route_key capability in ret r.1
    end.
Fixpoint ensure_all (s : sess) (existing : list string) (route_key : string) (connection : ConnectorConnection) (wanted : list string) :
    M ConnectorConnection :=
  match wanted with
  | [] => ret connection
  | capability :: wanted' =>
      let* connection := ensure_one s existing route_key connection capability in
      ensure_all s existing route_key connection wanted'
  end.
Definition ensure_subscriptions (s : sess) (connection : ConnectorConnection) (route_key : string) : M unit :=
  let* rows := scalars s Subscriptions (fun sb => (sb_connection_id sb =? cn_id connection)%N) in
  let* _ := ensure_all s (List.map sb_capability rows) route_key connection (order_by String.leb (granted_capabilities connection)) in
  ret tt.

Definition renew_subscription (s : sess) (connection : ConnectorConnection) (subscription : ConnectorSubscription) (route_key : string) : M unit :=
  let manifest := _register (cn_provider connection) in
  match cn_provider connection with
  | CONNECTOR_MICROSOFT =>
      let* t := now in
      let expires_at := t + pm_subscription_ttl_hours manifest * hour_us in
      let* (connection, access_token) := fresh_access_token s connection in
      let* _ := provider_http_request manifest connection "PATCH"
        (pm_api_base_url manifest +:+ "/subscriptions/" +:+ sb_provider_subscription_id subscription) access_token
        (Some (JObj [("expirationDateTime", JStr (graph_stamp expires_at))])) [] in
      modify s Subscriptions subscription (with_expiry expires_at)
  | CONNECTOR_GOOGLE =>
      let* (connection, _) := _create_google_channel s connection route_key in
      let* _ := _stop_google_channel s connection subscription in
      remove s Subscriptions subscription
  end.
End subscriptions.
