(* ===== verification/Stable.v ===== *)
(** What a program leaves alone: a part [f] of the world that reading, writing,
    committing and calling out do not touch is the same afterwards. The rules
    follow the shape of the code; [stable_code] applies them. *)
From S2P Require Import Prelude PyStr Hashing Base64 Json Config Tokens Models Permissions World Uuid Orm AuthService Deps Edge Journal Frame Http Directory Policy Providers Throttle ConnectorTokens.

Section stable.
Context {P : Platform} {X : Type}.
Variable f : World -> X.

Definition stable {A} (m : M A) : Prop := forall w, f (m w).2 = f w.

(** [f] looks neither at the tables nor at what is sent out, drawn or cached
    outside, and a tenant context that is taken away leaves it as it was. *)
Class Inert : Prop := {
  inert_db d w : f (set_db d w) = f w;
  inert_pend s g w : f (set_pend s g w) = f w;
  inert_drawn n w : f (set_drawn n w) = f w;
  inert_out o w : f (set_out o w) = f w;
  inert_kv k w : f (set_kv k w) = f w;
  inert_context ctx w w' : f w' = f (set_tenant ctx w) -> f (set_tenant (w_tenant w) w') = f w
}.
Context {IN : Inert}.

Lemma stable_ret {A} (a : A) : stable (ret a).
Proof. done. Qed.
Lemma stable_raise {A} e : stable (raise (A := A) e).
Proof. done. Qed.
Lemma stable_of_result {A} (r : result A) : stable (of_result r).
Proof. done. Qed.
Lemma stable_now : stable now.
Proof. done. Qed.
Lemma stable_view s : stable (view s).
Proof. done. Qed.
Lemma stable_current_tenant : stable current_tenant.
Proof. intros w. unfold current_tenant. by destruct (w_tenant w). Qed.
Lemma stable_draw : stable draw.
Proof. intros w. apply inert_drawn. Qed.
Lemma stable_uuid4 : stable uuid4.
Proof. intros w. apply inert_drawn. Qed.
Lemma stable_random_bytes n : stable (random_bytes n).
Proof. intros w. apply inert_drawn. Qed.
Lemma stable_emit e : stable (emit e).
Proof. intros w. apply inert_out. Qed.
Lemma stable_write s g : stable (write s g).
Proof. intros w. apply inert_pend. Qed.
Lemma stable_commit s : stable (commit s).
Proof. intros w. unfold commit. simpl. by rewrite inert_pend, inert_db. Qed.

Lemma stable_bind {A B} (m : M A) (k : A -> M B) : stable m -> (forall a, stable (k a)) -> stable (bind m k).
Proof.
  intros Hm Hk w. unfold bind. specialize (Hm w). destruct (m w) as [[a|e] w1]; simpl in *; [| done]. rewrite <- Hm. apply Hk.
Qed.
Lemma stable_catch {A} (m : M A) h : stable m -> (forall e k, h e = Some k -> stable k) -> stable (catch m h).
Proof.
  intros Hm Hh w. unfold catch. specialize (Hm w). destruct (m w) as [[a|e] w1]; simpl in *; [done |].
  destruct (h e) as [k|] eqn:E; [| done]. rewrite <- Hm. by apply (Hh e).
Qed.
Lemma stable_finally {A} (m : M A) g : stable m -> (forall w, f (g w) = f w) -> stable (finally m g).
Proof. intros Hm Hg w. unfold finally. specialize (Hm w). destruct (m w) as [r w1]. simpl in *. by rewrite Hg. Qed.
Lemma stable_with_session {A} s (m : M A) : stable m -> stable (with_session s m).
Proof.
  intros Hm w. etransitivity; [apply (stable_finally m (closed s) Hm) |]; [intros w1|]; apply inert_pend.
Qed.
Lemma stable_get_tenant_session {A} s (m : M A) : stable m -> stable (get_tenant_session s m).
Proof. intros Hm. apply stable_bind; [apply stable_current_tenant |]. intros _. by apply stable_with_session. Qed.
Lemma stable_tenant_context {A} ctx (m : M A) : stable m -> stable (tenant_context ctx m).
Proof.
  intros Hm w. unfold tenant_context, push_tenant, bind, finally, pop_tenant. specialize (Hm (set_tenant (Some ctx) w)).
  destruct (m _) as [r w1]. simpl in *. by apply (inert_context (Some ctx)).
Qed.
Lemma stable_for_each {A} (l : list A) g : (forall a, stable (g a)) -> stable (for_each l g).
Proof. intros H. induction l as [|a l IH]; [done |]. simpl. by apply stable_bind. Qed.

(** ** Sessions *)
Lemma stable_guard k t : stable (_guard_orm_execute (statement_on k t)).
Proof.
  intros w. destruct (scoped t) eqn:E; [| by rewrite guard_unscoped].
  unfold _guard_orm_execute, _touches_scoped_mapper. simpl. rewrite E. simpl.
  destruct k; try done; unfold bind, current_tenant; by destruct (w_tenant w) eqn:?.
Qed.
Lemma stable_scalar s t p : stable (scalar s t p).
Proof. apply stable_bind; [apply stable_guard |]. intros c. by apply stable_bind. Qed.
Lemma stable_scalars s t p : stable (scalars s t p).
Proof. apply stable_bind; [apply stable_guard |]. intros c. by apply stable_bind. Qed.
Lemma stable_touched t r : stable (guard_flush_touched t r).
Proof.
  unfold guard_flush_touched. destruct (scoped t); [| done]. apply stable_bind; [apply stable_current_tenant |]. intros c. by destruct (negb _).
Qed.
Lemma stable_modify s t r g : stable (modify s t r g).
Proof. apply stable_bind; [apply stable_touched |]. intros _. apply stable_write. Qed.
Lemma stable_remove s t r : stable (remove s t r).
Proof. apply stable_bind; [apply stable_touched |]. intros _. apply stable_write. Qed.
Lemma stable_add s t r : stable (add s t r).
Proof.
  unfold add, add_as, guard_flush_new. apply stable_bind.
  - destruct (scoped t); [| done]. by apply stable_bind; [apply stable_current_tenant |].
  - intros r'. apply stable_bind; [done |]. intros d. destruct (existsb _ _); [done |]. by apply stable_bind; [apply stable_write |].
Qed.
Lemma stable_session_refresh s t (r : row t) : stable (session_refresh s t r).
Proof. unfold session_refresh. do 2 (apply stable_bind; [done |]; intros ?). by case_match. Qed.
Lemma stable_record s a rt ri p u l : stable (record_audit_event s a rt ri p u l).
Proof.
  unfold record_audit_event. apply stable_bind; [apply stable_uuid4 |]. intros id. apply stable_bind; [done |]. intros t.
  exact (stable_add s AuditEvents _).
Qed.
Lemma stable_record_for own tenant a rt ri p u l : stable (record_audit_event_for_tenant own tenant a rt ri p u l).
Proof. apply stable_tenant_context, stable_get_tenant_session, stable_bind; [apply stable_record |]. intros _. apply stable_commit. Qed.
Lemma stable_http {HX : Httpx} rq : stable (http_send rq).
Proof. intros w. unfold http_send. destruct (http_answer _ _ _); apply inert_out. Qed.

(** ** Locks and budgets *)
Lemma stable_acquire n t : stable (acquire_lock n t).
Proof.
  apply stable_bind; [apply stable_uuid4 |]. intros u. apply stable_bind; [| done]. intros w. unfold set_nx.
  destruct (kv_look _ _ _); [done | apply inert_kv].
Qed.
Lemma stable_release n t : stable (release_lock n t).
Proof.
  apply stable_bind; [by apply stable_bind |]. intros [|]; [intros w; apply inert_kv | done].
Qed.
Lemma stable_budget m c : stable (_budget_delay m c).
Proof.
  unfold _budget_delay. apply stable_bind.
  - intros w. unfold RateLimit.incr. destruct (kv_look _ _ _) as [[[z|s] d]|]; first [done | apply inert_kv].
  - intros n. apply stable_bind; [destruct (n =? 1); [intros w; apply inert_kv | done] |]. intros _. destruct (_ <? n); [| done]. by apply stable_bind.
Qed.

(** ** Code that may sleep *)
Context {OT : Others}.
Hypothesis timeless : forall t w, f (set_now t w) = f w.

Lemma stable_sleep d : stable (_sleep d).
Proof. intros w. unfold _sleep. simpl. by rewrite inert_kv, inert_db, timeless. Qed.
Lemma stable_attempts {A} m c (attempt : M A) left : stable attempt -> stable (attempts m c attempt left).
Proof.
  intros Ha. induction left as [|left IH]; [done |]. cbn [attempts]. apply stable_bind; [apply stable_budget |].
  intros bw. apply stable_bind; [destruct bw; [apply stable_sleep | done] |]. intros _. apply stable_catch; [done |].
  intros e k. destruct e; try done. destruct (retryable _); [| done]. intros [= <-]. apply stable_bind.
  - destruct retry_after; [done |]. by apply stable_bind; [apply stable_draw |].
  - intros d. apply stable_bind; [apply stable_sleep | done].
Qed.
Lemma stable_wait n : stable (wait_for_lock n).
Proof.
  unfold wait_for_lock. induction LOCK_ATTEMPTS as [|left IH]; [done |]. cbn [wait_attempts].
  apply stable_bind; [apply stable_acquire |]. intros [t|]; [done |]. apply stable_bind; [apply stable_sleep | done].
Qed.
End stable.

Create HintDb stable.
#[export] Hint Resolve stable_ret stable_raise stable_of_result stable_now stable_view stable_current_tenant stable_draw stable_uuid4
  stable_random_bytes stable_emit stable_commit stable_session_refresh stable_record stable_record_for stable_http
  stable_acquire stable_release : stable.

Ltac stable_code :=
  repeat (cbn zeta beta; match goal with
  | |- stable _ (bind _ _) => apply stable_bind; [| intros ?]
  | |- stable _ (with_session _ _) => apply stable_with_session; [exact _ |]
  | |- stable _ (get_tenant_session _ _) => apply stable_get_tenant_session; [exact _ |]
  | |- stable _ (tenant_context _ _) => apply stable_tenant_context; [exact _ |]
  | |- stable _ (for_each _ _) => apply stable_for_each; intros ?
  | |- stable ?f (scalar ?s ?t ?p) => exact (stable_scalar f s t p)
  | |- stable ?f (scalars ?s ?t ?p) => exact (stable_scalars f s t p)
  | |- stable ?f (modify ?s ?t ?r ?g) => exact (stable_modify f s t r g)
  | |- stable ?f (remove ?s ?t ?r) => exact (stable_remove f s t r)
  | |- stable ?f (add ?s ?t ?r) => exact (stable_add f s t r)
  | |- stable ?f (session_refresh ?s ?t ?r) => exact (stable_session_refresh f s t r)
  | |- stable _ (match ?x with _ => _ end) => destruct x
  | |- stable _ _ => solve [assumption | eauto 2 with stable typeclass_instances]
  end).

(** ** The tokens of a connection *)

Section tokens.
Context {P : Platform} {X : Type} (f : World -> X) {IN : Inert f}.
Context {OT : Others} {HX : Httpx} {FL : Floats}.
Hypothesis timeless : forall t w, f (set_now t w) = f w.

Lemma stable_apply_bundle b : stable f (apply_token_bundle b).
Proof. unfold apply_token_bundle, encrypt_token. stable_code. Qed.
Lemma stable_guarded_grant s m c : stable f (guarded_grant s m c).
Proof.
  assert (Hg : forall rt, stable f (refresh_token_grant m rt)) by (intros rt; unfold refresh_token_grant, http_post; stable_code).
  unfold guarded_grant, refresh_grant, run_with_backoff. apply stable_catch.
  - stable_code. by apply stable_attempts.
  - intros e k. destruct e; intros [= <-]; stable_code.
Qed.
Lemma stable_refresh_connection s c block : stable f (refresh_connection s c block).
Proof.
  assert (Hl : forall c token, stable f (refresh_locked s c token)).
  { intros c' token. unfold refresh_locked. apply stable_bind.
    - apply stable_finally; [apply stable_guarded_grant | intros w; by apply stable_release].
    - pose proof stable_apply_bundle. intros [b|c'']; stable_code; auto. }
  unfold refresh_connection. pose proof (stable_wait f timeless). stable_code; auto.
Qed.
Lemma stable_fresh_access_token s c : stable f (fresh_access_token s c).
Proof. unfold fresh_access_token. pose proof (stable_refresh_connection s). stable_code; auto. Qed.
Lemma stable_graph_request s c meth path body ps : stable f (graph_request s c meth path body ps).
Proof.
  unfold graph_request, provider_http_request, run_with_backoff. apply stable_bind; [apply stable_fresh_access_token |].
  intros [c' tok]. apply stable_bind; [| intros r; apply stable_ret]. apply stable_bind; [| intros r; stable_code].
  apply stable_attempts; [done | done |]. unfold provider_attempt. stable_code.
Qed.
End tokens.
