(* ===== verification/Mail.v ===== *)
(** [app/connectors/providers/*/mail.py]: the mail capability of the two providers
    behind one normalised model, and the loops that absorb their pagination.

    Graph is called over HTTP; Gmail through Google's SDK, whose calls are an
    interface, as are the parts of Python's [email] package that read addresses
    and write MIME. A loop over pages is given the number of pages it may still
    read; [None] says that it has not ended. *)
From S2P Require Import Prelude PyStr Hashing Base64 Json Config Tokens Models Permissions World Uuid Sample Orm Deps Edge Journal Frame Http Dates Iso Policy Providers Throttle Rely ConnectorTokens Subscriptions.

Record EmailMessage := {
  em_provider_raw_id : string; em_subject : string; em_sender : string; em_recipients : list string; em_snippet : string;
  em_received_at : option Z }.
Record EmailDraft := { ed_to : list string; ed_cc : list string; ed_subject : string; ed_body_text : string }.

(** [email.utils.parseaddr], [getaddresses], and the bytes of a message with these headers. *)
Class EmailLib := {
  parseaddr : string -> string * string;
  getaddresses : list string -> list (string * string);
  mime_bytes : list (string * string) -> string -> bytes
}.

(** A call of the Gmail client, and what [execute()] gives. *)
Inductive GmailCall :=
  | MessagesList (label : string) (q : option string) (max_results : Z) (page_token : json)
  | MessagesGet (id : json)
  | MessagesSend (raw : string).
Inductive SdkAnswer := SdkBody (body : json) | SdkHttpError (status_code : Z) | SdkError (e : exn).
(** By access token, instant and number of calls so far. *)
Class GmailSdk := { gmail_answer : GmailCall -> string -> Z -> nat -> SdkAnswer }.

(** [s.upper()], for the letters whose capital is in the same range. *)
Definition upper_char (c : ascii) : ascii :=
  if is_lower_ascii c || (in_range 224 254 c && negb (code c =? 247)%N) then ascii_of_N (code c - 32) else c.
Definition upper (s : string) : string := map_str upper_char s.

(** [for x in v] over a decoded value. *)
Definition json_iter (v : json) : result (list json) :=
  match v with
  | JList l => Ok l
  | JObj m => Ok (List.map (fun kv => JStr kv.1) m)
  | JStr s => Ok (List.map (fun c => JStr (String c EmptyString)) (String.list_ascii_of_string s))
  | _ => Raise TypeError
  end.
Definition text_of (default_ : json) (v : option json) : string := py_show false (default default_ v).
Definition first_n {A} (limit : Z) (l : list A) : list A := take (Z.to_nat limit) l.

Section mail.
Context {P : Platform} {OT : Others} {HX : Httpx} {FL : Floats} {IF : IsoFormats} {EL : EmailLib} {GM : GmailSdk}.

(** ** Microsoft *)

Definition address_of (node : json) : string :=
  match node with
  | JObj m => match default (JObj []) (dict_get "emailAddress" m) with JObj email => text_of (JStr "") (dict_get "address" email) | _ => EmptyString end
  | _ => EmptyString
  end.
Definition graph_message_to_email (payload : json) : result EmailMessage :=
  let! received := json_get payload "receivedDateTime" in
  let! id := json_item payload "id" in
  let! subject := json_get payload "subject" in
  let! from := json_get payload "from" in
  let! recipients := json_get payload "toRecipients" in
  let! nodes := json_iter (default (JList []) recipients) in
  let! preview := json_get payload "bodyPreview" in
  let! received_at := (if truthy (default JNull received) then let! t := parse_graph_datetime (text_of JNull received) in Ok (Some t) else Ok None) in
  Ok {| em_provider_raw_id := py_show false id; em_subject := text_of (JStr "") subject; em_sender := address_of (default JNull from);
        em_recipients := List.filter (fun a => negb (str_eqb a "")) (List.map address_of nodes);
        em_snippet := text_of (JStr "") preview; em_received_at := received_at |}.

Definition recipients_json (addresses : list string) : json :=
  JList (List.map (fun a => JObj [("emailAddress", JObj [("address", JStr a)])]) addresses).
Definition draft_to_graph_message (draft : EmailDraft) : json :=
  JObj [("message", JObj ([("subject", JStr (ed_subject draft));
                           ("body", JObj [("contentType", JStr "Text"); ("content", JStr (ed_body_text draft))]);
                           ("toRecipients", recipients_json (ed_to draft))] ++
                          match ed_cc draft with [] => [] | cc => [("ccRecipients", recipients_json cc)] end));
        ("saveToSentItems", JBool true)].

(** The [while] of [list_messages], with at most [fuel] more pages. *)
Fixpoint graph_pages (fuel : nat) (s : sess) (connection : ConnectorConnection) (path : option string) (params : list (string * string))
    (messages : list json) (limit : Z) : M (option (list json)) :=
  match path with
  | None => ret (Some messages)
  | Some path =>
      if negb (Z.of_nat (length messages) <? limit) then ret (Some messages)
      else
        match fuel with
        | O => ret None
        | S fuel =>
            let* (connection, response) := graph_request s connection "GET" path None params in
            let* payload := of_result (response_json response) in
            let* value := of_result (json_get payload "value") in
            let* items := of_result (json_iter (default (JList []) value)) in
            let* next_link := of_result (json_get payload "@odata.nextLink") in
            let next := match next_link with
                        | Some (JStr link) => Some (removeprefix link (pm_api_base_url (_register (cn_provider connection))))
                        | _ => None
                        end in
            graph_pages fuel s connection next [] (messages ++ items) limit
        end
  end.
Definition list_params (since : option Z) (limit : Z) : list (string * string) :=
  [("$top", show_Z (Z.min limit 100)); ("$orderby", "receivedDateTime desc");
   ("$select", "id,subject,from,toRecipients,bodyPreview,receivedDateTime")] ++
  match since with Some t => [("$filter", "receivedDateTime ge " +:+ graph_stamp t)] | None => [] end.
Definition graph_list_messages (fuel : nat) (s : sess) (connection : ConnectorConnection) (since : option Z) (folder : string) (limit : Z) :
    M (option (list EmailMessage)) :=
  let* pages := graph_pages fuel s connection (Some ("/me/mailFolders/" +:+ folder +:+ "/messages")) (list_params since limit) [] limit in
  match pages with
  | None => ret None
  | Some messages => let* emails := of_result (map_result graph_message_to_email (first_n limit messages)) in ret (Some emails)
  end.
Definition graph_get_message (s : sess) (connection : ConnectorConnection) (message_id : string) : M EmailMessage :=
  let* (_, response) := graph_request s connection "GET" ("/me/messages/" +:+ message_id) None [] in
  of_result (let! payload := response_json response in graph_message_to_email payload).
Definition graph_send_message (s : sess) (connection : ConnectorConnection) (draft : EmailDraft) : M (option string) :=
  let* _ := graph_request s connection "POST" "/me/sendMail" (Some (draft_to_graph_message draft)) [] in
  ret None.

(** ** Google *)

Definition header_named (name : string) (header : json) : result (option string) :=
  let! n := json_get header "name" in
  if str_eqb (lower (text_of (JStr "") n)) (lower name) then let! v := json_get header "value" in Ok (Some (text_of (JStr "") v)) else Ok None.
Fixpoint first_header (name : string) (headers : list json) : result string :=
  match headers with
  | [] => Ok EmptyString
  | h :: headers' => let! found := header_named name h in match found with Some v => Ok v | None => first_header name headers' end
  end.
Definition _header (payload : json) (name : string) : result string :=
  let! inner := json_get payload "payload" in
  let! headers := json_get (default (JObj []) inner) "headers" in
  let! l := json_iter (default (JList []) headers) in
  first_header name l.

Definition gmail_message_to_email (payload : json) : result EmailMessage :=
  let! internal_date := json_get payload "internalDate" in
  let! received_at := match internal_date with
                      | Some d => if truthy d then let! ms := py_int d in Ok (Some (ms * 1000)) else Ok None
                      | None => Ok None
                      end in
  let! from := _header payload "From" in
  let! to := _header payload "To" in
  let! id := json_item payload "id" in
  let! subject := _header payload "Subject" in
  let! snippet := json_get payload "snippet" in
  Ok {| em_provider_raw_id := py_show false id; em_subject := subject; em_sender := snd (parseaddr from);
        em_recipients := List.filter (fun a => negb (str_eqb a "")) (List.map snd (getaddresses [to]));
        em_snippet := text_of (JStr "") snippet; em_received_at := received_at |}.

Definition draft_to_gmail_raw (draft : EmailDraft) : string :=
  urlsafe_b64encode (mime_bytes
    ([("To", join ", " (ed_to draft))] ++ match ed_cc draft with [] => [] | cc => [("Cc", join ", " cc)] end ++ [("Subject", ed_subject draft)])
    (ed_body_text draft)).

(** One [execute()]. *)
Definition gmail_call (access_token : string) (call : GmailCall) : M json := fun w =>
  let w' := set_out (w_out w ++ [HttpCalled "SDK" "gmail"]) w in
  match gmail_answer call access_token (w_now w) (length (w_out w)) with
  | SdkBody body => (Ok body, w')
  | SdkHttpError status => (Raise (ProviderResponseError status None), w')
  | SdkError e => (Raise e, w')
  end.
(** [GoogleMail._execute] *)
Definition gmail_execute {A} (s : sess) (connection : ConnectorConnection) (call : string -> M A) : M A :=
  let* (connection, access_token) := fresh_access_token s connection in
  run_with_backoff (_register (cn_provider connection)) (cn_id connection) (call access_token).

Fixpoint gmail_metadata (access_token : string) (items : list json) : M (list json) :=
  match items with
  | [] => ret []
  | item :: items' =>
      let* id := of_result (json_item item "id") in
      let* message := gmail_call access_token (MessagesGet id) in
      let* messages := gmail_metadata access_token items' in
      ret (message :: messages)
  end.
(** The [while] of [list_call]. *)
Fixpoint gmail_pages (fuel : nat) (access_token label : string) (query : option string) (page_token : json) (messages : list json) (limit : Z) :
    M (option (list json)) :=
  if negb (Z.of_nat (length messages) <? limit) then ret (Some messages)
  else
    match fuel with
    | O => ret None
    | S fuel =>
        let* response := gmail_call access_token (MessagesList label query (Z.min (limit - Z.of_nat (length messages)) 100) page_token) in
        let* listed := of_result (json_get response "messages") in
        let* items := of_result (json_iter (default (JList []) listed)) in
        let* read := gmail_metadata access_token items in
        let* next := of_result (json_get response "nextPageToken") in
        match default JNull next with
        | JNull => ret (Some (messages ++ read))
        | token => gmail_pages fuel access_token label query token (messages ++ read) limit
        end
    end.
Definition gmail_list_messages (fuel : nat) (s : sess) (connection : ConnectorConnection) (since : option Z) (folder : string) (limit : Z) :
    M (option (list EmailMessage)) :=
  let query := (fun t => "after:" +:+ show_Z (Z.quot t second)) <$> since in
  let* payloads := gmail_execute s connection (fun token => gmail_pages fuel token (upper folder) query JNull [] limit) in
  match payloads with
  | None => ret None
  | Some messages => let* emails := of_result (map_result gmail_message_to_email (first_n limit messages)) in ret (Some emails)
  end.
Definition gmail_get_message (s : sess) (connection : ConnectorConnection) (message_id : string) : M EmailMessage :=
  let* payload := gmail_execute s connection (fun token => gmail_call token (MessagesGet (JStr message_id))) in
  of_result (gmail_message_to_email payload).
Definition gmail_send_message (s : sess) (connection : ConnectorConnection) (draft : EmailDraft) : M (option string) :=
  let* payload := gmail_execute s connection (fun token => gmail_call token (MessagesSend (draft_to_gmail_raw draft))) in
  let* message_id := of_result (json_get payload "id") in
  ret match message_id with Some JNull | None => None | Some v => Some (py_show false v) end.

(** ** The protocol *)

(** [list_messages(since=since)] of whatever [get_capability] gave. *)
Definition list_messages (fuel : nat) (s : sess) (connection : ConnectorConnection) (mail : implementation) (since : option Z) :
    M (option (list EmailMessage)) :=
  match mail with
  | GoogleMail => gmail_list_messages fuel s connection since "inbox" 50
  | MicrosoftMail => graph_list_messages fuel s connection since "inbox" 50
  | _ => raise AttributeError
  end.
End mail.

(** ** The loop over the pages ends *)

Section pages.
Context {P : Platform} {OT : Others} {HX : Httpx} {FL : Floats} {IF : IsoFormats}.
Implicit Types (w : World).

(** A page that has a successor has messages. *)
Definition pages_progress : Prop := forall rq t n r m link,
  http_answer rq t n = inr r -> response_json r = Ok (JObj m) -> dict_get "@odata.nextLink" m = Some (JStr link) ->
  exists item items, dict_get "value" m = Some (JList (item :: items)).

Lemma graph_request_ok s c meth path body ps w c' r w' : graph_request s c meth path body ps w = (Ok (c', r), w') ->
  exists rq t n, hr_json rq = body /\ http_answer rq t n = inr r.
Proof.
  unfold graph_request. unfold bind at 1. destruct (fresh_access_token s c w) as [[[c1 tok]|e] w1]; [| done].
  unfold bind. destruct (provider_http_request _ _ _ _ _ _ _ w1) as [[r1|e] w2] eqn:E; [| done]. intros [= <- <- <-].
  revert E. unfold provider_http_request, run_with_backoff. unfold bind at 1. destruct (attempts _ _ _ _ w1) as [[r2|e] w3] eqn:Ea; [| done].
  apply attempts_ok in Ea as (w4 & Ea). destruct (400 <=? hs_status r2); [done |]. intros [= -> <-].
  revert Ea. unfold provider_attempt. unfold bind, http_send. destruct (http_answer _ _ _) as [k|r2] eqn:Eh; [done |].
  destruct (_ || _); [done |]. intros [= -> _]. eexists _, _, _. split; [| exact Eh]. reflexivity.
Qed.

Lemma graph_pages_more fuel k s c path ps messages limit w :
  (graph_pages fuel s c path ps messages limit w).1 <> Ok None ->
  graph_pages (fuel + k) s c path ps messages limit w = graph_pages fuel s c path ps messages limit w.
Proof.
  revert c path ps messages w. induction fuel as [|fuel IH]; intros c path ps messages w H.
  - revert H. destruct path as [p|]; [| by destruct k]. cbn [graph_pages Nat.add].
    destruct (negb (Z.of_nat (length messages) <? limit)) eqn:E; [| done]. intros _. destruct k; cbn [graph_pages]; by rewrite E.
  - revert H. cbn [graph_pages Nat.add]. destruct path as [p|]; [| done]. destruct (negb _); [done |]. unfold bind.
    destruct (graph_request _ _ _ _ _ _ w) as [[[c' r]|e] w']; [| done].
    destruct (of_result (response_json r) w') as [[payload|e] w1]; [| done].
    destruct (of_result (json_get payload "value") w1) as [[value|e] w2]; [| done].
    destruct (of_result (json_iter _) w2) as [[items|e] w3]; [| done].
    destruct (of_result (json_get payload _) w3) as [[link|e] w4]; [| done]. apply IH.
Qed.

Lemma graph_pages_end fuel s c path ps messages limit w : pages_progress ->
  limit - Z.of_nat (length messages) <= Z.of_nat fuel -> (graph_pages fuel s c path ps messages limit w).1 <> Ok None.
Proof.
  intros Hp. revert c path ps messages w. induction fuel as [|fuel IH]; intros c path ps messages w Hf.
  - cbn [graph_pages]. destruct path; [| done]. destruct (Z.ltb_spec (Z.of_nat (length messages)) limit); [lia | done].
  - cbn [graph_pages]. destruct path as [p|]; [| done]. destruct (negb _); [done |]. unfold bind, of_result.
    destruct (graph_request _ _ _ _ _ _ w) as [[[c' r]|e] w'] eqn:Er; [| done]. apply graph_request_ok in Er as (rq & t & n & _ & Er).
    destruct (response_json r) as [payload|e] eqn:Ej; [| done].
    destruct payload as [| | | | | |m]; try done. cbn [json_get].
    destruct (json_iter _) as [items|e] eqn:Ei; [| done].
    destruct (dict_get "@odata.nextLink" m) as [[| | | |link| |]|] eqn:El; try by destruct fuel.
    destruct (Hp rq t n r m link Er Ej El) as (item & more & Ev). rewrite Ev in Ei. cbn in Ei. injection Ei as <-.
    apply IH. rewrite List.length_app. simpl. lia.
Qed.

(** Reading a mailbox through Graph ends. As long as no page that announces
    another is empty, the loop reads [limit] pages at most, however the folder is
    cut up and whatever the calls do in between; reading on would not change
    what it gives, and it gives [limit] messages at most. *)
Theorem graph_listing_terminates (fuel : nat) (s : sess) (c : ConnectorConnection) (since : option Z) (folder : string) (limit : Z) w :
  pages_progress -> limit <= Z.of_nat fuel ->
  let '(r, w') := graph_list_messages fuel s c since folder limit w in
  r <> Ok None /\ (forall k, graph_list_messages (fuel + k) s c since folder limit w = (r, w')) /\
  forall l, r = Ok (Some l) -> Z.of_nat (length l) <= Z.max 0 limit.
Proof.
  intros Hp Hf. unfold graph_list_messages, bind.
  pose proof (fun path ps => graph_pages_end fuel s c path ps [] limit w Hp) as He. simpl in He.
  set (path := Some _). specialize (He path (list_params since limit) ltac:(lia)).
  pose proof (fun k => graph_pages_more fuel k s c path (list_params since limit) [] limit w He) as Hm.
  destruct (graph_pages fuel s c path (list_params since limit) [] limit w) as [[[messages|]|e] w']; simpl in He; [| done |].
  2: { split; [done |]. split; [| done]. intros k. by rewrite Hm. }
  unfold of_result. destruct (map_result graph_message_to_email (first_n limit messages)) as [l|e] eqn:El.
  - split; [done |]. split; [intros k; by rewrite Hm, El |]. intros l' [= <-]. rewrite (map_result_length _ _ _ El).
    unfold first_n. rewrite List.length_firstn. lia.
  - split; [done |]. split; [intros k; by rewrite Hm, El | done].
Qed.
End pages.

(** ** Running it *)

Definition live_microsoft : ConnectorConnection := {|
  cn_id := 9; cn_tenant_id := 1; cn_provider := CONNECTOR_MICROSOFT; cn_kind := KIND_TENANT; cn_user_id := None;
  cn_account_label := "ops@acme.fr"; cn_scopes := ["Mail.Read"; "Mail.Send"]; cn_access_token_enc := sealed_sample "ms-access";
  cn_refresh_token_enc := sealed_sample "ms-refresh"; cn_access_token_expires_at := t0 + 3600 * second; cn_status := CONN_ACTIVE;
  cn_last_error := None; cn_health_checked_at := None; cn_created_at := 0 |}.
Definition next_page : string := "https://graph.microsoft.com/v1.0/me/mailFolders/inbox/messages?$skip=1".
Definition graph_body (items : list json) (more : bool) : json :=
  JObj ([("value", JList items)] ++ if more then [("@odata.nextLink", JStr next_page)] else []).
Definition hello_mail : json := JObj [("id", JStr "m1"); ("subject", JStr "Hello"); ("receivedDateTime", JStr "1970-01-02T00:00:01Z")].
(** A mailbox of two pages, and one whose pages are empty and never end. *)
Definition two_pages : Httpx := {|
  http_answer rq _ _ := inr {| hs_status := 200; hs_retry_after := None;
    hs_body := dumps (if str_eqb (hr_url rq) next_page then graph_body [hello_mail; hello_mail] false else graph_body [hello_mail] true) |};
  query_string _ := "" |}.
Definition empty_pages : Httpx := {|
  http_answer _ _ _ := inr {| hs_status := 200; hs_retry_after := None; hs_body := dumps (graph_body [] true) |};
  query_string _ := "" |}.
Definition read_inbox (HX : Httpx) (fuel : nat) : M (VK := simple_valkey) (option (list EmailMessage)) :=
  graph_list_messages (P := google_platform) (OT := alone) (HX := HX) (FL := no_floats) (IF := plain_iso) fuel Ten live_microsoft None "inbox" 50.

(** Without the progress the theorem asks for, the loop is still there after 100 pages. *)
Example empty_pages_go_on : (read_inbox empty_pages 100 in_acme).1 = Ok None.
Proof. vm_compute. reflexivity. Qed.

Lemma graph_listing_terminates_witness :
  exists l, (read_inbox two_pages 50 in_acme).1 = Ok (Some l) /\ List.map em_subject l = ["Hello"; "Hello"; "Hello"] /\ Z.of_nat (length l) <= 50.
Proof.
  assert (Hp : pages_progress (HX := two_pages)).
  { intros rq t n r m link [= <-]. cbn [hs_body response_json]. destruct (str_eqb (hr_url rq) next_page).
    - intros H. vm_compute in H. injection H as <-. intros H. vm_compute in H. discriminate H.
    - intros H. vm_compute in H. injection H as <-. intros _. exists hello_mail, []. vm_compute. reflexivity. }
  pose proof (graph_listing_terminates (P := google_platform) (OT := alone) (HX := two_pages) (FL := no_floats) (IF := plain_iso)
    50 Ten live_microsoft None "inbox" 50 in_acme Hp (Z.le_refl 50)) as H. fold (read_inbox two_pages 50) in H.
  destruct (read_inbox two_pages 50 in_acme) as [r w'] eqn:E. destruct H as (_ & _ & H).
  apply (f_equal fst) in E. vm_compute in E. destruct r as [[l|]|e]; try discriminate E. injection E as E.
  exists l. split; [reflexivity |]. split; [rewrite <- E; vm_compute; reflexivity |].
  etransitivity; [exact (H l eq_refl) | discriminate].
Defined.
