(* ===== verification/Calendar.v ===== *)
(** [app/connectors/providers/*/calendar.py]: the calendar capability of the two
    providers behind one normalised model.

    A [datetime] is a wall clock with its offset, if it has one, both in
    microseconds. The forms [fromisoformat] reads beyond those written here, the
    zone of the machine, and Google's SDK are interfaces. *)
From S2P Require Import Prelude PyStr Hashing Json Config Tokens Models Permissions World Uuid Sample Orm Deps Edge Journal Frame Http Dates Iso Policy Providers Throttle Rely ConnectorTokens Subscriptions Stable Mail.

Record Datetime := { dt_wall : Z; dt_offset : option Z }.
Class Zone := { system_offset : Z -> Z }.
Class IsoDatetimes := { other_datetime : string -> option Datetime; other_date : string -> option Z }.

Definition minute_us : Z := 60 * second.
(** Offsets of whole seconds. *)
Definition offset_text (o : Z) : string :=
  let secs := Z.abs o / second in
  (if o <? 0 then "-" else "+") +:+ digits 2 (secs / 3600) +:+ ":" +:+ digits 2 (secs / 60 mod 60) +:+
  (if secs mod 60 =? 0 then EmptyString else ":" +:+ digits 2 (secs mod 60)).
Definition datetime_isoformat (d : Datetime) : string :=
  wall_text (dt_wall d) +:+ match dt_offset d with Some o => offset_text o | None => EmptyString end.

(** What follows the time of day: nothing, [Z] or [±HH:MM]. *)
Definition read_offset (s : string) : option (option Z) :=
  match s with
  | EmptyString => Some None
  | String c s =>
      if char_eqb c "Z" && str_eqb s "" then Some (Some 0)
      else
        sign ← (if char_eqb c "+" then Some 1 else if char_eqb c "-" then Some (-1) else None);
        '(h, s) ← read_fixed 2 0 s; s ← expect ":" s;
        '(m, s) ← read_fixed 2 0 s;
        _ ← check (str_eqb s "" && (h <? 24) && (m <? 60));
        Some (Some (sign * ((h * 60 + m) * minute_us)))
  end.
Definition read_datetime (s : string) : option Datetime :=
  '(t, s) ← parse_wall s; o ← read_offset s; Some {| dt_wall := t; dt_offset := o |}.

Record CalendarEvent := {
  ce_provider_raw_id : string; ce_title : string; ce_description : option string; ce_location : option string;
  ce_starts_at : Datetime; ce_ends_at : Datetime; ce_attendees : list string }.
Record CalendarEventDraft := {
  cd_title : string; cd_description : option string; cd_location : option string;
  cd_starts_at : Datetime; cd_ends_at : Datetime; cd_attendees : list string }.

(** A call of the Calendar client. *)
Inductive CalendarCall :=
  | EventsList (time_min time_max : string) (page_token : json)
  | EventsInsert (body : json).
Class CalendarSdk := { calendar_answer : CalendarCall -> string -> Z -> nat -> SdkAnswer }.

Definition invalid_iso (s : string) : exn := ValueError ("Invalid isoformat string: " +:+ py_repr s).
(** Pydantic on a field declared [str | None]: an error of validation is a [ValueError]. *)
Definition optional_str (v : option json) : result (option string) :=
  match v with
  | None | Some JNull => Ok None
  | Some (JStr s) => Ok (Some s)
  | Some _ => Raise (ValueError "Input should be a valid string")
  end.
Definition nonempty (l : list string) : list string := List.filter (fun a => negb (str_eqb a "")) l.
Definition optional_item (k : string) (v : option string) : list (string * json) :=
  match v with Some s => [(k, JStr s)] | None => [] end.

Section calendar.
Context {P : Platform} {OT : Others} {HX : Httpx} {FL : Floats} {ZN : Zone} {ID : IsoDatetimes} {CS : CalendarSdk}.

(** [datetime.fromisoformat], and [astimezone(UTC)] as an instant. *)
Definition datetime_of (s : string) : result Datetime :=
  match read_datetime s with
  | Some d => Ok d
  | None => match other_datetime s with Some d => Ok d | None => Raise (invalid_iso s) end
  end.
Definition instant (d : Datetime) : Z := dt_wall d - default (system_offset (dt_wall d)) (dt_offset d).
Definition utc (t : Z) : Datetime := {| dt_wall := t; dt_offset := Some 0 |}.
(** [date.fromisoformat], as the instant of its midnight. *)
Definition date_of (s : string) : result Z :=
  match parse_iso (s +:+ "T00:00:00+00:00") with
  | Some t => Ok t
  | None => match other_date s with Some t => Ok t | None => Raise (invalid_iso s) end
  end.

(** ** Google *)

Definition google_parse_when (when : json) : result Datetime :=
  match when with
  | JObj m =>
      match dict_get "dateTime" m with
      | Some v => datetime_of (py_show false v)
      | None => let! date := json_item when "date" in let! t := date_of (py_show false date) in Ok (utc t)
      end
  | _ => Raise TypeError
  end.

Definition google_attendee (attendee : json) : result (list string) :=
  let! email := json_get attendee "email" in
  Ok match email with Some e => if truthy e then [py_show false e] else [] | None => [] end.
Definition google_event_to_calendar_event (payload : json) : result CalendarEvent :=
  let! listed := json_get payload "attendees" in
  let! nodes := json_iter (default (JList []) listed) in
  let! attendees := map_result google_attendee nodes in
  let! id := json_item payload "id" in
  let! summary := json_get payload "summary" in
  let! description := json_get payload "description" in
  let! location := json_get payload "location" in
  let! start := json_item payload "start" in
  let! starts_at := google_parse_when start in
  let! end_ := json_item payload "end" in
  let! ends_at := google_parse_when end_ in
  let! description := optional_str description in
  let! location := optional_str location in
  Ok {| ce_provider_raw_id := py_show false id; ce_title := text_of (JStr "") summary; ce_description := description;
        ce_location := location; ce_starts_at := starts_at; ce_ends_at := ends_at; ce_attendees := concat attendees |}.

Definition draft_to_google_event (draft : CalendarEventDraft) : list (string * json) :=
  [("summary", JStr (cd_title draft)); ("start", JObj [("dateTime", JStr (datetime_isoformat (cd_starts_at draft)))]);
   ("end", JObj [("dateTime", JStr (datetime_isoformat (cd_ends_at draft)))])] ++
  optional_item "description" (cd_description draft) ++ optional_item "location" (cd_location draft) ++
  match cd_attendees draft with [] => [] | l => [("attendees", JList (List.map (fun email => JObj [("email", JStr email)]) l))] end.

Definition calendar_call (access_token : string) (call : CalendarCall) : M json := fun w =>
  let w' := set_out (w_out w ++ [HttpCalled "SDK" "calendar"]) w in
  match calendar_answer call access_token (w_now w) (length (w_out w)) with
  | SdkBody body => (Ok body, w')
  | SdkHttpError status => (Raise (ProviderResponseError status None), w')
  | SdkError e => (Raise e, w')
  end.
Definition calendar_execute {A} (s : sess) (connection : ConnectorConnection) (call : string -> M A) : M A :=
  let* (connection, access_token) := fresh_access_token s connection in
  run_with_backoff (_register (cn_provider connection)) (cn_id connection) (call access_token).

(** The [while True] of [list_call], with at most [fuel] pages. *)
Fixpoint event_pages (fuel : nat) (access_token time_min time_max : string) (page_token : json) (items : list json) : M (option (list json)) :=
  match fuel with
  | O => ret None
  | S fuel =>
      let* response := calendar_call access_token (EventsList time_min time_max page_token) in
      let* listed := of_result (json_get response "items") in
      let* more := of_result (json_iter (default (JList []) listed)) in
      let* next := of_result (json_get response "nextPageToken") in
      match default JNull next with
      | JNull => ret (Some (items ++ more))
      | token => event_pages fuel access_token time_min time_max token (items ++ more)
      end
  end.
Definition google_list_events (fuel : nat) (s : sess) (connection : ConnectorConnection) (start end_ : Datetime) : M (option (list CalendarEvent)) :=
  let* payloads := calendar_execute s connection (fun token =>
    event_pages fuel token (datetime_isoformat start) (datetime_isoformat end_) JNull []) in
  match payloads with
  | None => ret None
  | Some items => let* events := of_result (map_result google_event_to_calendar_event items) in ret (Some events)
  end.
Definition google_create_event (s : sess) (connection : ConnectorConnection) (event : CalendarEventDraft) : M CalendarEvent :=
  let* payload := calendar_execute s connection (fun token => calendar_call token (EventsInsert (JObj (draft_to_google_event event)))) in
  of_result (google_event_to_calendar_event payload).

(** ** Microsoft *)

(** [parse_graph_datetime], with the offset it keeps. *)
Definition graph_datetime (value : string) : result Datetime :=
  let! parsed := datetime_of (trim_fraction None value) in
  Ok {| dt_wall := dt_wall parsed; dt_offset := Some (default 0 (dt_offset parsed)) |}.
Definition graph_parse_when (node : json) : result Datetime :=
  let! value := json_get node "dateTime" in
  let! parsed := graph_datetime (text_of (JStr "") value) in
  let! zone := json_get node "timeZone" in
  Ok (if is_none (dt_offset parsed) || str_eqb (upper (text_of (JStr "UTC") zone)) "UTC" then utc (dt_wall parsed) else parsed).

Definition graph_event_to_calendar_event (payload : json) : result CalendarEvent :=
  let! location := json_get payload "location" in
  let location_name := match default (JObj []) location with
                       | JObj m => match dict_get "displayName" m with
                                   | Some v => if truthy v then Some (py_show false v) else None
                                   | None => None
                                   end
                       | _ => None
                       end in
  let! raw_attendees := json_get payload "attendees" in
  let! nodes := json_iter (default (JList []) raw_attendees) in
  let! body_preview := json_get payload "bodyPreview" in
  let! id := json_item payload "id" in
  let! subject := json_get payload "subject" in
  let! start := json_item payload "start" in
  let! starts_at := graph_parse_when start in
  let! end_ := json_item payload "end" in
  let! ends_at := graph_parse_when end_ in
  Ok {| ce_provider_raw_id := py_show false id; ce_title := text_of (JStr "") subject;
        ce_description := match body_preview with Some v => if truthy v then Some (py_show false v) else None | None => None end;
        ce_location := location_name; ce_starts_at := starts_at; ce_ends_at := ends_at;
        ce_attendees := nonempty (List.map address_of nodes) |}.

(** [strftime("%Y-%m-%dT%H:%M:%S")] *)
Definition graph_wall (t : Z) : string := wall_text (t / second * second).
Definition graph_when (d : Datetime) : json := JObj [("dateTime", JStr (graph_wall (instant d))); ("timeZone", JStr "UTC")].
Definition draft_to_graph_event (draft : CalendarEventDraft) : list (string * json) :=
  [("subject", JStr (cd_title draft)); ("start", graph_when (cd_starts_at draft)); ("end", graph_when (cd_ends_at draft))] ++
  match cd_description draft with Some d => [("body", JObj [("contentType", JStr "Text"); ("content", JStr d)])] | None => [] end ++
  match cd_location draft with Some l => [("location", JObj [("displayName", JStr l)])] | None => [] end ++
  match cd_attendees draft with
  | [] => []
  | l => [("attendees", JList (List.map (fun a => JObj [("emailAddress", JObj [("address", JStr a)]); ("type", JStr "required")]) l))]
  end.

Definition graph_list_events (s : sess) (connection : ConnectorConnection) (start end_ : Datetime) : M (list CalendarEvent) :=
  let* (_, response) := graph_request s connection "GET" "/me/calendarView" None
    [("startDateTime", graph_stamp (instant start)); ("endDateTime", graph_stamp (instant end_)); ("$orderby", "start/dateTime")] in
  let* payload := of_result (response_json response) in
  let* value := of_result (json_get payload "value") in
  let* items := of_result (json_iter (default (JList []) value)) in
  of_result (map_result graph_event_to_calendar_event items).
Definition graph_create_event (s : sess) (connection : ConnectorConnection) (event : CalendarEventDraft) : M CalendarEvent :=
  let* (_, response) := graph_request s connection "POST" "/me/events" (Some (JObj (draft_to_graph_event event))) [] in
  of_result (let! payload := response_json response in graph_event_to_calendar_event payload).

(** ** The protocol *)

Definition list_events (fuel : nat) (s : sess) (connection : ConnectorConnection) (calendar : implementation) (start end_ : Datetime) :
    M (option (list CalendarEvent)) :=
  match calendar with
  | GoogleCalendar => google_list_events fuel s connection start end_
  | MicrosoftCalendar => let* events := graph_list_events s connection start end_ in ret (Some events)
  | _ => raise AttributeError
  end.
Definition create_event (s : sess) (connection : ConnectorConnection) (calendar : implementation) (event : CalendarEventDraft) : M CalendarEvent :=
  match calendar with
  | GoogleCalendar => google_create_event s connection event
  | MicrosoftCalendar => graph_create_event s connection event
  | _ => raise AttributeError
  end.
End calendar.

(** ** Instants come back *)

(** What [isoformat] writes in the form that is read. *)
Definition writable (d : Datetime) : Prop :=
  representable (dt_wall d) /\ match dt_offset d with Some o => Z.abs o < 24 * 60 * minute_us /\ o mod minute_us = 0 | None => True end.

Lemma read_offset_text o : Z.abs o < 24 * 60 * minute_us -> o mod minute_us = 0 -> read_offset (offset_text o) = Some (Some o).
Proof.
  intros Hb Hm. unfold offset_text. cbn zeta. set (secs := Z.abs o / second).
  assert (Ho : exists k, Z.abs o = k * minute_us /\ 0 <= k < 1440).
  { exists (Z.abs o / minute_us). apply Z.mod_divide in Hm as [q Hq]; [| done]. rewrite Hq, Z.abs_mul in *. change (Z.abs minute_us) with minute_us in *.
    rewrite Z.div_mul by done. unfold minute_us, second in *. lia. }
  destruct Ho as (k & Hk & Hk2).
  assert (Hs : secs = k * 60). { unfold secs. rewrite Hk. unfold minute_us. rewrite Z.mul_assoc. by rewrite Z.div_mul. }
  rewrite Hs, Z.mod_mul, Z.div_mul by done. change (k * 60 / 3600) with (k * 60 / (60 * 60)).
  rewrite Z.div_mul_cancel_r by done. change (0 =? 0) with true. cbn match.
  assert (Hh : 0 <= k / 60 < 24) by (split; [apply Z.div_pos; lia | apply Z.div_lt_upper_bound; lia]).
  assert (Hmi : 0 <= k mod 60 < 60) by (apply Z.mod_pos_bound; lia).
  pose proof (Z.div_mod k 60 ltac:(lia)) as Hd.
  destruct (Z.ltb_spec o 0); cbn [String.append read_offset]; [change (char_eqb "-" "Z") with false; change (char_eqb "-" "+") with false; change (char_eqb "-" "-") with true
    | change (char_eqb "+" "Z") with false; change (char_eqb "+" "+") with true];
    cbn [andb mbind option_bind]; rewrite read_digits_small by (simpl; lia); cbn [mbind option_bind];
    change (String ":" ?s) with (String ":" EmptyString +:+ s); rewrite ?expect_app; cbn [mbind option_bind];
    rewrite read_digits_small by (simpl; lia); cbn [mbind option_bind]; rewrite str_eqb_refl, (proj2 (Z.ltb_lt _ 24)), (proj2 (Z.ltb_lt _ 60)) by lia;
    cbn [andb check mbind option_bind]; do 2 f_equal; lia.
Qed.
Lemma read_isoformat d : writable d -> read_datetime (datetime_isoformat d) = Some d.
Proof.
  destruct d as [t o]. intros [Ht Ho]. unfold read_datetime, datetime_isoformat. cbn [dt_wall dt_offset] in *. rewrite parse_wall_text; [| done |].
  - cbn [mbind option_bind]. destruct o as [o|]; [| done]. destruct Ho as [Hb Hm]. by rewrite read_offset_text.
  - destruct o as [o|]; [| done]. unfold offset_text. by destruct (o <? 0).
Qed.

Section roundtrip.
Context {P : Platform} {OT : Others} {HX : Httpx} {FL : Floats} {ZN : Zone} {ID : IsoDatetimes} {CS : CalendarSdk}.
Implicit Types (w : World).

(** Reading the keys of an object given by its items. *)
Ltac find_key k m :=
  lazymatch m with
  | (?k', ?v) :: ?m' => let b := eval vm_compute in (str_eqb k k') in lazymatch b with true => constr:(Some v) | false => find_key k m' end
  | [] => constr:(@None json)
  end.
Ltac find_keys :=
  cbn [json_get json_item result_bind];
  repeat (match goal with |- context [dict_get ?k ?m] => let r := find_key k m in change (dict_get k m) with r end;
          cbn [result_bind default json_get json_item json_iter from_option id optional_str text_of py_show]);
  cbn [result_bind].

Lemma datetime_of_isoformat d : writable d -> datetime_of (datetime_isoformat d) = Ok d.
Proof. intros H. unfold datetime_of. by rewrite read_isoformat. Qed.

Lemma google_attendees_back l : (let! r := map_result google_attendee (List.map (fun email => JObj [("email", JStr email)]) l) in Ok (concat r)) = Ok (nonempty l).
Proof.
  induction l as [|a l IH]; [done |]. cbn [List.map map_result]. unfold google_attendee at 1. cbn [json_get].
  change (dict_get "email" [("email", JStr a)]) with (Some (JStr a)). cbn [truthy py_show]. unfold nonempty. cbn [List.filter]. fold (nonempty l).
  destruct (map_result _ _) as [r|e]; [| done]. injection IH as IH. cbn [result_bind truthy py_show].
  destruct (str_eqb a "") eqn:E; cbn [negb concat app]; by rewrite IH.
Qed.

Lemma google_echo id draft : writable (cd_starts_at draft) -> writable (cd_ends_at draft) ->
  google_event_to_calendar_event (JObj (("id", JStr id) :: draft_to_google_event draft)) =
  Ok {| ce_provider_raw_id := id; ce_title := cd_title draft; ce_description := cd_description draft; ce_location := cd_location draft;
        ce_starts_at := cd_starts_at draft; ce_ends_at := cd_ends_at draft; ce_attendees := nonempty (cd_attendees draft) |}.
Proof.
  intros Hs He. destruct draft as [title description location starts ends attendees]. cbn [cd_title cd_description cd_location cd_starts_at cd_ends_at cd_attendees] in *.
  pose proof (google_attendees_back attendees) as Ha.
  assert (Hw : forall d, writable d -> google_parse_when (JObj [("dateTime", JStr (datetime_isoformat d))]) = Ok d).
  { intros d Hd. unfold google_parse_when. change (dict_get "dateTime" _) with (Some (JStr (datetime_isoformat d))). cbn match. by apply datetime_of_isoformat. }
  specialize (Hw starts Hs) as Ws. specialize (Hw ends He) as We. clear Hw.
  unfold draft_to_google_event. cbn [cd_title cd_description cd_location cd_starts_at cd_ends_at cd_attendees].
  revert Ws We. generalize (datetime_isoformat starts) (datetime_isoformat ends). intros ts te Ws We.
  unfold google_event_to_calendar_event. cbn [json_get result_bind].
  destruct attendees as [|a l]; destruct description, location; cbn [app optional_item]; find_keys; rewrite Ws; find_keys; rewrite We; find_keys; try reflexivity;
    (destruct (map_result _ _) as [r|e]; [| discriminate Ha]); injection Ha as Ha; cbn [result_bind]; rewrite Ha; reflexivity.
Qed.

(** ** Microsoft: whole seconds, in UTC *)

Lemma digits_no_dot k z : has_char "." (digits k z) = false.
Proof.
  induction k as [|k IH]; [done |]. cbn [digits has_char]. rewrite IH, orb_false_r. set (n := z / _ mod 10).
  assert (Hn : 0 <= n < 10) by (apply Z.mod_pos_bound; lia). clearbody n.
  assert (H : In n (List.map Z.of_nat (List.seq 0 10))). { rewrite <- (Z2Nat.id n) by lia. apply List.in_map, List.in_seq. lia. }
  clear Hn. simpl in H. repeat (destruct H as [<-|H]; [by vm_compute |]). destruct H.
Qed.
Lemma trim_no_dot s : has_char "." s = false -> trim_fraction None s = s.
Proof.
  induction s as [|c s IH]; [done |]. cbn [has_char trim_fraction]. intros [Hc H]%orb_false_iff. rewrite IH by done.
  by rewrite Hc.
Qed.
Lemma whole_seconds t : t / second * second mod day mod second = 0 /\ day_of (t / second * second) = day_of t.
Proof.
  set (q := t / second). split.
  - replace (q * second mod day) with (q mod 86400 * second); [by apply Z.mod_mul |]. unfold day. by rewrite Z.mul_mod_distr_r.
  - unfold day_of, day. rewrite Z.div_mul_cancel_r by done. unfold q. rewrite Z.div_div by done. by rewrite Z.mul_comm.
Qed.
Lemma graph_wall_back t : representable t -> graph_datetime (graph_wall t) = Ok (utc (t / second * second)).
Proof.
  intros Hr. destruct (whole_seconds t) as [Hs Hd]. unfold graph_datetime, graph_wall.
  assert (Hr' : representable (t / second * second)) by (unfold representable in *; by rewrite Hd).
  rewrite trim_no_dot.
  - unfold datetime_of, read_datetime. rewrite <- (app_empty_r (wall_text _)), parse_wall_text by done. reflexivity.
  - unfold wall_text. rewrite Hs. cbn zeta. by rewrite !has_char_app, !digits_no_dot.
Qed.
Lemma graph_when_back d : representable (instant d) -> graph_parse_when (graph_when d) = Ok (utc (instant d / second * second)).
Proof.
  intros H. unfold graph_parse_when, graph_when. find_keys. rewrite graph_wall_back by done. find_keys. reflexivity.
Qed.
(** The zone that the provider names does not count: the text has been read as UTC
    by then. *)
Lemma graph_zone_is_ignored t zone : representable t ->
  graph_parse_when (JObj [("dateTime", JStr (graph_wall t)); ("timeZone", JStr zone)]) = Ok (utc (t / second * second)).
Proof. intros H. unfold graph_parse_when. find_keys. rewrite graph_wall_back by done. find_keys. cbn [dt_offset utc is_none dt_wall orb]. by destruct (str_eqb _ _). Qed.
Lemma graph_attendees_back l :
  nonempty (List.map address_of (List.map (fun a => JObj [("emailAddress", JObj [("address", JStr a)]); ("type", JStr "required")]) l)) = nonempty l.
Proof. f_equal. rewrite List.map_map. erewrite List.map_ext; [apply List.map_id |]. intros a. reflexivity. Qed.

Lemma graph_echo id draft : representable (instant (cd_starts_at draft)) -> representable (instant (cd_ends_at draft)) ->
  graph_event_to_calendar_event (JObj (("id", JStr id) :: draft_to_graph_event draft)) =
  Ok {| ce_provider_raw_id := id; ce_title := cd_title draft; ce_description := None;
        ce_location := match cd_location draft with Some l => if str_eqb l "" then None else Some l | None => None end;
        ce_starts_at := utc (instant (cd_starts_at draft) / second * second); ce_ends_at := utc (instant (cd_ends_at draft) / second * second);
        ce_attendees := nonempty (cd_attendees draft) |}.
Proof.
  intros Hs He. destruct draft as [title description location starts ends attendees]. cbn [cd_title cd_description cd_location cd_starts_at cd_ends_at cd_attendees] in *.
  pose proof (graph_attendees_back attendees) as Ha. pose proof (graph_when_back starts Hs) as Ws. pose proof (graph_when_back ends He) as We.
  unfold draft_to_graph_event. cbn [cd_title cd_description cd_location cd_starts_at cd_ends_at cd_attendees].
  revert Ws We. generalize (graph_when starts) (graph_when ends). intros ts te Ws We.
  unfold graph_event_to_calendar_event. cbn [json_get result_bind].
  destruct attendees as [|a l]; destruct description, location as [loc|]; cbn [app optional_item]; find_keys; rewrite Ws; find_keys; rewrite We; find_keys;
    rewrite ?Ha; cbn [truthy]; try destruct (str_eqb loc ""); reflexivity.
Qed.

End roundtrip.

(** ** Running it *)

Definition paris : Zone := {| system_offset _ := 3600 * second |}.
Definition no_datetimes : IsoDatetimes := {| other_datetime _ := None; other_date _ := None |}.
(** Ten o'clock in Paris, in summer, for an hour. *)
Definition standup : CalendarEventDraft := {|
  cd_title := "Stand-up"; cd_description := None; cd_location := Some "Salle 2";
  cd_starts_at := {| dt_wall := t0 + 2 * 3600 * second + 7; dt_offset := Some (2 * 3600 * second) |};
  cd_ends_at := {| dt_wall := t0 + 3 * 3600 * second; dt_offset := Some (2 * 3600 * second) |};
  cd_attendees := ["a@acme.fr"; ""] |}.
Definition echo_sdk : CalendarSdk := {|
  calendar_answer call _ _ _ := match call with EventsInsert (JObj body) => SdkBody (JObj (("id", JStr "ev1") :: body)) | _ => SdkHttpError 500 end |}.
Definition echo_response : HttpResponse := {|
  hs_status := 201; hs_retry_after := None; hs_body := dumps (JObj (("id", JStr "ev1") :: draft_to_graph_event (ZN := paris) standup)) |}.
Definition echo_graph : Httpx := {|
  http_answer _ _ _ := inr echo_response;
  query_string _ := "" |}.
Definition live_calendar : ConnectorConnection := {|
  cn_id := 9; cn_tenant_id := 1; cn_provider := CONNECTOR_GOOGLE; cn_kind := KIND_TENANT; cn_user_id := None;
  cn_account_label := "ops@acme.fr"; cn_scopes := ["https://www.googleapis.com/auth/calendar"]; cn_access_token_enc := sealed_sample "g-access";
  cn_refresh_token_enc := sealed_sample "g-refresh"; cn_access_token_expires_at := t0 + 3600 * second; cn_status := CONN_ACTIVE;
  cn_last_error := None; cn_health_checked_at := None; cn_created_at := 0 |}.
Definition create_standup : result CalendarEvent * World :=
  google_create_event (P := google_platform) (OT := alone) (HX := echo_graph) (FL := no_floats) (ID := no_datetimes) (CS := echo_sdk) Ten live_calendar standup in_acme.
Definition create_standup_at_graph : result CalendarEvent * World :=
  graph_create_event (P := google_platform) (OT := alone) (HX := echo_graph) (FL := no_floats) (ZN := paris) (ID := no_datetimes) Ten live_microsoft standup in_acme.

