(* ===== verification/ConnectorTasks.v ===== *)
(** [app/connectors/tasks.py]: the background work on connections, run by a worker:
    the periodic refresh of tokens, the renewal of subscriptions, their creation
    after a connection, and the events of the webhooks, handed to the handlers. *)
From S2P Require Import Prelude PyStr Hashing Base64 Json Config Tokens Models Permissions World Uuid Sample Orm AuthService Deps Edge Journal Frame Http Directory AuthRouter Dates Iso Policy Providers Throttle Rely ConnectorTokens ConnectorRouter Webhooks Subscriptions.

Definition _context_for (tenant : Tenant) : TenantContext :=
  {| tc_tenant_id := tn_id tenant; tc_slug := tn_slug tenant; tc_role := None |}.
Definition is_active (t : Tenant) : bool := bool_decide (tn_state t = ACTIVE) && negb (is_some (tn_deleted_at t)).

Record RefreshReport := { rr_refreshed : Z; rr_skipped : Z; rr_failed : Z }.
Record RenewReport := { rn_renewed : Z; rn_failed : Z }.
Definition no_refresh : RefreshReport := {| rr_refreshed := 0; rr_skipped := 0; rr_failed := 0 |}.
Definition no_renewal : RenewReport := {| rn_renewed := 0; rn_failed := 0 |}.
(** How the turn of one subscription ends. *)
Inductive Turn := Passed | Renewed | Failed.
Definition count_turn (turn : Turn) (r : RenewReport) : RenewReport :=
  match turn with
  | Passed => r
  | Renewed => {| rn_renewed := rn_renewed r + 1; rn_failed := rn_failed r |}
  | Failed => {| rn_renewed := rn_renewed r; rn_failed := rn_failed r + 1 |}
  end.

(** Only the time of the last check is assigned. *)
Definition with_check (t : Z) (c : ConnectorConnection) : ConnectorConnection := with_health (cn_status c) (cn_last_error c) t c.
(** Only the error is. *)
Definition with_last_error (e : string) (c : ConnectorConnection) : ConnectorConnection := {|
  cn_id := cn_id c; cn_tenant_id := cn_tenant_id c; cn_provider := cn_provider c; cn_kind := cn_kind c; cn_user_id := cn_user_id c;
  cn_account_label := cn_account_label c; cn_scopes := cn_scopes c; cn_access_token_enc := cn_access_token_enc c;
  cn_refresh_token_enc := cn_refresh_token_enc c; cn_access_token_expires_at := cn_access_token_expires_at c;
  cn_status := cn_status c; cn_last_error := Some e; cn_health_checked_at := cn_health_checked_at c; cn_created_at := cn_created_at c |}.

(** A loop that threads what it has counted so far. *)
Fixpoint fold_each {VK : Valkey} {A B} (l : list A) (b : B) (f : A -> B -> M B) : M B :=
  match l with
  | [] => ret b
  | a :: l' => let* b := f a b in fold_each l' b f
  end.

Section tasks.
Context {P : Platform} {OT : Others} {HX : Httpx} {FL : Floats} {IF : IsoFormats}.

Definition _active_tenants : M (list Tenant) := with_session (Own 1) (scalars (Own 1) Tenants is_active).

(** ** Refreshing *)

Definition refresh_one (s : sess) (lead : Z) (connection : ConnectorConnection) (r : RefreshReport) : M RefreshReport :=
  let* t := now in
  if negb (access_token_expiring connection lead t) then ret r
  else
    let* r := catch (let* (_, refreshed) := refresh_connection s connection false in
                     ret (if refreshed
                          then {| rr_refreshed := rr_refreshed r + 1; rr_skipped := rr_skipped r; rr_failed := rr_failed r |}
                          else {| rr_refreshed := rr_refreshed r; rr_skipped := rr_skipped r + 1; rr_failed := rr_failed r |}))
                (fun e => match e with
                          | ProviderResponseError _ _ | ConnectorUnavailable _ | HTTPError _ =>
                              Some (ret {| rr_refreshed := rr_refreshed r; rr_skipped := rr_skipped r; rr_failed := rr_failed r + 1 |})
                          | _ => None
                          end) in
    let* _ := commit s in
    ret r.
Definition refresh_tenant (lead : Z) (tenant : Tenant) (report : list (string * RefreshReport)) : M (list (string * RefreshReport)) :=
  let* counted := tenant_context (_context_for tenant) (get_tenant_session (Own 0) (
    let* connections := scalars (Own 0) Connections (fun c => bool_decide (cn_status c = CONN_ACTIVE)) in
    fold_each connections no_refresh (refresh_one (Own 0) lead))) in
  ret (report ++ [(tn_slug tenant, counted)]).
Definition refresh_expiring_tokens : M (list (string * RefreshReport)) :=
  let lead := connector_refresh_lead_minutes * 60 * second in
  let* tenants := _active_tenants in
  fold_each tenants [] (refresh_tenant lead).
Definition refresh_expiring_tokens_task : M unit := let* _ := refresh_expiring_tokens in ret tt.

(** ** Renewing the subscriptions *)

Definition _route_key_for (connection_id : N) : M (option string) :=
  let* route := with_session (Own 1) (scalar (Own 1) WebhookRoutes (fun r => (wr_connection_id r =? connection_id)%N)) in
  ret (wr_route_key <$> route).

Definition renew_lock_name (subscription_id : N) : string := "renew:" +:+ uuid_str subscription_id.
Definition renewal_failed (s : sess) (connection : ConnectorConnection) (subscription : ConnectorSubscription) (e : exn) : M Turn :=
  let* t := now in
  let* _ := modify s Connections connection (with_health CONN_ERROR (Some ("Renouvellement de subscription échoué : " +:+ class_name e)) t) in
  let* _ := record_audit_event s "connector.subscription_renewal_failed" "connector_subscription" (uuid_str (sb_id subscription))
    [("provider", JStr (ConnectorProvider_value (cn_provider connection))); ("capability", JStr (sb_capability subscription))]
    None SYSTEM_ACTOR_LABEL in
  ret Failed.
Definition renew_locked (s : sess) (connection : ConnectorConnection) (subscription : ConnectorSubscription) : M Turn :=
  catch (let* route_key := _route_key_for (cn_id connection) in
         match route_key with
         | None => ret Passed
         | Some route_key =>
             let* _ := renew_subscription s connection subscription route_key in
             let* t := now in
             let* _ := modify s Connections connection (with_check t) in
             ret Renewed
         end)
    (fun e => Some (renewal_failed s connection subscription e)).
(** [continue] passes over the commit. *)
Definition renew_one (s : sess) (subscription : ConnectorSubscription) (r : RenewReport) : M RenewReport :=
  let* connection := scalar s Connections (fun c => (cn_id c =? sb_connection_id subscription)%N) in
  match connection with
  | None => ret r
  | Some connection =>
      if negb (bool_decide (cn_status connection = CONN_ACTIVE)) then ret r
      else
        let lock_name := renew_lock_name (sb_id subscription) in
        let* lock_token := acquire_lock lock_name LOCK_TTL_SECONDS in
        match lock_token with
        | None => ret r
        | Some lock_token =>
            let* turn := finally (renew_locked s connection subscription) (fun w => (release_lock lock_name lock_token w).2) in
            match turn with
            | Passed => ret r
            | _ => let* _ := commit s in ret (count_turn turn r)
            end
        end
  end.
Definition renew_tenant (horizon : Z) (tenant : Tenant) (report : list (string * RenewReport)) : M (list (string * RenewReport)) :=
  let* counted := tenant_context (_context_for tenant) (get_tenant_session (Own 0) (
    let* expiring := scalars (Own 0) Subscriptions (fun sb => sb_expires_at sb <=? horizon) in
    fold_each expiring no_renewal (renew_one (Own 0)))) in
  ret (report ++ [(tn_slug tenant, counted)]).
Definition renew_expiring_subscriptions : M (list (string * RenewReport)) :=
  let* t := now in
  let horizon := t + RENEWAL_LEAD in
  let* tenants := _active_tenants in
  fold_each tenants [] (renew_tenant horizon).
Definition renew_subscriptions_task : M unit := let* _ := renew_expiring_subscriptions in ret tt.

(** ** After a connection *)

Definition sync_in (route_key : string) (connection_id : N) : M unit :=
  let* connection := scalar (Own 0) Connections (fun c => (cn_id c =? connection_id)%N) in
  match connection with
  | None => ret tt
  | Some connection =>
      if negb (bool_decide (cn_status connection = CONN_ACTIVE)) then ret tt
      else
        let* _ := catch (ensure_subscriptions (Own 0) connection route_key)
          (fun e => Some (modify (Own 0) Connections connection (with_last_error ("Création de subscription échouée : " +:+ class_name e)))) in
        commit (Own 0)
  end.
Definition sync_connection_subscriptions (slug : string) (connection_id : N) : M unit :=
  let* tenants := _active_tenants in
  match rows_where (fun t => str_eqb (tn_slug t) slug) tenants with
  | [] => ret tt
  | tenant :: _ =>
      let ctx := _context_for tenant in
      let* route_key := _route_key_for connection_id in
      match route_key with
      | None => ret tt
      | Some route_key => tenant_context ctx (get_tenant_session (Own 0) (sync_in route_key connection_id))
      end
  end.

Definition uuid_arg (text : string) : result N :=
  match uuid_of_str text with Some u => Ok u | None => Raise (ValueError "badly formed hexadecimal UUID string") end.
Definition sync_subscriptions_task (slug connection_id : string) : M unit :=
  let* id := of_result (uuid_arg connection_id) in
  sync_connection_subscriptions slug id.

(** ** Events *)

(** The handlers registered in the worker. *)
Context (registry : Handlers (ConnectorEvent -> M unit)).

(** Whether the connection is there. *)
Definition journal_event (connection_id : N) (provider capability change_type : string) (resource_id : option string) : M bool :=
  let* connection := scalar (Own 0) Connections (fun c => (cn_id c =? connection_id)%N) in
  match connection with
  | None => ret false
  | Some connection =>
      let* t := now in
      let* _ := modify (Own 0) Connections connection (with_check t) in
      let* _ := record_audit_event (Own 0) "connector.event_received" "connector_connection" (uuid_str connection_id)
        [("provider", JStr provider); ("capability", JStr capability); ("change_type", JStr change_type);
         ("resource_id", match resource_id with Some r => JStr r | None => JNull end)] None SYSTEM_ACTOR_LABEL in
      let* _ := commit (Own 0) in
      ret true
  end.
Definition process_connector_event (slug : string) (connection_id : N) (provider capability change_type : string)
    (resource_id : option string) : M unit :=
  let* tenants := _active_tenants in
  match rows_where (fun t => str_eqb (tn_slug t) slug) tenants with
  | [] => ret tt
  | tenant :: _ =>
      let ctx := _context_for tenant in
      let* known := of_result match ConnectorProvider_of provider with
                              | Some p => Ok p
                              | None => Raise (ValueError (py_repr provider +:+ " is not a valid ConnectorProvider"))
                              end in
      let event := {| ev_provider := known; ev_capability := capability; ev_connection_id := connection_id;
                      ev_change_type := change_type; ev_resource_id := resource_id |} in
      tenant_context ctx (
        let* present := get_tenant_session (Own 0) (journal_event connection_id provider capability change_type resource_id) in
        if present then for_each (event_handlers registry capability) (fun handler => handler event) else ret tt)
  end.
Definition connector_event_received_task (slug connection_id provider capability change_type : string) (resource_id : option string) : M unit :=
  let* id := of_result (uuid_arg connection_id) in
  process_connector_event slug id provider capability change_type resource_id.

(** What the worker does with a message of these tasks. *)
Definition perform (task : string) (args : list string) : option (M unit) :=
  if str_eqb task "connectors.refresh_expiring_tokens" then match args with [] => Some refresh_expiring_tokens_task | _ => None end
  else if str_eqb task "connectors.renew_subscriptions" then match args with [] => Some renew_subscriptions_task | _ => None end
  else if str_eqb task "connectors.sync_subscriptions" then
    match args with [slug; id] => Some (sync_subscriptions_task slug id) | _ => None end
  else if str_eqb task "connectors.event_received" then
    match args with
    | [slug; id; provider; capability; change_type] => Some (connector_event_received_task slug id provider capability change_type None)
    | [slug; id; provider; capability; change_type; r] => Some (connector_event_received_task slug id provider capability change_type (Some r))
    | _ => None
    end
  else None.
End tasks.

(** ** Delivery *)

Section delivery.
Context {P : Platform} {OT : Others} {HX : Httpx} {FL : Floats} {IF : IsoFormats}.
Context (registry : Handlers (ConnectorEvent -> M unit)).
Implicit Types (w : World).

Lemma active_tenants_run w :
  _active_tenants w = (Ok (rows_where is_active (w_db w Tenants)), closed (Own 1) (closed (Own 1) w)).
Proof.
  unfold _active_tenants, with_session, finally. rewrite (scalars_unscoped (Own 1) Tenants) by done. by rewrite sees_closed.
Qed.
Lemma quiet_closed s w : quiet w -> quiet (closed s w).
Proof. intros [H1 H2]. split; [| done]. intros s'. simpl. by destruct (sess_eq_dec s s'). Qed.

Lemma first_where_head {A} (p : A -> bool) l : first_where p l = match rows_where p l with x :: _ => Some x | [] => None end.
Proof. induction l as [|x l IH]; [done |]. unfold first_where, rows_where in *. simpl. by destruct (p x). Qed.

(** The event is journalled and the connection marked, and committed, or nothing is. *)
Lemma journal_event_run id p cap ch rid w ctx : w_tenant w = Some ctx -> (forall s, w_pend w s = (fun db => db)) ->
  let '(r, w') := get_tenant_session (Own 0) (journal_event id p cap ch rid) w in
  (forall s, w_pend w' s = (fun db => db)) /\ w_tenant w' = Some ctx /\ w_now w' = w_now w /\ w_out w' = w_out w /\
  match first_where (fun c => owned_by (tc_tenant_id ctx) Connections c && (cn_id c =? id)%N) (w_db w Connections) with
  | None => r = Ok false /\ w_db w' = w_db w
  | Some c => r = Raise IntegrityError /\ w_db w' = w_db w \/
      exists e, r = Ok true /\
        event_is (tc_tenant_id ctx) (w_now w) "connector.event_received" "connector_connection" (uuid_str id)
          [("provider", JStr p); ("capability", JStr cap); ("change_type", JStr ch);
           ("resource_id", match rid with Some r => JStr r | None => JNull end)] None SYSTEM_ACTOR_LABEL e /\
        w_db w' = upd AuditEvents (fun l => l ++ [e]) (row_change c (with_check (w_now w)) (w_db w))
  end.
Proof.
  intros Hc Hq. unfold get_tenant_session. unfold bind at 1, current_tenant. rewrite Hc. unfold with_session, finally.
  set (w0 := closed (Own 0) w). assert (Hs : sees w0 (Own 0) = w_db w) by exact (sees_closed w (Own 0)).
  assert (Hq0 : forall w1 s, (forall s', s' <> Own 0 -> w_pend w1 s' = w_pend w0 s') -> w_pend (closed (Own 0) w1) s = (fun db => db)).
  { intros w1 s H. simpl. destruct (sess_eq_dec (Own 0) s); [done |]. rewrite H by congruence. simpl.
    destruct (sess_eq_dec (Own 0) s); [done |]. apply Hq. }
  unfold journal_event. unfold bind at 1.
  match goal with |- context [scalar _ Connections ?p w0] => rewrite (scalar_scoped (Own 0) Connections p w0 ctx) by done end.
  rewrite Hs. cbn [row].
  case_query as [c|] Ec; cbn beta iota.
  2: { unfold ret. split; [intros s; by apply Hq0 |]. by repeat split. }
  apply first_where_Some in Ec as [_ Ec]. apply andb_true_iff in Ec as [Eo _].
  unfold bind at 1, now. cbn beta iota. unfold bind at 1. rewrite (modify_scoped (Own 0) Connections c _ w0 ctx) by done. cbn beta iota.
  unfold bind at 1. destruct (record_audit_event (Own 0) _ _ _ _ _ _ _) as [r1 w1] eqn:E.
  apply (record_audit_event_run _ _ _ _ _ _ _ _ ctx) in E; [| done].
  destruct E as [[-> ->] | (e & -> & He & ->)]; cbn beta iota.
  - split; [intros s; apply Hq0; intros s' Hs'; simpl; by destruct (sess_eq_dec (Own 0) s') |]. do 3 (split; [done |]). by left.
  - unfold bind, commit, ret. split; [intros s; apply Hq0; intros s' Hs'; simpl; by destruct (sess_eq_dec (Own 0) s') |].
    do 3 (split; [done |]). right. exists e. split; [done |]. split; [exact He |].
    change (sees (wrote (Own 0) (upd AuditEvents (fun l => l ++ [e])) (set_drawn (S (w_drawn (wrote (Own 0) (row_change c (with_check (w_now w0))) w0)))
      (wrote (Own 0) (row_change c (with_check (w_now w0))) w0))) (Own 0) = upd AuditEvents (fun l => l ++ [e]) (row_change c (with_check (w_now w)) (w_db w))).
    by rewrite sees_wrote, sees_set_drawn, sees_wrote, Hs.
Qed.

(** What a worker does with a published event. *)
Definition performed (e : effect) : option (M unit) :=
  match e with TaskPublished task args => perform registry task args | _ => None end.

(** C16: from the webhook to the handlers. The event that a notification publishes
    is one a worker can perform: for an active tenant of that slug that has the
    connection, it marks the connection as checked and journals the event, both
    committed before the first handler runs, then calls the handlers of the
    capability in their order of registration, each with the event as it was
    published, in the tenant's context, which is taken away at the end however
    they end. Otherwise it writes nothing and calls nobody. *)
Theorem events_are_delivered slug id provider cap ch rid w : quiet w -> (id < 2 ^ 128)%N ->
  exists m, performed (event_task slug id (ConnectorProvider_value provider) cap ch rid) = Some m /\
  let '(r, w') := m w in
  let nothing := r = Ok tt /\ w_db w' = w_db w /\ w_out w' = w_out w in
  w_tenant w' = None /\
  match first_where (fun t => str_eqb (tn_slug t) slug) (rows_where is_active (w_db w Tenants)) with
  | None => nothing
  | Some tenant =>
      match first_where (fun c => owned_by (tn_id tenant) Connections c && (cn_id c =? id)%N) (w_db w Connections) with
      | None => nothing
      | Some c => r = Raise IntegrityError /\ w_db w' = w_db w \/
          exists e w1 w2,
            event_is (tn_id tenant) (w_now w) "connector.event_received" "connector_connection" (uuid_str id)
              [("provider", JStr (ConnectorProvider_value provider)); ("capability", JStr cap); ("change_type", JStr ch);
               ("resource_id", match rid with Some r => JStr r | None => JNull end)] None SYSTEM_ACTOR_LABEL e /\
            w_db w1 = upd AuditEvents (fun l => l ++ [e]) (row_change c (with_check (w_now w)) (w_db w)) /\
            (forall s, w_pend w1 s = (fun db => db)) /\ w_tenant w1 = Some (_context_for tenant) /\ w_out w1 = w_out w /\
            for_each (event_handlers registry cap) (fun handler => handler
              {| ev_provider := provider; ev_capability := cap; ev_connection_id := id; ev_change_type := ch; ev_resource_id := rid |}) w1 = (r, w2) /\
            w' = set_tenant None w2
      end
  end.
Proof.
  intros Hq Hid. exists (connector_event_received_task registry slug (uuid_str id) (ConnectorProvider_value provider) cap ch rid).
  split; [by destruct rid |]. unfold connector_event_received_task, uuid_arg. rewrite uuid_roundtrip by done. rewrite bind_ok.
  unfold process_connector_event. unfold bind at 1. rewrite active_tenants_run.
  set (w0 := closed (Own 1) (closed (Own 1) w)). assert (Hq0 : quiet w0) by by do 2 apply quiet_closed.
  rewrite first_where_head. destruct (rows_where _ (rows_where _ _)) as [|tenant ?].
  { unfold ret. split; [apply Hq0 | done]. }
  replace (ConnectorProvider_of (ConnectorProvider_value provider)) with (Some provider) by by destruct provider.
  rewrite bind_ok. set (event := Build_ConnectorEvent _ _ _ _ _). unfold tenant_context, push_tenant. unfold bind at 1, finally.
  destruct Hq0 as [Hp Ht]. rewrite Ht.
  pose proof (journal_event_run id (ConnectorProvider_value provider) cap ch rid (set_tenant (Some (_context_for tenant)) w0)
    (_context_for tenant) eq_refl Hp) as Hj.
  unfold bind at 1. destruct (get_tenant_session _ _ _) as [rj w1]. destruct Hj as (P1 & T1 & N1 & O1 & Hj).
  change (w_db (set_tenant _ w0)) with (w_db w) in Hj. change (tc_tenant_id (_context_for tenant)) with (tn_id tenant) in Hj.
  destruct (first_where _ (w_db w Connections)) as [c|].
  - destruct Hj as [[-> D1]|(e & -> & He & D1)].
    + split; [done |]. by left.
    + destruct (for_each _ _ w1) as [r w2] eqn:Ew. split; [done |]. right. exists e, w1, w2.
      split; [exact He |]. by repeat (split; [done |]).
  - destruct Hj as [-> D1]. unfold ret. by repeat split.
Qed.
End delivery.

Definition calendar_mailer : Handlers (ConnectorEvent -> M (VK := simple_valkey) unit) :=
  on_connector_event "calendar" (fun event => emit (EmailSent "ops@acme.fr" "calendar" (ev_change_type event))) reset_event_handlers.

Lemma events_are_delivered_witness :
  exists m, performed (P := google_platform) (OT := alone) (HX := google_tokens) (FL := no_floats) (IF := {| other_iso _ := None |})
      calendar_mailer (event_task "acme" 7 "google" "calendar" "exists" None) = Some m /\
    (m (set_db connected_db sample_world)).1 = Ok tt /\
    w_out (m (set_db connected_db sample_world)).2 = [EmailSent "ops@acme.fr" "calendar" "exists"] /\
    exists e, ae_action e = "connector.event_received" /\ ae_tenant_id e = 1%N.
Proof.
  destruct (events_are_delivered (P := google_platform) (OT := alone) (HX := google_tokens) (FL := no_floats) (IF := {| other_iso _ := None |})
    calendar_mailer "acme" 7 CONNECTOR_GOOGLE "calendar" "exists" None (set_db connected_db sample_world)
    (conj (fun _ => eq_refl) eq_refl) eq_refl) as (m & Em & H).
  exists m. split; [exact Em |]. injection Em as Em. subst m.
  match type of H with let '(r, w') := ?x in _ => destruct x as [r w'] eqn:E end.
  assert (Hr : r = Ok tt) by (apply (f_equal fst) in E; vm_compute in E; symmetry; exact E).
  assert (Ho : w_out w' = [EmailSent "ops@acme.fr" "calendar" "exists"]) by (apply (f_equal (fun x => w_out x.2)) in E; vm_compute in E; symmetry; exact E).
  split; [exact Hr |]. split; [exact Ho |]. clear E. subst r. destruct H as [_ H]. cbn in H.
  destruct H as [[H _]|(e & w1 & w2 & He & _)]; [discriminate H |]. exists e. split; [exact (proj1 (proj2 (proj2 He))) | exact (proj1 He)].
Defined.

(** ** The object the beat holds *)

(** A second connection of Acme, whose provider wants each refresh token once. *)
Definition second_google : ConnectorConnection :=
  with_tokens (sealed_sample "access-8") (Some (sealed_sample "first")) t0 0
    {| cn_id := 8; cn_tenant_id := 1; cn_provider := CONNECTOR_GOOGLE; cn_kind := KIND_TENANT; cn_user_id := None;
       cn_account_label := "ops@acme.fr"; cn_scopes := []; cn_access_token_enc := []; cn_refresh_token_enc := [];
       cn_access_token_expires_at := t0; cn_status := CONN_ACTIVE; cn_last_error := None; cn_health_checked_at := None; cn_created_at := 1 |}.
Definition rotated (t : Z) : ConnectorConnection -> ConnectorConnection :=
  with_tokens (sealed_sample "access-9") (Some (sealed_sample "second")) (t0 + 3600 * second) t.
(** A request refreshes it on the fly while the beat sleeps... *)
Definition on_the_fly : Others (VK := simple_valkey) := {| meanwhile t _ db kv :=
  (upd Connections (update_where (same_row Connections second_google) (rotated t)) db, kv) |}.
(** ... so that the first refresh token is worth nothing any more. *)
Definition rotating : Httpx := {|
  http_answer rq _ _ := inr (if existsb (fun kv => str_eqb kv.1 "refresh_token" && str_eqb kv.2 "first") (hr_data rq)
    then {| hs_status := 400; hs_retry_after := None; hs_body := dumps (JObj [("error", JStr "invalid_grant")]) |}
    else {| hs_status := 200; hs_retry_after := None; hs_body := dumps (JObj [("access_token", JStr "new-access"); ("expires_in", JInt 3599)]) |});
  query_string _ := "" |}.
Definition two_connections : World (VK := simple_valkey) :=
  set_kv (kv_set (Valkey := simple_valkey) t0 (budget_key GOOGLE_MANIFEST 7) (KInt 240) (Some (60 * second)) (w_kv sample_world))
    (set_db (upd Connections (fun _ => [live_google; second_google]) sample_db) sample_world).

(** The beat refreshes with the token it loaded before it slept. Only a
    caller that waited for the lock reads the row again: here the beat waits for
    the budget of a first connection while a request refreshes the second one,
    whose lock is then free; the beat presents the token that request has used
    up, is answered [invalid_grant], and the connection is marked as waiting for
    a consent with good tokens in its row. *)
Theorem beat_uses_a_stale_token :
  exists c w', refresh_expiring_tokens (P := google_platform) (OT := on_the_fly) (HX := rotating) (FL := no_floats) two_connections =
      (Ok [("acme", {| rr_refreshed := 1; rr_skipped := 1; rr_failed := 0 |}); ("globex", no_refresh)], w') /\
    In c (w_db w' Connections) /\ cn_id c = 8%N /\ cn_status c = CONN_NEEDS_RECONSENT /\
    decrypt_token (P := google_platform) (cn_refresh_token_enc c) = Ok "second" /\ w_now w' < cn_access_token_expires_at c.
Proof.
  destruct (refresh_expiring_tokens (P := google_platform) (OT := on_the_fly) (HX := rotating) (FL := no_floats) two_connections) as [r w'] eqn:E.
  assert (Hr : r = Ok [("acme", {| rr_refreshed := 1; rr_skipped := 1; rr_failed := 0 |}); ("globex", no_refresh)])
    by (apply (f_equal fst) in E; vm_compute in E; symmetry; exact E).
  assert (Hn : w_now w' = t0 + 60 * second) by (apply (f_equal (fun x => w_now x.2)) in E; vm_compute in E; symmetry; exact E).
  apply (f_equal (fun x => first_where (fun c => (cn_id c =? 8)%N) (w_db x.2 Connections))) in E. cbn beta iota delta [snd] in E.
  match type of E with _ = first_where ?p ?l => destruct (first_where p l) as [c|] eqn:Ec end; [| vm_compute in E; discriminate E].
  apply first_where_Some in Ec as [Hin Hid]. exists c, w'. split; [by rewrite Hr |]. split; [exact Hin |].
  vm_compute in E. injection E as <-. rewrite Hn. by repeat split; vm_compute.
Qed.
