(* ===== verification/Contract.v ===== *)
(** [app/automation/contract.py] and [app/automation/registry.py]: what a module
    is, and the validation of the registry at start-up. A route is known by its
    tree of dependencies, in which the permissions it requires are found. *)
From stdpp Require Import gmap.
From S2P Require Import Prelude PyStr Hashing Json Models Permissions World Providers Webhooks.

(** [Dependant] of FastAPI: the [required_permission] of its callable, when it is
    a string, and its own dependencies. *)
Inductive Dependant := Dep (required_permission : option string) (dependencies : list Dependant).
Definition required_permission (d : Dependant) : option string := match d with Dep p _ => p end.
Definition dependencies (d : Dependant) : list Dependant := match d with Dep _ l => l end.
Inductive Route := APIRoute (path : string) (dependant : list Dependant) | OtherRoute.

Definition MODULE_NAME_RE (name : string) : bool :=
  match name with
  | String c rest => is_lower_ascii c && all_chars is_word_lower rest && (1 <=? String.length rest)%nat && (String.length rest <=? 30)%nat
  | EmptyString => false
  end.

Record ModulePermission := { mp_name : string; mp_roles : list string; mp_description : string }.

Section contract.
Context {VK : Valkey}.

(** [None]: the function is still running when the model stops counting its loops. *)
Definition PeriodicFn : Type := N -> M (option unit).
(** Seconds, as the literal of a float. *)
Record PeriodicTaskSpec := { pt_name : string; pt_schedule_seconds : string; pt_fn : PeriodicFn }.
Record ConnectorEventSpec := { ce_capability : string; ce_handler : ConnectorEvent -> M unit }.
Record ModuleManifest := {
  mm_name : string; mm_version : string; mm_title : string; mm_description : string; mm_router : list Route;
  mm_permissions : list ModulePermission; mm_periodic_tasks : list PeriodicTaskSpec;
  mm_connector_events : list ConnectorEventSpec; mm_required_capabilities : list capability_type; mm_audit_actions : list string }.

(** ** The permissions of a route *)

Fixpoint nodes (d : Dependant) : nat :=
  match d with Dep _ l => S ((fix all (l : list Dependant) : nat := match l with [] => O | d :: l' => (nodes d + all l')%nat end) l) end.
Definition all_nodes (l : list Dependant) : nat := List.fold_right (fun d n => nodes d + n)%nat O l.

(** The [while] over the stack, whose top is the last element. *)
Fixpoint walk (fuel : nat) (stack : list Dependant) (found : gset string) : option (gset string) :=
  match rev stack with
  | [] => Some found
  | dependant :: below =>
      match fuel with
      | O => None
      | S fuel =>
          walk fuel (rev below ++ dependencies dependant)
            match required_permission dependant with Some permission => {[permission]} ∪ found | None => found end
      end
  end.
Definition _route_permissions (dependant : list Dependant) : gset string := default ∅ (walk (all_nodes dependant) dependant ∅).

(** ** Validation *)

Definition any_permission (prefix : string) (permissions : gset string) : bool :=
  existsb (fun p => startswith p prefix) (elements permissions).
(** A literal of the messages. *)
Definition quoted (s : string) : string := String double_quote (s +:+ String double_quote EmptyString).

(** [for x in l: if not good(x): raise error(x)] *)
Fixpoint each {A} (l : list A) (good : A -> bool) (error : A -> exn) : result unit :=
  match l with
  | [] => Ok tt
  | a :: l' => raise_if! (negb (good a)) (error a) in each l' good error
  end.

Definition module_said (name : string) (what : string) : exn := ModuleRegistryError ("Module " +:+ py_repr name +:+ " : " +:+ what).
Definition validate_manifest (manifest : ModuleManifest) : result unit :=
  let name := mm_name manifest in
  raise_if! (negb (MODULE_NAME_RE name))
    (ModuleRegistryError ("Nom de module invalide : " +:+ py_repr name +:+ " (attendu `^[a-z][a-z0-9_]{1,30}$`).")) in
  let prefix := name +:+ "." in
  let! _ := each (mm_permissions manifest) (fun p => startswith (mp_name p) prefix)
    (fun p => module_said name ("permission " +:+ py_repr (mp_name p) +:+ " hors namespace " +:+ py_repr prefix +:+ " (invariant de phase n°5).")) in
  let! _ := each (mm_periodic_tasks manifest) (fun t => startswith (pt_name t) prefix)
    (fun t => module_said name ("tâche " +:+ py_repr (pt_name t) +:+ " hors namespace " +:+ py_repr prefix +:+ ".")) in
  let! _ := each (mm_audit_actions manifest) (fun a => startswith a prefix)
    (fun a => module_said name ("action d'audit " +:+ py_repr a +:+ " hors namespace " +:+ py_repr prefix +:+ ".")) in
  each (mm_router manifest)
    (fun route => match route with APIRoute _ deps => any_permission prefix (_route_permissions deps) | OtherRoute => true end)
    (fun route => match route with
                  | APIRoute path _ => module_said name ("la route " +:+ py_repr path +:+ " ne porte aucune dépendance `require_permission(" +:+
                      quoted (prefix +:+ "…") +:+ ")` (invariant de phase n°2, D2).")
                  | OtherRoute => AssertionError
                  end).

Fixpoint validate_from (seen : list string) (modules : list ModuleManifest) : result unit :=
  match modules with
  | [] => Ok tt
  | manifest :: modules' =>
      raise_if! (str_in (mm_name manifest) seen)
        (ModuleRegistryError ("Nom de module en collision au registre : " +:+ py_repr (mm_name manifest) +:+ ".")) in
      let! _ := validate_manifest manifest in
      validate_from (mm_name manifest :: seen) modules'
  end.
Definition validate_registry (modules : list ModuleManifest) : result unit := validate_from [] modules.

Definition get_module (modules : list ModuleManifest) (name : string) : option ModuleManifest :=
  List.find (fun m => str_eqb (mm_name m) name) modules.
Definition module_names (modules : list ModuleManifest) : list string := List.map mm_name modules.

(** ** What the walk finds *)

(** [p] is required somewhere in the tree. *)
Inductive requires (p : string) : Dependant -> Prop :=
  | requires_here l : requires p (Dep (Some p) l)
  | requires_below q d l : In d l -> requires p d -> requires p (Dep q l).
Definition requires_any (p : string) (l : list Dependant) : Prop := exists d, In d l /\ requires p d.

Lemma nodes_dep q l : nodes (Dep q l) = S (all_nodes l).
Proof. simpl. f_equal. Qed.
Lemma all_nodes_app l1 l2 : all_nodes (l1 ++ l2) = (all_nodes l1 + all_nodes l2)%nat.
Proof. unfold all_nodes. induction l1 as [|d l1 IH]; simpl; lia. Qed.

(** Popping a node and pushing its dependencies loses nothing. *)
Lemma requires_any_pop p below q l :
  requires_any p (below ++ [Dep q l]) <-> q = Some p \/ requires_any p (below ++ l).
Proof.
  unfold requires_any. setoid_rewrite in_app_iff. split.
  - intros (d & [Hd|[<-|[]]] & Hr); [right; by eauto |]. inversion Hr; subst; [by left | right; by eauto].
  - intros [->|(d & [Hd|Hd] & Hr)].
    + exists (Dep (Some p) l). split; [right; by left | apply requires_here].
    + by eauto.
    + exists (Dep q l). split; [right; by left | by apply (requires_below p q d)].
Qed.

Lemma walk_spec fuel stack found : (all_nodes stack <= fuel)%nat ->
  exists out, walk fuel stack found = Some out /\ forall p, p ∈ out <-> p ∈ found \/ requires_any p stack.
Proof.
  revert stack found. induction fuel as [|fuel IH]; intros stack found Hf; induction stack as [|d below _] using rev_ind.
  1,3: exists found; split; [done |]; intros p; split; [by left | by intros [|(? & [] & _)]].
  - exfalso. rewrite all_nodes_app in Hf. destruct d as [q l]. unfold all_nodes in Hf. simpl in Hf. lia.
  - cbn [walk]. rewrite rev_app_distr. cbn [rev app]. rewrite rev_involutive. destruct d as [q l]. cbn [dependencies required_permission].
    destruct (IH (below ++ l) match q with Some p => {[p]} ∪ found | None => found end) as (out & E & Ho).
    { rewrite all_nodes_app in *. unfold all_nodes at 2 in Hf. cbn [List.fold_right] in Hf. rewrite nodes_dep in Hf. lia. }
    exists out. split; [exact E |]. intros p. rewrite Ho, requires_any_pop. destruct q as [q|]; [set_solver | intuition congruence].
Qed.

Lemma route_permissions_spec deps p : p ∈ _route_permissions deps <-> requires_any p deps.
Proof.
  unfold _route_permissions. destruct (walk_spec (all_nodes deps) deps ∅) as (out & -> & H); [lia |]. simpl. rewrite H. set_solver.
Qed.
Lemma any_permission_spec prefix deps :
  any_permission prefix (_route_permissions deps) = true <-> exists p, startswith p prefix = true /\ requires_any p deps.
Proof.
  unfold any_permission. rewrite existsb_exists. setoid_rewrite <- list_elem_of_In. setoid_rewrite elem_of_elements.
  setoid_rewrite route_permissions_spec. naive_solver.
Qed.

(** ** What validation means *)

Definition valid_manifest (m : ModuleManifest) : Prop :=
  let prefix := mm_name m +:+ "." in
  MODULE_NAME_RE (mm_name m) = true /\
  (forall p, In p (mm_permissions m) -> startswith (mp_name p) prefix = true) /\
  (forall t, In t (mm_periodic_tasks m) -> startswith (pt_name t) prefix = true) /\
  (forall a, In a (mm_audit_actions m) -> startswith a prefix = true) /\
  (forall path deps, In (APIRoute path deps) (mm_router m) -> exists p, startswith p prefix = true /\ requires_any p deps).

Lemma each_spec {A} (l : list A) good error :
  match each l good error with
  | Ok _ => forall a, In a l -> good a = true
  | Raise e => exists a, In a l /\ good a = false /\ e = error a
  end.
Proof.
  induction l as [|a l IH]; simpl; [done |]. destruct (good a) eqn:Eg; simpl.
  - destruct (each l good error) as [[]|e]; [| by destruct IH as (b & ? & ? & ?); eauto]. intros b [<-|Hb]; [done | by apply IH].
  - eauto.
Qed.

Lemma validate_manifest_spec m :
  match validate_manifest m with Ok _ => valid_manifest m | Raise e => ~ valid_manifest m /\ exists msg, e = ModuleRegistryError msg end.
Proof.
  unfold validate_manifest, valid_manifest. destruct (MODULE_NAME_RE (mm_name m)) eqn:En; cbn [negb].
  2: { split; [by intros [? _] | eauto]. }
  pose proof (each_spec (mm_permissions m) (fun p => startswith (mp_name p) (mm_name m +:+ "."))) as H1.
  match goal with |- context [each (mm_permissions m) _ ?e] => specialize (H1 e); destruct (each (mm_permissions m) _ e) as [[]|e1] end; cbn [result_bind].
  2: { destruct H1 as (a & Ha & Hg & ->). split; [| unfold module_said; eauto]. intros (_ & H & _). by rewrite H in Hg. }
  pose proof (each_spec (mm_periodic_tasks m) (fun t => startswith (pt_name t) (mm_name m +:+ "."))) as H2.
  match goal with |- context [each (mm_periodic_tasks m) _ ?e] => specialize (H2 e); destruct (each (mm_periodic_tasks m) _ e) as [[]|e1] end; cbn [result_bind].
  2: { destruct H2 as (a & Ha & Hg & ->). split; [| unfold module_said; eauto]. intros (_ & _ & H & _). by rewrite H in Hg. }
  pose proof (each_spec (mm_audit_actions m) (fun a => startswith a (mm_name m +:+ "."))) as H3.
  match goal with |- context [each (mm_audit_actions m) _ ?e] => specialize (H3 e); destruct (each (mm_audit_actions m) _ e) as [[]|e1] end; cbn [result_bind].
  2: { destruct H3 as (a & Ha & Hg & ->). split; [| unfold module_said; eauto]. intros (_ & _ & _ & H & _). by rewrite H in Hg. }
  match goal with |- context [each (mm_router m) ?g ?e] => pose proof (each_spec (mm_router m) g e) as H4; destruct (each (mm_router m) g e) as [[]|e1] end.
  - do 4 (split; [done |]). intros path deps Hin. by apply any_permission_spec, (H4 _ Hin).
  - destruct H4 as (route & Ha & Hg & ->). destruct route as [path deps|]; [| done]. split; [| unfold module_said; eauto].
    intros (_ & _ & _ & _ & H). apply H, any_permission_spec in Ha. congruence.
Qed.

Definition valid_registry (modules : list ModuleManifest) : Prop :=
  List.NoDup (module_names modules) /\ forall m, In m modules -> valid_manifest m.

Lemma validate_from_spec seen modules :
  match validate_from seen modules with
  | Ok _ => valid_registry modules /\ forall n, In n seen -> ~ In n (module_names modules)
  | Raise e => (exists msg, e = ModuleRegistryError msg) /\ ~ (valid_registry modules /\ forall n, In n seen -> ~ In n (module_names modules))
  end.
Proof.
  revert seen. induction modules as [|m modules IH]; intros seen; cbn [validate_from].
  { split; [| by intros n _ []]. split; [constructor | by intros m []]. }
  destruct (str_in (mm_name m) seen) eqn:Es.
  { split; [eauto |]. intros [_ H]. apply (H (mm_name m)); [| by left]. unfold str_in in Es. bool_hyps. by apply list_elem_of_In. }
  pose proof (validate_manifest_spec m) as Hm. destruct (validate_manifest m) as [[]|e]; cbn [result_bind].
  2: { split; [apply Hm |]. intros [[_ H] _]. apply Hm, H. by left. }
  assert (Hs : ~ In (mm_name m) seen).
  { intros Hin%list_elem_of_In. unfold str_in in Es. by rewrite bool_decide_eq_true_2 in Es. }
  specialize (IH (mm_name m :: seen)). destruct (validate_from _ modules) as [[]|e].
  - destruct IH as [[Hn Hv] Hd]. split; [split |].
    + simpl. constructor; [apply Hd; by left | done].
    + intros m' [<-|Hm']; [done | by apply Hv].
    + intros n Hn' [<-|Hi]; [done |]. apply (Hd n); [by right | done].
  - destruct IH as [He Hc]. split; [done |]. intros [[Hn Hv] Hd]. apply Hc. inversion_clear Hn as [|? ? H1 H2]. split; [split; [done |] |].
    + intros m' Hm'. apply Hv. by right.
    + intros n [<-|Hi]; [done |]. intros Hin. apply (Hd n Hi). by right.
Qed.
End contract.

(** ** Properties *)

Section properties.
Context {VK : Valkey}.

End properties.
