(* ===== verification/Automation.v ===== *)
(** [app/automation/service.py], [scheduler.py] and [mounting.py]: which modules a
    tenant has, the gate before their routes, and their periodic tasks. The
    registry [MODULES] is a parameter: [SampleDigest] gives the one of the code. *)
From S2P Require Import Prelude PyStr Hashing Base64 Json Config Tokens Models Permissions World Uuid Sample Orm AuthService Slug Deps Edge Journal Frame Http Directory AuthRouter Dates Iso Policy OAuth Providers Throttle Rely ConnectorTokens DirectoryRouter ConnectorRouter Webhooks Subscriptions ConnectorTasks Stable Contract.

(** [_STATE_TTL_SECONDS], in microseconds of the monotonic clock. *)
Definition _STATE_TTL : Z := 10 * second.

Section automation.
Context {P : Platform} {OT : Others} {HX : Httpx} {FL : Floats}.
Context (MODULES : list ModuleManifest).

(** ** Activation *)

Definition unknown_module (name : string) : exn := ModuleError ("Module inconnu du registre : " +:+ py_repr name +:+ ".").
Definition _capability_name (capability : capability_type) : result string :=
  match CAPABILITY_NAMES capability with
  | Some name => Ok name
  | None => Raise (ModuleError ("Capability inconnue exigée par un module : " +:+ type_repr capability))
  end.

Definition _tenant_granted_capabilities (tenant : Tenant) : M (list string) :=
  tenant_context (_context_for tenant) (get_tenant_session (Own 0) (
    let* connections := scalars (Own 0) Connections (fun c => bool_decide (cn_status c = CONN_ACTIVE)) in
    ret (flat_map granted_capabilities connections))).

Definition missing_capabilities (tenant : Tenant) (module_name : string) : M (list string) :=
  match get_module MODULES module_name with
  | None => raise (unknown_module module_name)
  | Some manifest =>
      let* required := of_result (map_result _capability_name (mm_required_capabilities manifest)) in
      match required with
      | [] => ret []
      | _ =>
          let* granted := _tenant_granted_capabilities tenant in
          ret (sorted_set (List.filter (fun name => negb (str_in name granted)) required))
      end
  end.

Definition _invalidate (tenant_id : N) (module_name : string) : M unit :=
  fun w => (Ok tt, set_states (delete (tenant_id, module_name) (w_states w)) w).
Definition reset_state_cache : M unit := fun w => (Ok tt, set_states ∅ w).

Definition of_tenant_module (tenant_id : N) (module_name : string) (m : TenantModule) : bool :=
  (mo_tenant_id m =? tenant_id)%N && str_eqb (mo_module_name m) module_name.
Definition with_enabled (b : bool) (m : TenantModule) : TenantModule :=
  {| mo_id := mo_id m; mo_tenant_id := mo_tenant_id m; mo_module_name := mo_module_name m; mo_enabled := b |}.

Definition manque_msg (module_name slug : string) (missing : list string) : string :=
  "Impossible d'activer " +:+ py_repr module_name +:+ " pour " +:+ py_repr slug +:+ " : capabilities manquantes (" +:+
  join ", " missing +:+ "). Connectez un compte les fournissant.".

Definition enable_module (s : sess) (tenant : Tenant) (module_name : string) (actor_user_id : option N) (actor_label : option string) :
    M TenantModule :=
  match get_module MODULES module_name with
  | None => raise (unknown_module module_name)
  | Some manifest =>
      let* missing := missing_capabilities tenant module_name in
      raise_when (negb (bool_decide (missing = []))) (ModuleError (manque_msg module_name (tn_slug tenant) missing)) in
      let* row := scalar s TenantModules (of_tenant_module (tn_id tenant) module_name) in
      let* row := match row with
                  | None =>
                      let* id := uuid4 in
                      add s TenantModules {| mo_id := id; mo_tenant_id := tn_id tenant; mo_module_name := module_name; mo_enabled := true |}
                  | Some row => let* _ := modify s TenantModules row (with_enabled true) in ret (with_enabled true row)
                  end in
      let* _ := record_audit_event_for_tenant 0 tenant "core.module.enabled" "module" module_name
        [("module", JStr module_name); ("version", JStr (mm_version manifest))] actor_user_id (ostr_or actor_label "system") in
      let* _ := commit s in
      let* row := session_refresh s TenantModules row in
      let* _ := _invalidate (tn_id tenant) module_name in
      ret row
  end.

Definition disable_module (s : sess) (tenant : Tenant) (module_name : string) (actor_user_id : option N) (actor_label : option string) :
    M (option TenantModule) :=
  match get_module MODULES module_name with
  | None => raise (unknown_module module_name)
  | Some _ =>
      let* row := scalar s TenantModules (of_tenant_module (tn_id tenant) module_name) in
      match row with
      | None => ret None
      | Some row =>
          if negb (mo_enabled row) then ret (Some row)
          else
            let* _ := modify s TenantModules row (with_enabled false) in
            let* _ := record_audit_event_for_tenant 0 tenant "core.module.disabled" "module" module_name
              [("module", JStr module_name)] actor_user_id (ostr_or actor_label "system") in
            let* _ := commit s in
            let* row := session_refresh s TenantModules (with_enabled false row) in
            let* _ := _invalidate (tn_id tenant) module_name in
            ret (Some row)
      end
  end.

Definition cached_state (tenant_id : N) (module_name : string) : M (option bool) := fun w =>
  (Ok match w_states w !! (tenant_id, module_name) with
      | Some (enabled, until) => if w_now w <? until then Some enabled else None
      | None => None
      end, w).
Definition remember_state (tenant_id : N) (module_name : string) (enabled : bool) : M unit := fun w =>
  (Ok tt, set_states (<[(tenant_id, module_name) := (enabled, w_now w + _STATE_TTL)]> (w_states w)) w).
Definition is_module_enabled (s : sess) (tenant_id : N) (module_name : string) : M bool :=
  let* cached := cached_state tenant_id module_name in
  match cached with
  | Some enabled => ret enabled
  | None =>
      let* row := scalar s TenantModules (of_tenant_module tenant_id module_name) in
      let enabled := match row with Some row => mo_enabled row | None => false end in
      let* _ := remember_state tenant_id module_name enabled in
      ret enabled
  end.

Definition enabled_tenant_ids (module_name : string) : M (list N) :=
  with_session (Own 1) (
    let* rows := scalars (Own 1) TenantModules (fun m => str_eqb (mo_module_name m) module_name && mo_enabled m) in
    ret (List.map mo_tenant_id rows)).

(** ** The routes of a module *)

Definition require_module_enabled {A} (module_name : string) (ctx : TenantContext) (k : M A) : M A :=
  let* enabled := is_module_enabled Ctl (tc_tenant_id ctx) module_name in
  raise_when (negb enabled) (HTTPException 403 ("Module « " +:+ module_name +:+ " » non activé pour ce tenant.")) in
  k.
(** [require_permission], once the tenant is resolved. *)
Definition check_permission {A} (permission : string) (ctx : TenantContext) (k : M A) : M A := fun w =>
  match tc_role ctx with
  | Some role => if role_has_permission (w_grants w) role permission then k w else (Raise (HTTPException 403 "Permission refusée"), w)
  | None => (Raise (HTTPException 403 "Permission refusée"), w)
  end.
(** The dependency of the mounted router runs before those of the route. *)
Definition module_route {A} (module_name permission : string) (rq : Request) (handler : TenantContext -> M A) : M A :=
  request (let* auth := current_auth_or_none rq in
           resolve_tenant rq auth (fun ctx =>
             require_module_enabled module_name ctx (check_permission permission ctx (handler ctx)))).

(** ** Periodic tasks *)

Definition _find_task (module_name task_name : string) : option PeriodicTaskSpec :=
  match get_module MODULES module_name with
  | None => None
  | Some manifest => List.find (fun t => str_eqb (pt_name t) task_name) (mm_periodic_tasks manifest)
  end.
Definition _active_tenant (tenant_id : N) : M (option Tenant) :=
  let* tenant := with_session (Own 1) (scalar (Own 1) Tenants (fun t => (tn_id t =? tenant_id)%N)) in
  ret match tenant with Some t => if is_active t then Some t else None | None => None end.
Definition _lock_name (module_name task_name : string) (tenant_id : N) : string :=
  "module:" +:+ module_name +:+ ":" +:+ task_name +:+ ":" +:+ uuid_str tenant_id.

Definition enqueue_fanout (module_name task_name : string) : M unit :=
  emit (TaskPublished "automation.periodic_fanout" [module_name; task_name]).
Definition unit_task (module_name task_name : string) (tenant_id : N) : effect :=
  TaskPublished "automation.periodic_unit" [module_name; task_name; uuid_str tenant_id].
Definition enqueue_unit (module_name task_name : string) (tenant_id : N) : M unit := emit (unit_task module_name task_name tenant_id).

Definition run_periodic_fanout (module_name task_name : string) : M Z :=
  match _find_task module_name task_name with
  | None => ret 0
  | Some _ =>
      let* tenant_ids := enabled_tenant_ids module_name in
      let* _ := for_each tenant_ids (enqueue_unit module_name task_name) in
      ret (Z.of_nat (length tenant_ids))
  end.

(** Whether the function ran; [None]: it is still running. *)
Definition run_periodic_unit (module_name task_name : string) (tenant_id : N) : M (option bool) :=
  match _find_task module_name task_name with
  | None => ret (Some false)
  | Some task =>
      let* tenant := _active_tenant tenant_id in
      match tenant with
      | None => ret (Some false)
      | Some tenant =>
          let lock_name := _lock_name module_name task_name tenant_id in
          let* token := acquire_lock lock_name LOCK_TTL_SECONDS in
          match token with
          | None => ret (Some false)
          | Some token =>
              tenant_context (_context_for tenant) (
                finally (catch (let* done := pt_fn task (tn_id tenant) in ret ((fun _ => true) <$> done))
                               (fun _ => Some (ret (Some false))))
                        (fun w => (release_lock lock_name token w).2))
          end
      end
  end.

Definition periodic_fanout_task (module_name task_name : string) : M unit :=
  let* _ := run_periodic_fanout module_name task_name in ret tt.
Definition periodic_unit_task (module_name task_name tenant_id : string) : M (option bool) :=
  let* id := of_result (uuid_arg tenant_id) in
  run_periodic_unit module_name task_name id.

(** A dict: an entry set again keeps its place. *)
Record BeatEntry := { be_task : string; be_schedule : string; be_args : string * string }.
Fixpoint dict_set {A} (k : string) (v : A) (m : list (string * A)) : list (string * A) :=
  match m with
  | [] => [(k, v)]
  | (k', v') :: m' => if str_eqb k' k then (k, v) :: m' else (k', v') :: dict_set k v m'
  end.
Definition beat_entries : list (string * BeatEntry) :=
  List.fold_left (fun entries mt =>
      dict_set ("module-" +:+ pt_name mt.2)
        {| be_task := "automation.periodic_fanout"; be_schedule := pt_schedule_seconds mt.2; be_args := (mm_name mt.1, pt_name mt.2) |} entries)
    (flat_map (fun manifest => List.map (fun task => (manifest, task)) (mm_periodic_tasks manifest)) MODULES) [].

(** ** Mounting *)

Abbreviation registries := (Grants * Handlers (ConnectorEvent -> M unit))%type.

Fixpoint register_permissions (permissions : list ModulePermission) (g : Grants) : result unit * Grants :=
  match permissions with
  | [] => (Ok tt, g)
  | permission :: permissions' =>
      match register_module_permission (mp_name permission) (mp_roles permission) g with
      | (Ok _, g') => register_permissions permissions' g'
      | (Raise e, g') => (Raise e, g')
      end
  end.
Fixpoint register_modules (modules : list ModuleManifest) (r : registries) : result unit * registries :=
  match modules with
  | [] => (Ok tt, r)
  | manifest :: modules' =>
      match register_permissions (mm_permissions manifest) r.1 with
      | (Ok _, g) => register_modules modules'
          (g, List.fold_left (fun h e => on_connector_event (ce_capability e) (ce_handler e) h) (mm_connector_events manifest) r.2)
      | (Raise e, g) => (Raise e, (g, r.2))
      end
  end.
Definition register_runtime (r : registries) : result unit * registries :=
  match validate_registry MODULES with
  | Raise e => (Raise e, r)
  | Ok _ => register_modules MODULES (reset_module_permissions r.1, reset_event_handlers)
  end.
(** The routers included, with their prefix and the module their routes ask for. *)
Definition mount_modules (r : registries) : result (list (string * string * list Route)) * registries :=
  match register_runtime r with
  | (Raise e, r') => (Raise e, r')
  | (Ok _, r') =>
      (Ok (List.map (fun manifest => ("/api/v1/modules/" +:+ mm_name manifest, mm_name manifest, mm_router manifest)) MODULES), r')
  end.
End automation.

(** ** What touches the cache *)

Section cache.
Context {P : Platform} {OT : Others} {HX : Httpx} {FL : Floats}.
Context (MODULES : list ModuleManifest).
Implicit Types (w : World).

(** Code that leaves the cache of the activations, and takes no time. *)
Definition clock_and_cache (w : World) := (w_now w, w_states w).
Lemma clock_and_cache_inert : Inert clock_and_cache.
Proof. by split. Qed.
#[local] Existing Instance clock_and_cache_inert.
Abbreviation leaves := (stable clock_and_cache).

Lemma leaves_missing tenant name : leaves (missing_capabilities MODULES tenant name).
Proof. unfold missing_capabilities, _tenant_granted_capabilities. stable_code. Qed.

(** The entry of a module in the cache: what it says now. *)
Definition live (w : World) (tid : N) (name : string) : option bool :=
  match w_states w !! (tid, name) with Some (b, until) => if w_now w <? until then Some b else None | None => None end.
Definition enabled_in (rows : list TenantModule) (tid : N) (name : string) : bool :=
  match first_where (of_tenant_module tid name) rows with Some m => mo_enabled m | None => false end.

(** Activating and deactivating only take entries away. *)
Definition forgets (w w' : World) : Prop := w_now w' = w_now w /\ (w_states w' = w_states w \/ exists k, w_states w' = delete k (w_states w)).
Definition forgetful {A} (m : M A) : Prop := forall w, forgets w (m w).2.
Lemma leaves_forgetful {A} (m : M A) : leaves m -> forgetful m.
Proof. intros H w. specialize (H w). injection H as H1 H2. split; [done | by left]. Qed.
Lemma forgetful_bind {A B} (m : M A) (k : A -> M B) : leaves m -> (forall a, forgetful (k a)) -> forgetful (bind m k).
Proof.
  intros Hm Hk w. unfold bind. specialize (Hm w). injection Hm as H2 H1. destruct (m w) as [[a|e] w1]; simpl in *; [| split; [done | by left]].
  destruct (Hk a w1) as [G1 G2]. unfold forgets. rewrite <- H1, <- H2. by split.
Qed.
Lemma forgetful_invalidate {A} tid name (a : A) : forgetful (bind (_invalidate tid name) (fun _ => ret a)).
Proof. intros w. split; [done |]. right. by eexists. Qed.
Lemma forgetful_closed {A} s (m : M A) : forgetful m -> forgetful (with_session s m).
Proof. intros H w. unfold with_session, finally. specialize (H (closed s w)). destruct (m (closed s w)) as [r w1]. exact H. Qed.
Lemma enable_forgetful s tenant name u l : forgetful (enable_module MODULES s tenant name u l).
Proof.
  unfold enable_module. destruct (get_module _ _); [| apply leaves_forgetful; stable_code].
  apply forgetful_bind; [apply leaves_missing |]. intros missing. destruct (negb _); [apply leaves_forgetful; stable_code |].
  do 5 (apply forgetful_bind; [stable_code |]; intros ?). apply forgetful_invalidate.
Qed.
Lemma disable_forgetful s tenant name u l : forgetful (disable_module MODULES s tenant name u l).
Proof.
  unfold disable_module. destruct (get_module _ _); [| apply leaves_forgetful; stable_code].
  apply forgetful_bind; [stable_code |]. intros [row|]; [| apply leaves_forgetful; stable_code].
  destruct (negb _); [apply leaves_forgetful; stable_code |]. do 4 (apply forgetful_bind; [stable_code |]; intros ?). apply forgetful_invalidate.
Qed.

Lemma is_module_enabled_run tid name w : (forall s, w_pend w s = id) ->
  is_module_enabled Ctl tid name w =
  match live w tid name with
  | Some b => (Ok b, w)
  | None => let b := enabled_in (w_db w TenantModules) tid name in
      (Ok b, set_states (<[(tid, name) := (b, w_now w + _STATE_TTL)]> (w_states w)) w)
  end.
Proof.
  intros Hp. unfold is_module_enabled, cached_state. unfold bind at 1, live. set (o := match w_states w !! _ with Some _ => _ | None => _ end).
  destruct o as [b|]; [done |]. cbn beta iota. run. unfold sees. rewrite Hp. unfold enabled_in, bind, remember_state, ret. reflexivity.
Qed.
End cache.

(** ** The cache is never old *)

Section activation.
Context {P : Platform} {OT : Others} {HX : Httpx} {FL : Floats}.
Context (MODULES : list ModuleManifest).
Implicit Types (w : World).

(** A process, and the states of the table it could have read, latest first. *)
Record Seen := { sn_world : World; sn_past : list (Z * list TenantModule) }.
Definition see w (past : list (Z * list TenantModule)) : Seen := {| sn_world := w; sn_past := (w_now w, w_db w TenantModules) :: past |}.

(** Requests that ask, activate or deactivate in this process; and time passes, in
    which anyone may change the tables. *)
Inductive activation_step : Seen -> Seen -> Prop :=
  | act_ask tid name x : activation_step x (see (request (is_module_enabled Ctl tid name) (sn_world x)).2 (sn_past x))
  | act_enable tenant name u l x : activation_step x (see (request (enable_module MODULES Ctl tenant name u l) (sn_world x)).2 (sn_past x))
  | act_disable tenant name u l x : activation_step x (see (request (disable_module MODULES Ctl tenant name u l) (sn_world x)).2 (sn_past x))
  | act_elapse d db x : 0 <= d -> activation_step x (see (set_now (w_now (sn_world x) + d) (set_db db (sn_world x))) (sn_past x)).

(** Every entry was true of the table when it was made. *)
Definition cache_true (x : Seen) : Prop :=
  In (w_now (sn_world x), w_db (sn_world x) TenantModules) (sn_past x) /\
  forall tid name b until, w_states (sn_world x) !! (tid, name) = Some (b, until) ->
    exists t rows, In (t, rows) (sn_past x) /\ until = t + _STATE_TTL /\ t <= w_now (sn_world x) /\ enabled_in rows tid name = b.

Lemma ask_run tid name w : w_pend w Ctl = id -> request (is_module_enabled Ctl tid name) w =
  match live w tid name with
  | Some b => (Ok b, closed Ctl (closed Ctl w))
  | None => let b := enabled_in (w_db w TenantModules) tid name in
      (Ok b, closed Ctl (set_states (<[(tid, name) := (b, w_now w + _STATE_TTL)]> (w_states w)) (closed Ctl w)))
  end.
Proof.
  intros Hp. unfold request, with_session, finally, is_module_enabled, cached_state. unfold bind at 1. cbn [closed set_pend w_states w_now].
  change (match w_states w !! (tid, name) with Some (enabled, until) => if w_now w <? until then Some enabled else None | None => None end)
    with (live w tid name).
  destruct (live w tid name) as [b|]; [done |]. cbn beta iota. unfold bind at 1. rewrite (scalar_unscoped Ctl TenantModules) by done.
  by rewrite (sees_closed w Ctl).
Qed.

Lemma forgets_true x w' : cache_true x -> forgets (sn_world x) w' -> cache_true (see w' (sn_past x)).
Proof.
  intros [H1 H2] [Hn Hs]. split; [by left |]. simpl. rewrite Hn. intros tid name b until H.
  assert (Hin : w_states (sn_world x) !! (tid, name) = Some (b, until)).
  { destruct Hs as [Hs|[k Hs]]; rewrite Hs in H; [done |]. by apply lookup_delete_Some in H as [_ H]. }
  destruct (H2 _ _ _ _ Hin) as (t & rows & Ht & E). exists t, rows. split; [by right | exact E].
Qed.
Lemma step_true x y : activation_step x y -> w_pend (sn_world x) Ctl = id -> cache_true x -> cache_true y /\ w_pend (sn_world y) Ctl = id.
Proof.
  assert (Hc : forall A (m : M A) w, w_pend (request m w).2 Ctl = id).
  { intros A m w. unfold request, with_session, finally. destruct (m (closed Ctl w)) as [r w1]. simpl. by destruct (sess_eq_dec Ctl Ctl). }
  destruct 1 as [tid name x|tenant name u l x|tenant name u l x|d db x Hd]; intros Hp Hx.
  - split; [| apply Hc]. rewrite ask_run by done. pose proof Hx as [H1 H2]. destruct (live (sn_world x) tid name) as [b|].
    + by apply (forgets_true x); [| split; [| left]].
    + cbn [snd]. split; [by left |]. simpl. intros tid' name' b' until H. apply lookup_insert_Some in H as [[E1 E2]|[_ H]].
      * injection E1 as <- <-. injection E2 as <- <-. eexists _, _. split; [by left |]. by split.
      * destruct (H2 _ _ _ _ H) as (t & rows & Ht & E). exists t, rows. split; [by right | exact E].
  - split; [| apply Hc]. apply forgets_true; [done |]. apply (forgetful_closed Ctl), enable_forgetful.
  - split; [| apply Hc]. apply forgets_true; [done |]. apply (forgetful_closed Ctl), disable_forgetful.
  - split; [| done]. destruct Hx as [H1 H2]. split; [by left |]. simpl. intros tid name b until H.
    destruct (H2 _ _ _ _ H) as (t & rows & Ht & E1 & E2 & E3). exists t, rows. split; [by right |]. split; [done |]. split; [lia | done].
Qed.

(** C25: how late the gate of a module may be. Whatever requests and changes there
    have been since the process started with an empty cache, in this process or
    by others behind its back, the answer it acts on was true of the table less
    than ten seconds ago. *)
Theorem activation_is_recent w0 x tid name : w_states w0 = ∅ -> w_pend w0 Ctl = id ->
  rtc activation_step (see w0 []) x ->
  exists b t rows, (request (is_module_enabled Ctl tid name) (sn_world x)).1 = Ok b /\
    In (t, rows) (sn_past x) /\ w_now (sn_world x) - _STATE_TTL < t <= w_now (sn_world x) /\ enabled_in rows tid name = b.
Proof.
  intros Hs Hp Hr.
  assert (H : cache_true x /\ w_pend (sn_world x) Ctl = id).
  { assert (H0 : cache_true (see w0 []) /\ w_pend (sn_world (see w0 [])) Ctl = id).
    { split; [| done]. split; [by left |]. simpl. rewrite Hs. intros tid' name' b until H. by rewrite lookup_empty in H. }
    clear Hs Hp. induction Hr as [|x y z Hstep _ IH]; [done |]. apply IH. by eapply step_true; [exact Hstep | |]; apply H0. }
  destruct H as [[H1 H2] Hc]. rewrite ask_run by done. unfold live.
  destruct (w_states (sn_world x) !! (tid, name)) as [[b until]|] eqn:E.
  - destruct (H2 _ _ _ _ E) as (t & rows & Ht & -> & Hle & Hb). destruct (Z.ltb_spec (w_now (sn_world x)) (t + _STATE_TTL)).
    + exists b, t, rows. split; [done |]. split; [done |]. split; [lia | done].
    + eexists _, _, _. split; [done |]. split; [exact H1 |]. split; [unfold _STATE_TTL, second; lia | done].
  - eexists _, _, _. split; [done |]. split; [exact H1 |]. split; [unfold _STATE_TTL, second; lia | done].
Qed.
End activation.

(** ** The gate *)

Section gate.
Context {P : Platform} {OT : Others} {HX : Httpx} {FL : Floats}.
Context (MODULES : list ModuleManifest).
Implicit Types (w : World).

(** What the gate believes. *)
Definition believed w (tid : N) (name : string) : bool :=
  match live w tid name with Some b => b | None => enabled_in (w_db w TenantModules) tid name end.
Definition module_closed (name : string) : exn := HTTPException 403 ("Module « " +:+ name +:+ " » non activé pour ce tenant.").

Lemma believed_run tid name w : (forall s, w_pend w s = id) ->
  exists cache, is_module_enabled Ctl tid name w = (Ok (believed w tid name), set_states cache w).
Proof.
  intros Hp. rewrite is_module_enabled_run by done. unfold believed. destruct (live w tid name); [exists (w_states w) | eexists; reflexivity].
  by destruct w.
Qed.
Lemma visited_states w rq : w_states (visited w rq) = w_states w.
Proof. unfold visited. by destruct (session_user _ _ _) as [[a u]|]. Qed.

(** The handler of a module's route runs when the module is believed active and
    the role has the permission. *)
Lemma module_route_run {A} name permission rq (handler : TenantContext -> M A) w : quiet w ->
  let run := module_route name permission rq handler w in
  match resolution (w_db w) (w_now w) rq with
  | Raise e => exists w', run = (Raise e, w') /\ same_world w' (visited w rq)
  | Ok (ctx, a, u) => exists cache w1, same_world w1 (set_states cache (set_tenant (Some ctx) (visited w rq))) /\
      run = let '(r, w2) := (if believed w (tc_tenant_id ctx) name then
                               if role_has_permission (w_grants w) (default EmptyString (tc_role ctx)) permission then handler ctx w1
                               else (Raise (HTTPException 403 "Permission refusée"), w1)
                             else (Raise (module_closed name), w1)) in (r, closed Ctl (set_tenant None w2))
  end.
Proof.
  intros Hq. cbn zeta. unfold module_route.
  pose proof (resolved_run rq (fun _ ctx => require_module_enabled name ctx (check_permission permission ctx (handler ctx))) w Hq) as H.
  cbn zeta in H. destruct (resolution (w_db w) (w_now w) rq) as [[[ctx a] u]|e] eqn:Er; [| exact H].
  destruct H as (w0 & H0 & E). destruct (visited_fields w rq) as (Vp & _ & Vg & Vn & _ & _ & Vd).
  assert (Hp : forall s, w_pend w0 s = id) by (intros s; rewrite (sw_pend _ _ H0); simpl; by rewrite Vp, (proj1 Hq)).
  destruct (resolution_role _ _ _ _ _ _ Er) as (role & Hrole).
  assert (Hlive : forall tid n, live w0 tid n = live w tid n).
  { intros tid n. unfold live. rewrite (sw_states _ _ H0), (sw_now _ _ H0). simpl. by rewrite visited_states, Vn. }
  assert (Hen : forall tid n, enabled_in (w_db w0 TenantModules) tid n = enabled_in (w_db w TenantModules) tid n).
  { intros tid n. rewrite (sw_db _ _ H0). simpl. by rewrite Vd. }
  assert (Hg : w_grants w0 = w_grants w) by (rewrite (sw_grants _ _ H0); exact Vg).
  destruct (believed_run (tc_tenant_id ctx) name w0 Hp) as (cache & Eb).
  exists cache, (set_states cache w0). split.
  { destruct H0. constructor; simpl in *; done. }
  assert (Hb : believed w0 (tc_tenant_id ctx) name = believed w (tc_tenant_id ctx) name) by (unfold believed; by rewrite Hlive, Hen).
  set (k := check_permission permission ctx (handler ctx)) in *.
  assert (Ek : require_module_enabled name ctx k w0 =
    (if believed w (tc_tenant_id ctx) name then k else raise (module_closed name)) (set_states cache w0)).
  { unfold require_module_enabled, bind. rewrite Eb, Hb. destruct (believed w _ name); reflexivity. }
  etransitivity; [exact E |]. rewrite Ek. clear E Ek.
  destruct (believed w _ name); [| reflexivity]. unfold k, check_permission. rewrite Hrole. cbn [set_states w_grants]. rewrite Hg.
  change (default EmptyString (Some role)) with role. destruct (role_has_permission _ _ _); reflexivity.
Qed.
(** A deactivation that goes through. *)
Lemma disable_run tenant name u l w o w1 : quiet w -> enabled_in (w_db w TenantModules) (tn_id tenant) name = true ->
  request (disable_module MODULES Ctl tenant name u l) w = (Ok o, w1) ->
  quiet w1 /\ w_now w1 = w_now w /\ live w1 (tn_id tenant) name = None /\ enabled_in (w_db w1 TenantModules) (tn_id tenant) name = false /\
  (forall t, t <> TenantModules -> t <> AuditEvents -> w_db w1 t = w_db w t) /\
  exists e, event_is (tn_id tenant) (w_now w) "core.module.disabled" "module" name [("module", JStr name)] u (ostr_or l "system") e /\
    w_db w1 AuditEvents = w_db w AuditEvents ++ [e].
Proof.
  intros [Hp Ht] Hen. unfold request, with_session, finally, disable_module. destruct (get_module MODULES name) as [mf|]; [| done].
  set (wc := closed Ctl w). assert (Hs : sees wc Ctl = w_db w) by exact (sees_closed w Ctl).
  unfold bind at 1. rewrite (scalar_unscoped Ctl TenantModules) by done. rewrite Hs. revert Hen. unfold enabled_in at 1.
  case_query as [m|] Em; [| done]. intros ->. cbn [negb]. pose proof Em as [_ Hof]%first_where_Some.
  unfold bind at 1. rewrite (modify_unscoped Ctl TenantModules) by done. cbn beta iota.
  set (off := upd TenantModules (update_where (same_row TenantModules m) (with_enabled false))).
  unfold bind at 1, record_audit_event_for_tenant.
  pose proof (audit_alone_run 0 {| tc_tenant_id := tn_id tenant; tc_slug := tn_slug tenant; tc_role := None |} "core.module.disabled" "module" name
    [("module", JStr name)] u (ostr_or l "system") (wrote Ctl off wc)) as Ha.
  destruct (tenant_context _ _ _) as [ra w2]. destruct Ha as (Ta & Pa & (Na & Oa & _) & _ & Ha).
  destruct Ha as [[-> _]|(-> & e & He & Da)]; [done |]. cbn beta iota.
  assert (Ed : sees w2 Ctl = off (upd AuditEvents (fun rows => rows ++ [e]) (w_db w))).
  { unfold sees. rewrite Pa, Da. destruct (sess_eq_dec (Own 0) Ctl); [done |]. change (w_pend (wrote Ctl off wc) Ctl) with (w_pend (set_pend Ctl (fun db => off (w_pend wc Ctl db)) wc) Ctl).
    rewrite pend_set. unfold wc, closed. by rewrite pend_set. }
  rewrite bind_commit. set (w3 := set_pend Ctl id (set_db (sees w2 Ctl) w2)).
  unfold bind at 1. unfold session_refresh. unfold bind at 1. cbn [_guard_orm_execute statement is_column_load orb]. unfold ret at 1. unfold bind at 1, view.
  destruct (first_where _ (sees w3 Ctl TenantModules)) as [m'|]; [| done]. unfold ret at 1, _invalidate, bind, ret. intros [= <- <-].
  assert (Hdb : w_db w3 = off (upd AuditEvents (fun rows => rows ++ [e]) (w_db w))) by exact Ed.
  split; [split |].
  { intros s. cbn -[id]. destruct (sess_eq_dec Ctl s); [done |]. cbn -[id]. destruct (sess_eq_dec Ctl s); [done |]. rewrite Pa.
    destruct (sess_eq_dec (Own 0) s); [done |]. cbn -[id]. destruct (sess_eq_dec Ctl s); [done |]. destruct (sess_eq_dec Ctl s); [done |]. apply Hp. }
  { cbn. rewrite Ta. exact Ht. }
  split; [exact Na |]. split; [unfold live; cbn [closed set_pend set_states w_states]; by rewrite lookup_delete_eq |].
  split; [| split].
  - cbn [closed set_pend set_states w_db]. rewrite Hdb. unfold off. rewrite upd_eq, (upd_ne AuditEvents) by done. unfold enabled_in.
    rewrite first_where_update by done. rewrite Em. simpl. by rewrite N.eqb_refl.
  - intros t H1 H2. cbn [closed set_pend set_states w_db]. rewrite Hdb. unfold off. by rewrite !upd_ne.
  - exists e. split; [exact He |]. cbn [closed set_pend set_states w_db]. rewrite Hdb. unfold off. by rewrite upd_ne, upd_eq.
Qed.

(** C26: deactivating a module cuts its routes. Once the process has deactivated an
    active module of a tenant, every request to a route of the module that
    resolves to this tenant is refused, whoever sends it and whatever the route
    would do: nothing of it runs. The module's data is untouched, and the
    deactivation is journalled. *)
Theorem disabling_closes_the_module tenant name u l w o w1 : quiet w ->
  enabled_in (w_db w TenantModules) (tn_id tenant) name = true ->
  request (disable_module MODULES Ctl tenant name u l) w = (Ok o, w1) ->
  (forall t, t <> TenantModules -> t <> AuditEvents -> w_db w1 t = w_db w t) /\
  (exists e, event_is (tn_id tenant) (w_now w) "core.module.disabled" "module" name [("module", JStr name)] u (ostr_or l "system") e /\
     w_db w1 AuditEvents = w_db w AuditEvents ++ [e]) /\
  forall A permission rq (handler : TenantContext -> M A),
    (forall ctx a u', resolution (w_db w1) (w_now w1) rq = Ok (ctx, a, u') -> tc_tenant_id ctx = tn_id tenant) ->
    exists e w2, module_route name permission rq handler w1 = (Raise e, w2) /\
      (forall t, t <> Sessions -> w_db w2 t = w_db w1 t) /\ w_out w2 = w_out w1.
Proof.
  intros Hq Hen E. destruct (disable_run tenant name u l w o w1 Hq Hen E) as (Hq1 & _ & Hl & Hd & Ho & He).
  split; [exact Ho |]. split; [exact He |]. intros A permission rq handler Hr.
  destruct (visited_fields w1 rq) as (_ & _ & _ & _ & _ & Vo & Vd).
  pose proof (module_route_run name permission rq handler w1 Hq1) as H. cbn zeta in H.
  destruct (resolution (w_db w1) (w_now w1) rq) as [[[ctx a] u']|e].
  - destruct H as (cache & w2 & Hw2 & Em). rewrite (Hr _ _ _ eq_refl) in Em. unfold believed in Em. rewrite Hl, Hd in Em.
    exists (module_closed name), (closed Ctl (set_tenant None w2)). split; [exact Em |].
    split; [intros t Hne; simpl; rewrite (sw_db _ _ Hw2); by apply Vd | simpl; rewrite (sw_out _ _ Hw2); exact Vo].
  - destruct H as (w2 & Em & Hw2). exists e, w2. split; [exact Em |].
    split; [intros t Hne; rewrite (sw_db _ _ Hw2); by apply Vd | by rewrite (sw_out _ _ Hw2)].
Qed.
End gate.

(** ** Periodic tasks *)

Section periodic.
Context {P : Platform} {OT : Others} {HX : Httpx} {FL : Floats}.
Context (MODULES : list ModuleManifest).
Implicit Types (w : World).

Lemma active_tenant_run tid w : _active_tenant tid w =
  (Ok match first_where (fun t => (tn_id t =? tid)%N) (w_db w Tenants) with Some t => if is_active t then Some t else None | None => None end,
   closed (Own 1) (closed (Own 1) w)).
Proof.
  unfold _active_tenant, with_session, finally. unfold bind at 1. rewrite (scalar_unscoped (Own 1) Tenants) by done. by rewrite sees_closed.
Qed.

Lemma contained_run (m : M (option unit)) w :
  catch (let* done := m in ret ((fun _ => true) <$> done)) (fun _ => Some (ret (Some false))) w =
  (Ok match (m w).1 with Ok (Some _) => Some true | Ok None => None | Raise _ => Some false end, (m w).2).
Proof. unfold catch, bind, ret. by destruct (m w) as [[[u|]|e] w1]. Qed.

(** The tick of one tenant is passed over. *)
Definition passed_over (r : result (option bool)) w w' : Prop :=
  r = Ok (Some false) /\ w_db w' = w_db w /\ w_out w' = w_out w /\ w_kv w' = w_kv w.

(** One tick for one tenant. It is passed over, with nothing changed, when the
    task is not in the registry, the tenant is not active, or the lock of this
    module, task and tenant is held. Otherwise the function runs, once, in the
    tenant's context and with the lock; whatever it raises stays here: the answer
    says whether it went through, what it committed stands, the caller's context
    is back and the lock is not left with the token it was taken with. Whether the
    module is active is not asked again. *)
Theorem unit_runs_under_lock name task_name tid w :
  let '(r, w') := run_periodic_unit MODULES name task_name tid w in
  let key := lock_key (_lock_name name task_name tid) in
  w_tenant w' = w_tenant w /\
  match _find_task MODULES name task_name, first_where (fun t => (tn_id t =? tid)%N) (w_db w Tenants) with
  | Some task, Some tenant =>
      if is_active tenant && is_none (kv_look (w_now w) key (w_kv w)) then
        exists token w1 rf w2,
          w_tenant w1 = Some (_context_for tenant) /\ w_db w1 = w_db w /\ w_now w1 = w_now w /\ w_out w1 = w_out w /\
          kv_look (w_now w) key (w_kv w1) = Some (KStr token, Some (w_now w + LOCK_TTL_SECONDS * second)) /\
          pt_fn task tid w1 = (rf, w2) /\
          r = Ok match rf with Ok (Some _) => Some true | Ok None => None | Raise _ => Some false end /\
          w_db w' = w_db w2 /\ w_now w' = w_now w2 /\ w_out w' = w_out w2 /\
          forall d, kv_look (w_now w') key (w_kv w') <> Some (KStr token, d)
      else passed_over r w w'
  | _, _ => passed_over r w w'
  end.
Proof.
  unfold run_periodic_unit. destruct (_find_task MODULES name task_name) as [task|]; [| by repeat split].
  unfold bind at 1. rewrite active_tenant_run. cbn beta iota.
  destruct (first_where (fun t => (tn_id t =? tid)%N) (w_db w Tenants)) as [tenant|] eqn:Et; [| by repeat split].
  destruct (is_active tenant); [| by repeat split]. cbn [andb].
  set (w0 := closed (Own 1) (closed (Own 1) w)). unfold bind at 1.
  pose proof (acquire_lock_run (_lock_name name task_name tid) LOCK_TTL_SECONDS w0 ltac:(done)) as Ha. cbn zeta in Ha.
  destruct (acquire_lock _ _ w0) as [ra w1]. destruct Ha as (A & D & N & Ha).
  destruct Ha as [(-> & Hk & K)|(-> & Hk & K)].
  - assert (Hn : is_none (kv_look (w_now w) (lock_key (_lock_name name task_name tid)) (w_kv w)) = false).
    { change (kv_look (w_now w0) (lock_key (_lock_name name task_name tid)) (w_kv w0) <> None) in Hk.
      change (w_now w) with (w_now w0). change (w_kv w) with (w_kv w0). by destruct (kv_look _ _ (w_kv w0)). }
    rewrite Hn. unfold ret. split; [by rewrite (ar_tenant _ _ A) |]. split; [done |]. split; [exact D |]. split; [by rewrite (ar_out _ _ A) | exact K].
  - change (w_now w0) with (w_now w) in *. change (w_kv w0) with (w_kv w) in *. rewrite Hk. cbn [is_none].
    set (token := uuid_hex _) in *. unfold tenant_context, push_tenant. unfold bind at 1, finally at 1, finally at 1.
    set (w2 := set_tenant (Some (_context_for tenant)) w1). rewrite contained_run.
    apply first_where_Some in Et as [_ Et]. bool_hyps. rewrite Et.
    destruct (pt_fn task tid w2) as [rf w3] eqn:Ef. cbn beta iota delta [fst snd].
    pose proof (release_lock_run (_lock_name name task_name tid) token w3) as Hr.
    destruct (release_lock _ token w3) as [rr w4]. destruct Hr as (_ & A4 & D4 & N4 & Hr & _). cbn [snd fst].
    split; [exact (ar_tenant _ _ A) |]. exists token, w2, rf, w3. split; [done |]. split; [exact D |]. split; [exact N |].
    split; [exact (ar_out _ _ A) |]. split; [exact K |]. split; [exact Ef |]. split; [done |]. split; [exact D4 |]. split; [exact N4 |].
    split; [exact (ar_out _ _ A4) |]. intros d. change (kv_look (w_now w4) (lock_key (_lock_name name task_name tid)) (w_kv w4) <> Some (KStr token, d)).
    rewrite N4. apply Hr.
Qed.
End periodic.

(** ** Name spaces and registration *)

(** A name space belongs to one module. *)
Lemma split_at_dot n n' r r' : has_char "." n = false -> has_char "." n' = false ->
  n +:+ String "." r = n' +:+ String "." r' -> n = n'.
Proof.
  revert n'. induction n as [|c n IH]; intros [|c' n'] Hn Hn' E; cbn [has_char String.append] in *; try done.
  - injection E as <- _. by rewrite (proj2 (char_eqb_eq _ _) eq_refl) in Hn'.
  - injection E as -> _. by rewrite (proj2 (char_eqb_eq _ _) eq_refl) in Hn.
  - injection E as <- E. bool_hyps. f_equal. by apply IH.
Qed.
Lemma module_name_no_dot name : MODULE_NAME_RE name = true -> has_char "." name = false.
Proof.
  destruct name as [|c rest]; [done |]. unfold MODULE_NAME_RE. intros H. bool_hyps. cbn [has_char]. apply orb_false_iff. split.
  - destruct (char_eqb c ".") eqn:E; [| done]. apply char_eqb_eq in E. subst c. done.
  - apply (all_chars_no_char is_word_lower); [| done]. intros d Hd. destruct (char_eqb d ".") eqn:E; [| done]. apply char_eqb_eq in E. by subst d.
Qed.
Lemma namespace_unique n n' p : MODULE_NAME_RE n = true -> MODULE_NAME_RE n' = true ->
  startswith p (n +:+ ".") = true -> startswith p (n' +:+ ".") = true -> n = n'.
Proof.
  intros Hn Hn' (t & ->)%startswith_spec (t' & E)%startswith_spec.
  assert (Ea : forall a b : string, (a +:+ ".") +:+ b = a +:+ String "." b) by (intros a b; induction a as [|c a IH]; simpl; [done | by rewrite IH]).
  rewrite !Ea in E. apply (split_at_dot n n' t t'); [by apply module_name_no_dot | by apply module_name_no_dot | exact E].
Qed.

Section registration.
Context {P : Platform}.
Context (MODULES : list ModuleManifest).
Abbreviation registries := (Grants * Handlers (ConnectorEvent -> M unit))%type.

Lemma ex_in_cons {A} (a : A) l (Q : A -> Prop) : (exists x, In x (a :: l) /\ Q x) <-> Q a \/ exists x, In x l /\ Q x.
Proof. split; [intros (x & [<-|H] & Hx); [by left | right; by eauto] | intros [H|(x & H & Hx)]; [exists a | exists x]; split; simpl; auto]. Qed.

(** The grants of a role. *)
Definition holds (g : Grants) (role p : string) : Prop := p ∈ default ∅ (module_role_grants g !! role).

Lemma grant_roles_ok name roles g g' : grant_roles name roles g = (Ok tt, g') -> forall role p,
  p ∈ default ∅ (g' !! role) <-> p ∈ default (∅ : gset string) (g !! role) \/ (p = name /\ In role roles).
Proof.
  revert g. induction roles as [|r roles IH]; intros g; cbn [grant_roles].
  - intros [= <-] role p. simpl. tauto.
  - destruct (g !! r) as [s|] eqn:E; [| done]. intros H role p. rewrite (IH _ H role p). destruct (decide (r = role)) as [->|Hne].
    + rewrite lookup_insert_eq, E. simpl. set_solver.
    + rewrite lookup_insert_ne by done. simpl. intuition congruence.
Qed.
Lemma register_permissions_ok l g g' : register_permissions l g = (Ok tt, g') -> forall role p,
  holds g' role p <-> holds g role p \/ exists q, In q l /\ mp_name q = p /\ In role (mp_roles q).
Proof.
  revert g. induction l as [|q l IH]; intros g; cbn [register_permissions].
  - intros [= <-] role p. split; [by left |]. intros [H|(q & [] & _)]. done.
  - destruct (register_module_permission (mp_name q) (mp_roles q) g) as [[[]|e] g1] eqn:E; [| done]. intros H role p. rewrite (IH _ H role p).
    assert (H1 : holds g1 role p <-> holds g role p \/ (p = mp_name q /\ In role (mp_roles q))).
    { revert E. unfold register_module_permission. destruct (negb _); [done |]. destruct (grant_roles _ _ _) as [r rg] eqn:Eg. intros [= -> <-].
      exact (grant_roles_ok _ _ _ _ Eg role p). }
    rewrite H1, ex_in_cons. intuition congruence.
Qed.
Lemma handlers_registered (l : list ConnectorEventSpec) (h : Handlers (ConnectorEvent -> M unit)) cap :
  event_handlers (List.fold_left (fun h e => on_connector_event (ce_capability e) (ce_handler e) h) l h) cap =
  event_handlers h cap ++ List.map ce_handler (List.filter (fun e => str_eqb (ce_capability e) cap) l).
Proof.
  revert h. induction l as [|e l IH]; intros h; simpl; [by rewrite app_nil_r |]. rewrite IH, event_handlers_registered, <- app_assoc.
  by destruct (str_eqb (ce_capability e) cap).
Qed.
Lemma register_modules_ok ms r r' : register_modules ms r = (Ok tt, r') ->
  (forall role p, holds r'.1 role p <-> holds r.1 role p \/ exists m, In m ms /\ exists q, In q (mm_permissions m) /\ mp_name q = p /\ In role (mp_roles q)) /\
  (forall cap, event_handlers r'.2 cap = event_handlers r.2 cap ++
     flat_map (fun m => List.map ce_handler (List.filter (fun e => str_eqb (ce_capability e) cap) (mm_connector_events m))) ms).
Proof.
  revert r. induction ms as [|m ms IH]; intros r; cbn [register_modules].
  - intros [= <-]. split; [| intros cap; by rewrite app_nil_r]. intros role p. split; [by left |]. intros [H|(m & [] & _)]. done.
  - destruct (register_permissions (mm_permissions m) r.1) as [[[]|e] g] eqn:E; [| done]. intros H. destruct (IH _ H) as [H1 H2]. split.
    + intros role p. rewrite H1. cbn [fst]. rewrite (register_permissions_ok _ _ _ E role p), ex_in_cons. tauto.
    + intros cap. rewrite H2. cbn [snd]. by rewrite handlers_registered, <- app_assoc.
Qed.

(** What the start-up registers. When it succeeds, the registry is a valid one,
    every module's router is mounted behind the gate of that very module, and,
    whatever had been registered before, a role has a permission exactly
    when the core gives it or a module attaches it to that role; a permission is
    attached by one module only; and the handlers of a capability are those the
    modules subscribe, in order. *)
Theorem runtime_registers_exactly mounted (r r' : registries) : mount_modules MODULES r = (Ok mounted, r') ->
  valid_registry MODULES /\
  mounted = List.map (fun m => ("/api/v1/modules/" +:+ mm_name m, mm_name m, mm_router m)) MODULES /\
  (forall role p, role_has_permission r'.1 role p = true <->
     str_in p (core_permissions role) = true \/
     exists m, In m MODULES /\ exists q, In q (mm_permissions m) /\ mp_name q = p /\ In role (mp_roles q)) /\
  (forall m m' q q', In m MODULES -> In m' MODULES -> In q (mm_permissions m) -> In q' (mm_permissions m') -> mp_name q = mp_name q' -> m = m') /\
  (forall cap, event_handlers r'.2 cap =
     flat_map (fun m => List.map ce_handler (List.filter (fun e => str_eqb (ce_capability e) cap) (mm_connector_events m))) MODULES).
Proof.
  unfold mount_modules, register_runtime. pose proof (validate_from_spec [] MODULES) as Hv. unfold validate_registry.
  destruct (validate_from [] MODULES) as [[]|e]; [| done]. destruct Hv as [[Hn Hm] _].
  destruct (register_modules _ _) as [[[]|e] r1] eqn:H; [| done]. intros [= <- ->]. destruct (register_modules_ok _ _ _ H) as [H1 H2].
  split; [by split |]. split; [done |]. split; [| split; [| exact H2]].
  - intros role p. unfold role_has_permission. rewrite orb_true_iff, bool_decide_eq_true. fold (holds r'.1 role p). rewrite H1.
    assert (H0 : ~ holds (reset_module_permissions r.1) role p).
    { unfold holds, reset_module_permissions. cbn [module_role_grants]. rewrite lookup_fmap. destruct (module_role_grants r.1 !! role); simpl; set_solver. }
    cbn [fst]. tauto.
  - intros m m' q q' Hi Hi' Hq Hq' E. apply (unique_by_eq mm_name MODULES); [exact Hn | done | done |].
    destruct (Hm m Hi) as (N1 & P1 & _), (Hm m' Hi') as (N2 & P2 & _). apply (namespace_unique _ _ (mp_name q) N1 N2); [by apply P1 | rewrite E; by apply P2].
Qed.
End registration.

(** ** The fan-out *)

Section fanout.
Context {P : Platform} {OT : Others} {HX : Httpx} {FL : Floats}.
Context (MODULES : list ModuleManifest).
Implicit Types (w : World).

Definition tenants_with w (name : string) : list N :=
  List.map mo_tenant_id (rows_where (fun m => str_eqb (mo_module_name m) name && mo_enabled m) (w_db w TenantModules)).

Lemma enqueue_run name task_name ids w :
  for_each ids (enqueue_unit name task_name) w = (Ok tt, set_out (w_out w ++ List.map (unit_task name task_name) ids) w).
Proof.
  revert w. induction ids as [|i ids IH]; intros w; simpl; [by rewrite app_nil_r; destruct w |].
  unfold enqueue_unit at 1. run. rewrite IH. simpl. by rewrite <- app_assoc.
Qed.

(** Who a tick is for. The fan-out of a known task publishes one unit task for
    every activation of the module in the table, in its order, and says how many;
    of an unknown one, nothing. It writes nothing, and the message of each unit
    task is one the worker performs for that tenant. *)
Theorem fanout_publishes_units name task_name w :
  let '(r, w') := run_periodic_fanout MODULES name task_name w in
  let ids := match _find_task MODULES name task_name with Some _ => tenants_with w name | None => [] end in
  r = Ok (Z.of_nat (length ids)) /\ w_db w' = w_db w /\ w_kv w' = w_kv w /\
  w_out w' = w_out w ++ List.map (unit_task name task_name) ids /\
  forall tid, In tid ids -> (tid < 2 ^ 128)%N ->
    exists args, unit_task name task_name tid = TaskPublished "automation.periodic_unit" [name; task_name; args] /\
      forall w1, periodic_unit_task MODULES name task_name args w1 = run_periodic_unit MODULES name task_name tid w1.
Proof.
  unfold run_periodic_fanout. destruct (_find_task MODULES name task_name) as [task|]; cbn zeta.
  2: { unfold ret. rewrite app_nil_r. repeat (split; [done |]). by intros tid []. }
  unfold enabled_tenant_ids, with_session, finally. unfold bind at 1. unfold bind at 1. rewrite (scalars_unscoped (Own 1) TenantModules) by done.
  rewrite sees_closed. fold (tenants_with w name). unfold ret at 1. cbn beta iota. unfold bind. rewrite enqueue_run. unfold ret.
  repeat (split; [done |]). intros tid _ Hu. exists (uuid_str tid). split; [done |]. intros w1. unfold periodic_unit_task, uuid_arg.
  by rewrite uuid_roundtrip.
Qed.
End fanout.

(** ** Running it *)

Definition toy : ModuleManifest (VK := simple_valkey) := {|
  mm_name := "toy"; mm_version := "1.0.0"; mm_title := "Toy"; mm_description := "";
  mm_router := [APIRoute "/play" [Dep None [Dep (Some "toy.play") []]]];
  mm_permissions := [{| mp_name := "toy.play"; mp_roles := [ROLE_MEMBER]; mp_description := "" |}];
  mm_periodic_tasks := [{| pt_name := "toy.tick"; pt_schedule_seconds := "60.0"; pt_fn := fun _ => raise KeyError |}];
  mm_connector_events := []; mm_required_capabilities := []; mm_audit_actions := [] |}.
Definition acme_toy : TenantModule := {| mo_id := 1; mo_tenant_id := 1; mo_module_name := "toy"; mo_enabled := true |}.
Definition toy_world : World (VK := simple_valkey) := set_db (upd TenantModules (fun _ => [acme_toy]) sample_db) sample_world.

Lemma toy_registers : exists mounted r', mount_modules (P := test_platform) [toy] (initial_grants, []) = (Ok mounted, r').
Proof.
  destruct (mount_modules (P := test_platform) [toy] (initial_grants, [])) as [r r'] eqn:E.
  eexists _, r'. apply (f_equal fst) in E. vm_compute in E. subst r. reflexivity.
Qed.
Lemma runtime_registers_exactly_witness : exists r' : Grants * Handlers (ConnectorEvent -> M (VK := simple_valkey) unit),
  role_has_permission r'.1 "member" "toy.play" = true /\ ~ role_has_permission r'.1 "admin" "toy.play" = true.
Proof.
  destruct toy_registers as (mounted & r' & E). exists r'.
  destruct (runtime_registers_exactly (P := test_platform) [toy] mounted (initial_grants, []) r' E) as (_ & _ & H & _). split.
  - apply H. right. exists toy. split; [left; reflexivity |]. eexists. split; [left; reflexivity |]. split; [reflexivity | left; reflexivity].
  - rewrite H. intros [Hc|(m & [<-|[]] & q & [<-|[]] & _ & [Hr|[]])]; [vm_compute in Hc; discriminate Hc | discriminate Hr].
Defined.

(** The table changes behind the back of a process that has just looked. *)
Definition toy_seen : Seen (P := test_platform) :=
  see (P := test_platform) (request (P := test_platform) (is_module_enabled (P := test_platform) Ctl 1 "toy") toy_world).2 (sn_past (see (P := test_platform) toy_world [])).
Definition toy_later : Seen (P := test_platform) :=
  see (P := test_platform) (set_now (w_now (sn_world toy_seen) + 5 * second) (set_db sample_db (sn_world toy_seen))) (sn_past toy_seen).
Lemma activation_is_recent_witness : exists b t rows,
  In (t, rows) (sn_past toy_later) /\ t0 - 5 * second < t <= t0 + 5 * second /\ enabled_in rows 1 "toy" = b.
Proof.
  destruct (activation_is_recent (P := test_platform) [toy] toy_world toy_later 1 "toy" eq_refl eq_refl) as (b & t & rows & _ & H1 & H2 & H3).
  - apply (rtc_l _ _ toy_seen); [exact (act_ask (P := test_platform) [toy] 1 "toy" (see (P := test_platform) toy_world [])) |].
    apply rtc_once. exact (act_elapse (P := test_platform) [toy] (5 * second) sample_db toy_seen ltac:(discriminate)).
  - exists b, t, rows. split; [exact H1 |]. split; [exact H2 | exact H3].
Defined.

Lemma disabling_closes_the_module_witness : exists o w1, request (P := test_platform) (disable_module (P := test_platform) [toy] Ctl acme "toy" None None) toy_world = (Ok o, w1) /\
  exists e w2, module_route (P := test_platform) "toy" "toy.play" alice_visit (fun _ => emit (EmailSent "a" "b" "c")) w1 = (Raise e, w2) /\ w_out w2 = w_out w1.
Proof.
  destruct (request (P := test_platform) (disable_module (P := test_platform) [toy] Ctl acme "toy" None None) toy_world) as [[o|e] w1] eqn:E;
    [| apply (f_equal fst) in E; vm_compute in E; discriminate E].
  exists o, w1. split; [reflexivity |].
  destruct (disabling_closes_the_module (P := test_platform) [toy] acme "toy" None None toy_world o w1 (conj (fun _ => eq_refl) eq_refl) eq_refl E)
    as (_ & _ & H).
  destruct (H unit "toy.play" alice_visit (fun _ => emit (EmailSent "a" "b" "c"))) as (e & w2 & H1 & _ & H2).
  - intros ctx a u Hr. apply (f_equal (fun x => resolution (P := test_platform) (w_db x.2) (w_now x.2) alice_visit)) in E. cbn [snd] in E. rewrite Hr in E.
    apply (f_equal (fun r => match r with Ok (ctx, _, _) => tc_tenant_id ctx | Raise _ => 0%N end)) in E. vm_compute in E. symmetry. exact E.
  - exists e, w2. split; [exact H1 | exact H2].
Defined.
