(* ===== verification/ConnectorSystem.v ===== *)
(** The connectors as a whole: the routes anyone may call, the webhooks, and the
    tasks of the workers, with other processes at work, all keep the invariant of the
    tokens at rest. *)
From S2P Require Import Prelude PyStr Hashing Base64 Json Config Tokens Models Permissions World Uuid Sample Orm AuthService Slug Deps Edge Journal Frame Http Directory AuthRouter Dates Iso Policy OAuth Providers Throttle Rely ConnectorTokens DirectoryRouter ConnectorRouter Webhooks Subscriptions ConnectorTasks.

(** ** Routes and loops, under rely and guarantee *)

Section rules.
Context {P : Platform}.
Variable T : table.
Variable good : row T -> Prop.
Hypothesis not_sessions : T <> Sessions.
Abbreviation keeps := (keeps T good).

Lemma keeps_for_loop {A B} (l : list A) (f : A -> B -> M B) b :
  (forall a b, In a l -> keeps (f a b)) -> keeps (fold_each l b f).
Proof.
  revert b. induction l as [|a l IH]; intros b H; [apply keeps_ret |]. simpl. apply keeps_bind; [apply H; by left |]. intros b'.
  apply IH. intros a' b'' Ha. apply H. by right.
Qed.
Lemma keeps_resolve_session s t : keeps (resolve_session s t).
Proof. apply (keeps_still _ _ [Sessions]); [apply still_resolve_session; by left | intros [?|[]]; congruence]. Qed.
Lemma keeps_current_auth_or_none rq : keeps (current_auth_or_none rq).
Proof. unfold current_auth_or_none. pose proof (keeps_resolve_session Ctl). keeps_code; auto. Qed.
Lemma keeps_require_permission {A} p rq auth (k : TenantContext -> M A) : (forall c, keeps (k c)) -> keeps (require_permission p rq auth k).
Proof.
  intros Hk. unfold require_permission, resolve_tenant, get_membership_row. destruct (extract_slug _) as [slug|]; [| keeps_code].
  apply keeps_bind; [keeps_code |]. intros [t|]; [| keeps_code].
  destruct (is_some (tn_deleted_at t)); [keeps_code |]. destruct (bool_decide _); [keeps_code |].
  destruct auth as [a|]; [| keeps_code]. apply keeps_bind; [keeps_code |]. intros [m|]; [| keeps_code].
  apply keeps_bind; [by apply keeps_pure |]. intros tok. apply keeps_finally; [| intros w; by apply keeps_world; intros; split; [| left]].
  intros w Hw. simpl. destruct (role_has_permission _ _ _); [by apply Hk | done].
Qed.
Lemma keeps_current_auth auth : keeps (current_auth auth).
Proof. unfold current_auth. keeps_code. Qed.
Lemma keeps_tenant_route {A} p rq (h : TenantContext -> CurrentAuth -> M A) : (forall c a, keeps (h c a)) -> keeps (tenant_route p rq h).
Proof.
  intros Hh. apply keeps_with_session, keeps_bind; [apply keeps_current_auth_or_none |]. intros auth.
  apply keeps_require_permission. intros c. apply keeps_bind; [apply keeps_current_auth |]. intros a. by apply keeps_get_tenant_session.
Qed.
Lemma keeps_permission_route {A} p rq (h : TenantContext -> CurrentAuth -> M A) : (forall c a, keeps (h c a)) -> keeps (permission_route p rq h).
Proof.
  intros Hh. apply keeps_with_session, keeps_bind; [apply keeps_current_auth_or_none |]. intros auth.
  apply keeps_require_permission. intros c. apply keeps_bind; [apply keeps_current_auth |]. intros a. apply Hh.
Qed.
Lemma keeps_reraise {A} (m : M A) (h : exn -> option (M A)) :
  keeps m -> (forall e k, h e = Some k -> exists e', k = raise e') -> keeps (catch m h).
Proof. intros Hm Hh. apply keeps_catch; [done |]. intros e k Ek. destruct (Hh e k Ek) as (e' & ->). apply keeps_raise. Qed.
Lemma keeps_add_other s t r : t <> T -> keeps (add s t r).
Proof. intros Ht. apply (keeps_still _ _ [t]); [apply still_add; by left | intros [?|[]]; congruence]. Qed.
Lemma keeps_modify_other s t r f : t <> T -> keeps (modify s t r f).
Proof. intros Ht. apply (keeps_still _ _ [t]); [apply still_modify; by left | intros [?|[]]; congruence]. Qed.
Lemma keeps_remove_other s t r : t <> T -> keeps (remove s t r).
Proof. intros Ht. apply (keeps_still _ _ [t]); [apply still_remove; by left | intros [?|[]]; congruence]. Qed.
End rules.

(** ** The tokens of the connections *)

Section sealed.
Context {P : Platform} {OT : Others} {HX : Httpx} {FL : Floats} {IF : IsoFormats}.
Context (registry : Handlers (ConnectorEvent -> M unit)).

Abbreviation keeps := (keeps Connections conn_ok).
Hypothesis others_ok : forall t n db kv, all_good Connections conn_ok db -> all_good Connections conn_ok (meanwhile t n db kv).1.
Hypothesis handlers_ok : forall c h e, In h (event_handlers registry c) -> keeps (h e).

#[local] Hint Resolve keeps_record keeps_refresh_connection keeps_revoke_connection keeps_fresh_access_token keeps_provider_http_request : keeps.
#[local] Hint Extern 1 (Rely.keeps _ _ (add _ _ _)) => (apply keeps_add_other; discriminate) : keeps.
#[local] Hint Extern 1 (Rely.keeps _ _ (modify _ Subscriptions _ _)) => (apply keeps_modify_other; discriminate) : keeps.
#[local] Hint Extern 1 (Rely.keeps _ _ (remove _ _ _)) => (apply keeps_remove_other; discriminate) : keeps.

Lemma conn_ok_check t c : conn_ok c -> conn_ok (with_check t c).
Proof. done. Qed.
Lemma conn_ok_last_error e c : conn_ok c -> conn_ok (with_last_error e c).
Proof. done. Qed.

Lemma keeps_google_channel s c k : keeps (_create_google_channel s c k).
Proof. unfold _create_google_channel. keeps_code. Qed.
Lemma keeps_graph_subscription s c k cap : keeps (_create_graph_subscription s c k cap).
Proof. unfold _create_graph_subscription. keeps_code. Qed.
Lemma keeps_stop s c sb : keeps (_stop_google_channel s c sb).
Proof. unfold _stop_google_channel. apply keeps_catch; [keeps_code | intros e k [= <-]; keeps_code]. Qed.
#[local] Hint Resolve keeps_google_channel keeps_graph_subscription keeps_stop : keeps.
Lemma keeps_renew_subscription s c sb k : keeps (renew_subscription s c sb k).
Proof. unfold renew_subscription. keeps_code. Qed.
Lemma keeps_ensure_subscriptions s c k : keeps (ensure_subscriptions s c k).
Proof.
  unfold ensure_subscriptions. apply keeps_bind; [apply keeps_scalars |]. intros rows. apply keeps_bind; [| intros _; apply keeps_ret].
  generalize (order_by String.leb (granted_capabilities c)). intros l. revert c.
  induction l as [|cap l IH]; intros c; [apply keeps_ret |]. cbn [ensure_all]. apply keeps_bind; [unfold ensure_one; keeps_code | done].
Qed.
#[local] Hint Resolve keeps_renew_subscription keeps_ensure_subscriptions : keeps.

Lemma keeps_active_tenants : keeps _active_tenants.
Proof. unfold _active_tenants. keeps_code. Qed.
Lemma keeps_route_key id : keeps (_route_key_for id).
Proof. unfold _route_key_for. keeps_code. Qed.
#[local] Hint Resolve keeps_active_tenants keeps_route_key : keeps.

Lemma keeps_refresh_tokens : keeps refresh_expiring_tokens.
Proof.
  unfold refresh_expiring_tokens. apply keeps_bind; [keeps_code |]. intros l. apply keeps_for_loop. intros t r _. unfold refresh_tenant.
  apply keeps_bind; [| intros n; keeps_code]. apply keeps_tenant_context, keeps_get_tenant_session, keeps_bind; [keeps_code |].
  intros cs. apply keeps_for_loop. intros c r' _. unfold refresh_one. apply keeps_bind; [keeps_code |]. intros now. destruct (negb _); [keeps_code |].
  apply keeps_bind; [| intros r''; keeps_code]. apply keeps_catch; [keeps_code |]. intros e k. destruct e; intros [= <-]; keeps_code.
Qed.
Lemma keeps_renew_locked s c sb : keeps (renew_locked s c sb).
Proof.
  unfold renew_locked. apply keeps_catch.
  - apply keeps_bind; [keeps_code |]. intros [k|]; [| keeps_code]. apply keeps_bind; [keeps_code |]. intros _.
    apply keeps_bind; [keeps_code |]. intros t. apply keeps_bind; [apply keeps_modify; intros r; apply conn_ok_check | intros _; keeps_code].
  - intros e k [= <-]. unfold renewal_failed. apply keeps_bind; [keeps_code |]. intros t.
    apply keeps_bind; [apply keeps_modify; intros r; by apply conn_ok_health | intros _; keeps_code].
Qed.
Lemma keeps_renew_all : keeps renew_expiring_subscriptions.
Proof.
  unfold renew_expiring_subscriptions. apply keeps_bind; [keeps_code |]. intros t. apply keeps_bind; [keeps_code |]. intros l.
  apply keeps_for_loop. intros tn r _. unfold renew_tenant.
  apply keeps_bind; [| intros n; keeps_code]. apply keeps_tenant_context, keeps_get_tenant_session, keeps_bind; [keeps_code |].
  intros sbs. apply keeps_for_loop. intros sb r' _. unfold renew_one. apply keeps_bind; [keeps_code |]. intros [c|]; [| keeps_code].
  destruct (negb _); [keeps_code |]. apply keeps_bind; [keeps_code |]. intros [tok|]; [| keeps_code].
  apply keeps_bind; [apply keeps_finally; [apply keeps_renew_locked | intros w; apply keeps_release] |]. intros turn. keeps_code.
Qed.
Lemma keeps_sync slug id : keeps (sync_connection_subscriptions slug id).
Proof.
  unfold sync_connection_subscriptions. apply keeps_bind; [keeps_code |]. intros l. destruct (rows_where _ l) as [|tn ?]; [keeps_code |].
  apply keeps_bind; [keeps_code |]. intros [k|]; [| keeps_code]. apply keeps_tenant_context, keeps_get_tenant_session.
  unfold sync_in. apply keeps_bind; [keeps_code |]. intros [c|]; [| keeps_code]. destruct (negb _); [keeps_code |].
  apply keeps_bind; [| intros _; keeps_code]. apply keeps_catch; [keeps_code |]. intros e k' [= <-]. apply keeps_modify. intros r. apply conn_ok_last_error.
Qed.
Lemma keeps_event slug id p cap ch rid : keeps (process_connector_event registry slug id p cap ch rid).
Proof.
  unfold process_connector_event. apply keeps_bind; [keeps_code |]. intros l. destruct (rows_where _ l) as [|tn ?]; [keeps_code |].
  apply keeps_bind; [keeps_code |]. intros known. apply keeps_tenant_context, keeps_bind.
  - apply keeps_get_tenant_session. unfold journal_event. apply keeps_bind; [keeps_code |]. intros [c|]; [| keeps_code].
    apply keeps_bind; [keeps_code |]. intros t. apply keeps_bind; [apply keeps_modify; intros r; apply conn_ok_check |]. intros _. keeps_code.
  - intros [|]; [| keeps_code]. apply keeps_for_each. intros h Hh. by apply (handlers_ok cap).
Qed.
Lemma keeps_perform task args m : perform registry task args = Some m -> keeps m.
Proof.
  pose proof keeps_refresh_tokens. pose proof keeps_renew_all. pose proof keeps_sync. pose proof keeps_event.
  unfold perform. destruct (str_eqb task _); [destruct args; intros [= <-]; unfold refresh_expiring_tokens_task; keeps_code |].
  destruct (str_eqb task _); [destruct args; intros [= <-]; unfold renew_subscriptions_task; keeps_code |].
  destruct (str_eqb task _).
  - destruct args as [|? [|? [|]]]; try done. intros [= <-]. unfold sync_subscriptions_task. keeps_code; auto.
  - destruct (str_eqb task _); [| done].
    destruct args as [|? [|? [|? [|? [|? [|? [|]]]]]]]; try done; intros [= <-]; unfold connector_event_received_task; keeps_code; auto.
Qed.

(** ** The routes *)

Lemma conn_ok_account label scopes c : conn_ok c -> conn_ok (with_account label scopes c).
Proof. done. Qed.
Lemma keeps_upsert s p k uid label scopes bundle cid : keeps (_upsert_connection s p k uid label scopes bundle cid).
Proof.
  unfold _upsert_connection. apply keeps_bind; [unfold find_connection; keeps_code |]. intros [c|].
  - eapply keeps_bind_yields; [apply apply_token_bundle_yields |]. intros change Hc. destruct (bool_decide _); [keeps_code |].
    apply keeps_bind; [apply keeps_modify; intros r Hr; by apply Hc, conn_ok_account | intros _; keeps_code].
  - destruct (is_none _); [keeps_code |]. apply keeps_bind; [keeps_code |]. intros id. apply keeps_bind; [keeps_code |]. intros t.
    eapply keeps_bind_yields; [apply apply_token_bundle_yields |]. intros change Hc. destruct (bool_decide _); [keeps_code |].
    eapply yields_keeps, yields_add; [| intros; by apply conn_ok_set_tenant]. apply Hc. split; [by left |]. split; [by left | done].
Qed.
Lemma keeps_callback p state code error : keeps (connector_oauth_callback p state code error).
Proof.
  unfold connector_oauth_callback. apply keeps_with_session, keeps_bind; [keeps_code |]. intros t. apply keeps_bind.
  { apply keeps_reraise; [keeps_code |]. intros e k. destruct e; intros [= <-]. by eexists. }
  intros payload. destruct error; [keeps_code |]. destruct code as [code|]; [| keeps_code].
  unfold connect. apply keeps_bind; [keeps_code |]. intros [tn|]; [| keeps_code]. destruct (_ || _); [keeps_code |].
  do 3 (apply keeps_bind; [keeps_code |]; intros ?). apply keeps_bind.
  { apply (keeps_still _ _ []); [apply still_issued_tokens | by intros []]. }
  intros [bundle label]. apply keeps_bind; [keeps_code |]. intros scopes. apply keeps_bind.
  - apply keeps_tenant_context, keeps_get_tenant_session. unfold store_connection. apply keeps_bind; [| intros c; keeps_code].
    apply keeps_reraise; [apply keeps_upsert |]. intros e k. destruct e; intros [= <-]. by eexists.
  - intros cid. unfold _ensure_webhook_route, enqueue_subscription_sync. keeps_code.
Qed.
Lemma keeps_authorization_url p slug uid k asked host cid : keeps (connector_authorization_url p slug uid k asked host cid).
Proof. unfold connector_authorization_url. keeps_code. Qed.
#[local] Hint Resolve keeps_authorization_url : keeps.
Lemma keeps_start p asked k rq : keeps (connector_start p asked k rq).
Proof.
  apply keeps_permission_route; [done |]. intros c a. apply keeps_reraise; [keeps_code |].
  intros e f. destruct e; simpl; intros [= <-]; by eexists.
Qed.
Lemma keeps_reconsent id rq : keeps (connector_reconsent id rq).
Proof.
  apply keeps_tenant_route; [done |]. intros ctx a. unfold connector_reconsent_in. apply keeps_bind; [keeps_code |]. intros [c|]; [| keeps_code].
  destruct (negb _); [keeps_code |]. apply keeps_reraise; [keeps_code |]. intros e f. destruct e; simpl; intros [= <-]; by eexists.
Qed.
Lemma keeps_revoke id rq : keeps (connector_revoke id rq).
Proof.
  apply keeps_tenant_route; [done |]. intros ctx a. unfold connector_revoke_in, audit. keeps_code.
Qed.
Lemma keeps_webhook p key rq : keeps (receive_webhook p key rq).
Proof.
  apply keeps_with_session. unfold receive_webhook_in, _validated_notifications, dispatch_notification, enqueue_event. keeps_code.
Qed.
Lemma keeps_list rq : keeps (connectors_list rq).
Proof. apply keeps_tenant_route; [done |]. intros c a. unfold connectors_list_in. keeps_code. Qed.
End sealed.
