(* ===== verification/Provisioning.v ===== *)
(** [app/tenancy/provisioning.py]: a tenant is created by inserting its row and
    auditing the fact in the same transaction. *)
From S2P Require Import Prelude PyStr Hashing Base64 Json Config Tokens Models Permissions World Orm Isolation AuthService Slug Deps Journal Frame Sample.

Definition TenantState_value (s : TenantState) : string :=
  match s with ACTIVE => "active" | SUSPENDED => "suspended" end.

Section provisioning.
Context {P : Platform}.

Definition provision_tenant (slug name : string) : M Tenant :=
  let* _ := of_result (validate_slug slug) in
  with_session (Own 0) (
    let* existing := scalar (Own 0) Tenants (fun t => str_eqb (tn_slug t) slug) in
    match existing with
    | Some t => raise (ProvisioningError ("Le slug " +:+ py_repr slug +:+ " est déjà utilisé (état : " +:+
                                          TenantState_value (tn_state t) +:+ ")."))
    | None =>
        let* id := uuid4 in
        let* t := now in
        let* tenant := add (Own 0) Tenants {|
          tn_id := id; tn_slug := slug; tn_name := name; tn_state := ACTIVE; tn_plan := "standard";
          tn_deleted_at := None; tn_created_at := t |} in
        let* _ := tenant_context {| tc_tenant_id := tn_id tenant; tc_slug := slug; tc_role := None |}
          (record_audit_event (Own 0) "core.tenant.provisioned" "tenant" (uuid_str (tn_id tenant))
             [("slug", JStr slug); ("name", JStr name)] None CLI_ACTOR_LABEL) in
        let* _ := commit (Own 0) in
        ret tenant
    end).

Lemma provision_run slug name (w : World) : quiet w ->
  let '(r, w') := provision_tenant slug name w in
  w_tenant w' = None /\ (forall s, w_pend w' s = id) /\ w_now w' = w_now w /\
  ((exists e, r = Raise e) /\ w_db w' = w_db w \/
   exists t e, r = Ok t /\ tn_slug t = slug /\ tn_state t = ACTIVE /\ tn_deleted_at t = None /\
     SLUG_RE_fullmatch slug = true /\ str_in slug RESERVED_SLUGS = false /\
     existsb (conflicts Tenants t) (w_db w Tenants) = false /\
     ae_tenant_id e = tn_id t /\ ae_action e = "core.tenant.provisioned" /\ ae_actor_label e = CLI_ACTOR_LABEL /\
     w_db w' Tenants = w_db w Tenants ++ [t] /\ w_db w' AuditEvents = w_db w AuditEvents ++ [e] /\
     forall u, u <> Tenants -> u <> AuditEvents -> w_db w' u = w_db w u).
Proof.
  intros [Hp Ht]. unfold provision_tenant. destruct (validate_slug slug) as [s|e] eqn:Ev; run.
  2: { split; [done |]. split; [done |]. split; [done |]. left. split; [by eexists | done]. }
  apply validate_slug_ok in Ev as (-> & Hm & Hr). unfold with_session, finally.
  set (w0 := closed (Own 0) w).
  assert (Hs : sees w0 (Own 0) = w_db w) by apply sees_closed.
  assert (Hpend : forall w' s, (forall s', s' <> Own 0 -> w_pend w' s' = w_pend w0 s') -> w_pend (closed (Own 0) w') s = id).
  { intros w' s H. simpl. destruct (sess_eq_dec (Own 0) s); [done |]. rewrite H by congruence. simpl.
    by destruct (sess_eq_dec (Own 0) s). }
  run. rewrite Hs. case_query as [t|] Et.
  { split; [done |]. split; [by intros s; apply Hpend |]. split; [done |]. left. split; [by eexists | done]. }
  run. rewrite ?Hs. case_if as Ec.
  { split; [done |]. split; [by intros s; apply Hpend |]. split; [done |]. left. split; [by eexists | done]. }
  unfold tenant_context, push_tenant. rewrite bind_bind. unfold bind at 1. unfold finally, bind at 1.
  match goal with |- context [record_audit_event ?s ?a ?rt ?ri ?p ?u ?l ?w1] =>
    destruct (record_audit_event s a rt ri p u l w1) as [r w2] eqn:E end.
  eapply record_audit_event_run in E; [| reflexivity]. cbn [tc_tenant_id tn_id] in E.
  destruct E as [[-> ->] | (e & -> & He & ->)]; cbn beta iota.
  - split; [done |]. split; [| split; [done |]; left; split; [by eexists | done]].
    intros s. apply Hpend. intros s' Hne. unfold pop_tenant. simpl. by destruct (sess_eq_dec (Own 0) s').
  - run. split; [done |]. split.
    { intros s. apply Hpend. intros s' Hne. unfold pop_tenant. simpl. by destruct (sess_eq_dec (Own 0) s'). }
    split; [done |]. right. eexists _, e. split; [reflexivity |]. do 5 (split; [done |]).
    split; [exact Ec |]. destruct He as (E1 & _ & E3 & _ & _ & _ & _ & E8). do 3 (split; [done |]).
    unfold pop_tenant. simpl. unfold sees. simpl. destruct (sess_eq_dec (Own 0) (Own 0)); [| done].
    rewrite !upd_eq, !upd_ne by done. rewrite upd_eq. simpl. unfold id. split; [done |]. split; [done |].
    intros u H1 H2. by rewrite !upd_ne.
Qed.

(** Provisioning is atomic and makes the tenant reachable. Either it fails and
    the database is untouched, or there is exactly one more tenant, active, with
    an unreserved slug no other tenant has, together with its first audit event,
    in the tenant's own journal; every [Host] of its subdomain then resolves to
    it. The context and the transactions are as before in both cases. *)
Theorem provision_atomic slug name (w : World) : quiet w ->
  let '(r, w') := provision_tenant slug name w in
  quiet w' /\
  match r with
  | Raise _ => w_db w' = w_db w
  | Ok t => exists e, w_db w' Tenants = w_db w Tenants ++ [t] /\ w_db w' AuditEvents = w_db w AuditEvents ++ [e] /\
      ae_tenant_id e = tn_id t /\ ae_action e = "core.tenant.provisioned" /\
      ~ In slug RESERVED_SLUGS /\ ~ In slug (List.map tn_slug (w_db w Tenants)) /\
      forall rq apex, rq_host rq = Some (slug +:+ "." +:+ apex) -> operational_tenant (w_db w') rq = Ok t
  end.
Proof.
  intros Hq. pose proof (provision_run slug name w Hq) as H. destruct (provision_tenant slug name w) as [r w'].
  destruct H as (H1 & H2 & _ & H). split; [done |].
  destruct H as [[[e ->] Hd] | (t & e & -> & Hsl & Hst & Hdel & Hm & Hr & Hc & E1 & E2 & E3 & Ht & Ha & _)]; [done |].
  exists e. do 4 (split; [done |]). split; [unfold str_in in Hr; bool_hyps; intros Hin; by apply Hr, list_elem_of_In |].
  assert (Hni : ~ In slug (List.map tn_slug (w_db w Tenants))).
  { intros (x & Ex & Hx)%List.in_map_iff. rewrite <- not_true_iff_false, existsb_exists in Hc. apply Hc. exists x.
    split; [done |]. simpl. by rewrite Hsl, Ex, str_eqb_refl, orb_true_r. }
  split; [done |]. intros rq apex Hh. unfold operational_tenant. rewrite Hh.
  pose proof (extract_slug_host slug apex Hm) as Hx. simpl in Hx |- *. rewrite Hx, Ht, first_where_app.
  replace (first_where _ (w_db w Tenants)) with (@None Tenant).
  - unfold first_where; simpl. by rewrite Hsl, str_eqb_refl, Hdel, Hst.
  - symmetry. apply first_where_None. intros x Hin. apply str_eqb_neq. intros <-. apply Hni. by apply List.in_map.
Qed.
End provisioning.

(** ** Witness *)

Lemma provision_atomic_witness :
  exists t w', provision_tenant (P := test_platform) "initech" "Initech" sample_world = (Ok t, w') /\
    operational_tenant (w_db w') (visit "alice-token" "initech.example.com") = Ok t.
Proof.
  pose proof (provision_atomic (P := test_platform) "initech" "Initech" sample_world sample_quiet) as H.
  destruct (provision_tenant (P := test_platform) "initech" "Initech" sample_world) as [r w'] eqn:E.
  assert (Hr : exists t, r = Ok t).
  { change r with (fst (r, w')). rewrite <- E. eexists. vm_compute. reflexivity. }
  destruct Hr as [t ->]. exists t, w'. split; [reflexivity |].
  destruct H as (_ & e & _ & _ & _ & _ & _ & _ & H). exact (H (visit "alice-token" "initech.example.com") "example.com" eq_refl).
Defined.
