(* ===== verification/Cli.v ===== *)
(** [app/cli.py]: the administration commands on tenants and invitations. A command
    writes lines on its two outputs and ends with an exit code; what it raises and
    does not catch ends the process with a traceback. The answer to the prompt of
    [tenant delete] is an argument. [db upgrade] is in [Migrations]. *)
From S2P Require Import Prelude PyStr Hashing Base64 Json Config Tokens Models Permissions World Uuid Sample Orm Isolation AuthService Slug Deps Edge Journal Frame Http Directory AuthRouter Dates Iso Policy Providers Throttle ConnectorTokens Webhooks ConnectorTasks Contract Automation Provisioning.

Record Output := { stdout : list string; stderr : list string; exit_code : Z }.
Definition said (lines : list string) : Output := {| stdout := lines; stderr := []; exit_code := 0 |}.
Definition failed (lines : list string) (error : string) : Output := {| stdout := lines; stderr := [error]; exit_code := 1 |}.

(** The [except] clauses of the commands, and the text of what they catch. *)
Definition provisioning_refusal (e : exn) : option string :=
  match e with ValueError m | ProvisioningError m => Some m | _ => None end.
Definition invitation_refusal (e : exn) : option string :=
  match e with ValueError m | DirectoryError m => Some m | _ => None end.
Definition deletion_refusal (e : exn) : option string :=
  match e with DirectoryError m => Some m | _ => None end.

(** [f"{s:<n}"] *)
Definition left_aligned (n : nat) (s : string) : string :=
  s +:+ String.string_of_list_ascii (repeat " "%char (n - String.length s)).

Definition with_deleted_at (d : option Z) (t : Tenant) : Tenant := {|
  tn_id := tn_id t; tn_slug := tn_slug t; tn_name := tn_name t; tn_state := tn_state t; tn_plan := tn_plan t;
  tn_deleted_at := d; tn_created_at := tn_created_at t |}.

Section commands.
Context {P : Platform}.

(** [try: m except refusal: typer.echo(prefix + ...); raise typer.Exit(1)], then [k]. *)
Definition or_exit {A} (m : M A) (refusal : exn -> option string) (lines : list string) (prefix : string)
    (k : A -> M Output) : M Output :=
  let* outcome := catch (let* a := m in ret (inl a)) (fun e => (fun text => ret (inr text)) <$> refusal e) in
  match outcome with
  | inl a => k a
  | inr text => ret (failed lines (prefix +:+ text))
  end.

Definition unknown_tenant (slug : string) : exn := DirectoryError ("Tenant " +:+ py_repr slug +:+ " inconnu au catalogue.").

Definition _invite (slug email role : string) : M string :=
  let* token := with_session (Own 0) (
    let* tenant := scalar (Own 0) Tenants (fun t => str_eqb (tn_slug t) slug) in
    match tenant with
    | None => raise (unknown_tenant slug)
    | Some tenant =>
        let* (_, token) := create_invitation (Own 0) (tn_id tenant) email role None None in
        let* _ := commit (Own 0) in
        ret token
    end) in
  ret (accept_url_for token).

Definition tenant_create (slug : string) (name owner_email : option string) : M Output :=
  or_exit (provision_tenant slug (ostr_or name slug)) provisioning_refusal [] "ERREUR : " (fun tenant =>
    let active := "Tenant " +:+ py_repr (tn_slug tenant) +:+ " actif." in
    match owner_email with
    | None => ret (said [active])
    | Some email =>
        or_exit (_invite slug email "owner") invitation_refusal [active] "ERREUR invitation : " (fun accept_url =>
          ret (said [active; "Invitation owner créée — URL d'acceptation : " +:+ accept_url]))
    end).

Definition invitation_create (slug email role : string) : M Output :=
  or_exit (_invite slug email role) invitation_refusal [] "ERREUR : " (fun accept_url =>
    ret (said ["Invitation créée — URL d'acceptation : " +:+ accept_url])).

Definition _soft_delete (slug : string) : M Tenant :=
  with_session (Own 0) (
    let* tenant := scalar (Own 0) Tenants (fun t => str_eqb (tn_slug t) slug) in
    match tenant with
    | None => raise (unknown_tenant slug)
    | Some tenant =>
        match tn_deleted_at tenant with
        | Some d => raise (DirectoryError ("Tenant " +:+ py_repr slug +:+ " déjà supprimé (le " +:+ iso_day d +:+ ")."))
        | None =>
            let* t := now in
            let* _ := modify (Own 0) Tenants tenant (with_deleted_at (Some t)) in
            let* _ := commit (Own 0) in
            ret (with_deleted_at (Some t) tenant)
        end
    end).

Definition tenant_delete (slug confirmation : string) : M Output :=
  let warning := "Cette opération va rendre le tenant " +:+ py_repr slug +:+ " inaccessible (soft-delete)." in
  if negb (str_eqb confirmation slug) then ret (failed [warning] "Confirmation invalide — annulé.")
  else
    or_exit (_soft_delete slug) deletion_refusal [warning] "ERREUR : " (fun tenant =>
      ret (said [warning; "Tenant " +:+ py_repr (tn_slug tenant) +:+ " supprimé (soft-delete) — données conservées, " +:+
                          "restauration possible en SQL (deleted_at = NULL)."])).

Definition _tenant_rows : M (list Tenant) :=
  let* rows := with_session (Own 0) (scalars (Own 0) Tenants (fun _ => true)) in
  ret (order_by (fun a b => String.leb (tn_slug a) (tn_slug b)) rows).

Definition tenant_line (tenant : Tenant) : string :=
  let deleted := match tn_deleted_at tenant with Some d => iso_day d | None => "-" end in
  left_aligned 20 (tn_slug tenant) +:+ " " +:+ left_aligned 14 (TenantState_value (tn_state tenant)) +:+ " " +:+ deleted.
Definition tenant_list : M Output :=
  let* rows := _tenant_rows in
  match rows with
  | [] => ret (said ["Aucun tenant au catalogue."])
  | _ => ret (said ("SLUG                 ÉTAT           SUPPRIMÉ" :: List.map tenant_line rows))
  end.
End commands.

(** ** A deleted tenant *)

Section deletion.
Context {P : Platform}.
Context (MODULES : list ModuleManifest).
Implicit Types (w : World) (t : Tenant).

(** The three ways in: a request to a host of the tenant, the scheduler's ticks
    and tasks, a notification on one of its routes. *)
Definition no_request t w : Prop :=
  forall A permission rq (handler : TenantContext -> CurrentAuth -> M A),
    extract_slug (default EmptyString (rq_host rq)) = Some (tn_slug t) ->
    exists w', tenant_route permission rq handler w = (Raise (HTTPException 404 "Tenant introuvable"), w') /\ same_world w' (visited w rq).
Definition no_task t w : Prop :=
  (forall l w', _active_tenants w = (Ok l, w') -> ~ In (tn_id t) (List.map tn_id l)) /\
  forall name task_name, exists w',
    run_periodic_unit MODULES name task_name (tn_id t) w = (Ok (Some false), w') /\
    w_db w' = w_db w /\ w_out w' = w_out w /\ w_kv w' = w_kv w.
Definition no_event t w : Prop :=
  forall provider route_key rq route, item_of "validationToken" (wq_query rq) = None ->
    first_where (fun r => str_eqb (wr_route_key r) route_key && str_eqb (wr_provider r) (ConnectorProvider_value provider))
      (w_db w WebhookRoutes) = Some route -> wr_tenant_id route = tn_id t ->
    exists w', receive_webhook provider route_key rq w = (Ok Neutral, w') /\ w_db w' = w_db w /\ w_out w' = w_out w.

(** [t], which every lookup by its slug finds, is marked. *)
Definition marked t w : Prop :=
  (exists d, first_where (fun x => str_eqb (tn_slug x) (tn_slug t)) (w_db w Tenants) = Some (with_deleted_at (Some d) t)) /\
  forall x, In x (w_db w Tenants) -> tn_id x = tn_id t -> is_some (tn_deleted_at x) = true.

Lemma marked_no_request t w : quiet w -> marked t w -> no_request t w.
Proof.
  intros Hq [[d Hd] _] A permission rq handler Hs. pose proof (tenant_route_run permission rq handler w Hq) as H.
  assert (E : access (w_db w) (w_now w) (w_grants w) permission rq = Raise (HTTPException 404 "Tenant introuvable")).
  { unfold access, operational_tenant. by rewrite Hs, Hd. }
  by rewrite E in H.
Qed.

Lemma marked_no_task t w : marked t w -> no_task t w.
Proof.
  intros [_ Hm]. split.
  - intros l w'. rewrite active_tenants_run. intros [= <- _] (x & Ex & Hx)%List.in_map_iff.
    unfold rows_where in Hx. apply List.filter_In in Hx as [Hx Ha]. unfold is_active in Ha. rewrite (Hm x Hx Ex), andb_false_r in Ha. discriminate.
  - intros name task_name. unfold run_periodic_unit. destruct (_find_task MODULES name task_name) as [task|]; [| by exists w].
    unfold bind at 1. rewrite active_tenant_run. case_query as [x|] Ex; [| by eexists].
    apply first_where_Some in Ex as [Hx Ei]. bool_hyps. unfold is_active. rewrite (Hm x Hx Ei), andb_false_r. by eexists.
Qed.

Lemma marked_no_event t w : quiet w -> marked t w -> no_event t w.
Proof.
  intros Hq [_ Hd] provider route_key rq route Hv Hr Ht. unfold receive_webhook. open_route w Hq. revert Hm.
  unfold receive_webhook_in. rewrite Hv. run. rewrite Hs, Hr. run. rewrite Hs.
  assert (E : forall r1 w1, (Ok Neutral, w0) = (r1, w1) ->
    exists w', (r1, closed Ctl w1) = (Ok Neutral, w') /\ w_db w' = w_db w /\ w_out w' = w_out w).
  { intros r1 w1 [= <- <-]. eexists. split; [reflexivity |]. split; apply Hw. }
  case_query as [x|] Ex; [| run; apply E].
  apply first_where_Some in Ex as [Hx Ei]. bool_hyps. rewrite (Hd x Hx) by congruence. rewrite orb_true_r. apply E.
Qed.

(** What the deletion of [t] commits: its mark. *)
Lemma deleted_marked t d w : first_where (fun x => str_eqb (tn_slug x) (tn_slug t)) (w_db w Tenants) = Some t ->
  forall w', w_db w' = upd Tenants (update_where (same_row Tenants t) (with_deleted_at (Some d))) (w_db w) -> marked t w'.
Proof.
  intros Ht w' E. unfold marked. rewrite E, upd_eq. split.
  - exists d. rewrite first_where_update by done. rewrite Ht. simpl. by rewrite N.eqb_refl.
  - intros x. unfold update_where. intros (y & <- & Hy)%List.in_map_iff. simpl.
    destruct (tn_id t =? tn_id y)%N eqn:Ey; simpl; [done |]. intros Exy. rewrite Exy, N.eqb_refl in Ey. discriminate.
Qed.
End deletion.

Section commands_run.
Context {P : Platform}.
Context (MODULES : list ModuleManifest).
Implicit Types (w : World).

Lemma soft_delete_run slug w : quiet w -> exists w', quiet w' /\
  match first_where (fun t => str_eqb (tn_slug t) slug) (w_db w Tenants) with
  | None => _soft_delete slug w = (Raise (unknown_tenant slug), w') /\ w_db w' = w_db w
  | Some t =>
      match tn_deleted_at t with
      | Some d => w_db w' = w_db w /\ _soft_delete slug w =
          (Raise (DirectoryError ("Tenant " +:+ py_repr slug +:+ " déjà supprimé (le " +:+ iso_day d +:+ ").")), w')
      | None => _soft_delete slug w = (Ok (with_deleted_at (Some (w_now w)) t), w') /\
          w_db w' = upd Tenants (update_where (same_row Tenants t) (with_deleted_at (Some (w_now w)))) (w_db w)
      end
  end.
Proof.
  intros [Hp Ht]. unfold _soft_delete, with_session, finally.
  assert (Hc : forall w1, (forall s, s <> Own 0 -> w_pend w1 s = id) -> w_tenant w1 = None -> quiet (closed (Own 0) w1)).
  { intros w1 H1 H2. split; [| done]. intros s. simpl. destruct (sess_eq_dec (Own 0) s); [done | by apply H1]. }
  set (w0 := closed (Own 0) w). assert (Hs : sees w0 (Own 0) = w_db w) by apply sees_closed.
  assert (H0 : forall s, s <> Own 0 -> w_pend w0 s = id) by (intros s Hne; simpl; destruct (sess_eq_dec (Own 0) s); [done | apply Hp]).
  run. rewrite Hs. case_query as [t|] Et; [| run; eexists; split; [by apply Hc | done]].
  destruct (tn_deleted_at t) as [d|] eqn:Ed; [run; eexists; split; [by apply Hc | done] |].
  run. eexists. split; [| split; [reflexivity |]].
  - apply Hc; [| done]. intros s Hne. simpl. destruct (sess_eq_dec (Own 0) s); [done |]. apply Hp.
  - simpl. unfold sees; simpl. destruct (sess_eq_dec (Own 0) (Own 0)); [| done]. reflexivity.
Qed.

End commands_run.

(** ** Witness *)

