(* ===== verification/Ddl.v ===== *)
(** A database schema and the operations of Alembic that the migrations use, as
    PostgreSQL documents them: tables with their keys and references, named
    indexes, and what is refused. The names of implicit indexes are left aside. *)
From stdpp Require Import gmap.
From S2P Require Import Prelude PyStr.

(** ** Schemas *)

Inductive sql_type :=
  | Uuid | String_ (length : Z) | Text | Boolean | Integer | BigInteger | Date | DateTime | JSON | LargeBinary
  | Enum (name : string) (length : Z) (values : list string).
#[export] Instance sql_type_eq_dec : EqDecision sql_type.
Proof. solve_decision. Defined.
Inductive ondelete := CASCADE | SET_NULL.
(** A literal, or an expression the server evaluates. *)
Inductive default_value := Literal (text : string) | Expression (text : string).
Inductive index_element := Attr (column : string) | Lower (column : string).

Record Column := { co_type : sql_type; co_nullable : bool; co_server_default : option default_value }.
Record ForeignKey := { fk_table : string; fk_column : string; fk_ondelete : ondelete }.
Record Table := {
  tb_columns : gmap string Column;
  tb_primary : list string;
  tb_unique : gmap (list string) (option string);     (* by columns: the name, if it has one *)
  tb_foreign : gmap string ForeignKey }.              (* by column *)
Record Index := { ix_table : string; ix_elements : list index_element; ix_unique : bool }.
Record Schema := { tables : gmap string Table; indexes : gmap string Index }.

Definition no_schema : Schema := {| tables := ∅; indexes := ∅ |}.
Definition union_of (s1 s2 : Schema) : Schema := {| tables := tables s1 ∪ tables s2; indexes := indexes s1 ∪ indexes s2 |}.
(** Tables and indexes share their names. *)
Definition taken (n : string) (s : Schema) : bool := is_some (tables s !! n) || is_some (indexes s !! n).

Definition column_of (e : index_element) : string := match e with Attr c | Lower c => c end.
(** What rows of the table may not share: primary key, unique constraints, unique indexes. *)
Definition is_key (t : Table) (columns : list string) : bool :=
  bool_decide (tb_primary t = columns) || is_some (tb_unique t !! columns).
Definition declared_keys (s : Schema) (n : string) : list (list index_element) :=
  match tables s !! n with
  | None => []
  | Some t => List.map Attr (tb_primary t) :: List.map (fun cu => List.map Attr cu.1) (map_to_list (tb_unique t)) ++
      flat_map (fun ni => if str_eqb (ix_table ni.2) n && ix_unique ni.2 then [ix_elements ni.2] else []) (map_to_list (indexes s))
  end.

(** ** Operations *)

(** The arguments of [op.create_table]; a reference is written [table.column]. *)
Inductive element :=
  | Column_ (name : string) (type : sql_type) (nullable : bool) (server_default : option default_value)
  | PrimaryKeyConstraint (columns : list string)
  | UniqueConstraint (columns : list string) (name : option string)
  | ForeignKeyConstraint (columns references : list string) (on_delete : ondelete).

Inductive op :=
  | create_table (name : string) (elements : list element)
  | create_index (name table : string) (elements : list index_element) (unique : bool)
  | drop_index (name table : string)
  | drop_table (name : string).

Definition no_table : Table := {| tb_columns := ∅; tb_primary := []; tb_unique := ∅; tb_foreign := ∅ |}.
Definition all_columns (t : Table) (columns : list string) : bool := forallb (fun c => is_some (tb_columns t !! c)) columns.

(** One argument of [create_table], the columns first: [None] is refused. *)
Definition add_element (e : element) (t : Table) : option Table :=
  match e with
  | Column_ name type nullable server_default =>
      match tb_columns t !! name with
      | Some _ => None
      | None => Some {| tb_columns := <[name := {| co_type := type; co_nullable := nullable; co_server_default := server_default |}]> (tb_columns t);
                        tb_primary := tb_primary t; tb_unique := tb_unique t; tb_foreign := tb_foreign t |}
      end
  | PrimaryKeyConstraint columns =>
      if all_columns t columns && bool_decide (tb_primary t = [])
      then Some {| tb_columns := tb_columns t; tb_primary := columns; tb_unique := tb_unique t; tb_foreign := tb_foreign t |}
      else None
  | UniqueConstraint columns name =>
      if all_columns t columns
      then Some {| tb_columns := tb_columns t; tb_primary := tb_primary t; tb_unique := <[columns := name]> (tb_unique t); tb_foreign := tb_foreign t |}
      else None
  | ForeignKeyConstraint [column] [reference] on_delete =>
      if all_columns t [column] && has_char "." reference
      then Some {| tb_columns := tb_columns t; tb_primary := tb_primary t; tb_unique := tb_unique t;
                   tb_foreign := <[column := {| fk_table := before_char "." reference; fk_column := after_last_char "." reference; fk_ondelete := on_delete |}]> (tb_foreign t) |}
      else None
  | ForeignKeyConstraint _ _ _ => None
  end.
Fixpoint add_elements (elements : list element) (t : Table) : option Table :=
  match elements with
  | [] => Some t
  | e :: elements' => match add_element e t with Some t' => add_elements elements' t' | None => None end
  end.

(** A reference is to a key of a table that is there, of the same type. *)
Definition refers (s : Schema) (t : Table) (column : string) (fk : ForeignKey) : bool :=
  match tables s !! fk_table fk with
  | None => false
  | Some target =>
      is_key target [fk_column fk] &&
      match tb_columns t !! column, tb_columns target !! fk_column fk with
      | Some a, Some b => bool_decide (co_type a = co_type b)
      | _, _ => false
      end
  end.
Definition references_ok (s : Schema) (t : Table) : bool := forallb (fun cf => refers s t cf.1 cf.2) (map_to_list (tb_foreign t)).
Definition referenced (n : string) (s : Schema) : bool :=
  existsb (fun nt => negb (str_eqb nt.1 n) && existsb (fun cf => str_eqb (fk_table cf.2) n) (map_to_list (tb_foreign nt.2))) (map_to_list (tables s)).

Definition exec (o : op) (s : Schema) : option Schema :=
  match o with
  | create_table name elements =>
      match add_elements elements no_table with
      | Some t =>
          let s' := {| tables := <[name := t]> (tables s); indexes := indexes s |} in
          if negb (taken name s) && references_ok s' t then Some s' else None
      | None => None
      end
  | create_index name table elements unique =>
      match tables s !! table with
      | Some t => if negb (taken name s) && all_columns t (List.map column_of elements)
                  then Some {| tables := tables s; indexes := <[name := {| ix_table := table; ix_elements := elements; ix_unique := unique |}]> (indexes s) |}
                  else None
      | None => None
      end
  | drop_index name _ =>
      match indexes s !! name with
      | Some _ => Some {| tables := tables s; indexes := delete name (indexes s) |}
      | None => None
      end
  | drop_table name =>
      match tables s !! name with
      | Some _ => if referenced name s then None
                  else Some {| tables := delete name (tables s); indexes := filter (fun ni => str_eqb (ix_table ni.2) name = false) (indexes s) |}
      | None => None
      end
  end.
Fixpoint run (ops : list op) (s : Schema) : option Schema :=
  match ops with
  | [] => Some s
  | o :: ops' => match exec o s with Some s' => run ops' s' | None => None end
  end.
(** A migration is one transaction. *)
Definition migrate (ops : list op) (s : Schema) : Schema := default s (run ops s).

Lemma run_app ops ops' s : run (ops ++ ops') s = match run ops s with Some s' => run ops' s' | None => None end.
Proof. revert s. induction ops as [|o ops IH]; intros s; simpl; [done |]. by destruct (exec o s). Qed.

(** ** Every reference and every index has its table *)

Definition wf (s : Schema) : Prop :=
  (forall n t, tables s !! n = Some t -> references_ok s t = true) /\
  (forall n i, indexes s !! n = Some i -> exists t, tables s !! ix_table i = Some t /\ all_columns t (List.map column_of (ix_elements i)) = true).
Definition apart (s1 s2 : Schema) : Prop := forall n, taken n s1 = true -> taken n s2 = false.
Definition created (o : op) : option string :=
  match o with create_table n _ | create_index n _ _ _ => Some n | _ => None end.

Lemma taken_false n s : taken n s = false <-> tables s !! n = None /\ indexes s !! n = None.
Proof. unfold taken. destruct (tables s !! n), (indexes s !! n); simpl; split; try done; by intros []. Qed.
Lemma references_spec s t : references_ok s t = true <-> forall c fk, tb_foreign t !! c = Some fk -> refers s t c fk = true.
Proof.
  unfold references_ok. rewrite forallb_forall. split.
  - intros H c fk E. apply (H (c, fk)). apply list_elem_of_In, elem_of_map_to_list. done.
  - intros H [c fk] E. apply list_elem_of_In, elem_of_map_to_list in E. by apply H.
Qed.
Lemma referenced_spec n s : referenced n s = false <->
  forall m t c fk, tables s !! m = Some t -> m <> n -> tb_foreign t !! c = Some fk -> fk_table fk <> n.
Proof.
  unfold referenced. split.
  - intros H m t c fk Em Hm Ec En.
    enough (existsb (fun nt => negb (str_eqb nt.1 n) && existsb (fun cf => str_eqb (fk_table cf.2) n) (map_to_list (tb_foreign nt.2))) (map_to_list (tables s)) = true) by congruence.
    apply existsb_exists. exists (m, t). split; [by apply list_elem_of_In, elem_of_map_to_list |]. apply andb_true_iff. split.
    + apply negb_true_iff, str_eqb_neq. done.
    + apply existsb_exists. exists (c, fk). split; [by apply list_elem_of_In, elem_of_map_to_list | by apply str_eqb_eq].
  - intros H. destruct (existsb _ _) eqn:E; [| done]. apply existsb_exists in E as ([m t] & Em & [Hm Ht]%andb_true_iff).
    apply list_elem_of_In, elem_of_map_to_list in Em. apply negb_true_iff, str_eqb_neq in Hm.
    apply existsb_exists in Ht as ([c fk] & Ec & En). apply list_elem_of_In, elem_of_map_to_list in Ec. apply str_eqb_eq in En.
    by destruct (H m t c fk Em Hm Ec).
Qed.

Lemma refers_mono s s' t c fk : tables s ⊆ tables s' -> refers s t c fk = true -> refers s' t c fk = true.
Proof.
  unfold refers. intros Hs. destruct (tables s !! fk_table fk) as [x|] eqn:E; [| done]. by rewrite (lookup_weaken _ _ _ _ E Hs).
Qed.
Lemma references_mono s s' t : tables s ⊆ tables s' -> references_ok s t = true -> references_ok s' t = true.
Proof. rewrite !references_spec. intros Hs H c fk E. eapply refers_mono; [exact Hs | by apply H]. Qed.

Lemma exec_wf o s s' : exec o s = Some s' -> wf s -> wf s'.
Proof.
  intros E [H1 H2]. destruct o as [n els|n tb els u|n tb|n]; simpl in E.
  - destruct (add_elements els no_table) as [t|]; [| done]. destruct (negb _ && _) eqn:G; [| done]. injection E as <-.
    apply andb_true_iff in G as [Gn Gr]. apply negb_true_iff, taken_false in Gn as [Gn _].
    assert (Hs : tables s ⊆ <[n := t]> (tables s)) by by apply insert_subseteq. split; simpl.
    + intros m t' Em. destruct (decide (n = m)) as [<-|Hne]; [rewrite lookup_insert_eq in Em; by injection Em as <- |].
      rewrite lookup_insert_ne in Em by done. eapply references_mono; [exact Hs | by eapply H1].
    + intros m i Ei. destruct (H2 m i Ei) as (t' & Et & Hc). exists t'. split; [by eapply lookup_weaken | done].
  - destruct (tables s !! tb) as [t|] eqn:Et; [| done]. destruct (negb _ && _) eqn:G; [| done]. injection E as <-.
    apply andb_true_iff in G as [_ Gc]. split; simpl.
    + intros m t' Em. by apply (H1 m).
    + intros m i Ei. destruct (decide (n = m)) as [<-|Hne]; [rewrite lookup_insert_eq in Ei; injection Ei as <-; by exists t |].
      rewrite lookup_insert_ne in Ei by done. by apply (H2 m).
  - destruct (indexes s !! n) as [i0|]; [| done]. injection E as <-. split; simpl; [intros m t; apply H1 |].
    intros m i Ei. apply lookup_delete_Some in Ei as [_ Ei]. by apply (H2 m).
  - destruct (tables s !! n) as [t|] eqn:Et; [| done]. destruct (referenced n s) eqn:R; [done |]. injection E as <-.
    rewrite referenced_spec in R. split; simpl.
    + intros m t' [Hm Em]%lookup_delete_Some. specialize (H1 m t' Em). rewrite references_spec in H1 |- *. intros c fk Ec.
      specialize (H1 c fk Ec). unfold refers in *. simpl. rewrite lookup_delete_ne; [done |]. apply not_eq_sym, (R m t' c fk); done.
    + intros m i [Ei Hi]%map_lookup_filter_Some. destruct (H2 m i Ei) as (t' & E' & Hc). exists t'. split; [| done].
      rewrite lookup_delete_ne; [done |]. simpl in Hi. apply str_eqb_neq in Hi. done.
Qed.
Lemma run_wf ops s s' : run ops s = Some s' -> wf s -> wf s'.
Proof.
  revert s. induction ops as [|o ops IH]; intros s; simpl; [by intros [= <-] |].
  destruct (exec o s) as [s1|] eqn:E; [| done]. intros H Hw. eapply IH; [exact H | by eapply exec_wf].
Qed.

(** ** A migration does not see what is not its own *)

Lemma taken_union n s1 s2 : taken n (union_of s1 s2) = taken n s1 || taken n s2.
Proof.
  unfold taken, union_of. simpl. rewrite !lookup_union. by destruct (tables s1 !! n), (tables s2 !! n), (indexes s1 !! n), (indexes s2 !! n).
Qed.
Lemma exec_taken o s s' n : exec o s = Some s' -> taken n s' = true -> taken n s = true \/ created o = Some n.
Proof.
  intros E Hn. destruct (taken n s) eqn:F; [by left |]. right. apply taken_false in F as [Ft Fi].
  destruct o as [m els|m tb els u|m tb|m]; simpl in *.
  - destruct (add_elements els no_table); [| done]. destruct (negb _ && _); [| done]. injection E as <-. unfold taken in Hn. simpl in Hn.
    destruct (decide (m = n)) as [->|Hne]; [done |]. rewrite lookup_insert_ne, Ft, Fi in Hn by done. done.
  - destruct (tables s !! tb); [| done]. destruct (negb _ && _); [| done]. injection E as <-. unfold taken in Hn. simpl in Hn.
    destruct (decide (m = n)) as [->|Hne]; [done |]. rewrite lookup_insert_ne, Ft, Fi in Hn by done. done.
  - destruct (indexes s !! m); [| done]. injection E as <-. unfold taken in Hn. simpl in Hn.
    rewrite Ft, lookup_delete in Hn. case_decide; [done |]. by rewrite Fi in Hn.
  - destruct (tables s !! m); [| done]. destruct (referenced m s); [done |]. injection E as <-. unfold taken in Hn. simpl in Hn.
    rewrite lookup_delete, Ft, map_lookup_filter, Fi in Hn. by case_decide.
Qed.

Lemma exec_frame o s1 s2 s : exec o s1 = Some s2 -> wf s -> apart s1 s ->
  match created o with Some n => taken n s = false | None => True end -> exec o (union_of s1 s) = Some (union_of s2 s).
Proof.
  intros E [W1 W2] Ha Hc.
  assert (Hsub : tables s1 ⊆ tables s1 ∪ tables s) by apply map_union_subseteq_l.
  destruct o as [n els|n tb els u|n tb|n]; simpl in *.
  - destruct (add_elements els no_table) as [t|]; [| done]. rewrite taken_union, Hc, orb_false_r.
    destruct (negb _ && _) eqn:G; [| done]. injection E as <-. apply andb_true_iff in G as [-> Gr].
    assert (Gr' : references_ok {| tables := <[n := t]> (tables s1 ∪ tables s); indexes := indexes s1 ∪ indexes s |} t = true).
    { eapply references_mono; [| exact Gr]. simpl. rewrite insert_union_l. apply map_union_subseteq_l. }
    rewrite Gr'. unfold union_of. simpl. by rewrite insert_union_l.
  - destruct (tables s1 !! tb) as [t|] eqn:Et; [| done]. rewrite (lookup_weaken _ _ _ _ Et Hsub), taken_union, Hc, orb_false_r.
    destruct (negb _ && _); [| done]. injection E as <-. unfold union_of. simpl. by rewrite insert_union_l.
  - destruct (indexes s1 !! n) as [i|] eqn:Ei; [| done]. injection E as <-.
    destruct (proj1 (taken_false n s)) as [_ Hn]. { apply Ha. unfold taken. rewrite Ei. apply orb_true_r. }
    rewrite lookup_union, Ei, Hn. simpl. unfold union_of. simpl. by rewrite delete_union, (delete_id (indexes s)).
  - destruct (tables s1 !! n) as [t|] eqn:Et; [| done]. destruct (referenced n s1) eqn:R; [done |]. injection E as <-.
    destruct (proj1 (taken_false n s)) as [Hn _]. { apply Ha. unfold taken. by rewrite Et. }
    rewrite (lookup_weaken _ _ _ _ Et Hsub).
    assert (R' : referenced n (union_of s1 s) = false).
    { rewrite referenced_spec in R |- *. intros m t' c fk [Em|[_ Em]]%lookup_union_Some_raw Hm Ec; [by eapply R |].
      specialize (proj1 (references_spec s t') (W1 m t' Em) c fk Ec). unfold refers. intros Hr Heq. by rewrite Heq, Hn in Hr. }
    rewrite R'. unfold union_of. simpl. f_equal. f_equal.
    + by rewrite delete_union, (delete_id (tables s)).
    + apply map_eq. intros m. rewrite map_lookup_filter, !lookup_union, map_lookup_filter.
      destruct (indexes s1 !! m) as [i|] eqn:Ei; simpl.
      * destruct (proj1 (taken_false m s)) as [_ ->]. { apply Ha. unfold taken. rewrite Ei. apply orb_true_r. }
        simpl. rewrite right_id_L by apply _. by case_guard.
      * rewrite left_id_L by apply _. destruct (indexes s !! m) as [i|] eqn:Ej; [| done]. simpl.
        case_guard as G; [done |]. exfalso. apply G. simpl. destruct (W2 m i Ej) as (t' & Et' & _). apply str_eqb_neq. intros Heq.
        by rewrite Heq, Hn in Et'.
Qed.

Lemma run_frame ops s1 s2 s : run ops s1 = Some s2 -> wf s -> apart s1 s ->
  (forall o n, In o ops -> created o = Some n -> taken n s = false) -> run ops (union_of s1 s) = Some (union_of s2 s) /\ apart s2 s.
Proof.
  revert s1. induction ops as [|o ops IH]; intros s1; simpl; [by intros [= <-] |].
  destruct (exec o s1) as [s3|] eqn:E; [| done]. intros Hr Hw Ha Hc.
  rewrite (exec_frame o s1 s3 s E Hw Ha); [| destruct (created o) as [n|] eqn:En; [apply (Hc o n); auto | done]].
  apply IH; [done | done | | intros o' n Ho; apply Hc; auto]. intros n Hn.
  destruct (exec_taken o s1 s3 n E Hn) as [H|H]; [by apply Ha | apply (Hc o n); auto].
Qed.

(** A name that is taken stops the migration. *)
Lemma run_refused ops s n : (forall o, In o ops -> created o <> None) -> In (Some n) (List.map created ops) -> taken n s = true -> run ops s = None.
Proof.
  revert s. induction ops as [|o ops IH]; intros s Hc; simpl; [done |]. intros Hin Hn.
  destruct (decide (created o = Some n)) as [Eo|Hne].
  - replace (exec o s) with (@None Schema); [done |]. symmetry. destruct o as [m els|m tb els u|m tb|m]; simpl in *; try done; injection Eo as ->; rewrite Hn; simpl.
    + by destruct (add_elements els no_table).
    + by destruct (tables s !! tb).
  - destruct Hin as [Hin|Hin]; [done |]. destruct (exec o s) as [s1|] eqn:E; [| done]. apply IH; [by intros o' H'; apply Hc; right | done |].
    destruct o as [m els|m tb els u|m tb|m]; simpl in *; try by destruct (Hc _ (or_introl eq_refl)).
    + destruct (add_elements els no_table); [| done]. destruct (negb _ && _); [| done]. injection E as <-. unfold taken. simpl.
      rewrite lookup_insert_ne by congruence. exact Hn.
    + destruct (tables s !! tb); [| done]. destruct (negb _ && _); [| done]. injection E as <-. unfold taken. simpl.
      rewrite lookup_insert_ne by congruence. exact Hn.
Qed.
Lemma wf_none : wf no_schema.
Proof. split; intros n x H; done. Qed.
Lemma apart_none s : apart no_schema s.
Proof. intros n H. done. Qed.
Lemma union_none s : union_of no_schema s = s.
Proof. unfold union_of. simpl. rewrite !left_id_L by apply _. by destruct s. Qed.
