(* ===== verification/Schema.v ===== *)
(** The schema twice: the tables as the mapped classes of the application declare
    them, and the operations of [migrations/versions/0001_baseline.py]. They give
    the same schema, whose keys are the ones the other files assume. *)
From stdpp Require Import gmap.
From S2P Require Import Prelude PyStr Hashing Base64 Json Config Tokens Models Permissions Slug World Uuid Contract Provisioning Ddl.

(** ** Mapped classes *)

(** What [Mapped[...]] and [mapped_column] say of a column; Python defaults do not
    reach the schema. *)
Inductive flag :=
  | primary_key | unique | index | nullable
  | references (column : string) (on_delete : ondelete)
  | server_default (d : default_value).
#[export] Instance ondelete_eq_dec : EqDecision ondelete.
Proof. solve_decision. Defined.
#[export] Instance default_value_eq_dec : EqDecision default_value.
Proof. solve_decision. Defined.
#[export] Instance flag_eq_dec : EqDecision flag.
Proof. solve_decision. Defined.
Inductive table_arg :=
  | Unique_ (columns : list string) (name : string)
  | Index_ (name : string) (elements : list index_element) (is_unique : bool).
Record MappedColumn := { ma_name : string; ma_type : sql_type; ma_flags : list flag }.
Record MappedClass := {
  mc_tablename : string; mc_columns : list MappedColumn; mc_table_args : list table_arg; mc_TenantScoped : bool }.

Definition mapped (name : string) (type : sql_type) (flags : list flag) : MappedColumn :=
  {| ma_name := name; ma_type := type; ma_flags := flags |}.
Definition _enum_values {A} (value : A -> string) (members : list A) : list string := List.map value members.
Definition UsageStatus_value (s : UsageStatus) : string :=
  match s with USAGE_OK => "ok" | USAGE_ERROR => "error" | USAGE_TIMEOUT => "timeout" end.

Definition Tenant_class : MappedClass := {|
  mc_tablename := "tenants";
  mc_columns := [
    mapped "id" Uuid [primary_key];
    mapped "slug" (String_ 40) [unique];
    mapped "name" (String_ 255) [];
    mapped "state" (Enum "tenant_state" 20 (_enum_values TenantState_value [ACTIVE; SUSPENDED])) [];
    mapped "plan" (String_ 50) [server_default (Literal "standard")];
    mapped "deleted_at" DateTime [nullable];
    mapped "created_at" DateTime [server_default (Expression "now()")];
    mapped "updated_at" DateTime [server_default (Expression "now()")]];
  mc_table_args := []; mc_TenantScoped := false |}.
Definition User_class : MappedClass := {|
  mc_tablename := "users";
  mc_columns := [
    mapped "id" Uuid [primary_key];
    mapped "email" (String_ 320) [];
    mapped "display_name" (String_ 255) [nullable];
    mapped "created_at" DateTime [server_default (Expression "now()")];
    mapped "updated_at" DateTime [server_default (Expression "now()")]];
  mc_table_args := [Index_ "ux_users_email_lower" [Lower "email"] true]; mc_TenantScoped := false |}.
Definition Membership_class : MappedClass := {|
  mc_tablename := "memberships";
  mc_columns := [
    mapped "id" Uuid [primary_key];
    mapped "user_id" Uuid [references "users.id" CASCADE];
    mapped "tenant_id" Uuid [references "tenants.id" CASCADE];
    mapped "role" (String_ 50) [];
    mapped "created_at" DateTime [server_default (Expression "now()")]];
  mc_table_args := [Unique_ ["user_id"; "tenant_id"] "ux_memberships_user_tenant"]; mc_TenantScoped := false |}.
Definition UserCredentials_class : MappedClass := {|
  mc_tablename := "user_credentials";
  mc_columns := [
    mapped "user_id" Uuid [references "users.id" CASCADE; primary_key];
    mapped "password_hash" Text [nullable];
    mapped "totp_secret_encrypted" LargeBinary [nullable];
    mapped "totp_enabled" Boolean [server_default (Literal "false")];
    mapped "totp_last_counter" BigInteger [nullable];
    mapped "created_at" DateTime [server_default (Expression "now()")];
    mapped "updated_at" DateTime [server_default (Expression "now()")]];
  mc_table_args := []; mc_TenantScoped := false |}.
Definition RecoveryCode_class : MappedClass := {|
  mc_tablename := "auth_recovery_codes";
  mc_columns := [
    mapped "id" Uuid [primary_key];
    mapped "user_id" Uuid [references "users.id" CASCADE];
    mapped "code_hash" (String_ 64) [unique];
    mapped "used_at" DateTime [nullable];
    mapped "created_at" DateTime [server_default (Expression "now()")]];
  mc_table_args := []; mc_TenantScoped := false |}.
Definition AuthSession_class : MappedClass := {|
  mc_tablename := "sessions";
  mc_columns := [
    mapped "id" Uuid [primary_key];
    mapped "user_id" Uuid [references "users.id" CASCADE];
    mapped "token_hash" (String_ 64) [unique];
    mapped "created_at" DateTime [server_default (Expression "now()")];
    mapped "expires_at" DateTime [];
    mapped "last_seen_at" DateTime [server_default (Expression "now()")];
    mapped "revoked_at" DateTime [nullable]];
  mc_table_args := []; mc_TenantScoped := false |}.
Definition LoginChallenge_class : MappedClass := {|
  mc_tablename := "login_challenges";
  mc_columns := [
    mapped "id" Uuid [primary_key];
    mapped "user_id" Uuid [references "users.id" CASCADE];
    mapped "token_hash" (String_ 64) [unique];
    mapped "expires_at" DateTime [];
    mapped "consumed_at" DateTime [nullable];
    mapped "created_at" DateTime [server_default (Expression "now()")]];
  mc_table_args := []; mc_TenantScoped := false |}.
Definition OAuthIdentity_class : MappedClass := {|
  mc_tablename := "oauth_identities";
  mc_columns := [
    mapped "id" Uuid [primary_key];
    mapped "provider" (Enum "oauth_provider" 20 (_enum_values OAuthProvider_value [OAUTH_GOOGLE; OAUTH_MICROSOFT])) [];
    mapped "subject" (String_ 255) [];
    mapped "user_id" Uuid [references "users.id" CASCADE];
    mapped "created_at" DateTime [server_default (Expression "now()")]];
  mc_table_args := [Unique_ ["provider"; "subject"] "ux_oauth_identities_provider_subject"; Unique_ ["provider"; "user_id"] "ux_oauth_identities_provider_user"]; mc_TenantScoped := false |}.
Definition Invitation_class : MappedClass := {|
  mc_tablename := "invitations";
  mc_columns := [
    mapped "id" Uuid [primary_key];
    mapped "email" (String_ 320) [];
    mapped "tenant_id" Uuid [references "tenants.id" CASCADE];
    mapped "role" (String_ 50) [];
    mapped "token_hash" (String_ 64) [unique];
    mapped "expires_at" DateTime [];
    mapped "accepted_at" DateTime [nullable];
    mapped "invited_by_user_id" Uuid [nullable; references "users.id" SET_NULL];
    mapped "created_at" DateTime [server_default (Expression "now()")]];
  mc_table_args := []; mc_TenantScoped := false |}.
Definition AuditEvent_class : MappedClass := {|
  mc_tablename := "audit_events";
  mc_columns := [
    mapped "id" Uuid [primary_key];
    mapped "occurred_at" DateTime [server_default (Expression "now()")];
    mapped "actor_user_id" Uuid [nullable];
    mapped "actor_label" (String_ 320) [];
    mapped "action" (String_ 100) [];
    mapped "resource_type" (String_ 100) [];
    mapped "resource_id" (String_ 100) [];
    mapped "payload" JSON []];
  mc_table_args := [Index_ "ix_audit_events_tenant_action" [Attr "tenant_id"; Attr "action"] false; Index_ "ix_audit_events_tenant_cursor" [Attr "tenant_id"; Attr "occurred_at"; Attr "id"] false]; mc_TenantScoped := true |}.
Definition Team_class : MappedClass := {|
  mc_tablename := "teams";
  mc_columns := [
    mapped "id" Uuid [primary_key];
    mapped "name" (String_ 120) [];
    mapped "description" Text [nullable];
    mapped "created_at" DateTime [server_default (Expression "now()")]];
  mc_table_args := [Unique_ ["tenant_id"; "name"] "ux_teams_tenant_name"]; mc_TenantScoped := true |}.
Definition TeamMember_class : MappedClass := {|
  mc_tablename := "team_members";
  mc_columns := [
    mapped "id" Uuid [primary_key];
    mapped "team_id" Uuid [references "teams.id" CASCADE];
    mapped "user_id" Uuid [];
    mapped "created_at" DateTime [server_default (Expression "now()")]];
  mc_table_args := [Unique_ ["team_id"; "user_id"] "ux_team_members_team_user"]; mc_TenantScoped := true |}.
Definition TenantAIPolicy_class : MappedClass := {|
  mc_tablename := "tenant_ai_policies";
  mc_columns := [
    mapped "tenant_id" Uuid [references "tenants.id" CASCADE; primary_key];
    mapped "default_provider" (String_ 20) [nullable];
    mapped "default_model" (String_ 100) [nullable];
    mapped "allowed_providers" JSON [];
    mapped "zero_retention" Boolean [];
    mapped "monthly_token_quota" BigInteger [nullable];
    mapped "hard_limit_enabled" Boolean [];
    mapped "fallback_provider" (String_ 20) [nullable];
    mapped "fallback_model" (String_ 100) [nullable];
    mapped "byok_keys_enc" LargeBinary [nullable];
    mapped "created_at" DateTime [server_default (Expression "now()")];
    mapped "updated_at" DateTime [server_default (Expression "now()")]];
  mc_table_args := []; mc_TenantScoped := false |}.
Definition AIUsageEvent_class : MappedClass := {|
  mc_tablename := "ai_usage_events";
  mc_columns := [
    mapped "id" Uuid [primary_key];
    mapped "occurred_at" DateTime [server_default (Expression "now()"); index];
    mapped "tenant_id" Uuid [references "tenants.id" CASCADE; index];
    mapped "user_id" Uuid [nullable];
    mapped "module" (String_ 50) [];
    mapped "provider" (String_ 20) [];
    mapped "model" (String_ 100) [];
    mapped "input_tokens" Integer [];
    mapped "output_tokens" Integer [];
    mapped "cached_tokens" Integer [];
    mapped "latency_ms" Integer [];
    mapped "estimated_cost_microeur" BigInteger [];
    mapped "price_version" (String_ 20) [];
    mapped "status" (Enum "ai_usage_status" 10 (_enum_values UsageStatus_value [USAGE_OK; USAGE_ERROR; USAGE_TIMEOUT])) [];
    mapped "error_kind" (String_ 50) [nullable]];
  mc_table_args := []; mc_TenantScoped := false |}.
Definition AIUsageDaily_class : MappedClass := {|
  mc_tablename := "ai_usage_daily";
  mc_columns := [
    mapped "day" Date [primary_key];
    mapped "tenant_id" Uuid [references "tenants.id" CASCADE; primary_key];
    mapped "provider" (String_ 20) [primary_key];
    mapped "model" (String_ 100) [primary_key];
    mapped "input_tokens" BigInteger [];
    mapped "output_tokens" BigInteger [];
    mapped "cached_tokens" BigInteger [];
    mapped "request_count" Integer [];
    mapped "error_count" Integer [];
    mapped "estimated_cost_microeur" BigInteger []];
  mc_table_args := []; mc_TenantScoped := false |}.
Definition TenantModule_class : MappedClass := {|
  mc_tablename := "tenant_modules";
  mc_columns := [
    mapped "id" Uuid [primary_key];
    mapped "tenant_id" Uuid [references "tenants.id" CASCADE; index];
    mapped "module_name" (String_ 32) [];
    mapped "enabled" Boolean [];
    mapped "created_at" DateTime [server_default (Expression "now()")];
    mapped "updated_at" DateTime [server_default (Expression "now()")]];
  mc_table_args := [Unique_ ["tenant_id"; "module_name"] "uq_tenant_module"]; mc_TenantScoped := false |}.
Definition ConnectorConnection_class : MappedClass := {|
  mc_tablename := "connector_connections";
  mc_columns := [
    mapped "id" Uuid [primary_key];
    mapped "provider" (Enum "connector_provider" 20 (_enum_values ConnectorProvider_value [CONNECTOR_GOOGLE; CONNECTOR_MICROSOFT])) [];
    mapped "kind" (Enum "connection_kind" 10 (_enum_values ConnectionKind_value [KIND_TENANT; KIND_USER])) [];
    mapped "user_id" Uuid [nullable];
    mapped "account_label" (String_ 320) [];
    mapped "scopes" JSON [];
    mapped "access_token_enc" LargeBinary [];
    mapped "refresh_token_enc" LargeBinary [];
    mapped "access_token_expires_at" DateTime [];
    mapped "status" (Enum "connection_status" 20 (_enum_values ConnectionStatus_value [CONN_ACTIVE; CONN_NEEDS_RECONSENT; CONN_REVOKED; CONN_ERROR])) [];
    mapped "last_error" Text [nullable];
    mapped "health_checked_at" DateTime [nullable];
    mapped "created_at" DateTime [server_default (Expression "now()")];
    mapped "updated_at" DateTime [server_default (Expression "now()")]];
  mc_table_args := []; mc_TenantScoped := true |}.
Definition ConnectorSubscription_class : MappedClass := {|
  mc_tablename := "connector_subscriptions";
  mc_columns := [
    mapped "id" Uuid [primary_key];
    mapped "connection_id" Uuid [references "connector_connections.id" CASCADE];
    mapped "capability" (String_ 20) [];
    mapped "provider_subscription_id" (String_ 255) [];
    mapped "resource" (String_ 255) [];
    mapped "expires_at" DateTime [];
    mapped "client_state_hash" (String_ 64) [];
    mapped "provider_data" JSON [];
    mapped "created_at" DateTime [server_default (Expression "now()")]];
  mc_table_args := []; mc_TenantScoped := true |}.
Definition WebhookRoute_class : MappedClass := {|
  mc_tablename := "webhook_routes";
  mc_columns := [
    mapped "id" Uuid [primary_key];
    mapped "route_key" (String_ 64) [unique];
    mapped "provider" (String_ 20) [];
    mapped "tenant_id" Uuid [references "tenants.id" CASCADE];
    mapped "connection_id" Uuid [];
    mapped "created_at" DateTime [server_default (Expression "now()")]];
  mc_table_args := []; mc_TenantScoped := false |}.
Definition SampleDigestDigest_class : MappedClass := {|
  mc_tablename := "sample_digest_digests";
  mc_columns := [
    mapped "id" Uuid [primary_key];
    mapped "generated_at" DateTime [server_default (Expression "now()")];
    mapped "message_count" Integer [];
    mapped "summary" Text []];
  mc_table_args := [Index_ "ix_sample_digest_digests_tenant_generated" [Attr "tenant_id"; Attr "generated_at"] false]; mc_TenantScoped := true |}.

Definition class_of (t : table) : MappedClass :=
  match t with
  | Tenants => Tenant_class
  | Users => User_class
  | Memberships => Membership_class
  | Credentials => UserCredentials_class
  | RecoveryCodes => RecoveryCode_class
  | Sessions => AuthSession_class
  | LoginChallenges => LoginChallenge_class
  | OAuthIdentities => OAuthIdentity_class
  | Invitations => Invitation_class
  | AuditEvents => AuditEvent_class
  | Teams => Team_class
  | TeamMembers => TeamMember_class
  | AIPolicies => TenantAIPolicy_class
  | AIUsageEvents => AIUsageEvent_class
  | AIUsageDailies => AIUsageDaily_class
  | TenantModules => TenantModule_class
  | Connections => ConnectorConnection_class
  | Subscriptions => ConnectorSubscription_class
  | WebhookRoutes => WebhookRoute_class
  | Digests => SampleDigestDigest_class
  end.
Definition all_tables : list table :=
  [Tenants; Users; Memberships; Credentials; RecoveryCodes; Sessions; LoginChallenges; OAuthIdentities; Invitations; AuditEvents; Teams; TeamMembers; AIPolicies; AIUsageEvents; AIUsageDailies; TenantModules; Connections; Subscriptions; WebhookRoutes; Digests].
Definition tablename (t : table) : string := mc_tablename (class_of t).

(** The column of the mixin. *)
Definition TenantScoped_column : MappedColumn := mapped "tenant_id" Uuid [references "tenants.id" CASCADE; index].
Definition columns_of (c : MappedClass) : list MappedColumn := mc_columns c ++ if mc_TenantScoped c then [TenantScoped_column] else [].

(** ** [Base.metadata]: what SQLAlchemy makes of the classes *)

Definition has (f : flag) (c : MappedColumn) : bool := bool_decide (f ∈ ma_flags c).
Definition first_flag {A} (pick : flag -> option A) (c : MappedColumn) : option A := head (omap pick (ma_flags c)).
Definition foreign_key (c : MappedColumn) : option (string * ForeignKey) :=
  first_flag (fun f => match f with
    | references column od => Some (ma_name c, {| fk_table := before_char "." column; fk_column := after_last_char "." column; fk_ondelete := od |})
    | _ => None
    end) c.
Definition table_of (c : MappedClass) : Table := {|
  tb_columns := list_to_map (List.map (fun m => (ma_name m,
    {| co_type := ma_type m; co_nullable := has nullable m;
       co_server_default := first_flag (fun f => match f with server_default d => Some d | _ => None end) m |})) (columns_of c));
  tb_primary := List.map ma_name (List.filter (has primary_key) (columns_of c));
  tb_unique := list_to_map (List.map (fun m => ([ma_name m], None)) (List.filter (has unique) (columns_of c)) ++
    omap (fun a => match a with Unique_ columns name => Some (columns, Some name) | _ => None end) (mc_table_args c));
  tb_foreign := list_to_map (omap foreign_key (columns_of c)) |}.
Definition indexes_of (c : MappedClass) : list (string * Index) :=
  omap (fun a => match a with
    | Index_ name elements u => Some (name, {| ix_table := mc_tablename c; ix_elements := elements; ix_unique := u |})
    | _ => None
    end) (mc_table_args c) ++
  List.map (fun m => ("ix_" +:+ mc_tablename c +:+ "_" +:+ ma_name m,
    {| ix_table := mc_tablename c; ix_elements := [Attr (ma_name m)]; ix_unique := false |})) (List.filter (has index) (columns_of c)).
Definition metadata : Schema := {|
  tables := list_to_map (List.map (fun t => (tablename t, table_of (class_of t))) all_tables);
  indexes := list_to_map (flat_map (fun t => indexes_of (class_of t)) all_tables) |}.

(** ** The migration *)

Definition create_tenants : list op :=
  [ create_table "tenants" [
      Column_ "id" Uuid false None;
      Column_ "slug" (String_ 40) false None;
      Column_ "name" (String_ 255) false None;
      Column_ "state" (Enum "tenant_state" 20 ["active"; "suspended"]) false None;
      Column_ "plan" (String_ 50) false (Some (Literal "standard"));
      Column_ "deleted_at" DateTime true None;
      Column_ "created_at" DateTime false (Some (Expression "now()"));
      Column_ "updated_at" DateTime false (Some (Expression "now()"));
      PrimaryKeyConstraint ["id"];
      UniqueConstraint ["slug"] None] ].

Definition create_users : list op :=
  [ create_table "users" [
      Column_ "id" Uuid false None;
      Column_ "email" (String_ 320) false None;
      Column_ "display_name" (String_ 255) true None;
      Column_ "created_at" DateTime false (Some (Expression "now()"));
      Column_ "updated_at" DateTime false (Some (Expression "now()"));
      PrimaryKeyConstraint ["id"]];
    create_index "ux_users_email_lower" "users" [Lower "email"] true ].

Definition create_ai_usage_daily : list op :=
  [ create_table "ai_usage_daily" [
      Column_ "day" Date false None;
      Column_ "tenant_id" Uuid false None;
      Column_ "provider" (String_ 20) false None;
      Column_ "model" (String_ 100) false None;
      Column_ "input_tokens" BigInteger false None;
      Column_ "output_tokens" BigInteger false None;
      Column_ "cached_tokens" BigInteger false None;
      Column_ "request_count" Integer false None;
      Column_ "error_count" Integer false None;
      Column_ "estimated_cost_microeur" BigInteger false None;
      ForeignKeyConstraint ["tenant_id"] ["tenants.id"] CASCADE;
      PrimaryKeyConstraint ["day"; "tenant_id"; "provider"; "model"]] ].

Definition create_ai_usage_events : list op :=
  [ create_table "ai_usage_events" [
      Column_ "id" Uuid false None;
      Column_ "occurred_at" DateTime false (Some (Expression "now()"));
      Column_ "tenant_id" Uuid false None;
      Column_ "user_id" Uuid true None;
      Column_ "module" (String_ 50) false None;
      Column_ "provider" (String_ 20) false None;
      Column_ "model" (String_ 100) false None;
      Column_ "input_tokens" Integer false None;
      Column_ "output_tokens" Integer false None;
      Column_ "cached_tokens" Integer false None;
      Column_ "latency_ms" Integer false None;
      Column_ "estimated_cost_microeur" BigInteger false None;
      Column_ "price_version" (String_ 20) false None;
      Column_ "status" (Enum "ai_usage_status" 10 ["ok"; "error"; "timeout"]) false None;
      Column_ "error_kind" (String_ 50) true None;
      ForeignKeyConstraint ["tenant_id"] ["tenants.id"] CASCADE;
      PrimaryKeyConstraint ["id"]];
    create_index "ix_ai_usage_events_occurred_at" "ai_usage_events" [Attr "occurred_at"] false;
    create_index "ix_ai_usage_events_tenant_id" "ai_usage_events" [Attr "tenant_id"] false ].

Definition create_audit_events : list op :=
  [ create_table "audit_events" [
      Column_ "id" Uuid false None;
      Column_ "occurred_at" DateTime false (Some (Expression "now()"));
      Column_ "actor_user_id" Uuid true None;
      Column_ "actor_label" (String_ 320) false None;
      Column_ "action" (String_ 100) false None;
      Column_ "resource_type" (String_ 100) false None;
      Column_ "resource_id" (String_ 100) false None;
      Column_ "payload" JSON false None;
      Column_ "tenant_id" Uuid false None;
      ForeignKeyConstraint ["tenant_id"] ["tenants.id"] CASCADE;
      PrimaryKeyConstraint ["id"]];
    create_index "ix_audit_events_tenant_action" "audit_events" [Attr "tenant_id"; Attr "action"] false;
    create_index "ix_audit_events_tenant_cursor" "audit_events" [Attr "tenant_id"; Attr "occurred_at"; Attr "id"] false;
    create_index "ix_audit_events_tenant_id" "audit_events" [Attr "tenant_id"] false ].

Definition create_auth_recovery_codes : list op :=
  [ create_table "auth_recovery_codes" [
      Column_ "id" Uuid false None;
      Column_ "user_id" Uuid false None;
      Column_ "code_hash" (String_ 64) false None;
      Column_ "used_at" DateTime true None;
      Column_ "created_at" DateTime false (Some (Expression "now()"));
      ForeignKeyConstraint ["user_id"] ["users.id"] CASCADE;
      PrimaryKeyConstraint ["id"];
      UniqueConstraint ["code_hash"] None] ].

Definition create_connector_connections : list op :=
  [ create_table "connector_connections" [
      Column_ "id" Uuid false None;
      Column_ "provider" (Enum "connector_provider" 20 ["google"; "microsoft"]) false None;
      Column_ "kind" (Enum "connection_kind" 10 ["tenant"; "user"]) false None;
      Column_ "user_id" Uuid true None;
      Column_ "account_label" (String_ 320) false None;
      Column_ "scopes" JSON false None;
      Column_ "access_token_enc" LargeBinary false None;
      Column_ "refresh_token_enc" LargeBinary false None;
      Column_ "access_token_expires_at" DateTime false None;
      Column_ "status" (Enum "connection_status" 20 ["active"; "needs_reconsent"; "revoked"; "error"]) false None;
      Column_ "last_error" Text true None;
      Column_ "health_checked_at" DateTime true None;
      Column_ "created_at" DateTime false (Some (Expression "now()"));
      Column_ "updated_at" DateTime false (Some (Expression "now()"));
      Column_ "tenant_id" Uuid false None;
      ForeignKeyConstraint ["tenant_id"] ["tenants.id"] CASCADE;
      PrimaryKeyConstraint ["id"]];
    create_index "ix_connector_connections_tenant_id" "connector_connections" [Attr "tenant_id"] false ].

Definition create_invitations : list op :=
  [ create_table "invitations" [
      Column_ "id" Uuid false None;
      Column_ "email" (String_ 320) false None;
      Column_ "tenant_id" Uuid false None;
      Column_ "role" (String_ 50) false None;
      Column_ "token_hash" (String_ 64) false None;
      Column_ "expires_at" DateTime false None;
      Column_ "accepted_at" DateTime true None;
      Column_ "invited_by_user_id" Uuid true None;
      Column_ "created_at" DateTime false (Some (Expression "now()"));
      ForeignKeyConstraint ["invited_by_user_id"] ["users.id"] SET_NULL;
      ForeignKeyConstraint ["tenant_id"] ["tenants.id"] CASCADE;
      PrimaryKeyConstraint ["id"];
      UniqueConstraint ["token_hash"] None] ].

Definition create_login_challenges : list op :=
  [ create_table "login_challenges" [
      Column_ "id" Uuid false None;
      Column_ "user_id" Uuid false None;
      Column_ "token_hash" (String_ 64) false None;
      Column_ "expires_at" DateTime false None;
      Column_ "consumed_at" DateTime true None;
      Column_ "created_at" DateTime false (Some (Expression "now()"));
      ForeignKeyConstraint ["user_id"] ["users.id"] CASCADE;
      PrimaryKeyConstraint ["id"];
      UniqueConstraint ["token_hash"] None] ].

Definition create_memberships : list op :=
  [ create_table "memberships" [
      Column_ "id" Uuid false None;
      Column_ "user_id" Uuid false None;
      Column_ "tenant_id" Uuid false None;
      Column_ "role" (String_ 50) false None;
      Column_ "created_at" DateTime false (Some (Expression "now()"));
      ForeignKeyConstraint ["tenant_id"] ["tenants.id"] CASCADE;
      ForeignKeyConstraint ["user_id"] ["users.id"] CASCADE;
      PrimaryKeyConstraint ["id"];
      UniqueConstraint ["user_id"; "tenant_id"] (Some "ux_memberships_user_tenant")] ].

Definition create_oauth_identities : list op :=
  [ create_table "oauth_identities" [
      Column_ "id" Uuid false None;
      Column_ "provider" (Enum "oauth_provider" 20 ["google"; "microsoft"]) false None;
      Column_ "subject" (String_ 255) false None;
      Column_ "user_id" Uuid false None;
      Column_ "created_at" DateTime false (Some (Expression "now()"));
      ForeignKeyConstraint ["user_id"] ["users.id"] CASCADE;
      PrimaryKeyConstraint ["id"];
      UniqueConstraint ["provider"; "subject"] (Some "ux_oauth_identities_provider_subject");
      UniqueConstraint ["provider"; "user_id"] (Some "ux_oauth_identities_provider_user")] ].

Definition create_sample_digest_digests : list op :=
  [ create_table "sample_digest_digests" [
      Column_ "id" Uuid false None;
      Column_ "generated_at" DateTime false (Some (Expression "now()"));
      Column_ "message_count" Integer false None;
      Column_ "summary" Text false None;
      Column_ "tenant_id" Uuid false None;
      ForeignKeyConstraint ["tenant_id"] ["tenants.id"] CASCADE;
      PrimaryKeyConstraint ["id"]];
    create_index "ix_sample_digest_digests_tenant_generated" "sample_digest_digests" [Attr "tenant_id"; Attr "generated_at"] false;
    create_index "ix_sample_digest_digests_tenant_id" "sample_digest_digests" [Attr "tenant_id"] false ].

Definition create_sessions : list op :=
  [ create_table "sessions" [
      Column_ "id" Uuid false None;
      Column_ "user_id" Uuid false None;
      Column_ "token_hash" (String_ 64) false None;
      Column_ "created_at" DateTime false (Some (Expression "now()"));
      Column_ "expires_at" DateTime false None;
      Column_ "last_seen_at" DateTime false (Some (Expression "now()"));
      Column_ "revoked_at" DateTime true None;
      ForeignKeyConstraint ["user_id"] ["users.id"] CASCADE;
      PrimaryKeyConstraint ["id"];
      UniqueConstraint ["token_hash"] None] ].

Definition create_teams : list op :=
  [ create_table "teams" [
      Column_ "id" Uuid false None;
      Column_ "name" (String_ 120) false None;
      Column_ "description" Text true None;
      Column_ "created_at" DateTime false (Some (Expression "now()"));
      Column_ "tenant_id" Uuid false None;
      ForeignKeyConstraint ["tenant_id"] ["tenants.id"] CASCADE;
      PrimaryKeyConstraint ["id"];
      UniqueConstraint ["tenant_id"; "name"] (Some "ux_teams_tenant_name")];
    create_index "ix_teams_tenant_id" "teams" [Attr "tenant_id"] false ].

Definition create_tenant_ai_policies : list op :=
  [ create_table "tenant_ai_policies" [
      Column_ "tenant_id" Uuid false None;
      Column_ "default_provider" (String_ 20) true None;
      Column_ "default_model" (String_ 100) true None;
      Column_ "allowed_providers" JSON false None;
      Column_ "zero_retention" Boolean false None;
      Column_ "monthly_token_quota" BigInteger true None;
      Column_ "hard_limit_enabled" Boolean false None;
      Column_ "fallback_provider" (String_ 20) true None;
      Column_ "fallback_model" (String_ 100) true None;
      Column_ "byok_keys_enc" LargeBinary true None;
      Column_ "created_at" DateTime false (Some (Expression "now()"));
      Column_ "updated_at" DateTime false (Some (Expression "now()"));
      ForeignKeyConstraint ["tenant_id"] ["tenants.id"] CASCADE;
      PrimaryKeyConstraint ["tenant_id"]] ].

Definition create_tenant_modules : list op :=
  [ create_table "tenant_modules" [
      Column_ "id" Uuid false None;
      Column_ "tenant_id" Uuid false None;
      Column_ "module_name" (String_ 32) false None;
      Column_ "enabled" Boolean false None;
      Column_ "created_at" DateTime false (Some (Expression "now()"));
      Column_ "updated_at" DateTime false (Some (Expression "now()"));
      ForeignKeyConstraint ["tenant_id"] ["tenants.id"] CASCADE;
      PrimaryKeyConstraint ["id"];
      UniqueConstraint ["tenant_id"; "module_name"] (Some "uq_tenant_module")];
    create_index "ix_tenant_modules_tenant_id" "tenant_modules" [Attr "tenant_id"] false ].

Definition create_user_credentials : list op :=
  [ create_table "user_credentials" [
      Column_ "user_id" Uuid false None;
      Column_ "password_hash" Text true None;
      Column_ "totp_secret_encrypted" LargeBinary true None;
      Column_ "totp_enabled" Boolean false (Some (Literal "false"));
      Column_ "totp_last_counter" BigInteger true None;
      Column_ "created_at" DateTime false (Some (Expression "now()"));
      Column_ "updated_at" DateTime false (Some (Expression "now()"));
      ForeignKeyConstraint ["user_id"] ["users.id"] CASCADE;
      PrimaryKeyConstraint ["user_id"]] ].

Definition create_webhook_routes : list op :=
  [ create_table "webhook_routes" [
      Column_ "id" Uuid false None;
      Column_ "route_key" (String_ 64) false None;
      Column_ "provider" (String_ 20) false None;
      Column_ "tenant_id" Uuid false None;
      Column_ "connection_id" Uuid false None;
      Column_ "created_at" DateTime false (Some (Expression "now()"));
      ForeignKeyConstraint ["tenant_id"] ["tenants.id"] CASCADE;
      PrimaryKeyConstraint ["id"];
      UniqueConstraint ["route_key"] None] ].

Definition create_connector_subscriptions : list op :=
  [ create_table "connector_subscriptions" [
      Column_ "id" Uuid false None;
      Column_ "connection_id" Uuid false None;
      Column_ "capability" (String_ 20) false None;
      Column_ "provider_subscription_id" (String_ 255) false None;
      Column_ "resource" (String_ 255) false None;
      Column_ "expires_at" DateTime false None;
      Column_ "client_state_hash" (String_ 64) false None;
      Column_ "provider_data" JSON false None;
      Column_ "created_at" DateTime false (Some (Expression "now()"));
      Column_ "tenant_id" Uuid false None;
      ForeignKeyConstraint ["connection_id"] ["connector_connections.id"] CASCADE;
      ForeignKeyConstraint ["tenant_id"] ["tenants.id"] CASCADE;
      PrimaryKeyConstraint ["id"]];
    create_index "ix_connector_subscriptions_tenant_id" "connector_subscriptions" [Attr "tenant_id"] false ].

Definition create_team_members : list op :=
  [ create_table "team_members" [
      Column_ "id" Uuid false None;
      Column_ "team_id" Uuid false None;
      Column_ "user_id" Uuid false None;
      Column_ "created_at" DateTime false (Some (Expression "now()"));
      Column_ "tenant_id" Uuid false None;
      ForeignKeyConstraint ["team_id"] ["teams.id"] CASCADE;
      ForeignKeyConstraint ["tenant_id"] ["tenants.id"] CASCADE;
      PrimaryKeyConstraint ["id"];
      UniqueConstraint ["team_id"; "user_id"] (Some "ux_team_members_team_user")];
    create_index "ix_team_members_tenant_id" "team_members" [Attr "tenant_id"] false ].

Definition upgrade : list op :=
  create_tenants ++ create_users ++ create_ai_usage_daily ++ create_ai_usage_events ++ create_audit_events ++ create_auth_recovery_codes ++ create_connector_connections ++ create_invitations ++ create_login_challenges ++ create_memberships ++ create_oauth_identities ++ create_sample_digest_digests ++ create_sessions ++ create_teams ++ create_tenant_ai_policies ++ create_tenant_modules ++ create_user_credentials ++ create_webhook_routes ++ create_connector_subscriptions ++ create_team_members.

Definition downgrade : list op :=
  [ drop_index "ix_team_members_tenant_id" "team_members";
    drop_table "team_members";
    drop_index "ix_connector_subscriptions_tenant_id" "connector_subscriptions";
    drop_table "connector_subscriptions";
    drop_table "webhook_routes";
    drop_table "user_credentials";
    drop_index "ix_tenant_modules_tenant_id" "tenant_modules";
    drop_table "tenant_modules";
    drop_table "tenant_ai_policies";
    drop_index "ix_teams_tenant_id" "teams";
    drop_table "teams";
    drop_table "sessions";
    drop_index "ix_sample_digest_digests_tenant_id" "sample_digest_digests";
    drop_index "ix_sample_digest_digests_tenant_generated" "sample_digest_digests";
    drop_table "sample_digest_digests";
    drop_table "oauth_identities";
    drop_table "memberships";
    drop_table "login_challenges";
    drop_table "invitations";
    drop_index "ix_connector_connections_tenant_id" "connector_connections";
    drop_table "connector_connections";
    drop_table "auth_recovery_codes";
    drop_index "ix_audit_events_tenant_id" "audit_events";
    drop_index "ix_audit_events_tenant_cursor" "audit_events";
    drop_index "ix_audit_events_tenant_action" "audit_events";
    drop_table "audit_events";
    drop_index "ix_ai_usage_events_tenant_id" "ai_usage_events";
    drop_index "ix_ai_usage_events_occurred_at" "ai_usage_events";
    drop_table "ai_usage_events";
    drop_table "ai_usage_daily";
    drop_index "ux_users_email_lower" "users";
    drop_table "users";
    drop_table "tenants" ].

(** ** They agree *)

Lemma upgrade_from_nothing : run upgrade no_schema = Some metadata.
Proof. exact (eq_refl (Some metadata) <: run upgrade no_schema = Some metadata). Qed.
Lemma downgrade_to_nothing : run downgrade metadata = Some no_schema.
Proof. exact (eq_refl (Some no_schema) <: run downgrade metadata = Some no_schema). Qed.

(** The baseline in a database that has other things in it. *)
Definition creates (n : string) (o : op) : bool := match created o with Some m => str_eqb m n | None => false end.
Definition names_of (s : Schema) : list string := List.map fst (map_to_list (tables s)) ++ List.map fst (map_to_list (indexes s)).
Lemma names_of_taken n s : In n (names_of s) <-> taken n s = true.
Proof.
  unfold names_of, taken. rewrite in_app_iff, !in_map_iff, orb_true_iff. unfold is_some. split.
  - intros [([m x] & <- & H%list_elem_of_In%elem_of_map_to_list)|([m x] & <- & H%list_elem_of_In%elem_of_map_to_list)]; simpl; rewrite H; auto.
  - intros [H|H]; [left; destruct (tables s !! n) as [x|] eqn:E | right; destruct (indexes s !! n) as [x|] eqn:E]; try done;
      exists (n, x); (split; [done |]); by apply list_elem_of_In, elem_of_map_to_list.
Qed.
Definition creates_declared : bool :=
  forallb (fun o => match created o with Some n => taken n metadata | None => false end) upgrade.
Definition declared_created : bool := forallb (fun n => existsb (creates n) upgrade) (names_of metadata).
Definition downgrade_drops : bool := forallb (fun o => negb (is_some (created o))) downgrade.
Lemma creates_declared_ok : creates_declared = true.
Proof. exact (eq_refl true <: creates_declared = true). Qed.
Lemma declared_created_ok : declared_created = true.
Proof. exact (eq_refl true <: declared_created = true). Qed.
Lemma downgrade_drops_ok : downgrade_drops = true.
Proof. exact (eq_refl true <: downgrade_drops = true). Qed.

Lemma upgrade_only o : In o upgrade -> exists n, created o = Some n /\ taken n metadata = true.
Proof.
  pose proof creates_declared_ok as H. unfold creates_declared in H. rewrite forallb_forall in H. intros Ho. specialize (H o Ho).
  destruct (created o) as [n|]; [exists n; split; [reflexivity | exact H] | discriminate H].
Qed.
Lemma upgrade_names n : taken n metadata = true -> In (Some n) (List.map created upgrade).
Proof.
  pose proof declared_created_ok as H. unfold declared_created in H. rewrite forallb_forall in H. rewrite <- names_of_taken. intros Hn.
  specialize (H n Hn). apply existsb_exists in H as (o & Ho & E). unfold creates in E. destruct (created o) as [m|] eqn:Ec; [| discriminate E].
  apply str_eqb_eq in E as ->. apply in_map_iff. exists o. split; [exact Ec | exact Ho].
Qed.
Lemma downgrade_creates o : In o downgrade -> created o = None.
Proof.
  pose proof downgrade_drops_ok as H. unfold downgrade_drops in H. rewrite forallb_forall in H. intros Ho. specialize (H o Ho). destruct (created o); [discriminate H | reflexivity].
Qed.

Lemma upgrade_adds s : wf s -> apart metadata s -> run upgrade s = Some (union_of metadata s) /\ wf (union_of metadata s).
Proof.
  intros Hw Ha. destruct (run_frame upgrade no_schema metadata s upgrade_from_nothing Hw (apart_none s)) as [Hu _].
  { intros o n Ho E. apply Ha. destruct (upgrade_only o Ho) as (m & Em & Hm). congruence. }
  rewrite union_none in Hu. split; [exact Hu | eapply run_wf; [exact Hu | exact Hw]].
Qed.
Lemma downgrade_restores s : wf s -> apart metadata s -> run downgrade (union_of metadata s) = Some s.
Proof.
  intros Hw Ha. destruct (run_frame downgrade metadata no_schema s downgrade_to_nothing Hw Ha) as [Hd _].
  { intros o n Ho E. rewrite (downgrade_creates o Ho) in E. discriminate E. }
  rewrite union_none in Hd. exact Hd.
Qed.
Lemma upgrade_refused s n : taken n metadata = true -> taken n s = true -> run upgrade s = None.
Proof.
  intros Hm Hn. apply (run_refused upgrade s n); [| apply upgrade_names; exact Hm | exact Hn].
  intros o Ho E. destruct (upgrade_only o Ho) as (m & Em & _). congruence.
Qed.

(** The migration gives the schema of the models and takes it away again. In a
    database whose references are sound, the upgrade adds exactly the tables, keys,
    references and indexes that the mapped classes declare, leaves what is there
    and keeps every reference sound; the downgrade then restores the database as it
    was. When a name is in the way the upgrade is refused and nothing has changed. *)
Theorem migration_is_the_metadata s : wf s ->
  (apart metadata s -> run upgrade s = Some (union_of metadata s) /\ wf (union_of metadata s) /\
     migrate downgrade (migrate upgrade s) = s) /\
  (forall n, taken n metadata = true -> taken n s = true -> migrate upgrade s = s).
Proof.
  intros Hw. split.
  - intros Ha. destruct (upgrade_adds s Hw Ha) as [Hu Hw']. split; [exact Hu |]. split; [exact Hw' |].
    unfold migrate. rewrite Hu. cbn [default from_option id]. rewrite (downgrade_restores s Hw Ha). reflexivity.
  - intros n Hm Hn. unfold migrate. rewrite (upgrade_refused s n Hm Hn). reflexivity.
Qed.

(** ** The keys *)

(** A cell of a row, for the columns of the keys. *)
Inductive value := VId (n : N) | VText (s : string) | VDate (d : Z).
Definition value_eqb (x y : value) : bool :=
  match x, y with
  | VId a, VId b => (a =? b)%N
  | VText a, VText b => str_eqb a b
  | VDate a, VDate b => a =? b
  | _, _ => false
  end.
Definition cells (t : table) : list (string * (row t -> value)) :=
  match t with
  | Tenants => [("id", fun r => VId (tn_id r)); ("slug", fun r => VText (tn_slug r))]
  | Users => [("id", fun r => VId (us_id r)); ("email", fun r => VText (us_email r))]
  | Memberships => [("id", fun r => VId (mb_id r)); ("user_id", fun r => VId (mb_user_id r)); ("tenant_id", fun r => VId (mb_tenant_id r))]
  | Credentials => [("user_id", fun r => VId (uc_user_id r))]
  | RecoveryCodes => [("id", fun r => VId (rc_id r)); ("code_hash", fun r => VText (rc_code_hash r))]
  | Sessions => [("id", fun r => VId (as_id r)); ("token_hash", fun r => VText (as_token_hash r))]
  | LoginChallenges => [("id", fun r => VId (lc_id r)); ("token_hash", fun r => VText (lc_token_hash r))]
  | OAuthIdentities => [("id", fun r => VId (oi_id r)); ("provider", fun r => VText (OAuthProvider_value (oi_provider r)));
                        ("subject", fun r => VText (oi_subject r)); ("user_id", fun r => VId (oi_user_id r))]
  | Invitations => [("id", fun r => VId (iv_id r)); ("token_hash", fun r => VText (iv_token_hash r))]
  | AuditEvents => [("id", fun r => VId (ae_id r))]
  | Teams => [("id", fun r => VId (tm_id r)); ("tenant_id", fun r => VId (tm_tenant_id r)); ("name", fun r => VText (tm_name r))]
  | TeamMembers => [("id", fun r => VId (tmm_id r)); ("team_id", fun r => VId (tmm_team_id r)); ("user_id", fun r => VId (tmm_user_id r))]
  | AIPolicies => [("tenant_id", fun r => VId (ap_tenant_id r))]
  | AIUsageEvents => [("id", fun r => VId (ue_id r))]
  | AIUsageDailies => [("day", fun r => VDate (ud_day r)); ("tenant_id", fun r => VId (ud_tenant_id r));
                       ("provider", fun r => VText (ud_provider r)); ("model", fun r => VText (ud_model r))]
  | TenantModules => [("id", fun r => VId (mo_id r)); ("tenant_id", fun r => VId (mo_tenant_id r)); ("module_name", fun r => VText (mo_module_name r))]
  | Connections => [("id", fun r => VId (cn_id r))]
  | Subscriptions => [("id", fun r => VId (sb_id r))]
  | WebhookRoutes => [("id", fun r => VId (wr_id r)); ("route_key", fun r => VText (wr_route_key r))]
  | Digests => [("id", fun r => VId (sd_id r))]
  end.
(** What an index holds of a row. *)
Definition indexed (t : table) (e : index_element) (r : row t) : option value :=
  match List.find (fun nc => str_eqb nc.1 (column_of e)) (cells t) with
  | None => None
  | Some (_, f) => match e, f r with
                   | Attr _, v => Some v
                   | Lower _, VText s => Some (VText (lower s))
                   | Lower _, _ => None
                   end
  end.
Definition same_entry (t : table) (a b : row t) (e : index_element) : bool :=
  match indexed t e a, indexed t e b with Some x, Some y => value_eqb x y | _, _ => false end.
(** Two rows that the database does not accept together. *)
Definition violates (s : Schema) (t : table) (a b : row t) : bool :=
  existsb (forallb (same_entry t a b)) (declared_keys s (tablename t)).

Definition keys_of (t : table) : list (list index_element) :=
  match t with
  | Tenants => [[Attr "id"]; [Attr "slug"]]
  | Users => [[Attr "id"]; [Lower "email"]]
  | Memberships => [[Attr "id"]; [Attr "user_id"; Attr "tenant_id"]]
  | Credentials => [[Attr "user_id"]]
  | RecoveryCodes => [[Attr "id"]; [Attr "code_hash"]]
  | Sessions | LoginChallenges | Invitations => [[Attr "id"]; [Attr "token_hash"]]
  | OAuthIdentities => [[Attr "id"]; [Attr "provider"; Attr "subject"]; [Attr "provider"; Attr "user_id"]]
  | Teams => [[Attr "id"]; [Attr "tenant_id"; Attr "name"]]
  | TeamMembers => [[Attr "id"]; [Attr "team_id"; Attr "user_id"]]
  | AIPolicies => [[Attr "tenant_id"]]
  | AIUsageDailies => [[Attr "day"; Attr "tenant_id"; Attr "provider"; Attr "model"]]
  | TenantModules => [[Attr "id"]; [Attr "tenant_id"; Attr "module_name"]]
  | WebhookRoutes => [[Attr "id"]; [Attr "route_key"]]
  | AuditEvents | AIUsageEvents | Connections | Subscriptions | Digests => [[Attr "id"]]
  end.

Lemma declared_keys_of t : declared_keys metadata (tablename t) = keys_of t.
Proof. destruct t; vm_compute; reflexivity. Qed.
Lemma provider_same p q : bool_decide (p = q) = str_eqb (OAuthProvider_value p) (OAuthProvider_value q).
Proof. by destruct p, q. Qed.
Definition not_null (t : table) (e : index_element) : bool :=
  match tables metadata !! tablename t with
  | Some tb => match tb_columns tb !! column_of e with Some c => negb (co_nullable c) | None => false end
  | None => false
  end.

(** C32: the database refuses what the model refuses. Two rows conflict in the
    model of the tables exactly when they agree on the primary key, a unique
    constraint or a unique index that the migration creates; the columns of these
    keys are never null, so no row escapes them. *)
Theorem conflicts_follow_schema t :
  (forall a b : row t, conflicts t a b = true <-> exists s, run upgrade no_schema = Some s /\ violates s t a b = true) /\
  (forall key e, In key (declared_keys metadata (tablename t)) -> In e key -> not_null t e = true).
Proof.
  split.
  - intros a b. rewrite upgrade_from_nothing. transitivity (violates metadata t a b = true); [| split; [by exists metadata | by intros (s & [= <-] & H)]].
    unfold violates. rewrite declared_keys_of.
    destruct t; cbn -[N.eqb Z.eqb str_eqb lower]; unfold same_entry, indexed; cbn -[N.eqb Z.eqb str_eqb lower];
      rewrite ?provider_same, ?andb_true_r, ?orb_false_r, <- ?andb_orb_distrib_r, ?andb_assoc; reflexivity.
  - rewrite declared_keys_of. intros key e Hk He.
    assert (F : forallb (forallb (not_null t)) (keys_of t) = true) by (destruct t; vm_compute; reflexivity).
    rewrite forallb_forall in F. specialize (F key Hk). rewrite forallb_forall in F. exact (F e He).
Qed.

(** ** Tables of tenants, and what fits in a column *)

Lemma tenant_tables_anchored t : scoped t = mc_TenantScoped (class_of t) /\
  (scoped t = true -> In (tablename t, t) scoped_table_names /\ not_null t (Attr "tenant_id") = true /\
     exists tb, tables metadata !! tablename t = Some tb /\
       tb_foreign tb !! "tenant_id" = Some {| fk_table := "tenants"; fk_column := "id"; fk_ondelete := CASCADE |} /\
       indexes metadata !! ("ix_" +:+ tablename t +:+ "_tenant_id") = Some {| ix_table := tablename t; ix_elements := [Attr "tenant_id"]; ix_unique := false |}).
Proof.
  split; [by destruct t |]. intros H. destruct t; try discriminate H;
    (split; [vm_compute; tauto | split; [vm_compute; reflexivity | eexists; split; [vm_compute; reflexivity | split; vm_compute; reflexivity]]]).
Qed.

Definition width (n column : string) : option Z :=
  match tables metadata !! n with
  | Some tb => match co_type <$> tb_columns tb !! column with Some (String_ w) => Some w | _ => None end
  | None => None
  end.
(** The column exists, and is wide enough for the text. *)
Definition fits (n column text : string) : Prop := exists w, width n column = Some w /\ py_len text <= w.

Lemma hash_token_length text : py_len (hash_token text) = 64.
Proof. with_strategy transparent [hash_token] unfold hash_token. unfold sha256_hexdigest, py_len. by rewrite hex_length, sha256_length. Qed.

(** Nothing the code makes is too long for its column. An accepted slug, a
    module name, the hashes of tokens wherever one is stored, the key of a webhook
    route, an id written as the resource of an event, and the names of providers
    and of roles fit the columns the migration creates for them. *)
Theorem stored_text_fits :
  (forall slug s, validate_slug slug = Ok s -> fits "tenants" "slug" s) /\
  (forall text n column, In (n, column) [("sessions", "token_hash"); ("login_challenges", "token_hash"); ("invitations", "token_hash");
      ("auth_recovery_codes", "code_hash"); ("connector_subscriptions", "client_state_hash")] -> fits n column (hash_token text)) /\
  (forall random, length random = TOKEN_BYTES -> fits "webhook_routes" "route_key" (generate_token random)) /\
  (forall name, MODULE_NAME_RE name = true -> fits "tenant_modules" "module_name" name) /\
  (forall id, fits "audit_events" "resource_id" (uuid_str id)) /\
  (forall p, fits "webhook_routes" "provider" (ConnectorProvider_value p)) /\
  (forall role, In role Permissions.ROLES -> fits "memberships" "role" role).
Proof.
  assert (W : forall n column text w, width n column = Some w -> py_len text <= w -> fits n column text) by (intros n column text w; by exists w).
  repeat split.
  - intros slug s. unfold validate_slug. destruct (negb (SLUG_RE_fullmatch slug)) eqn:E; [done |]. destruct (str_in _ _); [done |]. intros [= <-].
    apply (W _ _ _ 40); [vm_compute; reflexivity |]. apply negb_false_iff in E. destruct slug as [|c rest]; [done |].
    simpl in E. apply andb_true_iff in E as [_ E%Z.leb_le]. unfold py_len in *. simpl. lia.
  - intros text n column H. apply (W _ _ _ 64); [| by rewrite hash_token_length].
    repeat (destruct H as [[= <- <-]|H]; [vm_compute; reflexivity |]). done.
  - intros random H. apply (W _ _ _ 64); [vm_compute; reflexivity |]. unfold generate_token, token_urlsafe, py_len.
    pose proof (b64_nopad_length_le random) as L. rewrite H in L. unfold TOKEN_BYTES in L. lia.
  - intros name H. apply (W _ _ _ 32); [vm_compute; reflexivity |]. destruct name as [|c rest]; [done |].
    simpl in H. apply andb_true_iff in H as [_ H%Nat.leb_le]. unfold py_len. simpl. lia.
  - intros id. apply (W _ _ _ 100); [vm_compute; reflexivity |]. unfold py_len. rewrite uuid_str_length. lia.
  - intros p. apply (W _ _ _ 20); [vm_compute; reflexivity |]. by destruct p.
  - intros role H. apply (W _ _ _ 50); [vm_compute; reflexivity |]. repeat (destruct H as [<-|H]; [by vm_compute |]). done.
Qed.

(** ** Witnesses *)

(** A database with Alembic's own table in it. *)
Definition versioned : Schema := {|
  tables := {[ "alembic_version" := {| tb_columns := {[ "version_num" := {| co_type := String_ 32; co_nullable := false; co_server_default := None |} ]};
                                       tb_primary := ["version_num"]; tb_unique := ∅; tb_foreign := ∅ |} ]};
  indexes := ∅ |}.
Lemma versioned_wf : wf versioned.
Proof.
  split; intros n x; unfold versioned; cbn [tables indexes]; [| by rewrite lookup_empty].
  intros [_ <-]%lookup_singleton_Some. reflexivity.
Qed.
Lemma versioned_apart : apart metadata versioned.
Proof.
  intros n H. apply taken_false. split; [| apply lookup_empty]. apply lookup_singleton_ne. intros <-.
  assert (E : taken "alembic_version" metadata = false) by (vm_compute; reflexivity). rewrite E in H. discriminate H.
Qed.

Lemma migration_is_the_metadata_witness :
  run upgrade versioned = Some (union_of metadata versioned) /\ migrate downgrade (migrate upgrade versioned) = versioned /\
  migrate upgrade metadata = metadata.
Proof.
  destruct (migration_is_the_metadata versioned versioned_wf) as [H _]. destruct (H versioned_apart) as (E1 & _ & E2).
  split; [exact E1 |]. split; [exact E2 |].
  apply (proj2 (migration_is_the_metadata metadata (run_wf upgrade no_schema metadata upgrade_from_nothing wf_none)) "tenants");
    vm_compute; reflexivity.
Defined.

Lemma conflicts_follow_schema_witness : not_null Teams (Attr "name") = true.
Proof. apply (proj2 (conflicts_follow_schema Teams) [Attr "tenant_id"; Attr "name"]); vm_compute; tauto. Defined.

Lemma stored_text_fits_witness : fits "tenants" "slug" "acme" /\ fits "tenant_modules" "module_name" "sample_digest".
Proof.
  destruct stored_text_fits as (H1 & _ & _ & H4 & _). split; [apply (H1 "acme"); reflexivity | apply H4; reflexivity].
Defined.
