(* ===== verification/Process.v ===== *)
(** What a process keeps between the event loops it runs: the engine and the session
    factory of [app/core/db.py], the Valkey clients of [connectors/throttle.py],
    [ai/quota.py] and [auth/rate_limit.py], and the listeners of
    [tenancy/tenant_base.py], all in module globals; and the wrappers that run a
    coroutine in a loop of its own: [run_async] of [app/cli.py], the Celery tasks.

    A pool keeps the connections it opened, which belong to the loop they were opened
    in: used in another loop they fail (the source says so of asyncpg; redis-py's
    asyncio client is of the same make), and the driver drops them. *)
From S2P Require Import Prelude PyStr.

Inductive resource := Postgres | ThrottleValkey | QuotaValkey | RateLimitValkey.
#[export] Instance resource_eq_dec : EqDecision resource.
Proof. solve_decision. Defined.

(** Pools are objects, known by their address: the loop of the connections in them. *)
Record Process := {
  loop : nat;                                   (* the loop running, or the last one *)
  pools : list (option nat);
  _engine : option nat;
  _sessionmaker : option nat;                   (* the engine it makes sessions of *)
  _client : resource -> option nat;             (* of each module with a Valkey client *)
  met : list (resource * nat * nat);            (* a connection of one loop, used in another *)
  _guards_installed : bool;
  listeners : list (string * string) }.         (* of the class [Session]: event, function *)

Inductive failure := DeadConnection | Error (e : exn).
Definition R (A : Type) : Type := Process -> (A + failure) * Process.

Definition done_ {A} (a : A) : R A := fun p => (inl a, p).
Definition throw {A} (e : exn) : R A := fun p => (inr (Error e), p).
Definition and_then {A B} (m : R A) (k : A -> R B) : R B := fun p =>
  match m p with (inl a, p') => k a p' | (inr e, p') => (inr e, p') end.
Definition except {A} (m : R A) (h : failure -> R A) : R A := fun p =>
  match m p with (inl a, p') => (inl a, p') | (inr e, p') => h e p' end.
(** [try: m finally: cleanup] *)
Definition try_finally {A} (m : R A) (cleanup : R unit) : R A := fun p =>
  let '(r, p1) := m p in
  match cleanup p1 with (inl _, p2) => (r, p2) | (inr e, p2) => (inr e, p2) end.

Definition set_pools (l : list (option nat)) (p : Process) : Process := {|
  loop := loop p; pools := l; _engine := _engine p; _sessionmaker := _sessionmaker p; _client := _client p; met := met p;
  _guards_installed := _guards_installed p; listeners := listeners p |}.
Definition set_engine (e s : option nat) (p : Process) : Process := {|
  loop := loop p; pools := pools p; _engine := e; _sessionmaker := s; _client := _client p; met := met p;
  _guards_installed := _guards_installed p; listeners := listeners p |}.
Definition set_client (r : resource) (c : option nat) (p : Process) : Process := {|
  loop := loop p; pools := pools p; _engine := _engine p; _sessionmaker := _sessionmaker p;
  _client := fun r' => if decide (r' = r) then c else _client p r'; met := met p;
  _guards_installed := _guards_installed p; listeners := listeners p |}.
Definition incident (r : resource) (l : nat) (p : Process) : Process := {|
  loop := loop p; pools := pools p; _engine := _engine p; _sessionmaker := _sessionmaker p; _client := _client p;
  met := met p ++ [(r, l, loop p)]; _guards_installed := _guards_installed p; listeners := listeners p |}.
Definition in_loop (n : nat) (p : Process) : Process := {|
  loop := n; pools := pools p; _engine := _engine p; _sessionmaker := _sessionmaker p; _client := _client p; met := met p;
  _guards_installed := _guards_installed p; listeners := listeners p |}.

(** A use of a pool: it opens a connection, or takes one it has. *)
Definition connect (r : resource) (a : nat) : R unit := fun p =>
  match pools p !! a with
  | Some (Some l) => if Nat.eqb l (loop p) then (inl tt, p) else (inr DeadConnection, incident r l (set_pools (<[a := None]> (pools p)) p))
  | _ => (inl tt, set_pools (<[a := Some (loop p)]> (pools p)) p)
  end.
Definition new_pool : R nat := fun p => (inl (length (pools p)), set_pools (pools p ++ [None]) p).
(** [await engine.dispose()]: closing a connection is a use of it. *)
Definition dispose (r : resource) (a : nat) : R unit := fun p =>
  match pools p !! a with
  | Some (Some l) => if Nat.eqb l (loop p) then (inl tt, set_pools (<[a := None]> (pools p)) p)
                     else (inr DeadConnection, incident r l (set_pools (<[a := None]> (pools p)) p))
  | _ => (inl tt, p)
  end.

(** ** [app/core/db.py] *)

Definition get_control_engine : R nat := fun p =>
  match _engine p with
  | Some e => (inl e, p)
  | None => and_then new_pool (fun e p' => (inl e, set_engine (Some e) (_sessionmaker p') p')) p
  end.
Definition get_control_sessionmaker : R nat := fun p =>
  match _sessionmaker p with
  | Some s => (inl s, p)
  | None => and_then get_control_engine (fun e p' => (inl e, set_engine (_engine p') (Some e) p')) p
  end.
(** A session that does something. *)
Definition get_control_session : R unit := and_then get_control_sessionmaker (connect Postgres).
Definition dispose_control_engine : R unit := fun p =>
  and_then (match _engine p with Some e => dispose Postgres e | None => done_ tt end) (fun _ p' => (inl tt, set_engine None None p')) p.

(** ** The Valkey clients *)

(** [get_valkey_client] and its like, one in each module. *)
Definition get_valkey_client (r : resource) : R nat := fun p =>
  match _client p r with
  | Some c => (inl c, p)
  | None => and_then new_pool (fun c p' => (inl c, set_client r (Some c) p')) p
  end.
Definition set_valkey_client (r : resource) (client : option nat) : R unit := fun p => (inl tt, set_client r client p).
(** [auth/rate_limit.py] names its own otherwise. *)
Definition get_rate_limit_client : R nat := get_valkey_client RateLimitValkey.
Definition set_rate_limit_client (client : option nat) : R unit := set_valkey_client RateLimitValkey client.
(** A command on the client. *)
Definition valkey (r : resource) : R unit := and_then (get_valkey_client r) (connect r).

(** ** Loops *)

Definition asyncio_run {A} (m : R A) : R A := fun p => m (in_loop (S (loop p)) p).

Definition run_async {A} (coro : R A) : R A := asyncio_run (try_finally coro dispose_control_engine).

Definition _dispose_engines : R unit := dispose_control_engine.
Definition refresh_expiring_tokens_task {A} (refresh_expiring_tokens : R A) : R A := asyncio_run (try_finally refresh_expiring_tokens _dispose_engines).
Definition renew_subscriptions_task {A} (renew_expiring_subscriptions : R A) : R A := asyncio_run (try_finally renew_expiring_subscriptions _dispose_engines).
Definition sync_subscriptions_task {A} (sync_connection_subscriptions : R A) : R A := asyncio_run (try_finally sync_connection_subscriptions _dispose_engines).
Definition connector_event_received_task {A} (process_connector_event : R A) : R A := asyncio_run (try_finally process_connector_event _dispose_engines).
Definition periodic_fanout_task {A} (run_periodic_fanout : R A) : R A := asyncio_run (try_finally run_periodic_fanout _dispose_engines).
Definition periodic_unit_task {A} (run_periodic_unit : R A) : R A := asyncio_run (try_finally run_periodic_unit _dispose_engines).
Definition daily_usage_rollup_task {A} (rollup : R A) : R A := asyncio_run (try_finally rollup dispose_control_engine).
Definition purge_expired {A} (purge_expired_auth_rows : R A) : R A := asyncio_run (try_finally purge_expired_auth_rows dispose_control_engine).

(** ** [tenancy/tenant_base.py] *)

Definition listen (event function : string) (p : Process) : Process := {|
  loop := loop p; pools := pools p; _engine := _engine p; _sessionmaker := _sessionmaker p; _client := _client p; met := met p;
  _guards_installed := _guards_installed p; listeners := listeners p ++ [(event, function)] |}.
Definition install_tenant_guards : R unit := fun p =>
  if _guards_installed p then (inl tt, p)
  else
    let p := listen "before_flush" "_guard_flush" (listen "do_orm_execute" "_guard_orm_execute" p) in
    (inl tt, {| loop := loop p; pools := pools p; _engine := _engine p; _sessionmaker := _sessionmaker p; _client := _client p;
                met := met p; _guards_installed := true; listeners := listeners p |}).

(** A process that has just started, the modules imported. *)
Definition started : Process := (install_tenant_guards {|
  loop := 0; pools := []; _engine := None; _sessionmaker := None; _client _ := None; met := [];
  _guards_installed := false; listeners := [] |}).2.

(** ** Coroutines, and sequences of runs *)

(** What a coroutine of the application may do: it reaches the pools through the
    functions above only. *)
Inductive coroutine : forall A, R A -> Prop :=
  | co_done A (a : A) : coroutine A (done_ a)
  | co_throw A e : coroutine A (throw e)
  | co_then A B (m : R A) (k : A -> R B) : coroutine A m -> (forall a, coroutine B (k a)) -> coroutine B (and_then m k)
  | co_except A (m : R A) (h : failure -> R A) : coroutine A m -> (forall e, coroutine A (h e)) -> coroutine A (except m h)
  | co_finally A (m : R A) c : coroutine A m -> coroutine unit c -> coroutine A (try_finally m c)
  | co_session : coroutine unit get_control_session
  | co_valkey r : r <> Postgres -> coroutine unit (valkey r)
  | co_guards : coroutine unit install_tenant_guards.

(** The wrappers: the commands', and each task's. *)
Inductive launcher := Command | RefreshTokens | RenewSubscriptions | SyncSubscriptions | EventReceived | Fanout | Unit | UsageRollup | Purge.
Definition launch (l : launcher) {A} (coro : R A) : R A :=
  match l with
  | Command => run_async coro
  | RefreshTokens => refresh_expiring_tokens_task coro
  | RenewSubscriptions => renew_subscriptions_task coro
  | SyncSubscriptions => sync_subscriptions_task coro
  | EventReceived => connector_event_received_task coro
  | Fanout => periodic_fanout_task coro
  | Unit => periodic_unit_task coro
  | UsageRollup => daily_usage_rollup_task coro
  | Purge => purge_expired coro
  end.
(** The runs of a worker or of a command line, one after the other. *)
Inductive runs : Process -> Process -> Prop :=
  | runs_none p : runs p p
  | runs_more p p1 l A (coro : R A) : runs p p1 -> coroutine A coro -> runs p (launch l coro p1).2.

(** The address [a] is that of a pool whose connections, if any, are of the loop running. *)
Definition current (p : Process) (a : nat) : Prop := pools p !! a = Some None \/ pools p !! a = Some (Some (loop p)).

(** What the globals of [core/db.py] are while a loop runs, and that the pools of
    the clients are others. *)
Record in_run (p : Process) : Prop := {
  ir_engine e : _engine p = Some e -> current p e;
  ir_maker s : _sessionmaker p = Some s -> _engine p = Some s;
  ir_client r c : _client p r = Some c -> (c < length (pools p))%nat /\ _engine p <> Some c;
  ir_clients r r' c : _client p r = Some c -> _client p r' = Some c -> r = r';
  ir_met : Forall (fun x => x.1.1 <> Postgres) (met p) }.
(** Between two loops there is no engine. *)
Definition between (p : Process) : Prop := in_run p /\ _engine p = None /\ _sessionmaker p = None.
(** And in the first loop the clients are sound too. *)
Definition clean (p : Process) : Prop := (forall r c, _client p r = Some c -> current p c) /\ met p = [].

(** ** Each function keeps them *)

Lemma current_insert p a x b : (b = a -> x = None \/ x = Some (loop p)) -> current p b -> current (set_pools (<[a := x]> (pools p)) p) b.
Proof.
  unfold current. cbn. intros Hx H. destruct (decide (b = a)) as [->|Hne]; [| by rewrite list_lookup_insert_ne].
  rewrite list_lookup_insert_eq; [destruct (Hx eq_refl) as [->| ->]; auto |]. apply lookup_lt_is_Some. destruct H as [H|H]; eauto.
Qed.
Lemma current_app p a : current p a -> current (set_pools (pools p ++ [None]) p) a.
Proof. unfold current. cbn. intros [H|H]; [left | right]; by apply lookup_app_l_Some. Qed.
Lemma current_new p : current (set_pools (pools p ++ [None]) p) (length (pools p)).
Proof. left. cbn. by apply list_lookup_middle. Qed.
Lemma current_lt p a : current p a -> (a < length (pools p))%nat.
Proof. unfold current. intros H. apply lookup_lt_is_Some. destruct H as [H|H]; eauto. Qed.

(** A pool that is given a connection of this loop, or emptied. *)
Lemma in_run_insert p a x : in_run p -> (_engine p = Some a -> x = None \/ x = Some (loop p)) -> in_run (set_pools (<[a := x]> (pools p)) p).
Proof.
  intros [H1 H2 H3 H4 H5] Hx. split; cbn; try done.
  - intros e He. apply current_insert; [| by apply H1]. intros ->. by apply Hx.
  - intros r c. rewrite length_insert. apply H3.
Qed.
Lemma in_run_incident p r l : r <> Postgres -> in_run p -> in_run (incident r l p).
Proof. intros Hr [H1 H2 H3 H4 H5]. split; cbn; try done. apply Forall_app. by split; [| constructor]. Qed.
Lemma in_run_app p : in_run p -> in_run (set_pools (pools p ++ [None]) p).
Proof.
  intros [H1 H2 H3 H4 H5]. split; cbn; try done.
  - intros e He. by apply current_app, H1.
  - intros r c Hc. destruct (H3 r c Hc) as [Hl Hn]. split; [| done]. rewrite length_app. cbn. lia.
Qed.

(** What a function keeps: the state of a run, its loop and, in the first loop, the
    soundness of the clients. *)
Definition kept (p p' : Process) : Prop := in_run p' /\ loop p' = loop p /\ (clean p -> clean p').
Lemma kept_refl p : in_run p -> kept p p.
Proof. by intros H. Qed.
Lemma kept_trans p1 p2 p3 : kept p1 p2 -> kept p2 p3 -> kept p1 p3.
Proof. intros (_ & L1 & C1) (H2 & L2 & C2). split; [done |]. split; [congruence | auto]. Qed.

Lemma clean_pools p l : (forall a, current p a -> current (set_pools l p) a) -> clean p -> clean (set_pools l p).
Proof. intros H [H1 H2]. split; cbn; [| done]. intros r c Hc. by apply H, (H1 r). Qed.

Lemma connect_keeps p r a : in_run p -> (a < length (pools p))%nat ->
  (r = Postgres -> _engine p = Some a) -> (r <> Postgres -> _client p r = Some a /\ _engine p <> Some a) ->
  kept p (connect r a p).2 /\ (current p a -> (connect r a p).1 = inl tt).
Proof.
  intros Hp Ha Hpg Hv. destruct (lookup_lt_is_Some_2 _ _ Ha) as [[l|] E]; unfold connect, current; rewrite E.
  - destruct (Nat.eqb_spec l (loop p)) as [->|Hne]; [by split |]. cbn.
    assert (Hr : r <> Postgres). { intros ->. destruct (ir_engine p Hp a (Hpg eq_refl)) as [E'|E']; congruence. }
    destruct (Hv Hr) as [Ec Ee]. split; [| by intros [|[= ?]]]. split; [by apply in_run_incident, in_run_insert |]. split; [done |].
    intros [Hc _]. destruct (Hc r a Ec) as [E'|E']; congruence.
  - cbn. split; [| done]. split; [by apply in_run_insert; [| right] |]. split; [done |].
    apply clean_pools. intros b. apply current_insert. by right.
Qed.

Lemma sessionmaker_keeps p : in_run p -> exists e p', get_control_sessionmaker p = (inl e, p') /\ kept p p' /\
  _engine p' = Some e /\ _sessionmaker p' = Some e /\ current p' e.
Proof.
  intros Hp. unfold get_control_sessionmaker. destruct (_sessionmaker p) as [s|] eqn:Es.
  { pose proof (ir_maker p Hp s Es) as Ee. exists s, p. split_and!; try done. by apply (ir_engine p Hp). }
  unfold and_then, get_control_engine. destruct (_engine p) as [e|] eqn:Ee.
  - exists e, (set_engine (_engine p) (Some e) p). rewrite Ee. destruct Hp as [H1 H2 H3 H4 H5].
    split_and!; try done; [| by apply H1]. split; [| done]. split; cbn; try done.
    + intros e' [= <-]. by apply H1.
    + intros r c Hc. rewrite <- Ee. by apply H3 with r.
  - unfold and_then, new_pool. cbn. set (e := length (pools p)).
    eexists e, _. split; [done |]. cbn. split_and!; try done; [| by apply current_new].
    destruct (in_run_app p Hp) as [H1 H2 H3 H4 H5]. cbn in *. split; [split; cbn; try done | split; [done |]].
    + intros ? [= <-]. apply current_new.
    + intros r c Hc. destruct (ir_client p Hp r c Hc) as [Hl _]. rewrite length_app. cbn. split; [lia |]. intros [= E]. subst e. lia.
    + intros Hc. exact (clean_pools p _ (current_app p) Hc).
Qed.
Lemma session_keeps p : in_run p -> kept p (get_control_session p).2 /\ (get_control_session p).1 = inl tt.
Proof.
  intros Hp. destruct (sessionmaker_keeps p Hp) as (e & p' & E & Hk & Ee & Es & Hc).
  unfold get_control_session, and_then. rewrite E.
  destruct (connect_keeps p' Postgres e (proj1 Hk) (current_lt _ _ Hc)) as [H1 H2]; [done | done |].
  split; [by eapply kept_trans | by apply H2].
Qed.

Lemma valkey_keeps p r : r <> Postgres -> in_run p -> kept p (valkey r p).2 /\ (clean p -> (valkey r p).1 = inl tt).
Proof.
  intros Hr Hp. unfold valkey, get_valkey_client, and_then. destruct (_client p r) as [c|] eqn:Ec.
  - destruct (ir_client p Hp r c Ec) as [Hl Hn]. destruct (connect_keeps p r c Hp Hl) as [H1 H2]; [done | done |].
    split; [done |]. intros [Hcl _]. by apply H2, (Hcl r).
  - cbn. set (c := length (pools p)). set (p' := set_client r (Some c) _).
    assert (Hk : kept p p').
    { destruct (in_run_app p Hp) as [H1 H2 H3 H4 H5]. cbn in *. split; [split; cbn; try done | split; [done |]].
      - intros r' c'. case_decide as E; [intros [= <-] | apply H3]. split; [rewrite length_app; cbn; lia |]. intros Ee.
        pose proof (current_lt _ _ (ir_engine p Hp _ Ee)). lia.
      - intros r1 r2 c'. case_decide; case_decide; subst; try done.
        + intros [= <-] E. destruct (ir_client p Hp r2 c E). lia.
        + intros E [= <-]. destruct (ir_client p Hp r1 c E). lia.
        + apply H4.
      - intros [Hcl Hm]. split; [| done]. cbn. intros r' c'. case_decide; [intros [= <-]; apply current_new | intros E; by apply current_app, (Hcl r')]. }
    assert (Hc : current p' c) by apply current_new.
    destruct (connect_keeps p' r c (proj1 Hk) (current_lt _ _ Hc)) as [H1 H2]; [done | |].
    { intros _. cbn. rewrite decide_True by done. split; [done |]. intros Ee. pose proof (current_lt _ _ (ir_engine p Hp _ Ee)). lia. }
    split; [by eapply kept_trans | by intros _; apply H2].
Qed.

Lemma coroutine_keeps A (m : R A) : coroutine A m -> forall p, in_run p -> kept p (m p).2.
Proof.
  induction 1 as [A a|A e|A B m k _ IHm _ IHk|A m h _ IHm _ IHh|A m c _ IHm _ IHc| |r Hr|]; intros p Hp.
  - by apply kept_refl.
  - by apply kept_refl.
  - unfold and_then. specialize (IHm p Hp). destruct (m p) as [[a|e] p1]; [| done]. eapply kept_trans; [exact IHm | apply IHk, IHm].
  - unfold except. specialize (IHm p Hp). destruct (m p) as [[a|e] p1]; [done |]. eapply kept_trans; [exact IHm | apply IHh, IHm].
  - unfold try_finally. specialize (IHm p Hp). destruct (m p) as [r p1]. specialize (IHc p1 (proj1 IHm)).
    destruct (c p1) as [[u|e] p2]; (eapply kept_trans; [exact IHm | exact IHc]).
  - by apply session_keeps.
  - by apply valkey_keeps.
  - unfold install_tenant_guards. destruct (_guards_installed p); [by apply kept_refl |]. destruct Hp as [H1 H2 H3 H4 H5]. split; [by split | done].
Qed.

Lemma dispose_run p : in_run p -> exists p', dispose_control_engine p = (inl tt, p') /\ kept p p' /\ between p'.
Proof.
  intros Hp. unfold dispose_control_engine, and_then, dispose.
  assert (Hb : forall q, in_run q -> between (set_engine None None q)).
  { intros q [H1 H2 H3 H4 H5]. split; [| done]. split; cbn; try done. intros r c Hc. by destruct (H3 r c Hc). }
  destruct (_engine p) as [e|] eqn:Ee; [| exists (set_engine None None p); split; [done |]; split; [| by apply Hb]; split; [by apply Hb | done]].
  destruct (ir_engine p Hp e Ee) as [E|E]; rewrite E.
  - exists (set_engine None None p). split; [done |]. split; [| by apply Hb]. split; [by apply Hb | done].
  - rewrite Nat.eqb_refl. set (q := set_pools _ p). assert (Hq : in_run q) by (apply in_run_insert; auto).
    exists (set_engine None None q). split; [done |]. split; [| by apply Hb]. split; [by apply Hb |]. split; [done |].
    apply (clean_pools p). intros b. apply current_insert. by left.
Qed.
Lemma between_loop p n : between p -> in_run (in_loop n p).
Proof. intros ([H1 H2 H3 H4 H5] & E1 & E2). split; cbn; try done; congruence. Qed.
Lemma launch_run l A (coro : R A) : launch l coro = run_async coro.
Proof. by destruct l. Qed.
Lemma run_async_keeps A (coro : R A) p : coroutine A coro -> between p ->
  between (run_async coro p).2 /\ (run_async coro p).1 = (coro (in_loop (S (loop p)) p)).1 /\
  kept (in_loop (S (loop p)) p) (run_async coro p).2.
Proof.
  intros Hc Hp. unfold run_async, asyncio_run, try_finally. pose proof (coroutine_keeps A coro Hc _ (between_loop p (S (loop p)) Hp)) as Hk.
  destruct (coro (in_loop (S (loop p)) p)) as [r p1]. cbn [snd] in Hk. destruct (dispose_run p1 (proj1 Hk)) as (p2 & E & Hk2 & Hb).
  rewrite E. split; [exact Hb |]. split; [done |]. eapply kept_trans; [exact Hk | exact Hk2].
Qed.

(** ** What holds of the process *)

Lemma started_between : between started /\ clean started.
Proof. split; [split; [split; cbn; try done; constructor | done] | by split]. Qed.
Lemma runs_between p p' : runs p p' -> between p -> between p'.
Proof. induction 1 as [|p p1 l A coro _ IH Hc]; [done |]. intros Hp. rewrite launch_run. by apply run_async_keeps, IH. Qed.

(** A client that worked has its connection, and keeps it. *)
Lemma valkey_connected r p : r <> Postgres -> between p -> (run_async (valkey r) p).1 = inl tt ->
  let p' := (run_async (valkey r) p).2 in
  loop p' = S (loop p) /\ exists c, _client p' r = Some c /\ pools p' !! c = Some (Some (loop p')).
Proof.
  intros Hr Hp. set (q := in_loop (S (loop p)) p). pose proof (between_loop p (S (loop p)) Hp) as Hq. fold q in Hq.
  assert (En : _engine q = None) by apply Hp. assert (El : loop q = S (loop p)) by done.
  unfold run_async, asyncio_run, try_finally. fold q. clearbody q. unfold valkey, get_valkey_client, and_then.
  assert (Hd : forall q', _engine q' = None -> dispose_control_engine q' = (inl tt, set_engine None None q')).
  { intros q' E. unfold dispose_control_engine, and_then. by rewrite E. }
  destruct (_client q r) as [c|] eqn:Ec.
  - destruct (ir_client q Hq r c Ec) as [Hl _]. destruct (lookup_lt_is_Some_2 _ _ Hl) as [[l|] E]; unfold connect; rewrite E.
    + destruct (Nat.eqb_spec l (loop q)) as [->|Hne]; [| by rewrite Hd by done].
      rewrite Hd by done. intros _. cbn. split; [exact El |]. by exists c.
    + rewrite Hd by done. intros _. cbn. split; [exact El |]. exists c. split; [done | by apply list_lookup_insert_eq].
  - cbn. unfold connect. cbn. rewrite list_lookup_middle by done. rewrite Hd by done. intros _. cbn. split; [exact El |].
    exists (length (pools q)). rewrite decide_True by done. split; [done |]. apply list_lookup_insert_eq. rewrite length_app. cbn. lia.
Qed.
Lemma valkey_stale r p l c : r <> Postgres -> between p -> _client p r = Some c -> pools p !! c = Some (Some l) -> (l <= loop p)%nat ->
  (run_async (valkey r) p).1 = inr DeadConnection.
Proof.
  intros Hr Hp Ec El Hl. rewrite (proj1 (proj2 (run_async_keeps unit (valkey r) p (co_valkey r Hr) Hp))).
  unfold valkey, get_valkey_client, and_then. cbn. rewrite Ec. unfold connect. cbn. rewrite El.
  destruct (Nat.eqb_spec l (S (loop p))) as [->|Hne]; [lia | done].
Qed.

(** C31: no run meets a connection of a dead loop, where the engine is concerned.
    After any sequence of commands and tasks, whatever their coroutines do and
    however they end, no connection to the database was used outside the loop it
    was opened in, no engine is left for the next loop, and closing the engine never
    replaces what the coroutine gave. The API, which runs in the first loop of its
    process, is sound for Valkey too. A worker is not: a task that used a Valkey
    client leaves it for the next, which fails on it. *)
Theorem connections_stay_on_their_loop p : runs started p ->
  (forall r l n, In (r, l, n) (met p) -> r <> Postgres) /\ _engine p = None /\ _sessionmaker p = None /\
  (forall l A (coro : R A), coroutine A coro -> (launch l coro p).1 = (coro (in_loop (S (loop p)) p)).1) /\
  (forall A (coro : R A), coroutine A coro -> met (asyncio_run coro started).2 = []) /\
  (forall l l' r, r <> Postgres -> (launch l (valkey r) p).1 = inl tt ->
     (launch l' (valkey r) (launch l (valkey r) p).2).1 = inr DeadConnection).
Proof.
  intros Hr. pose proof (runs_between _ _ Hr (proj1 started_between)) as Hb. split; [| split; [apply Hb |]; split; [apply Hb |]].
  - intros r l n Hin. pose proof (ir_met p (proj1 Hb)) as H. rewrite List.Forall_forall in H. exact (H (r, l, n) Hin).
  - split; [| split].
    + intros l A coro Hc. rewrite launch_run. by apply run_async_keeps.
    + intros A coro Hc. pose proof (coroutine_keeps A coro Hc _ (between_loop started 1 (proj1 started_between))) as (_ & _ & H).
      apply H. split; [| done]. intros r c E. discriminate E.
    + intros l l' r Hn. rewrite !launch_run. intros E. destruct (valkey_connected r p Hn Hb E) as (El & c & Ec & Ep).
      eapply (valkey_stale r _ (loop (run_async (valkey r) p).2) c Hn); [apply run_async_keeps; [by constructor | done] | exact Ec | exact Ep | reflexivity].
Qed.

(** The guards are installed once, however often it is asked. *)
Lemma guards_once : install_tenant_guards started = (inl tt, started) /\
  listeners started = [("do_orm_execute", "_guard_orm_execute"); ("before_flush", "_guard_flush")].
Proof. by split. Qed.

(** A task that reads the database under a lock of the connectors. *)
Definition locked_task : R unit := and_then (valkey ThrottleValkey) (fun _ => get_control_session).
Lemma locked_task_coroutine : coroutine unit locked_task.
Proof. apply co_then; [by apply co_valkey | intros _; apply co_session]. Qed.
Definition after_two : Process := (launch RenewSubscriptions locked_task (launch RefreshTokens locked_task started).2).2.

Lemma connections_stay_on_their_loop_witness :
  runs started after_two /\ _engine after_two = None /\ met after_two = [(ThrottleValkey, 1%nat, 2%nat)] /\ ThrottleValkey <> Postgres.
Proof.
  assert (H : runs started after_two).
  { apply (runs_more _ _ RenewSubscriptions _ locked_task); [| exact locked_task_coroutine]. apply (runs_more _ _ RefreshTokens _ locked_task); [apply runs_none | exact locked_task_coroutine]. }
  destruct (connections_stay_on_their_loop after_two H) as (H1 & H2 & _). split; [exact H |]. split; [exact H2 |].
  split; [vm_compute; reflexivity |]. apply (H1 ThrottleValkey 1%nat 2%nat). vm_compute. auto.
Defined.
