(* ===== verification/Globals.v ===== *)
(** What the modules keep in globals and compute once: the settings
    ([get_settings], an [lru_cache] of [core/config.py]), the key provider
    ([core/crypto.py]), the registry of the connectors ([connectors/registry.py]),
    the gateway and the two functions it calls LiteLLM through ([ai/gateway.py]).

    The other files read the settings, the key and the manifests as constants. This
    one has the globals with what may change them (a value computed at the first
    use, the environment that changes later, a manifest replaced for the time of a
    block) and shows when reading them is reading constants.

    [Process] has the globals that hold connections. *)
From S2P Require Import Prelude PyStr Hashing Config Models Providers.

Section globals.
(** Callables that await LiteLLM: what the two defaults do is its business. *)
Context {Completion Embedding : Type} (_default_completion_fn : Completion) (_default_embedding_fn : Embedding).

Definition Registry : Type := list (ConnectorProvider * ProviderManifest).

Record Globals := {
  environment : Settings;                   (* what [Settings()] would read now *)
  settings_cache : option Settings;         (* of the [lru_cache] *)
  _provider : option bytes;
  _registry : option Registry;
  _completion_fn : Completion;
  _embedding_fn : Embedding;
  _gateway : option nat;                    (* an object, by its address *)
  objects : nat                             (* addresses taken *)
}.

Definition G (A : Type) : Type := Globals -> result A * Globals.

(** ** Programs *)

Definition value {A} (r : result A) : G A := fun g => (r, g).
Definition and_then {A B} (m : G A) (k : A -> G B) : G B := fun g =>
  match m g with (Ok a, g') => k a g' | (Raise e, g') => (Raise e, g') end.
(** [try: m except: h], [h] deciding on the exception. *)
Definition try_except {A} (m : G A) (h : exn -> G A) : G A := fun g =>
  match m g with (Raise e, g') => h e g' | r => r end.
(** [try: m finally: cleanup], for a cleanup that does not raise. *)
Definition try_finally {A} (m : G A) (cleanup : Globals -> Globals) : G A := fun g =>
  let '(r, g') := m g in (r, cleanup g').

Definition set_settings (s : option Settings) (g : Globals) : Globals := {|
  environment := environment g; settings_cache := s; _provider := _provider g; _registry := _registry g;
  _completion_fn := _completion_fn g; _embedding_fn := _embedding_fn g; _gateway := _gateway g; objects := objects g |}.
Definition set_provider (k : option bytes) (g : Globals) : Globals := {|
  environment := environment g; settings_cache := settings_cache g; _provider := k; _registry := _registry g;
  _completion_fn := _completion_fn g; _embedding_fn := _embedding_fn g; _gateway := _gateway g; objects := objects g |}.
Definition set_registry (r : Registry) (g : Globals) : Globals := {|
  environment := environment g; settings_cache := settings_cache g; _provider := _provider g; _registry := Some r;
  _completion_fn := _completion_fn g; _embedding_fn := _embedding_fn g; _gateway := _gateway g; objects := objects g |}.
Definition set_functions (c : Completion) (e : Embedding) (g : Globals) : Globals := {|
  environment := environment g; settings_cache := settings_cache g; _provider := _provider g; _registry := _registry g;
  _completion_fn := c; _embedding_fn := e; _gateway := _gateway g; objects := objects g |}.
Definition new_gateway (g : Globals) : Globals := {|
  environment := environment g; settings_cache := settings_cache g; _provider := _provider g; _registry := _registry g;
  _completion_fn := _completion_fn g; _embedding_fn := _embedding_fn g; _gateway := Some (objects g); objects := S (objects g) |}.
(** The environment, or the [.env] file, is edited. *)
Definition reconfigure (s : Settings) : G unit := fun g => (Ok tt, {|
  environment := s; settings_cache := settings_cache g; _provider := _provider g; _registry := _registry g;
  _completion_fn := _completion_fn g; _embedding_fn := _embedding_fn g; _gateway := _gateway g; objects := objects g |}).

(** ** [core/config.py] and [core/crypto.py] *)

Definition get_settings : G Settings := fun g =>
  match settings_cache g with
  | Some s => (Ok s, g)
  | None => (Ok (environment g), set_settings (Some (environment g)) g)
  end.
(** [get_settings.cache_clear()] *)
Definition cache_clear : G unit := fun g => (Ok tt, set_settings None g).

Definition get_key_provider : G bytes := fun g =>
  match _provider g with
  | Some key => (Ok key, g)
  | None =>
      and_then get_settings (fun settings =>
      and_then (value (let! key := @master_key_bytes settings in Crypto.EnvKeyProvider key)) (fun key g' =>
        (Ok key, set_provider (Some key) g'))) g
  end.
Definition reset_key_provider : G unit := fun g => (Ok tt, set_provider None g).

(** ** [connectors/registry.py] *)

(** The dict [_register] returns. *)
Definition registered : Registry := [(CONNECTOR_GOOGLE, GOOGLE_MANIFEST); (CONNECTOR_MICROSOFT, MICROSOFT_MANIFEST)].

Definition entry (p : ConnectorProvider) (r : Registry) : option ProviderManifest :=
  snd <$> List.find (fun kv => bool_decide (kv.1 = p)) r.
Definition set_entry (p : ConnectorProvider) (m : ProviderManifest) (r : Registry) : Registry :=
  List.map (fun kv => if decide (kv.1 = p) then (p, m) else kv) r.

Definition the_registry : G Registry := fun g =>
  match _registry g with
  | Some r => (Ok r, g)
  | None => (Ok registered, set_registry registered g)
  end.
Definition get_provider (provider : string) : G ProviderManifest :=
  and_then the_registry (fun r =>
    value match ConnectorProvider_of provider with
          | None => Raise (UnknownProviderError ("Provider de connecteur inconnu : " +:+ py_repr provider))
          | Some key => match entry key r with Some m => Ok m | None => Raise KeyError end
          end).

(** The entry of a provider of the dict is assigned; the dict has an entry for each. *)
Definition assign_entry (p : ConnectorProvider) (m : ProviderManifest) (g : Globals) : Globals :=
  match _registry g with Some r => set_registry (set_entry p m r) g | None => g end.
(** [with override_provider(manifest): body] *)
Definition override_provider {A} (manifest : ProviderManifest) (body : G A) : G A :=
  and_then the_registry (fun r g =>
    match entry (pm_provider manifest) r with
    | None => (Raise KeyError, g)
    | Some previous =>
        try_finally body (assign_entry (pm_provider manifest) previous) (assign_entry (pm_provider manifest) manifest g)
    end).

(** ** [ai/gateway.py] *)

Definition set_completion_fn (fn : option Completion) : G unit := fun g =>
  (Ok tt, set_functions (default _default_completion_fn fn) (_embedding_fn g) g).
Definition set_embedding_fn (fn : option Embedding) : G unit := fun g =>
  (Ok tt, set_functions (_completion_fn g) (default _default_embedding_fn fn) g).
Definition get_gateway : G nat := fun g =>
  match _gateway g with
  | Some a => (Ok a, g)
  | None => (Ok (objects g), new_gateway g)
  end.

(** The globals once the modules are imported. *)
Definition imported (env : Settings) : Globals := {|
  environment := env; settings_cache := None; _provider := None; _registry := None;
  _completion_fn := _default_completion_fn; _embedding_fn := _default_embedding_fn; _gateway := None; objects := 0 |}.

(** ** What code that runs in the process may do with them *)

(** The code of the repository clears no cache: what it does with the globals is to
    read them, and a test to replace a manifest for the time of a block. The
    environment may change whenever it pleases. *)
Inductive reader : forall A, G A -> Prop :=
  | rd_value A (r : result A) : reader A (value r)
  | rd_then A B (m : G A) (k : A -> G B) : reader A m -> (forall a, reader B (k a)) -> reader B (and_then m k)
  | rd_except A (m : G A) (h : exn -> G A) : reader A m -> (forall e, reader A (h e)) -> reader A (try_except m h)
  | rd_settings : reader Settings get_settings
  | rd_key : reader bytes get_key_provider
  | rd_provider text : reader ProviderManifest (get_provider text)
  | rd_override A manifest (body : G A) : reader A body -> reader A (override_provider manifest body)
  | rd_gateway : reader nat get_gateway
  | rd_completion fn : reader unit (set_completion_fn fn)
  | rd_embedding fn : reader unit (set_embedding_fn fn)
  | rd_reconfigure s : reader unit (reconfigure s).

(** ** Reading the globals is reading constants *)

(** The settings have been read and are [env]; the key, if there is one, is that of
    [env]; the registry has [r p] for each provider [p]. *)
Record settled (env : Settings) (r : ConnectorProvider -> ProviderManifest) (g : Globals) : Prop := {
  st_settings : settings_cache g = Some env;
  st_key : forall key, _provider g = Some key -> @Crypto.get_key_provider env = Ok key;
  st_registry : forall p, entry p (default registered (_registry g)) = Some (r p);
  st_gateway : forall a, _gateway g = Some a -> (a < objects g)%nat }.

Lemma registered_entry p : entry p registered = Some (_register p).
Proof. by destruct p. Qed.

(** What a program keeps: the globals settled, on the same values, the gateway, the
    registry once it is there. *)
Definition kept (env : Settings) (r : ConnectorProvider -> ProviderManifest) (g g' : Globals) : Prop :=
  settled env r g' /\ (forall a, _gateway g = Some a -> _gateway g' = Some a) /\ (is_Some (_registry g) -> is_Some (_registry g')).
Lemma globals_kept_refl env r g : settled env r g -> kept env r g g.
Proof. by split. Qed.
Lemma globals_kept_trans env r g1 g2 g3 : kept env r g1 g2 -> kept env r g2 g3 -> kept env r g1 g3.
Proof. intros (_ & H1 & H2) (H3 & H4 & H5). split_and!; auto. Qed.

Lemma entry_set p m p' r : is_Some (entry p r) -> entry p' (set_entry p m r) = if decide (p' = p) then Some m else entry p' r.
Proof.
  unfold entry. induction r as [|[q v] r IH]; cbn; [by intros [x [=]] |].
  destruct (decide (q = p)) as [->|Hq]; cbn.
  - intros _. case_bool_decide as E1; [subst; by rewrite decide_True |].
    rewrite decide_False by congruence. clear IH. induction r as [|[q' v'] r IH]; [done |]. cbn.
    destruct (decide (q' = p)) as [->|]; cbn; [by rewrite !bool_decide_eq_false_2 by congruence | by case_bool_decide].
  - rewrite bool_decide_eq_false_2 by done. intros H. specialize (IH H). case_bool_decide as E; [| exact IH].
    subst. by rewrite decide_False.
Qed.
(** The manifests once [m] stands for its provider. *)
Definition replaced (m : ProviderManifest) (r : ConnectorProvider -> ProviderManifest) : ConnectorProvider -> ProviderManifest :=
  fun p => if decide (p = pm_provider m) then m else r p.
Lemma assign_settled env r g p m : settled env r g -> is_Some (_registry g) ->
  settled env (fun p' => if decide (p' = p) then m else r p') (assign_entry p m g).
Proof.
  intros [H1 H2 H3 H4] [l El]. unfold assign_entry. rewrite El. split; cbn; try done.
  intros p'. rewrite El in H3. change (forall p, entry p l = Some (r p)) in H3.
  change (entry p' (set_entry p m l) = Some (if decide (p' = p) then m else r p')). rewrite entry_set by (rewrite H3; eauto). by case_decide.
Qed.
Lemma settled_ext env r r' g : (forall p, r p = r' p) -> settled env r g -> settled env r' g.
Proof. intros E [H1 H2 H3 H4]. split; try done. intros p. by rewrite <- E. Qed.

Lemma settings_settled env r g : settled env r g -> get_settings g = (Ok env, g).
Proof. intros H. unfold get_settings. by rewrite (st_settings _ _ _ H). Qed.
Lemma key_settled env r g : settled env r g ->
  exists g', get_key_provider g = (@Crypto.get_key_provider env, g') /\ kept env r g g'.
Proof.
  intros H. unfold get_key_provider. destruct (_provider g) as [key|] eqn:Ek.
  - exists g. rewrite (st_key _ _ _ H key Ek). split; [done | by apply globals_kept_refl].
  - unfold and_then. rewrite (settings_settled _ _ _ H). unfold value. fold (@Crypto.get_key_provider env).
    destruct (@Crypto.get_key_provider env) as [key|e] eqn:E; [| exists g; split; [done | by apply globals_kept_refl]].
    eexists. split; [done |]. destruct H as [H1 H2 H3 H4]. split; [| by split]. split; cbn; try done. by intros ? [= <-].
Qed.
Lemma registry_settled env r g : settled env r g ->
  exists l g', the_registry g = (Ok l, g') /\ kept env r g g' /\ _registry g' = Some l /\ (forall p, entry p l = Some (r p)).
Proof.
  intros H. unfold the_registry. destruct (_registry g) as [l|] eqn:E.
  - exists l, g. split; [done |]. split; [by apply globals_kept_refl |]. split; [done |]. intros p. pose proof (st_registry _ _ _ H p) as Hr. by rewrite E in Hr.
  - eexists _, _. split; [done |]. destruct H as [H1 H2 H3 H4]. rewrite E in H3. split; [| by split]. split; [by split |]. by split; [| eauto].
Qed.
Definition provider_of (r : ConnectorProvider -> ProviderManifest) (text : string) : result ProviderManifest :=
  match ConnectorProvider_of text with
  | Some key => Ok (r key)
  | None => Raise (UnknownProviderError ("Provider de connecteur inconnu : " +:+ py_repr text))
  end.
Lemma provider_settled env r g text : settled env r g -> exists g', get_provider text g = (provider_of r text, g') /\ kept env r g g'.
Proof.
  intros H. destruct (registry_settled env r g H) as (l & g' & E & Hk & _ & Hl).
  exists g'. split; [| done]. unfold get_provider, and_then, value, provider_of. rewrite E.
  destruct (ConnectorProvider_of text) as [key|]; [by rewrite Hl | done].
Qed.
Lemma gateway_settled env r g : settled env r g -> exists a g', get_gateway g = (Ok a, g') /\ kept env r g g' /\ _gateway g' = Some a.
Proof.
  intros H. unfold get_gateway. destruct (_gateway g) as [a|] eqn:E.
  - exists a, g. split; [done |]. split; [by apply globals_kept_refl | done].
  - eexists _, _. split; [done |]. split; [| done]. destruct H as [H1 H2 H3 H4]. split; [| by rewrite E]. split; cbn; try done. intros a [= <-]. lia.
Qed.

(** The block runs with the manifest in its place, and whatever it does the dict is
    as before when it ends. *)
Lemma override_settled env r g A manifest (body : G A) :
  (forall r' g1, settled env r' g1 -> kept env r' g1 (body g1).2) -> settled env r g ->
  kept env r g (override_provider manifest body g).2 /\
  exists g1, settled env (replaced manifest r) g1 /\ (override_provider manifest body g).1 = (body g1).1.
Proof.
  intros Hb H. unfold override_provider, and_then, try_finally.
  destruct (registry_settled env r g H) as (l & g0 & E & Hk & El & Hl). rewrite E, Hl.
  set (g1 := assign_entry (pm_provider manifest) manifest g0).
  assert (H1 : settled env (replaced manifest r) g1) by (apply assign_settled; [apply Hk | by rewrite El]).
  assert (Hg : _gateway g1 = _gateway g0 /\ is_Some (_registry g1)) by (unfold g1, assign_entry; rewrite El; cbn; eauto).
  pose proof (Hb _ _ H1) as (H2 & H3 & H4). destruct (body g1) as [res g2] eqn:Eb. cbn [fst snd] in *.
  split; [| by exists g1; rewrite Eb].
  assert (Hs : settled env r (assign_entry (pm_provider manifest) (r (pm_provider manifest)) g2)).
  { eapply settled_ext; [| apply assign_settled; [exact H2 | by apply H4, Hg]]. intros p. unfold replaced. cbn. by destruct (decide (p = pm_provider manifest)) as [->|]. }
  split; [exact Hs |]. unfold assign_entry in *. destruct (H4 (proj2 Hg)) as [l2 El2]. rewrite El2 in *. cbn. split; [| eauto].
  intros a Ha. apply H3. rewrite (proj1 Hg). by apply Hk.
Qed.

Lemma reader_kept A (m : G A) : reader A m -> forall env r g, settled env r g -> kept env r g (m g).2.
Proof.
  induction 1 as [A x|A B m k _ IHm _ IHk|A m h _ IHm _ IHh| | |text|A manifest body _ IH| |fn|fn|s]; intros env r g H.
  - by apply globals_kept_refl.
  - unfold and_then. specialize (IHm env r g H). destruct (m g) as [[a|e] g']; [| done]. eapply globals_kept_trans; [exact IHm | apply IHk, IHm].
  - unfold try_except. specialize (IHm env r g H). destruct (m g) as [[a|e] g']; [done |]. eapply globals_kept_trans; [exact IHm | apply IHh, IHm].
  - rewrite (settings_settled env r g H). by apply globals_kept_refl.
  - by destruct (key_settled env r g H) as (g' & -> & Hk).
  - by destruct (provider_settled env r g text H) as (g' & -> & Hk).
  - apply override_settled; [| done]. intros r' g1. apply IH.
  - by destruct (gateway_settled env r g H) as (a & g' & -> & Hk & _).
  - destruct H as [H1 H2 H3 H4]. by split.
  - destruct H as [H1 H2 H3 H4]. by split.
  - destruct H as [H1 H2 H3 H4]. by split.
Qed.

(** Starting the application or the worker reads the settings. *)
Lemma started_settled env : settled env _register (get_settings (imported env)).2.
Proof. split; cbn; try done. intros p. apply registered_entry. Qed.

(** The globals read as the constants of the other files, at any time: once the
    settings are read, and whatever the code has done since, its blocks under another
    manifest and the changes of the environment included, the settings and the key
    are those of the start, a provider has the manifest of [Providers.get_provider],
    an unknown one its error, and the gateway is one object. *)
Theorem globals_read_as_constants env A (m : G A) : reader A m ->
  let g := (get_settings (imported env)).2 in let g' := (m g).2 in
  (get_settings g').1 = Ok env /\ (get_key_provider g').1 = @Crypto.get_key_provider env /\
  (forall text, (get_provider text g').1 = Providers.get_provider text) /\
  (forall B (m' : G B), reader B m' -> (get_gateway (m' (get_gateway g').2).2).1 = (get_gateway g').1).
Proof.
  intros Hm g g'. assert (H : settled env _register g') by apply (reader_kept A m Hm), started_settled.
  rewrite (settings_settled _ _ _ H). split; [done |].
  split; [by destruct (key_settled _ _ _ H) as (? & -> & _) |].
  split; [intros text; by destruct (provider_settled _ _ _ text H) as (? & -> & _) |].
  intros B m' Hm'. destruct (gateway_settled _ _ _ H) as (a & g1 & -> & Hk & Ea). cbn [fst snd].
  pose proof (reader_kept B m' Hm' _ _ _ (proj1 Hk)) as (_ & Hg & _). unfold get_gateway. by rewrite (Hg a Ea).
Qed.

(** Under [override_provider] the block reads the manifest it is given for its
    provider, and the others as they were; an override in the block is of the block. *)
Theorem override_is_scoped env r g manifest text : settled env r g ->
  (override_provider manifest (get_provider text) g).1 = provider_of (replaced manifest r) text /\
  forall A (body : G A), reader A body -> (get_provider text (override_provider manifest body g).2).1 = provider_of r text.
Proof.
  intros H. split.
  - destruct (override_settled env r g _ manifest (get_provider text)) as [_ (g1 & H1 & ->)]; [| done |].
    + intros r' g1 H1. by apply reader_kept; [constructor |].
    + by destruct (provider_settled _ _ _ text H1) as (? & -> & _).
  - intros A body Hb. destruct (override_settled env r g A manifest body) as [Hk _]; [intros r' g1; by apply reader_kept | done |].
    by destruct (provider_settled _ _ _ text (proj1 Hk)) as (? & -> & _).
Qed.

(** To take another key in, the provider and the settings are both to be forgotten:
    [reset_key_provider] alone makes the new provider with the settings read before. *)
Theorem reset_needs_cache_clear env r g env' : settled env r g ->
  let g1 := (reset_key_provider (reconfigure env' g).2).2 in
  (get_key_provider g1).1 = @Crypto.get_key_provider env /\
  (get_key_provider (cache_clear g1).2).1 = @Crypto.get_key_provider env'.
Proof.
  intros H g1. split.
  - assert (H1 : settled env r g1) by (destruct H as [H1 H2 H3 H4]; by split).
    by destruct (key_settled _ _ _ H1) as (? & -> & _).
  - unfold get_key_provider, and_then, value. cbn. fold (@Crypto.get_key_provider env'). by destruct (@Crypto.get_key_provider env').
Qed.
End globals.
