(* ===== verification/Quota.v ===== *)
(** [app/ai/quota.py]: the monthly token counter kept in Valkey, and the alert
    written at most once a day. *)
From S2P Require Import Prelude PyStr Hashing Base64 Json Config Tokens Models Permissions World Sample Orm Isolation AuthService Journal Dates.

Definition MONTH_TTL_SECONDS : Z := 62 * 24 * 3600.
Definition ALERT_TTL_SECONDS : Z := 24 * 3600.

Definition _month_key (tenant_id : N) (now : Z) : string := "ai:quota:" +:+ uuid_str tenant_id +:+ ":" +:+ year_month now.
Definition _alert_key (tenant_id : N) (now : Z) : string := "ai:quota:alert:" +:+ uuid_str tenant_id +:+ ":" +:+ iso_day now.

Record QuotaOutcome := { month_usage : Z; over_quota : bool; alerted : bool }.

Section quota.
Context {P : Platform}.

(** [GET] gives the digits of a counter; on text they are not, [int] fails. *)
Definition current_usage (tenant_id : N) : M Z := fun w =>
  match kv_look (w_now w) (_month_key tenant_id (w_now w)) (w_kv w) with
  | None => (Ok 0, w)
  | Some (KInt z, _) => (Ok z, w)
  | Some (KStr _, _) => (Raise (ValueError "invalid literal for int() with base 10"), w)
  end.

(** [INCRBY] *)
Definition incrby (key : string) (n : Z) : M Z := fun w =>
  let kv := kv_incrby (w_now w) key n (w_kv w) in
  match kv_look (w_now w) key kv with
  | Some (KInt z, _) => (Ok z, set_kv kv w)
  | _ => (Raise (ResponseError "value is not an integer or out of range"), w)
  end.
Definition expire (key : string) (seconds : Z) : M unit := fun w =>
  (Ok tt, set_kv (kv_expire (w_now w) key (seconds * second) (w_kv w)) w).

Definition add_usage (tenant_id : N) (tokens : Z) : M Z :=
  let* t := now in
  let key := _month_key tenant_id t in
  let* new_total := incrby key (Z.max tokens 0) in
  let* _ := (if new_total =? tokens then expire key MONTH_TTL_SECONDS else ret tt) in
  ret new_total.

Definition reconcile (tenant_id : N) (month_total : Z) : M unit :=
  let* t := now in
  fun w => (Ok tt, set_kv (kv_set t (_month_key tenant_id t) (KInt (Z.max month_total 0)) (Some (MONTH_TTL_SECONDS * second)) (w_kv w)) w).

(** [SET key "1" NX EX ttl]: whether the key was absent. *)
Definition set_nx (key : string) (seconds : Z) : M bool := fun w =>
  match kv_look (w_now w) key (w_kv w) with
  | Some _ => (Ok false, w)
  | None => (Ok true, set_kv (kv_set (w_now w) key (KStr "1") (Some (seconds * second)) (w_kv w)) w)
  end.

Definition _emit_alert_once (ctx : TenantContext) (month_usage quota : Z) : M bool :=
  let* t := now in
  let* acquired := set_nx (_alert_key (tc_tenant_id ctx) t) ALERT_TTL_SECONDS in
  if negb acquired then ret false
  else
    let* _ := tenant_context ctx (get_tenant_session (Own 1)
      (let* _ := record_audit_event (Own 1) "core.ai.quota_exceeded" "ai_quota" (year_month t)
         [("month_usage", JInt month_usage); ("monthly_token_quota", JInt quota)] None SYSTEM_ACTOR_LABEL in
       commit (Own 1))) in
    ret true.

Definition record_and_alert (ctx : TenantContext) (added_tokens quota : Z) : M QuotaOutcome :=
  let* month_usage := add_usage (tc_tenant_id ctx) added_tokens in
  let over_quota := quota <? month_usage in
  let* alerted := (if over_quota then _emit_alert_once ctx month_usage quota else ret false) in
  ret {| month_usage := month_usage; over_quota := over_quota; alerted := alerted |}.
End quota.

(** ** Running *)

Lemma hex_not_l n : hex_digit (n mod 16) <> ascii_of_N 108.
Proof.
  unfold hex_digit. pose proof (N.mod_lt n 16 ltac:(lia)). intros H0%(f_equal N_of_ascii). revert H0.
  destruct (n mod 16 <? 10)%N eqn:E; rewrite !N_ascii_embedding by lia; bool_hyps; lia.
Qed.

(** The counter and the alert live under different keys. *)
Lemma keys_differ tid t : _alert_key tid t <> _month_key tid t.
Proof.
  unfold _alert_key, _month_key, uuid_str. cbn [Sha256.be_octets].
  intros H. simpl in H. injection H as _ H. by apply (hex_not_l _ (eq_sym H)).
Qed.

Section quota_lemmas.
Context {P : Platform}.
Implicit Types (w : World).

(** The counter of the month, absent counting as zero. *)
Definition counter (w : World) (tid : N) : option Z :=
  match kv_look (w_now w) (_month_key tid (w_now w)) (w_kv w) with
  | None => Some 0
  | Some (KInt z, _) => Some z
  | Some (KStr _, _) => None
  end.

(** Nothing but the counter's key and what it counts changes. *)
Lemma add_usage_run tid tokens w z : 0 <= tokens -> counter w tid = Some z ->
  exists w', add_usage tid tokens w = (Ok (z + tokens), w') /\
    counter w' tid = Some (z + tokens) /\ w' = set_kv (w_kv w') w /\
    forall t k, k <> _month_key tid (w_now w) -> kv_look t k (w_kv w') = kv_look t k (w_kv w).
Proof.
  intros Ht Hc. unfold add_usage, counter in *. run. set (k := _month_key tid (w_now w)) in *.
  rewrite Z.max_l by done. unfold bind at 1, incrby. rewrite kv_incrby_eq.
  destruct (kv_look (w_now w) k (w_kv w)) as [[[z'|x] d]|] eqn:El; [| done |].
  - injection Hc as ->. destruct (z + tokens =? tokens).
    + unfold bind, expire, ret. eexists. split; [reflexivity |]. simpl. fold k. split; [| split; [done |]].
      * rewrite kv_expire_eq by (unfold MONTH_TTL_SECONDS, second; lia). rewrite kv_incrby_eq, El. done.
      * intros t k' Hk. by rewrite kv_expire_ne, kv_incrby_ne by congruence.
    + unfold bind, ret. eexists. split; [reflexivity |]. simpl. fold k. split; [by rewrite kv_incrby_eq, El | split; [done |]].
      intros t k' Hk. by rewrite kv_incrby_ne by congruence.
  - injection Hc as <-. rewrite Z.add_0_l, Z.eqb_refl. unfold bind, expire, ret. eexists. split; [reflexivity |]. simpl. fold k.
    split; [| split; [done |]].
    + rewrite kv_expire_eq by (unfold MONTH_TTL_SECONDS, second; lia). by rewrite kv_incrby_eq, El.
    + intros t k' Hk. by rewrite kv_expire_ne, kv_incrby_ne by congruence.
Qed.

(** Whatever the counter is, only its key changes. *)
Lemma add_usage_other tid tokens w r w' : add_usage tid tokens w = (r, w') ->
  w' = set_kv (w_kv w') w /\ (forall t k, k <> _month_key tid (w_now w) -> kv_look t k (w_kv w') = kv_look t k (w_kv w)) /\
  match r with Ok _ => True | Raise e => exists msg, e = ResponseError msg end.
Proof.
  unfold add_usage. run. set (k := _month_key tid (w_now w)). unfold bind at 1, incrby.
  destruct (kv_look _ k _) as [[[z'|x] d]|]; [| intros [= <- <-]; split; [by destruct w |]; split; [done |]; by eexists ..].
  destruct (z' =? tokens); unfold bind, expire, ret; intros [= <- <-]; simpl; (split; [done |]); (split; [| done]); intros t k' Hk.
  - by rewrite kv_expire_ne, kv_incrby_ne by congruence.
  - by rewrite kv_incrby_ne by congruence.
Qed.

Definition alert_payload (mu q : Z) : list (string * json) := [("month_usage", JInt mu); ("monthly_token_quota", JInt q)].
Definition is_alert (tid : N) (t mu q : Z) (e : AuditEvent) : Prop :=
  event_is tid t "core.ai.quota_exceeded" "ai_quota" (year_month t) (alert_payload mu q) None SYSTEM_ACTOR_LABEL e.

Lemma emit_run ctx mu q w :
  let k := _alert_key (tc_tenant_id ctx) (w_now w) in
  let '(r, w') := _emit_alert_once ctx mu q w in
  w_tenant w' = w_tenant w /\ w_now w' = w_now w /\ w_out w' = w_out w /\ w_entropy w' = w_entropy w /\ (w_drawn w <= w_drawn w')%nat /\
  (forall s, w_pend w' s = id \/ w_pend w' s = w_pend w s) /\
  (is_Some (kv_look (w_now w) k (w_kv w)) /\ r = Ok false /\ w' = w \/
   kv_look (w_now w) k (w_kv w) = None /\
   w_kv w' = kv_set (w_now w) k (KStr "1") (Some (ALERT_TTL_SECONDS * second)) (w_kv w) /\
   (r = Raise IntegrityError /\ w_db w' = w_db w \/
    r = Ok true /\ exists e, is_alert (tc_tenant_id ctx) (w_now w) mu q e /\
      w_db w' = upd AuditEvents (fun rows => rows ++ [e]) (w_db w))).
Proof.
  intros k. unfold _emit_alert_once. run. fold k. unfold bind at 1, set_nx.
  destruct (kv_look (w_now w) k (w_kv w)) as [e|] eqn:El.
  - simpl. do 5 (split; [done |]). split; [by right |]. left. by split.
  - cbn [negb]. set (w1 := set_kv _ w). unfold bind at 1.
    pose proof (audit_alone_run 1 ctx "core.ai.quota_exceeded" "ai_quota" (year_month (w_now w)) (alert_payload mu q) None SYSTEM_ACTOR_LABEL w1) as H.
    unfold alert_payload in H. destruct (tenant_context ctx _ w1) as [[x|e] w'].
    + destruct H as (H1 & H2 & (H3 & H4 & H5 & H6) & H7 & [[[=] _] | (_ & e & He & Hd)]). unfold ret.
      split; [done |]. split; [done |]. split; [done |]. split; [done |]. split; [rewrite H6; simpl; lia |].
      split; [intros s; rewrite H2; destruct (sess_eq_dec (Own 1) s); auto |].
      right. split; [done |]. split; [done |]. right. split; [done |]. by exists e.
    + destruct H as (H1 & H2 & (H3 & H4 & H5 & H6) & H7 & [[[= ->] Hd] | ([=] & _)]).
      split; [done |]. split; [done |]. split; [done |]. split; [done |]. split; [rewrite H6; simpl; lia |].
      split; [intros s; rewrite H2; destruct (sess_eq_dec (Own 1) s); auto |].
      right. split; [done |]. split; [done |]. by left.
Qed.

(** What a call may do at all: count, and write at most one event of the journal. *)
Lemma record_and_alert_frame ctx added q w r w' : record_and_alert ctx added q w = (r, w') ->
  w_out w' = w_out w /\ w_tenant w' = w_tenant w /\ w_now w' = w_now w /\
  (forall t, t <> AuditEvents -> w_db w' t = w_db w t) /\
  (exists l, (length l <= 1)%nat /\ w_db w' AuditEvents = w_db w AuditEvents ++ l) /\
  (forall s, w_pend w' s = id \/ w_pend w' s = w_pend w s) /\
  match r with Ok _ => True | Raise e => e = IntegrityError \/ exists msg, e = ResponseError msg end.
Proof.
  unfold record_and_alert. unfold bind at 1. destruct (add_usage (tc_tenant_id ctx) added w) as [ra w1] eqn:Ea.
  apply add_usage_other in Ea as (Hw1 & _ & He).
  assert (Hf : w_now w1 = w_now w /\ w_db w1 = w_db w /\ w_out w1 = w_out w /\ w_tenant w1 = w_tenant w /\ w_pend w1 = w_pend w)
    by (rewrite Hw1; done).
  destruct Hf as (Hn & Hd & Ho & Ht & Hp).
  assert (Hnone : exists l : list AuditEvent, (length l <= 1)%nat /\ w_db w AuditEvents = w_db w AuditEvents ++ l)
    by (exists []; split; [simpl; lia | by rewrite app_nil_r]).
  destruct ra as [mu|e]; [| intros [= <- <-]; rewrite Hd, Ho, Ht, Hn, Hp; repeat (split; [by auto |]); by auto].
  destruct (q <? mu).
  - pose proof (emit_run ctx mu q w1) as H. cbn zeta in H. unfold bind.
    destruct (_emit_alert_once ctx mu q w1) as [rb w2]. destruct H as (H1 & H2 & H3 & _ & _ & H6 & H).
    rewrite Hp in H6. rewrite Ht in H1. rewrite Hn in H2. rewrite Ho in H3.
    destruct H as [(_ & -> & ->) | (_ & _ & [[-> Hd2] | (-> & e & _ & Hd2)])]; intros [= <- <-].
    + rewrite Hd, Ho, Ht, Hn. repeat (split; [by rewrite ?Hp; auto |]). done.
    + rewrite Hd2, Hd. repeat (split; [by auto |]). by left.
    + rewrite Hd2, Hd. repeat (split; [by auto |]). split; [intros t Hne; by rewrite upd_ne |].
      split; [exists [e]; split; [simpl; lia | by rewrite upd_eq] |]. by auto.
  - intros [= <- <-]. rewrite Hd, Ho, Ht, Hn, Hp. repeat (split; [by auto |]). done.
Qed.
End quota_lemmas.

(** ** Properties *)

Section properties.
Context {P : Platform}.
Implicit Types (w : World).

(** [record_and_alert] from a counter at [z]. *)
Lemma record_and_alert_run ctx added quota w z : 0 <= added -> counter w (tc_tenant_id ctx) = Some z ->
  let '(r, w') := record_and_alert ctx added quota w in
  counter w' (tc_tenant_id ctx) = Some (z + added) /\ w_out w' = w_out w /\
  ((exists b, r = Ok {| month_usage := z + added; over_quota := quota <? z + added; alerted := b |} /\
      if b then quota < z + added /\ exists e, is_alert (tc_tenant_id ctx) (w_now w) (z + added) quota e /\
                  w_db w' = upd AuditEvents (fun rows => rows ++ [e]) (w_db w)
      else w_db w' = w_db w) \/
   (r = Raise IntegrityError /\ w_db w' = w_db w)).
Proof.
  intros Ha Hc. unfold record_and_alert. destruct (add_usage_run _ _ _ _ Ha Hc) as (w1 & E & Hc1 & Hw1 & _).
  unfold bind at 1. rewrite E.
  assert (Hf : w_now w1 = w_now w /\ w_db w1 = w_db w /\ w_out w1 = w_out w) by (rewrite Hw1; done).
  destruct Hf as (Hn & Hd & Ho). destruct (quota <? z + added) eqn:Eq.
  - pose proof (emit_run ctx (z + added) quota w1) as H. unfold bind. cbn zeta in H.
    destruct (_emit_alert_once ctx (z + added) quota w1) as [[b|e] w2];
      destruct H as (_ & H2 & H3 & _ & _ & _ & H).
    + destruct H as [(_ & [= ->] & ->) | (Hk & Hkv & H)]; unfold ret.
      * split; [done |]. split; [done |]. left. exists false. by rewrite Hd.
      * destruct H as [[[=] _] | ([= ->] & e & He & Hd2)]. split.
        { unfold counter in *. rewrite H2, Hkv. rewrite kv_set_ne; [done |]. apply keys_differ. }
        split; [congruence |]. left. exists true. split; [done |]. bool_hyps. split; [done |]. exists e.
        rewrite Hn in He. by rewrite <- Hd.
    + destruct H as [(_ & [=] & _) | (Hk & Hkv & [[[= ->] Hd2] | ([=] & _)])]. split.
      { unfold counter in *. rewrite H2, Hkv. rewrite kv_set_ne; [done |]. apply keys_differ. }
      split; [congruence |]. right. by rewrite Hd2, Hd.
  - unfold bind, ret. split; [done |]. split; [done |]. left. exists false. by rewrite Hd.
Qed.

(** The quota is soft. Whatever the counter says, recording usage adds exactly
    the tokens to it and answers, past the quota or not; it raises nothing but a
    collision of the alert's random id. An alert is written only past the quota,
    as one event in the tenant's journal that states the usage and the quota;
    nothing else in the database changes. *)
Theorem quota_is_soft ctx added quota w z : 0 <= added -> counter w (tc_tenant_id ctx) = Some z ->
  let '(r, w') := record_and_alert ctx added quota w in
  counter w' (tc_tenant_id ctx) = Some (z + added) /\
  ((exists b, r = Ok {| month_usage := z + added; over_quota := quota <? z + added; alerted := b |} /\
      if b then quota < z + added /\ exists e, is_alert (tc_tenant_id ctx) (w_now w) (z + added) quota e /\
                  w_db w' = upd AuditEvents (fun rows => rows ++ [e]) (w_db w)
      else w_db w' = w_db w) \/
   (r = Raise IntegrityError /\ w_db w' = w_db w)).
Proof.
  intros Ha Hc. pose proof (record_and_alert_run ctx added quota w z Ha Hc) as H.
  destruct (record_and_alert ctx added quota w) as [r w']. destruct H as (H1 & _ & H2). by split.
Qed.

(** Calls for one tenant on one day, [n] of which alerted, with any other use of
    the process in between that leaves the day's alert key alone. *)
Inductive spends (tid : N) (d : Z) : World -> nat -> World -> Prop :=
  | spends_done w : spends tid d w 0 w
  | spends_call w w1 ctx added quota r w2 n w3 :
      tc_tenant_id ctx = tid -> day_of (w_now w1) = d -> w_now w <= w_now w1 ->
      (forall t, kv_look t (_alert_key tid (w_now w1)) (w_kv w1) = kv_look t (_alert_key tid (w_now w1)) (w_kv w)) ->
      record_and_alert ctx added quota w1 = (r, w2) ->
      spends tid d w2 n w3 ->
      spends tid d w ((match r with Ok o => if alerted o then 1 else 0 | Raise _ => 0 end) + n) w3.

(** The key [k] is held until [T] at least. *)
Definition held (k : string) (T : Z) w : Prop :=
  exists v e, kv_look (w_now w) k (w_kv w) = Some (v, e) /\ forall x, e = Some x -> T <= x.

Lemma held_later k T w w1 : w_now w <= w_now w1 < T ->
  (forall t, kv_look t k (w_kv w1) = kv_look t k (w_kv w)) -> held k T w -> held k T w1.
Proof.
  intros [Ht HT] Hk (v & e & Hl & He). unfold held. rewrite Hk, (kv_later (w_now w) (w_now w1)), Hl by done.
  destruct e as [x|]; [| by exists v, None]. specialize (He x eq_refl).
  destruct (Z.leb_spec x (w_now w1)); [lia |]. exists v, (Some x). split; [done |]. by intros y [= <-].
Qed.

(** One call: it alerts only if the key is free, and then the key is held. *)
Lemma alert_holds ctx added quota w r w' T : record_and_alert ctx added quota w = (r, w') ->
  T <= w_now w + ALERT_TTL_SECONDS * second ->
  let k := _alert_key (tc_tenant_id ctx) (w_now w) in
  w_now w' = w_now w /\ (held k T w -> held k T w' /\ forall o, r = Ok o -> alerted o = false) /\
  (forall o, r = Ok o -> alerted o = true -> held k T w').
Proof.
  intros E HT k. unfold record_and_alert in E. unfold bind at 1 in E.
  destruct (add_usage (tc_tenant_id ctx) added w) as [ra w1] eqn:Ea. apply add_usage_other in Ea as (Hw1 & Ho & _).
  assert (Hn : w_now w1 = w_now w) by by rewrite Hw1.
  assert (Hk : forall t, kv_look t k (w_kv w1) = kv_look t k (w_kv w)) by (intros t; apply Ho, keys_differ).
  assert (Hh : held k T w -> held k T w1) by (unfold held; by rewrite Hn, Hk).
  destruct ra as [mu|x]; [| injection E as <- <-; split; [done |]; split; [by split; [apply Hh |] | done]].
  destruct (quota <? mu); [| injection E as <- <-; split; [done |]; split; [intros H; split; [by apply Hh | by intros o [= <-]] | by intros o [= <-]]].
  pose proof (emit_run ctx mu quota w1) as H. cbn zeta in H. rewrite Hn in H. fold k in H. unfold bind in E.
  destruct (_emit_alert_once ctx mu quota w1) as [rb w2]. destruct H as (_ & H2 & _ & _ & _ & _ & H).
  assert (Hnew : w_kv w2 = kv_set (w_now w) k (KStr "1") (Some (ALERT_TTL_SECONDS * second)) (w_kv w1) -> held k T w2).
  { intros Hkv. unfold held. rewrite H2, Hkv. eexists _, _. split; [apply kv_set_eq; intros t [= <-]; reflexivity |].
    by intros x [= <-]. }
  destruct H as [([e He] & -> & ->) | (Hnone & Hkv & H)].
  - injection E as <- <-. split; [done |]. split; [intros Hd; split; [by apply Hh | by intros o [= <-]] | by intros o [= <-]].
  - assert (Hfree : held k T w -> False) by (intros (v & e & Hl & _); rewrite Hk in Hnone; congruence).
    destruct H as [[-> _] | (-> & _)]; injection E as <- <-; (split; [done |]; split; [by intros ?%Hfree |]).
    + done.
    + intros o _ _. by apply Hnew.
Qed.

(** An alert key outlives its day. *)
Lemma day_within_ttl t d : day_of t = d -> (d + 1) * day <= t + ALERT_TTL_SECONDS * second.
Proof. intros <-. pose proof (day_bounds t). unfold ALERT_TTL_SECONDS, day in *. lia. Qed.

Lemma spends_held tid d w n w' : (0 < n)%nat -> spends tid d w n w' ->
  forall k, (forall t, day_of t = d -> _alert_key tid t = k) -> held k ((d + 1) * day) w -> False.
Proof.
  intros Hn Hs k Hk Hh. induction Hs as [w|w w1 ctx added quota r w2 n w3 <- Hd Ht Hl Er Hs IH]; [lia |].
  rewrite (Hk _ Hd) in Hl.
  assert (Hlt : w_now w1 < (d + 1) * day).
  { pose proof (day_bounds (w_now w1)) as Hb. rewrite Hd in Hb. lia. }
  apply (held_later k _ w w1) in Hh; [| done | done].
  pose proof (day_within_ttl _ _ Hd) as Hle.
  destruct (alert_holds _ _ _ _ _ _ _ Er Hle) as (_ & H2 & _). rewrite (Hk _ Hd) in H2.
  destruct (H2 Hh) as [Hh2 Hno]. apply IH; [| done].
  destruct r as [o|]; [| done]. by rewrite (Hno o eq_refl) in Hn.
Qed.

(** At most one alert per tenant and day, however many calls go past the quota
    that day and whatever else the process does with other keys. *)
Theorem alert_once_a_day tid d w n w' : spends tid d w n w' -> (n <= 1)%nat.
Proof.
  intros Hs. induction Hs as [w|w w1 ctx added quota r w2 n w3 <- Hd Ht Hl Er Hs IH]; [lia |].
  destruct r as [o|]; [| done]. destruct (alerted o) eqn:Ea; [| done].
  destruct (Nat.eq_dec n 0) as [->|Hn]; [done |]. exfalso.
  pose proof (day_within_ttl _ _ Hd) as Hle.
  destruct (alert_holds _ _ _ _ _ _ _ Er Hle) as (_ & _ & H3).
  refine (spends_held _ _ _ _ _ _ Hs (_alert_key (tc_tenant_id ctx) (w_now w1)) _ (H3 o eq_refl Ea)); [lia |].
  intros t Ht'. unfold _alert_key. by rewrite (same_day_text t (w_now w1)) by congruence.
Qed.
End properties.

(** ** Witnesses *)

Definition acme_context : TenantContext := {| tc_tenant_id := 1; tc_slug := "acme"; tc_role := None |}.

Lemma quota_is_soft_witness :
  counter (P := test_platform) (record_and_alert (P := test_platform) acme_context 700 500 sample_world).2 1 = Some 700.
Proof.
  pose proof (quota_is_soft (P := test_platform) acme_context 700 500 sample_world 0 ltac:(discriminate) eq_refl) as H.
  destruct (record_and_alert (P := test_platform) acme_context 700 500 sample_world) as [r w']. apply H.
Defined.

Lemma alert_once_a_day_witness :
  let one := record_and_alert (P := test_platform) acme_context 700 500 sample_world in
  let two := record_and_alert (P := test_platform) acme_context 300 500 one.2 in
  exists n, spends (P := test_platform) 1 (day_of t0) sample_world n two.2 /\ (n <= 1)%nat.
Proof.
  intros one two. eexists. match goal with |- ?A /\ _ => assert (Hs : A) end.
  - eapply (spends_call (P := test_platform) 1 (day_of t0) sample_world sample_world acme_context 700 500 one.1 one.2).
    + reflexivity.
    + reflexivity.
    + apply Z.le_refl.
    + intros t. reflexivity.
    + apply surjective_pairing.
    + eapply (spends_call (P := test_platform) 1 (day_of t0) one.2 one.2 acme_context 300 500 two.1 two.2 0 two.2).
      * reflexivity.
      * vm_compute. reflexivity.
      * apply Z.le_refl.
      * intros t. reflexivity.
      * apply surjective_pairing.
      * constructor.
  - split; [exact Hs |]. exact (alert_once_a_day (P := test_platform) 1 (day_of t0) sample_world _ two.2 Hs).
Defined.
