(* ===== verification/Gateway.v ===== *)
(** [app/ai/metering.py], [app/ai/gateway.py] and [app/ai/router.py]: the one way
    to an AI provider, with the usage event every call leaves.

    LiteLLM is an interface: what a call answers, and how long it took, as a
    function of its arguments, the instant and the number of calls so far. A call is also recorded
    as an effect of the world, with the provider and the model it went to. *)
From S2P Require Import Prelude PyStr Hashing Base64 Json Config Tokens Models Permissions World Sample Orm Isolation AuthService Slug Deps Journal Dates Pricing Policy Quota.

(** ** Types at the boundary *)

Record Message := {
  ms_role : string; ms_content : option string; ms_name : option string; ms_tool_call_id : option string;
  ms_tool_calls : option (list json) }.
Definition json_or_null (o : option string) : json := match o with Some s => JStr s | None => JNull end.
Definition field (k : string) (o : option json) : list (string * json) :=
  match o with Some v => [(k, v)] | None => [] end.
Definition message_to_provider_dict (self : Message) : json :=
  JObj ([("role", JStr (ms_role self)); ("content", json_or_null (ms_content self))]
        ++ field "name" (JStr <$> ms_name self)
        ++ field "tool_call_id" (JStr <$> ms_tool_call_id self)
        ++ field "tool_calls" (JList <$> ms_tool_calls self)).

Record ToolDef := { td_name : string; td_description : string; td_parameters : list (string * json) }.
Definition tool_to_provider_dict (self : ToolDef) : json :=
  JObj [("type", JStr "function");
        ("function", JObj [("name", JStr (td_name self)); ("description", JStr (td_description self));
                           ("parameters", JObj (td_parameters self))])].

Record ChatRequest := {
  cr_messages : list Message; cr_provider : option string; cr_model : option string; cr_temperature : option json;
  cr_max_tokens : option Z; cr_tools : option (list ToolDef); cr_module : string; cr_user_id : option N }.
Record ToolCall := { tk_id : option string; tk_name : option string; tk_arguments : option string }.
Record ChatResult := {
  ch_content : string; ch_provider : string; ch_model : string; ch_usage : TokenUsage;
  ch_finish_reason : option string; ch_tool_calls : option (list ToolCall) }.
Record EmbedRequest := {
  er_inputs : list string; er_provider : option string; er_model : option string; er_module : string;
  er_user_id : option N }.
Record EmbedResult := {
  em_embeddings : list (list json); em_provider : string; em_model : string; em_usage : TokenUsage }.

(** ** The provider *)

(** The keyword arguments of a call. *)
Record Kwargs := {
  kw_model : string; kw_messages : list json; kw_api_key : string; kw_temperature : option json;
  kw_max_tokens : option Z; kw_tools : option (list json); kw_stream : bool }.

(** What the code reads of an answer; an attribute may be missing or [None]. *)
Record RawUsage := { ru_prompt_tokens : option Z; ru_completion_tokens : option Z; ru_cached_tokens : option (option Z) }.
Record RawToolCall := { rt_id : option string; rt_function : option (option string * option string) }.
Record RawMessage := { rm_content : option string; rm_tool_calls : option (list RawToolCall) }.
Record RawChoice := { rc_message : option RawMessage; rc_delta : option (option string); rc_finish_reason : option string }.
Record Raw := { rw_usage : option RawUsage; rw_choices : option (list RawChoice); rw_data : list (list json) }.

(** [wait_for] lets the answer through, or the provider's exception (its class
    and its text), or gives up. *)
Inductive outcome (A : Type) := Answered (a : A) | TimedOut | Failed (kind msg : string).
Arguments Answered {A} a.
Arguments TimedOut {A}.
Arguments Failed {A} kind msg.

(** A stream: its chunks, then its end or an exception; one that could not be
    opened has no chunk. *)
Record Stream := { st_chunks : list Raw; st_error : option (string * string) }.

Class LiteLLM := {
  acompletion : Kwargs -> Z -> nat -> outcome Raw * Z;
  acompletion_stream : Kwargs -> Z -> nat -> Stream * Z;
  aembedding : string -> list string -> string -> Z -> nat -> outcome Raw * Z
}.

Definition _usage_from (raw : Raw) : TokenUsage :=
  match rw_usage raw with
  | None => {| input_tokens := 0; output_tokens := 0; cached_tokens := 0 |}
  | Some usage => {|
      input_tokens := default 0 (ru_prompt_tokens usage);
      output_tokens := default 0 (ru_completion_tokens usage);
      cached_tokens := match ru_cached_tokens usage with Some c => default 0 c | None => 0 end |}
  end.

Definition _first_choice (raw : Raw) : option RawChoice :=
  match rw_choices raw with Some (c :: _) => Some c | _ => None end.

Definition _normalize_tool_calls (raw : option (list RawToolCall)) : option (list ToolCall) :=
  match raw with
  | None | Some [] => None
  | Some calls => Some (List.map (fun call => {|
      tk_id := rt_id call;
      tk_name := match rt_function call with Some f => f.1 | None => None end;
      tk_arguments := match rt_function call with Some f => f.2 | None => None end |}) calls)
  end.

(** ** Metering *)

Record UsageRecord := {
  ur_tenant_id : N; ur_module : string; ur_provider : string; ur_model : string; ur_status : UsageStatus;
  ur_price_version : string; ur_usage : TokenUsage; ur_latency_ms : Z; ur_estimated_cost_microeur : Z;
  ur_user_id : option N; ur_error_kind : option string }.

Definition no_usage : TokenUsage := {| input_tokens := 0; output_tokens := 0; cached_tokens := 0 |}.

Section gateway.
Context {P : Platform} {LLM : LiteLLM}.

Definition usage_event (id : N) (t : Z) (r : UsageRecord) : AIUsageEvent := {|
  ue_id := id; ue_occurred_at := t; ue_tenant_id := ur_tenant_id r; ue_user_id := ur_user_id r;
  ue_module := ur_module r; ue_provider := ur_provider r; ue_model := ur_model r;
  ue_input_tokens := input_tokens (ur_usage r); ue_output_tokens := output_tokens (ur_usage r);
  ue_cached_tokens := cached_tokens (ur_usage r); ue_latency_ms := ur_latency_ms r;
  ue_estimated_cost_microeur := ur_estimated_cost_microeur r; ue_price_version := ur_price_version r;
  ue_status := ur_status r; ue_error_kind := ur_error_kind r |}.

(** [except Exception]: logged, not raised. *)
Definition record_usage (record : UsageRecord) : M unit :=
  catch (with_session (Own 0)
    (let* id := uuid4 in
     let* t := now in
     let* _ := add (Own 0) AIUsageEvents (usage_event id t record) in
     commit (Own 0)))
    (fun _ => Some (ret tt)).

(** ** The gateway *)

Definition _load_policy (ctx : TenantContext) : M ResolvedPolicy :=
  with_session (Own 0) (get_policy (Own 0) (tc_tenant_id ctx) (tc_slug ctx)).

Definition platform_key (provider : string) : string :=
  if str_eqb provider "mistral" then mistral_api_key
  else if str_eqb provider "anthropic" then anthropic_api_key
  else if str_eqb provider "openai" then openai_api_key
  else EmptyString.

Definition _api_key (provider : string) (policy : ResolvedPolicy) : result string :=
  let byok := default EmptyString (byok_key_for policy provider) in
  if negb (str_eqb byok "") then Ok byok
  else
    raise_if! (str_eqb (platform_key provider) "")
      (ProviderUnavailable ("Provider " +:+ py_repr provider +:+ " indisponible : aucune clé configurée.")) in
    Ok (platform_key provider).

Definition _meter_wrap (ctx : TenantContext) (policy : ResolvedPolicy) (module : string) (user_id : option N)
    (provider model : string) (status : UsageStatus) (usage : TokenUsage) (elapsed : Z) (error_kind : option string) : M unit :=
  let cost := estimate_cost provider model usage in
  let* _ := record_usage {|
    ur_tenant_id := tc_tenant_id ctx; ur_user_id := user_id; ur_module := module; ur_provider := provider;
    ur_model := model; ur_status := status; ur_price_version := PRICE_VERSION; ur_usage := usage;
    ur_latency_ms := elapsed; ur_estimated_cost_microeur := cost; ur_error_kind := error_kind |} in
  let total_tokens := input_tokens usage + output_tokens usage in
  if 0 <? total_tokens then
    let* _ := record_and_alert ctx total_tokens (rp_monthly_token_quota policy) in ret tt
  else ret tt.

(** A call that leaves the process. *)
Definition call_provider {A} (provider model : string) (call : Z -> nat -> A) : M A :=
  fun w => (Ok (call (w_now w) (length (w_out w))), set_out (w_out w ++ [ProviderCalled provider model]) w).

Definition chat_kwargs (provider model api_key : string) (request : ChatRequest) : Kwargs := {|
  kw_model := provider +:+ "/" +:+ model;
  kw_messages := List.map message_to_provider_dict (cr_messages request);
  kw_api_key := api_key; kw_temperature := cr_temperature request; kw_max_tokens := cr_max_tokens request;
  kw_tools := List.map tool_to_provider_dict <$> cr_tools request; kw_stream := false |}.

Definition chat_result (provider model : string) (usage : TokenUsage) (raw : Raw) : ChatResult :=
  let choice := _first_choice raw in
  let message := match choice with Some c => rc_message c | None => None end in
  {| ch_content := default EmptyString (match message with Some m => rm_content m | None => None end);
     ch_provider := provider; ch_model := model; ch_usage := usage;
     ch_finish_reason := match choice with Some c => rc_finish_reason c | None => None end;
     ch_tool_calls := _normalize_tool_calls (match message with Some m => rm_tool_calls m | None => None end) |}.

Definition _chat_once (ctx : TenantContext) (policy : ResolvedPolicy) (provider model : string) (request : ChatRequest) :
    M ChatResult :=
  let* api_key := of_result (_api_key provider policy) in
  let* (raw, elapsed) := call_provider provider model (acompletion (chat_kwargs provider model api_key request)) in
  let meter := fun status usage kind =>
    _meter_wrap ctx policy (cr_module request) (cr_user_id request) provider model status usage elapsed kind in
  match raw with
  | TimedOut =>
      let* _ := meter USAGE_TIMEOUT no_usage (Some "timeout") in
      raise (GatewayError ("Appel " +:+ provider +:+ " interrompu après " +:+ show_Z ai_request_timeout_seconds +:+ "s."))
  | Failed kind msg =>
      let* _ := meter USAGE_ERROR no_usage (Some kind) in
      raise (GatewayError ("Échec provider " +:+ provider +:+ ": " +:+ msg))
  | Answered raw =>
      let usage := _usage_from raw in
      let* _ := meter USAGE_OK usage None in
      ret (chat_result provider model usage raw)
  end.

(** [except GatewayError], of which [ProviderUnavailable] is a subclass. *)
Definition chat (request : ChatRequest) : M ChatResult :=
  let* ctx := current_tenant in
  let* policy := _load_policy ctx in
  let* (provider, model) := of_result (select policy (cr_provider request) (cr_model request)) in
  catch (_chat_once ctx policy provider model request) (fun e =>
    match e, rp_fallback_provider policy with
    | (GatewayError _ | ProviderUnavailable _), Some fallback =>
        Some (let* (fb_provider, fb_model) := of_result (select policy (Some fallback) (rp_fallback_model policy)) in
              _chat_once ctx policy fb_provider fb_model request)
    | _, _ => None
    end).

(** What a consumer receives that closes the stream after [stop] deltas ([None]:
    never), the usage known by then, and whether it closed it. *)
Fixpoint consume (stop : option nat) (chunks : list Raw) (usage : TokenUsage) : list string * TokenUsage * bool :=
  match chunks with
  | [] => ([], usage, false)
  | chunk :: rest =>
      let delta := match _first_choice chunk with Some c => default None (rc_delta c) | None => None end in
      let u := _usage_from chunk in
      let usage' := if negb (input_tokens u =? 0) || negb (output_tokens u =? 0) then u else usage in
      match default EmptyString delta with
      | EmptyString => consume stop rest usage'
      | d =>
          match stop with
          | Some 1%nat => ([d], usage, true)
          | _ => let '(ds, u', i) := consume (Nat.pred <$> stop) rest usage' in (d :: ds, u', i)
          end
      end
  end.

Definition stream_kwargs (provider model api_key : string) (request : ChatRequest) : Kwargs := {|
  kw_model := provider +:+ "/" +:+ model;
  kw_messages := List.map message_to_provider_dict (cr_messages request);
  kw_api_key := api_key; kw_temperature := cr_temperature request; kw_max_tokens := cr_max_tokens request;
  kw_tools := None; kw_stream := true |}.

(** An async generator: a consumer that asks for nothing runs nothing. *)
Definition chat_stream (request : ChatRequest) (stop : option nat) : M (list string) :=
  if bool_decide (stop = Some 0%nat) then ret []
  else
    let* ctx := current_tenant in
    let* policy := _load_policy ctx in
    let* (provider, model) := of_result (select policy (cr_provider request) (cr_model request)) in
    let* api_key := of_result (_api_key provider policy) in
    let* (stream, elapsed) := call_provider provider model (acompletion_stream (stream_kwargs provider model api_key request)) in
    let '(deltas, usage, interrupted) := consume stop (st_chunks stream) no_usage in
    let meter := fun status kind =>
      _meter_wrap ctx policy (cr_module request) (cr_user_id request) provider model status usage elapsed kind in
    if interrupted then
      let* _ := meter USAGE_ERROR (Some "stream_interrupted") in ret deltas
    else match st_error stream with
         | Some (kind, msg) =>
             let* _ := meter USAGE_ERROR (Some kind) in
             raise (GatewayError ("Échec streaming " +:+ provider +:+ ": " +:+ msg))
         | None => let* _ := meter USAGE_OK None in ret deltas
         end.

Definition embed (request : EmbedRequest) : M EmbedResult :=
  let* ctx := current_tenant in
  let* policy := _load_policy ctx in
  let* (provider, model) := of_result (select policy (er_provider request) (er_model request)) in
  let* api_key := of_result (_api_key provider policy) in
  let* (raw, elapsed) := call_provider provider model (aembedding (provider +:+ "/" +:+ model) (er_inputs request) api_key) in
  let meter := fun status usage kind =>
    _meter_wrap ctx policy (er_module request) (er_user_id request) provider model status usage elapsed kind in
  match raw with
  | TimedOut =>
      let* _ := meter USAGE_TIMEOUT no_usage (Some "timeout") in
      raise (GatewayError ("Embeddings " +:+ provider +:+ " interrompus (timeout)."))
  | Failed kind msg =>
      let* _ := meter USAGE_ERROR no_usage (Some kind) in
      raise (GatewayError ("Échec embeddings " +:+ provider +:+ ": " +:+ msg))
  | Answered raw =>
      let usage := _usage_from raw in
      let* _ := meter USAGE_OK usage None in
      ret {| em_embeddings := rw_data raw; em_provider := provider; em_model := model; em_usage := usage |}
  end.

(** ** The route *)

Record ChatIn := {
  ci_messages : list (string * option string); ci_provider : option string; ci_model : option string;
  ci_temperature : option json; ci_max_tokens : option Z }.

Definition chat_request (payload : ChatIn) (auth : CurrentAuth) : ChatRequest := {|
  cr_messages := List.map (fun m => {| ms_role := m.1; ms_content := m.2; ms_name := None; ms_tool_call_id := None;
                                       ms_tool_calls := None |}) (ci_messages payload);
  cr_provider := ci_provider payload; cr_model := ci_model payload; cr_temperature := ci_temperature payload;
  cr_max_tokens := ci_max_tokens payload; cr_tools := None; cr_module := "core"; cr_user_id := Some (us_id (ca_user auth)) |}.

Definition ai_chat_in (payload : ChatIn) (ctx : TenantContext) (auth : CurrentAuth) : M ChatResult :=
  catch (chat (chat_request payload auth)) (fun e =>
    match e with
    | PolicyError msg => Some (raise (HTTPException 403 msg))
    | ProviderUnavailable msg => Some (raise (HTTPException 503 msg))
    | GatewayError msg => Some (raise (HTTPException 502 msg))
    | _ => None
    end).

(** The route opens no tenant session of its own. *)
Definition ai_chat (payload : ChatIn) (rq : Request) : M ChatResult :=
  request (let* auth := current_auth_or_none rq in
           require_permission "core.ai.use" rq auth (fun ctx =>
             let* a := current_auth auth in
             ai_chat_in payload ctx a)).
End gateway.

(** ** Accounting *)

Section accounting.
Context {P : Platform} {LLM : LiteLLM}.
Implicit Types (w : World).

Lemma record_usage_run r w : let '(x, w') := record_usage r w in
  let id := (w_entropy w (w_drawn w) mod 2 ^ 128)%N in
  x = Ok tt /\ w_out w' = w_out w /\ w_tenant w' = w_tenant w /\ w_now w' = w_now w /\ w_kv w' = w_kv w /\
  (forall t, t <> AIUsageEvents -> w_db w' t = w_db w t) /\
  (In id (List.map ue_id (w_db w AIUsageEvents)) /\ w_db w' AIUsageEvents = w_db w AIUsageEvents \/
   w_db w' AIUsageEvents = w_db w AIUsageEvents ++ [usage_event id (w_now w) r]).
Proof.
  unfold record_usage, catch, with_session, finally. set (w0 := closed (Own 0) w).
  assert (Hs : sees w0 (Own 0) = w_db w) by apply sees_closed.
  run. rewrite ?Hs. case_if as Ec.
  - do 6 (split; [done |]). left. split; [| done]. apply existsb_exists in Ec as (x & Hx & E).
    simpl in E. bool_hyps. rewrite E. by apply List.in_map.
  - run. unfold commit. simpl. do 5 (split; [done |]). split.
    + intros t Ht. simpl_view. rewrite ?Hs. by rewrite upd_ne.
    + right. simpl_view. by rewrite ?Hs.
Qed.

(** An event is the account of a call to provider [c.1] and model [c.2] for [tid]. *)
Definition accounts_for (tid : N) (c : string * string) (e : AIUsageEvent) : Prop :=
  ue_tenant_id e = tid /\ ue_provider e = c.1 /\ ue_model e = c.2 /\ ue_price_version e = PRICE_VERSION /\
  ue_estimated_cost_microeur e = estimate_cost c.1 c.2
    {| input_tokens := ue_input_tokens e; output_tokens := ue_output_tokens e; cached_tokens := ue_cached_tokens e |}.

(** The events [l] become [l'] when the calls are accounted for one by one; only a
    random id already taken can lose one. *)
Inductive accounted (tid : N) : list (string * string) -> list AIUsageEvent -> list AIUsageEvent -> Prop :=
  | accounted_none l : accounted tid [] l l
  | accounted_event c cs e l l' : accounts_for tid c e -> accounted tid cs (l ++ [e]) l' -> accounted tid (c :: cs) l l'
  | accounted_collision c cs id l l' : In id (List.map ue_id l) -> accounted tid cs l l' -> accounted tid (c :: cs) l l'.

Lemma accounted_app tid cs1 cs2 l1 l2 l3 : accounted tid cs1 l1 l2 -> accounted tid cs2 l2 l3 -> accounted tid (cs1 ++ cs2) l1 l3.
Proof. induction 1; simpl; intros; [done | eapply accounted_event | eapply accounted_collision]; eauto. Qed.

Definition call_effect (c : string * string) : effect := ProviderCalled c.1 c.2.

Variables (allowed : string -> Prop) (tid : N).

(** From [w] to [w'], with the calls [owed] made before [w] and not accounted for. *)
Definition governs (owed : list (string * string)) (w w' : World) : Prop :=
  w_tenant w' = w_tenant w /\ exists calls, w_out w' = w_out w ++ List.map call_effect calls /\
    accounted tid (owed ++ calls) (w_db w AIUsageEvents) (w_db w' AIUsageEvents) /\
    Forall (fun c => allowed c.1) calls /\
    (forall t, t <> AIUsageEvents -> t <> AuditEvents -> w_db w' t = w_db w t) /\
    exists l, w_db w' AuditEvents = w_db w AuditEvents ++ l.
Definition governed {A} (m : M A) : Prop := forall w, governs [] w (m w).2.
Definition owes {A} (c : string * string) (m : M A) : Prop := forall w, governs [c] w (m w).2.

Lemma governs_refl w w' : w_tenant w' = w_tenant w -> w_out w' = w_out w -> w_db w' = w_db w -> governs [] w w'.
Proof.
  intros H1 H2 H3. split; [done |]. exists []. rewrite H2, H3, !app_nil_r. split; [done |]. split; [constructor |].
  split; [constructor |]. split; [done |]. exists []. by rewrite app_nil_r.
Qed.
Lemma governs_trans o w w1 w2 : governs o w w1 -> governs [] w1 w2 -> governs o w w2.
Proof.
  intros (T1 & c1 & O1 & A1 & F1 & D1 & l1 & J1) (T2 & c2 & O2 & A2 & F2 & D2 & l2 & J2). simpl in A2.
  split; [congruence |]. exists (c1 ++ c2). rewrite O2, O1, List.map_app, !app_assoc. split; [done |].
  split; [by eapply accounted_app |]. split; [by apply Forall_app |]. split; [intros t H3 H4; by rewrite D2, D1 |].
  exists (l1 ++ l2). by rewrite J2, J1, app_assoc.
Qed.

Lemma governed_same {A} (m : M A) :
  (forall w, w_tenant (m w).2 = w_tenant w /\ w_out (m w).2 = w_out w /\ w_db (m w).2 = w_db w) -> governed m.
Proof. intros H w. destruct (H w) as (H1 & H2 & H3). by apply governs_refl. Qed.
Lemma governed_ret {A} (a : A) : governed (ret a).
Proof. by apply governed_same. Qed.
Lemma governed_raise {A} e : governed (raise (A := A) e).
Proof. by apply governed_same. Qed.
Lemma governed_result {A B} (r : result A) (k : A -> M B) : (forall a, r = Ok a -> governed (k a)) -> governed (bind (of_result r) k).
Proof. intros H. destruct r as [a|e]; [by apply H | by apply governed_same]. Qed.

Lemma meter_governs ctx p mo u pr m st us el k w : tc_tenant_id ctx = tid ->
  governs [(pr, m)] w (_meter_wrap ctx p mo u pr m st us el k w).2.
Proof.
  intros Ht. unfold _meter_wrap. set (r := {| ur_tenant_id := _ |}).
  pose proof (record_usage_run r w) as H. unfold bind at 1. destruct (record_usage r w) as [x w1].
  destruct H as (-> & H2 & H3 & H4 & _ & H6 & H7).
  assert (Hg : governs [(pr, m)] w w1).
  { split; [done |]. exists []. simpl. rewrite H2, app_nil_r. split; [done |].
    split.
    - destruct H7 as [[Hi ->] | ->]; [by eapply accounted_collision; [| constructor] |].
      eapply accounted_event; [| constructor]. repeat (split; [done || by rewrite <- Ht |]). by destruct us.
    - split; [constructor |]. split; [intros t H8 H9; by apply H6 |]. exists []. by rewrite H6, app_nil_r. }
  destruct (0 <? _); [| exact Hg]. unfold bind.
  destruct (record_and_alert ctx _ _ w1) as [rq w2] eqn:Eq.
  apply record_and_alert_frame in Eq as (Q1 & Q2 & _ & Q4 & (l & _ & Q5) & _).
  assert (Hg2 : governs [] w1 w2).
  { split; [done |]. exists []. rewrite Q1, app_nil_r. split; [done |]. rewrite (Q4 AIUsageEvents) by done.
    split; [constructor |]. split; [constructor |]. split; [intros t H8 H9; by apply Q4 | by exists l]. }
  destruct rq; by apply (governs_trans _ w w1 w2).
Qed.

Lemma owes_meter {A} ctx p mo u pr m st us el k (f : unit -> M A) : tc_tenant_id ctx = tid -> governed (f tt) ->
  owes (pr, m) (bind (_meter_wrap ctx p mo u pr m st us el k) f).
Proof.
  intros Ht Hf w. unfold bind. pose proof (meter_governs ctx p mo u pr m st us el k w Ht) as H.
  destruct (_meter_wrap _ _ _ _ _ _ _ _ _ _ w) as [[[]|e] w1]; simpl in *; [| done].
  by apply (governs_trans _ w w1); [| apply Hf].
Qed.

Lemma governed_call {A B} pr mo (call : Z -> nat -> A) (k : A -> M B) : allowed pr -> (forall a, owes (pr, mo) (k a)) ->
  governed (bind (call_provider pr mo call) k).
Proof.
  intros Ha Hk w. unfold bind, call_provider. set (w1 := set_out _ w).
  destruct (Hk (call (w_now w) (length (w_out w))) w1) as (T & calls & O & A1 & F & D & J).
  split; [done |]. exists ((pr, mo) :: calls). split; [rewrite O; simpl; by rewrite <- app_assoc |].
  split; [done |]. split; [by constructor |]. by split.
Qed.

Lemma governed_catch {A} (m : M A) h : governed m -> (forall e k, h e = Some k -> governed k) -> governed (catch m h).
Proof.
  intros Hm Hh w. unfold catch. specialize (Hm w). destruct (m w) as [[a|e] w1]; simpl in *; [done |].
  destruct (h e) as [k|] eqn:E; [| done]. eapply governs_trans; [exact Hm |]. exact (Hh e k E w1).
Qed.
End accounting.

Section properties.
Context {P : Platform} {LLM : LiteLLM}.
Implicit Types (w : World).

Lemma governed_once allowed ctx p pr mo rq : allowed pr -> governed allowed (tc_tenant_id ctx) (_chat_once ctx p pr mo rq).
Proof.
  intros Ha. unfold _chat_once. apply governed_result. intros key _. apply governed_call; [done |].
  intros [[raw| |k m] el]; cbn beta iota zeta; apply owes_meter; (apply governed_ret || apply governed_raise || reflexivity).
Qed.

(** The ways in. *)
Inductive entry := Chat (r : ChatRequest) | ChatStream (r : ChatRequest) (stop : option nat) | Embed (r : EmbedRequest).
Definition enter (e : entry) : M unit :=
  match e with
  | Chat r => let* _ := chat r in ret tt
  | ChatStream r stop => let* _ := chat_stream r stop in ret tt
  | Embed r => let* _ := embed r in ret tt
  end.

(** The policy in force for a context. *)
Definition policy_of w (ctx : TenantContext) : result ResolvedPolicy :=
  resolve_record (tc_slug ctx) (first_where (fun p => (ap_tenant_id p =? tc_tenant_id ctx)%N) (w_db w AIPolicies)).

(** Every way in starts by loading the policy. *)
Lemma load_policy_run {A} ctx (k : ResolvedPolicy -> M A) w :
  bind (_load_policy ctx) k w = match policy_of w ctx with
                                | Ok p => k p (closed (Own 0) (closed (Own 0) w))
                                | Raise e => (Raise e, closed (Own 0) (closed (Own 0) w))
                                end.
Proof.
  unfold _load_policy, get_policy, with_session, finally, policy_of. unfold bind at 1. run. rewrite ?sees_closed. unfold of_result.
  by destruct (resolve_record _ _).
Qed.

Lemma governs_closed allowed tid w w' : governs allowed tid [] (closed (Own 0) (closed (Own 0) w)) w' -> governs allowed tid [] w w'.
Proof. done. Qed.

Lemma forget_result {A} (m : M A) w : ((let* _ := m in ret tt) w).2 = (m w).2.
Proof. unfold bind. by destruct (m w) as [[a|e] w']. Qed.

Lemma enter_governed e w ctx : w_tenant w = Some ctx ->
  match policy_of w ctx with
  | Ok p => governs (permitted p) (tc_tenant_id ctx) [] w (enter e w).2
  | Raise _ => governs (fun _ => False) (tc_tenant_id ctx) [] w (enter e w).2
  end.
Proof.
  intros Hc.
  assert (Hm : forall A (k : TenantContext -> ResolvedPolicy -> M A),
    (forall p, governed (permitted p) (tc_tenant_id ctx) (k ctx p)) ->
    let m := (let* c := current_tenant in let* p := _load_policy c in k c p) in
    match policy_of w ctx with
    | Ok p => governs (permitted p) (tc_tenant_id ctx) [] w ((let* _ := m in ret tt) w).2
    | Raise _ => governs (fun _ => False) (tc_tenant_id ctx) [] w ((let* _ := m in ret tt) w).2
    end).
  { intros A k Hk m. assert (Hl : m w = bind (_load_policy ctx) (k ctx) w) by (unfold m, bind at 1, current_tenant; by rewrite Hc).
    rewrite !forget_result, Hl, load_policy_run. destruct (policy_of w ctx) as [p|x]; [| by apply governs_refl].
    apply governs_closed. exact (Hk p (closed (Own 0) (closed (Own 0) w))). }
  destruct e as [r|r stop|r]; simpl.
  - apply Hm. intros p. apply governed_result. intros [pr mo] Hs. apply select_ok in Hs as (Hp & _).
    apply governed_catch; [by apply governed_once |]. intros e k He.
    assert (Hk : exists fb, k = (let* (fb_provider, fb_model) := of_result (select p (Some fb) (rp_fallback_model p)) in
                                 _chat_once ctx p fb_provider fb_model r)).
    { destruct e; try discriminate He; destruct (rp_fallback_provider p); try discriminate He; injection He as <-; by eexists. }
    destruct Hk as [fb ->]. apply governed_result. intros [pr' mo'] Hs. apply select_ok in Hs as (Hp' & _). by apply governed_once.
  - unfold chat_stream. destruct (bool_decide (stop = Some 0%nat)).
    { destruct (policy_of w ctx); by apply governs_refl. }
    apply Hm. intros p. apply governed_result. intros [pr mo] Hs. apply select_ok in Hs as (Hp & _).
    apply governed_result. intros key _. apply governed_call; [done |]. intros [st el].
    destruct (consume stop (st_chunks st) no_usage) as [[ds u] i].
    destruct i; [| destruct (st_error st) as [[k m]|]]; cbn beta iota zeta; apply owes_meter; (apply governed_ret || apply governed_raise || reflexivity).
  - apply Hm. intros p. apply governed_result. intros [pr mo] Hs. apply select_ok in Hs as (Hp & _).
    apply governed_result. intros key _. apply governed_call; [done |]. intros [[raw| |k m] el]; cbn beta iota zeta; apply owes_meter; (apply governed_ret || apply governed_raise || reflexivity).
Qed.

End properties.

Section outcomes.
Context {P : Platform} {LLM : LiteLLM}.
Implicit Types (w : World).

(** What the provider answers, if it is called and answers. *)
Definition attempt (p : ResolvedPolicy) (pr mo : string) (rq : ChatRequest) w : option Raw :=
  match _api_key pr p with
  | Ok key => match (acompletion (chat_kwargs pr mo key rq) (w_now w) (length (w_out w))).1 with
              | Answered raw => Some raw
              | _ => None
              end
  | Raise _ => None
  end.
Definition attempt_calls (p : ResolvedPolicy) (pr mo : string) : list effect :=
  match _api_key pr p with Ok _ => [ProviderCalled pr mo] | Raise _ => [] end.

(** The accounting of an answer may fail after the fact. *)
Definition accounting_error (e : exn) : Prop := e = IntegrityError \/ exists msg, e = ResponseError msg.
Definition gateway_error (e : exn) : Prop := exists msg, e = GatewayError msg \/ e = ProviderUnavailable msg.
Definition answers (p : ResolvedPolicy) (pr mo : string) (rq : ChatRequest) w (r : result ChatResult) : Prop :=
  match attempt p pr mo rq w with
  | Some raw => r = Ok (chat_result pr mo (_usage_from raw) raw) \/ exists e, r = Raise e /\ accounting_error e
  | None => exists e, r = Raise e /\ gateway_error e
  end.

Lemma meter_run ctx p m u pr mo st us el k w :
  let '(r, w') := _meter_wrap ctx p m u pr mo st us el k w in
  w_out w' = w_out w /\ w_now w' = w_now w /\
  (r = Ok tt \/ exists e, r = Raise e /\ accounting_error e /\ 0 < input_tokens us + output_tokens us).
Proof.
  unfold _meter_wrap. set (rec := {| ur_tenant_id := _ |}).
  pose proof (record_usage_run rec w) as H. unfold bind at 1. destruct (record_usage rec w) as [x w1].
  destruct H as (-> & H2 & _ & H4 & _).
  destruct (0 <? _) eqn:E; [| split; [done |]; split; [done | by left]]. bool_hyps. unfold bind.
  destruct (record_and_alert ctx _ _ w1) as [[o|e] w2] eqn:Eq; apply record_and_alert_frame in Eq as (Q1 & _ & Q3 & _ & _ & _ & Q7);
    (split; [congruence |]; split; [congruence |]); [by left | right]. by exists e.
Qed.

Lemma once_run ctx p pr mo rq w :
  let '(r, w') := _chat_once ctx p pr mo rq w in
  w_out w' = w_out w ++ attempt_calls p pr mo /\ w_now w' = w_now w /\ answers p pr mo rq w r.
Proof.
  unfold _chat_once, answers, attempt, attempt_calls.
  destruct (_api_key pr p) as [key|e] eqn:Ek; run.
  2: { rewrite app_nil_r. split; [done |]. split; [done |]. exists e. split; [done |]. unfold _api_key in Ek.
       destruct (negb _); [done |]. destruct (str_eqb _ _); [| done]. injection Ek as <-. eexists. by right. }
  unfold bind at 1, call_provider. set (w1 := set_out _ w).
  destruct (acompletion (chat_kwargs pr mo key rq) (w_now w) (length (w_out w))) as [[raw| |kind msg] el]; cbn [fst];
    cbn beta iota zeta; unfold bind;
    match goal with |- context [_meter_wrap ?a ?b ?c ?d ?x ?y ?z ?u ?el ?k w1] =>
      pose proof (meter_run a b c d x y z u el k w1) as H; destruct (_meter_wrap a b c d x y z u el k w1) as [[[]|e] w2] end;
    destruct H as (H1 & H2 & H3); (split; [exact H1 |]; split; [exact H2 |]).
  - by left.
  - right. destruct H3 as [[=] | (e' & [= ->] & He & _)]. by exists e'.
  - eexists. split; [done |]. eexists. by left.
  - destruct H3 as [[=] | (e' & _ & _ & Hz)]. simpl in Hz. lia.
  - eexists. split; [done |]. eexists. by left.
  - destruct H3 as [[=] | (e' & _ & _ & Hz)]. simpl in Hz. lia.
Qed.

End outcomes.

(** ** Witnesses *)

(** A provider that greets. *)
Definition greeting : Raw := {|
  rw_usage := Some {| ru_prompt_tokens := Some 10; ru_completion_tokens := Some 5; ru_cached_tokens := None |};
  rw_choices := Some [{| rc_message := Some {| rm_content := Some "bonjour"; rm_tool_calls := None |}; rc_delta := None;
                         rc_finish_reason := Some "stop" |}];
  rw_data := [] |}.
Definition polite : LiteLLM := {|
  acompletion _ _ _ := (Answered greeting, 20); acompletion_stream _ _ _ := ({| st_chunks := []; st_error := None |}, 20);
  aembedding _ _ _ _ _ := (TimedOut, 120000) |}.
Definition hello : ChatRequest := {|
  cr_messages := []; cr_provider := None; cr_model := None; cr_temperature := None; cr_max_tokens := None; cr_tools := None;
  cr_module := "core"; cr_user_id := None |}.
Definition here : TenantContext := {| tc_tenant_id := 1; tc_slug := "acme"; tc_role := Some ROLE_OWNER |}.


