(* ===== verification/SampleDigest.v ===== *)
(** [app/modules/sample_digest/]: the module that fills the contract, its task, its
    routes and its manifest; and the registry of the code, which lists it. *)
From S2P Require Import Prelude PyStr Hashing Base64 Json Config Tokens Models Permissions World Uuid Sample Orm AuthService Slug Deps Edge Journal Frame Http Directory AuthRouter Dates Iso Pricing Policy Quota Gateway OAuth Providers Throttle Rely ConnectorTokens DirectoryRouter ConnectorRouter Webhooks Subscriptions Stable Mail ConnectorTasks Contract Automation.

Definition MODULE_NAME : string := "sample_digest".
Definition TASK_NAME : string := "sample_digest.daily_digest".
Definition DIGEST_ACTION : string := "sample_digest.digest_generated".
Definition PERM_READ : string := "sample_digest.read".
Definition PERM_MANAGE : string := "sample_digest.manage".
Definition _LOOKBACK : Z := 24 * hour_us.
Definition _SYSTEM_PROMPT : string :=
  "Tu es un assistant qui résume en français, en 3 puces maximum, les sujets saillants d'une liste d'emails reçus. Sois factuel et concis.".
Definition newline : string := String (ascii_of_N 10) EmptyString.
Definition no_connection_msg : string := "Aucune connexion mail active — impossible de générer le digest.".
Definition no_mail_summary : string := "Aucun nouvel email sur les dernières 24 heures.".

Definition _build_prompt (subjects : list string) : string :=
  "Voici les objets des emails reçus ces dernières 24 h :" +:+ newline +:+ join newline (List.map (fun subject => "- " +:+ subject) subjects).
Definition plain_message (role content : string) : Message :=
  {| ms_role := role; ms_content := Some content; ms_name := None; ms_tool_call_id := None; ms_tool_calls := None |}.
Definition digest_request (subjects : list string) : ChatRequest := {|
  cr_messages := [plain_message "system" _SYSTEM_PROMPT; plain_message "user" (_build_prompt subjects)];
  cr_provider := None; cr_model := None; cr_temperature := None; cr_max_tokens := None; cr_tools := None;
  cr_module := MODULE_NAME; cr_user_id := None |}.

Record DigestOut := { do_id : N; do_generated_at : Z; do_message_count : Z; do_summary : string }.

Section digest.
Context {P : Platform} {OT : Others} {HX : Httpx} {FL : Floats} {IF : IsoFormats} {EL : EmailLib} {GM : GmailSdk} {LLM : LiteLLM}.

(** The pages the model is ready to read; fifty are enough for the fifty messages
    asked for, if no page is empty. *)
Context (pages : nat).

Definition _active_mail_connection (s : sess) : M (option ConnectorConnection) :=
  let* connections := scalars s Connections (fun c => bool_decide (cn_status c = CONN_ACTIVE)) in
  ret (first_where (fun c => str_in CAPABILITY_MAIL (granted_capabilities c)) connections).

Definition digest_summary (messages : list EmailMessage) : M string :=
  match messages with
  | [] => ret no_mail_summary
  | _ => let* result := chat (digest_request (List.map em_subject messages)) in ret (ch_content result)
  end.
Definition store_digest (s : sess) (summary : string) (count : Z) : M SampleDigestDigest :=
  let* id := uuid4 in
  let* t := now in
  let* digest := add s Digests {| sd_id := id; sd_tenant_id := 0; sd_generated_at := t; sd_message_count := count; sd_summary := summary |} in
  let* _ := record_audit_event s DIGEST_ACTION "sample_digest_digest" (uuid_str (sd_id digest)) [("message_count", JInt count)] None SYSTEM_ACTOR_LABEL in
  ret digest.
Definition generate_digest (s : sess) : M (option SampleDigestDigest) :=
  let* connection := _active_mail_connection s in
  match connection with
  | None => raise (SampleDigestError no_connection_msg)
  | Some connection =>
      let* mail := of_result (get_capability connection MailCapability) in
      let* t := now in
      let* listed := list_messages pages s connection mail (Some (t - _LOOKBACK)) in
      match listed with
      | None => ret None
      | Some messages =>
          let* summary := digest_summary messages in
          let* digest := store_digest s summary (Z.of_nat (length messages)) in
          ret (Some digest)
      end
  end.

(** Its session is open while the gateway opens others. *)
Definition generate_digest_task : PeriodicFn := fun tenant_id =>
  let* _ := current_tenant in
  get_tenant_session (Own 2) (
    let* digest := generate_digest (Own 2) in
    match digest with
    | None => ret None
    | Some _ => let* _ := commit (Own 2) in ret (Some tt)
    end).
(** It only logs. *)
Definition on_mail_event (event : ConnectorEvent) : M unit := ret tt.

(** ** Routes *)

Definition list_digests_in (ctx : TenantContext) : M (list DigestOut) :=
  get_tenant_session Ten (
    let* digests := scalars Ten Digests (fun _ => true) in
    ret (List.map (fun d => {| do_id := sd_id d; do_generated_at := sd_generated_at d; do_message_count := sd_message_count d; do_summary := sd_summary d |})
      (order_by (fun a b => sd_generated_at b <=? sd_generated_at a) digests))).
Definition list_digests (rq : Request) : M (list DigestOut) := module_route MODULE_NAME PERM_READ rq list_digests_in.
Definition run_now_in (ctx : TenantContext) : M unit := enqueue_unit MODULE_NAME TASK_NAME (tc_tenant_id ctx).
Definition run_now (rq : Request) : M unit := module_route MODULE_NAME PERM_MANAGE rq run_now_in.

(** The dependencies of a handler, as FastAPI collects them: those of
    [resolve_tenant] and of [get_tenant_session] carry no permission. *)
Definition resolve_tenant_dep : Dependant := Dep None [Dep None []; Dep None [Dep None []]].
Definition permission_dep (permission : string) : Dependant := Dep (Some permission) [resolve_tenant_dep].
Definition router : list Route :=
  [APIRoute "/digests" [permission_dep PERM_READ; Dep None []]; APIRoute "/run" [permission_dep PERM_MANAGE]].

Definition manifest : ModuleManifest := {|
  mm_name := "sample_digest"; mm_version := "1.0.0"; mm_title := "Digest d'exemple";
  mm_description := "Résumé quotidien des emails reçus, produit par le provider IA du tenant.";
  mm_router := router;
  mm_permissions := [
    {| mp_name := PERM_READ; mp_roles := [ROLE_MEMBER; ROLE_ADMIN; ROLE_OWNER]; mp_description := "Lire les digests générés." |};
    {| mp_name := PERM_MANAGE; mp_roles := [ROLE_ADMIN; ROLE_OWNER]; mp_description := "Déclencher manuellement la génération d'un digest." |}];
  mm_periodic_tasks := [{| pt_name := TASK_NAME; pt_schedule_seconds := "86400.0"; pt_fn := generate_digest_task |}];
  mm_connector_events := [{| ce_capability := CAPABILITY_MAIL; ce_handler := on_mail_event |}];
  mm_required_capabilities := [MailCapability];
  mm_audit_actions := [DIGEST_ACTION] |}.

Definition MODULES : list ModuleManifest := [manifest].

Example registry_starts : validate_registry MODULES = Ok tt /\
  (register_runtime (P := P) MODULES (initial_grants, [])).1 = Ok tt.
Proof. split; vm_compute; reflexivity. Qed.
End digest.

(** ** What the context and the cap of the messages survive *)

Section running.
Context {P : Platform} {OT : Others} {HX : Httpx} {FL : Floats} {IF : IsoFormats} {EL : EmailLib} {GM : GmailSdk} {LLM : LiteLLM}.
Implicit Types (w : World).

Lemma tenant_inert : Inert w_tenant.
Proof. by split. Qed.
#[local] Existing Instance tenant_inert.

Lemma stable_quota {X} (f : World -> X) {IN : Inert f} ctx n q : stable f (record_and_alert ctx n q).
Proof.
  assert (Hi : forall k n, stable f (incrby k n)).
  { intros k m w. unfold incrby. destruct (kv_look _ _ _) as [[[z|x] d]|]; first [done | exact (inert_kv f _ _)]. }
  assert (He : forall k n, stable f (expire k n)) by (intros k m w; exact (inert_kv f _ _)).
  assert (Hs : forall k n, stable f (Quota.set_nx k n)).
  { intros k m w. unfold Quota.set_nx. destruct (kv_look _ _ _); [done | exact (inert_kv f _ _)]. }
  unfold record_and_alert, add_usage, _emit_alert_once. stable_code; auto.
Qed.
Lemma stable_chat {X} (f : World -> X) {IN : Inert f} rq : stable f (chat rq).
Proof.
  assert (Hm : forall ctx p m u pr mo st us el k, stable f (_meter_wrap ctx p m u pr mo st us el k)).
  { intros. unfold _meter_wrap. apply stable_bind.
    - unfold record_usage. apply stable_catch; [stable_code | intros e k' [= <-]; stable_code].
    - intros _. destruct (0 <? _); [| stable_code]. apply stable_bind; [by apply stable_quota | intros ?; stable_code]. }
  assert (Ho : forall ctx p pr mo, stable f (_chat_once ctx p pr mo rq)).
  { intros. unfold _chat_once. apply stable_bind; [stable_code |]. intros key. apply stable_bind; [intros w; exact (inert_out f _ _) |].
    intros [raw el]. cbn zeta. destruct raw; (apply stable_bind; [apply Hm | intros ?; stable_code]). }
  unfold chat, _load_policy, get_policy. apply stable_bind; [stable_code |]. intros ctx. apply stable_bind; [stable_code |]. intros p.
  apply stable_bind; [stable_code |]. intros [pr mo]. apply stable_catch; [apply Ho |].
  intros e k. destruct e; try done; destruct (rp_fallback_provider p); try done; intros [= <-];
    (apply stable_bind; [stable_code | intros [? ?]; apply Ho]).
Qed.

Lemma stable_list_messages {X} (f : World -> X) {IN : Inert f} n s c mail since : (forall t w, f (set_now t w) = f w) ->
  stable f (list_messages n s c mail since).
Proof.
  intros Ht.
  assert (Hc : forall tok call, stable f (gmail_call tok call)).
  { intros tok call w. unfold gmail_call. destruct (gmail_answer _ _ _ _); exact (inert_out f _ _). }
  assert (Hmeta : forall tok items, stable f (gmail_metadata tok items)).
  { intros tok items. induction items as [|i items IH]; [stable_code |]. cbn [gmail_metadata]. stable_code; auto. }
  assert (Hp : forall k tok label q page ms limit, stable f (gmail_pages k tok label q page ms limit)).
  { intros k. induction k as [|k IH]; intros; cbn [gmail_pages]; destruct (negb _); stable_code; auto. }
  assert (Hg : forall k path ps ms limit c, stable f (graph_pages k s c path ps ms limit)).
  { intros k. induction k as [|k IH]; intros path ps ms limit c'; cbn [graph_pages]; [stable_code |].
    destruct path as [p|]; [| stable_code]. destruct (negb _); [stable_code |]. apply stable_bind; [by apply (stable_graph_request f) |]. intros [c'' r]. stable_code. }
  unfold list_messages, gmail_list_messages, graph_list_messages, gmail_execute, run_with_backoff. destruct mail; try apply stable_raise.
  - apply stable_bind; [| intros o; stable_code]. apply stable_bind; [by apply (stable_fresh_access_token f) |]. intros [c' tok]. by apply (stable_attempts f).
  - apply stable_bind; [apply Hg | intros o; stable_code].
Qed.

Lemma list_messages_cap n s c mail since w l w' : list_messages n s c mail since w = (Ok (Some l), w') -> Z.of_nat (length l) <= 50.
Proof.
  assert (Hm : forall (g : json -> result EmailMessage) (o : option (list json)) w0 r w1,
    (match o with None => ret None | Some ms => let* emails := of_result (map_result g (first_n 50 ms)) in ret (Some emails) end) w0 = (Ok (Some r), w1) ->
    Z.of_nat (length r) <= 50).
  { intros g [ms|] w0 r w1; [| done]. unfold bind, of_result. destruct (map_result g (first_n 50 ms)) as [es|] eqn:E; [| done]. intros [= <- _].
    rewrite (map_result_length _ _ _ E). unfold first_n. rewrite List.length_firstn. lia. }
  unfold list_messages, gmail_list_messages, graph_list_messages. destruct mail; try done; unfold bind at 1.
  - destruct (gmail_execute _ _ _ w) as [[o|e] w0]; [apply Hm | done].
  - destruct (graph_pages _ _ _ _ _ _ _ w) as [[o|e] w0]; [apply Hm | done].
Qed.
End running.

(** ** Properties *)

Section properties.
Context {P : Platform} {OT : Others} {HX : Httpx} {FL : Floats} {IF : IsoFormats} {EL : EmailLib} {GM : GmailSdk} {LLM : LiteLLM}.
Implicit Types (w : World).
#[local] Existing Instance tenant_inert.

(** A connection from which the tenant's mail may be read. *)
Definition mail_connection (tid : N) (c : ConnectorConnection) : Prop :=
  cn_tenant_id c = tid /\ cn_status c = CONN_ACTIVE /\ In CAPABILITY_MAIL (granted_capabilities c).

Lemma active_mail_run s w ctx : w_tenant w = Some ctx ->
  exists o, _active_mail_connection s w = (Ok o, w) /\
  match o with
  | Some c => In c (sees w s Connections) /\ mail_connection (tc_tenant_id ctx) c
  | None => forall c, In c (sees w s Connections) -> ~ mail_connection (tc_tenant_id ctx) c
  end.
Proof.
  intros Hc. unfold _active_mail_connection. unfold bind.
  match goal with |- context [scalars s Connections ?p w] => rewrite (scalars_scoped s Connections p w ctx) by done end.
  eexists. split; [done |]. case_query as [c|] E.
  - apply first_where_Some in E as [[Hin H]%in_rows_where Hm]. unfold owned_by in H. simpl in H. bool_hyps. split; [done |].
    split; [done |]. split; [done |]. unfold str_in in Hm. bool_hyps. by apply list_elem_of_In.
  - rewrite first_where_None in E. intros c Hin (H1 & H2 & H3). specialize (E c). rewrite in_rows_where in E. cbn [row] in E.
    assert (Hf : str_in CAPABILITY_MAIL (granted_capabilities c) = false).
    { apply E. split; [exact Hin |]. unfold owned_by. simpl. rewrite H1, N.eqb_refl. simpl. by apply bool_decide_eq_true. }
    unfold str_in in Hf. bool_hyps. by apply Hf, list_elem_of_In.
Qed.

Lemma store_digest_run s summary count w ctx : w_tenant w = Some ctx ->
  let '(r, w') := store_digest s summary count w in
  match r with
  | Raise e => e = IntegrityError
  | Ok d => sd_tenant_id d = tc_tenant_id ctx /\ sd_message_count d = count /\ sd_summary d = summary /\
      exists e, event_is (tc_tenant_id ctx) (w_now w) DIGEST_ACTION "sample_digest_digest" (uuid_str (sd_id d)) [("message_count", JInt count)] None SYSTEM_ACTOR_LABEL e /\
        w_db w' = w_db w /\ forall db, w_pend w' s db = upd AuditEvents (fun l => l ++ [e]) (upd Digests (fun l => l ++ [d]) (w_pend w s db))
  end.
Proof.
  intros Hc. unfold store_digest. rewrite bind_uuid4, bind_now. unfold bind at 1. set (w0 := set_drawn _ w).
  rewrite (add_scoped s Digests _ w0 ctx) by done. cbn zeta. destruct (existsb _ _); [done |].
  set (d := set_tenant_id Digests _ _). set (w1 := wrote s _ w0). unfold bind at 1.
  destruct (record_audit_event s _ _ _ _ _ _ w1) as [r w2] eqn:E. apply (record_audit_event_run _ _ _ _ _ _ _ _ ctx) in E; [| done].
  destruct E as [[-> ->]|(e & -> & He & ->)]; [done |]. unfold ret. do 3 (split; [done |]). exists e. split; [exact He |]. split; [done |].
  intros db. rewrite pend_wrote. change (w_pend (set_drawn _ w1) s db) with (w_pend w1 s db). unfold w1. by rewrite pend_wrote.
Qed.

End properties.

(** ** Running it *)

Definition plain_email : EmailLib := {| parseaddr s := (EmptyString, s); getaddresses l := List.map (fun s => (EmptyString, s)) l; mime_bytes _ _ := [] |}.
Definition silent_gmail : GmailSdk := {| gmail_answer _ _ _ _ := SdkHttpError 404 |}.
Definition digest_world : World (VK := simple_valkey) := set_db (upd Connections (fun _ => [live_microsoft]) sample_db) in_acme.
Definition acme_digest : M (VK := simple_valkey) (option SampleDigestDigest) :=
  generate_digest (P := google_platform) (OT := alone) (HX := two_pages) (FL := no_floats) (IF := plain_iso) (EL := plain_email) (GM := silent_gmail)
    (LLM := polite) 50 (Own 2).

