(* ===== verification/Usage.v ===== *)
(** [app/ai/tasks.py]: the daily rollup of usage events into [ai_usage_daily],
    the reset of the quota counters on the sums of the month, and the purge of
    raw events. A day is its number since the epoch. *)
From S2P Require Import Prelude PyStr Hashing Base64 Json Config Tokens Models Permissions World Uuid Sample Orm Isolation AuthService Journal Dates Pricing Policy Quota Slug Deps Gateway.

(** ** GROUP BY and SUM *)

Section group_by.
Context {A K : Type} `{EqDecision K}.
Implicit Types (k : A -> K) (l : list A).

(** The groups come in an order SQL leaves open. *)
Definition group_by k l : list (K * list A) :=
  List.map (fun x => (x, rows_where (fun a => bool_decide (k a = x)) l)) (remove_dups (List.map k l)).
Definition sum_of (f : A -> Z) l : Z := fold_right Z.add 0 (List.map f l).

Lemma group_by_keys k l : List.map fst (group_by k l) = remove_dups (List.map k l).
Proof. unfold group_by. rewrite List.map_map. apply List.map_id. Qed.

Lemma group_by_unique k l : unique_by fst (group_by k l).
Proof. unfold unique_by. rewrite group_by_keys. apply NoDup_ListNoDup, NoDup_remove_dups. Qed.

Lemma group_by_In k l g : In g (group_by k l) ->
  g.2 = rows_where (fun a => bool_decide (k a = g.1)) l /\ g.2 <> [].
Proof.
  intros (x & <- & Hx)%List.in_map_iff. split; [done |]. simpl.
  apply list_elem_of_In, elem_of_remove_dups, list_elem_of_In, List.in_map_iff in Hx as (a & <- & Ha).
  intros E. rewrite rows_where_nil in E. specialize (E a Ha). by rewrite bool_decide_eq_true_2 in E.
Qed.

(** Every row is in the group of its key. *)
Lemma group_by_find k l x : rows_where (fun a => bool_decide (k a = x)) l <> [] ->
  In (x, rows_where (fun a => bool_decide (k a = x)) l) (group_by k l).
Proof.
  intros H. apply (List.in_map (fun x => (x, rows_where (fun a => bool_decide (k a = x)) l)) _ x). apply list_elem_of_In, elem_of_remove_dups, list_elem_of_In.
  destruct (rows_where _ l) as [|a r] eqn:E; [done |].
  assert (Ha : In a (rows_where (fun a => bool_decide (k a = x)) l)) by (rewrite E; by left).
  apply in_rows_where in Ha as [Ha Hk]. bool_hyps. rewrite <- Hk. by apply List.in_map.
Qed.
End group_by.

Section tasks.
Context {P : Platform}.

Definition usage_key : Type := N * string * string.
Definition usage_key_of (e : AIUsageEvent) : usage_key := (ue_tenant_id e, ue_provider e, ue_model e).

Definition failed (e : AIUsageEvent) : bool := negb (bool_decide (ue_status e = USAGE_OK)).

(** [values]: the row of the aggregate. A group is not empty, so no sum is NULL. *)
Definition daily_values (target_day : Z) (g : usage_key * list AIUsageEvent) : AIUsageDaily := {|
  ud_day := target_day; ud_tenant_id := g.1.1.1; ud_provider := g.1.1.2; ud_model := g.1.2;
  ud_input_tokens := sum_of ue_input_tokens g.2;
  ud_output_tokens := sum_of ue_output_tokens g.2;
  ud_cached_tokens := sum_of ue_cached_tokens g.2;
  ud_request_count := Z.of_nat (length g.2);
  ud_error_count := Z.of_nat (count_where failed g.2);
  ud_estimated_cost_microeur := sum_of ue_estimated_cost_microeur g.2 |}.

(** [set_]: every column but the key. *)
Definition set_sums (values row : AIUsageDaily) : AIUsageDaily := {|
  ud_day := ud_day row; ud_tenant_id := ud_tenant_id row; ud_provider := ud_provider row; ud_model := ud_model row;
  ud_input_tokens := ud_input_tokens values; ud_output_tokens := ud_output_tokens values;
  ud_cached_tokens := ud_cached_tokens values; ud_request_count := ud_request_count values;
  ud_error_count := ud_error_count values; ud_estimated_cost_microeur := ud_estimated_cost_microeur values |}.

Definition on_conflict_do_update (values : AIUsageDaily) (rows : list AIUsageDaily) : list AIUsageDaily :=
  if existsb (conflicts AIUsageDailies values) rows then update_where (conflicts AIUsageDailies values) (set_sums values) rows
  else rows ++ [values].

Definition upsert (s : sess) (values : AIUsageDaily) : M unit :=
  let* _ := _guard_orm_execute (statement_on INSERT AIUsageDailies) in
  write s (upd AIUsageDailies (on_conflict_do_update values)).

Definition in_day (target_day : Z) (e : AIUsageEvent) : bool :=
  let start := target_day * day in
  (start <=? ue_occurred_at e) && (ue_occurred_at e <? start + day).

(** [written] counts the groups. *)
Definition aggregate_day (target_day : Z) : M Z :=
  with_session (Own 0) (
    let* events := scalars (Own 0) AIUsageEvents (in_day target_day) in
    let grouped := group_by usage_key_of events in
    let* _ := for_each grouped (fun g => upsert (Own 0) (daily_values target_day g)) in
    let* _ := commit (Own 0) in
    ret (Z.of_nat (length grouped))).

Definition tokens_of (e : AIUsageEvent) : Z := ue_input_tokens e + ue_output_tokens e.

Definition reconcile_month_quotas : M unit :=
  let* t := now in
  let start := month_start t in
  let* rows := with_session (Own 0) (
    let* events := scalars (Own 0) AIUsageEvents (fun e => start <=? ue_occurred_at e) in
    ret (List.map (fun g => (g.1, sum_of tokens_of g.2)) (group_by ue_tenant_id events))) in
  for_each rows (fun r => Quota.reconcile r.1 r.2).

Definition purge_raw_events : M Z :=
  let* t := now in
  let cutoff := t - ai_usage_raw_retention_days * day in
  with_session (Own 0) (
    let* n := delete_rows (Own 0) AIUsageEvents (fun e => ue_occurred_at e <? cutoff) in
    let* _ := commit (Own 0) in
    ret n).

Record Rollup := { ro_aggregated : Z; ro_purged : Z }.

Definition _run_daily_rollup : M Rollup :=
  let* t := now in
  let yesterday := day_of (t - day) in
  let* aggregated := aggregate_day yesterday in
  let* _ := reconcile_month_quotas in
  let* purged := purge_raw_events in
  ret {| ro_aggregated := aggregated; ro_purged := purged |}.
End tasks.

(** ** The daily table *)

Section daily.
Implicit Types (rows : list AIUsageDaily) (v : AIUsageDaily).

Definition daily_key (r : AIUsageDaily) : Z * usage_key := (ud_day r, (ud_tenant_id r, ud_provider r, ud_model r)).
(** The aggregate of a day and key. *)
Definition daily (d : Z) (key : usage_key) rows : option AIUsageDaily :=
  first_where (fun r => bool_decide (daily_key r = (d, key))) rows.
(** The primary key of the table. *)
Definition daily_wf rows : Prop := unique_by daily_key rows.

Lemma conflicts_daily v r : conflicts AIUsageDailies v r = bool_decide (daily_key r = daily_key v).
Proof.
  apply eq_true_iff_eq. rewrite bool_decide_eq_true. simpl. rewrite !andb_true_iff, Z.eqb_eq, N.eqb_eq, !str_eqb_eq.
  unfold daily_key. split; [by intros [[[-> ->] ->] ->] | by intros [= -> -> -> ->]].
Qed.

Lemma set_sums_same v r : daily_key r = daily_key v -> set_sums v r = v.
Proof. unfold set_sums, daily_key. intros [= -> -> -> ->]. by destruct v. Qed.

Lemma on_conflict_wf v rows : daily_wf rows -> daily_wf (on_conflict_do_update v rows).
Proof.
  intros H. unfold on_conflict_do_update. destruct (existsb (conflicts AIUsageDailies v) rows) eqn:E.
  - by apply unique_by_update.
  - apply unique_by_snoc; [done |]. intros (r & Hk & Hr)%List.in_map_iff.
    enough (existsb (conflicts AIUsageDailies v) rows = true) by congruence. apply existsb_exists. exists r. split; [done |].
    rewrite conflicts_daily. by apply bool_decide_eq_true.
Qed.

(** The upsert sets one entry. *)
Lemma on_conflict_daily v rows d key :
  daily d key (on_conflict_do_update v rows) = if bool_decide ((d, key) = daily_key v) then Some v else daily d key rows.
Proof.
  unfold on_conflict_do_update, daily. destruct (existsb (conflicts AIUsageDailies v) rows) eqn:E.
  - rewrite first_where_update by (intros x; rewrite conflicts_daily; intros Hx; by rewrite !bool_decide_eq_true in * ).
    case_bool_decide as Hk.
    + apply existsb_exists in E as (r & Hr & Hc). rewrite conflicts_daily in Hc. bool_hyps.
      destruct (first_where _ rows) as [x|] eqn:Ef.
      * apply first_where_Some in Ef as [_ Ef]. bool_hyps. cbn -[conflicts]. rewrite conflicts_daily, bool_decide_eq_true_2 by congruence.
        by rewrite set_sums_same by congruence.
      * rewrite first_where_None in Ef. specialize (Ef r Hr). bool_hyps. congruence.
    + destruct (first_where _ rows) as [x|] eqn:Ef; [| done]. apply first_where_Some in Ef as [_ Ef]. bool_hyps. cbn -[conflicts].
      rewrite conflicts_daily, bool_decide_eq_false_2 by congruence. done.
  - rewrite first_where_app. unfold first_where at 2; simpl. destruct (first_where _ rows) as [x|] eqn:Ef.
    + apply first_where_Some in Ef as [Hx Ef]. bool_hyps. case_bool_decide as Hk; [| done]. exfalso.
      assert (existsb (conflicts AIUsageDailies v) rows = true); [| congruence]. apply existsb_exists. exists x. split; [done |].
      rewrite conflicts_daily. apply bool_decide_eq_true. congruence.
    + case_bool_decide as Hk; case_bool_decide; congruence.
Qed.

(** What the events [l] of day [d] amount to under a key. *)
Definition summary (d : Z) (key : usage_key) (l : list AIUsageEvent) : option AIUsageDaily :=
  match rows_where (fun e => bool_decide (usage_key_of e = key)) (rows_where (in_day d) l) with
  | [] => None
  | evs => Some (daily_values d (key, evs))
  end.

Definition upsert_all (d : Z) (gs : list (usage_key * list AIUsageEvent)) rows : list AIUsageDaily :=
  fold_left (fun rows g => on_conflict_do_update (daily_values d g) rows) gs rows.

Lemma upsert_all_wf d gs rows : daily_wf rows -> daily_wf (upsert_all d gs rows).
Proof. revert rows. induction gs as [|g gs IH]; intros rows H; [done |]. apply IH. by apply on_conflict_wf. Qed.

Lemma upsert_all_daily d gs rows d' key : unique_by fst gs ->
  daily d' key (upsert_all d gs rows) =
  match first_where (fun g => bool_decide (g.1 = key)) gs with
  | Some g => if d' =? d then Some (daily_values d g) else daily d' key rows
  | None => daily d' key rows
  end.
Proof.
  revert rows. induction gs as [|g gs IH]; intros rows Hu; [done |]. inversion_clear Hu as [|? ? Hn Hu'].
  cbn [upsert_all fold_left]. change (fold_left _ gs ?x) with (upsert_all d gs x). rewrite (IH _ Hu'), on_conflict_daily.
  unfold first_where at 2. cbn [List.find]. change (List.find ?p gs) with (first_where p gs).
  assert (Hk : daily_key (daily_values d g) = (d, g.1)) by (destruct g as [[[? ?] ?] ?]; done). rewrite Hk.
  destruct (bool_decide (g.1 = key)) eqn:Eg; bool_hyps.
  - assert (Hnone : first_where (fun g => bool_decide (g.1 = key)) gs = None).
    { apply first_where_None. intros x Hx. apply bool_decide_eq_false. intros E. apply Hn. rewrite Eg, <- E. by apply List.in_map. }
    rewrite Hnone. destruct (Z.eqb_spec d' d) as [->|Hd]; case_bool_decide; congruence.
  - rewrite bool_decide_eq_false_2 by congruence. done.
Qed.

(** Aggregating the events [l] of a day sets the entries of that day that have
    events, and no other. *)
Lemma aggregate_daily d l rows d' key :
  daily d' key (upsert_all d (group_by usage_key_of (rows_where (in_day d) l)) rows) =
  match (if d' =? d then summary d' key l else None) with Some r => Some r | None => daily d' key rows end.
Proof.
  transitivity (match (if d' =? d then summary d key l else None) with Some r => Some r | None => daily d' key rows end);
    [| by destruct (Z.eqb_spec d' d) as [->|]].
  rewrite upsert_all_daily by apply group_by_unique. unfold summary. set (evs := rows_where (in_day d) l).
  destruct (first_where _ (group_by usage_key_of evs)) as [g|] eqn:E.
  - apply first_where_Some in E as [Hg Hk]. bool_hyps. subst key. apply group_by_In in Hg as [Hg Hne]. rewrite <- Hg.
    destruct (d' =? d); [| done]. destruct g as [k [|e evs']]; done.
  - destruct (d' =? d); [| done]. destruct (rows_where _ evs) as [|e evs'] eqn:Er; [done |]. exfalso.
    rewrite first_where_None in E. specialize (E _ (group_by_find usage_key_of evs key ltac:(by rewrite Er))).
    simpl in E. bool_hyps. done.
Qed.
End daily.

(** ** Running *)

Section running.
Context {P : Platform}.
Implicit Types (w : World).

(** What an operation of the rollup leaves alone. *)
Definition same_surroundings w w' : Prop :=
  w_now w' = w_now w /\ w_tenant w' = w_tenant w /\ w_out w' = w_out w /\ w_drawn w' = w_drawn w /\ w_entropy w' = w_entropy w.
Lemma same_trans w1 w2 w3 : same_surroundings w1 w2 -> same_surroundings w2 w3 -> same_surroundings w1 w3.
Proof. unfold same_surroundings. intuition congruence. Qed.

Lemma upsert_run s v w : upsert s v w = (Ok tt, wrote s (upd AIUsageDailies (on_conflict_do_update v)) w).
Proof. done. Qed.
Lemma for_each_upsert s d gs w :
  exists w', for_each gs (fun g => upsert s (daily_values d g)) w = (Ok tt, w') /\
    sees w' s AIUsageDailies = upsert_all d gs (sees w s AIUsageDailies) /\
    (forall t, t <> AIUsageDailies -> sees w' s t = sees w s t) /\
    (forall s', s' <> s -> w_pend w' s' = w_pend w s') /\ w_db w' = w_db w /\ w_kv w' = w_kv w /\ same_surroundings w w'.
Proof.
  revert w. induction gs as [|g gs IH]; intros w; [by exists w |].
  cbn [for_each]. unfold bind at 1. rewrite upsert_run.
  destruct (IH (wrote s (upd AIUsageDailies (on_conflict_do_update (daily_values d g))) w)) as (w' & -> & H1 & H2 & H3 & H4 & H5 & H6).
  exists w'. split; [done |]. split; [by rewrite H1, sees_wrote, upd_eq |].
  split; [intros t Ht; rewrite H2, sees_wrote by done; by apply upd_ne |].
  split; [| by split]. intros s' Hs. rewrite H3 by done. simpl. by destruct (sess_eq_dec s s').
Qed.

Lemma aggregate_run d w : quiet w ->
  let gs := group_by usage_key_of (rows_where (in_day d) (w_db w AIUsageEvents)) in
  exists w', aggregate_day d w = (Ok (Z.of_nat (length gs)), w') /\
    w_db w' AIUsageDailies = upsert_all d gs (w_db w AIUsageDailies) /\
    (forall t, t <> AIUsageDailies -> w_db w' t = w_db w t) /\ w_kv w' = w_kv w /\ same_surroundings w w' /\ quiet w'.
Proof.
  intros [Hp Ht] gs. unfold aggregate_day, with_session, finally. set (w0 := closed (Own 0) w).
  assert (Hs : sees w0 (Own 0) = w_db w) by apply sees_closed. run. rewrite Hs. fold gs.
  destruct (for_each_upsert (Own 0) d gs w0) as (w1 & E & H1 & H2 & H3 & H4 & H5 & H6).
  unfold bind at 1. rewrite E. unfold bind, commit, ret.
  eexists. split; [reflexivity |]. simpl. rewrite H1, Hs. split; [done |]. split; [intros t Hne; by rewrite H2, Hs |].
  split; [done |]. split; [exact H6 |]. destruct H6 as (_ & Hc & _). split; [| by rewrite <- Ht].
  intros s. simpl. destruct (sess_eq_dec (Own 0) s) as [|Hne]; [done |]. rewrite H3 by congruence. simpl.
  destruct (sess_eq_dec (Own 0) s); [done |]. apply Hp.
Qed.

Lemma purge_raw_run w : quiet w ->
  let old := fun e => ue_occurred_at e <? w_now w - ai_usage_raw_retention_days * day in
  exists w', purge_raw_events w = (Ok (Z.of_nat (count_where old (w_db w AIUsageEvents))), w') /\
    w_db w' AIUsageEvents = delete_where old (w_db w AIUsageEvents) /\
    (forall t, t <> AIUsageEvents -> w_db w' t = w_db w t) /\ w_kv w' = w_kv w /\ same_surroundings w w' /\ quiet w'.
Proof.
  intros [Hp Ht] old. unfold purge_raw_events, with_session, finally. run. set (w0 := closed (Own 0) w).
  assert (Hs : sees w0 (Own 0) = w_db w) by apply sees_closed. run. unfold commit, ret. eexists. split; [reflexivity |].
  simpl. simpl_view. split; [done |]. split; [intros t Hne; by apply upd_ne |]. split; [done |].
  split; [done |]. split; [| done]. intros s. simpl. destruct (sess_eq_dec (Own 0) s); [done |]. apply Hp.
Qed.

(** ** The counters *)

(** The value of a tenant's counter once [rows] have been written. *)
Definition reconciled (tid : N) (rows : list (N * Z)) (before : option Z) : option Z :=
  match first_where (fun r => bool_decide (r.1 = tid)) rows with Some r => Some (Z.max r.2 0) | None => before end.

Lemma month_key_ne a b t : (a < 2 ^ 128)%N -> (b < 2 ^ 128)%N -> a <> b -> _month_key a t <> _month_key b t.
Proof.
  intros Ha Hb Hne E. apply Hne, uuid_str_inj; [done | done |]. unfold _month_key in E. apply app_inj_l in E.
  by apply app_same_length in E as [E _]; [| rewrite !uuid_str_length].
Qed.

Lemma reconcile_all rows w : unique_by fst rows -> Forall (fun r => r.1 < 2 ^ 128)%N rows ->
  exists w', for_each rows (fun r => Quota.reconcile r.1 r.2) w = (Ok tt, w') /\ w' = set_kv (w_kv w') w /\
    forall tid, (tid < 2 ^ 128)%N -> counter w' tid = reconciled tid rows (counter w tid).
Proof.
  revert w. induction rows as [|[a z] rows IH]; intros w Hu Hr; [exists w; split; [done |]; split; [by destruct w | done] |].
  inversion_clear Hu as [|? ? Hn Hu']. inversion_clear Hr as [|? ? Ha Hr']. simpl in Ha.
  cbn [for_each]. unfold bind at 1, Quota.reconcile at 1. run. cbn [fst snd]. set (k := _month_key a (w_now w)). set (w1 := set_kv _ w).
  destruct (IH w1 Hu' Hr') as (w' & E & H1 & H2). exists w'. split; [exact E |]. split; [rewrite H1; done |].
  intros tid Ht. rewrite H2 by done. unfold reconciled, first_where. cbn [List.find fst]. case_bool_decide as He.
  - subst a. destruct (List.find _ rows) as [r|] eqn:Ef.
    + apply List.find_some in Ef as [Hin Hd]. bool_hyps. destruct Hn. simpl. rewrite <- Hd. by apply List.in_map.
    + unfold counter. simpl. fold k. rewrite kv_set_eq; [done |]. by intros ? [= <-].
  - destruct (List.find _ rows); [done |]. unfold counter. simpl. rewrite kv_set_ne; [done |]. unfold k. by apply month_key_ne.
Qed.

(** The events of the month under way. *)
Definition month_events (w : World) (tid : N) : list AIUsageEvent :=
  rows_where (fun e => bool_decide (ue_tenant_id e = tid))
    (rows_where (fun e => month_start (w_now w) <=? ue_occurred_at e) (w_db w AIUsageEvents)).

Lemma reconcile_month_run w : quiet w -> Forall (fun e => ue_tenant_id e < 2 ^ 128)%N (w_db w AIUsageEvents) ->
  exists w', reconcile_month_quotas w = (Ok tt, w') /\ w_db w' = w_db w /\ same_surroundings w w' /\ quiet w' /\
    forall tid, (tid < 2 ^ 128)%N -> counter w' tid =
      match month_events w tid with [] => counter w tid | evs => Some (Z.max (sum_of tokens_of evs) 0) end.
Proof.
  intros [Hp Hc] Hids. unfold reconcile_month_quotas. run. unfold bind at 1, with_session, finally.
  set (w0 := closed (Own 0) w). assert (Hs : sees w0 (Own 0) = w_db w) by apply sees_closed. run. rewrite Hs. unfold ret.
  set (evs := rows_where (fun e => month_start (w_now w) <=? ue_occurred_at e) (w_db w AIUsageEvents)). set (rows := List.map _ (group_by ue_tenant_id evs)). set (w1 := closed _ w0).
  assert (Hfst : List.map fst rows = List.map fst (group_by ue_tenant_id evs)) by (unfold rows; by rewrite List.map_map).
  destruct (reconcile_all rows w1) as (w' & E & H1 & H2).
  - unfold unique_by. rewrite Hfst. apply group_by_unique.
  - apply List.Forall_forall. intros r Hr. apply (List.in_map fst) in Hr. rewrite Hfst in Hr.
    apply List.in_map_iff in Hr as (g & <- & Hg). apply group_by_In in Hg as [Hg Hne].
    destruct g as [x [|e l]]; [done |]. simpl in *. assert (He : In e (e :: l)) by by left. rewrite Hg in He.
    apply in_rows_where in He as [He Hx]. apply in_rows_where in He as [He _]. bool_hyps. subst x.
    by apply (List.Forall_forall (fun e => ue_tenant_id e < 2 ^ 128)%N _) with (x := e) in Hids.
  - exists w'. split; [exact E |]. rewrite H1. split; [done |]. split; [done |]. split.
    { split; [| done]. intros s. simpl. destruct (sess_eq_dec (Own 0) s); [done |]. by destruct (sess_eq_dec (Own 0) s). }
    intros tid Ht. rewrite <- H1, H2 by done. unfold reconciled, month_events. fold evs.
    change (counter w1 tid) with (counter w tid).
    destruct (first_where _ rows) as [r|] eqn:Ef.
    + apply first_where_Some in Ef as [Hr Ek]. bool_hyps. unfold rows in Hr. apply List.in_map_iff in Hr as (g & <- & Hg).
      apply group_by_In in Hg as [Hg Hne]. cbn [fst snd] in *. subst tid. rewrite <- Hg. by destruct (g.2).
    + destruct (rows_where (fun e => bool_decide (ue_tenant_id e = tid)) evs) as [|e l] eqn:Er; [done |]. exfalso.
      rewrite first_where_None in Ef. pose proof (group_by_find ue_tenant_id evs tid) as Hg. rewrite Er in Hg.
      specialize (Hg ltac:(done)). apply (List.in_map (fun g => (g.1, sum_of tokens_of g.2))) in Hg. apply Ef in Hg.
      simpl in Hg. bool_hyps. done.
Qed.
End running.

(** ** Properties *)

Section properties.
Context {P : Platform}.
Implicit Types (w : World).

Definition expired (t : Z) (e : AIUsageEvent) : bool := ue_occurred_at e <? t - ai_usage_raw_retention_days * day.

Lemma rollup_run w : quiet w -> Forall (fun e => ue_tenant_id e < 2 ^ 128)%N (w_db w AIUsageEvents) ->
  let yesterday := day_of (w_now w - day) in
  let gs := group_by usage_key_of (rows_where (in_day yesterday) (w_db w AIUsageEvents)) in
  exists w', _run_daily_rollup w = (Ok {| ro_aggregated := Z.of_nat (length gs);
                                         ro_purged := Z.of_nat (count_where (expired (w_now w)) (w_db w AIUsageEvents)) |}, w') /\
    w_db w' AIUsageDailies = upsert_all yesterday gs (w_db w AIUsageDailies) /\
    w_db w' AIUsageEvents = delete_where (expired (w_now w)) (w_db w AIUsageEvents) /\
    (forall t, t <> AIUsageDailies -> t <> AIUsageEvents -> w_db w' t = w_db w t) /\ same_surroundings w w' /\ quiet w' /\
    forall tid, (tid < 2 ^ 128)%N -> counter w' tid =
      match month_events w tid with [] => counter w tid | evs => Some (Z.max (sum_of tokens_of evs) 0) end.
Proof.
  intros Hq Hids yesterday gs. unfold _run_daily_rollup. run. fold yesterday.
  destruct (aggregate_run yesterday w Hq) as (w1 & E1 & A1 & A2 & A3 & A4 & Hq1). unfold bind at 1. rewrite E1. fold gs in A1 |- *.
  destruct (reconcile_month_run w1 Hq1) as (w2 & E2 & B1 & B2 & Hq2 & B3); [by rewrite A2 |]. unfold bind at 1. rewrite E2.
  destruct (purge_raw_run w2 Hq2) as (w3 & E3 & C1 & C2 & C3 & C4 & Hq3). unfold bind at 1. rewrite E3.
  assert (Hev : w_db w2 AIUsageEvents = w_db w AIUsageEvents) by (rewrite B1; by apply A2).
  assert (Hn : w_now w2 = w_now w) by (destruct B2 as [-> _]; by destruct A4 as [-> _]).
  rewrite Hev, Hn in *. exists w3. split; [done |].
  split; [rewrite C2, B1 by done; exact A1 |]. split; [exact C1 |].
  split; [intros t H1 H2; by rewrite C2, B1, A2 |]. split; [eapply same_trans; [exact A4 | eapply same_trans; [exact B2 | exact C4]] |].
  split; [done |]. intros tid Ht.
  assert (Hk : counter w3 tid = counter w2 tid) by (unfold counter; destruct C4 as [-> _]; by rewrite C3). rewrite Hk, B3 by done.
  unfold month_events, counter. destruct A4 as [-> _]. by rewrite A2, A3.
Qed.


(** ** The life of the usage data *)

(** [history w all d]: the process reached [w]; [all] are the usage events ever
    recorded and the days before [d] are aggregated. Calls record events at the
    instant they end, anything else may run that leaves both tables alone, and
    the clock advances on condition that a day's rollup runs before the next day
    is over. *)
Inductive history : World -> list AIUsageEvent -> Z -> Prop :=
  | history_start w :
      quiet w -> w_db w AIUsageEvents = [] -> w_db w AIUsageDailies = [] -> history w [] (day_of (w_now w))
  | history_record w all d r :
      history w all d -> (ur_tenant_id r < 2 ^ 128)%N ->
      history (record_usage r w).2 (all ++ skipn (length (w_db w AIUsageEvents)) (w_db (record_usage r w).2 AIUsageEvents)) d
  | history_other w all d w' :
      history w all d -> quiet w' -> w_now w' = w_now w ->
      w_db w' AIUsageEvents = w_db w AIUsageEvents -> w_db w' AIUsageDailies = w_db w AIUsageDailies -> history w' all d
  | history_time w all d t :
      history w all d -> w_now w <= t -> day_of t <= d + 1 -> history (set_now t w) all d
  | history_rollup w all d :
      history w all d -> history (_run_daily_rollup w).2 all (day_of (w_now w)).

Definition books (w : World) (all : list AIUsageEvent) (d cutoff : Z) : Prop :=
  quiet w /\ day_of (w_now w) - 1 <= d <= day_of (w_now w) /\
  (forall e, In e all -> ue_occurred_at e <= w_now w /\ (ue_tenant_id e < 2 ^ 128)%N) /\
  cutoff <= w_now w - ai_usage_raw_retention_days * day /\
  w_db w AIUsageEvents = rows_where (fun e => cutoff <=? ue_occurred_at e) all /\
  forall d' key, daily d' key (w_db w AIUsageDailies) = if d' <? d then summary d' key all else None.

Lemma day_of_le a b : a <= b -> day_of a <= day_of b.
Proof. intros H. unfold day_of. by apply Z.div_le_mono. Qed.
Lemma day_of_pred t : day_of (t - day) = day_of t - 1.
Proof. unfold day_of. replace (t - day) with (t + (-1) * day) by lia. rewrite Z.div_add by done. lia. Qed.

Lemma in_day_spec d e : in_day d e = true <-> day_of (ue_occurred_at e) = d.
Proof.
  unfold in_day. rewrite andb_true_iff, Z.leb_le, Z.ltb_lt. pose proof (day_bounds (ue_occurred_at e)) as H. unfold day in *.
  split; [intros | intros <-; unfold day in *]; nia.
Qed.

(** A summary looks at the events of its day only. *)
Lemma summary_ext d key l l' : rows_where (in_day d) l = rows_where (in_day d) l' -> summary d key l = summary d key l'.
Proof. unfold summary. by intros ->. Qed.

Lemma rows_where_narrow {A} (p q : A -> bool) l : (forall x, In x l -> p x = true -> q x = true) ->
  rows_where p (rows_where q l) = rows_where p l.
Proof.
  intros H. induction l as [|x l IH]; [done |]. unfold rows_where in *. simpl.
  assert (IH' := IH (fun y Hy => H y (or_intror Hy))). specialize (H x (or_introl eq_refl)).
  destruct (q x); simpl; [by rewrite IH' |]. destruct (p x); [by specialize (H eq_refl) | done].
Qed.

Lemma record_usage_quiet r w : quiet w -> quiet (record_usage r w).2.
Proof.
  intros [Hp Ht]. unfold record_usage, catch, with_session, finally. run.
  assert (Hc : forall w1, w_pend w1 = w_pend (closed (Own 0) w) \/ (exists f, w_pend w1 = w_pend (set_pend (Own 0) f (closed (Own 0) w))) ->
    forall s, w_pend (closed (Own 0) w1) s = id).
  { intros w1 H s. simpl. destruct (sess_eq_dec (Own 0) s) as [|Hne]; [done |].
    destruct H as [-> | [f ->]]; simpl; destruct (sess_eq_dec (Own 0) s); done. }
  case_if as Ec; run; unfold commit, ret; (split; [| exact Ht]).
  - apply Hc. by left.
  - intros s. simpl. by destruct (sess_eq_dec (Own 0) s).
Qed.

(** What recording a call adds to the events. *)
Lemma record_usage_appends r w : exists l : list AIUsageEvent,
  w_db (record_usage r w).2 AIUsageEvents = w_db w AIUsageEvents ++ l /\
  (forall e, In e l -> ue_occurred_at e = w_now w /\ ue_tenant_id e = ur_tenant_id r) /\
  w_now (record_usage r w).2 = w_now w /\ w_db (record_usage r w).2 AIUsageDailies = w_db w AIUsageDailies.
Proof.
  pose proof (record_usage_run r w) as H. destruct (record_usage r w) as [x w']. destruct H as (_ & _ & _ & Hn & _ & Hd & H).
  cbn [snd]. destruct H as [[_ H] | H].
  - exists []. rewrite H, app_nil_r. split; [done |]. split; [by intros e [] |]. split; [done |]. by apply Hd.
  - eexists. split; [exact H |]. split; [by intros e [<-|[]] |]. split; [done |]. by apply Hd.
Qed.

Lemma books_start w : quiet w -> w_db w AIUsageEvents = [] -> w_db w AIUsageDailies = [] ->
  books w [] (day_of (w_now w)) (w_now w - ai_usage_raw_retention_days * day).
Proof.
  intros Hq He Hd. split; [done |]. split; [lia |]. split; [by intros e [] |]. split; [lia |]. split; [by rewrite He |].
  intros d' key. rewrite Hd. by destruct (d' <? _).
Qed.

Lemma books_record w all d c r : 0 <= ai_usage_raw_retention_days -> books w all d c -> (ur_tenant_id r < 2 ^ 128)%N ->
  books (record_usage r w).2 (all ++ skipn (length (w_db w AIUsageEvents)) (w_db (record_usage r w).2 AIUsageEvents)) d c.
Proof.
  intros HR (Hq & Hd & Hall & Hc & He & Hk) Hid. destruct (record_usage_appends r w) as (l & H1 & H2 & H3 & H4).
  split; [by apply record_usage_quiet |]. rewrite H1, skipn_app, skipn_all, Nat.sub_diag, H3, H4. change (skipn 0 l) with l. cbn [app].
  split; [done |]. split; [| split; [done |]; split].
  - intros e [Hin|Hin]%List.in_app_iff; [by apply Hall |]. destruct (H2 e Hin) as [-> ->]. split; [lia | done].
  - rewrite rows_where_app, He. f_equal. symmetry. apply List.forallb_filter_id, List.forallb_forall. intros e Hin.
    destruct (H2 e Hin) as [-> _]. apply Z.leb_le. unfold day, second in *. nia.
  - intros d' key. rewrite Hk. destruct (Z.ltb_spec d' d) as [Hlt|]; [| done]. apply summary_ext.
    rewrite rows_where_app. assert (Hnil : rows_where (in_day d') l = []).
    2: { cbn [row] in *. rewrite Hnil. by rewrite app_nil_r. }
    apply rows_where_nil. intros e Hin. destruct (in_day d' e) eqn:E; [| done]. apply in_day_spec in E. destruct (H2 e Hin) as [Ho _]. rewrite Ho in E. lia.
Qed.

Lemma books_rollup w all d c : 2 <= ai_usage_raw_retention_days -> books w all d c ->
  exists c', books (_run_daily_rollup w).2 all (day_of (w_now w)) c'.
Proof.
  intros HR (Hq & Hd & Hall & Hc & He & Hk). set (T := w_now w - ai_usage_raw_retention_days * day).
  assert (Hids : Forall (fun e => ue_tenant_id e < 2 ^ 128)%N (w_db w AIUsageEvents)).
  { apply List.Forall_forall. intros e Hin. rewrite He in Hin. apply in_rows_where in Hin as [Hin _]. by apply Hall. }
  destruct (rollup_run w Hq Hids) as (w' & -> & H1 & H2 & _ & (Hn & _) & Hq' & _). exists T. cbn [snd]. rewrite day_of_pred in *.
  split; [done |]. rewrite Hn. split; [lia |]. split; [done |]. split; [unfold T; lia |]. split.
  - rewrite H2, He. unfold delete_where, rows_where. change (List.filter ?p (List.filter ?q all)) with (rows_where p (rows_where q all)).
    rewrite (rows_where_ext (fun r => negb (expired (w_now w) r)) (fun e => T <=? ue_occurred_at e)).
    + apply rows_where_narrow. intros e _ E. apply Z.leb_le in E. apply Z.leb_le. lia.
    + intros e _. unfold expired. fold T. apply eq_true_iff_eq. rewrite negb_true_iff, Z.ltb_ge, Z.leb_le. done.
  - intros d' key. rewrite H1, aggregate_daily, Hk.
    assert (Hs : forall k, summary (day_of (w_now w) - 1) k (w_db w AIUsageEvents) = summary (day_of (w_now w) - 1) k all).
    { intros k. apply summary_ext. rewrite He. apply rows_where_narrow. intros e _ E. apply Z.leb_le.
      apply in_day_spec in E. pose proof (day_bounds (ue_occurred_at e)) as B1. rewrite E in B1. pose proof (day_bounds (w_now w)) as B2.
      unfold day, second in *. nia. }
    destruct (Z.eqb_spec d' (day_of (w_now w) - 1)) as [->|Hne].
    + rewrite Hs, (proj2 (Z.ltb_lt _ (day_of (w_now w)))) by lia.
      destruct (summary _ key all) as [r|] eqn:E; [done |]. by destruct (_ <? d).
    + destruct (Z.ltb_spec d' d), (Z.ltb_spec d' (day_of (w_now w))); lia || done.
Qed.

End properties.

(** ** Witnesses *)

Definition call_of (input output : Z) : UsageRecord := {|
  ur_tenant_id := 1; ur_module := "core"; ur_provider := "mistral"; ur_model := "mistral-small-latest"; ur_status := USAGE_OK;
  ur_price_version := PRICE_VERSION; ur_usage := {| input_tokens := input; output_tokens := output; cached_tokens := 0 |};
  ur_latency_ms := 20; ur_estimated_cost_microeur := 5; ur_user_id := Some 1%N; ur_error_kind := None |}.
Definition mistral_small : usage_key := (1%N, "mistral", "mistral-small-latest").

(** Two calls on a day, and the clock a day later. *)
Definition called : World := (record_usage (P := test_platform) (call_of 3 4) (record_usage (P := test_platform) (call_of 10 5) sample_world).2).2.
Definition next_day : World := set_now (t0 + day) called.


(** Its history, with the two events. *)
Lemma next_day_history : exists all, history (P := test_platform) next_day all (day_of (w_now sample_world)) /\ length all = 2%nat.
Proof.
  eexists. split.
  - refine (history_time (P := test_platform) _ _ (day_of (w_now sample_world)) (t0 + day) _ _ _); [| vm_compute; discriminate | vm_compute; discriminate].
    refine (history_record (P := test_platform) _ _ _ _ _ _); [| reflexivity].
    refine (history_record (P := test_platform) _ _ _ _ _ _); [| reflexivity].
    apply (history_start (P := test_platform)); [exact sample_quiet | reflexivity | reflexivity].
  - vm_compute. reflexivity.
Qed.


(** [aggregate_day] is not replayable for a day the purge has begun to remove: the
    aggregate kept is replaced by the sums of what is left. *)
Definition rolled : World := (_run_daily_rollup (P := test_platform) next_day).2.
Definition two_calls : World :=
  (record_usage (P := test_platform) (call_of 3 4) (set_now (t0 + 60 * second)
    (record_usage (P := test_platform) (call_of 10 5) sample_world).2)).2.
Definition purged_in_part : World :=
  (purge_raw_events (P := test_platform) (set_now (t0 + 30 * second + 90 * day)
    (_run_daily_rollup (P := test_platform) (set_now (t0 + day) two_calls)).2)).2.
Lemma replay_after_purge_shrinks :
  (ud_input_tokens <$> daily (day_of t0) mistral_small (w_db purged_in_part AIUsageDailies)) = Some 13 /\
  (ud_input_tokens <$> daily (day_of t0) mistral_small
     (w_db (aggregate_day (P := test_platform) (day_of t0) purged_in_part).2 AIUsageDailies)) = Some 3.
Proof. split; vm_compute; reflexivity. Qed.
