(* ===== verification/Worker.v ===== *)
(** [app/worker.py]: the process that performs the tasks and holds the schedule. A
    message names a task and carries its arguments as text; an optional argument
    that is [None] is left out. *)
From S2P Require Import Prelude PyStr Hashing Base64 Json Config Tokens Models Permissions World Uuid Sample Orm Isolation AuthService Slug Deps Edge Journal Frame Http Directory AuthRouter Dates Iso Pricing Policy Quota Gateway Usage Providers Throttle Rely ConnectorTokens Webhooks Subscriptions ConnectorTasks Contract Automation OAuth.

(** ** Dicts, in the order of insertion *)

Section dict.
Context {A : Type}.
Implicit Types (m : list (string * A)).

(** [m.update(m')] *)
Definition dict_update m m' : list (string * A) := List.fold_left (fun m kv => dict_set kv.1 kv.2 m) m' m.

Lemma item_dict_set k k' (v : A) m : item_of k (dict_set k' v m) = if str_eqb k' k then Some v else item_of k m.
Proof.
  unfold item_of. induction m as [|[k0 v0] m IH]; simpl; [by destruct (str_eqb k' k) |].
  destruct (str_eqb k0 k') eqn:E; simpl; bool_hyps; [subst k0; by destruct (str_eqb k' k) |].
  destruct (str_eqb k0 k) eqn:E0; [| exact IH]. bool_hyps. subst k0. destruct (str_eqb k' k) eqn:E1; [| done]. bool_hyps. congruence.
Qed.
Lemma In_dict_set x k (v : A) m : In x (dict_set k v m) -> x = (k, v) \/ In x m.
Proof.
  induction m as [|[k0 v0] m IH]; simpl; [intros [<-|[]]; by left |].
  destruct (str_eqb k0 k); simpl; [intuition |]. intros [<-|H]; [by right; left |]. destruct (IH H); auto.
Qed.
(** The entries of a dict that is filled in a loop: the last one wins. *)
Lemma item_filled {B} (key : B -> string) (val : B -> A) l m k :
  item_of k (List.fold_left (fun m b => dict_set (key b) (val b) m) l m) =
  match first_where (fun b => str_eqb (key b) k) (rev l) with Some b => Some (val b) | None => item_of k m end.
Proof.
  revert m. induction l as [|b l IH] using rev_ind; intros m; [done |].
  rewrite fold_left_app, rev_app_distr. simpl. rewrite item_dict_set, IH. unfold first_where at 2. simpl.
  by destruct (str_eqb (key b) k).
Qed.
Lemma In_filled {B} (key : B -> string) (val : B -> A) l m x :
  In x (List.fold_left (fun m b => dict_set (key b) (val b) m) l m) -> In x m \/ exists b, In b l /\ x = (key b, val b).
Proof.
  revert m. induction l as [|b l IH] using rev_ind; intros m; [by left |]. rewrite fold_left_app. simpl.
  intros [->|H]%In_dict_set; [right; exists b; rewrite in_app_iff; simpl; tauto |].
  destruct (IH m H) as [H1|(b' & H1 & H2)]; [by left | right; exists b'; rewrite in_app_iff; tauto].
Qed.
End dict.

(** ** The schedule *)

Record Scheduled := { sc_task : string; sc_schedule : string; sc_args : list string }.

Definition core_schedule : list (string * Scheduled) :=
  [("auth-purge-expired", {| sc_task := "core.auth.purge_expired"; sc_schedule := "3600.0"; sc_args := [] |});
   ("connectors-refresh-tokens", {| sc_task := "connectors.refresh_expiring_tokens"; sc_schedule := "300.0"; sc_args := [] |});
   ("connectors-renew-subscriptions", {| sc_task := "connectors.renew_subscriptions"; sc_schedule := "3600.0"; sc_args := [] |});
   ("ai-daily-usage-rollup", {| sc_task := "core.ai.daily_usage_rollup"; sc_schedule := "86400.0"; sc_args := [] |})].

Section worker.
Context {P : Platform} {OT : Others} {HX : Httpx} {FL : Floats} {IF : IsoFormats}.
Context (MODULES : list ModuleManifest).

Definition scheduled (e : BeatEntry) : Scheduled :=
  {| sc_task := be_task e; sc_schedule := be_schedule e; sc_args := [(be_args e).1; (be_args e).2] |}.
Definition beat_schedule : list (string * Scheduled) :=
  dict_update core_schedule (List.map (fun kv => (kv.1, scheduled kv.2)) (beat_entries MODULES)).

(** What [import app.worker] leaves: the registries of the modules and the schedule,
    or the error of a registry that is not valid, and no worker. *)
Record Worker := { wk_grants : Grants; wk_handlers : Handlers (ConnectorEvent -> M unit); wk_schedule : list (string * Scheduled) }.
Definition start_worker (r : Grants * Handlers (ConnectorEvent -> M unit)) : result Worker :=
  match register_runtime MODULES r with
  | (Ok _, r') => Ok {| wk_grants := r'.1; wk_handlers := r'.2; wk_schedule := beat_schedule |}
  | (Raise e, _) => Raise e
  end.

(** ** The tasks *)

Definition ping : string := "pong".

(** The task a message names, applied to its arguments; the result is dropped. *)
Definition celery_task (wk : Worker) (task : string) (args : list string) : option (M unit) :=
  if str_eqb task "core.ping" then match args with [] => Some (let* _ := ret ping in ret tt) | _ => None end
  else if str_eqb task "core.auth.purge_expired" then
    match args with [] => Some (let* _ := purge_expired_auth_rows in ret tt) | _ => None end
  else if str_eqb task "core.ai.daily_usage_rollup" then
    match args with [] => Some (let* _ := _run_daily_rollup in ret tt) | _ => None end
  else if str_eqb task "automation.periodic_fanout" then
    match args with [m; t] => Some (periodic_fanout_task MODULES m t) | _ => None end
  else if str_eqb task "automation.periodic_unit" then
    match args with [m; t; id] => Some (let* _ := periodic_unit_task MODULES m t id in ret tt) | _ => None end
  else perform (wk_handlers wk) task args.
Definition deliver (wk : Worker) (e : effect) : option (M unit) :=
  match e with TaskPublished task args => celery_task wk task args | _ => None end.
Definition tick (wk : Worker) (s : Scheduled) : option (M unit) := celery_task wk (sc_task s) (sc_args s).
End worker.

(** ** What the schedule holds *)

Section schedule.
Context {P : Platform} {OT : Others} {HX : Httpx} {FL : Floats} {IF : IsoFormats}.
Context (MODULES : list ModuleManifest).
Implicit Types (w : World) (m : ModuleManifest).

Definition module_tasks : list (ModuleManifest * PeriodicTaskSpec) :=
  flat_map (fun m => List.map (fun task => (m, task)) (mm_periodic_tasks m)) MODULES.
Definition task_key (mt : ModuleManifest * PeriodicTaskSpec) : string := "module-" +:+ pt_name mt.2.
Definition task_entry (mt : ModuleManifest * PeriodicTaskSpec) : BeatEntry :=
  {| be_task := "automation.periodic_fanout"; be_schedule := pt_schedule_seconds mt.2; be_args := (mm_name mt.1, pt_name mt.2) |}.

Lemma beat_entries_filled : beat_entries MODULES = List.fold_left (fun d mt => dict_set (task_key mt) (task_entry mt) d) module_tasks [].
Proof. done. Qed.
Lemma In_module_tasks m t : In (m, t) module_tasks <-> In m MODULES /\ In t (mm_periodic_tasks m).
Proof.
  unfold module_tasks. rewrite in_flat_map. split.
  - intros (m' & Hm & Ht). apply List.in_map_iff in Ht as (t' & [= -> ->] & Ht). by split.
  - intros [Hm Ht]. exists m. split; [done |]. by apply (List.in_map (fun t => (m, t))).
Qed.

Lemma In_beat k e : In (k, e) (beat_entries MODULES) -> exists mt, In mt module_tasks /\ k = task_key mt /\ e = task_entry mt.
Proof. rewrite beat_entries_filled. intros [[]|(mt & H & [= -> ->])]%In_filled. by exists mt. Qed.

(** Every entry of the schedule: one of the core, or a task of a module. *)
Lemma In_schedule k s : In (k, s) (beat_schedule MODULES) ->
  In (k, s) core_schedule \/ exists mt, In mt module_tasks /\ k = task_key mt /\ s = scheduled (task_entry mt).
Proof.
  unfold beat_schedule, dict_update. intros [H|(kv & Hkv & [= -> ->])]%In_filled; [by left |]. right.
  apply List.in_map_iff in Hkv as ([k e] & <- & H). apply In_beat in H as (mt & H & -> & ->). by exists mt.
Qed.

(** Two tasks of a valid registry with one key are tasks of one module, of one name. *)
Lemma task_key_module m t m' t' : valid_registry MODULES -> In (m, t) module_tasks -> In (m', t') module_tasks ->
  task_key (m, t) = task_key (m', t') -> m = m' /\ pt_name t = pt_name t'.
Proof.
  intros [Hn Hv] [Hm Ht]%In_module_tasks [Hm' Ht']%In_module_tasks Hk.
  assert (E : pt_name t = pt_name t') by (unfold task_key in Hk; cbn in Hk; congruence). split; [| exact E].
  destruct (Hv m Hm) as (N1 & _ & T1 & _), (Hv m' Hm') as (N2 & _ & T2 & _).
  apply (unique_by_eq mm_name MODULES); [exact Hn | done | done |].
  apply (namespace_unique _ _ (pt_name t) N1 N2); [by apply T1 | rewrite E; by apply T2].
Qed.

Lemma item_of_In {A} k (l : list (string * A)) v : item_of k l = Some v -> In (k, v) l.
Proof.
  unfold item_of. destruct (List.find _ l) as [[k' v']|] eqn:E; [| done]. intros [= ->].
  apply List.find_some in E as [H E]. simpl in E. bool_hyps. by subst.
Qed.
Lemma schedule_of_task m t : valid_registry MODULES -> In (m, t) module_tasks ->
  exists t', In t' (mm_periodic_tasks m) /\ pt_name t' = pt_name t /\
    item_of (task_key (m, t)) (beat_schedule MODULES) = Some (scheduled (task_entry (m, t'))).
Proof.
  intros Hv Hmt. set (k := task_key (m, t)).
  assert (Hb : exists e, In (k, e) (beat_entries MODULES)).
  { destruct (item_of k (beat_entries MODULES)) as [e|] eqn:E; [exists e; by apply item_of_In |]. exfalso.
    rewrite beat_entries_filled, item_filled in E. destruct (first_where _ _) eqn:F; [done |].
    rewrite first_where_None in F. specialize (F (m, t) (proj1 (in_rev _ _) Hmt)). cbn beta in F. by rewrite str_eqb_refl in F. }
  destruct Hb as [e He]. unfold beat_schedule, dict_update. rewrite item_filled. destruct (first_where _ _) as [kv|] eqn:F.
  - apply first_where_Some in F as [Hkv Hk]. bool_hyps. apply in_rev in Hkv. apply List.in_map_iff in Hkv as ([k' e'] & <- & Hin).
    cbn [fst snd] in Hk |- *. apply In_beat in Hin as ([m' t'] & Hin & -> & ->).
    destruct (task_key_module m t m' t' Hv Hmt Hin (eq_sym Hk)) as [<- Ht]. exists t'. split; [by apply (In_module_tasks m t') |]. by split.
  - exfalso. rewrite first_where_None in F. specialize (F (k, scheduled e)). cbn [fst] in F. rewrite str_eqb_refl in F.
    enough (true = false) by done. apply F. apply in_rev. rewrite rev_involutive. apply List.in_map_iff. by exists (k, e).
Qed.
Lemma find_task_In m t : valid_registry MODULES -> In (m, t) module_tasks ->
  exists task, _find_task MODULES (mm_name m) (pt_name t) = Some task /\ In task (mm_periodic_tasks m) /\ pt_name task = pt_name t.
Proof.
  intros [Hn _] [Hm Ht]%In_module_tasks. unfold _find_task, get_module.
  destruct (List.find _ MODULES) as [m'|] eqn:E.
  - apply List.find_some in E as [Hm' E]. bool_hyps. assert (m' = m) as -> by (by apply (unique_by_eq mm_name MODULES)).
    destruct (List.find _ (mm_periodic_tasks m)) as [task|] eqn:F.
    + apply List.find_some in F as [Hin F]. bool_hyps. by exists task.
    + exfalso. pose proof (List.find_none _ _ F t Ht) as H. simpl in H. by rewrite str_eqb_refl in H.
  - exfalso. pose proof (List.find_none _ _ E m Hm) as H. simpl in H. by rewrite str_eqb_refl in H.
Qed.
End schedule.

(** ** From the schedule to the function of a module *)

Section reaches.
Context {P : Platform} {OT : Others} {HX : Httpx} {FL : Floats} {IF : IsoFormats}.
Context (MODULES : list ModuleManifest).
Implicit Types (w : World) (m : ModuleManifest).

Lemma start_worker_ok r wk : start_worker MODULES r = Ok wk -> valid_registry MODULES /\ wk_schedule wk = beat_schedule MODULES.
Proof.
  unfold start_worker, register_runtime. pose proof (validate_from_spec [] MODULES) as Hv. unfold validate_registry.
  destruct (validate_from [] MODULES) as [[]|e]; [| done]. destruct Hv as [Hv _].
  destruct (register_modules _ _) as [[[]|e] r1]; [| done]. by intros [= <-].
Qed.

(** What the message of a unit task does, for a task of the registry. *)
Definition runs_function (task : PeriodicTaskSpec) (name : string) (tid : N) w (r : result unit) w' : Prop :=
  let key := lock_key (_lock_name name (pt_name task) tid) in
  r = Ok tt /\ w_tenant w' = w_tenant w /\
  match first_where (fun t => (tn_id t =? tid)%N) (w_db w Tenants) with
  | Some tenant =>
      if is_active tenant && is_none (kv_look (w_now w) key (w_kv w)) then
        exists token w1 rf w2,
          w_tenant w1 = Some (_context_for tenant) /\ w_db w1 = w_db w /\
          kv_look (w_now w) key (w_kv w1) = Some (KStr token, Some (w_now w + LOCK_TTL_SECONDS * second)) /\
          pt_fn task tid w1 = (rf, w2) /\ w_db w' = w_db w2 /\ w_out w' = w_out w2
      else w_db w' = w_db w /\ w_out w' = w_out w /\ w_kv w' = w_kv w
  | None => w_db w' = w_db w /\ w_out w' = w_out w /\ w_kv w' = w_kv w
  end.

Lemma unit_message_run wk name task tid w : (tid < 2 ^ 128)%N ->
  _find_task MODULES name (pt_name task) = Some task ->
  exists u, deliver MODULES wk (unit_task name (pt_name task) tid) = Some u /\ let '(r, w') := u w in runs_function task name tid w r w'.
Proof.
  intros Hid Hf. eexists. split; [reflexivity |]. cbn beta. unfold periodic_unit_task, uuid_arg. unfold bind at 1.
  rewrite uuid_roundtrip, bind_ok by done.
  pose proof (unit_runs_under_lock MODULES name (pt_name task) tid w) as H. rewrite Hf in H.
  destruct (run_periodic_unit MODULES name (pt_name task) tid w) as [r w']. cbn zeta in H. destruct H as [Ht H].
  unfold runs_function. cbn zeta. match type of H with match ?x with _ => _ end => destruct x as [tenant|] end.
  2: { destruct H as (-> & H). by repeat split; try apply H. }
  destruct (is_active tenant && _).
  - destruct H as (token & w1 & rf & w2 & H1 & H2 & _ & _ & H3 & H4 & -> & H5 & _ & H6 & _).
    split; [done |]. split; [exact Ht |]. exists token, w1, rf, w2. by repeat (split; [assumption |]).
  - destruct H as (-> & H). by repeat split; try apply H.
Qed.

End reaches.

(** ** Running it *)

Definition toy_tick : PeriodicTaskSpec (VK := simple_valkey) := {| pt_name := "toy.tick"; pt_schedule_seconds := "60.0"; pt_fn := fun _ => raise KeyError |}.
Lemma toy_worker_starts : exists wk, start_worker (P := test_platform) [toy] (initial_grants, []) = Ok wk.
Proof.
  destruct (start_worker (P := test_platform) [toy] (initial_grants, [])) as [wk|e] eqn:E; [by exists wk |]. exfalso.
  apply (f_equal (fun r => match r with Ok _ => true | Raise _ => false end)) in E. vm_compute in E. discriminate E.
Qed.

