(* ===== verification/Startup.v ===== *)
(** How the processes start: [configure_logging] of [core/logging.py], what importing
    [app/worker.py] does, and [create_app] of [app/main.py], which imports the worker
    before it mounts the modules, so that the API registers them twice. *)
From S2P Require Import Prelude PyStr Hashing Base64 Json Config Tokens Models Permissions World Uuid Sample Orm Isolation AuthService Slug Deps Edge Journal Frame Http Directory AuthRouter Dates Iso Policy Providers Throttle ConnectorTokens Webhooks ConnectorTasks Contract Automation Worker.

(** [logging.getLevelNamesMapping()] *)
Definition level_names : list (string * Z) :=
  [("CRITICAL", 50); ("FATAL", 50); ("ERROR", 40); ("WARN", 30); ("WARNING", 30); ("INFO", 20); ("DEBUG", 10); ("NOTSET", 0)].
(** [str.upper], as far as an ASCII name can come of it. *)
Definition upper_char (c : ascii) : ascii := if is_lower_ascii c then ascii_of_N (code c - 32) else c.
(** The level under which nothing is logged. *)
Definition configure_logging (log_level : string) : result Z :=
  match item_of (map_str upper_char log_level) level_names with Some level => Ok level | None => Raise KeyError end.

Section startup.
Context {P : Platform} {OT : Others} {HX : Httpx} {FL : Floats} {IF : IsoFormats}.
Context (MODULES : list ModuleManifest).
Abbreviation registries := (Grants * Handlers (ConnectorEvent -> M unit))%type.

(** [import app.worker] *)
Definition import_worker (log_level : string) (r : registries) : result Worker :=
  match configure_logging log_level with
  | Raise e => Raise e
  | Ok _ => start_worker MODULES r
  end.
(** [create_app()]: the modules mounted, and the registries of the process. *)
Definition start_api (log_level : string) (r : registries) : result (list (string * string * list Route) * registries) :=
  match import_worker log_level r with
  | Raise e => Raise e
  | Ok wk =>
      match configure_logging log_level with
      | Raise e => Raise e
      | Ok _ => match mount_modules MODULES (wk_grants wk, wk_handlers wk) with
                | (Ok mounted, r') => Ok (mounted, r')
                | (Raise e, _) => Raise e
                end
      end
  end.

(** Registering adds to the grants of known roles. *)
Lemma grant_roles_reset name roles g r g' : grant_roles name roles g = (r, g') -> (fun _ => (∅ : gset string)) <$> g' = (fun _ => ∅) <$> g.
Proof.
  revert g. induction roles as [|role roles IH]; intros g; cbn [grant_roles]; [by intros [= _ <-] |].
  destruct (g !! role) as [s|] eqn:E; [| by intros [= _ <-]]. intros H. rewrite (IH _ H), fmap_insert. apply insert_id. by rewrite lookup_fmap, E.
Qed.
Lemma register_permission_reset name roles g r g' : register_module_permission name roles g = (r, g') ->
  reset_module_permissions g' = reset_module_permissions g.
Proof.
  unfold register_module_permission. destruct (negb _); [by intros [= _ <-] |]. destruct (grant_roles _ _ _) as [r0 rg] eqn:E. intros [= _ <-].
  unfold reset_module_permissions. cbn [module_role_grants]. by rewrite (grant_roles_reset _ _ _ _ _ E).
Qed.
Lemma register_permissions_reset l g r g' : register_permissions l g = (r, g') -> reset_module_permissions g' = reset_module_permissions g.
Proof.
  revert g. induction l as [|q l IH]; intros g; cbn [register_permissions]; [by intros [= _ <-] |].
  destruct (register_module_permission _ _ g) as [[[]|e] g1] eqn:E; [| by intros [= _ <-]; eapply register_permission_reset].
  intros H. rewrite (IH _ H). by eapply register_permission_reset.
Qed.
Lemma register_modules_reset l r0 r r' : register_modules l r0 = (r, r') -> reset_module_permissions r'.1 = reset_module_permissions r0.1.
Proof.
  revert r0. induction l as [|m l IH]; intros r0; cbn [register_modules]; [by intros [= _ <-] |].
  destruct (register_permissions _ r0.1) as [[[]|e] g] eqn:E; [| intros [= _ <-]; by eapply register_permissions_reset].
  intros H. rewrite (IH _ H). by eapply register_permissions_reset.
Qed.
Lemma reset_twice g : reset_module_permissions (reset_module_permissions g) = reset_module_permissions g.
Proof. unfold reset_module_permissions. cbn [module_role_grants]. f_equal. by rewrite <- map_fmap_compose. Qed.

(** [register_runtime] is idempotent, as its docstring says. *)
Lemma register_runtime_again r r' : register_runtime MODULES r = (Ok tt, r') -> register_runtime MODULES r' = (Ok tt, r').
Proof.
  unfold register_runtime. destruct (validate_registry MODULES); [| done]. intros H. pose proof (register_modules_reset _ _ _ _ H) as E.
  cbn [fst] in E. rewrite E, reset_twice. exact H.
Qed.

(** The API starts exactly when a worker does, on the same modules and settings, and
    ends up with the very permissions and handlers of the worker: registering twice
    is registering once. *)
Theorem api_and_worker_agree log_level r : start_api log_level r =
  match import_worker log_level r with
  | Ok wk => Ok (List.map (fun m => ("/api/v1/modules/" +:+ mm_name m, mm_name m, mm_router m)) MODULES, (wk_grants wk, wk_handlers wk))
  | Raise e => Raise e
  end.
Proof.
  unfold start_api, import_worker. destruct (configure_logging log_level); [| done]. unfold start_worker, mount_modules.
  destruct (register_runtime MODULES r) as [[[]|e] r'] eqn:E; [| done]. cbn [wk_grants wk_handlers]. rewrite <- surjective_pairing.
  by rewrite (register_runtime_again _ _ E).
Qed.
End startup.

Example levels : configure_logging "info" = Ok 20 /\ configure_logging "Warn" = Ok 30 /\ configure_logging "verbose" = Raise KeyError.
Proof. by vm_compute. Qed.
