(* ===== verification/Application.v ===== *)
(** [app/main.py], [app/core/logging.py] and [app/health/router.py]: the API as it
    is put together, every operation behind the middlewares, and what guards each.

    An operation is named by its [operation_id] and carries the parameters FastAPI
    has read from the path, the query and the body; it gets the requests whose
    method and path are its own. The documentation routes of FastAPI are left out. *)
From S2P Require Import Prelude PyStr Hashing Base64 Json Config Tokens Models Permissions World Uuid Sample Orm Isolation AuthService Slug Deps Edge Journal Frame Http Directory AuthRouter Dates Iso Pricing Policy Quota Gateway OAuth Providers Throttle Rely ConnectorTokens JournalRouter DirectoryRouter ConnectorRouter Webhooks Subscriptions Stable Mail ConnectorTasks Contract Automation SampleDigest.

(** ** The operations *)

Inductive operation :=
  | getHealth
  | login (email password : string)
  | loginTotp (challenge_token code : string)
  | logout | getMe | setupTotp
  | activateTotp (code : string)
  | disableTotp (password : string)
  | acceptInvitation (token : string) (password display_name : option string)
  | oauthStart (provider : OAuthProvider)
  | oauthCallback (provider : OAuthProvider) (code state : string)
  | listMembers
  | changeMemberRole (user_id : N) (role : string)
  | removeMember (user_id : N)
  | listInvitations
  | createInvitation (email role : string)
  | revokeInvitation (invitation_id : N)
  | listTeams
  | createTeam (name : string) (description : option string)
  | deleteTeam (team_id : N)
  | listTeamMembers (team_id : N)
  | addTeamMember (team_id user_id : N)
  | removeTeamMember (team_id user_id : N)
  | listAuditEvents (limit : Z) (cursor : option string) (filters : Filters)
  | listConnectors
  | startConnector (provider : ConnectorProvider) (asked : list string) (kind : ConnectionKind)
  | reconsentConnector (connection_id : N)
  | revokeConnector (connection_id : N)
  | aiChat (payload : ChatIn)
  | connectorOauthCallback (provider : ConnectorProvider) (state : string) (code error : option string)
  | connectorWebhook (provider : ConnectorProvider) (route_key : string) (body : WebhookRequest)
  | sampleDigestListDigests
  | sampleDigestRun.

(** Its [operation_id], its method and its path. *)
Definition declared (op : operation) : string * string * string :=
  match op with
  | getHealth => ("getHealth", "GET", "/api/v1/health")
  | login _ _ => ("login", "POST", "/api/v1/auth/login")
  | loginTotp _ _ => ("loginTotp", "POST", "/api/v1/auth/login/totp")
  | logout => ("logout", "POST", "/api/v1/auth/logout")
  | getMe => ("getMe", "GET", "/api/v1/auth/me")
  | setupTotp => ("setupTotp", "POST", "/api/v1/auth/totp/setup")
  | activateTotp _ => ("activateTotp", "POST", "/api/v1/auth/totp/activate")
  | disableTotp _ => ("disableTotp", "POST", "/api/v1/auth/totp/disable")
  | acceptInvitation _ _ _ => ("acceptInvitation", "POST", "/api/v1/auth/invitations/accept")
  | oauthStart _ => ("oauthStart", "GET", "/api/v1/auth/oauth/{provider}/start")
  | oauthCallback _ _ _ => ("oauthCallback", "GET", "/api/v1/auth/oauth/{provider}/callback")
  | listMembers => ("listMembers", "GET", "/api/v1/directory/members")
  | changeMemberRole _ _ => ("changeMemberRole", "PATCH", "/api/v1/directory/members/{user_id}")
  | removeMember _ => ("removeMember", "DELETE", "/api/v1/directory/members/{user_id}")
  | listInvitations => ("listInvitations", "GET", "/api/v1/directory/invitations")
  | createInvitation _ _ => ("createInvitation", "POST", "/api/v1/directory/invitations")
  | revokeInvitation _ => ("revokeInvitation", "DELETE", "/api/v1/directory/invitations/{invitation_id}")
  | listTeams => ("listTeams", "GET", "/api/v1/directory/teams")
  | createTeam _ _ => ("createTeam", "POST", "/api/v1/directory/teams")
  | deleteTeam _ => ("deleteTeam", "DELETE", "/api/v1/directory/teams/{team_id}")
  | listTeamMembers _ => ("listTeamMembers", "GET", "/api/v1/directory/teams/{team_id}/members")
  | addTeamMember _ _ => ("addTeamMember", "POST", "/api/v1/directory/teams/{team_id}/members")
  | removeTeamMember _ _ => ("removeTeamMember", "DELETE", "/api/v1/directory/teams/{team_id}/members/{user_id}")
  | listAuditEvents _ _ _ => ("listAuditEvents", "GET", "/api/v1/audit/events")
  | listConnectors => ("listConnectors", "GET", "/api/v1/connectors")
  | startConnector _ _ _ => ("startConnector", "GET", "/api/v1/connectors/{provider}/start")
  | reconsentConnector _ => ("reconsentConnector", "POST", "/api/v1/connectors/{connection_id}/reconsent")
  | revokeConnector _ => ("revokeConnector", "DELETE", "/api/v1/connectors/{connection_id}")
  | aiChat _ => ("aiChat", "POST", "/api/v1/ai/chat")
  | connectorOauthCallback _ _ _ _ => ("connectorOauthCallback", "GET", "/api/v1/connectors/{provider}/callback")
  | connectorWebhook _ _ _ => ("connectorWebhook", "POST", "/api/v1/webhooks/{provider}/{route_key}")
  | sampleDigestListDigests => ("sampleDigestListDigests", "GET", "/api/v1/modules/sample_digest/digests")
  | sampleDigestRun => ("sampleDigestRun", "POST", "/api/v1/modules/sample_digest/run")
  end.
Definition operation_id (op : operation) : string := (declared op).1.1.
Definition method (op : operation) : string := (declared op).1.2.

(** The closed list of the architecture: health, login, OAuth, acceptance of an
    invitation, callbacks and webhooks of the connectors. *)
Definition anonymous_operations : list string :=
  ["getHealth"; "login"; "loginTotp"; "oauthStart"; "oauthCallback"; "acceptInvitation"; "connectorOauthCallback"; "connectorWebhook"].

(** What stands before the handler. *)
Inductive guard := Anonymous | Authenticated | Permission (permission : string) | OfModule (module_name permission : string).
Definition guard_of (op : operation) : guard :=
  match op with
  | getHealth | login _ _ | loginTotp _ _ | acceptInvitation _ _ _ | oauthStart _ | oauthCallback _ _ _
  | connectorOauthCallback _ _ _ _ | connectorWebhook _ _ _ => Anonymous
  | logout | getMe | setupTotp | activateTotp _ | disableTotp _ => Authenticated
  | listMembers | listInvitations => Permission "core.members.read"
  | changeMemberRole _ _ | removeMember _ | createInvitation _ _ | revokeInvitation _ => Permission "core.members.manage"
  | listTeams | listTeamMembers _ => Permission "core.teams.read"
  | createTeam _ _ | deleteTeam _ | addTeamMember _ _ | removeTeamMember _ _ => Permission "core.teams.manage"
  | listAuditEvents _ _ _ => Permission "core.audit.read"
  | listConnectors => Permission "core.connectors.read"
  | startConnector _ _ _ | reconsentConnector _ | revokeConnector _ => Permission "core.connectors.manage"
  | aiChat _ => Permission "core.ai.use"
  | sampleDigestListDigests => OfModule SampleDigest.MODULE_NAME PERM_READ
  | sampleDigestRun => OfModule SampleDigest.MODULE_NAME PERM_MANAGE
  end.

Record HealthResponse := { hr_status : string; hr_version : string; hr_env : AppEnv }.

Section application.
Context {P : Platform} {HX : Httpx} {FL : Floats} {IF : IsoFormats} {JW : Jose} {LLM : LiteLLM}.

(** What a caller does with the value is its own affair. *)
Definition ignore {A} (m : M A) : M unit := let* _ := m in ret tt.

Definition get_health : HealthResponse := {| hr_status := "ok"; hr_version := app_version; hr_env := app_env |}.

Definition serve_operation (op : operation) (rq : Request) : M unit :=
  match op with
  | getHealth => ignore (ret get_health)
  | login e p => ignore (AuthRouter.login rq e p)
  | loginTotp t c => ignore (login_totp rq t c)
  | logout => ignore (AuthRouter.logout rq)
  | getMe => ignore (get_me rq)
  | setupTotp => ignore (totp_setup rq)
  | activateTotp c => ignore (totp_activate rq c)
  | disableTotp p => ignore (totp_disable rq p)
  | acceptInvitation t p d => ignore (invitations_accept rq t p d)
  | oauthStart p => ignore (oauth_start p rq)
  | oauthCallback p c s => ignore (oauth_callback p c s)
  | listMembers => ignore (members_list rq)
  | changeMemberRole u r => ignore (member_change_role u r rq)
  | removeMember u => member_remove u rq
  | listInvitations => ignore (invitations_list rq)
  | createInvitation e r => ignore (invitation_create e r rq)
  | revokeInvitation i => invitation_revoke i rq
  | listTeams => ignore (teams_list rq)
  | createTeam n d => ignore (team_create n d rq)
  | deleteTeam t => team_delete t rq
  | listTeamMembers t => ignore (team_members_list t rq)
  | addTeamMember t u => team_member_add t u rq
  | removeTeamMember t u => team_member_remove t u rq
  | listAuditEvents l c f => ignore (audit_events_list l c f rq)
  | listConnectors => ignore (connectors_list rq)
  | startConnector p a k => ignore (connector_start p a k rq)
  | reconsentConnector i => ignore (connector_reconsent i rq)
  | revokeConnector i => connector_revoke i rq
  | aiChat p => ignore (ai_chat p rq)
  | connectorOauthCallback p s c e => ignore (connector_oauth_callback p s c e)
  | connectorWebhook p k b => ignore (receive_webhook p k b)
  | sampleDigestListDigests => ignore (list_digests rq)
  | sampleDigestRun => run_now rq
  end.

(** ** The middlewares *)

(** The response: the result of the operation, and [X-Request-ID]. An exception
    other than [HTTPException] goes through, and its response has no such header. *)
Record Answer := { an_result : result unit; an_request_id : option string }.

Definition RequestIdMiddleware (given : option string) (call_next : M unit) : M Answer :=
  let* request_id := if str_eqb (ostr_or given "") "" then (let* u := uuid4 in ret (uuid_hex u)) else ret (ostr_or given "") in
  fun w => let '(r, w') := call_next w in
    (Ok {| an_result := r;
           an_request_id := match r with Ok _ | Raise (HTTPException _ _) => Some request_id | Raise _ => None end |}, w').

(** [add_middleware] puts the last one added in front. *)
Definition create_app (op : operation) (given : option string) (rq : Request) : M Answer :=
  Csrf.dispatch rq (RequestIdMiddleware given (serve_operation op rq)).
End application.

(** ** The guards *)

Section guards.
Context {P : Platform} {HX : Httpx} {FL : Floats} {IF : IsoFormats} {JW : Jose} {LLM : LiteLLM}.
Implicit Types (w : World) (g : guard).

(** The decision of a guard, as a function of what is committed. *)
Definition decision g w (rq : Request) : result unit :=
  match g with
  | Anonymous => Ok tt
  | Authenticated => if is_some (session_user (w_db w) (w_now w) rq) then Ok tt else Raise (HTTPException 401 "Authentification requise")
  | Permission permission => result_map (fun _ => tt) (access (w_db w) (w_now w) (w_grants w) permission rq)
  | OfModule module_name permission =>
      let! (ctx, _, _) := resolution (w_db w) (w_now w) rq in
      if believed w (tc_tenant_id ctx) module_name then
        if role_has_permission (w_grants w) (default EmptyString (tc_role ctx)) permission then Ok tt
        else Raise (HTTPException 403 "Permission refusée")
      else Raise (module_closed module_name)
  end.

(** Nothing has happened but the caller's visit. *)
Definition only_visited w (rq : Request) w' : Prop :=
  w_db w' = w_db (visited w rq) /\ w_kv w' = w_kv w /\ w_out w' = w_out w /\ w_grants w' = w_grants w.
Definition guarded g (rq : Request) {A} (m : M A) : Prop :=
  forall w e, quiet w -> decision g w rq = Raise e -> exists w', m w = (Raise e, w') /\ only_visited w rq w'.

Lemma only_visited_same w rq w' : same_world w' (visited w rq) -> only_visited w rq w'.
Proof.
  intros H. destruct (visited_fields w rq) as (_ & _ & Vg & _ & Vk & Vo & _). unfold only_visited.
  by rewrite (sw_db _ _ H), (sw_kv _ _ H), (sw_out _ _ H), (sw_grants _ _ H), Vg, Vk, Vo.
Qed.

Lemma guarded_ignore {A} g rq (m : M A) : guarded g rq m -> guarded g rq (ignore m).
Proof. intros H w e Hq E. destruct (H w e Hq E) as (w' & E' & Hv). exists w'. unfold ignore, bind. by rewrite E'. Qed.

Lemma guarded_auth_route {A} rq (h : CurrentAuth -> M A) : guarded Authenticated rq (auth_route rq h).
Proof.
  intros w e [Hp Ht]. unfold decision. destruct (session_user (w_db w) (w_now w) rq) as [[a u]|] eqn:Es; [done |].
  intros [= <-]. unfold auth_route, request, with_session, finally. set (wc := closed Ctl w).
  assert (Hwc : same_world wc w) by (by apply same_world_closed).
  destruct (current_auth_run wc rq) as (w' & E & Hw'); [intros s; by rewrite (sw_pend _ _ Hwc) |].
  change (w_db wc) with (w_db w) in E. change (w_now wc) with (w_now w) in E. rewrite Es in E.
  unfold bind. rewrite E. eexists. split; [reflexivity |]. apply only_visited_same.
  assert (Hv : visited wc rq = wc) by (unfold visited; change (w_db wc) with (w_db w); change (w_now wc) with (w_now w); by rewrite Es).
  assert (Hv' : visited w rq = w) by (unfold visited; by rewrite Es). rewrite Hv in Hw'. rewrite Hv'.
  apply same_world_closed; [| apply Hp]. exact (same_world_trans _ _ _ Hw' Hwc).
Qed.

Lemma guarded_permission {A} permission rq (k : option CurrentAuth -> TenantContext -> M A) :
  guarded (Permission permission) rq (request (let* auth := current_auth_or_none rq in require_permission permission rq auth (k auth))).
Proof.
  intros w e Hq. unfold decision. rewrite access_resolution. unfold require_permission.
  destruct (visited_fields w rq) as (Vp & _ & Vg & _).
  pose proof (resolved_run rq (fun auth ctx w =>
    match tc_role ctx with
    | Some role => if role_has_permission (w_grants w) role permission then k auth ctx w
                   else (Raise (HTTPException 403 "Permission refusée"), w)
    | None => (Raise (HTTPException 403 "Permission refusée"), w)
    end) w Hq) as H. cbn zeta in H.
  destruct (resolution (w_db w) (w_now w) rq) as [[[ctx a] u]|e'] eqn:Er; cbn [result_bind result_map].
  2: { intros [= <-]. destruct H as (w' & E & Hw'). exists w'. split; [exact E | by apply only_visited_same]. }
  destruct H as (w1 & Hw1 & E). assert (Hg : w_grants w1 = w_grants w) by (rewrite (sw_grants _ _ Hw1); exact Vg).
  destruct (resolution_role _ _ _ _ _ _ Er) as (role & Hr). rewrite Hr in E |- *. rewrite Hg in E.
  change (default EmptyString (Some role)) with role. destruct (role_has_permission (w_grants w) role permission); [done |].
  intros [= <-]. eexists. split; [exact E |]. apply only_visited_same.
  assert (Hc : same_world (closed Ctl w1) (set_tenant (Some ctx) (visited w rq))) by (apply same_world_closed; [done | simpl; by rewrite Vp, (proj1 Hq)]).
  destruct Hc. constructor; simpl in *; try done. by rewrite (proj1 (proj2 (visited_fields w rq))), (proj2 Hq).
Qed.
Lemma guarded_tenant_route {A} permission rq (h : TenantContext -> CurrentAuth -> M A) : guarded (Permission permission) rq (tenant_route permission rq h).
Proof. apply guarded_permission. Qed.
Lemma guarded_permission_route {A} permission rq (h : TenantContext -> CurrentAuth -> M A) :
  guarded (Permission permission) rq (permission_route permission rq h).
Proof. apply guarded_permission. Qed.

Lemma guarded_module_route {A} name permission rq (h : TenantContext -> M A) :
  guarded (OfModule name permission) rq (module_route name permission rq h).
Proof.
  intros w e Hq. unfold decision. pose proof (module_route_run name permission rq h w Hq) as H. cbn zeta in H.
  destruct (resolution (w_db w) (w_now w) rq) as [[[ctx a] u]|e']; cbn [result_bind].
  2: { intros [= <-]. destruct H as (w' & E & Hw'). exists w'. split; [exact E | by apply only_visited_same]. }
  destruct H as (cache & w1 & Hw1 & E).
  assert (Hv : only_visited w rq (closed Ctl (set_tenant None w1))).
  { destruct (visited_fields w rq) as (_ & _ & Vg & _ & Vk & Vo & _). unfold only_visited. simpl.
    by rewrite (sw_db _ _ Hw1), (sw_kv _ _ Hw1), (sw_out _ _ Hw1), (sw_grants _ _ Hw1). }
  destruct (believed w _ name); [destruct (role_has_permission _ _ _); [done |] |]; intros [= <-]; eexists; by split.
Qed.
End guards.

(** The route an operation is, whatever its name. *)
Ltac head_of t := lazymatch t with ?f _ => head_of f | _ => t end.
Ltac guard_route := try simple apply guarded_ignore;
  lazymatch goal with |- guarded _ _ ?m => let h := head_of m in unfold h end;
  first [simple apply guarded_auth_route | simple apply guarded_tenant_route | simple apply guarded_permission_route
        | simple apply guarded_module_route | refine (guarded_permission _ _ _)].

Section properties.
Context {P : Platform} {HX : Httpx} {FL : Floats} {IF : IsoFormats} {JW : Jose} {LLM : LiteLLM}.
Implicit Types (w : World) (op : operation).

Lemma serve_guarded op rq : guard_of op = Anonymous \/ guarded (guard_of op) rq (serve_operation op rq).
Proof. destruct op; try (by left); right; cbn [guard_of serve_operation]; guard_route. Qed.

(** A refusal is one of the three statuses. *)
Lemma decision_status g w rq e : decision g w rq = Raise e ->
  exists status detail, e = HTTPException status detail /\ (status = 401 \/ status = 403 \/ status = 404).
Proof.
  assert (Hr : forall e', resolution (w_db w) (w_now w) rq = Raise e' ->
    exists status detail, e' = HTTPException status detail /\ (status = 401 \/ status = 403 \/ status = 404)).
  { intros e'. unfold resolution, operational_tenant. destruct (extract_slug _) as [slug|]; [| intros [= <-]; by eauto 6].
    case_query as [t|] Et; [| intros [= <-]; by eauto 6]. destruct (is_some _); [intros [= <-]; by eauto 6 |].
    destruct (bool_decide _); [intros [= <-]; by eauto 6 |]. cbn [result_bind].
    destruct (session_user _ _ _) as [[a u]|]; [| intros [= <-]; by eauto 6]. case_query as [m|] Em; [done |]. intros [= <-]. by eauto 6. }
  destruct g as [| |permission|name permission]; unfold decision; [done | | |].
  - destruct (is_some _); [done |]. intros [= <-]. by eauto 6.
  - rewrite access_resolution. destruct (resolution _ _ _) as [[[ctx a] u]|e']; cbn [result_bind result_map]; [| intros [= <-]; by apply Hr].
    destruct (role_has_permission _ _ _); [done |]. intros [= <-]. by eauto 6.
  - destruct (resolution _ _ _) as [[[ctx a] u]|e']; cbn [result_bind]; [| intros [= <-]; by apply Hr].
    destruct (believed _ _ _); [destruct (role_has_permission _ _ _); [done |] |]; intros [= <-]; unfold module_closed; by eauto 6.
Qed.

(** Without a session only the anonymous pass. *)
Lemma decision_needs_session g w rq u : decision g w rq = Ok u -> g = Anonymous \/ exists a x, session_user (w_db w) (w_now w) rq = Some (a, x).
Proof.
  assert (Hr : forall c a x, resolution (w_db w) (w_now w) rq = Ok (c, a, x) -> session_user (w_db w) (w_now w) rq = Some (a, x)).
  { intros c a x. unfold resolution. destruct (operational_tenant _ _); [| done]. cbn [result_bind].
    destruct (session_user _ _ _) as [[a' u']|]; [| done]. case_query as [m|] Em; [| done]. by intros [= _ -> ->]. }
  destruct g as [| |permission|name permission]; unfold decision; [by left | | |].
  - destruct (session_user _ _ _) as [[a x]|]; [by eauto | done].
  - rewrite access_resolution. destruct (resolution _ _ _) as [[[ctx a] x]|e']; [| done]. right. exists a, x. by eapply Hr.
  - destruct (resolution _ _ _) as [[[ctx a] x]|e']; [| done]. right. exists a, x. by eapply Hr.
Qed.

Lemma request_id_run given (m : M unit) w : exists w1 rid, (w1 = w \/ w1 = set_drawn (S (w_drawn w)) w) /\
  RequestIdMiddleware given m w =
    (Ok {| an_result := (m w1).1; an_request_id := match (m w1).1 with Ok _ | Raise (HTTPException _ _) => Some rid | Raise _ => None end |}, (m w1).2).
Proof.
  unfold RequestIdMiddleware. destruct (str_eqb (ostr_or given "") "").
  - exists (set_drawn (S (w_drawn w)) w), (uuid_hex (w_entropy w (w_drawn w) mod 2 ^ 128)%N). split; [by right |].
    unfold bind, uuid4, ret. by destruct (m _).
  - exists w, (ostr_or given ""). split; [by left |]. unfold bind, ret. by destruct (m _).
Qed.

(** C5: one chain of guards for the whole API. The anonymous operations are the
    closed list of the architecture. A request passes the origin check or is
    refused with nothing done. Then, for an operation off the list, the guard its
    route declares decides from what is committed: it never lets a request without
    a live session through; when it refuses, the answer is its 401, 403 or 404,
    the handler has not run, and nothing has changed but the time of the caller's
    visit; when it allows, the operation runs, once. *)
Theorem every_operation_is_guarded op given rq w : quiet w ->
  let '(r, w') := create_app op given rq w in
  (guard_of op = Anonymous <-> In (operation_id op) anonymous_operations) /\
  match Csrf.dispatch rq (ret tt) w with
  | (Raise e, _) => r = Raise e /\ w' = w
  | (Ok _, _) =>
      match decision (guard_of op) w rq with
      | Raise e => only_visited w rq w' /\ exists status detail rid, e = HTTPException status detail /\
          (status = 401 \/ status = 403 \/ status = 404) /\ r = Ok {| an_result := Raise e; an_request_id := Some rid |}
      | Ok _ => (guard_of op <> Anonymous -> exists a u, session_user (w_db w) (w_now w) rq = Some (a, u)) /\
          exists w1 x rid, (w1 = w \/ w1 = set_drawn (S (w_drawn w)) w) /\ serve_operation op rq w1 = (x, w') /\
            r = Ok {| an_result := x; an_request_id := rid |}
      end
  end.
Proof.
  intros Hq. destruct (create_app op given rq w) as [r w'] eqn:E. split.
  { destruct op; split; intros H; try discriminate H; try reflexivity; try (by cbn; tauto);
      exfalso; cbn in H; repeat (destruct H as [H|H]; [discriminate H |]); destruct H. }
  revert E. unfold create_app, Csrf.dispatch.
  assert (Hrun : RequestIdMiddleware given (serve_operation op rq) w = (r, w') ->
    match decision (guard_of op) w rq with
    | Raise e => only_visited w rq w' /\ exists status detail rid, e = HTTPException status detail /\
        (status = 401 \/ status = 403 \/ status = 404) /\ r = Ok {| an_result := Raise e; an_request_id := Some rid |}
    | Ok _ => (guard_of op <> Anonymous -> exists a u, session_user (w_db w) (w_now w) rq = Some (a, u)) /\
        exists w1 x rid, (w1 = w \/ w1 = set_drawn (S (w_drawn w)) w) /\ serve_operation op rq w1 = (x, w') /\
          r = Ok {| an_result := x; an_request_id := rid |}
    end).
  { destruct (request_id_run given (serve_operation op rq) w) as (w1 & rid & Hw1 & ->). intros [= <- <-].
    destruct (decision (guard_of op) w rq) as [u|e] eqn:Ed.
    - split; [intros Hn; destruct (decision_needs_session _ _ _ _ Ed) as [Ha|Ha]; [by destruct (Hn Ha) | exact Ha] |].
      exists w1. destruct (serve_operation op rq w1) as [x w2]. eexists x, _. split; [exact Hw1 |]. by split.
    - destruct (serve_guarded op rq) as [Ha|Hg]; [rewrite Ha in Ed; discriminate Ed |].
      assert (Hq1 : quiet w1) by (destruct Hw1 as [->| ->]; exact Hq).
      assert (Ed1 : decision (guard_of op) w1 rq = Raise e) by (destruct Hw1 as [->| ->]; exact Ed).
      destruct (Hg w1 e Hq1 Ed1) as (w2 & -> & Hv). split.
      + destruct Hw1 as [->| ->]; [exact Hv |]. revert Hv. unfold only_visited, visited. cbn [set_drawn w_db w_now w_kv w_out w_grants].
        destruct (session_user _ _ _) as [[a u]|]; exact (fun H => H).
      + destruct (decision_status _ _ _ _ Ed) as (status & detail & -> & Hs). by exists status, detail, rid. }
  destruct (str_in (rq_method rq) Csrf._MUTATING_METHODS); [| exact Hrun]. destruct (rq_origin rq) as [origin|]; [| exact Hrun].
  destruct (Csrf.origin_allowed _ _); cbn [negb]; [exact Hrun | by intros [= <- <-]].
Qed.
End properties.

(** ** Witness *)

(** A stranger's request, and one that another site makes a member's browser send. *)
Definition forged : Request := {| rq_method := "DELETE"; rq_host := Some "acme.example.com"; rq_origin := Some "https://evil.example";
  rq_cookies := [("saas_session", "alice-token")]; rq_client := None |}.
Definition call (op : operation) (rq : Request) : result Answer :=
  (create_app (P := test_platform) (HX := google_answers) (FL := no_floats) (IF := plain_iso) (JW := bob_token) (LLM := polite)
     op (Some "r1") rq sample_world).1.

Lemma every_operation_is_guarded_witness :
  (exists rid, call listMembers (visit "stolen" "acme.example.com") =
    Ok {| an_result := Raise (HTTPException 401 "Authentification requise"); an_request_id := Some rid |}) /\
  call (removeMember 2) forged = Raise (HTTPException 403 "Origin non autorisée").
Proof.
  assert (H : forall op rq, _) by (intros op rq; exact (every_operation_is_guarded (P := test_platform) (HX := google_answers)
    (FL := no_floats) (IF := plain_iso) (JW := bob_token) (LLM := polite) op (Some "r1") rq sample_world sample_quiet)).
  unfold call. split.
  - specialize (H listMembers (visit "stolen" "acme.example.com")). destruct (create_app _ _ _ _) as [r w'].
    assert (Ed : decision (P := test_platform) (guard_of listMembers) sample_world (visit "stolen" "acme.example.com") =
      Raise (HTTPException 401 "Authentification requise")) by (vm_compute; reflexivity).
    rewrite Ed in H. destruct H as [_ (_ & status & detail & rid & [= <- <-] & _ & Hr)]. exists rid. exact Hr.
  - specialize (H (removeMember 2) forged). destruct (create_app _ _ _ _) as [r w'].
    assert (Ec : Csrf.dispatch (CFG := @plat_settings test_platform) (VK := @plat_valkey test_platform) forged (ret tt) sample_world = (Raise (HTTPException 403 "Origin non autorisée"), sample_world))
      by exact (f_equal (fun b : bool => if b then (Ok tt, sample_world) else (Raise (HTTPException 403 "Origin non autorisée"), sample_world))
           (eq_refl false <: Csrf.origin_allowed (CFG := @plat_settings test_platform) "https://evil.example" "acme.example.com" = false)).
    destruct H as [_ H]. rewrite Ec in H. exact (proj1 H).
Defined.
