(* ===== verification/Within.v ===== *)
(** What an operation of the application may change. [within K W m]: from a point
    where nothing else is pending, [m] changes tables of [W], adds events at the end
    of the audit journal, and takes every other table, committed or not, to one that
    [K] relates to it. [K] is what the other processes may do to a table while [m]
    sleeps; for a program that does not, it may be equality. The rules follow the shape of the code; [within_code] applies them. *)
From S2P Require Import Cli Usage Provisioning Prelude PyStr Hashing Base64 Json Config Tokens Models Permissions World Uuid Orm Isolation AuthService Slug Deps Edge Journal Frame Http Directory AuthRouter Dates Iso Pricing Policy Quota Gateway OAuth Providers Throttle Rely ConnectorTokens JournalRouter Mailer DirectoryRouter ConnectorRouter Webhooks Contract Automation SampleDigest.

(** What may happen to a table: nothing, any number of times. *)
Record tolerance := {
  tolerated :> forall t : table, list (row t) -> list (row t) -> Prop;
  tolerated_pre : forall t, PreOrder (tolerated t) }.
#[export] Existing Instance tolerated_pre.
Definition nothing : tolerance := {| tolerated t := eq; tolerated_pre t := _ |}.

Definition allowed (K : tolerance) (W : list table) (t : table) : list (row t) -> list (row t) -> Prop :=
  match t return list (row t) -> list (row t) -> Prop with
  | AuditEvents => fun l l' => exists events, l' = l ++ events
  | t => fun l l' => In t W \/ K t l l'
  end.
Lemma allowed_iff K W t l l' : t <> AuditEvents -> allowed K W t l l' <-> In t W \/ K t l l'.
Proof. by destruct t. Qed.

Section rules.
Context {P : Platform}.
Variable K : tolerance.
Variable W : list table.
Hypothesis off : ~ In AuditEvents W.
Implicit Types (w : World).

Definition settled w : Prop := forall s d t, allowed K W t (d t) (w_pend w s d t).
Definition within {A} (m : M A) : Prop := forall w, settled w ->
  settled (m w).2 /\ forall t, allowed K W t (w_db w t) (w_db (m w).2 t).

Lemma allowed_refl t l : allowed K W t l l.
Proof.
  destruct (decide (t = AuditEvents)) as [->|Ht]; [exists []; by rewrite app_nil_r |].
  rewrite allowed_iff by done. by right.
Qed.
Lemma allowed_trans t l1 l2 l3 : allowed K W t l1 l2 -> allowed K W t l2 l3 -> allowed K W t l1 l3.
Proof.
  destruct (decide (t = AuditEvents)) as [->|Ht].
  - intros [e1 ->] [e2 ->]. exists (e1 ++ e2). by rewrite app_assoc.
  - rewrite !allowed_iff by done. intros [H1|H1] [H2|H2]; [by left.. |]. right. by transitivity l2.
Qed.
Lemma allowed_in t l l' : In t W -> allowed K W t l l'.
Proof. intros H. rewrite allowed_iff; [by left |]. intros ->. by apply off. Qed.
Lemma quiet_settled w : quiet w -> settled w.
Proof. intros [Hp _] s d t. rewrite Hp. apply allowed_refl. Qed.

Lemma within_pure {A} (m : M A) : (forall w, w_db (m w).2 = w_db w /\ w_pend (m w).2 = w_pend w) -> within m.
Proof. intros H w Hw. destruct (H w) as [Hd Hp]. split; [intros s d t; by rewrite Hp | intros t; rewrite Hd; apply allowed_refl]. Qed.
Lemma within_still {A} (m : M A) : still W m -> within m.
Proof.
  intros H w Hw. destruct (H w) as (Hd & _ & _ & Hp). split; [| intros t; rewrite Hd; apply allowed_refl].
  intros s d t. destruct (in_dec table_eq_dec t W); [by apply allowed_in |]. rewrite Hp by done. apply Hw.
Qed.
Lemma within_bind {A B} (m : M A) (k : A -> M B) : within m -> (forall a, within (k a)) -> within (bind m k).
Proof.
  intros Hm Hk w Hw. unfold bind. destruct (Hm w Hw) as [H1 H2]. destruct (m w) as [[a|e] w']; simpl in *; [| done].
  destruct (Hk a w' H1) as [G1 G2]. split; [done |]. intros t. eapply allowed_trans; [apply H2 | apply G2].
Qed.
Lemma within_catch {A} (m : M A) h : within m -> (forall e k, h e = Some k -> within k) -> within (catch m h).
Proof.
  intros Hm Hh w Hw. unfold catch. destruct (Hm w Hw) as [H1 H2]. destruct (m w) as [[a|e] w']; simpl in *; [done |].
  destruct (h e) as [k|] eqn:E; [| done]. destruct (Hh e k E w' H1) as [G1 G2]. split; [done |]. intros t. eapply allowed_trans; [apply H2 | apply G2].
Qed.
Lemma within_finally {A} (m : M A) f : within m -> (forall w, w_db (f w) = w_db w /\ (settled w -> settled (f w))) -> within (finally m f).
Proof.
  intros Hm Hf w Hw. unfold finally. destruct (Hm w Hw) as [H1 H2]. destruct (m w) as [r w']. simpl in *.
  destruct (Hf w') as [G1 G2]. split; [by apply G2 | by rewrite G1].
Qed.
Lemma settled_closed s w : settled w -> settled (closed s w).
Proof. intros Hw s' d t. simpl. destruct (sess_eq_dec s s'); [apply allowed_refl | apply Hw]. Qed.
Lemma within_with_session {A} s (m : M A) : within m -> within (with_session s m).
Proof.
  intros Hm w Hw. apply (within_finally m (closed s) Hm) with (w := closed s w); [| by apply settled_closed].
  intros w'. split; [done | apply settled_closed].
Qed.
Lemma within_commit s : within (commit s).
Proof.
  intros w Hw. simpl. split; [| intros t; apply Hw]. intros s' d t. simpl. destruct (sess_eq_dec s s'); [apply allowed_refl | apply Hw].
Qed.
Lemma within_pop {A} (m : M A) tok : within m -> within (finally m (pop_tenant tok)).
Proof. intros Hm. apply within_finally; [done |]. intros w. by split. Qed.
Lemma within_tenant_context {A} ctx (m : M A) : within m -> within (tenant_context ctx m).
Proof. intros Hm. apply within_bind; [by apply within_pure |]. intros tok. by apply within_pop. Qed.
Lemma within_get_tenant_session {A} s (m : M A) : within m -> within (get_tenant_session s m).
Proof. intros Hm. apply within_bind; [apply within_still, still_current_tenant |]. intros _. by apply within_with_session. Qed.
Lemma within_for_each {A} (l : list A) f : (forall a, within (f a)) -> within (for_each l f).
Proof. intros H. induction l as [|a l IH]; [by apply within_still |]. simpl. by apply within_bind. Qed.
Lemma within_ignore {A} (m : M A) : within m -> within (bind m (fun _ => ret tt)).
Proof. intros Hm. apply within_bind; [done |]. intros a. by apply within_still. Qed.

Lemma within_record s a rt ri p u l : within (record_audit_event s a rt ri p u l).
Proof.
  intros w Hw. destruct (w_tenant w) as [ctx|] eqn:Ec.
  - destruct (record_audit_event s a rt ri p u l w) as [r w'] eqn:E.
    apply (record_audit_event_run _ _ _ _ _ _ _ _ ctx) in E as [[-> ->] | (e & -> & _ & ->)]; [| | done]; simpl;
      (split; [| intros t; apply allowed_refl]); [done |].
    intros s' d t. simpl. destruct (sess_eq_dec s s') as [<-|]; [| apply Hw]. destruct (table_eq_dec AuditEvents t) as [<-|Hne].
    + rewrite upd_eq. destruct (Hw s d AuditEvents) as [l1 ->]. exists (l1 ++ [e]). by rewrite app_assoc.
    + rewrite upd_ne by done. apply Hw.
  - unfold record_audit_event. run. unfold add, add_as, guard_flush_new, bind, current_tenant. simpl. rewrite Ec.
    split; [done | intros t; apply allowed_refl].
Qed.
Lemma within_delete_rows s t p : In t W -> within (delete_rows s t p).
Proof. intros H. by apply within_still, still_delete_rows. Qed.
End rules.

Create HintDb within.
#[export] Hint Resolve within_record within_commit : within.

(** Follow the code; a handler of exceptions is looked at one exception at a time. *)
Ltac keep_off := solve [assumption | simpl; intuition discriminate].
Ltac within_code :=
  repeat (cbn zeta beta; match goal with
  | |- within _ _ (bind _ _) => apply within_bind; [| intros ?]
  | |- within _ _ (commit _) => apply within_commit
  | |- within _ _ (with_session _ _) => apply within_with_session
  | |- within _ _ (get_tenant_session _ _) => apply within_get_tenant_session; [keep_off |]
  | |- within _ _ (tenant_context _ _) => apply within_tenant_context
  | |- within _ _ (for_each _ _) => apply within_for_each; [keep_off |]; intros ?
  | |- within _ _ (catch _ _) => apply within_catch; [| intros ?e ?k; destruct e; intros [= <-]]
  | |- within _ _ (record_audit_event _ _ _ _ _ _ _) => apply within_record
  | |- within _ _ (delete_rows _ _ _) => apply within_delete_rows; [keep_off |]; solve [assumption | simpl; tauto]
  | |- within _ _ (match ?x with _ => _ end) => destruct x
  | |- within _ _ _ => solve [assumption | auto 2 with within | apply within_still; [keep_off |]; first [solve [still_code] | auto 3 with frame]]
  end).

(** ** The routes *)

Section routes.
Context {P : Platform}.
Variable K : tolerance.
Variable W : list table.
Abbreviation within := (within K).
Hypothesis off : ~ In AuditEvents W.
Hypothesis sessions : In Sessions W.

Lemma within_current_auth_or_none rq : within W (current_auth_or_none rq).
Proof. unfold current_auth_or_none. pose proof (fun t => still_resolve_session W Ctl t sessions). within_code. Qed.
Lemma within_current_auth auth : within W (current_auth auth).
Proof. unfold current_auth. within_code. Qed.
Lemma within_auth_route {A} rq (h : CurrentAuth -> M A) : (forall a, within W (h a)) -> within W (auth_route rq h).
Proof.
  intros Hh. apply within_with_session, within_bind; [apply within_current_auth_or_none |]. intros auth.
  apply within_bind; [apply within_current_auth | apply Hh].
Qed.
Lemma within_resolve_tenant {A} rq auth (k : TenantContext -> M A) : (forall ctx, within W (k ctx)) -> within W (resolve_tenant rq auth k).
Proof.
  intros Hk. unfold resolve_tenant, get_membership_row. destruct (extract_slug _) as [slug|]; [| within_code].
  apply within_bind; [within_code |]. intros [t|]; [| within_code]. destruct (is_some (tn_deleted_at t)); [within_code |].
  destruct (bool_decide _); [within_code |]. destruct auth as [a|]; [| within_code]. apply within_bind; [within_code |].
  intros [m|]; [| within_code]. apply within_bind; [by apply within_pure |]. intros tok. apply within_pop, Hk.
Qed.
Lemma within_require_permission {A} p rq auth (k : TenantContext -> M A) :
  (forall ctx, within W (k ctx)) -> within W (require_permission p rq auth k).
Proof.
  intros Hk. apply within_resolve_tenant. intros ctx w Hw. destruct (tc_role ctx) as [role|]; [| by apply (within_still K W off (raise _)); [apply still_raise |]].
  destruct (role_has_permission _ _ _); [by apply Hk | by apply (within_still K W off (raise _)); [apply still_raise |]].
Qed.
Lemma within_permission_route {A} p rq (h : TenantContext -> CurrentAuth -> M A) : (forall c a, within W (h c a)) -> within W (permission_route p rq h).
Proof.
  intros Hh. apply within_with_session, within_bind; [apply within_current_auth_or_none |]. intros auth.
  apply within_require_permission. intros ctx. apply within_bind; [apply within_current_auth | apply Hh].
Qed.
Lemma within_tenant_route {A} p rq (h : TenantContext -> CurrentAuth -> M A) : (forall c a, within W (h c a)) -> within W (tenant_route p rq h).
Proof. intros Hh. apply within_permission_route. intros c a. by apply within_get_tenant_session. Qed.
Lemma within_module_route {A} name p rq (h : TenantContext -> M A) : (forall c, within W (h c)) -> within W (module_route name p rq h).
Proof.
  intros Hh. apply within_with_session, within_bind; [apply within_current_auth_or_none |]. intros auth.
  apply within_resolve_tenant. intros ctx. unfold require_module_enabled, is_module_enabled. apply within_bind.
  - apply within_bind; [by apply within_pure |]. intros [b|]; [within_code |]. apply within_bind; [within_code |]. intros row.
    apply within_bind; [by apply within_pure | intros _; within_code].
  - intros b. destruct (negb b); [within_code |]. intros w Hw. unfold check_permission.
    destruct (tc_role ctx) as [role|]; [| by apply (within_still K W off (raise _)); [apply still_raise |]].
    destruct (role_has_permission _ _ _); [by apply Hh | by apply (within_still K W off (raise _)); [apply still_raise |]].
Qed.
End routes.

(** ** The AI gateway *)

Section gateway.
Context {P : Platform} {LLM : LiteLLM}.
Variable K : tolerance.
Variable W : list table.
Abbreviation within := (within K W).
Hypothesis off : ~ In AuditEvents W.
Hypothesis usage : In AIUsageEvents W.

Lemma within_record_for_tenant own t a rt ri p u l : within (record_audit_event_for_tenant own t a rt ri p u l).
Proof. unfold record_audit_event_for_tenant. within_code. Qed.
Lemma within_call_provider {A} p m (call : Z -> nat -> A) : within (call_provider p m call).
Proof. by apply within_pure. Qed.
Lemma within_incrby k n : within (incrby k n).
Proof. apply within_pure. intros w. unfold incrby. by repeat case_match. Qed.
Lemma within_set_nx k n : within (Quota.set_nx k n).
Proof. apply within_pure. intros w. unfold Quota.set_nx. by repeat case_match. Qed.
Lemma within_expire k n : within (expire k n).
Proof. by apply within_pure. Qed.
Hint Resolve within_call_provider within_incrby within_set_nx within_expire : within.
Lemma within_record_and_alert c n q : within (record_and_alert c n q).
Proof. unfold record_and_alert, add_usage, _emit_alert_once. within_code. Qed.
Lemma within_record_usage r : within (record_usage r).
Proof. unfold record_usage. within_code. Qed.
Hint Resolve within_record_and_alert within_record_usage : within.
Lemma within_chat_once c p pr m r : within (_chat_once c p pr m r).
Proof. unfold _chat_once, _meter_wrap. within_code. Qed.
Hint Resolve within_chat_once : within.
Lemma within_chat r : within (chat r).
Proof.
  unfold chat, _load_policy, get_policy. do 2 (apply within_bind; [within_code | intros ?pol]). apply within_bind; [within_code |]. intros [pr mo].
  apply within_catch; [auto with within |]. intros e k. destruct e, (rp_fallback_provider pol0); intros [= <-]; within_code.
Qed.
End gateway.

(** ** The operations outside the directory *)

(** Every table but the journal and the memberships, with or without the connections. *)
Definition elsewhere_and (connections : list table) : list table :=
  [Tenants; Users; Credentials; RecoveryCodes; Sessions; LoginChallenges; OAuthIdentities; Invitations;
   Teams; TeamMembers; AIPolicies; AIUsageEvents; AIUsageDailies; TenantModules; Subscriptions; WebhookRoutes; Digests] ++ connections.
Abbreviation elsewhere := (elsewhere_and [Connections]).
Abbreviation off_connections := (elsewhere_and []).
Lemma elsewhere_off : ~ In AuditEvents elsewhere.
Proof. keep_off. Qed.
Lemma connections_off : ~ In AuditEvents off_connections.
Proof. keep_off. Qed.

#[local] Hint Resolve still_issued_tokens : frame.

Section operations.
Context {P : Platform} {HX : Httpx} {FL : Floats} {IF : IsoFormats} {JW : Jose} {LLM : LiteLLM}.
Variable K : tolerance.
Variable connections : list table.
Hypothesis tables_off : ~ In AuditEvents (elsewhere_and connections).
Abbreviation elsewhere := (elsewhere_and connections).
Abbreviation within := (within K elsewhere).
Implicit Types (w : World).

Ltac off := exact tables_off.
Ltac inside := simpl; tauto.

Lemma still_one t {A} (m : M A) : In t elsewhere -> still [t] m -> still elsewhere m.
Proof. intros Ht. apply still_weaken. by intros t' [<-|[]]. Qed.

(** Authentication *)
Lemma within_login rq e p : within (login rq e p).
Proof. unfold login, public_route, request. within_code. Qed.
Lemma within_login_totp rq t c : within (login_totp rq t c).
Proof. unfold login_totp, public_route, request, challenge_user. within_code. Qed.
Lemma within_logout rq : within (logout rq).
Proof. apply within_auth_route; [off | inside |]. intros a. within_code. Qed.
Lemma within_get_me rq : within (get_me rq).
Proof. apply within_auth_route; [off | inside |]. intros a. unfold get_credentials. within_code. Qed.
Lemma within_totp_setup rq : within (totp_setup rq).
Proof. apply within_auth_route; [off | inside |]. intros a. unfold auth_error_as. within_code. Qed.
Lemma within_totp_activate rq c : within (totp_activate rq c).
Proof. apply within_auth_route; [off | inside |]. intros a. unfold auth_error_as. within_code. Qed.
Lemma within_totp_disable rq p : within (totp_disable rq p).
Proof. apply within_auth_route; [off | inside |]. intros a. unfold auth_error_as. within_code. Qed.
Lemma within_oauth_start p rq : within (oauth_start p rq).
Proof. unfold oauth_start, oauth_error_as, build_authorization_url, _fetch_metadata. within_code. Qed.
Lemma within_oauth_callback p c s : within (oauth_callback p c s).
Proof.
  unfold oauth_callback, public_route, request, oauth_error_as.
  pose proof (still_one OAuthIdentities _ ltac:(inside) (still_caller_of p c s)). within_code.
Qed.

Lemma within_audit_list l c f rq : within (audit_events_list l c f rq).
Proof.
  unfold audit_events_list, request. apply within_with_session, within_bind; [apply within_current_auth_or_none; [off | inside] |].
  intros auth. apply within_require_permission; [off |]. intros ctx. unfold audit_events_list_in. within_code.
Qed.

(** The directory *)
Lemma within_members_list rq : within (members_list rq).
Proof. apply within_tenant_route; [off | inside |]. intros c a. within_code. Qed.
Lemma within_invitations_list rq : within (invitations_list rq).
Proof. apply within_tenant_route; [off | inside |]. intros c a. within_code. Qed.
Lemma within_teams_list rq : within (teams_list rq).
Proof. apply within_tenant_route; [off | inside |]. intros c a. unfold teams_list_in. within_code. Qed.
Lemma within_team_members_list t rq : within (team_members_list t rq).
Proof. apply within_tenant_route; [off | inside |]. intros c a. unfold team_members_list_in, get_team. within_code. Qed.

Ltac mutation := apply within_tenant_route; [off | inside |]; intros c a.
Lemma within_delete_team t : within (delete_team t).
Proof. apply within_still, still_delete_team; [off | inside..]. Qed.
Hint Resolve within_delete_team : within.
Lemma within_invitation_create e r rq : within (invitation_create e r rq).
Proof. mutation. unfold invitation_create_in, audit, get_mailer, SmtpMailer_send, NullMailer_send, smtp_do. within_code. Qed.
Lemma within_invitation_revoke i rq : within (invitation_revoke i rq).
Proof. mutation. unfold invitation_revoke_in, audit. within_code. Qed.
Lemma within_team_create n d rq : within (team_create n d rq).
Proof. mutation. unfold team_create_in, audit. within_code. Qed.
Lemma within_team_delete t rq : within (team_delete t rq).
Proof. mutation. unfold team_delete_in, get_team, audit. within_code. Qed.
Lemma within_team_member_add t u rq : within (team_member_add t u rq).
Proof. mutation. unfold team_member_add_in, get_team, audit. within_code. Qed.
Lemma within_team_member_remove t u rq : within (team_member_remove t u rq).
Proof. mutation. unfold team_member_remove_in, get_team, audit. within_code. Qed.

(** The AI gateway *)
Lemma within_ai_chat p rq : within (ai_chat p rq).
Proof.
  apply within_permission_route; [off | inside |]. intros c a. unfold ai_chat_in.
  apply within_catch; [by apply within_chat; [off | inside] |]. intros e k. destruct e; intros [= <-]; within_code.
Qed.

(** The module of the repository *)
Lemma within_list_digests rq : within (list_digests rq).
Proof. apply within_module_route; [off | inside |]. intros c. unfold list_digests_in. within_code. Qed.
Lemma within_run_now rq : within (run_now rq).
Proof. apply within_module_route; [off | inside |]. intros c. unfold run_now_in, enqueue_unit. within_code. Qed.

(** Activating a module, for a tenant *)
Lemma within_invalidate t n : within (_invalidate t n).
Proof. by apply within_pure. Qed.
Hint Resolve within_invalidate : within.
Lemma within_missing_capabilities mods t n : within (missing_capabilities mods t n).
Proof. unfold missing_capabilities, _tenant_granted_capabilities. within_code. Qed.
Lemma within_recorded_for own t a rt ri p u l : within (record_audit_event_for_tenant own t a rt ri p u l).
Proof. by apply within_record_for_tenant; off. Qed.
Hint Resolve within_missing_capabilities within_recorded_for : within.
Lemma still_session_refresh W s t (r : row t) : still W (session_refresh s t r).
Proof. unfold session_refresh. do 2 (apply still_bind; [done |]; intros ?). by case_match. Qed.
Lemma within_session_refresh s (r : TenantModule) : within (session_refresh s TenantModules r).
Proof. apply within_still; [off |]. exact (still_session_refresh _ s TenantModules r). Qed.
Hint Resolve within_session_refresh : within.
Lemma within_enable_module mods s t n a l : within (enable_module mods s t n a l).
Proof. unfold enable_module. within_code. Qed.
Lemma within_disable_module mods s t n a l : within (disable_module mods s t n a l).
Proof. unfold disable_module. within_code. Qed.

(** Tasks and commands *)
Lemma within_periodic_fanout mods m t : within (run_periodic_fanout mods m t).
Proof. unfold run_periodic_fanout, enabled_tenant_ids, enqueue_unit. within_code. Qed.
Lemma within_purge : within purge_expired_auth_rows.
Proof. unfold purge_expired_auth_rows. within_code. Qed.
Lemma within_provision slug name : within (provision_tenant slug name).
Proof. unfold provision_tenant. within_code. Qed.
Lemma within_or_exit {A} (m : M A) refusal lines prefix k : within m -> (forall a, within (k a)) -> within (or_exit m refusal lines prefix k).
Proof.
  intros Hm Hk. unfold or_exit. apply within_bind; [| intros [a|t]; [apply Hk | within_code]].
  apply within_catch; [within_code |]. intros e k'. destruct (refusal e); intros [= <-]. within_code.
Qed.
Lemma within_invite slug email role : within (_invite slug email role).
Proof. unfold _invite. within_code. Qed.
Hint Resolve within_provision within_invite : within.
Lemma within_tenant_create slug name owner : within (tenant_create slug name owner).
Proof.
  unfold tenant_create. apply within_or_exit; [auto with within |]. intros t. destruct owner; [| within_code].
  apply within_or_exit; [auto with within |]. intros u. within_code.
Qed.
Lemma within_cli_invitation slug email role : within (Cli.invitation_create slug email role).
Proof. apply within_or_exit; [auto with within |]. intros u. within_code. Qed.
Lemma within_tenant_delete slug conf : within (tenant_delete slug conf).
Proof.
  unfold tenant_delete. destruct (negb _); [within_code |]. apply within_or_exit; [unfold _soft_delete; within_code |]. intros t. within_code.
Qed.
Lemma within_tenant_list : within tenant_list.
Proof. unfold tenant_list, _tenant_rows. within_code. Qed.
Lemma within_upsert s v : within (upsert s v).
Proof. apply within_still; [off |]. apply still_bind; [apply still_guard |]. intros _. apply still_write. inside. Qed.
Lemma within_reconcile t n : within (Quota.reconcile t n).
Proof. apply within_bind; [within_code |]. intros a. by apply within_pure. Qed.
Hint Resolve within_upsert within_reconcile : within.
Lemma within_rollup : within _run_daily_rollup.
Proof. unfold _run_daily_rollup, aggregate_day, reconcile_month_quotas, purge_raw_events. within_code. Qed.
End operations.

(** The connectors, which change the connections. *)
Section connectors.
Context {P : Platform} {HX : Httpx} {FL : Floats} {IF : IsoFormats}.
Variable K : tolerance.
Abbreviation within := (within K elsewhere).

Ltac off := exact elsewhere_off.
Ltac inside := simpl; tauto.
Ltac mutation := apply within_tenant_route; [off | inside |]; intros c a.
Lemma still_authorization_url p slug u k l h cid : still elsewhere (connector_authorization_url p slug u k l h cid).
Proof. unfold connector_authorization_url. still_code. Qed.
Lemma still_apply_token_bundle W b : still W (apply_token_bundle b).
Proof. unfold apply_token_bundle, encrypt_token. still_code. Qed.
Lemma still_find_connection s p k l c : still elsewhere (find_connection s p k l c).
Proof. unfold find_connection. still_code. Qed.
Hint Resolve still_authorization_url still_apply_token_bundle still_find_connection : frame.

Lemma within_connectors_list rq : within (connectors_list rq).
Proof. mutation. unfold connectors_list_in. within_code. Qed.
Lemma within_connector_start p l k rq : within (connector_start p l k rq).
Proof.
  apply within_permission_route; [off | inside |]. intros c a. unfold connector_start_in.
  apply within_still; [off |]. apply still_catch; [auto with frame |]. intros e m. by destruct e; intros [= <-].
Qed.
Lemma within_connector_reconsent i rq : within (connector_reconsent i rq).
Proof.
  mutation. unfold connector_reconsent_in. apply within_bind; [within_code |]. intros [cn|]; [| within_code].
  destruct (negb _); [within_code |]. apply within_still; [off |]. apply still_catch; [auto with frame |]. intros e m. by destruct e; intros [= <-].
Qed.
Lemma still_upsert_connection s p k u l sc b c : still elsewhere (_upsert_connection s p k u l sc b c).
Proof. unfold _upsert_connection. still_code. Qed.
Lemma within_connector_callback p st code err : within (connector_oauth_callback p st code err).
Proof.
  unfold connector_oauth_callback, public_route, request, state_error_as_400, connect, store_connection, upsert_or_400,
    _ensure_webhook_route, enqueue_subscription_sync.
  pose proof (fun s p k u l sc b c => still_upsert_connection s p k u l sc b c). within_code.
Qed.
Lemma within_connector_revoke i rq : within (connector_revoke i rq).
Proof.
  mutation. unfold connector_revoke_in, revoke_connection, remote_revoke, audit. within_code.
Qed.
Lemma within_receive_webhook p k b : within (receive_webhook p k b).
Proof.
  unfold receive_webhook, public_route, request, receive_webhook_in, _validated_notifications, dispatch_notification, enqueue_event. within_code.
Qed.

End connectors.

#[export] Hint Resolve elsewhere_off connections_off within_login within_login_totp within_logout within_get_me within_totp_setup within_totp_activate
  within_totp_disable within_oauth_start within_oauth_callback within_audit_list within_members_list
  within_invitations_list within_teams_list within_team_members_list within_invitation_create within_invitation_revoke
  within_team_create within_team_delete within_team_member_add within_team_member_remove within_connectors_list
  within_connector_start within_connector_reconsent within_connector_callback within_connector_revoke
  within_receive_webhook within_ai_chat within_list_digests within_run_now within_enable_module within_disable_module
  within_periodic_fanout within_purge within_tenant_create within_cli_invitation within_tenant_delete within_tenant_list
  within_rollup : within.
