(* ===== verification/WithinTasks.v ===== *)
(** The tasks of the worker, for [Within]: programs that wait for locks, budgets and
    providers, while the other processes change the tables as they may. *)
From S2P Require Import Usage Prelude PyStr Hashing Base64 Json Config Tokens Models Permissions World Uuid Orm Isolation AuthService Slug Deps Edge Journal Frame Http Directory AuthRouter Dates Iso Pricing Policy Quota Gateway OAuth Providers Throttle Rely ConnectorTokens JournalRouter DirectoryRouter ConnectorRouter Webhooks Subscriptions Mail ConnectorTasks Contract Automation SampleDigest Worker Within.

(** What the others do meanwhile: they add events to the journal, and change a table
    as [K] says. *)
Definition behave {P : Platform} {OT : Others} (K : tolerance) : Prop := forall t n (db : Db) kv,
  (forall u, K u (db u) ((meanwhile t n db kv).1 u)) /\
  exists events, (meanwhile t n db kv).1 AuditEvents = db AuditEvents ++ events.

(** The tables that a task which waits may write, the journal apart. *)
Definition waiting_tables : list table := [AIUsageEvents; Connections; Subscriptions; Digests].
Lemma waiting_off : ~ In AuditEvents waiting_tables.
Proof. keep_off. Qed.

Section waiting.
Context {P : Platform} {OT : Others} {HX : Httpx} {FL : Floats} {IF : IsoFormats}.
Variable K : tolerance.
Abbreviation within := (within K waiting_tables).
Implicit Types (w : World).

Hypothesis others_behave : behave K.

Ltac off := exact waiting_off.
Lemma within_meanwhile t n kv db (u : table) : allowed K waiting_tables u (db u) ((meanwhile t n db kv).1 u).
Proof.
  destruct (others_behave t n db kv) as [Hm Ha]. destruct (decide (u = AuditEvents)) as [->|Hu]; [exact Ha |].
  apply allowed_iff; [done |]. right. apply Hm.
Qed.
Lemma within_sleep d : within (_sleep d).
Proof. intros w Hw. split; [exact Hw |]. intros u. apply within_meanwhile. Qed.

(** Locks and budgets *)
Lemma within_set_nx_lock k v n : within (Throttle.set_nx k v n).
Proof. apply within_pure. intros w. unfold Throttle.set_nx. by case_match. Qed.
Lemma within_acquire n t : within (acquire_lock n t).
Proof. unfold acquire_lock. pose proof within_set_nx_lock. within_code. Qed.
Lemma within_release n t : within (release_lock n t).
Proof. unfold release_lock, still_ours. apply within_bind; [by apply within_pure |]. intros [|]; [by apply within_pure | within_code]. Qed.
Lemma within_incr k : within (RateLimit.incr k).
Proof. apply within_pure. intros w. unfold RateLimit.incr. by repeat case_match. Qed.
Lemma within_budget m c : within (_budget_delay m c).
Proof.
  unfold _budget_delay. apply within_bind; [apply within_incr |]. intros n.
  apply within_bind; [destruct (n =? 1); [by apply within_pure | within_code] |]. intros _.
  destruct (_ <? n); [| within_code]. apply within_bind; [by apply within_pure | intros t; within_code].
Qed.
Lemma within_attempts {A} m c (attempt : M A) left : within attempt -> within (attempts m c attempt left).
Proof.
  intros Ha. induction left as [|left IH]; cbn [attempts]; [within_code |]. apply within_bind; [apply within_budget |]. intros bw.
  apply within_bind; [destruct bw; [apply within_sleep | within_code] |]. intros _. apply within_catch; [done |].
  intros e k. destruct e; try done. destruct (retryable _); [| done]. intros [= <-]. apply within_bind.
  - destruct retry_after; unfold _backoff_delay; within_code.
  - intros d. apply within_bind; [apply within_sleep | done].
Qed.
Lemma within_wait n : within (wait_for_lock n).
Proof.
  unfold wait_for_lock. induction LOCK_ATTEMPTS as [|left IH]; cbn [wait_attempts]; [within_code |].
  apply within_bind; [apply within_acquire |]. intros [t|]; [within_code |]. apply within_bind; [apply within_sleep | done].
Qed.
Lemma within_finally_run {A B} (m : M A) (f : M B) : within m -> within f -> within (finally m (fun w => (f w).2)).
Proof.
  intros Hm Hf w Hw. unfold finally. destruct (Hm w Hw) as [H1 H2]. destruct (m w) as [r w']. simpl in *.
  destruct (Hf w' H1) as [G1 G2]. split; [done |]. intros t. eapply allowed_trans; [apply H2 | apply G2].
Qed.
Lemma within_fold_each {A B} (l : list A) (b : B) f : (forall a b, within (f a b)) -> within (fold_each l b f).
Proof. intros H. revert b. induction l as [|a l IH]; intros b; cbn [fold_each]; [within_code |]. by apply within_bind. Qed.
#[local] Hint Resolve within_acquire within_release within_wait within_sleep : within.

(** Tokens and calls *)
Lemma still_bundle b : still waiting_tables (apply_token_bundle b).
Proof. unfold apply_token_bundle, encrypt_token. still_code. Qed.
#[local] Hint Resolve still_bundle : frame.
Lemma within_session_refresh_connection s (c : ConnectorConnection) : within (session_refresh s Connections c).
Proof. apply within_still; [off |]. exact (still_session_refresh _ s Connections c). Qed.
#[local] Hint Resolve within_session_refresh_connection : within.
Lemma within_guarded_grant s m c : within (guarded_grant s m c).
Proof.
  unfold guarded_grant, refresh_grant, run_with_backoff.
  assert (Hg : forall rt, within (refresh_token_grant m rt)) by (intros rt; unfold refresh_token_grant; within_code).
  pose proof (fun rt => within_attempts m (cn_id c) (refresh_token_grant m rt) MAX_ATTEMPTS (Hg rt)). within_code.
Qed.
Lemma within_refresh_locked s c t : within (refresh_locked s c t).
Proof.
  unfold refresh_locked. apply within_bind; [apply within_finally_run; [apply within_guarded_grant | apply within_release] |]. intros [b|c']; within_code.
Qed.
#[local] Hint Resolve within_refresh_locked : within.
Lemma within_refresh_connection s c block : within (refresh_connection s c block).
Proof. unfold refresh_connection. within_code. Qed.
#[local] Hint Resolve within_refresh_connection : within.
Lemma within_fresh_access_token s c : within (fresh_access_token s c).
Proof. unfold fresh_access_token. within_code. Qed.
#[local] Hint Resolve within_fresh_access_token : within.
Lemma within_provider_http m c meth url tok body ps : within (provider_http_request m c meth url tok body ps).
Proof.
  unfold provider_http_request, run_with_backoff. apply within_bind; [| intros r; within_code].
  apply within_attempts. unfold provider_attempt. within_code.
Qed.
#[local] Hint Resolve within_provider_http : within.
Lemma within_graph_request s c meth path body ps : within (graph_request s c meth path body ps).
Proof. unfold graph_request. within_code. Qed.
#[local] Hint Resolve within_graph_request : within.

(** Subscriptions *)
Lemma within_google_channel s c k : within (_create_google_channel s c k).
Proof. unfold _create_google_channel. within_code. Qed.
Lemma within_graph_subscription s c k cap : within (_create_graph_subscription s c k cap).
Proof. unfold _create_graph_subscription. within_code. Qed.
Lemma within_stop s c sb : within (_stop_google_channel s c sb).
Proof. unfold _stop_google_channel. apply within_catch; [within_code | intros e k [= <-]; within_code]. Qed.
#[local] Hint Resolve within_google_channel within_graph_subscription within_stop : within.
Lemma within_renew_subscription s c sb k : within (renew_subscription s c sb k).
Proof. unfold renew_subscription. within_code. Qed.
Lemma within_ensure_subscriptions s c k : within (ensure_subscriptions s c k).
Proof.
  unfold ensure_subscriptions. apply within_bind; [within_code |]. intros rows. apply within_bind; [| intros _; within_code].
  generalize (order_by String.leb (granted_capabilities c)). intros l. revert c.
  induction l as [|cap l IH]; intros c; cbn [ensure_all]; [within_code |]. apply within_bind; [unfold ensure_one; within_code | done].
Qed.
#[local] Hint Resolve within_renew_subscription within_ensure_subscriptions : within.

(** The tasks of the connectors *)
Lemma within_active_tenants : within _active_tenants.
Proof. unfold _active_tenants. within_code. Qed.
Lemma within_route_key id : within (_route_key_for id).
Proof. unfold _route_key_for. within_code. Qed.
#[local] Hint Resolve within_active_tenants within_route_key : within.
Lemma within_refresh_tokens : within refresh_expiring_tokens.
Proof.
  unfold refresh_expiring_tokens. apply within_bind; [within_code |]. intros l. apply within_fold_each. intros t r. unfold refresh_tenant.
  apply within_bind; [| intros n; within_code]. apply within_tenant_context, within_get_tenant_session; [off |]. apply within_bind; [within_code |].
  intros cs. apply within_fold_each. intros c r'. unfold refresh_one. within_code.
Qed.
Lemma within_renew_locked s c sb : within (renew_locked s c sb).
Proof. unfold renew_locked. apply within_catch; [within_code |]. intros e k [= <-]. unfold renewal_failed. within_code. Qed.
Lemma within_renew_all : within renew_expiring_subscriptions.
Proof.
  unfold renew_expiring_subscriptions. apply within_bind; [within_code |]. intros t. apply within_bind; [within_code |]. intros l.
  apply within_fold_each. intros tn r. unfold renew_tenant.
  apply within_bind; [| intros n; within_code]. apply within_tenant_context, within_get_tenant_session; [off |]. apply within_bind; [within_code |].
  intros sbs. apply within_fold_each. intros sb r'. unfold renew_one. apply within_bind; [within_code |]. intros [c|]; [| within_code].
  destruct (negb _); [within_code |]. apply within_bind; [within_code |]. intros [tok|]; [| within_code].
  apply within_bind; [apply within_finally_run; [apply within_renew_locked | apply within_release] |]. intros turn. within_code.
Qed.
Lemma within_sync slug id : within (sync_connection_subscriptions slug id).
Proof.
  unfold sync_connection_subscriptions, sync_in. apply within_bind; [within_code |]. intros l. destruct (rows_where _ l) as [|tn ?]; [within_code |].
  apply within_bind; [within_code |]. intros [k|]; [| within_code]. apply within_tenant_context, within_get_tenant_session; [off |].
  apply within_bind; [within_code |]. intros [c|]; [| within_code]. destruct (negb _); [within_code |].
  apply within_bind; [| intros _; within_code]. apply within_catch; [within_code |]. intros e k' [= <-]. within_code.
Qed.
Lemma within_for_each_in {A} (l : list A) f : (forall a, In a l -> within (f a)) -> within (for_each l f).
Proof.
  induction l as [|a l IH]; intros H; cbn [for_each]; [within_code |]. apply within_bind; [apply H; by left |]. intros _.
  apply IH. intros b Hb. apply H. by right.
Qed.
Lemma within_event registry slug id p cap ch rid :
  (forall cap h e, In h (event_handlers registry cap) -> within (h e)) -> within (process_connector_event registry slug id p cap ch rid).
Proof.
  intros Hh. unfold process_connector_event. apply within_bind; [within_code |]. intros l. destruct (rows_where _ l) as [|tn ?]; [within_code |].
  apply within_bind; [within_code |]. intros known. apply within_tenant_context, within_bind; [unfold journal_event; within_code |].
  intros [|]; [| within_code]. apply within_for_each_in. intros h Hin. by apply (Hh cap).
Qed.

(** The periodic tasks of modules *)
Lemma within_periodic_unit mods m t id :
  (forall task, _find_task mods m t = Some task -> forall i, within (pt_fn task i)) -> within (run_periodic_unit mods m t id).
Proof.
  intros Hf. unfold run_periodic_unit. destruct (_find_task mods m t) as [task|]; [| within_code].
  specialize (Hf task eq_refl). apply within_bind; [unfold _active_tenant; within_code |]. intros [tn|]; [| within_code].
  apply within_bind; [within_code |]. intros [tok|]; [| within_code]. apply within_tenant_context, within_finally_run; [| apply within_release].
  apply within_catch; [within_code; apply Hf |]. intros e k [= <-]. within_code.
Qed.

(** The two tasks that wait for nothing, and delete or count. *)
Inductive table_task : M unit -> Prop :=
  | tt_purge : table_task (bind purge_expired_auth_rows (fun _ => ret tt))
  | tt_rollup : table_task (bind _run_daily_rollup (fun _ => ret tt)).

(** A worker whose modules keep to the rules performs messages that do. *)
Lemma within_deliver mods wk e m :
  (forall cap h ev, In h (event_handlers (wk_handlers wk) cap) -> within (h ev)) ->
  (forall name t task, _find_task mods name t = Some task -> forall i, within (pt_fn task i)) ->
  deliver mods wk e = Some m -> table_task m \/ within m.
Proof.
  intros Hh Hf. destruct e as [| | |task args]; try done. unfold deliver, celery_task, perform.
  pose proof within_refresh_tokens. pose proof within_renew_all. pose proof within_sync.
  pose proof (fun slug id p cap ch rid => within_event (wk_handlers wk) slug id p cap ch rid Hh).
  pose proof (fun m t id => within_periodic_unit mods m t id (Hf m t)).
  repeat (destruct (str_eqb task _)); try done; repeat (destruct args as [|? args]; try done); intros [= <-];
    first [left; constructor | right];
    unfold refresh_expiring_tokens_task, renew_subscriptions_task, sync_subscriptions_task, connector_event_received_task,
      periodic_fanout_task, periodic_unit_task, run_periodic_fanout, enabled_tenant_ids, enqueue_unit; within_code; auto.
Qed.
End waiting.

(** ** The module of the repository *)

Section sample.
Context {P : Platform} {OT : Others} {HX : Httpx} {FL : Floats} {IF : IsoFormats} {EL : EmailLib} {GM : GmailSdk} {LLM : LiteLLM}.
Context (pages : nat).
Variable K : tolerance.
Abbreviation within := (within K waiting_tables).
Hypothesis others_behave : behave K.

Ltac off := exact waiting_off.
#[local] Hint Resolve within_graph_request within_fresh_access_token : within.

Lemma within_graph_pages fuel s c path ps msgs limit : within (graph_pages fuel s c path ps msgs limit).
Proof.
  revert c path ps msgs. induction fuel as [|fuel IH]; intros c path ps msgs; destruct path as [path|]; cbn [graph_pages]; within_code; apply IH.
Qed.
Lemma within_gmail_call tok call : within (gmail_call tok call).
Proof. apply within_pure. intros w. unfold gmail_call. by case_match. Qed.
#[local] Hint Resolve within_graph_pages within_gmail_call : within.
Lemma within_gmail_metadata tok items : within (gmail_metadata tok items).
Proof. induction items as [|i items IH]; cbn [gmail_metadata]; within_code. Qed.
#[local] Hint Resolve within_gmail_metadata : within.
Lemma within_gmail_pages fuel tok label q pt msgs limit : within (gmail_pages fuel tok label q pt msgs limit).
Proof. revert pt msgs. induction fuel as [|fuel IH]; intros pt msgs; cbn [gmail_pages]; within_code; apply IH. Qed.
Lemma within_gmail_execute {A} s c (call : string -> M A) : (forall tok, within (call tok)) -> within (gmail_execute s c call).
Proof.
  intros Hc. unfold gmail_execute, run_with_backoff. apply within_bind; [by apply within_fresh_access_token |]. intros [c' tok]. by apply within_attempts.
Qed.
Lemma within_list_messages s c mail since : within (list_messages pages s c mail since).
Proof.
  unfold list_messages, gmail_list_messages, graph_list_messages. destruct mail; try solve [within_code].
  apply within_bind; [apply within_gmail_execute; intros tok; apply within_gmail_pages | intros [m|]; within_code].
Qed.
Lemma within_chat_waiting r : within (chat r).
Proof. apply within_chat; [off | simpl; tauto]. Qed.
#[local] Hint Resolve within_list_messages within_chat_waiting : within.
Lemma within_generate_digest s : within (generate_digest pages s).
Proof. unfold generate_digest, _active_mail_connection, digest_summary, store_digest. within_code. Qed.
#[local] Hint Resolve within_generate_digest : within.
Lemma within_digest_task id : within (generate_digest_task pages id).
Proof. unfold generate_digest_task. within_code. Qed.

Lemma sample_functions name t task : _find_task (MODULES pages) name t = Some task -> forall i, within (pt_fn task i).
Proof.
  unfold _find_task, get_module, MODULES. cbn [List.find]. destruct (str_eqb _ name); [| done]. cbn [mm_periodic_tasks manifest List.find].
  destruct (str_eqb _ t); [| done]. intros [= <-]. apply within_digest_task.
Qed.
Lemma sample_handlers r wk : start_worker (MODULES pages) r = Ok wk ->
  forall cap h ev, In h (event_handlers (wk_handlers wk) cap) -> within (h ev).
Proof.
  unfold start_worker, register_runtime. destruct (validate_registry _); [| done].
  destruct (register_modules _ _) as [[[]|e] r'] eqn:E; [| done]. intros [= <-] cap h ev. cbn [wk_handlers].
  destruct (register_modules_ok _ _ _ E) as [_ H]. rewrite H. cbn [MODULES flat_map manifest mm_connector_events List.filter ce_capability snd app].
  destruct (str_eqb _ cap); [| intros []]. intros [<-|[]]. unfold on_mail_event. cbn [ce_handler]. within_code.
Qed.
Lemma sample_messages r wk e m : start_worker (MODULES pages) r = Ok wk -> deliver (MODULES pages) wk e = Some m ->
  table_task m \/ within m.
Proof. intros Hw. apply within_deliver; [done | by apply (sample_handlers r) | apply sample_functions]. Qed.
End sample.
