(* ===== verification/Unique.v ===== *)
(** The uniqueness constraints of the tables, through the programs that do not wait:
    requests, commands, the tasks that delete or count. A session checks an object
    it adds against what it sees, and what it sees is what its commit makes of the
    tables as long as no other session has work pending on the same table. [sound o
    m]: [o] says which session writes each table; from a point where no other session
    has anything pending on it and the constraints hold in the table and in what that
    session sees of it, [m] leads to such a point. *)
From S2P Require Import Cli Usage Provisioning Prelude PyStr Hashing Base64 Json Config Tokens Models Permissions World Uuid Orm Isolation AuthService Slug Deps Edge Journal Frame Http Directory AuthRouter Dates Iso Pricing Policy Quota Gateway OAuth Providers Throttle Rely ConnectorTokens JournalRouter Mailer DirectoryRouter ConnectorRouter Webhooks Contract Automation SampleDigest Within WithinTasks.

(** The tables with a constraint beside a random identifier. *)
Definition constrained (t : table) : bool :=
  match t with AuditEvents | AIUsageEvents | Connections | Subscriptions | Digests => false | _ => true end.
Definition unconstrained_tables : list table := [AuditEvents; AIUsageEvents; Connections; Subscriptions; Digests].
Lemma unconstrained_in t : constrained t = true -> ~ In t unconstrained_tables.
Proof. destruct t; simpl; intuition discriminate. Qed.

(** ** Rows no two of which are in conflict *)

Definition unique (t : table) (l : list (row t)) : Prop := ForallOrdPairs (fun a b => conflicts t a b = false) l.

Lemma conflicts_sym t a b : conflicts t a b = conflicts t b a.
Proof.
  destruct t; cbn; apply eq_true_iff_eq;
    repeat rewrite ?orb_true_iff, ?andb_true_iff, ?N.eqb_eq, ?Z.eqb_eq, ?str_eqb_eq, ?bool_decide_eq_true; intuition congruence.
Qed.

(** A test of it. *)
Fixpoint no_conflict (t : table) (l : list (row t)) : bool :=
  match l with [] => true | a :: l' => negb (existsb (conflicts t a) l') && no_conflict t l' end.
Lemma no_conflict_unique t l : no_conflict t l = true -> unique t l.
Proof.
  induction l as [|a l IH]; simpl; [constructor |]. rewrite andb_true_iff, negb_true_iff. intros [Ha Hl]. constructor; [| by apply IH].
  rewrite List.Forall_forall. intros b Hb. destruct (conflicts t a b) eqn:E; [| done].
  rewrite <- Ha. symmetry. apply existsb_exists. by exists b.
Qed.

(** What a reader of [unique] expects of it. *)
Lemma unique_lookup t l i j a b : unique t l -> l !! i = Some a -> l !! j = Some b -> conflicts t a b = true -> i = j.
Proof.
  intros Hl. revert i j a b. induction Hl as [|x l Hx Hl IH]; [done |].
  rewrite List.Forall_forall in Hx. intros [|i] [|j] a b; simpl; [done | | | intros Ha Hb Hc; f_equal; by eapply IH].
  - intros [= <-] Hb Hc. rewrite (Hx b) in Hc by (apply list_elem_of_In; by eapply list_elem_of_lookup_2). done.
  - intros Ha [= <-] Hc. rewrite conflicts_sym, (Hx a) in Hc by (apply list_elem_of_In; by eapply list_elem_of_lookup_2). done.
Qed.

Lemma unique_snoc t l r : unique t l -> existsb (conflicts t r) l = false -> unique t (l ++ [r]).
Proof.
  intros Hl. induction Hl as [|x l Hx Hl IH]; simpl; [by intros _; repeat constructor |].
  rewrite orb_false_iff. intros [Hr Hex]. constructor; [| by apply IH].
  apply List.Forall_app. split; [done |]. constructor; [| constructor]. by rewrite conflicts_sym.
Qed.
Lemma unique_delete t p l : unique t l -> unique t (delete_where p l).
Proof.
  unfold delete_where. intros Hl. induction Hl as [|x l Hx Hl IH]; simpl; [constructor |].
  destruct (negb (p x)); [| done]. constructor; [| done]. rewrite List.Forall_forall in *. intros y Hy.
  apply List.filter_In in Hy as [Hy _]. by apply Hx.
Qed.
(** Assignments to columns that no constraint is on. *)
Definition key_kept (t : table) (f : row t -> row t) : Prop := forall a b, conflicts t (f a) b = conflicts t a b.
Lemma unique_update t p f l : key_kept t f -> unique t l -> unique t (update_where p f l).
Proof.
  unfold update_where. intros Hf Hl.
  assert (Hk : forall x y, conflicts t (if p x then f x else x) (if p y then f y else y) = conflicts t x y).
  { intros x y. assert (H : forall u v, conflicts t u (f v) = conflicts t u v) by (intros u v; by rewrite conflicts_sym, Hf, conflicts_sym).
    destruct (p x), (p y); by rewrite ?Hf, ?H. }
  induction Hl as [|x l Hx Hl IH]; simpl; [constructor |]. constructor; [| done].
  rewrite List.Forall_forall in *. intros y Hy. apply List.in_map_iff in Hy as (z & <- & Hz). rewrite Hk. by apply Hx.
Qed.

(** ** Programs *)

Section rules.
Context {VK : Valkey}.
Variable o : table -> sess.
Implicit Types (w : World).

Definition consistent w : Prop := forall t, constrained t = true -> exists F,
  (forall s d, w_pend w s d t = if sess_eq_dec (o t) s then F (d t) else d t) /\
  unique t (w_db w t) /\ unique t (F (w_db w t)).
Definition sound {A} (m : M A) : Prop := forall w, consistent w -> consistent (m w).2.

Lemma sound_pure {A} (m : M A) : (forall w, w_db (m w).2 = w_db w /\ w_pend (m w).2 = w_pend w) -> sound m.
Proof. intros H w Hw t Ht. destruct (H w) as [-> ->]. by apply Hw. Qed.
Lemma sound_still {A} (m : M A) : still unconstrained_tables m -> sound m.
Proof.
  intros H w Hw t Ht. destruct (H w) as (Hd & _ & _ & Hp). destruct (Hw t Ht) as (F & H1 & H2 & H3).
  exists F. rewrite Hd. split; [| done]. intros s d. rewrite Hp by (by apply unconstrained_in). apply H1.
Qed.
Lemma sound_bind {A B} (m : M A) (k : A -> M B) : sound m -> (forall a, sound (k a)) -> sound (bind m k).
Proof. intros Hm Hk w Hw. unfold bind. specialize (Hm w Hw). destruct (m w) as [[a|e] w']; [by apply Hk | done]. Qed.
Lemma sound_catch {A} (m : M A) h : sound m -> (forall e k, h e = Some k -> sound k) -> sound (catch m h).
Proof.
  intros Hm Hh w Hw. unfold catch. specialize (Hm w Hw). destruct (m w) as [[a|e] w']; [done |].
  destruct (h e) as [k|] eqn:E; [| done]. by apply (Hh e k E).
Qed.
Lemma sound_finally {A} (m : M A) f : sound m -> (forall w, consistent w -> consistent (f w)) -> sound (finally m f).
Proof. intros Hm Hf w Hw. unfold finally. specialize (Hm w Hw). destruct (m w) as [r w']. by apply Hf. Qed.
Lemma consistent_closed s w : consistent w -> consistent (closed s w).
Proof.
  intros Hw t Ht. destruct (Hw t Ht) as (F & H1 & H2 & H3). exists (if sess_eq_dec (o t) s then id else F).
  split; [| split; [done | by destruct (sess_eq_dec (o t) s)]]. intros s' d. simpl.
  destruct (sess_eq_dec s s') as [<-|Hs]; [by destruct (sess_eq_dec (o t) s) |]. rewrite H1.
  destruct (sess_eq_dec (o t) s') as [E|]; [| done]. destruct (sess_eq_dec (o t) s); congruence.
Qed.
Lemma sound_with_session {A} s (m : M A) : sound m -> sound (with_session s m).
Proof. intros Hm w Hw. apply (sound_finally m (closed s)); [done | apply consistent_closed | by apply consistent_closed]. Qed.
Lemma sound_commit s : sound (commit s).
Proof.
  intros w Hw t Ht. destruct (Hw t Ht) as (F & H1 & H2 & H3). exists (if sess_eq_dec (o t) s then id else F).
  simpl. unfold sees. rewrite H1. split; [| by destruct (sess_eq_dec (o t) s)]. intros s' d.
  destruct (sess_eq_dec s s') as [<-|Hs]; [by destruct (sess_eq_dec (o t) s) |]. rewrite H1.
  destruct (sess_eq_dec (o t) s') as [E|]; [| done]. destruct (sess_eq_dec (o t) s); congruence.
Qed.
Lemma sound_pop {A} (m : M A) tok : sound m -> sound (finally m (pop_tenant tok)).
Proof. intros Hm. by apply sound_finally. Qed.
Lemma sound_tenant_context {A} ctx (m : M A) : sound m -> sound (tenant_context ctx m).
Proof. intros Hm. apply sound_bind; [by apply sound_pure |]. intros tok. by apply sound_pop. Qed.
Lemma sound_get_tenant_session {A} s (m : M A) : sound m -> sound (get_tenant_session s m).
Proof. intros Hm. apply sound_bind; [apply sound_still, still_current_tenant |]. intros _. by apply sound_with_session. Qed.
Lemma sound_for_each {A} (l : list A) f : (forall a, sound (f a)) -> sound (for_each l f).
Proof. intros H. induction l as [|a l IH]; [by apply sound_still |]. simpl. by apply sound_bind. Qed.
Lemma sound_collect {A} n (m : M A) : sound m -> sound (collect n m).
Proof.
  intros H. induction n as [|n IH]; cbn [collect]; [by apply sound_still |]. apply sound_bind; [done |]. intros a.
  apply sound_bind; [done |]. intros l. by apply sound_still.
Qed.

(** A write on a table, by the session that writes it, that keeps the constraints in
    what the session sees. *)
Lemma consistent_wrote s t (G : list (row t) -> list (row t)) w : consistent w ->
  (constrained t = true -> o t = s /\ (unique t (sees w s t) -> unique t (G (sees w s t)))) -> consistent (wrote s (upd t G) w).
Proof.
  intros Hw HG u Hu. destruct (Hw u Hu) as (F & H1 & H2 & H3). destruct (table_eq_dec t u) as [<-|Hne].
  - destruct (HG Hu) as [<- HG']. exists (fun l => G (F l)). unfold sees in HG'. rewrite H1 in HG'.
    destruct (sess_eq_dec (o t) (o t)); [| done]. split; [| split; [done | by apply HG']]. intros s d. simpl.
    destruct (sess_eq_dec (o t) s) as [<-|Hs]; [| by rewrite H1; destruct (sess_eq_dec (o t) s)].
    rewrite upd_eq, H1. by destruct (sess_eq_dec (o t) (o t)).
  - exists F. split; [| done]. intros s' d. simpl. destruct (sess_eq_dec s s') as [<-|]; [| apply H1]. rewrite upd_ne by done. apply H1.
Qed.
Lemma sound_touched s t r (G : list (row t) -> list (row t)) :
  (constrained t = true -> o t = s /\ forall l, unique t l -> unique t (G l)) ->
  sound (let* _ := guard_flush_touched t r in write s (upd t G)).
Proof.
  intros HG. apply sound_bind; [apply sound_still, still_guard_touched |]. intros _ w Hw. apply consistent_wrote; [done |].
  intros Ht. destruct (HG Ht) as [Ho Hu]. split; [done | apply Hu].
Qed.
Lemma sound_modify s t r f : (constrained t = true -> o t = s /\ key_kept t f) -> sound (modify s t r f).
Proof. intros H. apply sound_touched. intros Ht. destruct (H Ht) as [Ho Hf]. split; [done |]. intros l. by apply unique_update. Qed.
Lemma sound_remove s t r : (constrained t = true -> o t = s) -> sound (remove s t r).
Proof. intros H. apply sound_touched. intros Ht. split; [by apply H |]. intros l. by apply unique_delete. Qed.
Lemma sound_delete_rows s t p : (constrained t = true -> o t = s) -> sound (delete_rows s t p).
Proof.
  intros H. apply sound_bind; [apply sound_still, still_guard |]. intros c. apply sound_bind; [by apply sound_pure |]. intros db.
  apply sound_bind; [| intros _; by apply sound_pure]. intros w Hw. apply consistent_wrote; [done |].
  intros Ht. split; [by apply H | by apply unique_delete].
Qed.
Lemma sound_add s t r : (constrained t = true -> o t = s) -> sound (add s t r).
Proof.
  intros H. apply sound_bind; [apply sound_still, still_guard_new |]. intros r' w Hw. unfold bind, view, raise, write, ret.
  destruct (existsb (conflicts t r') (sees w s t)) eqn:E; [done |]. apply consistent_wrote; [done |].
  intros Ht. split; [by apply H |]. intros Hu. by apply unique_snoc.
Qed.
End rules.

Create HintDb sound.

(** Follow the code. The session of a table, and that an assignment leaves the columns
    of the constraints alone, are settled where a row is written. *)
Ltac own_session := first [discriminate | intros _; first [assumption | reflexivity]].
Ltac own_keys := first [discriminate | intros _; split; [first [assumption | reflexivity] | intros ? ?; reflexivity]].
Ltac sound_code :=
  repeat (cbn zeta beta; match goal with
  | |- sound _ (bind _ _) => apply sound_bind; [| intros ?]
  | |- sound _ (commit _) => apply sound_commit
  | |- sound _ (with_session _ _) => apply sound_with_session
  | |- sound _ (get_tenant_session _ _) => apply sound_get_tenant_session
  | |- sound _ (tenant_context _ _) => apply sound_tenant_context
  | |- sound _ (for_each _ _) => apply sound_for_each; intros ?
  | |- sound _ (collect _ _) => apply sound_collect
  | |- sound ?o (add ?s ?t ?r) => simple refine (sound_add o s t r _); solve [own_session]
  | |- sound ?o (modify ?s ?t ?r ?f) => simple refine (sound_modify o s t r f _); solve [own_keys]
  | |- sound ?o (remove ?s ?t ?r) => simple refine (sound_remove o s t r _); solve [own_session]
  | |- sound ?o (delete_rows ?s ?t ?p) => simple refine (sound_delete_rows o s t p _); solve [own_session]
  | |- sound _ (catch _ _) => apply sound_catch; [| let e := fresh "exc" in let k := fresh "k" in intros e k; destruct e; intros [= <-]]
  | |- sound _ (match ?x with _ => _ end) => destruct x
  | |- sound _ _ => solve [assumption | auto 2 with sound | apply sound_still; first [solve [still_code] | auto 3 with frame]]
  end).

(** ** The services *)

Section services.
Context {P : Platform}.
Variable o : table -> sess.
Abbreviation sound := (sound o).

Lemma sound_credentials_or_new s u : o Credentials = s -> sound (credentials_or_new s u).
Proof. intros H. unfold credentials_or_new, get_credentials. sound_code. Qed.
Lemma sound_set_password s u p : o Credentials = s -> sound (set_password s u p).
Proof. intros H. pose proof (sound_credentials_or_new s u H). unfold set_password. sound_code. Qed.
Lemma sound_authenticate s e p : o Credentials = s -> sound (authenticate s e p).
Proof. intros H. unfold authenticate, get_user_by_email, get_credentials, verify_password. sound_code. Qed.
Lemma sound_create_session s u : o Sessions = s -> sound (create_session s u).
Proof. intros H. unfold create_session. sound_code. Qed.
Lemma sound_resolve_session s t : o Sessions = s -> sound (resolve_session s t).
Proof. intros H. unfold resolve_session, get_user. sound_code. Qed.
Lemma sound_revoke_session s a : o Sessions = s -> sound (revoke_session s a).
Proof. intros H. unfold revoke_session. sound_code. Qed.
Lemma sound_create_login_challenge s u : o LoginChallenges = s -> sound (create_login_challenge s u).
Proof. intros H. unfold create_login_challenge. sound_code. Qed.
Lemma sound_consume_login_challenge s t : o LoginChallenges = s -> sound (consume_login_challenge s t).
Proof. intros H. unfold consume_login_challenge. sound_code. Qed.
Lemma sound_verify_totp_code s c code : o Credentials = s -> sound (_verify_totp_code s c code).
Proof. intros H. unfold _verify_totp_code. cbn [try_counters]. sound_code. Qed.
Lemma sound_setup_totp s u : o Credentials = s -> sound (setup_totp s u).
Proof. intros H. pose proof (sound_credentials_or_new s (us_id u) H). unfold setup_totp. sound_code. Qed.
Lemma sound_activate_totp s u c : o Credentials = s -> o RecoveryCodes = s -> sound (activate_totp s u c).
Proof.
  intros H1 H2. unfold activate_totp, get_credentials, token_hex, new_recovery_code. apply sound_bind; [sound_code |].
  intros [cr|]; [| sound_code]. pose proof (sound_verify_totp_code s cr c H1). sound_code.
Qed.
Lemma sound_disable_totp s u p : o Credentials = s -> o RecoveryCodes = s -> sound (disable_totp s u p).
Proof. intros H1 H2. unfold disable_totp, get_credentials. sound_code. Qed.
Lemma sound_verify_second_factor s u c : o Credentials = s -> o RecoveryCodes = s -> sound (verify_second_factor s u c).
Proof.
  intros H1 H2. unfold verify_second_factor, get_credentials. apply sound_bind; [sound_code |].
  intros [cr|]; [| sound_code]. pose proof (sound_verify_totp_code s cr c H1). sound_code.
Qed.

(** The directory *)
Lemma sound_create_invitation s t e r a b : o Invitations = s -> sound (create_invitation s t e r a b).
Proof. intros H. unfold create_invitation, get_user_by_email, get_membership. sound_code. Qed.
Lemma sound_revoke_invitation s t i : o Invitations = s -> sound (revoke_invitation s t i).
Proof. intros H. unfold revoke_invitation. sound_code. Qed.
Lemma sound_accept_invitation s t p d : o Users = s -> o Credentials = s -> o Memberships = s -> o Invitations = s ->
  sound (accept_invitation s t p d).
Proof.
  intros H1 H2 H3 H4. unfold accept_invitation, invited_user, get_user_by_email, get_membership.
  pose proof (fun u p => sound_set_password s u p H2). sound_code.
Qed.
Lemma sound_change_member_role s t u r a : o Memberships = s -> sound (change_member_role s t u r a).
Proof. intros H. unfold change_member_role, get_membership, _count_owners. sound_code. Qed.
Lemma sound_remove_member s t u a : o Memberships = s -> sound (remove_member s t u a).
Proof. intros H. unfold remove_member, get_membership, _count_owners. sound_code. Qed.

Lemma sound_record s a rt ri p u l : sound (record_audit_event s a rt ri p u l).
Proof. apply sound_still, still_record_audit_event. simpl. tauto. Qed.
End services.

(** ** The routes *)

(** The sessions of a request: the teams are a tenant's, the rest is the control
    session's. *)
Definition request_session (t : table) : sess := match t with Teams | TeamMembers => Ten | _ => Ctl end.

#[export] Hint Resolve sound_authenticate sound_create_session sound_resolve_session sound_revoke_session
  sound_create_login_challenge sound_consume_login_challenge sound_setup_totp sound_activate_totp sound_disable_totp
  sound_verify_second_factor sound_create_invitation sound_revoke_invitation sound_accept_invitation
  sound_change_member_role sound_remove_member sound_record : sound.

Section routes.
Context {P : Platform}.
Abbreviation sound := (sound request_session).

Lemma sound_current_auth_or_none rq : sound (current_auth_or_none rq).
Proof. unfold current_auth_or_none. sound_code. Qed.
Lemma sound_current_auth auth : sound (current_auth auth).
Proof. unfold current_auth. sound_code. Qed.
Lemma sound_auth_route {A} rq (h : CurrentAuth -> M A) : (forall a, sound (h a)) -> sound (auth_route rq h).
Proof.
  intros Hh. apply sound_with_session, sound_bind; [apply sound_current_auth_or_none |]. intros auth.
  apply sound_bind; [apply sound_current_auth | apply Hh].
Qed.
Lemma sound_resolve_tenant {A} rq auth (k : TenantContext -> M A) : (forall ctx, sound (k ctx)) -> sound (resolve_tenant rq auth k).
Proof.
  intros Hk. unfold resolve_tenant, get_membership_row. destruct (extract_slug _) as [slug|]; [| sound_code].
  apply sound_bind; [sound_code |]. intros [t|]; [| sound_code]. destruct (is_some (tn_deleted_at t)); [sound_code |].
  destruct (bool_decide _); [sound_code |]. destruct auth as [a|]; [| sound_code]. apply sound_bind; [sound_code |].
  intros [m|]; [| sound_code]. apply sound_bind; [by apply sound_pure |]. intros tok. apply sound_pop, Hk.
Qed.
Lemma sound_require_permission {A} p rq auth (k : TenantContext -> M A) :
  (forall ctx, sound (k ctx)) -> sound (require_permission p rq auth k).
Proof.
  intros Hk. apply sound_resolve_tenant. intros ctx w Hw. destruct (tc_role ctx) as [role|]; [| done].
  destruct (role_has_permission _ _ _); [by apply Hk | done].
Qed.
Lemma sound_permission_route {A} p rq (h : TenantContext -> CurrentAuth -> M A) : (forall c a, sound (h c a)) -> sound (permission_route p rq h).
Proof.
  intros Hh. apply sound_with_session, sound_bind; [apply sound_current_auth_or_none |]. intros auth.
  apply sound_require_permission. intros ctx. apply sound_bind; [apply sound_current_auth | apply Hh].
Qed.
Lemma sound_tenant_route {A} p rq (h : TenantContext -> CurrentAuth -> M A) : (forall c a, sound (h c a)) -> sound (tenant_route p rq h).
Proof. intros Hh. apply sound_permission_route. intros c a. by apply sound_get_tenant_session. Qed.
Lemma sound_module_route {A} name p rq (h : TenantContext -> M A) : (forall c, sound (h c)) -> sound (module_route name p rq h).
Proof.
  intros Hh. apply sound_with_session, sound_bind; [apply sound_current_auth_or_none |]. intros auth.
  apply sound_resolve_tenant. intros ctx. unfold require_module_enabled, is_module_enabled. apply sound_bind.
  - apply sound_bind; [by apply sound_pure |]. intros [b|]; [sound_code |]. apply sound_bind; [sound_code |]. intros row.
    apply sound_bind; [by apply sound_pure | intros _; sound_code].
  - intros b. destruct (negb b); [sound_code |]. intros w Hw. unfold check_permission.
    destruct (tc_role ctx) as [role|]; [| done]. destruct (role_has_permission _ _ _); [by apply Hh | done].
Qed.
End routes.

(** ** The operations *)

#[local] Hint Resolve still_issued_tokens : frame.

Section operations.
Context {P : Platform} {HX : Httpx} {FL : Floats} {IF : IsoFormats} {JW : Jose} {LLM : LiteLLM}.
Abbreviation sound := (sound request_session).

Lemma sound_record_for_tenant own t a rt ri p u l : sound (record_audit_event_for_tenant own t a rt ri p u l).
Proof. unfold record_audit_event_for_tenant. sound_code. Qed.
#[local] Hint Resolve sound_record_for_tenant : sound.

(** Authentication *)
Lemma sound_login rq e p : sound (login rq e p).
Proof. unfold login, public_route, request. sound_code. Qed.
Lemma sound_login_totp rq t c : sound (login_totp rq t c).
Proof. unfold login_totp, public_route, request, challenge_user. sound_code. Qed.
Lemma sound_logout rq : sound (logout rq).
Proof. apply sound_auth_route. intros a. unfold revoke_session. sound_code. Qed.
Lemma sound_get_me rq : sound (get_me rq).
Proof. apply sound_auth_route. intros a. unfold get_credentials. sound_code. Qed.
Lemma sound_totp_setup rq : sound (totp_setup rq).
Proof. apply sound_auth_route. intros a. unfold auth_error_as. sound_code. Qed.
Lemma sound_totp_activate rq c : sound (totp_activate rq c).
Proof. apply sound_auth_route. intros a. unfold auth_error_as. sound_code. Qed.
Lemma sound_totp_disable rq p : sound (totp_disable rq p).
Proof. apply sound_auth_route. intros a. unfold auth_error_as. sound_code. Qed.
Lemma sound_oauth_start p rq : sound (oauth_start p rq).
Proof. unfold oauth_start, oauth_error_as, build_authorization_url, _fetch_metadata. sound_code. Qed.
Lemma sound_invitations_accept rq t p d : sound (invitations_accept rq t p d).
Proof. unfold invitations_accept, public_route, request, directory_error_as. sound_code. Qed.
Lemma sound_audit_list l c f rq : sound (audit_events_list l c f rq).
Proof.
  unfold audit_events_list, request. apply sound_with_session, sound_bind; [apply sound_current_auth_or_none |].
  intros auth. apply sound_require_permission. intros ctx. unfold audit_events_list_in. sound_code.
Qed.

(** The directory *)
Ltac in_tenant := apply sound_tenant_route; intros c a.
Lemma sound_members_list rq : sound (members_list rq).
Proof. in_tenant. sound_code. Qed.
Lemma sound_invitations_list rq : sound (invitations_list rq).
Proof. in_tenant. sound_code. Qed.
Lemma sound_teams_list rq : sound (teams_list rq).
Proof. in_tenant. unfold teams_list_in. sound_code. Qed.
Lemma sound_team_members_list t rq : sound (team_members_list t rq).
Proof. in_tenant. unfold team_members_list_in, get_team. sound_code. Qed.
Lemma sound_member_change_role u r rq : sound (member_change_role u r rq).
Proof. in_tenant. unfold member_change_role_in, value_or_directory_error_as, audit. sound_code. Qed.
Lemma sound_member_remove u rq : sound (member_remove u rq).
Proof. in_tenant. unfold member_remove_in, directory_error_as, audit. sound_code. Qed.
Lemma sound_invitation_create e r rq : sound (invitation_create e r rq).
Proof.
  in_tenant. unfold invitation_create_in, value_or_directory_error_as, audit, get_mailer, SmtpMailer_send, NullMailer_send, smtp_do. sound_code.
Qed.
Lemma sound_invitation_revoke i rq : sound (invitation_revoke i rq).
Proof. in_tenant. unfold invitation_revoke_in, directory_error_as, audit. sound_code. Qed.
Lemma sound_team_create n d rq : sound (team_create n d rq).
Proof. in_tenant. unfold team_create_in, audit. sound_code. Qed.
Lemma sound_team_delete t rq : sound (team_delete t rq).
Proof. in_tenant. unfold team_delete_in, get_team, delete_team, audit. sound_code. Qed.
Lemma sound_team_member_add t u rq : sound (team_member_add t u rq).
Proof. in_tenant. unfold team_member_add_in, get_team, audit. sound_code. Qed.
Lemma sound_team_member_remove t u rq : sound (team_member_remove t u rq).
Proof. in_tenant. unfold team_member_remove_in, get_team, audit. sound_code. Qed.

(** OAuth login, and the connectors *)
Lemma sound_oauth_callback p c s : sound (oauth_callback p c s).
Proof.
  unfold oauth_callback, public_route, request, oauth_error_as, caller_of, complete_login, identified_user, get_user, get_user_by_email.
  pose proof (fun pr co no => still_fetch_info unconstrained_tables pr co no). sound_code.
Qed.
Lemma unconstrained_authorization_url W p slug u k l h cid : still W (connector_authorization_url p slug u k l h cid).
Proof. unfold connector_authorization_url. still_code. Qed.
Lemma unconstrained_upsert_connection s p k u l sc b c : still unconstrained_tables (_upsert_connection s p k u l sc b c).
Proof.
  unfold _upsert_connection, find_connection. pose proof (fun b => still_apply_token_bundle unconstrained_tables b). still_code.
Qed.
#[local] Hint Resolve unconstrained_authorization_url unconstrained_upsert_connection : frame.
Lemma sound_connectors_list rq : sound (connectors_list rq).
Proof. in_tenant. unfold connectors_list_in. sound_code. Qed.
Lemma sound_connector_start p l k rq : sound (connector_start p l k rq).
Proof. apply sound_permission_route. intros c a. unfold connector_start_in. sound_code. Qed.
Lemma sound_connector_reconsent i rq : sound (connector_reconsent i rq).
Proof. in_tenant. unfold connector_reconsent_in. sound_code. Qed.
Lemma sound_connector_callback p st code err : sound (connector_oauth_callback p st code err).
Proof.
  unfold connector_oauth_callback, public_route, request, state_error_as_400, connect, store_connection, upsert_or_400,
    _ensure_webhook_route, enqueue_subscription_sync. sound_code.
Qed.
Lemma sound_connector_revoke i rq : sound (connector_revoke i rq).
Proof. in_tenant. unfold connector_revoke_in, revoke_connection, remote_revoke, audit. sound_code. Qed.
Lemma sound_receive_webhook p k b : sound (receive_webhook p k b).
Proof.
  unfold receive_webhook, public_route, request, receive_webhook_in, _validated_notifications, dispatch_notification, enqueue_event. sound_code.
Qed.

(** The gateway, and the module of the repository *)
Lemma sound_call_provider {A} p m (call : Z -> nat -> A) : sound (call_provider p m call).
Proof. by apply sound_pure. Qed.
Lemma sound_incrby k n : sound (incrby k n).
Proof. apply sound_pure. intros w. unfold incrby. by repeat case_match. Qed.
Lemma sound_set_nx k n : sound (Quota.set_nx k n).
Proof. apply sound_pure. intros w. unfold Quota.set_nx. by repeat case_match. Qed.
Lemma sound_expire k n : sound (expire k n).
Proof. by apply sound_pure. Qed.
#[local] Hint Resolve sound_call_provider sound_incrby sound_set_nx sound_expire : sound.
Lemma sound_record_usage r : sound (record_usage r).
Proof. unfold record_usage, record_and_alert, add_usage, _emit_alert_once. sound_code. Qed.
#[local] Hint Resolve sound_record_usage : sound.
Lemma sound_chat_once c p pr m r : sound (_chat_once c p pr m r).
Proof. unfold _chat_once, _meter_wrap, record_and_alert, add_usage, _emit_alert_once. sound_code. Qed.
#[local] Hint Resolve sound_chat_once : sound.
Lemma sound_chat r : sound (chat r).
Proof.
  unfold chat, _load_policy, get_policy. do 2 (apply sound_bind; [sound_code | intros ?pol]). apply sound_bind; [sound_code |]. intros [pr mo].
  apply sound_catch; [auto with sound |]. intros e k. destruct e, (rp_fallback_provider pol0); intros [= <-]; sound_code.
Qed.
#[local] Hint Resolve sound_chat : sound.
Lemma sound_ai_chat p rq : sound (ai_chat p rq).
Proof. apply sound_permission_route. intros c a. unfold ai_chat_in. sound_code. Qed.
Lemma sound_list_digests rq : sound (list_digests rq).
Proof. apply sound_module_route. intros c. unfold list_digests_in. sound_code. Qed.
Lemma sound_run_now rq : sound (run_now rq).
Proof. apply sound_module_route. intros c. unfold run_now_in, enqueue_unit. sound_code. Qed.
End operations.

(** ** Commands, and the tasks that delete or count *)

Definition command_session (t : table) : sess := match t with TenantModules => Own 1 | _ => Own 0 end.

Section commands.
Context {P : Platform}.
Abbreviation sound := (sound command_session).

Lemma sound_recorded_for own t a rt ri p u l : sound (record_audit_event_for_tenant own t a rt ri p u l).
Proof. unfold record_audit_event_for_tenant. sound_code. Qed.
Lemma sound_invalidate t n : sound (_invalidate t n).
Proof. by apply sound_pure. Qed.
Lemma sound_missing_capabilities mods t n : sound (missing_capabilities mods t n).
Proof. unfold missing_capabilities, _tenant_granted_capabilities. sound_code. Qed.
Lemma still_module_refresh s (r : TenantModule) : still unconstrained_tables (session_refresh s TenantModules r).
Proof. exact (still_session_refresh _ s TenantModules r). Qed.
#[local] Hint Resolve sound_recorded_for sound_invalidate sound_missing_capabilities : sound.
#[local] Hint Resolve still_module_refresh : frame.
Lemma sound_enable_module mods t n a l : sound (enable_module mods (Own 1) t n a l).
Proof. unfold enable_module. sound_code. Qed.
Lemma sound_disable_module mods t n a l : sound (disable_module mods (Own 1) t n a l).
Proof. unfold disable_module. sound_code. Qed.

Lemma sound_or_exit {A} (m : M A) refusal lines prefix k : sound m -> (forall a, sound (k a)) -> sound (or_exit m refusal lines prefix k).
Proof.
  intros Hm Hk. unfold or_exit. apply sound_bind; [| intros [a|t]; [apply Hk | sound_code]].
  apply sound_catch; [sound_code |]. intros e k'. destruct (refusal e); intros [= <-]. sound_code.
Qed.
Lemma sound_provision slug name : sound (provision_tenant slug name).
Proof. unfold provision_tenant. sound_code. Qed.
Lemma sound_invite slug email role : sound (_invite slug email role).
Proof. unfold _invite. sound_code. Qed.
#[local] Hint Resolve sound_provision sound_invite : sound.
Lemma sound_tenant_create slug name owner : sound (tenant_create slug name owner).
Proof.
  unfold tenant_create. apply sound_or_exit; [auto with sound |]. intros t. destruct owner; [| sound_code].
  apply sound_or_exit; [auto with sound |]. intros u. sound_code.
Qed.
Lemma sound_cli_invitation slug email role : sound (Cli.invitation_create slug email role).
Proof. apply sound_or_exit; [auto with sound |]. intros u. sound_code. Qed.
Lemma sound_tenant_delete slug conf : sound (tenant_delete slug conf).
Proof.
  unfold tenant_delete. destruct (negb _); [sound_code |]. apply sound_or_exit; [unfold _soft_delete; sound_code |]. intros t. sound_code.
Qed.
Lemma sound_tenant_list : sound tenant_list.
Proof. unfold tenant_list, _tenant_rows. sound_code. Qed.

Lemma unique_upsert v rows : unique AIUsageDailies rows -> unique AIUsageDailies (on_conflict_do_update v rows).
Proof.
  intros H. unfold on_conflict_do_update. destruct (existsb _ _) eqn:E; [by apply unique_update | by apply unique_snoc].
Qed.
Lemma sound_upsert v : sound (upsert (Own 0) v).
Proof.
  apply sound_bind; [apply sound_still, still_guard |]. intros _ w Hw. apply consistent_wrote; [done |].
  intros _. split; [done |]. apply unique_upsert.
Qed.
Lemma sound_reconcile t n : sound (Quota.reconcile t n).
Proof. apply sound_bind; [sound_code |]. intros a. by apply sound_pure. Qed.
#[local] Hint Resolve sound_upsert sound_reconcile : sound.
Lemma sound_table_task m : table_task m -> sound m.
Proof.
  intros [|]; unfold purge_expired_auth_rows, _run_daily_rollup, aggregate_day, reconcile_month_quotas, purge_raw_events; sound_code.
Qed.
End commands.

#[export] Hint Resolve sound_login sound_login_totp sound_logout sound_get_me sound_totp_setup sound_totp_activate sound_totp_disable
  sound_invitations_accept sound_oauth_start sound_oauth_callback sound_members_list sound_member_change_role sound_member_remove
  sound_invitations_list sound_invitation_create sound_invitation_revoke sound_teams_list sound_team_create sound_team_delete
  sound_team_members_list sound_team_member_add sound_team_member_remove sound_audit_list sound_connectors_list
  sound_connector_start sound_connector_reconsent sound_connector_revoke sound_ai_chat sound_connector_callback
  sound_receive_webhook sound_list_digests sound_run_now sound_enable_module sound_disable_module sound_tenant_create
  sound_cli_invitation sound_tenant_delete sound_tenant_list sound_table_task : sound.
