(* ===== verification/Sealed.v ===== *)
(** The tokens at rest, for the tasks of the modules: the periodic unit, and the
    module of the repository, whose task reads mail with a connection's token and
    asks the gateway for a summary. With [ConnectorSystem], that is every program
    that may change a connection while others work. *)
From S2P Require Import Usage Prelude PyStr Hashing Base64 Json Config Tokens Models Permissions World Uuid Orm Isolation AuthService Slug Deps Edge Journal Frame Http Directory AuthRouter Dates Iso Pricing Policy Quota Gateway OAuth Providers Throttle Rely ConnectorTokens JournalRouter DirectoryRouter ConnectorRouter Webhooks Subscriptions Mail ConnectorTasks Contract Automation ConnectorSystem SampleDigest Worker.

(** [keeps_code], a handler of exceptions being looked at one exception at a time. *)
Ltac keeps_all :=
  repeat (progress keeps_code || match goal with
  | |- Rely.keeps _ _ (catch _ _) => apply keeps_catch; [| intros ?e ?k; destruct e; intros [= <-]]
  end).

Section modules.
Context {P : Platform} {OT : Others} {HX : Httpx} {FL : Floats} {IF : IsoFormats}.
Abbreviation keeps := (keeps Connections conn_ok).
Hypothesis others_ok : forall t n db kv, all_good Connections conn_ok db -> all_good Connections conn_ok (meanwhile t n db kv).1.

Lemma keeps_periodic_unit mods m t id :
  (forall task, _find_task mods m t = Some task -> forall i, keeps (pt_fn task i)) -> keeps (run_periodic_unit mods m t id).
Proof.
  intros Hf. unfold run_periodic_unit. destruct (_find_task mods m t) as [task|]; [| keeps_all].
  specialize (Hf task eq_refl). apply keeps_bind; [unfold _active_tenant; keeps_all |]. intros [tn|]; [| keeps_all].
  apply keeps_bind; [keeps_all |]. intros [tok|]; [| keeps_all]. apply keeps_tenant_context, keeps_finally; [| intros w; apply keeps_release].
  apply keeps_catch; [keeps_all; apply Hf |]. intros e k [= <-]. keeps_all.
Qed.

Lemma keeps_add_to s t r : t <> Connections -> keeps (add s t r).
Proof. intros Ht. apply (keeps_still _ _ [t]); [apply still_add; by left | intros [?|[]]; congruence]. Qed.
Lemma keeps_fanout mods m t : keeps (run_periodic_fanout mods m t).
Proof. unfold run_periodic_fanout, enabled_tenant_ids, enqueue_unit. keeps_all. Qed.
Lemma keeps_purge : keeps purge_expired_auth_rows.
Proof. unfold purge_expired_auth_rows. keeps_all. Qed.
Lemma keeps_upsert_usage s v : keeps (upsert s v).
Proof.
  apply (keeps_still _ _ [AIUsageDailies]); [| simpl; intuition discriminate].
  apply still_bind; [apply still_guard |]. intros _. apply still_write. by left.
Qed.
Lemma keeps_reconcile t n : keeps (Quota.reconcile t n).
Proof. apply keeps_bind; [keeps_all |]. intros a. by apply keeps_pure. Qed.
#[local] Hint Resolve keeps_upsert_usage keeps_reconcile : keeps.
Lemma keeps_rollup : keeps _run_daily_rollup.
Proof. unfold _run_daily_rollup, aggregate_day, reconcile_month_quotas, purge_raw_events. keeps_all. Qed.

(** A worker whose modules keep the tokens sealed performs messages that do. *)
Lemma keeps_message mods wk e m :
  (forall cap h ev, In h (event_handlers (wk_handlers wk) cap) -> keeps (h ev)) ->
  (forall name t task, _find_task mods name t = Some task -> forall i, keeps (pt_fn task i)) ->
  deliver mods wk e = Some m -> keeps m.
Proof.
  intros Hh Hf. destruct e as [| | |task args]; try done. unfold deliver, celery_task.
  pose proof keeps_rollup. pose proof keeps_purge. pose proof keeps_fanout.
  pose proof (fun m t id => keeps_periodic_unit mods m t id (Hf m t)).
  pose proof (keeps_perform (wk_handlers wk) others_ok Hh task args) as Hp.
  repeat (destruct (str_eqb task _)); [..| exact (Hp m)]; repeat (destruct args as [|? args]; try done); intros [= <-];
    unfold periodic_fanout_task, periodic_unit_task; keeps_all; auto.
Qed.
End modules.

(** ** The module of the repository *)

Section sample.
Context {P : Platform} {OT : Others} {HX : Httpx} {FL : Floats} {IF : IsoFormats} {EL : EmailLib} {GM : GmailSdk} {LLM : LiteLLM}.
Context (pages : nat).
Abbreviation keeps := (keeps Connections conn_ok).
Hypothesis others_ok : forall t n db kv, all_good Connections conn_ok db -> all_good Connections conn_ok (meanwhile t n db kv).1.

#[local] Hint Resolve keeps_record keeps_fresh_access_token keeps_provider_http_request : keeps.
#[local] Hint Extern 1 (Rely.keeps _ _ (add _ _ _)) => (apply keeps_add_to; discriminate) : keeps.

(** Mail *)
Lemma keeps_graph_request s c meth path body ps : keeps (graph_request s c meth path body ps).
Proof. unfold graph_request. keeps_all. Qed.
#[local] Hint Resolve keeps_graph_request : keeps.
Lemma keeps_graph_pages fuel s c path ps msgs limit : keeps (graph_pages fuel s c path ps msgs limit).
Proof.
  revert c path ps msgs. induction fuel as [|fuel IH]; intros c path ps msgs; destruct path as [path|]; cbn [graph_pages]; keeps_all; apply IH.
Qed.
Lemma keeps_gmail_call tok call : keeps (gmail_call tok call).
Proof. apply keeps_pure. intros w. unfold gmail_call. by case_match. Qed.
#[local] Hint Resolve keeps_graph_pages keeps_gmail_call : keeps.
Lemma keeps_gmail_metadata tok items : keeps (gmail_metadata tok items).
Proof. induction items as [|i items IH]; cbn [gmail_metadata]; keeps_all. Qed.
#[local] Hint Resolve keeps_gmail_metadata : keeps.
Lemma keeps_gmail_pages fuel tok label q pt msgs limit : keeps (gmail_pages fuel tok label q pt msgs limit).
Proof. revert pt msgs. induction fuel as [|fuel IH]; intros pt msgs; cbn [gmail_pages]; keeps_all; apply IH. Qed.
Lemma keeps_gmail_execute {A} s c (call : string -> M A) : (forall tok, keeps (call tok)) -> keeps (gmail_execute s c call).
Proof.
  intros Hc. unfold gmail_execute, run_with_backoff. apply keeps_bind; [by apply keeps_fresh_access_token |]. intros [c' tok]. by apply keeps_attempts.
Qed.
Lemma keeps_list_messages s c mail since : keeps (list_messages pages s c mail since).
Proof.
  unfold list_messages, gmail_list_messages, graph_list_messages. destruct mail; try solve [keeps_all].
  apply keeps_bind; [apply keeps_gmail_execute; intros tok; apply keeps_gmail_pages | intros [m|]; keeps_all].
Qed.

(** The gateway *)
Lemma keeps_call_provider {A} p m (call : Z -> nat -> A) : keeps (call_provider p m call).
Proof. by apply keeps_pure. Qed.
Lemma keeps_incrby k n : keeps (incrby k n).
Proof. apply keeps_pure. intros w. unfold incrby. by repeat case_match. Qed.
Lemma keeps_quota_nx k n : keeps (Quota.set_nx k n).
Proof. apply keeps_pure. intros w. unfold Quota.set_nx. by repeat case_match. Qed.
Lemma keeps_expire k n : keeps (expire k n).
Proof. by apply keeps_pure. Qed.
#[local] Hint Resolve keeps_call_provider keeps_incrby keeps_quota_nx keeps_expire : keeps.
Lemma keeps_record_for_tenant own t a rt ri p u l : keeps (record_audit_event_for_tenant own t a rt ri p u l).
Proof. unfold record_audit_event_for_tenant. keeps_all. Qed.
#[local] Hint Resolve keeps_record_for_tenant : keeps.
Lemma keeps_record_and_alert c n q : keeps (record_and_alert c n q).
Proof. unfold record_and_alert, add_usage, _emit_alert_once. keeps_all. Qed.
Lemma keeps_record_usage r : keeps (record_usage r).
Proof. unfold record_usage. keeps_all. Qed.
#[local] Hint Resolve keeps_record_and_alert keeps_record_usage : keeps.
Lemma keeps_chat_once c p pr m r : keeps (_chat_once c p pr m r).
Proof. unfold _chat_once, _meter_wrap. keeps_all. Qed.
#[local] Hint Resolve keeps_chat_once : keeps.
Lemma keeps_chat r : keeps (chat r).
Proof.
  unfold chat, _load_policy, get_policy. do 2 (apply keeps_bind; [keeps_all | intros ?pol]). apply keeps_bind; [keeps_all |]. intros [pr mo].
  apply keeps_catch; [auto with keeps |]. intros e k. destruct e, (rp_fallback_provider pol0); intros [= <-]; keeps_all.
Qed.
#[local] Hint Resolve keeps_list_messages keeps_chat : keeps.

Lemma keeps_generate_digest s : keeps (generate_digest pages s).
Proof. unfold generate_digest, _active_mail_connection, digest_summary, store_digest. keeps_all. Qed.
#[local] Hint Resolve keeps_generate_digest : keeps.
Lemma keeps_digest_task id : keeps (generate_digest_task pages id).
Proof. unfold generate_digest_task. keeps_all. Qed.

Lemma sealed_functions name t task : _find_task (MODULES pages) name t = Some task -> forall i, keeps (pt_fn task i).
Proof.
  unfold _find_task, get_module, MODULES. cbn [List.find]. destruct (str_eqb _ name); [| done]. cbn [mm_periodic_tasks manifest List.find].
  destruct (str_eqb _ t); [| done]. intros [= <-]. apply keeps_digest_task.
Qed.
Lemma sealed_handlers r wk : start_worker (MODULES pages) r = Ok wk ->
  forall cap h ev, In h (event_handlers (wk_handlers wk) cap) -> keeps (h ev).
Proof.
  unfold start_worker, register_runtime. destruct (validate_registry _); [| done].
  destruct (register_modules _ _) as [[[]|e] r'] eqn:E; [| done]. intros [= <-] cap h ev. cbn [wk_handlers].
  destruct (register_modules_ok _ _ _ E) as [_ H]. rewrite H. cbn [MODULES flat_map manifest mm_connector_events List.filter ce_capability snd app].
  destruct (str_eqb _ cap); [| intros []]. intros [<-|[]]. unfold on_mail_event. cbn [ce_handler]. keeps_all.
Qed.
Lemma sealed_messages r wk e m : start_worker (MODULES pages) r = Ok wk -> deliver (MODULES pages) wk e = Some m -> keeps m.
Proof. intros Hw. apply keeps_message; [exact others_ok | by apply (sealed_handlers r) | apply sealed_functions]. Qed.
End sample.
