(* ===== verification/Sends.v ===== *)
(** What an operation sends out. [sends Q m]: whatever [m] adds to the effects of the
    process - mails, calls to providers, messages for the workers - satisfies [Q].
    The rules follow the shape of the code; [sends_code] applies them, opens the
    definitions that have no rule, and leaves loops to their lemmas. *)
From S2P Require Import Cli Usage Provisioning Prelude PyStr Hashing Base64 Json Config Tokens Models Permissions World Uuid Orm Isolation AuthService Slug Deps Edge Journal Frame Http Directory AuthRouter Dates Iso Pricing Policy Quota Gateway OAuth Providers Throttle Rely ConnectorTokens JournalRouter Mailer DirectoryRouter ConnectorRouter Webhooks Subscriptions Mail ConnectorTasks Contract Automation SampleDigest Worker Application.

Section rules.
Context {P : Platform}.
Variable Q : effect -> Prop.
Implicit Types (w : World).

Definition adds (w w' : World) : Prop := exists l, w_out w' = w_out w ++ l /\ Forall Q l.
Definition sends {A} (m : M A) : Prop := forall w, adds w (m w).2.

Lemma adds_same w w' : w_out w' = w_out w -> adds w w'.
Proof. intros E. exists []. by rewrite E, app_nil_r. Qed.
Lemma adds_one w w' e : w_out w' = w_out w ++ [e] -> Q e -> adds w w'.
Proof. intros E H. exists [e]. auto. Qed.
Lemma adds_trans w1 w2 w3 : adds w1 w2 -> adds w2 w3 -> adds w1 w3.
Proof. intros (l1 & E1 & H1) (l2 & E2 & H2). exists (l1 ++ l2). rewrite E2, E1, app_assoc. split; [done | by apply Forall_app]. Qed.

Lemma sends_silent {A} (m : M A) : (forall w, w_out (m w).2 = w_out w) -> sends m.
Proof. intros H w. by apply adds_same. Qed.
Lemma sends_emit e : Q e -> sends (emit e).
Proof. intros H w. by eapply adds_one. Qed.
Lemma sends_bind {A B} (m : M A) (k : A -> M B) : sends m -> (forall a, sends (k a)) -> sends (bind m k).
Proof.
  intros Hm Hk w. unfold bind. specialize (Hm w). destruct (m w) as [[a|e] w']; [| done]. eapply adds_trans; [exact Hm | apply Hk].
Qed.
Lemma sends_catch {A} (m : M A) h : sends m -> (forall e k, h e = Some k -> sends k) -> sends (catch m h).
Proof.
  intros Hm Hh w. unfold catch. specialize (Hm w). destruct (m w) as [[a|e] w']; [done |]. destruct (h e) as [k|] eqn:E; [| done].
  eapply adds_trans; [exact Hm | by apply (Hh e)].
Qed.
Lemma sends_finally {A} (m : M A) f : sends m -> (forall w, adds w (f w)) -> sends (finally m f).
Proof. intros Hm Hf w. unfold finally. specialize (Hm w). destruct (m w) as [r w']. eapply adds_trans; [exact Hm | apply Hf]. Qed.
Lemma sends_with_session {A} s (m : M A) : sends m -> sends (with_session s m).
Proof.
  intros Hm w. eapply adds_trans; [by apply (adds_same w (closed s w)) |].
  apply (sends_finally m (closed s) Hm). intros w'. by apply adds_same.
Qed.
Lemma sends_for_each {A} (l : list A) f : (forall a, In a l -> sends (f a)) -> sends (for_each l f).
Proof.
  induction l as [|a l IH]; intros H; [by apply sends_silent |]. simpl. apply sends_bind; [apply H; by left |]. intros _.
  apply IH. intros b Hb. apply H. by right.
Qed.
Lemma sends_fold_each {A B} (l : list A) (b : B) f : (forall a b, sends (f a b)) -> sends (fold_each l b f).
Proof. intros H. revert b. induction l as [|a l IH]; intros b; cbn [fold_each]; [by apply sends_silent |]. by apply sends_bind. Qed.
Lemma sends_collect {A} n (m : M A) : sends m -> sends (collect n m).
Proof.
  intros H. induction n as [|n IH]; [by apply sends_silent |]. simpl. apply sends_bind; [done |]. intros a. apply sends_bind; [done |]. intros l. by apply sends_silent.
Qed.
End rules.

Create HintDb sends.

Ltac head_of m := match m with ?f _ => head_of f | _ => m end.
Ltac sends_leaf := apply sends_silent; intros ?w; cbv beta zeta; repeat case_match; reflexivity.
(** The handler [H : h e = Some k], one exception and one branch at a time. *)
Ltac handled H :=
  cbv beta iota in H; match type of H with
  | None = Some _ => discriminate H
  | Some _ = Some _ => injection H as <-
  | (match ?x with _ => _ end) = Some _ => destruct x; handled H
  | ?m = Some _ => let h := head_of m in unfold h in H; handled H
  end.
Ltac sends_step :=
  cbn zeta beta; match goal with
  | |- forall _, _ => intros ?
  | |- sends _ (bind _ _) => apply sends_bind; [| intros ?]
  | |- sends _ (catch _ _) => apply sends_catch; [| let H := fresh "H" in intros ?e ?k H; handled H]
  | |- sends _ (with_session _ _) => apply sends_with_session
  | |- sends _ (finally _ _) => apply sends_finally; [| intros ?w; try (apply adds_same; reflexivity)]
  | |- sends _ (for_each _ _) => apply sends_for_each; intros ? ?
  | |- sends _ (fold_each _ _ _) => apply sends_fold_each; intros ? ?
  | |- sends _ (collect _ _) => apply sends_collect
  | |- sends _ (emit _) => apply sends_emit; solve [auto 2 with sends]
  | |- sends _ (ret _) => apply sends_silent; reflexivity
  | |- sends _ (raise _) => apply sends_silent; reflexivity
  | |- sends _ (of_result _) => apply sends_silent; reflexivity
  | |- sends _ (match ?x with _ => _ end) => destruct x
  | |- sends _ (fun _ => _) => sends_leaf
  | |- sends _ _ => solve [assumption | auto 2 with sends]
  | |- sends _ ?m => let h := head_of m in unfold h
  end.
Ltac sends_code := repeat sends_step.

(** ** The parts that wait, call and loop *)

(** Every effect is fine but messages. *)
Definition calls_allowed (Q : effect -> Prop) : Prop :=
  (forall a b c, Q (EmailSent a b c)) /\ (forall a b, Q (ProviderCalled a b)) /\ forall a b, Q (HttpCalled a b).

Section parts.
Context {P : Platform} {OT : Others} {HX : Httpx} {FL : Floats} {IF : IsoFormats}.
Variable Q : effect -> Prop.
Hypothesis calls : calls_allowed Q.
Abbreviation sends := (sends Q).

Lemma sends_http rq : sends (http_send rq).
Proof.
  intros w. unfold http_send. apply (adds_one Q w _ (HttpCalled (hr_method rq) (hr_url rq))); [| apply calls].
  by destruct (http_answer _ _ _).
Qed.
Lemma sends_mail a b c : sends (emit (EmailSent a b c)).
Proof. apply sends_emit, calls. Qed.
#[local] Hint Resolve sends_http sends_mail : sends.

Lemma sends_attempts {A} m c (attempt : M A) left : sends attempt -> sends (attempts m c attempt left).
Proof. intros Ha. induction left as [|left IH]; cbn [attempts]; sends_code. Qed.
Lemma sends_wait n : sends (wait_for_lock n).
Proof. unfold wait_for_lock. induction LOCK_ATTEMPTS as [|left IH]; cbn [wait_attempts]; sends_code. Qed.
Lemma sends_release n t : sends (release_lock n t).
Proof. sends_code. Qed.
Lemma sends_mailer to subj body : sends (get_mailer to subj body).
Proof. sends_code. Qed.
End parts.

(** ** Operations, commands and tasks *)

Section operations.
Context {P : Platform} {OT : Others} {HX : Httpx} {FL : Floats} {IF : IsoFormats} {EL : EmailLib} {GM : GmailSdk} {JW : Jose} {LLM : LiteLLM}.
Context (pages : nat).
Variable Q : effect -> Prop.
Hypothesis calls : calls_allowed Q.
Hypothesis on_sync : forall slug id, Q (TaskPublished "connectors.sync_subscriptions" [slug; uuid_str id]).
Hypothesis on_event : forall slug id p cap ch rid, Q (event_task slug id p cap ch rid).
Hypothesis on_unit : forall m t id, Q (unit_task m t id).
Abbreviation sends := (sends Q).
#[local] Hint Resolve sends_http sends_mail sends_attempts sends_wait sends_release sends_mailer on_sync on_event on_unit : sends.

Lemma sends_call_provider {A} p m (call : Z -> nat -> A) : sends (call_provider p m call).
Proof. intros w. by apply (adds_one Q w _ (ProviderCalled p m)); [| apply calls]. Qed.
#[local] Hint Resolve sends_call_provider : sends.

(** The dependencies of a route *)
Lemma sends_resolve_tenant {A} rq auth (k : TenantContext -> M A) : (forall ctx, sends (k ctx)) -> sends (resolve_tenant rq auth k).
Proof. intros Hk. unfold resolve_tenant. sends_code; auto. Qed.
Lemma sends_require_permission {A} p rq auth (k : TenantContext -> M A) : (forall ctx, sends (k ctx)) -> sends (require_permission p rq auth k).
Proof.
  intros Hk. apply sends_resolve_tenant. intros ctx w. destruct (tc_role ctx) as [role|]; [| by apply adds_same].
  destruct (role_has_permission _ _ _); [apply Hk | by apply adds_same].
Qed.
Lemma sends_tenant_route {A} p rq (h : TenantContext -> CurrentAuth -> M A) : (forall c a, sends (h c a)) -> sends (tenant_route p rq h).
Proof.
  intros Hh. apply sends_with_session, sends_bind; [sends_code |]. intros auth. apply sends_require_permission. intros ctx.
  apply sends_bind; [sends_code |]. intros a. specialize (Hh ctx a). sends_code.
Qed.
Lemma sends_permission_route {A} p rq (h : TenantContext -> CurrentAuth -> M A) : (forall c a, sends (h c a)) -> sends (permission_route p rq h).
Proof.
  intros Hh. apply sends_with_session, sends_bind; [sends_code |]. intros auth. apply sends_require_permission. intros ctx.
  apply sends_bind; [sends_code | apply Hh].
Qed.
Lemma sends_check_permission {A} p ctx (k : M A) : sends k -> sends (check_permission p ctx k).
Proof.
  intros Hk w. unfold check_permission. destruct (tc_role ctx) as [role|]; [| by apply adds_same].
  destruct (role_has_permission _ _ _); [apply Hk | by apply adds_same].
Qed.
Lemma sends_module_route {A} n p rq (h : TenantContext -> M A) : (forall c, sends (h c)) -> sends (module_route n p rq h).
Proof.
  intros Hh. apply sends_with_session, sends_bind; [sends_code |]. intros auth. apply sends_resolve_tenant. intros ctx.
  pose proof (fun k => sends_check_permission (A := A) p ctx k). unfold require_module_enabled, is_module_enabled. sends_code; auto.
Qed.

Ltac operation_code :=
  repeat (lazymatch goal with
  | |- _ (tenant_route _ _ _) => apply sends_tenant_route; intros ?c ?a
  | |- _ (permission_route _ _ _) => apply sends_permission_route; intros ?c ?a
  | |- _ (module_route _ _ _ _) => apply sends_module_route; intros ?c
  | |- _ (require_permission _ _ _ _) => apply sends_require_permission; intros ?c
  | |- _ (attempts _ _ _ _) => apply sends_attempts
  | |- adds _ ?w (release_lock _ _ ?w).2 => apply sends_release
  | _ => sends_step
  end).
Lemma serve_sends op rq : sends (serve_operation op rq).
Proof.
  destruct op; cbn [serve_operation].
  all: operation_code.
Qed.

(** Tasks of the connectors *)
Lemma sends_refresh_tokens : sends refresh_expiring_tokens.
Proof. operation_code. Qed.
Lemma sends_ensure_all s old k c caps : sends (ensure_all s old k c caps).
Proof. revert c. induction caps as [|cap caps IH]; intros c; cbn [ensure_all]; operation_code. Qed.
#[local] Hint Resolve sends_ensure_all : sends.
Lemma sends_renew_all : sends renew_expiring_subscriptions.
Proof. operation_code. Qed.
Lemma sends_sync slug id : sends (sync_connection_subscriptions slug id).
Proof. operation_code. Qed.
Lemma sends_process_event registry slug id p cap ch rid :
  (forall cap h e, In h (event_handlers registry cap) -> sends (h e)) -> sends (process_connector_event registry slug id p cap ch rid).
Proof. intros Hh. operation_code; eapply Hh; eassumption. Qed.

(** The module of the repository *)
Lemma sends_graph_pages fuel s c path ps msgs limit : sends (graph_pages fuel s c path ps msgs limit).
Proof.
  revert c path ps msgs. induction fuel as [|fuel IH]; intros c path ps msgs; destruct path as [path|]; cbn [graph_pages]; operation_code.
Qed.
Lemma sends_gmail_call tok call : sends (gmail_call tok call).
Proof.
  intros w. unfold gmail_call. eapply (adds_one Q w); [| apply calls]. by case_match.
Qed.
#[local] Hint Resolve sends_gmail_call : sends.
Lemma sends_gmail_metadata tok items : sends (gmail_metadata tok items).
Proof. induction items as [|i items IH]; cbn [gmail_metadata]; operation_code. Qed.
#[local] Hint Resolve sends_gmail_metadata : sends.
Lemma sends_gmail_pages fuel tok label q pt msgs limit : sends (gmail_pages fuel tok label q pt msgs limit).
Proof. revert pt msgs. induction fuel as [|fuel IH]; intros pt msgs; cbn [gmail_pages]; operation_code. Qed.
#[local] Hint Resolve sends_graph_pages sends_gmail_pages : sends.
Lemma sends_digest_task id : sends (generate_digest_task pages id).
Proof. operation_code. Qed.

Lemma sends_periodic_unit mods m t id :
  (forall task, _find_task mods m t = Some task -> forall i, sends (pt_fn task i)) -> sends (run_periodic_unit mods m t id).
Proof.
  intros Hf. unfold run_periodic_unit. destruct (_find_task mods m t) as [task|]; [specialize (Hf task eq_refl) | sends_code]. operation_code.
Qed.
Lemma sends_message mods wk e m :
  (forall cap h ev, In h (event_handlers (wk_handlers wk) cap) -> sends (h ev)) ->
  (forall name t task, _find_task mods name t = Some task -> forall i, sends (pt_fn task i)) ->
  deliver mods wk e = Some m -> sends m.
Proof.
  intros Hh Hf. destruct e as [| | |task args]; try done. unfold deliver, celery_task, perform.
  pose proof sends_refresh_tokens. pose proof sends_renew_all. pose proof sends_sync.
  pose proof (fun slug id p cap ch rid => sends_process_event (wk_handlers wk) slug id p cap ch rid Hh).
  pose proof (fun m t id => sends_periodic_unit mods m t id (Hf m t)).
  repeat (destruct (str_eqb task _)); try done; repeat (destruct args as [|? args]; try done); intros [= <-];
    unfold refresh_expiring_tokens_task, renew_subscriptions_task, sync_subscriptions_task, connector_event_received_task,
      periodic_fanout_task, periodic_unit_task.
  all: operation_code; auto.
Qed.
Lemma sending_functions name t task : _find_task (MODULES pages) name t = Some task -> forall i, sends (pt_fn task i).
Proof.
  unfold _find_task, get_module, MODULES. cbn [List.find]. destruct (str_eqb _ name); [| done]. cbn [mm_periodic_tasks manifest List.find].
  destruct (str_eqb _ t); [| done]. intros [= <-]. apply sends_digest_task.
Qed.
Lemma sending_handlers r wk : start_worker (MODULES pages) r = Ok wk ->
  forall cap h ev, In h (event_handlers (wk_handlers wk) cap) -> sends (h ev).
Proof.
  unfold start_worker, register_runtime. destruct (validate_registry _); [| done].
  destruct (register_modules _ _) as [[[]|e] r'] eqn:E; [| done]. intros [= <-] cap h ev. cbn [wk_handlers].
  destruct (register_modules_ok _ _ _ E) as [_ H]. rewrite H. cbn [MODULES flat_map manifest mm_connector_events List.filter ce_capability snd app].
  destruct (str_eqb _ cap); [| intros []]. intros [<-|[]]. unfold on_mail_event. cbn [ce_handler]. sends_code.
Qed.
Lemma sends_messages r wk e m : start_worker (MODULES pages) r = Ok wk -> deliver (MODULES pages) wk e = Some m -> sends m.
Proof. intros Hw. apply sends_message; [by apply (sending_handlers r) | apply sending_functions]. Qed.
End operations.
