(* ===== verification/System.v ===== *)
(** The system as a transition relation: any request to any operation of the API, by
    anyone, any message delivered to a worker, the commands of [saas], the
    activation of modules, time passing and Valkey losing or gaining keys, in any
    order; and what holds in every state reached. Requests and commands run to their
    end; a task sleeps, and the others change the world meanwhile. *)
From S2P Require Import Cli Usage Provisioning Prelude PyStr Hashing Base64 Json Config Tokens Models Permissions World Orm Isolation AuthService Slug Deps Edge Journal Frame Http Directory AuthRouter Dates Iso Pricing Policy Quota Gateway OAuth Providers Throttle Rely ConnectorTokens JournalRouter DirectoryRouter ConnectorRouter Webhooks Subscriptions Mail ConnectorTasks Contract Automation SampleDigest Worker ConnectorSystem Application Within WithinTasks Unique Sealed Sends Sample.

(** The commands, and the service that activates modules, in a session of its
    caller. *)
Inductive command :=
  | TenantCreate (slug : string) (name owner_email : option string)
  | InvitationCreate (slug email role : string)
  | TenantDelete (slug confirmation : string)
  | TenantList
  | EnableModule (tenant : Tenant) (module_name : string) (actor : option N) (label : option string)
  | DisableModule (tenant : Tenant) (module_name : string) (actor : option N) (label : option string).

Section system.
Context {P : Platform} {OT : Others} {HX : Httpx} {FL : Floats} {IF : IsoFormats} {EL : EmailLib} {GM : GmailSdk} {JW : Jose} {LLM : LiteLLM}.
Context (pages : nat).

Definition run_command (c : command) : M unit :=
  match c with
  | TenantCreate s n e => ignore (tenant_create s n e)
  | InvitationCreate s e r => ignore (Cli.invitation_create s e r)
  | TenantDelete s c => ignore (tenant_delete s c)
  | TenantList => ignore tenant_list
  | EnableModule t n a l => ignore (with_session (Own 1) (enable_module (MODULES pages) (Own 1) t n a l))
  | DisableModule t n a l => ignore (with_session (Own 1) (disable_module (MODULES pages) (Own 1) t n a l))
  end.

(** The sessions and the context of a request end with it. *)
Definition settle {A} (r : result A * World) : World := {|
  w_db := w_db r.2; w_pend := fun _ => id; w_now := w_now r.2; w_entropy := w_entropy r.2; w_drawn := w_drawn r.2;
  w_tenant := None; w_grants := w_grants r.2; w_kv := w_kv r.2; w_states := w_states r.2; w_out := w_out r.2 |}.

Inductive step : World -> World -> Prop :=
  | step_request op given rq w : step w (settle (create_app op given rq w))
  | step_message r wk e m w : start_worker (MODULES pages) r = Ok wk -> deliver (MODULES pages) wk e = Some m -> step w (settle (m w))
  | step_command c w : step w (settle (run_command c w))
  | step_time t w : w_now w <= t -> step w (set_now t w)
  | step_valkey kv w : step w (set_kv kv w).

Lemma step_quiet w w' : quiet w -> step w w' -> quiet w'.
Proof. intros Hq Hs. destruct Hs; first [exact Hq | exact (conj (fun _ => eq_refl) eq_refl)]. Qed.
End system.

Section command_sends.
Context {P : Platform} {OT : Others} {HX : Httpx} {FL : Floats} {IF : IsoFormats} {EL : EmailLib} {GM : GmailSdk} {JW : Jose} {LLM : LiteLLM}.
Context (pages : nat).
Variable Q : effect -> Prop.
Lemma command_sends c : sends Q (run_command pages c).
Proof. destruct c; cbn [run_command]; sends_code. Qed.
End command_sends.

(** ** Where the writes go *)

Section writes.
Context {P : Platform} {OT : Others} {HX : Httpx} {FL : Floats} {IF : IsoFormats} {EL : EmailLib} {GM : GmailSdk} {JW : Jose} {LLM : LiteLLM}.
Context (pages : nat).
Variable K : tolerance.
Abbreviation within := (within K).
Implicit Types (w : World).

(** Every operation but the two that manage members and the acceptance of an
    invitation leaves the memberships alone. *)
Definition manages_members (op : operation) : bool :=
  match op with changeMemberRole _ _ | removeMember _ | acceptInvitation _ _ _ => true | _ => false end.

(** The routes of the connectors that may change the connections. *)
Definition serves_connectors (op : operation) : bool :=
  match op with
  | listConnectors | startConnector _ _ _ | reconsentConnector _ | revokeConnector _ | connectorOauthCallback _ _ _ _ | connectorWebhook _ _ _ => true
  | _ => false
  end.

Lemma serve_within op rq : manages_members op = false -> within elsewhere (serve_operation op rq).
Proof.
  destruct op; intros Hop; try discriminate Hop; cbn [serve_operation]; unfold ignore;
    try simple apply within_ignore; first [exact elsewhere_off | auto 2 with within].
  by apply within_still; [exact elsewhere_off |].
Qed.
Lemma serve_off_connections op rq : manages_members op = false -> serves_connectors op = false ->
  within off_connections (serve_operation op rq).
Proof.
  destruct op; intros Hop Hc; try discriminate Hop; try discriminate Hc; cbn [serve_operation]; unfold ignore;
    try simple apply within_ignore; first [exact connections_off | auto 2 with within].
  by apply within_still; [exact connections_off |].
Qed.

Lemma still_accept_invitation W s t p d : In Users W -> In Credentials W -> In Memberships W -> In Invitations W ->
  still W (accept_invitation s t p d).
Proof.
  intros H1 H2 H3 H4. unfold accept_invitation. pose proof (fun i => still_invited_user W s i p d H1 H2). still_code.
Qed.

Definition members_tables : list table := [Sessions; Users; Credentials; Memberships; Invitations].
Lemma members_off : ~ In AuditEvents members_tables.
Proof. simpl. intuition discriminate. Qed.
Lemma managing_within op rq : manages_members op = true -> within members_tables (serve_operation op rq).
Proof.
  destruct op as [| | | | | | | |t p d| | | |u r|u| | | | | | | | | | | | | | | | | | |]; intros Hop; try discriminate Hop; cbn [serve_operation]; unfold ignore.
  - apply within_ignore; [exact members_off |]. unfold invitations_accept, public_route, request, directory_error_as, record_audit_event_for_tenant.
    pose proof (still_accept_invitation members_tables Ctl t p d ltac:(simpl; tauto) ltac:(simpl; tauto) ltac:(simpl; tauto) ltac:(simpl; tauto)).
    pose proof (still_enforce members_tables rq "invitation-accept" [t]). within_code.
  - apply within_ignore; [exact members_off |]. apply within_tenant_route; [exact members_off | simpl; tauto |].
    intros c a. unfold member_change_role_in, audit. within_code.
  - apply within_tenant_route; [exact members_off | simpl; tauto |]. intros c a. unfold member_remove_in, audit. within_code.
Qed.

Lemma command_within connections c : ~ In AuditEvents (elsewhere_and connections) -> within (elsewhere_and connections) (run_command pages c).
Proof.
  intros Hoff. destruct c; apply within_ignore; try exact Hoff; try apply within_with_session; auto 2 with within.
Qed.

Lemma create_app_run op given rq w :
  (create_app op given rq w).2 = w \/
  exists w1, (w1 = w \/ w1 = set_drawn (S (w_drawn w)) w) /\ (create_app op given rq w).2 = (serve_operation op rq w1).2.
Proof.
  unfold create_app, Csrf.dispatch.
  assert (H : exists w1, (w1 = w \/ w1 = set_drawn (S (w_drawn w)) w) /\
    (RequestIdMiddleware given (serve_operation op rq) w).2 = (serve_operation op rq w1).2).
  { destruct (request_id_run given (serve_operation op rq) w) as (w1 & rid & Hw1 & ->). by exists w1. }
  destruct (str_in _ _); [| by right]. destruct (rq_origin rq); [| by right]. destruct (negb _); [by left | by right].
Qed.

(** From a quiet world, where nothing is pending. *)
Lemma within_quiet W {A} (m : M A) w : quiet w -> within W m -> forall t, allowed K W t (w_db w t) (w_db (m w).2 t).
Proof. intros Hq Hm. apply Hm. by apply quiet_settled. Qed.
Lemma elsewhere_memberships l l' : allowed K elsewhere Memberships l l' -> K Memberships l l'.
Proof. intros [H|H]; [| done]. simpl in H. exfalso. intuition discriminate. Qed.
End writes.

(** ** Who may change the memberships *)

Section memberships.
Context {P : Platform}.

Definition off_memberships : list table :=
  [Tenants; Users; Credentials; RecoveryCodes; Sessions; LoginChallenges; OAuthIdentities; Invitations; AuditEvents;
   Teams; TeamMembers; AIPolicies; AIUsageEvents; AIUsageDailies; TenantModules;
   Connections; Subscriptions; WebhookRoutes; Digests].
Lemma off_memberships_out : ~ In Memberships off_memberships.
Proof. simpl. intuition discriminate. Qed.

Lemma in_off t : t <> Memberships -> In t off_memberships.
Proof. destruct t; simpl; intuition. Qed.

Ltac off := simpl; tauto.

Ltac frame_route :=
  repeat (cbn zeta beta; match goal with
  | |- frame _ (bind _ _) => first [apply still_frame; solve [still_code] | apply frame_bind; [| intros ?]]
  | |- frame _ (catch _ _) => apply frame_catch; [| intros ?e ?k; destruct e; intros [= <-]]
  | |- frame _ (delete_team _) => apply still_frame, still_delete_team; simpl; tauto
  | |- frame _ _ => progress frame_code
  end).

(** What one step may do to the table [l] of memberships. *)
Inductive member_change (w : World) (l l' : list Membership) : Prop :=
  | mc_same : l' = l -> member_change w l l'
  | mc_role m role actor_role : In m l -> may_change l (mb_tenant_id m) m role actor_role ->
      l' = update_where (same_row Memberships m) (with_role role) l -> member_change w l l'
  | mc_remove m actor_role : In m l -> may_remove l (mb_tenant_id m) m actor_role ->
      l' = delete_where (same_row Memberships m) l -> member_change w l l'
  | mc_join m i : existsb (conflicts Memberships m) l = false ->
      In i (w_db w Invitations) -> iv_accepted_at i = None -> w_now w <= iv_expires_at i ->
      mb_tenant_id m = iv_tenant_id i -> mb_role m = iv_role i -> l' = l ++ [m] -> member_change w l l'.

(** A handler that changes members: work on the control session, then code that
    leaves the table alone, then the commits. [idle l]: nothing is pending on the
    table, which is [l]; [working F l]: the control session holds [F]. *)
Definition idle (l : list Membership) (w : World) : Prop :=
  w_db w Memberships = l /\ forall s d, w_pend w s d Memberships = d Memberships.
Definition working (F : list Membership -> list Membership) (l : list Membership) (w : World) : Prop :=
  w_db w Memberships = l /\
  forall s d, w_pend w s d Memberships = if sess_eq_dec Ctl s then F (d Memberships) else d Memberships.

Definition changes {A} (Q : list Membership -> Prop) (l : list Membership) (m : M A) : Prop :=
  forall w, idle l w -> Q (w_db (m w).2 Memberships).
Definition concludes {A} (F : list Membership -> list Membership) (l : list Membership) (m : M A) : Prop :=
  forall w, working F l w -> w_db (m w).2 Memberships = l \/ w_db (m w).2 Memberships = F l.

Lemma changes_frame {A} (Q : list Membership -> Prop) l (m : M A) : Q l -> frame off_memberships m -> changes Q l m.
Proof.
  intros Hl Hm w [H1 H2]. destruct (Hm w) as [_ H]; [| by rewrite H, H1 by apply off_memberships_out].
  intros s d t Ht. destruct t; try (exfalso; apply Ht; by apply in_off). apply H2.
Qed.
Lemma changes_still {A B} (Q : list Membership -> Prop) l (m : M A) (k : A -> M B) :
  Q l -> still off_memberships m -> (forall a, changes Q l (k a)) -> changes Q l (bind m k).
Proof.
  intros Hl Hm Hk w [H1 H2]. unfold bind. destruct (Hm w) as (G1 & _ & _ & G4).
  destruct (m w) as [[a|e] w']; simpl in *; [| by rewrite G1, H1]. apply Hk. split; [by rewrite G1 |].
  intros s d. by rewrite (G4 s d Memberships off_memberships_out).
Qed.
Lemma changes_work {A B} (Q : list Membership -> Prop) l (m : M A) (k : A -> M B) : Q l ->
  (forall w, idle l w -> match m w with
     | (Ok a, w') => exists F, working F l w' /\ Q (F l) /\ concludes F l (k a)
     | (Raise _, w') => w_db w' Memberships = l end) -> changes Q l (bind m k).
Proof.
  intros Hl Hm w Hw. unfold bind. specialize (Hm w Hw). destruct (m w) as [[a|e] w']; simpl; [| by rewrite Hm].
  destruct Hm as (F & H1 & H2 & H3). by destruct (H3 w' H1) as [-> | ->].
Qed.
Lemma concludes_still {A B} F l (m : M A) (k : A -> M B) :
  still off_memberships m -> (forall a, concludes F l (k a)) -> concludes F l (bind m k).
Proof.
  intros Hm Hk w [H1 H2]. unfold bind. destruct (Hm w) as (G1 & _ & _ & G4).
  destruct (m w) as [[a|e] w']; simpl in *; [| left; by rewrite G1, H1]. apply Hk. split; [by rewrite G1 |].
  intros s d. by rewrite (G4 s d Memberships off_memberships_out).
Qed.
Lemma concludes_commit_tenant {B} F l (k : unit -> M B) : concludes F l (k tt) -> concludes F l (bind (commit Ten) k).
Proof.
  intros Hk w [H1 H2]. unfold bind, commit. apply Hk. split; simpl.
  - unfold sees. by rewrite H2.
  - intros s d. destruct (sess_eq_dec Ten s) as [<-|]; [done | apply H2].
Qed.
Lemma concludes_commit {B} F l (k : unit -> M B) : frame off_memberships (k tt) -> concludes F l (bind (commit Ctl) k).
Proof.
  intros Hk w [H1 H2]. right. unfold bind, commit. set (w' := set_pend Ctl id _).
  refine (changes_frame (fun x => x = F l) (F l) (k tt) eq_refl Hk w' _). split; simpl.
  - unfold sees. rewrite H2, H1. done.
  - intros s d. destruct (sess_eq_dec Ctl s); [done |]. rewrite H2. by destruct (sess_eq_dec Ctl s).
Qed.

Lemma idle_sees l w : idle l w -> sees w Ctl Memberships = l.
Proof. intros [H1 H2]. unfold sees. by rewrite H2. Qed.
Lemma idle_wrote l w F : idle l w -> working F l (wrote Ctl (upd Memberships F) w).
Proof.
  intros [H1 H2]. split; [done |]. intros s d. simpl. destruct (sess_eq_dec Ctl s) as [<-|]; [| apply H2].
  by rewrite upd_eq, H2.
Qed.
Ltac memberships_code :=
  repeat (cbn zeta beta; match goal with
  | |- concludes _ _ (bind (commit Ten) _) => apply concludes_commit_tenant
  | |- concludes _ _ (bind (commit Ctl) _) => apply concludes_commit; frame_route
  | |- concludes _ _ (bind _ _) => apply concludes_still; [solve [still_code | auto with frame] | intros ?]
  | |- concludes _ _ (match ?x with _ => _ end) => destruct x
  end).

Lemma change_role_members w l uid role ctx auth :
  changes (member_change w l) l (member_change_role_in uid role ctx auth).
Proof.
  assert (Hl : member_change w l l) by by apply mc_same. unfold member_change_role_in.
  destruct (tc_role ctx) as [actor|]; [| by apply changes_frame; [| frame_route]].
  apply changes_still; [done | exact (still_scalar _ _ Memberships _) |]. intros prev.
  apply changes_work; [done |]. intros w0 Hw. pose proof (change_member_role_run Ctl (tc_tenant_id ctx) uid role actor w0) as Hc.
  unfold value_or_directory_error_as, catch. destruct (change_member_role Ctl (tc_tenant_id ctx) uid role actor w0) as [r w1].
  destruct (membership_of w0 Ctl (tc_tenant_id ctx) uid) as [m|] eqn:Em;
    [| destruct Hc as [-> [e ->]]; destruct e; apply Hw].
  destruct Hc as [(_ & Hmay & -> & ->) | (_ & -> & e & ->)]; [| destruct e; apply Hw].
  apply membership_of_Some in Em as (Hin & _ & Ht). rewrite (idle_sees l w0 Hw) in Hin, Hmay.
  exists (update_where (same_row Memberships m) (with_role role)). split; [by apply idle_wrote |].
  split; [rewrite <- Ht in Hmay; by eapply mc_role |]. unfold audit. memberships_code.
Qed.

Lemma remove_members w l uid ctx auth : changes (member_change w l) l (member_remove_in uid ctx auth).
Proof.
  assert (Hl : member_change w l l) by by apply mc_same. unfold member_remove_in.
  destruct (tc_role ctx) as [actor|]; [| by apply changes_frame; [| frame_route]].
  apply changes_still; [done | exact (still_scalar _ _ Memberships _) |]. intros target.
  apply changes_still; [done | still_code |]. intros email.
  apply changes_work; [done |]. intros w0 Hw. pose proof (remove_member_run Ctl (tc_tenant_id ctx) uid actor w0) as Hc.
  unfold directory_error_as, catch. destruct (remove_member Ctl (tc_tenant_id ctx) uid actor w0) as [r w1].
  destruct (membership_of w0 Ctl (tc_tenant_id ctx) uid) as [m|] eqn:Em;
    [| destruct Hc as [-> [e ->]]; destruct e; apply Hw].
  destruct Hc as [(Hmay & -> & ->) | (_ & -> & e & ->)]; [| destruct e; apply Hw].
  apply membership_of_Some in Em as (Hin & _ & Ht). rewrite (idle_sees l w0 Hw) in Hin, Hmay.
  exists (delete_where (same_row Memberships m)). split; [by apply idle_wrote |].
  split; [rewrite <- Ht in Hmay; by eapply mc_remove |]. unfold audit. memberships_code.
Qed.

Lemma working_wrote_ne F l w t f : t <> Memberships -> working F l w -> working F l (wrote Ctl (upd t f) w).
Proof.
  intros Ht [H1 H2]. split; [done |]. intros s d. rewrite <- H2. simpl. destruct (sess_eq_dec Ctl s) as [<-|]; [| done].
  exact (upd_ne t Memberships f _ Ht).
Qed.

Lemma accept_working l tok pw dn w : idle l w ->
  let '(r, w') := accept_invitation Ctl tok pw dn w in
  w_db w' Memberships = l /\
  match r with
  | Ok _ => exists m i, existsb (conflicts Memberships m) l = false /\ In i (sees w Ctl Invitations) /\
      iv_accepted_at i = None /\ w_now w <= iv_expires_at i /\ mb_tenant_id m = iv_tenant_id i /\
      mb_role m = iv_role i /\ working (fun l => l ++ [m]) l w'
  | Raise _ => True
  end.
Proof.
  intros Hw. unfold accept_invitation. run. case_query as [i|] Ei; [| by split; [apply Hw |]].
  apply first_where_Some in Ei as [Hin _].
  destruct (iv_accepted_at i) eqn:Ea; [by split; [apply Hw |] |]. cbn [is_some orb].
  destruct (Z.ltb_spec (iv_expires_at i) (w_now w)); [by split; [apply Hw |] |].
  assert (Hst : still [Users; Credentials] (invited_user Ctl i pw dn)) by (apply still_invited_user; simpl; tauto).
  unfold bind at 1. destruct (Hst w) as (D & _ & _ & Pd).
  destruct (invited_user Ctl i pw dn w) as [[u|e] wu]; simpl in D, Pd; [| by rewrite D; split; [apply Hw |]].
  assert (Hwu : idle l wu).
  { split; [rewrite D; apply Hw |]. intros s d. rewrite Pd; [apply Hw | simpl; intuition discriminate]. }
  unfold get_membership. run. case_if as Em; [by split; [apply Hwu |] |]. run. rewrite (idle_sees l wu Hwu).
  case_if as Ec; [by split; [apply Hwu |] |]. run. split; [apply Hwu |].
  eexists _, i. split; [exact Ec |]. do 3 (split; [done |]). split; [reflexivity |]. split; [reflexivity |].
  apply working_wrote_ne; [done |]. exact (idle_wrote l _ (fun l => l ++ [_]) Hwu).
Qed.

Lemma idle_same l w w' : same_world w w' -> idle l w' -> idle l w.
Proof. intros Hs [H1 H2]. split; [by rewrite (sw_db _ _ Hs) |]. intros s d. by rewrite (sw_pend _ _ Hs). Qed.
Lemma idle_quiet w : quiet w -> idle (w_db w Memberships) w.
Proof. intros [Hp _]. split; [done |]. intros s d. by rewrite Hp. Qed.

Lemma accept_members w rq tok pw dn : quiet w ->
  member_change w (w_db w Memberships) (w_db (invitations_accept rq tok pw dn w).2 Memberships).
Proof.
  intros Hq. unfold invitations_accept. open_route w Hq. cbn [closed set_pend w_db snd].
  assert (Hi : idle (w_db w Memberships) w0) by (eapply idle_same; [done | by apply idle_quiet]).
  set (l := w_db w Memberships) in *. assert (Hl : member_change w l l) by by apply mc_same. revert Hm.
  destruct (negb _); [intros [= <- <-]; rewrite (proj1 Hi); done |].
  destruct (RateLimit.enforce_rate_limit rq "invitation-accept" [tok] w0) as [re w1] eqn:Ee.
  pose proof (still_enforce [] rq "invitation-accept" [tok] w0) as (E1 & E2 & _ & E4). rewrite Ee in E1, E2, E4. simpl in E1, E2, E4.
  unfold bind at 1. rewrite Ee. destruct re as [[]|e]; [| intros [= <- <-]; rewrite E1, (proj1 Hi); done].
  assert (Hi1 : idle l w1).
  { split; [rewrite E1; apply Hi |]. intros s d. rewrite E4 by by intros []. apply Hi. }
  assert (Hinv : sees w1 Ctl Invitations = w_db w Invitations).
  { unfold sees. rewrite E4, E1 by by intros []. fold (sees w0 Ctl). by rewrite Hs. }
  pose proof (accept_working l tok pw dn w1 Hi1) as Ha. unfold directory_error_as, bind at 1, catch at 1.
  destruct (accept_invitation Ctl tok pw dn w1) as [[[u i]|e] w2]; destruct Ha as [Hd Ha];
    [| destruct e; intros [= <- <-]; by rewrite Hd].
  destruct Ha as (m & i' & Hc & Hin & H1 & H2 & H3 & H4 & Hwk). cbn beta iota. intros Hm.
  rewrite Hinv in Hin. rewrite E2, (sw_now _ _ Hw) in H2.
  assert (Hcl : w_db wr Memberships = l \/ w_db wr Memberships = l ++ [m]).
  { replace wr with (snd (r, wr)) by done. rewrite <- Hm. revert w2 Hwk Hd Hm. 
    match goal with |- forall w2, _ -> _ -> _ -> w_db (?k w2).2 _ = _ \/ _ => intros w2 Hwk _ _; apply (fun H : concludes (fun l => l ++ [m]) l k => H w2 Hwk) end.
    apply concludes_commit. frame_route. }
  destruct Hcl as [-> | ->]; [done |]. by eapply mc_join.
Qed.
End memberships.

(** ** The steps *)

Section steps.
Context {P : Platform} {OT : Others} {HX : Httpx} {FL : Floats} {IF : IsoFormats} {EL : EmailLib} {GM : GmailSdk} {JW : Jose} {LLM : LiteLLM}.
Context (pages : nat).
Implicit Types (w : World).

(** Drawing the identifier of a request changes none of this. *)
Lemma member_change_ext w w1 l l' : w_db w1 = w_db w -> w_now w1 = w_now w -> member_change w1 l l' -> member_change w l l'.
Proof.
  intros Hd Hn [->|m role ar|m ar|m i Hc Hin Ha Hx Ht Hr ->]; [by apply mc_same | by eapply mc_role | by eapply mc_remove |].
  rewrite Hd in Hin. rewrite Hn in Hx. by eapply mc_join.
Qed.

Lemma route_members {A} permission rq (h : TenantContext -> CurrentAuth -> M A) w : quiet w ->
  (forall l ctx auth, changes (member_change w l) l (h ctx auth)) ->
  member_change w (w_db w Memberships) (w_db (tenant_route permission rq h w).2 Memberships).
Proof.
  intros Hq Hch. pose proof (tenant_route_run permission rq h w Hq) as H.
  destruct (visited_fields w rq) as (Vp & _ & _ & _ & _ & _ & Vd). destruct (access _ _ _ _ _) as [[[ctx a] u]|e].
  - destruct H as (w1 & Hw1 & ->). apply Hch. eapply idle_same; [exact Hw1 |].
    split; [simpl; by rewrite Vd |]. intros s d. simpl. by rewrite Vp, (proj1 Hq).
  - destruct H as (w1 & -> & Hs). apply mc_same. simpl. rewrite (sw_db _ _ Hs). exact (Vd Memberships ltac:(done)).
Qed.

Lemma ignore_world {A} (m : M A) w : (ignore m w).2 = (m w).2.
Proof. unfold ignore, bind. by destruct (m w) as [[|] ?]. Qed.

Lemma serve_members op rq w : quiet w ->
  member_change w (w_db w Memberships) (w_db (serve_operation op rq w).2 Memberships).
Proof.
  intros Hq. destruct (manages_members op) eqn:Er.
  2: { apply mc_same. symmetry. apply (elsewhere_memberships nothing). exact (within_quiet nothing _ _ w Hq (serve_within nothing op rq Er) Memberships). }
  destruct op; try discriminate Er; cbn [serve_operation]; rewrite ?ignore_world; [by apply accept_members | |];
    apply route_members; try done; intros; [apply change_role_members | apply remove_members].
Qed.

(** A message is performed within the tables but those of the directory, whether the
    task waits or not. *)
Lemma allowed_weaken K W W' t l l' : (forall u, In u W -> In u W') -> allowed K W t l l' -> allowed K W' t l l'.
Proof.
  intros H. destruct (decide (t = AuditEvents)) as [->|Ht]; [done |]. rewrite !allowed_iff by done. intros [Hi|Hk]; [left; by apply H | by right].
Qed.
Lemma message_allowed K r wk e m w : behave K -> quiet w -> start_worker (MODULES pages) r = Ok wk ->
  deliver (MODULES pages) wk e = Some m -> forall t, allowed K elsewhere t (w_db w t) (w_db (m w).2 t).
Proof.
  intros Hb Hq Hw Hm t. destruct (sample_messages pages K Hb r wk e m Hw Hm) as [Ht|Hin].
  - apply (within_quiet K elsewhere m w Hq). destruct Ht; apply within_ignore; auto 2 with within.
  - apply (allowed_weaken K waiting_tables); [simpl; tauto |]. by apply (within_quiet K waiting_tables m w Hq).
Qed.

(** A task changes the memberships as the others do while it sleeps. *)
Lemma step_members (K : tolerance) w w' : behave K -> quiet w -> step pages w w' ->
  member_change w (w_db w Memberships) (w_db w' Memberships) \/ K Memberships (w_db w Memberships) (w_db w' Memberships).
Proof.
  intros Hb Hq Hs. destruct Hs as [op given rq w0 | r wk e m w0 Hw He | c w0 | t w0 Ht | kv w0];
    cbn [settle w_db set_now set_kv]; [left | right | right | by left; apply mc_same..].
  - destruct (create_app_run op given rq w0) as [-> | (w1 & Hw1 & ->)]; [by apply mc_same |].
    destruct Hw1 as [->| ->]; [by apply serve_members |]. apply (member_change_ext w0 (set_drawn (S (w_drawn w0)) w0)); try done.
    by apply (serve_members op rq (set_drawn (S (w_drawn w0)) w0)).
  - apply elsewhere_memberships. exact (message_allowed K r wk e m w0 Hb Hq Hw He Memberships).
  - apply elsewhere_memberships. exact (within_quiet K _ _ w0 Hq (command_within pages K [Connections] c elsewhere_off) Memberships).
Qed.

Lemma owners_length_snoc tid l m : (length (owners l tid) <= length (owners (l ++ [m]) tid))%nat.
Proof. unfold owners. rewrite rows_where_app, List.length_app. lia. Qed.

(** The rule that a change of the memberships is to obey. *)
Definition owners_kept (l l' : list Membership) : Prop := memberships_wf l ->
  memberships_wf l' /\ forall t, (1 <= length (owners l t))%nat -> (1 <= length (owners l' t))%nat.
Lemma owners_kept_pre : PreOrder owners_kept.
Proof.
  split; [by intros l Hl |]. intros l1 l2 l3 H1 H2 Hl. destruct (H1 Hl) as [G1 G2]. destruct (H2 G1) as [G3 G4].
  split; [done |]. intros t Ht. by apply G4, G2.
Qed.
Definition keeping_owners : tolerance.
Proof.
  refine {| tolerated t := match t return list (row t) -> list (row t) -> Prop with Memberships => owners_kept | _ => fun _ _ => True end |}.
  intros t. destruct t; first [exact owners_kept_pre | by split].
Defined.
Definition whatever : tolerance := {| tolerated t _ _ := True; tolerated_pre t := Build_PreOrder _ (fun _ => I) (fun _ _ _ _ _ => I) |}.

Lemma member_change_keeps w l l' : member_change w l l' -> owners_kept l l'.
Proof.
  intros Hch Hwf. destruct Hch as [->|m role ar Hin Hmay ->|m ar Hin Hmay ->|m i Hc _ _ _ _ _ ->].
  - done.
  - destruct (write_change l (mb_tenant_id m) m role ar) as (H1 & H2 & _); done.
  - destruct (write_remove l (mb_tenant_id m) m ar) as (H1 & H2 & _); done.
  - split; [by apply memberships_wf_add |]. intros t Ht. exact (Nat.le_trans _ _ _ Ht (owners_length_snoc t l m)).
Qed.

Lemma serve_journal op rq w : quiet w -> exists l, w_db (serve_operation op rq w).2 AuditEvents = w_db w AuditEvents ++ l.
Proof.
  intros Hq. destruct (manages_members op) eqn:Er.
  - exact (within_quiet nothing _ _ w Hq (managing_within nothing op rq Er) AuditEvents).
  - exact (within_quiet nothing _ _ w Hq (serve_within nothing op rq Er) AuditEvents).
Qed.
Lemma step_journal w w' : behave whatever -> quiet w -> step pages w w' -> exists l, w_db w' AuditEvents = w_db w AuditEvents ++ l.
Proof.
  intros Hb Hq Hs. assert (Hnone : forall w, exists l, w_db w AuditEvents = w_db w AuditEvents ++ l) by (intros; exists []; by rewrite app_nil_r).
  destruct Hs as [op given rq w | r wk e m w Hw He | c w | t w Ht | kv w]; cbn [settle w_db set_now set_kv]; [| | | apply Hnone..].
  - destruct (create_app_run op given rq w) as [-> | (w1 & Hw1 & ->)]; [apply Hnone |].
    destruct Hw1 as [->| ->]; [by apply serve_journal |]. by apply (serve_journal op rq (set_drawn (S (w_drawn w)) w)).
  - exact (message_allowed whatever r wk e m w Hb Hq Hw He AuditEvents).
  - exact (within_quiet whatever _ _ w Hq (command_within pages whatever [Connections] c elsewhere_off) AuditEvents).
Qed.

Definition reaches := rtc (step pages).

Lemma reaches_quiet w w' : quiet w -> reaches w w' -> quiet w'.
Proof. intros Hq Hr. induction Hr; [done |]. apply IHHr. by eapply step_quiet. Qed.



(** C9: the audit journal is append-only. In every state the system can reach, the
    journal of before is a prefix of the journal: no request, by anyone, to any
    operation of the API, no message to a worker and no command, failing or not,
    changes or removes an event, if what the others do while a task sleeps does
    not. *)
Theorem journal_is_append_only w w' :
  (forall t n (db : Db) kv, exists events, (meanwhile t n db kv).1 AuditEvents = db AuditEvents ++ events) ->
  quiet w -> reaches w w' -> exists l, w_db w' AuditEvents = w_db w AuditEvents ++ l.
Proof.
  intros Ho Hq Hr. assert (Hb : behave whatever) by (intros t n db kv; split; [done | apply Ho]).
  induction Hr as [w|w w1 w' Hs Hr IH]; [exists []; by rewrite app_nil_r |].
  destruct (step_journal w w1 Hb Hq Hs) as [l1 H1]. destruct (IH ltac:(by eapply step_quiet)) as [l2 H2].
  exists (l1 ++ l2). by rewrite H2, H1, app_assoc.
Qed.
End steps.

(** ** The tokens at rest *)

Section tokens.
Context {P : Platform} {OT : Others} {HX : Httpx} {FL : Floats} {IF : IsoFormats} {EL : EmailLib} {GM : GmailSdk} {JW : Jose} {LLM : LiteLLM}.
Context (pages : nat).
Implicit Types (w : World).
Hypothesis others_ok : forall t n db kv, all_good Connections conn_ok db -> all_good Connections conn_ok (meanwhile t n db kv).1.

Lemma good_quiet w : quiet w -> all_good Connections conn_ok (w_db w) -> good_world Connections conn_ok w.
Proof. intros [Hq _] Hw. split; [exact Hw |]. intros s d Hd. by rewrite Hq. Qed.
Lemma good_off_connections {A} W (m : M A) w : ~ In Connections W -> quiet w -> all_good Connections conn_ok (w_db w) ->
  within nothing W m -> all_good Connections conn_ok (w_db (m w).2).
Proof.
  intros HW Hq Hw Hm. destruct (within_quiet nothing W m w Hq Hm Connections) as [H|H]; [by destruct HW |]. unfold all_good. by rewrite <- H.
Qed.
Lemma keeps_quiet {A} (m : M A) w : quiet w -> all_good Connections conn_ok (w_db w) -> Rely.keeps Connections conn_ok m ->
  all_good Connections conn_ok (w_db (m w).2).
Proof. intros Hq Hw Hm. by apply (Hm w (good_quiet w Hq Hw)). Qed.

Lemma serve_sealed op rq w : quiet w -> all_good Connections conn_ok (w_db w) -> all_good Connections conn_ok (w_db (serve_operation op rq w).2).
Proof.
  intros Hq Hw. destruct (manages_members op) eqn:Em.
  { apply (good_off_connections members_tables); [simpl; intuition discriminate | done | done | by apply managing_within]. }
  destruct (serves_connectors op) eqn:Ec.
  2: { apply (good_off_connections off_connections); [simpl; intuition discriminate | done | done | by apply serve_off_connections]. }
  destruct op; try discriminate Ec; cbn [serve_operation]; rewrite ?ignore_world; apply keeps_quiet; try done.
  - apply keeps_list.
  - by apply keeps_start.
  - by apply keeps_reconsent.
  - by apply keeps_revoke.
  - by apply keeps_callback.
  - by apply keeps_webhook.
Qed.
Lemma step_sealed w w' : quiet w -> step pages w w' -> all_good Connections conn_ok (w_db w) -> all_good Connections conn_ok (w_db w').
Proof.
  intros Hq Hs Hw. destruct Hs as [op given rq w | r wk e m w Hwk He | c w | t w Ht | kv w]; cbn [settle w_db set_now set_kv]; [| | | done..].
  - destruct (create_app_run op given rq w) as [-> | (w1 & Hw1 & ->)]; [done |].
    destruct Hw1 as [->| ->]; [by apply serve_sealed |]. by apply (serve_sealed op rq (set_drawn (S (w_drawn w)) w)).
  - apply keeps_quiet; [done | done |]. exact (sealed_messages pages others_ok r wk e m Hwk He).
  - apply (good_off_connections off_connections); [simpl; intuition discriminate | done | done |].
    exact (command_within pages nothing [] c connections_off).
Qed.

End tokens.

(** ** The uniqueness constraints *)

(** Others who keep the constraints of a table, where it has any. *)
Definition keeping_constraints : tolerance.
Proof.
  refine {| tolerated t l l' := constrained t = true -> unique t l -> unique t l' |}.
  intros t. split; [by intros l | by intros l1 l2 l3 H1 H2 Ht Hu; apply H2, H1].
Defined.

Section constraints.
Context {P : Platform} {OT : Others} {HX : Httpx} {FL : Floats} {IF : IsoFormats} {EL : EmailLib} {GM : GmailSdk} {JW : Jose} {LLM : LiteLLM}.
Context (pages : nat).
Implicit Types (w : World).
Definition constraints_hold (db : Db) : Prop := forall t, constrained t = true -> unique t (db t).

Lemma sound_ignore o {A} (m : M A) : sound o m -> sound o (ignore m).
Proof. intros H. apply sound_bind; [done |]. intros a. by apply sound_pure. Qed.
Lemma serve_sound op rq : sound request_session (serve_operation op rq).
Proof. destruct op; cbn [serve_operation]; try apply sound_ignore; auto 2 with sound. by apply sound_pure. Qed.
Lemma command_sound c : sound command_session (run_command pages c).
Proof. destruct c; apply sound_ignore; try apply sound_with_session; auto 2 with sound. Qed.

(** From a quiet world, whatever the sessions of the program. *)
Lemma sound_quiet o {A} (m : M A) w : sound o m -> quiet w -> constraints_hold (w_db w) -> constraints_hold (w_db (m w).2).
Proof.
  intros Hm [Hp _] Hw t Ht. destruct (Hm w) with (t := t) as (F & _ & H & _); [| done | exact H].
  intros u Hu. exists id. split; [| by split; apply Hw]. intros s d. rewrite Hp. by destruct (sess_eq_dec (o u) s).
Qed.
Lemma message_constraints r wk e m w : behave keeping_constraints -> quiet w -> start_worker (MODULES pages) r = Ok wk ->
  deliver (MODULES pages) wk e = Some m -> constraints_hold (w_db w) -> constraints_hold (w_db (m w).2).
Proof.
  intros Hb Hq Hwk Hm Hw. destruct (sample_messages pages keeping_constraints Hb r wk e m Hwk Hm) as [Ht|Hin].
  - apply (sound_quiet command_session); auto 2 with sound.
  - intros t Ht. pose proof (within_quiet keeping_constraints waiting_tables m w Hq Hin t) as H.
    apply allowed_iff in H; [| by intros ->]. destruct H as [H|H]; [| by apply H, Hw].
    exfalso. revert H. unfold waiting_tables. destruct t; simpl in *; intuition discriminate.
Qed.
Lemma step_constraints w w' : behave keeping_constraints -> quiet w -> step pages w w' ->
  constraints_hold (w_db w) -> constraints_hold (w_db w').
Proof.
  intros Hb Hq Hs Hw. destruct Hs as [op given rq w | r wk e m w Hwk He | c w | t w Ht | kv w]; cbn [settle w_db set_now set_kv]; [| | | done..].
  - destruct (create_app_run op given rq w) as [-> | (w1 & Hw1 & ->)]; [done |].
    destruct Hw1 as [->| ->]; by apply (sound_quiet request_session); [apply serve_sound | |].
  - by eapply message_constraints.
  - apply (sound_quiet command_session); [apply command_sound | done | done].
Qed.

End constraints.

(** ** The messages *)

Section messages.
Context {P : Platform} {OT : Others} {HX : Httpx} {FL : Floats} {IF : IsoFormats} {EL : EmailLib} {GM : GmailSdk} {JW : Jose} {LLM : LiteLLM}.
Context (pages : nat).
Implicit Types (w : World).

(** A worker that runs has a task for it, which takes its arguments. *)
Definition understood (e : effect) : Prop :=
  match e with
  | TaskPublished _ _ => forall r wk, start_worker (MODULES pages) r = Ok wk -> exists m, deliver (MODULES pages) wk e = Some m
  | _ => True
  end.
Lemma understood_calls : calls_allowed understood.
Proof. done. Qed.
Lemma understood_sync slug id : understood (TaskPublished "connectors.sync_subscriptions" [slug; uuid_str id]).
Proof. intros r wk _. by eexists. Qed.
Lemma understood_event slug id p cap ch rid : understood (event_task slug id p cap ch rid).
Proof. intros r wk _. destruct rid; by eexists. Qed.
Lemma understood_unit m t id : understood (unit_task m t id).
Proof. intros r wk _. by eexists. Qed.

Lemma step_sends w w' : step pages w w' -> adds understood w w'.
Proof.
  pose proof understood_calls as Hc. pose proof understood_sync as Hs. pose proof understood_event as He. pose proof understood_unit as Hu.
  intros H. destruct H as [op given rq w | r wk e m w Hw Hm | c w | t w Ht | kv w]; [| | | by apply adds_same..].
  - destruct (create_app_run op given rq w) as [E | (w1 & Hw1 & E)].
    + apply adds_same. unfold settle. cbn [w_out]. by rewrite E.
    + assert (H : adds understood w1 (serve_operation op rq w1).2) by by apply serve_sends.
      unfold adds, settle in *. cbn [w_out]. rewrite E. destruct Hw1 as [->| ->]; exact H.
  - exact (sends_messages pages understood Hc Hu r wk e m Hw Hm w).
  - exact (command_sends pages understood c w).
Qed.

(** C38: no message without its task. Whatever the system goes through, each message
    a request, a command or a task has published - a subscription to synchronise, an
    event to deliver, a unit of a periodic task - is one that every worker started
    on the modules of the repository has a task for, under that name and taking
    those arguments. *)
Theorem messages_have_their_task w w' : reaches pages w w' ->
  exists l, w_out w' = w_out w ++ l /\ forall task args r wk, In (TaskPublished task args) l ->
    start_worker (MODULES pages) r = Ok wk -> exists m, deliver (MODULES pages) wk (TaskPublished task args) = Some m.
Proof.
  intros Hr. assert (H : adds understood w w').
  { induction Hr as [w|w w1 w' Hs Hr IH]; [by apply adds_same |]. eapply adds_trans; [by apply step_sends | exact IH]. }
  destruct H as (l & E & Hl). exists l. split; [exact E |]. intros task args r wk Hin. rewrite List.Forall_forall in Hl. exact (Hl _ Hin r wk).
Qed.
End messages.

(** ** Witnesses *)

(** Two requests: Alice demotes Bob, then Bob tries to demote Alice. *)
Definition demote (uid : N) (cookie : string) (w : World (VK := simple_valkey)) : World (VK := simple_valkey) :=
  settle (create_app (P := test_platform) (HX := google_answers) (FL := no_floats) (IF := plain_iso) (JW := bob_token) (LLM := polite)
    (changeMemberRole uid ROLE_MEMBER) (Some "r1") (visit cookie "acme.example.com") w).
Definition after_one : World (VK := simple_valkey) := demote 2 "alice-token" sample_world.
Definition after_two : World (VK := simple_valkey) := demote 1 "bob-token" after_one.

Abbreviation sample_step := (step (P := test_platform) (OT := alone) (HX := google_answers) (FL := no_floats) (IF := plain_iso) (EL := plain_email) (GM := silent_gmail)
  (JW := bob_token) (LLM := polite) 50).
Abbreviation sample_reaches := (reaches (P := test_platform) (OT := alone) (HX := google_answers) (FL := no_floats) (IF := plain_iso) (EL := plain_email) (GM := silent_gmail)
  (JW := bob_token) (LLM := polite) 50).
Lemma step_demote uid cookie w : sample_step w (demote uid cookie w).
Proof. apply (step_request (P := test_platform)). Qed.
Lemma reaches_one : sample_reaches sample_world after_one.
Proof. apply rtc_once, step_demote. Qed.
Lemma reaches_two : sample_reaches sample_world after_two.
Proof. eapply rtc_r; [exact reaches_one | apply step_demote]. Qed.
Lemma alone_behave (K : tolerance) : behave (P := test_platform) (OT := alone) K.
Proof. intros t n db kv. split; [intros u; apply (PreOrder_Reflexive (PreOrder := tolerated_pre K u)) |]. exists []. by rewrite app_nil_r. Qed.



Lemma journal_is_append_only_witness :
  exists l, w_db after_two AuditEvents = [] ++ l.
Proof.
  exact (journal_is_append_only (P := test_platform) (OT := alone) (HX := google_answers) (FL := no_floats) (IF := plain_iso) (EL := plain_email) (GM := silent_gmail)
  (JW := bob_token) (LLM := polite) 50
    sample_world after_two (fun t n db kv => proj2 (alone_behave nothing t n db kv)) sample_quiet reaches_two).
Defined.


(** A worker of the repository's modules refreshes a token that is about to expire. *)
Abbreviation token_worker := (start_worker (P := google_platform) (MODULES (P := google_platform) (OT := alone) (HX := google_tokens) (FL := no_floats) (IF := plain_iso) (EL := plain_email) (GM := silent_gmail) (LLM := polite) 50) (initial_grants, [])).
Lemma token_worker_starts : exists wk, token_worker = Ok wk.
Proof.
  destruct token_worker as [wk|e] eqn:E; [by exists wk |]. exfalso.
  apply (f_equal (fun r => match r with Ok _ => true | Raise _ => false end)) in E. vm_compute in E. discriminate E.
Qed.
Definition connected_world : World (VK := simple_valkey) := set_db connected_db sample_world.
Definition refreshed_world : World (VK := simple_valkey) :=
  settle (refresh_expiring_tokens_task (P := google_platform) (OT := alone) (HX := google_tokens) (FL := no_floats) connected_world).


(** The tick of the digest publishes one unit for Acme, which has the module. *)
Abbreviation google_worker_modules := (MODULES (P := google_platform) (OT := alone) (HX := google_tokens) (FL := no_floats) (IF := plain_iso) (EL := plain_email) (GM := silent_gmail) (LLM := polite) 50).
Definition digest_world : World (VK := simple_valkey) :=
  set_db (upd TenantModules (fun _ => [{| mo_id := 1; mo_tenant_id := 1; mo_module_name := "sample_digest"; mo_enabled := true |}]) sample_db) sample_world.
Definition ticked_world : World (VK := simple_valkey) :=
  settle (periodic_fanout_task (P := google_platform) google_worker_modules "sample_digest" "sample_digest.daily_digest" digest_world).

Lemma messages_have_their_task_witness : exists wk m, token_worker = Ok wk /\
  w_out ticked_world = [unit_task "sample_digest" "sample_digest.daily_digest" 1] /\
  deliver (P := google_platform) (OT := alone) (HX := google_tokens) (FL := no_floats) (IF := plain_iso) google_worker_modules wk
    (unit_task "sample_digest" "sample_digest.daily_digest" 1) = Some m.
Proof.
  destruct token_worker_starts as (wk & E). exists wk.
  assert (Hr : reaches (P := google_platform) (OT := alone) (HX := google_tokens) (FL := no_floats) (IF := plain_iso) (EL := plain_email) (GM := silent_gmail)
    (JW := bob_token) (LLM := polite) 50 digest_world ticked_world).
  { apply rtc_once. exact (step_message (P := google_platform) 50 (initial_grants, []) wk
      (TaskPublished "automation.periodic_fanout" ["sample_digest"; "sample_digest.daily_digest"]) _ digest_world E eq_refl). }
  destruct (messages_have_their_task (P := google_platform) (OT := alone) (HX := google_tokens) (FL := no_floats) (IF := plain_iso) (EL := plain_email) (GM := silent_gmail)
    (JW := bob_token) (LLM := polite) 50 digest_world ticked_world Hr) as (l & El & Hl).
  assert (Eo : w_out ticked_world = [unit_task "sample_digest" "sample_digest.daily_digest" 1]) by (vm_compute; reflexivity).
  assert (El' : [unit_task "sample_digest" "sample_digest.daily_digest" 1] = l) by (etransitivity; [symmetry; exact Eo | exact El]).
  destruct (Hl "automation.periodic_unit" ["sample_digest"; "sample_digest.daily_digest"; uuid_str 1] (initial_grants, []) wk) as (m & Em); [| exact E |].
  - rewrite <- El'. left. reflexivity.
  - exists m. split; [exact E |]. split; [exact Eo | exact Em].
Defined.
